(* ===== verification/_CoqProject ===== *)
-Q . S2P
Prelude.v
PyStr.v
PyVal.v
Regex.v
Errors.v
Version.v
CanonicalJson.v
Signing.v
IpAddress.v
Url.v
Models.v
Envelope.v
Naming.v
Diagnostics.v
Validation.v
Authorization.v
Arguments.v
Destinations.v
Executor.v
Snapshot.v
Provider.v
Orchestrator.v
Identity.v
Settings.v
KeyTool.v
PyRepr.v
Redaction.v
MockLlm.v
RuntimeApi.v
Client.v
References.v
ErrorContract.v
SchemaConversion.v
SchemaSemantics.v
Adapters.v
AdapterProperties.v
Converter.v
ConverterProperties.v
Loader.v
Review.v
Publication.v
Database.v
Service.v
Analyzer.v
AnalyzerProperties.v
ServiceInvariant.v
ServingInvariant.v
ControlPlane.v
Integrity.v
Schema.v
Provenance.v
ControlPlaneApi.v
EndToEnd.v
System.v
CatchUp.v
DemoApi.v
