(* ===== verification/Prelude.v ===== *)
(** * ToolLayer AI: a verification development

    ToolLayer AI turns reviewed OpenAPI documents into tools a language model
    may call.  The Control Plane (apps/control-plane/backend/control_plane)
    registers a source document, records the decisions of its reviewers,
    publishes versioned connector documents and assembles them into signed
    deployment snapshots.  The Runtime (apps/runtime/runtime_service) fetches
    the active snapshot, authenticates it, and executes its tools on behalf of
    identified callers.  Both share the packages under packages/: the contracts
    (toollayer_contracts), the policy engine (toollayer_policy), the OpenAPI
    converter (toollayer_openapi) and a rule-based provider
    (toollayer_mock_llm).  The guarantee the parts combine to is
    [RuntimeApi.runtime_is_governed]: whatever HTTP requests reach a runtime
    configured to require signatures, a request that leaves it rests on a
    document signed by a trusted key, for a tool that document embeds, with
    arguments that meet the tool's schema, a caller its policy allows, a
    confirmation where the policy asks for one, and a destination that is on
    the allowlist and not internal.  [System.calls_are_accountable] runs both
    services and traces such a request back to an uploaded document and to the
    reviews that admitted it.  Their counterparts are
    [EndToEnd.published_snapshot_loads], that what the Control Plane activates
    and serves a runtime that trusts its key loads, and
    [CatchUp.runtime_catches_up], that it does so from any state it was in.

    ** How the code is rendered

    Code that returns or raises is a value of [M A], that is [result exn A]
    (this file and Errors.v); [let* x := c in k] is sequencing and [except] is
    an [except] clause.  An exception carries its class, so what a caller
    catches, and what escapes it, is part of the model.  The values Python
    calls [object] are [pyval] (PyVal.v): dicts are association lists in
    insertion order, integers are unbounded as Python's are, floats are the
    binary64 values of the Standard Library's [spec_float], and YAML's values
    outside JSON have a constructor of their own.  Text is a Rocq string, a
    character standing for the code point of its number: the model covers code
    points below 256, and UTF-8 encoding is explicit where lengths or bytes
    matter.  The typed models are records with validating constructors.
    Mutable state (the snapshot store, the database) is passed explicitly and
    its evolution is a step relation; the clock, identifiers made up by [uuid]
    and elapsed times are arguments.

    ** The files

    Shared:
    - Prelude.v: results, their notations and inversion tactics, lemmas on
      lists and options.
    - PyStr.v, PyVal.v, PyRepr.v: the string and value operations of Python the
      source uses; [replace] and decimal printing recurse on fuel that their
      lemmas show to be enough (the length of the text, and one more than the
      binary logarithm of the number).
    - Regex.v: the patterns given to [re.compile], with an executable matcher
      proved equal to the language it denotes.
    - IpAddress.v, Url.v: what [ipaddress] and [urllib.parse] do for the source.

    packages/contracts:
    - Errors.v (errors.py): codes, statuses, envelopes, exceptions.
    - Version.v (version.py): parsing is exact, precedence is a total order, and
      the supported range is decided without raising.
    - CanonicalJson.v (canonical_json.py): serialization decides equality of
      documents, up to the order of keys, so a digest binds the content.
    - Signing.v (signing.py): key rings, base64url, signing and verification;
      a document signed by a trusted key verifies, and what verifies carries a
      signature its key accepts.
    - Models.v (models.py): the models with their validators; dumping and
      validating again gives the model back.
    - Envelope.v (models.py): the models of the wire no service instantiates,
      and when a written error envelope meets its model.
    - Validation.v (validation.py): what a validated document guarantees.
    - Adapters.v (adapters/): the tools of a snapshot in the form each model
      provider takes, and AdapterProperties.v: a strict schema asserts what the
      tool's schema does, an optional argument being sent as null.

    packages/policy-engine:
    - Authorization.v (authorization.py): the decision on stored policies, which
      never raises and denies what it cannot read; on policies the contract
      accepts it refines the contract's meaning.
    - Arguments.v (arguments.py): validation against the published schema and
      construction of the request.  No argument changes the number of
      segments of the path, and the request depends only on what the bindings
      read.
    - Destinations.v (destinations.py): the exact conditions of [check], and
      that loopback, private, link-local and metadata addresses are refused.
    - Executor.v (executor.py): the preparation, the bounded read of a streamed
      response and the classification of its outcome.
    - Redaction.v (redaction.py): what a redacted mapping and a redacted URL
      still tell, and what they do not.

    packages/openapi-converter:
    - Diagnostics.v (errors.py): the errors that become diagnostics, and
      [try_conversion], which catches those and nothing else.
    - Naming.v (naming.py): a derived or normalized tool name is canonical: it
      fits the contract's pattern and bound, and normalizing it again changes
      nothing.
    - References.v (references.py): resolution ends on every document, cyclic
      ones included, and its result holds no reference; a pointer written with
      the code's own encoding reads the node it names.
    - SchemaConversion.v (schema_conversion.py) and SchemaSemantics.v: what an
      OpenAPI schema asserts and what a Draft 2020-12 schema asserts, and that
      conversion relates the two.
    - Converter.v (converter.py) and ConverterProperties.v: a converted tool is
      a valid model, binds every argument where the operation declares it, and
      accepts exactly the arguments the operation describes.
    - Loader.v (loader.py): the limits of ingestion.  The walk is the code's
      loop over its stack; its fuel is the number of values in the document,
      and [Loader.enforce_shape_exact] shows it never runs out.
    - Analyzer.v (analyzer.py and control_plane/serialization.py) and
      AnalyzerProperties.v: every declared operation is a tool or carries an
      error, and the instance of [Analyzer] the Control Plane is given.

    packages/mock-llm:
    - Provider.v (the interface of provider.py): a record of operations; the
      theorems about the runtime hold for every provider.
    - MockLlm.v (the rules of provider.py): the tool chosen has the best score
      among those sharing a word with the request, and every argument proposed
      is read from it.

    apps/runtime:
    - Settings.v (config.py of both services): what the environment must hold
      for a configuration to load, and the security posture that follows.
    - Snapshot.v (snapshot.py): loading, the client and the store, whose
      invariant is that it serves only what was authenticated.
    - KeyTool.v (scripts/generate_signing_key.py): the key pair it prints is one
      the two services load, the signature of one verifying under the other.
    - Orchestrator.v (orchestrator.py): discovery, execution of one tool and a
      whole turn, each with the exact condition under which it sends a request.
    - Identity.v (identity.py): asserted headers, verified tokens, and issuing.
    - RuntimeApi.v (main.py): the HTTP surface: parsing of requests, the
      identity of their callers, readiness, and a run of the service as a
      sequence of requests and clock ticks.
    - Client.v (cli.py): the command-line client; connected to a runtime it
      renders every answer, and its exit code tells errors apart.
    - ErrorContract.v (the answers of main.py, orchestrator.py and identity.py
      against errors.py and schemas/error-envelope.schema.json): which
      codes and statuses a runtime answers with, and where a message or a
      detail exceeds what the envelope's schema allows.

    apps/control-plane:
    - Review.v (review.py): decisions, updates and readiness.
    - Publication.v (publication.py): the document a reviewed draft publishes.
    - Database.v (models.py, db.py): the tables, their unique constraints, what
      a flush does.
    - Service.v (service.py): the use cases, as functions of two states: the one
      a transaction reads and the one it writes to.  [commits] lets every
      transaction read in any earlier committed state, which covers every
      interleaving the lock-free reads allow; [reachable] is its closure.
    - ServiceInvariant.v, ServingInvariant.v: the invariant of every reachable
      database and its preservation by each use case.
    - ControlPlane.v: what follows: published versions and snapshots never
      change, exactly one snapshot is active, a stale review is refused, and
      where an interleaving defeats that check.
    - ControlPlaneApi.v (dependencies.py, schemas.py, routes_admin.py,
      routes_internal.py, main.py): which credential opens which route, what a
      request is parsed to, and the answer to each.
    - Integrity.v: the primary, unique and foreign keys of every committed
      database.
    - Schema.v (migrations/versions/ and models.py): the migration as a program
      on schemas, the declared models, and the rows as SQL sees them: the two
      schemas agree, every committed database satisfies them, and the inserts
      of Database.v are refused where the schema refuses the row.  The lengths
      of columns are enforced or not by a switch, as PostgreSQL and SQLite
      differ there.
    - Provenance.v: the committed history with the requests that made it, and
      what every draft, version and snapshot in it rests on.

    Both services:
    - EndToEnd.v: the route that serves a snapshot composed with the client
      that fetches it.
    - System.v: a Control Plane and a runtime side by side, as a step relation,
      and what every call of the runtime can be traced to.
    - CatchUp.v: the progress they make: a refresh leaves the runtime with the
      active snapshot.

    apps/demo-api:
    - DemoApi.v (data.py, main.py): the support desk the demonstration calls,
      its transitions and the invariant of its tickets.

    ** Interfaces and parameters

    What the source takes from other packages is a class, its documented
    behaviour a second class where a theorem needs it: [Platform] (SHA-256 and
    the text of a float, with [FloatText]), [Ed25519] (with [Ed25519Laws]: what
    a key signs its public key verifies), [JsonSchema] (the schema engine),
    [Pydantic] (lax coercions of scalars), [Httpx] (what an exchange leads to),
    [Decoding] and [TokenJson] ([json.loads] and lossy UTF-8 decoding),
    [DnsResolver] (an argument of the destination checks), [Parsers] (UTF-8,
    [json.loads] with the loader's hooks and PyYAML with its constructor, with
    [PythonValues]: the dicts they build have no key twice),
    [Keywords] (what a type and a keyword assert of a value in JSON Schema,
    with [KeywordLaws]), [ShaText] (a digest is hexadecimal text).  Two
    interfaces separate parts of the program: [LLMProvider], and [Analyzer],
    which is what the Control Plane asks of the OpenAPI converter and
    [openapi_analyzer] implements.  [ShapeLaws] states that the keywords of
    [Keywords] do not look inside properties and items and what they make of
    null, and [Fastapi] gives the place an error of a request body is reported at.  No theorem assumes that a
    digest or a signature cannot be forged: the statements say which bytes were
    digested and which key accepted them.  Every property with hypotheses is
    applied to a concrete input with concrete instances.

    A response body may be endless.  The loop that reads it has fuel two above
    the limit on bytes ([httpx_send]); every round but the last consumes a
    byte, since the library yields no empty chunk, and [Executor.bounded_read]
    states that the result does not depend on what follows.

    ** What is not modelled

    - The check of the YAML loader class at import time (loader.py): it
      inspects the class, not a document.
    - The rendering of answers as JSON text, CORS and the probe of the
      database: a library's work or one call.  The versions of a connector are
      listed by a time of whole seconds, which need not order them; what the
      database makes of equal times is an argument ([tie]).
    - scripts/demo.py, check_docs.py, capture_portfolio_assets.py and env.py
      (the Alembic entry point), and the browser console: they drive the
      services over HTTP, match texts of the documentation, record a browser
      or start an engine, and decide nothing the services rely on.
    - The parsing of command lines, logging and the engine of the database. *)

From stdpp Require Export base list list_monad strings gmap sorting.
From Stdlib Require Export ZArith Lia.

Set Default Proof Using "Type".

(** ** Results: Python code that returns or raises *)

Inductive result (E A : Type) : Type :=
  | Ok (a : A)
  | Err (e : E).
Arguments Ok {E A} a.
Arguments Err {E A} e.

Definition bind {E A B} (c : result E A) (k : A -> result E B) : result E B :=
  match c with
  | Ok a => k a
  | Err e => Err e
  end.

(** [except c p h]: run [c]; an exception that [p] accepts is handled by [h]
    (an [except] clause naming the classes [p] recognises). *)
Definition except {E A} (c : result E A) (p : E -> bool) (h : E -> result E A)
  : result E A :=
  match c with
  | Ok a => Ok a
  | Err e => if p e then h e else Err e
  end.

Definition of_option {E A} (e : E) (o : option A) : result E A :=
  match o with
  | Some a => Ok a
  | None => Err e
  end.

Definition is_ok {E A} (c : result E A) : bool :=
  match c with Ok _ => true | Err _ => false end.

Declare Scope py_scope.
Delimit Scope py_scope with py.
Notation "'let*' x := c 'in' k" := (bind c (fun x => k))
  (at level 10, x pattern, c at level 200, k at level 200,
   format "'[v' 'let*'  x  :=  c  'in' '//' k ']'") : py_scope.
Notation "'raise' e" := (Err e) (at level 60) : py_scope.
Open Scope py_scope.

Fixpoint map_result {E A B} (f : A -> result E B) (l : list A) : result E (list B) :=
  match l with
  | [] => Ok []
  | a :: l =>
      let* b := f a in
      let* bs := map_result f l in
      Ok (b :: bs)
  end.

Fixpoint fold_result {E A B} (f : B -> A -> result E B) (l : list A) (b : B)
  : result E B :=
  match l with
  | [] => Ok b
  | a :: l => let* b := f b a in fold_result f l b
  end.

Section result_lemmas.
Context {E : Type}.

Lemma bind_Ok {A B} (c : result E A) (k : A -> result E B) b :
  bind c k = Ok b <-> exists a, c = Ok a /\ k a = Ok b.
Proof. destruct c; naive_solver. Qed.

Lemma bind_Err {A B} (c : result E A) (k : A -> result E B) e :
  bind c k = Err e <-> c = Err e \/ exists a, c = Ok a /\ k a = Err e.
Proof. destruct c; naive_solver. Qed.

Lemma bind_assoc {A B C} (c : result E A) (f : A -> result E B) (g : B -> result E C) :
  bind (bind c f) g = bind c (fun a => bind (f a) g).
Proof. by destruct c. Qed.

Lemma of_option_Ok {A} (e : E) (o : option A) a :
  of_option e o = Ok a <-> o = Some a.
Proof. destruct o; naive_solver. Qed.

Lemma map_result_Ok {A B} (f : A -> result E B) l bs :
  map_result f l = Ok bs <-> Forall2 (fun a b => f a = Ok b) l bs.
Proof.
  revert bs. induction l as [|a l IH]; intros bs; simpl.
  - split; [intros [= <-]; constructor | by intros ->%Forall2_nil_inv_l].
  - rewrite bind_Ok. split.
    + intros (b & Hb & (bs' & Hbs & [= <-])%bind_Ok).
      constructor; [done | by apply IH].
    + intros (b & bs' & Hb & Hbs & ->)%Forall2_cons_inv_l.
      exists b. split; [done|]. apply bind_Ok. exists bs'.
      split; [by apply IH | done].
Qed.

Lemma map_result_length {A B} (f : A -> result E B) l bs :
  map_result f l = Ok bs -> length bs = length l.
Proof. intros H%map_result_Ok. symmetry. by eapply Forall2_length. Qed.

Lemma fold_result_app {A B} (f : B -> A -> result E B) l1 l2 b :
  fold_result f (l1 ++ l2) b = bind (fold_result f l1 b) (fold_result f l2).
Proof.
  revert b. induction l1 as [|a l1 IH]; intros b; simpl; [done|].
  rewrite bind_assoc. by destruct (f b a); simpl.
Qed.

(** The invariant rule of [fold_result]. *)
Lemma fold_result_inv {A B} (f : B -> A -> result E B) (P : list A -> B -> Prop) l b b' :
  fold_result f l b = Ok b' ->
  P [] b ->
  (forall done a c c', P done c -> f c a = Ok c' -> P (done ++ [a]) c') ->
  P l b'.
Proof.
  intros H H0 Hstep.
  enough (forall don b, P don b -> fold_result f l b = Ok b' -> P (don ++ l) b') as G
    by by apply (G [] b).
  clear b H H0. induction l as [|a l IH]; intros don b Hb; simpl.
  - intros [= <-]. by rewrite app_nil_r.
  - intros (c & Hc & H)%bind_Ok. rewrite cons_middle, app_assoc.
    eapply IH; eauto.
Qed.
End result_lemmas.

Create HintDb py.
#[export] Hint Rewrite @bind_Ok @of_option_Ok @map_result_Ok : py.

(** ** Tactics *)

(** Break hypotheses of the form [_ = Ok _] along binds and conditionals. *)
Ltac inv_ok_step :=
  match goal with
  | H : Ok _ = Ok _ |- _ => injection H as H; try subst
  | H : Ok _ = Err _ |- _ => discriminate H
  | H : Err _ = Ok _ |- _ => discriminate H
  | H : Err _ = Err _ |- _ => injection H as H; try subst
  | H : bind _ _ = Ok _ |- _ =>
      let a := fresh "a" in let Ha := fresh "Ha" in
      apply bind_Ok in H; destruct H as (a & Ha & H)
  | H : of_option _ _ = Ok _ |- _ => apply of_option_Ok in H
  | H : (if ?b then _ else _) = Ok _ |- _ =>
      let Hb := fresh "Hb" in destruct b eqn:Hb
  | H : match ?x with _ => _ end = Ok _ |- _ =>
      let Hx := fresh "Hx" in destruct x eqn:Hx
  end.
Ltac inv_ok := repeat (inv_ok_step; simpl in *; try discriminate).

(** Split boolean connectives in hypotheses. *)
Ltac split_bool :=
  repeat match goal with
  | H : _ && _ = true |- _ => apply andb_true_iff in H; destruct H
  | H : _ || _ = false |- _ => apply orb_false_iff in H; destruct H
  | H : negb _ = true |- _ => apply negb_true_iff in H
  | H : negb _ = false |- _ => apply negb_false_iff in H
  | H : bool_decide _ = true |- _ => apply bool_decide_eq_true in H
  | H : bool_decide _ = false |- _ => apply bool_decide_eq_false in H
  end.

(** ** Lists and options shared by the components *)

Definition is_none {A} (o : option A) : bool :=
  match o with None => true | Some _ => false end.

Lemma forallb_Forall {A} (p : A -> bool) l :
  forallb p l = true <-> Forall (fun a => p a = true) l.
Proof. rewrite forallb_forall, Forall_forall. by setoid_rewrite list_elem_of_In. Qed.

Lemma existsb_Exists {A} (p : A -> bool) l :
  existsb p l = true <-> Exists (fun a => p a = true) l.
Proof. rewrite existsb_exists, Exists_exists. by setoid_rewrite list_elem_of_In. Qed.

(** Duplicate test: Python's [len(set(xs)) != len(xs)]. *)
Definition has_duplicate {A} `{EqDecision A} (l : list A) : bool :=
  negb (bool_decide (NoDup l)).

Lemma has_duplicate_false {A} `{EqDecision A} (l : list A) :
  has_duplicate l = false <-> NoDup l.
Proof.
  unfold has_duplicate. rewrite negb_false_iff. apply bool_decide_eq_true.
Qed.

(** [next((x for x in xs if p(x)), None)] and the code's [for ... return]. *)
Fixpoint find_first {A} (p : A -> bool) (l : list A) : option A :=
  match l with
  | [] => None
  | a :: l => if p a then Some a else find_first p l
  end.

Lemma find_first_Some {A} (p : A -> bool) l a :
  find_first p l = Some a -> a ∈ l /\ p a = true.
Proof.
  induction l as [|b l IH]; simpl; [done|]. destruct (p b) eqn:Hb.
  - intros [= <-]. split; [left | done].
  - intros [??]%IH. split; [by right | done].
Qed.

Lemma find_first_None {A} (p : A -> bool) l :
  find_first p l = None <-> forall a, a ∈ l -> p a = false.
Proof.
  induction l as [|b l IH]; simpl.
  - split; [by intros _ a ?%elem_of_nil | done].
  - destruct (p b) eqn:Hb.
    + split; [done|]. intros H. rewrite H in Hb; [done | left].
    + rewrite IH. setoid_rewrite elem_of_cons. naive_solver.
Qed.

Lemma find_first_complete {A} (p : A -> bool) l a :
  a ∈ l -> p a = true -> exists b, find_first p l = Some b.
Proof.
  intros Ha Hp. destruct (find_first p l) eqn:H; [eauto|].
  rewrite find_first_None in H. apply H in Ha. congruence.
Qed.

(** An element that a key determines uniquely is the one found. *)
Lemma find_first_NoDup {A B} `{EqDecision B} (f : A -> B) l a :
  NoDup (f <$> l) -> a ∈ l ->
  find_first (fun x => bool_decide (f x = f a)) l = Some a.
Proof.
  intros Hnd Ha. induction l as [|b l IH]; [by apply elem_of_nil in Ha|].
  simpl in *. apply NoDup_cons in Hnd as [Hb Hnd].
  case_bool_decide as Hf.
  - apply elem_of_cons in Ha as [->|Ha]; [done|].
    destruct Hb. rewrite Hf. by apply list_elem_of_fmap_2.
  - apply elem_of_cons in Ha as [->|Ha]; [done|]. by apply IH.
Qed.
