(* ===== verification/PyStr.v ===== *)
(** * Python strings

    The [str] operations the source uses, on Rocq [string]s.  A character
    stands for the code point of the same number, so the model covers texts
    whose code points are below 256; case mapping and white space follow
    Python on ASCII, which is all the identifiers, keys, headers and patterns
    of the program use. *)

From S2P Require Export Prelude.
From Stdlib Require Export Ascii.
From Stdlib Require String.

Notation slen := String.length.

(** ** Characters *)

Definition code (c : ascii) : N := N_of_ascii c.
Definition in_range (lo hi c : ascii) : bool := (code lo <=? code c)%N && (code c <=? code hi)%N.
Definition is_lower : ascii -> bool := in_range "a" "z".
Definition is_upper : ascii -> bool := in_range "A" "Z".
Definition is_digit : ascii -> bool := in_range "0" "9".
Definition is_alpha (c : ascii) : bool := is_lower c || is_upper c.
Definition is_alnum (c : ascii) : bool := is_alpha c || is_digit c.
(** [str.isspace] on ASCII: tab to carriage return, the four separators, space. *)
Definition is_space (c : ascii) : bool :=
  in_range "009" "013" c || in_range "028" "031" c || Ascii.eqb c " ".
Definition lower_char (c : ascii) : ascii :=
  if is_upper c then ascii_of_N (code c + 32) else c.
Definition upper_char (c : ascii) : ascii :=
  if is_lower c then ascii_of_N (code c - 32) else c.

(** ** Whole strings *)

Fixpoint smap (f : ascii -> ascii) (s : string) : string :=
  match s with
  | "" => ""
  | String c s => String (f c) (smap f s)
  end.
Definition lower : string -> string := smap lower_char.
Definition upper : string -> string := smap upper_char.

Fixpoint sall (p : ascii -> bool) (s : string) : bool :=
  match s with
  | "" => true
  | String c s => p c && sall p s
  end.
Definition sany (p : ascii -> bool) (s : string) : bool := negb (sall (fun c => negb (p c)) s).
Definition has_char (c : ascii) : string -> bool := sany (Ascii.eqb c).

Definition is_empty (s : string) : bool :=
  match s with "" => true | _ => false end.

(** [s or None]. *)
Definition nonempty (s : string) : option string := if is_empty s then None else Some s.

(** Replace every character [c] by [f c]: [str.replace] with a one-character
    pattern is an instance, and so are the percent and JSON escapes. *)
Fixpoint sflat_map (f : ascii -> string) (s : string) : string :=
  match s with
  | "" => ""
  | String c s => f c +:+ sflat_map f s
  end.
Definition replace_char (c : ascii) (sub : string) : string -> string :=
  sflat_map (fun d => if Ascii.eqb d c then sub else String d "").

(** [s.startswith(p)], and the rest of [s] when it does. *)
Fixpoint strip_prefix (p s : string) : option string :=
  match p, s with
  | "", _ => Some s
  | String c p, String d s => if Ascii.eqb c d then strip_prefix p s else None
  | _, "" => None
  end.
Definition starts_with (p s : string) : bool := negb (is_none (strip_prefix p s)).
Fixpoint rev_append (s acc : string) : string :=
  match s with
  | "" => acc
  | String c s => rev_append s (String c acc)
  end.
Definition srev (s : string) : string := rev_append s "".
Definition ends_with (p s : string) : bool := starts_with (srev p) (srev s).

(** [s.replace(pat, sub)] for a non-empty [pat]: leftmost, non-overlapping.
    The fuel is the length of [s]: every round consumes a character. *)
Fixpoint replace_go (fuel : nat) (pat sub s : string) : string :=
  match fuel with
  | O => s
  | S fuel =>
      match strip_prefix pat s with
      | Some rest => sub +:+ replace_go fuel pat sub rest
      | None =>
          match s with
          | "" => ""
          | String c s => String c (replace_go fuel pat sub s)
          end
      end
  end.
Definition replace (pat sub s : string) : string := replace_go (S (slen s)) pat sub s.

(** [s.count(pat)] for a non-empty [pat]: non-overlapping. *)
Fixpoint count_go (fuel : nat) (pat s : string) : nat :=
  match fuel with
  | O => 0
  | S fuel =>
      match strip_prefix pat s with
      | Some rest => S (count_go fuel pat rest)
      | None =>
          match s with
          | "" => 0
          | String _ s => count_go fuel pat s
          end
      end
  end.
Definition count (pat s : string) : nat := count_go (S (slen s)) pat s.

(** [pat in s]. *)
Fixpoint contains (pat s : string) : bool :=
  starts_with pat s ||
  match s with
  | "" => false
  | String _ s => contains pat s
  end.

(** [s.split(sep)] for a one-character separator: never empty. *)
Fixpoint split_on (sep : ascii) (s : string) : list string :=
  match s with
  | "" => [""]
  | String c s =>
      if Ascii.eqb c sep then "" :: split_on sep s
      else match split_on sep s with
           | [] => [String c ""]
           | w :: ws => String c w :: ws
           end
  end.
(** [s.partition(sep)]: before, whether the separator occurs, after. *)
Fixpoint partition_on (sep : ascii) (s : string) : string * bool * string :=
  match s with
  | "" => ("", false, "")
  | String c s =>
      if Ascii.eqb c sep then ("", true, s)
      else let '(a, b, r) := partition_on sep s in (String c a, b, r)
  end.
Fixpoint join (sep : string) (ws : list string) : string :=
  match ws with
  | [] => ""
  | [w] => w
  | w :: ws => w +:+ sep +:+ join sep ws
  end.

Fixpoint lstrip_by (p : ascii -> bool) (s : string) : string :=
  match s with
  | "" => ""
  | String c s' => if p c then lstrip_by p s' else s
  end.
Fixpoint rstrip_by (p : ascii -> bool) (s : string) : string :=
  match s with
  | "" => ""
  | String c s =>
      match rstrip_by p s with
      | "" => if p c then "" else String c ""
      | r => String c r
      end
  end.
Definition strip_by (p : ascii -> bool) (s : string) : string := rstrip_by p (lstrip_by p s).
Definition strip : string -> string := strip_by is_space.
Definition rstrip_char (c : ascii) : string -> string := rstrip_by (Ascii.eqb c).
Definition lstrip_char (c : ascii) : string -> string := lstrip_by (Ascii.eqb c).
Definition strip_char (c : ascii) : string -> string := strip_by (Ascii.eqb c).

(** [s[:n]] and [s[n:]]. *)
Fixpoint stake (n : nat) (s : string) : string :=
  match n, s with
  | S n, String c s => String c (stake n s)
  | _, _ => ""
  end.
Fixpoint sdrop (n : nat) (s : string) : string :=
  match n, s with
  | S n, String _ s => sdrop n s
  | _, _ => s
  end.

Definition str_in (s : string) (l : list string) : bool := bool_decide (s ∈ l).

(** ** Numbers in decimal *)

Definition digit_char (d : N) : ascii := ascii_of_N (48 + d).
(** The digits of [n], least significant first; [fuel] bounds their number. *)
Fixpoint dec_go (fuel : nat) (n : N) (acc : string) : string :=
  match fuel with
  | O => acc
  | S fuel =>
      let acc := String (digit_char (n mod 10)) acc in
      if (n <? 10)%N then acc else dec_go fuel (n / 10) acc
  end.
(** [str(n)]: [n] has at most [log2 n + 1] decimal digits. *)
Definition str_of_N (n : N) : string := dec_go (S (N.to_nat (N.log2 n))) n "".
Definition str_of_Z (z : Z) : string :=
  match z with
  | Zneg p => String "-" (str_of_N (Npos p))
  | Z0 => "0"
  | Zpos p => str_of_N (Npos p)
  end.
(** [int(s)] of a run of ASCII digits. *)
Fixpoint dec_value (acc : N) (s : string) : N :=
  match s with
  | "" => acc
  | String c s => dec_value (acc * 10 + (code c - 48)) s
  end.

(** ** UTF-8 encoding: two bytes from code point 128 on. *)
Definition utf8_char (c : ascii) : string :=
  if (code c <? 128)%N then String c ""
  else String (ascii_of_N (192 + code c / 64)) (String (ascii_of_N (128 + code c mod 64)) "").
Definition encode_utf8 : string -> string := sflat_map utf8_char.
(** [int(s)]: white space around, a sign, digits with single underscores
    between them, at most 4300 of them. *)
Definition int_space (c : ascii) : bool := in_range "009" "013" c || Ascii.eqb c " ".
Fixpoint int_digits (s : string) : option string :=
  match s with
  | "" => None
  | String c "" => if is_digit c then Some (String c "") else None
  | String c (String "_" s) => if is_digit c then option_map (String c) (int_digits s) else None
  | String c s => if is_digit c then option_map (String c) (int_digits s) else None
  end.
Definition py_int (s : string) : option Z :=
  let s := strip_by int_space s in
  let '(negative, s) := match s with
                        | String "-" s => (true, s)
                        | String "+" s => (false, s)
                        | _ => (false, s)
                        end in
  digits ← int_digits s;
  if (4300 <? slen digits)%nat then None
  else Some (let n := Z.of_N (dec_value 0 digits) in if negative : bool then (- n)%Z else n).
Definition is_ascii : string -> bool := sall (fun c => (code c <? 128)%N).

(** ** [repr(s)] *)
Definition hex_digit (n : N) : ascii :=
  if (n <? 10)%N then ascii_of_N (48 + n) else ascii_of_N (87 + n).
Definition hex_byte (c : ascii) : string :=
  String (hex_digit (code c / 16)) (String (hex_digit (code c mod 16)) "").
Definition squote : ascii := "039".
Definition dquote : ascii := "034".
Definition repr_char (quote : ascii) (c : ascii) : string :=
  if Ascii.eqb c quote || Ascii.eqb c "\" then String "\" (String c "")
  else if Ascii.eqb c "009" then "\t" else if Ascii.eqb c "010" then "\n"
  else if Ascii.eqb c "013" then "\r"
  else if (code c <? 32)%N || ((127 <=? code c)%N && (code c <? 161)%N) || (code c =? 173)%N
  then "\x" +:+ hex_byte c
  else String c "".
Definition repr_str (s : string) : string :=
  let quote := if has_char squote s && negb (has_char dquote s) then dquote else squote in
  String quote (sflat_map (repr_char quote) s +:+ String quote "").

(** ** Lemmas on strings *)

Lemma sapp_cons c s t : String c s +:+ t = String c (s +:+ t).
Proof. done. Qed.
Lemma sapp_nil_l s : "" +:+ s = s.
Proof. done. Qed.
Lemma sapp_assoc s t u : (s +:+ t) +:+ u = s +:+ (t +:+ u).
Proof. induction s as [|c s IH]; [done|]. by rewrite !sapp_cons, IH. Qed.
Lemma sapp_nil_r s : s +:+ "" = s.
Proof. induction s as [|c s IH]; [done|]. by rewrite sapp_cons, IH. Qed.
Lemma slen_app s t : slen (s +:+ t) = (slen s + slen t)%nat.
Proof. induction s as [|c s IH]; [done|]. rewrite sapp_cons. simpl. by rewrite IH. Qed.

Lemma sall_app p s t : sall p (s +:+ t) = sall p s && sall p t.
Proof. induction s as [|c s IH]; [done|]. rewrite sapp_cons. simpl. by rewrite IH, andb_assoc. Qed.
Lemma sall_impl (p q : ascii -> bool) s :
  (forall c, p c = true -> q c = true) -> sall p s = true -> sall q s = true.
Proof. intros Hpq. induction s; simpl; [done|]. intros [??]%andb_true_iff. by rewrite Hpq, IHs. Qed.
Lemma sany_cons p c s : sany p (String c s) = p c || sany p s.
Proof. unfold sany. simpl. by rewrite negb_andb, negb_involutive. Qed.
Lemma sany_app p s t : sany p (s +:+ t) = sany p s || sany p t.
Proof. unfold sany. by rewrite sall_app, negb_andb. Qed.
Lemma sany_false p s : sany p s = false <-> sall (fun c => negb (p c)) s = true.
Proof. unfold sany. apply negb_false_iff. Qed.

Lemma sflat_map_app f s t : sflat_map f (s +:+ t) = sflat_map f s +:+ sflat_map f t.
Proof. induction s as [|c s IH]; [done|]. rewrite sapp_cons. simpl. by rewrite IH, sapp_assoc. Qed.
Lemma sall_sflat_map p f s :
  (forall c, sall p (f c) = true) -> sall p (sflat_map f s) = true.
Proof. intros H. induction s; simpl; [done|]. by rewrite sall_app, H, IHs. Qed.

Lemma strip_prefix_Some p s r : strip_prefix p s = Some r <-> s = p +:+ r.
Proof.
  revert s. induction p as [|c p IH]; intros s; simpl.
  - split; [by intros [= ->] | by intros ->].
  - destruct s as [|d s]; [done|]. rewrite sapp_cons.
    destruct (Ascii.eqb_spec c d) as [->|Hne].
    + rewrite IH. split; [by intros -> | by intros [= ->]].
    + split; [done | congruence].
Qed.
Lemma strip_prefix_app p s : strip_prefix p (p +:+ s) = Some s.
Proof. by apply strip_prefix_Some. Qed.
Lemma starts_with_true p s : starts_with p s = true <-> exists r, s = p +:+ r.
Proof.
  unfold starts_with. destruct (strip_prefix p s) as [r|] eqn:H; simpl.
  - split; [|done]. intros _. exists r. by apply strip_prefix_Some.
  - split; [done|]. intros [r ->]. by rewrite strip_prefix_app in H.
Qed.
Lemma contains_true p s : contains p s = true <-> exists u v, s = u +:+ p +:+ v.
Proof.
  induction s as [|c s IH]; simpl; rewrite orb_true_iff, starts_with_true.
  - split; [intros [[r Hr]|?]; [|done]; by exists "", r|].
    intros (u & v & H). left. destruct u; [by exists v | done].
  - rewrite IH. split.
    + intros [[r Hr]|(u & v & ->)]; [by exists "", r | by exists (String c u), v].
    + intros (u & v & H). destruct u as [|d u]; [left; by exists v|].
      right. exists u, v. by injection H.
Qed.

Lemma split_on_cons_notin sep s : has_char sep s = false -> split_on sep s = [s].
Proof.
  induction s as [|c s IH]; simpl; [done|].
  unfold has_char in *. rewrite sany_cons. intros [Hc Hs]%orb_false_iff.
  rewrite Ascii.eqb_sym, Hc. by rewrite IH.
Qed.
Lemma split_on_app sep w s :
  has_char sep w = false -> split_on sep (w +:+ String sep s) = w :: split_on sep s.
Proof.
  induction w as [|c w IH]; [intros _; rewrite sapp_nil_l; simpl; by rewrite Ascii.eqb_refl|].
  unfold has_char in *. rewrite sany_cons. intros [Hc Hs]%orb_false_iff.
  rewrite sapp_cons. simpl. rewrite Ascii.eqb_sym, Hc. by rewrite IH.
Qed.
Lemma partition_on_app sep w s :
  has_char sep w = false -> partition_on sep (w +:+ String sep s) = (w, true, s).
Proof.
  induction w as [|c w IH]; [intros _; rewrite sapp_nil_l; simpl; by rewrite Ascii.eqb_refl|].
  unfold has_char in *. rewrite sany_cons. intros [Hc Hs]%orb_false_iff.
  rewrite sapp_cons. simpl. rewrite Ascii.eqb_sym, Hc. by rewrite IH.
Qed.
Lemma partition_on_notin sep w :
  has_char sep w = false -> partition_on sep w = (w, false, "").
Proof.
  induction w as [|c w IH]; [done|].
  unfold has_char in *. rewrite sany_cons. intros [Hc Hs]%orb_false_iff.
  simpl. rewrite Ascii.eqb_sym, Hc. by rewrite IH.
Qed.
Lemma has_char_false_all c p s :
  sall p s = true -> p c = false -> has_char c s = false.
Proof.
  intros Hs Hp. unfold has_char. apply sany_false. eapply sall_impl; [|done].
  intros d Hd. destruct (Ascii.eqb_spec c d) as [<-|]; simpl; congruence.
Qed.

(** ** Decimal numerals *)

Lemma code_ascii_of_N n : (n < 256)%N -> code (ascii_of_N n) = n.
Proof. apply N_ascii_embedding. Qed.
Lemma digit_char_code d : (d < 10)%N -> code (digit_char d) = (48 + d)%N.
Proof. intros. apply code_ascii_of_N. lia. Qed.
Lemma digit_char_digit d : (d < 10)%N -> is_digit (digit_char d) = true.
Proof.
  intros. unfold is_digit, in_range. rewrite digit_char_code by done.
  change (code "0") with 48%N. change (code "9") with 57%N.
  apply andb_true_iff. rewrite !N.leb_le. lia.
Qed.

(** What [dec_go] puts in front of its accumulator. *)
Lemma dec_go_spec fuel n acc :
  (N.to_nat (N.log2 n) < fuel)%nat ->
  exists ds, dec_go fuel n acc = ds +:+ acc /\ sall is_digit ds = true /\
    (forall a, dec_value a ds = a * 10 ^ N.of_nat (slen ds) + n)%N /\
    exists d r, ds = String (digit_char d) r /\ (d < 10)%N /\
      (n <> 0%N -> d <> 0%N) /\ (n = 0%N -> ds = "0").
Proof.
  revert n acc. induction fuel as [|fuel IH]; intros n acc Hf; [lia|]. simpl.
  assert (n mod 10 < 10)%N as Hm by (apply N.mod_lt; lia).
  destruct (N.ltb_spec n 10) as [Hn|Hn].
  - rewrite (N.mod_small n 10) by done.
    exists (String (digit_char n) ""). split_and!; [done| | |].
    + simpl. by rewrite digit_char_digit.
    + intros a. simpl. rewrite digit_char_code by done. lia.
    + exists n, "". split_and!; [done..|]. by intros ->.
  - assert (N.log2 (n / 10) < N.log2 n)%N as Hlog.
    { assert (n / 10 <> 0)%N as Hq0 by (intros ?%N.div_small_iff; lia).
      assert (2 * (n / 10) <= n)%N as Hle by (pose proof (N.div_mod n 10 ltac:(lia)) as Hq;
        revert Hq; generalize (n / 10)%N (n mod 10)%N; lia).
      apply N.log2_le_mono in Hle. revert Hq0 Hle. generalize (n / 10)%N. intros q Hq0.
      rewrite N.log2_double by lia. lia. }
    destruct (IH (n / 10)%N (String (digit_char (n mod 10)) acc)) as
      (ds & -> & Hd & Hv & d & r & Hds & Hd10 & Hd0 & _); [lia|].
    exists (ds +:+ String (digit_char (n mod 10)) ""). split_and!.
    + by rewrite sapp_assoc.
    + rewrite sall_app, Hd. simpl. by rewrite digit_char_digit.
    + intros a. clear -Hv Hm.
      assert (forall s t b, dec_value b (s +:+ t) = dec_value (dec_value b s) t) as Happ.
      { intros s. induction s as [|c s IHs]; intros t b; [done|]. apply IHs. }
      rewrite Happ, Hv. simpl. rewrite digit_char_code by done.
      rewrite slen_app, Nat2N.inj_add, N.pow_add_r. simpl.
      pose proof (N.div_mod n 10 ltac:(lia)) as Hq. change (10 ^ 1)%N with 10%N.
      revert Hq. generalize (n / 10)%N (n mod 10)%N. lia.
    + subst ds. exists d, (r +:+ String (digit_char (n mod 10)) "").
      split_and!; [done..| | lia].
      intros _. apply Hd0. intros ?%N.div_small_iff; lia.
Qed.

Lemma str_of_N_spec n :
  sall is_digit (str_of_N n) = true /\ dec_value 0 (str_of_N n) = n /\
  exists d r, str_of_N n = String (digit_char d) r /\ (d < 10)%N /\
    (n <> 0%N -> d <> 0%N) /\ (n = 0%N -> str_of_N n = "0").
Proof.
  unfold str_of_N. destruct (dec_go_spec (S (N.to_nat (N.log2 n))) n "")
    as (ds & -> & Hd & Hv & d & r & Hds); [lia|].
  rewrite sapp_nil_r. split_and!; [done | by rewrite Hv | by exists d, r].
Qed.

Lemma str_of_N_inj n m : str_of_N n = str_of_N m -> n = m.
Proof.
  intros H. destruct (str_of_N_spec n) as (_ & <- & _). rewrite H. apply str_of_N_spec.
Qed.

(** A numeral without leading zeros is determined by its value. *)
Definition no_leading_zero (s : string) : Prop :=
  match s with "" => False | String c r => r <> "" -> code c <> 48%N end.

Lemma is_digit_code c : is_digit c = true <-> (48 <= code c <= 57)%N.
Proof.
  unfold is_digit, in_range. change (code "0") with 48%N. change (code "9") with 57%N.
  rewrite andb_true_iff, !N.leb_le. done.
Qed.
Lemma code_inj c d : code c = code d -> c = d.
Proof. intros H. rewrite <- (ascii_N_embedding c), <- (ascii_N_embedding d). by f_equal. Qed.

Lemma dec_value_acc a s : dec_value a s = (a * 10 ^ N.of_nat (slen s) + dec_value 0 s)%N.
Proof.
  revert a. induction s as [|c s IH]; intros a; simpl slen; [simpl; lia|].
  cbn [dec_value]. rewrite (IH (a * 10 + _)%N), (IH (0 * 10 + _)%N), Nat2N.inj_succ, N.pow_succ_r'.
  lia.
Qed.
Lemma dec_value_lt s :
  sall is_digit s = true -> (dec_value 0 s < 10 ^ N.of_nat (slen s))%N.
Proof.
  induction s as [|c s IH]; [simpl; lia|]. cbn [sall dec_value].
  intros [Hc%is_digit_code Hs]%andb_true_iff. specialize (IH Hs).
  rewrite dec_value_acc. simpl slen. rewrite Nat2N.inj_succ, N.pow_succ_r'. nia.
Qed.
Lemma dec_value_ge c s :
  sall is_digit (String c s) = true -> code c <> 48%N ->
  (10 ^ N.of_nat (slen s) <= dec_value 0 (String c s))%N.
Proof.
  cbn [sall dec_value]. intros [Hc%is_digit_code Hs]%andb_true_iff Hc0.
  rewrite dec_value_acc. nia.
Qed.

Lemma dec_value_inj_length s t :
  sall is_digit s = true -> sall is_digit t = true -> slen s = slen t ->
  dec_value 0 s = dec_value 0 t -> s = t.
Proof.
  revert t. induction s as [|c s IH]; intros [|d t]; try done.
  cbn [sall dec_value]. intros [Hc%is_digit_code Hs]%andb_true_iff
    [Hd%is_digit_code Ht]%andb_true_iff [= Hlen].
  rewrite (dec_value_acc _ s), (dec_value_acc _ t), Hlen. intros Hv.
  pose proof (dec_value_lt _ Hs) as Ls. pose proof (dec_value_lt _ Ht) as Lt.
  rewrite Hlen in Ls. assert (code c = code d) as Hcd by nia.
  rewrite (code_inj _ _ Hcd). f_equal. apply IH; auto. rewrite Hcd in Hv. lia.
Qed.

Lemma dec_value_inj s t :
  sall is_digit s = true -> sall is_digit t = true ->
  no_leading_zero s -> no_leading_zero t -> dec_value 0 s = dec_value 0 t -> s = t.
Proof.
  intros Hs Ht Ns Nt Hv. apply dec_value_inj_length; auto.
  destruct s as [|c s], t as [|d t]; [done..|]. simpl. f_equal. simpl in Ns, Nt.
  pose proof (dec_value_lt _ Hs) as Ls. pose proof (dec_value_lt _ Ht) as Lt.
  simpl slen in Ls, Lt. rewrite Hv in Ls.
  destruct (Nat.lt_trichotomy (slen s) (slen t)) as [H|[H|H]]; [|done|].
  - assert (t <> "") as Ht0 by (intros ->; simpl in H; lia).
    pose proof (dec_value_ge _ _ Ht (Nt Ht0)) as G.
    assert (10 ^ N.of_nat (S (slen s)) <= 10 ^ N.of_nat (slen t))%N by (apply N.pow_le_mono_r; lia).
    lia.
  - assert (s <> "") as Hs0 by (intros ->; simpl in H; lia).
    pose proof (dec_value_ge _ _ Hs (Ns Hs0)) as G. rewrite Hv in G.
    assert (10 ^ N.of_nat (S (slen t)) <= 10 ^ N.of_nat (slen s))%N by (apply N.pow_le_mono_r; lia).
    lia.
Qed.

Lemma str_of_N_dec s :
  sall is_digit s = true -> no_leading_zero s -> str_of_N (dec_value 0 s) = s.
Proof.
  intros Hs Ns. destruct (str_of_N_spec (dec_value 0 s)) as (Hd & Hv & d & r & Hdr & Hd10 & Hd0 & H0).
  apply dec_value_inj; auto. rewrite Hdr. simpl. rewrite digit_char_code by done.
  intros Hr. destruct (decide (dec_value 0 s = 0%N)) as [E|E]; [|specialize (Hd0 E); lia].
  rewrite H0 in Hdr by done. injection Hdr as _ <-. done.
Qed.

(** ** The order of strings: by code points *)

Lemma scompare_refl s : String.compare s s = Eq.
Proof. induction s as [|c s IH]; simpl; [done|]. unfold Ascii.compare. by rewrite N.compare_refl. Qed.
Lemma scompare_eq s t : String.compare s t = Eq <-> s = t.
Proof. split; [apply String.compare_eq_iff | intros ->; apply scompare_refl]. Qed.
Lemma scompare_trans s t u :
  String.compare s t = Lt -> String.compare t u = Lt -> String.compare s u = Lt.
Proof.
  revert t u. induction s as [|c s IH]; intros [|d t] [|e u]; simpl; try done.
  unfold Ascii.compare.
  destruct (N.compare_spec (N_of_ascii c) (N_of_ascii d)) as [H1|H1|H1]; [| |done];
  destruct (N.compare_spec (N_of_ascii d) (N_of_ascii e)) as [H2|H2|H2]; try done; intros Hl Hr.
  - replace (N_of_ascii c ?= N_of_ascii e)%N with Eq; [eauto|].
    symmetry. apply N.compare_eq_iff. congruence.
  - replace (N_of_ascii c ?= N_of_ascii e)%N with Lt; [done|].
    symmetry. apply N.compare_lt_iff. lia.
  - replace (N_of_ascii c ?= N_of_ascii e)%N with Lt; [done|].
    symmetry. apply N.compare_lt_iff. lia.
  - replace (N_of_ascii c ?= N_of_ascii e)%N with Lt; [done|].
    symmetry. apply N.compare_lt_iff. lia.
Qed.

(** ** Prefix codes: escapes that can be read back *)

Lemma sapp_inj_l s t u : s +:+ t = s +:+ u -> t = u.
Proof. induction s as [|c s IH]; [done|]. rewrite !sapp_cons. intros [= H]. auto. Qed.

Lemma sapp_eq_prefix s t x y :
  s +:+ x = t +:+ y -> is_Some (strip_prefix s t) \/ is_Some (strip_prefix t s).
Proof.
  revert t. induction s as [|c s IH]; intros [|d t]; simpl; eauto.
  rewrite !sapp_cons. intros [= -> H]. rewrite Ascii.eqb_refl. eauto.
Qed.

Fixpoint below (n : nat) : list ascii :=
  match n with O => [] | S n => ascii_of_nat n :: below n end.
Definition all_chars : list ascii := below 256.

Lemma all_chars_complete c : c ∈ all_chars.
Proof.
  assert (forall n m, (m < n)%nat -> ascii_of_nat m ∈ below n) as H.
  { induction n as [|n IH]; intros m Hm; [lia|]. simpl.
    destruct (decide (m = n)) as [->|]; [left | right; apply IH; lia]. }
  rewrite <- (ascii_nat_embedding c). apply H. apply nat_ascii_bounded.
Qed.

(** No code word is a prefix of another one, by enumeration. *)
Definition prefix_free (f : ascii -> string) : bool :=
  forallb (fun c => negb (is_empty (f c)) &&
    forallb (fun d => Ascii.eqb c d || negb (starts_with (f c) (f d))) all_chars) all_chars.

Section prefix_code.
Context (f : ascii -> string) (Hf : prefix_free f = true).

Lemma code_word_nonempty c : exists d r, f c = String d r.
Proof using Hf.
  unfold prefix_free in Hf. rewrite forallb_Forall, Forall_forall in Hf.
  specialize (Hf c (all_chars_complete c)). apply andb_true_iff in Hf as [H _].
  destruct (f c); [done | eauto].
Qed.

Lemma code_word_prefix c d : starts_with (f c) (f d) = true -> c = d.
Proof using Hf.
  unfold prefix_free in Hf. rewrite forallb_Forall, Forall_forall in Hf.
  specialize (Hf c (all_chars_complete c)). apply andb_true_iff in Hf as [_ H].
  rewrite forallb_Forall, Forall_forall in H. specialize (H d (all_chars_complete d)).
  intros E. rewrite E, orb_false_r in H. by apply Ascii.eqb_eq.
Qed.

Lemma code_word_inj c d x y : f c +:+ x = f d +:+ y -> c = d /\ x = y.
Proof using Hf.
  intros H. assert (c = d) as <-.
  { destruct (sapp_eq_prefix _ _ _ _ H) as [E|E].
    - apply code_word_prefix. unfold starts_with. by destruct E as [? ->].
    - symmetry. apply code_word_prefix. unfold starts_with. by destruct E as [? ->]. }
  split; [done | by eapply sapp_inj_l].
Qed.

Lemma sflat_map_inj s t : sflat_map f s = sflat_map f t -> s = t.
Proof using Hf.
  revert t. induction s as [|c s IH]; intros [|d t]; simpl; [done|..].
  - by destruct (code_word_nonempty d) as (? & ? & ->).
  - by destruct (code_word_nonempty c) as (? & ? & ->).
  - intros [-> H]%code_word_inj. f_equal. auto.
Qed.

(** Read up to a terminator that starts no code word. *)
Lemma sflat_map_term q s t x y :
  (forall c r, f c <> String q r) ->
  sflat_map f s +:+ String q x = sflat_map f t +:+ String q y -> s = t /\ x = y.
Proof using Hf.
  intros Hq. revert t. induction s as [|c s IH]; intros [|d t]; simpl.
  - by intros [= ->].
  - destruct (code_word_nonempty d) as (d' & r & Hd). specialize (Hq d r).
    rewrite Hd. rewrite !sapp_nil_l, !sapp_cons. intros [= <- _]. congruence.
  - destruct (code_word_nonempty c) as (d' & r & Hd). specialize (Hq c r).
    rewrite Hd. rewrite !sapp_nil_l, !sapp_cons. intros [= -> _]. congruence.
  - rewrite !sapp_assoc. intros [-> H]%code_word_inj. apply IH in H as [-> ->]. done.
Qed.
End prefix_code.

Lemma utf8_prefix_free : prefix_free utf8_char = true.
Proof. vm_compute. reflexivity. Qed.

Lemma encode_utf8_inj s t : encode_utf8 s = encode_utf8 t -> s = t.
Proof. apply (sflat_map_inj _ utf8_prefix_free). Qed.

(** Two runs of characters that end at a character outside the run. *)
Definition ends_run (p : ascii -> bool) (r : string) : Prop :=
  match r with "" => True | String c _ => p c = false end.
Lemma sall_run_inj p s t x y :
  sall p s = true -> sall p t = true -> ends_run p x -> ends_run p y ->
  s +:+ x = t +:+ y -> s = t /\ x = y.
Proof.
  intros Hs Ht Hx Hy. revert t Ht. induction s as [|c s IH]; intros [|d t] Ht; simpl in *.
  - done.
  - rewrite sapp_nil_l, sapp_cons. intros ->. simpl in Hx.
    apply andb_true_iff in Ht as [? _]. congruence.
  - rewrite sapp_nil_l, sapp_cons. intros <-. simpl in Hy.
    apply andb_true_iff in Hs as [? _]. congruence.
  - rewrite !sapp_cons. apply andb_true_iff in Hs as [_ Hs], Ht as [_ Ht].
    intros [= -> H]. destruct (IH Hs t Ht H) as [-> ->]. done.
Qed.

(** ** Slices *)

Lemma slen_stake n s : slen (stake n s) = Nat.min n (slen s).
Proof. revert s. induction n as [|n IH]; intros [|c s]; simpl; auto. Qed.
Lemma stake_app s t : stake (slen s) (s +:+ t) = s.
Proof.
  induction s as [|c s IH]; [by destruct t|]. rewrite sapp_cons. simpl. by rewrite IH.
Qed.
