(* ===== verification/PyVal.v ===== *)
(** * Python values

    The values that flow through the program as [object] or [Any]: parsed JSON
    and YAML, tool arguments, stored documents.  A dict is an association list
    in insertion order whose keys are pairwise distinct; a key that is not a
    [str] (YAML has them) is [KOther], with its [str()] rendering.  [VOther]
    is any value outside JSON (a YAML date, bytes, a set), by its type name. *)

From S2P Require Export PyStr.
From Stdlib Require Import Floats.SpecFloat.

Inductive pykey :=
  | KStr (s : string)
  | KOther (s : string).

#[export] Instance pykey_eq_dec : EqDecision pykey.
Proof. solve_decision. Defined.

Inductive pyval :=
  | VNone
  | VBool (b : bool)
  | VInt (z : Z)
  | VFloat (f : spec_float)
  | VStr (s : string)
  | VList (l : list pyval)
  | VTuple (l : list pyval)
  | VDict (d : list (pykey * pyval))
  | VOther (t : string).

Abbreviation dict := (list (pykey * pyval)).

(** ** Induction over nested lists and dicts *)

Section pyval_ind'.
Variable P : pyval -> Prop.
Hypothesis HNone : P VNone.
Hypothesis HBool : forall b, P (VBool b).
Hypothesis HInt : forall z, P (VInt z).
Hypothesis HFloat : forall f, P (VFloat f).
Hypothesis HStr : forall s, P (VStr s).
Hypothesis HList : forall l, Forall P l -> P (VList l).
Hypothesis HTuple : forall l, Forall P l -> P (VTuple l).
Hypothesis HDict : forall d, Forall (fun kv => P kv.2) d -> P (VDict d).
Hypothesis HOther : forall t, P (VOther t).

Fixpoint pyval_ind' (v : pyval) : P v :=
  let fix go (l : list pyval) : Forall P l :=
    match l with
    | [] => Forall_nil_2 _
    | v :: l => Forall_cons_2 _ _ _ (pyval_ind' v) (go l)
    end in
  let fix god (d : dict) : Forall (fun kv => P kv.2) d :=
    match d with
    | [] => Forall_nil_2 _
    | kv :: d => Forall_cons_2 _ _ _ (pyval_ind' kv.2) (god d)
    end in
  match v with
  | VNone => HNone
  | VBool b => HBool b
  | VInt z => HInt z
  | VFloat f => HFloat f
  | VStr s => HStr s
  | VList l => HList l (go l)
  | VTuple l => HTuple l (go l)
  | VDict d => HDict d (god d)
  | VOther t => HOther t
  end.
End pyval_ind'.

(** ** Types *)

Definition is_dict (v : pyval) : bool := match v with VDict _ => true | _ => false end.
Definition is_list (v : pyval) : bool := match v with VList _ => true | _ => false end.
Definition is_str (v : pyval) : bool := match v with VStr _ => true | _ => false end.
Definition is_bool (v : pyval) : bool := match v with VBool _ => true | _ => false end.
Definition is_vnone (v : pyval) : bool := match v with VNone => true | _ => false end.
(** [isinstance(v, int)]: a Python bool is an int. *)
Definition is_int (v : pyval) : bool :=
  match v with VInt _ | VBool _ => true | _ => false end.
(** [isinstance(v, (int, float))]. *)
Definition is_number (v : pyval) : bool :=
  match v with VInt _ | VBool _ | VFloat _ => true | _ => false end.
Definition as_dict (v : pyval) : option dict :=
  match v with VDict d => Some d | _ => None end.
Definition as_list (v : pyval) : option (list pyval) :=
  match v with VList l => Some l | _ => None end.
Definition as_str (v : pyval) : option string :=
  match v with VStr s => Some s | _ => None end.

(** ** Dicts *)

Fixpoint dget (k : pykey) (d : dict) : option pyval :=
  match d with
  | [] => None
  | (k', v) :: d => if bool_decide (k = k') then Some v else dget k d
  end.
(** [d[k] = v]: in place when the key is there, at the end otherwise. *)
Fixpoint dset (k : pykey) (v : pyval) (d : dict) : dict :=
  match d with
  | [] => [(k, v)]
  | (k', v') :: d =>
      if bool_decide (k = k') then (k, v) :: d else (k', v') :: dset k v d
  end.
(** [d.pop(k, None)], dropping the value. *)
Fixpoint dpop (k : pykey) (d : dict) : dict :=
  match d with
  | [] => []
  | (k', v') :: d => if bool_decide (k = k') then d else (k', v') :: dpop k d
  end.
Definition dkeys (d : dict) : list pykey := d.*1.

(** [k in d], [d.get(k)] and [d.get(k, default)] for a [str] key. *)
Definition has (k : string) (d : dict) : bool := negb (is_none (dget (KStr k) d)).
Definition get_or (k : string) (dflt : pyval) (d : dict) : pyval :=
  match dget (KStr k) d with Some v => v | None => dflt end.
Definition get (k : string) (d : dict) : pyval := get_or k VNone d.

(** A dict as Python builds it: no key twice. *)
Definition dict_ok (d : dict) : Prop := NoDup (dkeys d).
(** Every dict inside a value is well formed. *)
Fixpoint wf (v : pyval) : Prop :=
  match v with
  | VList l | VTuple l => fold_right (fun v P => wf v /\ P) True l
  | VDict d => dict_ok d /\ fold_right (fun kv P => wf kv.2 /\ P) True d
  | _ => True
  end.

(** ** Equality: [==] on Python values *)

(** A float as an exact fraction [m * 2^e], when finite. *)
Definition float_exact (f : spec_float) : option (Z * Z) :=
  match f with
  | S754_zero _ => Some (0, 0)%Z
  | S754_finite s m e => Some (if s then Zneg m else Zpos m, e)
  | _ => None
  end.
(** [f == z] for an int [z]: exact, as Python compares them. *)
Definition float_eq_Z (f : spec_float) (z : Z) : bool :=
  match float_exact f with
  | Some (m, e) =>
      if (0 <=? e)%Z then (m * 2 ^ e =? z)%Z else (m =? z * 2 ^ (- e))%Z
  | None => false
  end.
Definition Z_of_bool (b : bool) : Z := if b then 1%Z else 0%Z.

Fixpoint py_eq (v w : pyval) {struct v} : bool :=
  let fix go (l1 l2 : list pyval) : bool :=
    match l1, l2 with
    | [], [] => true
    | v :: l1, w :: l2 => py_eq v w && go l1 l2
    | _, _ => false
    end in
  let fix god (d1 d2 : dict) : bool :=
    match d1 with
    | [] => true
    | (k, v) :: d1 =>
        match dget k d2 with Some w => py_eq v w | None => false end && god d1 d2
    end in
  match v, w with
  | VNone, VNone => true
  | VBool b, VBool c => Bool.eqb b c
  | VBool b, VInt z | VInt z, VBool b => (Z_of_bool b =? z)%Z
  | VInt y, VInt z => (y =? z)%Z
  | VFloat f, VFloat g => SFeqb f g
  | VFloat f, VInt z | VInt z, VFloat f => float_eq_Z f z
  | VFloat f, VBool b | VBool b, VFloat f => float_eq_Z f (Z_of_bool b)
  | VStr s, VStr t => String.eqb s t
  | VList l1, VList l2 | VTuple l1, VTuple l2 => go l1 l2
  | VDict d1, VDict d2 => (length d1 =? length d2)%nat && god d1 d2
  | VOther s, VOther t => String.eqb s t
  | _, _ => false
  end.
(** [v in l]. *)
Definition val_in (v : pyval) (l : list pyval) : bool := existsb (py_eq v) l.
Definition is_the_str (s : string) (v : pyval) : bool := py_eq v (VStr s).

(** [bool(v)]. *)
Definition truthy (v : pyval) : bool :=
  match v with
  | VNone => false
  | VBool b => b
  | VInt z => negb (z =? 0)%Z
  | VFloat (S754_zero _) => false
  | VFloat _ => true
  | VStr s => negb (is_empty s)
  | VList l | VTuple l => match l with [] => false | _ => true end
  | VDict d => match d with [] => false | _ => true end
  | VOther _ => true
  end.

(** [hash(v)] raises a [TypeError] on lists and dicts. *)
Fixpoint hashable (v : pyval) : bool :=
  match v with
  | VList _ | VDict _ => false
  | VTuple l => forallb hashable l
  | _ => true
  end.

(** How deep a value nests. *)
Fixpoint height (v : pyval) : nat :=
  match v with
  | VList l => list_max (map (fun v => S (height v)) l)
  | VDict d => list_max (map (fun kv => S (height kv.2)) d)
  | _ => 0
  end.

Definition strs (l : list string) : pyval := VList (map VStr l).
Notation "{{ x ; .. ; y }}" := (@cons (pykey * pyval) x .. (@cons (pykey * pyval) y nil) ..)
  (format "{{ x ;  .. ;  y }}") : py_scope.
Notation "k ~> v" := (KStr k%string, v) (at level 55, v at level 50) : py_scope.

(** ** Lemmas *)

Lemma dget_dset k k' v d :
  dget k (dset k' v d) = if bool_decide (k = k') then Some v else dget k d.
Proof.
  induction d as [|[k0 v0] d IH]; simpl; [done|].
  destruct (bool_decide_reflect (k' = k0)) as [->|Hne]; simpl.
  - by destruct (bool_decide_reflect (k = k0)).
  - rewrite IH. repeat case_bool_decide; congruence.
Qed.

Lemma dget_dpop k k' d :
  dict_ok d -> dget k (dpop k' d) = if bool_decide (k = k') then None else dget k d.
Proof.
  unfold dict_ok. induction d as [|[k0 v0] d IH]; simpl; [by case_bool_decide|].
  intros [Hk Hd]%NoDup_cons.
  destruct (bool_decide_reflect (k' = k0)) as [->|Hne]; simpl.
  - destruct (bool_decide_reflect (k = k0)) as [->|Hne]; [|done].
    clear -Hk. induction d as [|[k1 v1] d IH]; simpl; [done|].
    apply not_elem_of_cons in Hk as [Hne Hk].
    rewrite bool_decide_eq_false_2 by done. by apply IH.
  - rewrite IH by done. repeat case_bool_decide; congruence.
Qed.

Lemma dget_elem_of k v d : dget k d = Some v -> (k, v) ∈ d.
Proof.
  induction d as [|[k0 v0] d IH]; simpl; [done|].
  case_bool_decide as E; subst.
  - intros [= ->]. left.
  - intros ?. right. by apply IH.
Qed.

Lemma elem_of_dget k v d : dict_ok d -> (k, v) ∈ d -> dget k d = Some v.
Proof.
  unfold dict_ok. induction d as [|[k0 v0] d IH]; simpl.
  - by intros _ ?%elem_of_nil.
  - intros [Hk Hd]%NoDup_cons [[= -> ->]|H]%elem_of_cons.
    + by rewrite bool_decide_eq_true_2.
    + rewrite bool_decide_eq_false_2; [by apply IH|].
      intros ->. apply Hk. by apply (list_elem_of_fmap_2 fst) in H.
Qed.

Lemma dget_None k d : dget k d = None <-> k ∉ dkeys d.
Proof.
  unfold dkeys. induction d as [|[k0 v0] d IH]; simpl.
  - split; [intros _; apply not_elem_of_nil | done].
  - rewrite not_elem_of_cons, <- IH. case_bool_decide; naive_solver.
Qed.

Lemma dget_is_Some k d : is_Some (dget k d) <-> k ∈ dkeys d.
Proof.
  rewrite <- not_eq_None_Some, dget_None.
  destruct (decide (k ∈ dkeys d)); naive_solver.
Qed.

Lemma dkeys_dset k v d :
  dkeys (dset k v d) = if bool_decide (k ∈ dkeys d) then dkeys d else dkeys d ++ [k].
Proof.
  unfold dkeys. induction d as [|[k0 v0] d IH]; csimpl; [done|].
  destruct (bool_decide_reflect (k = k0)) as [->|Hne]; csimpl.
  - rewrite bool_decide_eq_true_2; [done | left].
  - rewrite IH. rewrite (bool_decide_ext (k ∈ k0 :: d.*1) (k ∈ d.*1))
      by (rewrite elem_of_cons; naive_solver).
    by case_bool_decide.
Qed.

Lemma dset_ok k v d : dict_ok d -> dict_ok (dset k v d).
Proof.
  unfold dict_ok. rewrite dkeys_dset. case_bool_decide as E; [done|].
  intros Hd. apply NoDup_app. split; [done|].
  split; [|apply NoDup_singleton]. intros x Hx Hx'%list_elem_of_singleton. by subst.
Qed.

Lemma has_true k d : has k d = true <-> KStr k ∈ dkeys d.
Proof.
  unfold has. rewrite <- dget_is_Some. destruct (dget _ d); simpl.
  - split; [eauto | done].
  - by split; [|intros [??]].
Qed.

Lemma py_eq_str v s : py_eq v (VStr s) = true <-> v = VStr s.
Proof.
  destruct v; simpl; try done.
  rewrite String.eqb_eq. split; [by intros -> | by intros [=]].
Qed.

Lemma get_Some k d v : get k d = v -> v <> VNone -> dget (KStr k) d = Some v.
Proof. unfold get, get_or. destruct (dget _ _); congruence. Qed.

(** *** Heights *)

Lemma height_get k s v : get k s = v -> v = VNone \/ (S (height v) <= height (VDict s))%nat.
Proof.
  intros <-. unfold get, get_or. destruct (dget _ _) as [v|] eqn:E; [|by left]. right.
  apply dget_elem_of in E. cbn [height]. apply list_elem_of_In in E.
  pose proof (proj1 (list_max_le (map (fun kv => S (height kv.2)) s) _) (Nat.le_refl _)) as Hm.
  rewrite List.Forall_forall in Hm. apply Hm. apply in_map_iff. by exists (KStr k, v).
Qed.
Lemma height_member kv d : kv ∈ d -> (S (height kv.2) <= height (VDict d))%nat.
Proof.
  intros Hin%list_elem_of_In. cbn [height].
  pose proof (proj1 (list_max_le (map (fun kv => S (height kv.2)) d) _) (Nat.le_refl _)) as Hm.
  rewrite List.Forall_forall in Hm. apply Hm. apply in_map_iff. by exists kv.
Qed.
Lemma height_property s ps k p :
  get "properties" s = VDict ps -> (k, VDict p) ∈ ps -> (S (S (height (VDict p))) <= height (VDict s))%nat.
Proof.
  intros Hg Hin%height_member. destruct (height_get _ _ _ Hg) as [?|Hh]; [done|]. cbn [snd] in Hin. lia.
Qed.
Lemma height_items s items :
  get "items" s = VDict items -> (S (height (VDict items)) <= height (VDict s))%nat.
Proof. intros Hg. by destruct (height_get _ _ _ Hg). Qed.
