(* ===== verification/Regex.v ===== *)
(** * Regular expressions

    The patterns the source compiles with [re.compile], as a data type with an
    executable matcher (Brzozowski derivatives) proved equal to the language
    semantics.  Python's [$] also matches before a final line feed, which is
    what separates [pattern.match] with a trailing [$] from [fullmatch]. *)

From S2P Require Export PyStr.

Inductive re :=
  | RNone
  | REps
  | RSet (p : ascii -> bool)
  | RCat (r s : re)
  | RAlt (r s : re)
  | RStar (r : re).

(** ** Language *)

Inductive matches : re -> string -> Prop :=
  | m_eps : matches REps ""
  | m_set p c : p c = true -> matches (RSet p) (String c "")
  | m_cat r s u v : matches r u -> matches s v -> matches (RCat r s) (u +:+ v)
  | m_alt_l r s u : matches r u -> matches (RAlt r s) u
  | m_alt_r r s u : matches s u -> matches (RAlt r s) u
  | m_star_nil r : matches (RStar r) ""
  | m_star_app r u v : matches r u -> matches (RStar r) v -> matches (RStar r) (u +:+ v).

(** ** Matcher *)

Fixpoint nullable (r : re) : bool :=
  match r with
  | RNone | RSet _ => false
  | REps | RStar _ => true
  | RCat r s => nullable r && nullable s
  | RAlt r s => nullable r || nullable s
  end.

Definition ralt (r s : re) : re :=
  match r, s with RNone, _ => s | _, RNone => r | _, _ => RAlt r s end.
Definition rcat (r s : re) : re :=
  match r, s with RNone, _ => RNone | REps, _ => s | _, _ => RCat r s end.

Fixpoint deriv (c : ascii) (r : re) : re :=
  match r with
  | RNone | REps => RNone
  | RSet p => if p c then REps else RNone
  | RCat r s =>
      let d := rcat (deriv c r) s in
      if nullable r then ralt d (deriv c s) else d
  | RAlt r s => ralt (deriv c r) (deriv c s)
  | RStar r => rcat (deriv c r) (RStar r)
  end.

(** [re.fullmatch(r, s) is not None]. *)
Fixpoint fullmatch (r : re) (s : string) : bool :=
  match s with
  | "" => nullable r
  | String c s => fullmatch (deriv c r) s
  end.

(** [re.compile("^" r "$").match(s) is not None]. *)
Definition newline : ascii := "010"%char.
Definition match_dollar (r : re) (s : string) : bool :=
  fullmatch r s || fullmatch (RCat r (RSet (Ascii.eqb newline))) s.

(** ** Combinators for the source's patterns *)

Definition rchar (c : ascii) : re := RSet (Ascii.eqb c).
Fixpoint rlit (s : string) : re :=
  match s with
  | "" => REps
  | String c s => RCat (rchar c) (rlit s)
  end.
Definition rplus (r : re) : re := RCat r (RStar r).
Definition ropt (r : re) : re := RAlt REps r.
(** [r{lo,lo+more}]. *)
Fixpoint rrep (lo more : nat) (r : re) : re :=
  match lo with
  | S lo => RCat r (rrep lo more r)
  | O => (fix upto n := match n with O => REps | S n => ropt (RCat r (upto n)) end) more
  end.
Definition rany : re := RSet (fun _ => true).
Fixpoint ralts (l : list re) : re :=
  match l with [] => RNone | [r] => r | r :: l => RAlt r (ralts l) end.
(** [re.search(r, s)] for an anchored-free [r]. *)
Definition rsearch (r : re) (s : string) : bool :=
  fullmatch (RCat (RStar rany) (RCat r (RStar rany))) s.

(** ** Correctness of the matcher *)

Lemma matches_none s : ~ matches RNone s.
Proof. by inversion 1. Qed.

Lemma nullable_spec r : nullable r = true <-> matches r "".
Proof.
  induction r; simpl.
  - by split; [|intros ?%matches_none].
  - split; [constructor | done].
  - split; [done | inversion 1].
  - rewrite andb_true_iff, IHr1, IHr2. split.
    + intros [H1 H2]. change "" with ("" +:+ ""). by constructor.
    + inversion 1 as [| |? ? u v Hu Hv Heq| | | |]; subst.
      by destruct u, v.
  - rewrite orb_true_iff, IHr1, IHr2. split.
    + intros [?|?]; [by apply m_alt_l | by apply m_alt_r].
    + inversion 1; subst; auto.
  - split; [constructor | done].
Qed.

Lemma ralt_spec r s u : matches (ralt r s) u <-> matches (RAlt r s) u.
Proof.
  split; destruct r, s; simpl; intros H; try done;
    solve [by apply m_alt_l | by apply m_alt_r
          | inversion H; subst; try done; by edestruct matches_none].
Qed.

Lemma rcat_spec r s u : matches (rcat r s) u <-> matches (RCat r s) u.
Proof.
  split; destruct r; simpl; intros H; try done.
  - by apply matches_none in H.
  - change u with ("" +:+ u). constructor; [constructor | done].
  - inversion H; subst. by edestruct matches_none.
  - inversion H as [| |? ? u' v' Hu Hv Heq| | | |]; subst. inversion Hu; subst. done.
Qed.

Lemma matches_cat r s w :
  matches (RCat r s) w <-> exists u v, w = u +:+ v /\ matches r u /\ matches s v.
Proof. split; [inversion 1; eauto | intros (u & v & -> & ? & ?); by constructor]. Qed.

Lemma star_cons_inv r c w :
  matches (RStar r) (String c w) ->
  exists u v, w = u +:+ v /\ matches r (String c u) /\ matches (RStar r) v.
Proof.
  intros H. remember (RStar r) as rs eqn:Ers. remember (String c w) as cw eqn:Ecw.
  revert Ers Ecw. induction H as [| | | | | |r' u v Hu _ Hv IH]; intros [= ->] Ecw;
    try discriminate.
  destruct u as [|c' u]; simpl in *.
  - by apply IH.
  - injection Ecw as -> <-. by exists u, v.
Qed.

Lemma deriv_spec c r w : matches (deriv c r) w <-> matches r (String c w).
Proof.
  revert w. induction r as [| |p|r1 IH1 r2 IH2|r1 IH1 r2 IH2|r IH]; intros w; simpl.
  - split; inversion 1.
  - split; inversion 1.
  - destruct (p c) eqn:Hp; split; inversion 1; subst; [by constructor|by constructor|].
    congruence.
  - assert (Hcat : matches (rcat (deriv c r1) r2) w <->
      exists u v, w = u +:+ v /\ matches r1 (String c u) /\ matches r2 v).
    { rewrite rcat_spec, matches_cat. by setoid_rewrite IH1. }
    rewrite matches_cat. destruct (nullable r1) eqn:Hn.
    + apply nullable_spec in Hn. rewrite ralt_spec. split.
      * inversion 1 as [| | |? ? ? Hl|? ? ? Hr| |]; subst.
        -- apply Hcat in Hl as (u & v & -> & ? & ?). by exists (String c u), v.
        -- exists "", (String c w). by rewrite <- IH2.
      * intros (u & v & Heq & Hu & Hv). destruct u as [|c' u]; simpl in Heq.
        -- change (String c w = v) in Heq. subst v. apply m_alt_r. by apply IH2.
        -- injection Heq as <- ->. apply m_alt_l, Hcat. eauto.
    + rewrite Hcat. split.
      * intros (u & v & -> & ? & ?). by exists (String c u), v.
      * intros (u & v & Heq & Hu & Hv). destruct u as [|c' u]; simpl in Heq.
        -- apply nullable_spec in Hu. congruence.
        -- injection Heq as <- ->. eauto.
  - rewrite ralt_spec. split; inversion 1; subst;
      solve [apply m_alt_l; by apply IH1 | apply m_alt_r; by apply IH2].
  - rewrite rcat_spec, matches_cat. split.
    + intros (u & v & -> & Hu%IH & Hv). change (String c (u +:+ v)) with (String c u +:+ v).
      by constructor.
    + intros (u & v & -> & Hu & Hv)%star_cons_inv. exists u, v. by rewrite IH.
Qed.

Lemma fullmatch_spec r s : fullmatch r s = true <-> matches r s.
Proof.
  revert r. induction s as [|c s IH]; intros r; simpl.
  - apply nullable_spec.
  - by rewrite IH, deriv_spec.
Qed.

(** ** Languages of the common shapes *)

Lemma matches_set p s : matches (RSet p) s <-> exists c, s = String c "" /\ p c = true.
Proof. split; [inversion 1; eauto | intros (c & -> & ?); by constructor]. Qed.

Lemma matches_char c s : matches (rchar c) s <-> s = String c "".
Proof.
  unfold rchar. rewrite matches_set. split.
  - intros (d & -> & ->%Ascii.eqb_eq). done.
  - intros ->. exists c. by rewrite Ascii.eqb_refl.
Qed.

Lemma matches_star_set p s : matches (RStar (RSet p)) s <-> sall p s = true.
Proof.
  split.
  - intros H. remember (RStar (RSet p)) as r eqn:Er. induction H; simplify_eq; [done|].
    rewrite sall_app. apply andb_true_iff. split; [|auto].
    apply matches_set in H as (c & -> & Hc). simpl. by rewrite Hc.
  - induction s as [|c s IH]; simpl; [constructor|]. intros [Hc Hs]%andb_true_iff.
    change (String c s) with (String c "" +:+ s). constructor; [by constructor | auto].
Qed.

Lemma matches_plus_set p s :
  matches (rplus (RSet p)) s <-> sall p s = true /\ s <> "".
Proof.
  unfold rplus. rewrite matches_cat. split.
  - intros (u & v & -> & (c & -> & Hc)%matches_set & Hv%matches_star_set).
    rewrite sapp_cons. simpl. rewrite Hc. by rewrite sapp_nil_l.
  - intros [Hs Hne]. destruct s as [|c s]; [done|]. simpl in Hs.
    apply andb_true_iff in Hs as [Hc Hs]. exists (String c ""), s.
    rewrite matches_star_set. split_and!; [done | by constructor | done].
Qed.

Lemma matches_opt r s : matches (ropt r) s <-> s = "" \/ matches r s.
Proof.
  unfold ropt. split.
  - inversion 1 as [| | |? ? ? He| | |]; subst; [inversion He; auto | auto].
  - intros [-> | H]; [apply m_alt_l; constructor | by apply m_alt_r].
Qed.

Lemma matches_alt r s u : matches (RAlt r s) u <-> matches r u \/ matches s u.
Proof. split; [inversion 1; auto | intros []; [by apply m_alt_l | by apply m_alt_r]]. Qed.

(** Every character of a matched word is accepted by one of the pattern's sets. *)
Fixpoint re_over (p : ascii -> bool) (r : re) : Prop :=
  match r with
  | RNone | REps => True
  | RSet q => forall c, q c = true -> p c = true
  | RCat r s | RAlt r s => re_over p r /\ re_over p s
  | RStar r => re_over p r
  end.

Lemma matches_over p r s : re_over p r -> matches r s -> sall p s = true.
Proof.
  intros Ho H. induction H; simpl in *; try (rewrite sall_app; apply andb_true_iff);
    intuition auto. by rewrite Ho.
Qed.

Lemma match_dollar_full r s : fullmatch r s = true -> match_dollar r s = true.
Proof. unfold match_dollar. by intros ->. Qed.

Lemma match_dollar_spec r s :
  match_dollar r s = true <->
  matches r s \/ exists t, s = t +:+ String newline "" /\ matches r t.
Proof.
  unfold match_dollar. rewrite orb_true_iff, !fullmatch_spec, matches_cat.
  change (RSet (Ascii.eqb newline)) with (rchar newline).
  setoid_rewrite matches_char. naive_solver.
Qed.
