(* ===== verification/Errors.v ===== *)
(** * Errors: one failure shape for every service

    [toollayer_contracts/errors.py]: the error codes and their HTTP statuses,
    the wire envelope, and the exceptions of the program as values of [exn].
    An exception class that maps onto an envelope ([ToolLayerError] and its
    subclasses) carries its code, message, pointer and details; the
    [ConversionError] and [AdapterError] families carry theirs; every other
    class is [Raised] with its name and message. *)

From S2P Require Export PyVal.

(** ** Codes *)

Module ErrorCode.
Definition INVALID_REQUEST : string := "invalid_request".
Definition CONTRACT_VIOLATION : string := "contract_violation".
Definition UNSUPPORTED_CONTRACT_VERSION : string := "unsupported_contract_version".
Definition INVALID_SOURCE_DOCUMENT : string := "invalid_source_document".
Definition UNSUPPORTED_SPEC_FEATURE : string := "unsupported_spec_feature".
Definition SOURCE_TOO_LARGE : string := "source_too_large".
Definition NOT_FOUND : string := "not_found".
Definition ALREADY_EXISTS : string := "already_exists".
Definition REVISION_CONFLICT : string := "revision_conflict".
Definition IMMUTABLE_VERSION : string := "immutable_version".
Definition INVALID_LIFECYCLE_TRANSITION : string := "invalid_lifecycle_transition".
Definition NOT_READY_FOR_PUBLICATION : string := "not_ready_for_publication".
Definition UNAUTHENTICATED : string := "unauthenticated".
Definition FORBIDDEN : string := "forbidden".
Definition ROLE_NOT_PERMITTED : string := "role_not_permitted".
Definition SNAPSHOT_UNAVAILABLE : string := "snapshot_unavailable".
Definition SNAPSHOT_INTEGRITY_FAILED : string := "snapshot_integrity_failed".
Definition SNAPSHOT_SIGNATURE_INVALID : string := "snapshot_signature_invalid".
Definition UNKNOWN_TOOL : string := "unknown_tool".
Definition ARGUMENT_VALIDATION_FAILED : string := "argument_validation_failed".
Definition NO_TOOL_SELECTED : string := "no_tool_selected".
Definition CONFIRMATION_REQUIRED : string := "confirmation_required".
Definition DESTINATION_NOT_ALLOWED : string := "destination_not_allowed".
Definition METHOD_NOT_ALLOWED : string := "method_not_allowed".
Definition PRIVATE_ADDRESS_BLOCKED : string := "private_address_blocked".
Definition REDIRECT_NOT_ALLOWED : string := "redirect_not_allowed".
Definition RESPONSE_TOO_LARGE : string := "response_too_large".
Definition UPSTREAM_TIMEOUT : string := "upstream_timeout".
Definition UPSTREAM_UNAVAILABLE : string := "upstream_unavailable".
Definition INTERNAL_ERROR : string := "internal_error".

Definition all : list string :=
  [INVALID_REQUEST; CONTRACT_VIOLATION; UNSUPPORTED_CONTRACT_VERSION;
   INVALID_SOURCE_DOCUMENT; UNSUPPORTED_SPEC_FEATURE; SOURCE_TOO_LARGE;
   NOT_FOUND; ALREADY_EXISTS; REVISION_CONFLICT;
   IMMUTABLE_VERSION; INVALID_LIFECYCLE_TRANSITION; NOT_READY_FOR_PUBLICATION;
   UNAUTHENTICATED; FORBIDDEN; ROLE_NOT_PERMITTED;
   SNAPSHOT_UNAVAILABLE; SNAPSHOT_INTEGRITY_FAILED; SNAPSHOT_SIGNATURE_INVALID;
   UNKNOWN_TOOL; ARGUMENT_VALIDATION_FAILED; NO_TOOL_SELECTED;
   CONFIRMATION_REQUIRED; DESTINATION_NOT_ALLOWED; METHOD_NOT_ALLOWED;
   PRIVATE_ADDRESS_BLOCKED; REDIRECT_NOT_ALLOWED; RESPONSE_TOO_LARGE;
   UPSTREAM_TIMEOUT; UPSTREAM_UNAVAILABLE; INTERNAL_ERROR].
End ErrorCode.

Definition STATUS_BY_CODE : list (string * Z) :=
  [(ErrorCode.INVALID_REQUEST, 400%Z);
   (ErrorCode.CONTRACT_VIOLATION, 422%Z);
   (ErrorCode.UNSUPPORTED_CONTRACT_VERSION, 409%Z);
   (ErrorCode.INVALID_SOURCE_DOCUMENT, 422%Z);
   (ErrorCode.UNSUPPORTED_SPEC_FEATURE, 422%Z);
   (ErrorCode.SOURCE_TOO_LARGE, 413%Z);
   (ErrorCode.NOT_FOUND, 404%Z);
   (ErrorCode.ALREADY_EXISTS, 409%Z);
   (ErrorCode.REVISION_CONFLICT, 409%Z);
   (ErrorCode.IMMUTABLE_VERSION, 409%Z);
   (ErrorCode.INVALID_LIFECYCLE_TRANSITION, 409%Z);
   (ErrorCode.NOT_READY_FOR_PUBLICATION, 422%Z);
   (ErrorCode.UNAUTHENTICATED, 401%Z);
   (ErrorCode.FORBIDDEN, 403%Z);
   (ErrorCode.ROLE_NOT_PERMITTED, 403%Z);
   (ErrorCode.SNAPSHOT_UNAVAILABLE, 503%Z);
   (ErrorCode.SNAPSHOT_INTEGRITY_FAILED, 502%Z);
   (ErrorCode.SNAPSHOT_SIGNATURE_INVALID, 502%Z);
   (ErrorCode.UNKNOWN_TOOL, 404%Z);
   (ErrorCode.ARGUMENT_VALIDATION_FAILED, 422%Z);
   (ErrorCode.NO_TOOL_SELECTED, 422%Z);
   (ErrorCode.CONFIRMATION_REQUIRED, 409%Z);
   (ErrorCode.DESTINATION_NOT_ALLOWED, 403%Z);
   (ErrorCode.METHOD_NOT_ALLOWED, 403%Z);
   (ErrorCode.PRIVATE_ADDRESS_BLOCKED, 403%Z);
   (ErrorCode.REDIRECT_NOT_ALLOWED, 502%Z);
   (ErrorCode.RESPONSE_TOO_LARGE, 502%Z);
   (ErrorCode.UPSTREAM_TIMEOUT, 504%Z);
   (ErrorCode.UPSTREAM_UNAVAILABLE, 502%Z);
   (ErrorCode.INTERNAL_ERROR, 500%Z)].

Fixpoint alookup {A} (k : string) (l : list (string * A)) : option A :=
  match l with
  | [] => None
  | (k', a) :: l => if bool_decide (k = k') then Some a else alookup k l
  end.

Definition status_for (code : string) : Z :=
  match alookup code STATUS_BY_CODE with Some z => z | None => 500 end.

(** ** Details, envelopes *)

Record ErrorDetail := MkDetail {
  d_code : string;
  d_message : string;
  d_pointer : option string;
  d_severity : string;
}.
Definition opt_str (o : option string) : pyval :=
  match o with Some s => VStr s | None => VNone end.
Definition detail_to_dict (d : ErrorDetail) : pyval :=
  VDict {{ "code" ~> VStr (d_code d); "message" ~> VStr (d_message d);
           "pointer" ~> opt_str (d_pointer d); "severity" ~> VStr (d_severity d) }}.

Record ErrorEnvelope := MkEnvelope {
  env_code : string;
  env_message : string;
  env_pointer : option string;
  env_details : list ErrorDetail;
  env_request_id : option string;
}.
Definition env_http_status (e : ErrorEnvelope) : Z := status_for (env_code e).

(** The keys are added one at a time, as the code does. *)
Definition envelope_to_dict (e : ErrorEnvelope) : pyval :=
  let error := {{ "code" ~> VStr (env_code e); "message" ~> VStr (env_message e) }} in
  let error := match env_pointer e with
               | Some p => dset (KStr "pointer") (VStr p) error
               | None => error
               end in
  let error := match env_details e with
               | [] => error
               | ds => dset (KStr "details") (VList (map detail_to_dict ds)) error
               end in
  let error := match env_request_id e with
               | Some r => dset (KStr "request_id") (VStr r) error
               | None => error
               end in
  VDict {{ "error" ~> VDict error }}.

(** ** Exceptions *)

Record tl_error := MkError {
  te_code : string;
  te_message : string;
  te_pointer : option string;
  te_details : list ErrorDetail;
  te_issues : list string;   (* NotReadyForPublication only *)
}.

Inductive exc_class :=
  | CanonicalJsonError | InvalidKeyMaterial | SignatureVerificationError
  | IncompatibleContractVersionError | ToolPolicyError | PydanticValidationError
  | ConfigurationError | ValueError | UnicodeEncodeError | UnicodeDecodeError
  | KeyError | IndexError | TypeError | AssertionError | RuntimeError | AttributeError
  | OverflowError | RecursionError | IntegrityError | StaleDataError | YAMLError.

Inductive exn :=
  | ToolLayerError (e : tl_error)
  | ConversionError (code message pointer : string)
  | AdapterError (code message pointer : string)
  | Raised (cls : exc_class) (message : string).

Abbreviation M A := (result exn A).

#[export] Instance exc_class_eq_dec : EqDecision exc_class.
Proof. solve_decision. Defined.

(** The [except] clauses of the source. *)
Definition is_tool_layer_error (e : exn) : bool :=
  match e with ToolLayerError _ => true | _ => false end.
Definition is_conversion_error (e : exn) : bool :=
  match e with ConversionError _ _ _ => true | _ => false end.
Definition is_adapter_error (e : exn) : bool :=
  match e with AdapterError _ _ _ => true | _ => false end.
Definition is_class (c : exc_class) (e : exn) : bool :=
  match e with Raised c' _ => bool_decide (c = c') | _ => false end.
(** [except ValueError]: every subclass of [ValueError] the program defines. *)
Definition is_value_error (e : exn) : bool :=
  match e with
  | ToolLayerError _ => false
  | ConversionError _ _ _ | AdapterError _ _ _ => true
  | Raised (KeyError | IndexError | TypeError | AssertionError | RuntimeError | AttributeError
           | OverflowError | RecursionError | IntegrityError | StaleDataError | YAMLError) _ => false
  | Raised _ _ => true
  end.
Definition exn_message (e : exn) : string :=
  match e with
  | ToolLayerError e => te_message e
  | ConversionError _ m _ | AdapterError _ m _ | Raised _ m => m
  end.

Definition tool_layer_error (code message : string) : exn :=
  ToolLayerError (MkError code message None [] []).
Definition tool_layer_error_at (code message pointer : string) : exn :=
  ToolLayerError (MkError code message (Some pointer) [] []).

(** The concrete exception types, by the code each class declares. *)
Definition ValidationError (message pointer : string) : exn :=
  tool_layer_error_at ErrorCode.INVALID_REQUEST message pointer.
Definition ContractViolationError (message pointer : string) (details : list ErrorDetail) : exn :=
  ToolLayerError (MkError ErrorCode.CONTRACT_VIOLATION message (Some pointer) details []).
Definition NotFoundError (message : string) : exn :=
  tool_layer_error ErrorCode.NOT_FOUND message.
Definition RevisionConflictError (message pointer : string) : exn :=
  tool_layer_error_at ErrorCode.REVISION_CONFLICT message pointer.
Definition ImmutabilityError (message pointer : string) : exn :=
  tool_layer_error_at ErrorCode.IMMUTABLE_VERSION message pointer.
Definition PolicyDenied (code message : string) : exn := tool_layer_error code message.

Definition te_http_status (e : tl_error) : Z := status_for (te_code e).
Definition to_envelope (e : tl_error) (request_id : option string) : ErrorEnvelope :=
  {| env_code := te_code e; env_message := te_message e; env_pointer := te_pointer e;
     env_details := te_details e; env_request_id := request_id |}.

Definition error_response (code message : string) (pointer : option string)
    (details : list ErrorDetail) (request_id : option string) : Z * pyval :=
  let envelope := MkEnvelope code message pointer details request_id in
  (env_http_status envelope, envelope_to_dict envelope).

(** The code an exception carries, when it carries one. *)
Definition exn_code (e : exn) : option string :=
  match e with
  | ToolLayerError e => Some (te_code e)
  | ConversionError c _ _ | AdapterError c _ _ => Some c
  | Raised _ _ => None
  end.

(** ** Theorems *)

Lemma codes_distinct : NoDup ErrorCode.all.
Proof. by apply (bool_decide_unpack _); vm_compute. Qed.

Lemma alookup_None {A} k (l : list (string * A)) : alookup k l = None <-> k ∉ l.*1.
Proof.
  induction l as [|[k' a] l IH]; csimpl.
  - split; [intros _; apply not_elem_of_nil | done].
  - rewrite not_elem_of_cons, <- IH. case_bool_decide; naive_solver.
Qed.
Lemma alookup_elem {A} k (a : A) l : NoDup l.*1 -> alookup k l = Some a <-> (k, a) ∈ l.
Proof.
  induction l as [|[k' a'] l IH]; csimpl.
  - intros _. split; [done | by intros ?%elem_of_nil].
  - intros [Hk Hl]%NoDup_cons. rewrite elem_of_cons. case_bool_decide as E.
    + subst. split; [intros [= ->]; by left|]. intros [[= ->]|Hin]; [done|].
      destruct Hk. by apply (list_elem_of_fmap_2 fst) in Hin.
    + rewrite IH by done. split; [by right|]. intros [[= ? ?]|?]; [by subst | done].
Qed.

Lemma alookup_Some_elem {A} k (a : A) l : alookup k l = Some a -> (k, a) ∈ l.
Proof.
  induction l as [|[k' a'] l IH]; csimpl; [done|]. rewrite elem_of_cons.
  case_bool_decide; [intros [= ->]; left; by subst | auto].
Qed.

Definition error_body (e : ErrorEnvelope) : dict :=
  match envelope_to_dict e with
  | VDict d => match get "error" d with VDict d => d | _ => [] end
  | _ => []
  end.

Lemma status_for_error c : (400 <= status_for c)%Z.
Proof.
  unfold status_for. destruct (alookup c STATUS_BY_CODE) as [z|] eqn:E; [|lia].
  assert (forall l, forallb (fun e : string * Z => (400 <=? e.2)%Z) l = true -> alookup c l = Some z -> (400 <= z)%Z) as Hl.
  { induction l as [|[c' z'] l IH]; cbn [alookup forallb snd]; [done|]. intros [Hz Hr]%andb_true_iff.
    case_bool_decide; [intros [= <-]; lia|auto]. }
  by apply (Hl STATUS_BY_CODE); [vm_compute|].
Qed.
Lemma status_for_declared c :
  c ∈ ErrorCode.all ->
  is_Some (alookup c STATUS_BY_CODE) /\ (400 <=? status_for c)%Z && (status_for c <? 600)%Z = true.
Proof.
  set (ok c := negb (is_none (alookup c STATUS_BY_CODE)) &&
               ((400 <=? status_for c)%Z && (status_for c <? 600)%Z)).
  assert (forallb ok ErrorCode.all = true) as Hall by (vm_compute; reflexivity).
  rewrite forallb_Forall, Forall_forall in Hall. intros Hc.
  apply Hall in Hc. unfold ok in Hc. apply andb_true_iff in Hc as [Hs Hr].
  split; [|done]. by destruct (alookup _ _).
Qed.

(** Every declared error code has its own HTTP status entry, each status is
    a client or server error, and a string that is no declared code is reported
    as 500: [status_for] is total and never claims success. *)
Theorem status_for_codes :
  (forall c, c ∈ ErrorCode.all ->
     alookup c STATUS_BY_CODE = Some (status_for c) /\ (400 <= status_for c < 600)%Z) /\
  (forall c, c ∉ ErrorCode.all -> status_for c = 500%Z).
Proof.
  split; intros c Hc.
  - destruct (status_for_declared c Hc) as [[s Hs] [H1 H2]%andb_true_iff].
    split; [unfold status_for; by rewrite Hs | lia].
  - unfold status_for. replace (alookup c STATUS_BY_CODE) with (@None Z); [done|].
    symmetry. by apply alookup_None.
Qed.

(** The wire envelope holds exactly the code, the message, and the pointer,
    details and request id that were supplied, and raising an error gives the
    same status and body as building the response without an exception. *)
Theorem envelope_faithful :
  (forall e,
     dkeys (error_body e) =
       [KStr "code"; KStr "message"]
       ++ (if env_pointer e then [KStr "pointer"] else [])
       ++ (if env_details e then [] else [KStr "details"])
       ++ (if env_request_id e then [KStr "request_id"] else [])) /\
  (forall e, get "code" (error_body e) = VStr (env_code e) /\
     get "message" (error_body e) = VStr (env_message e)) /\
  (forall e rid,
     error_response (te_code e) (te_message e) (te_pointer e) (te_details e) rid
     = (te_http_status e, envelope_to_dict (to_envelope e rid))).
Proof.
  split_and!; [intros [c m [p|] [|d ds] [r|]]; reflexivity | | done].
  intros [c m [p|] [|d ds] [r|]]; split; reflexivity.
Qed.
