(* ===== verification/Version.v ===== *)
(** * Contract versions

    [toollayer_contracts/version.py]: parsing, support and precedence of
    Semantic Versioning values without build metadata. *)

From S2P Require Export Regex Errors.

Definition CONTRACT_VERSION : string := "1.1.0".

Definition re_numeric : re :=
  RAlt (rchar "0") (RCat (RSet (in_range "1" "9")) (RStar (RSet is_digit))).
Definition prerelease_char (c : ascii) : bool := is_alnum c || Ascii.eqb c "-".
Definition re_prerelease : re :=
  RCat (rplus (RSet prerelease_char)) (RStar (RCat (rchar ".") (rplus (RSet prerelease_char)))).
Definition SEMVER : re :=
  RCat re_numeric (RCat (rchar ".") (RCat re_numeric (RCat (rchar ".") (RCat re_numeric
    (ropt (RCat (rchar "-") re_prerelease)))))).

Record ContractVersion := MkVersion {
  major : N;
  minor : N;
  patch : N;
  prerelease : option string;
}.

#[export] Instance ContractVersion_eq_dec : EqDecision ContractVersion.
Proof. solve_decision. Defined.

(** [ContractVersion.__str__]: an empty prerelease is falsy, like [None]. *)
Definition version_str (v : ContractVersion) : string :=
  let base := str_of_N (major v) +:+ "." +:+ str_of_N (minor v) +:+ "." +:+ str_of_N (patch v) in
  match prerelease v with
  | Some p => if is_empty p then base else base +:+ "-" +:+ p
  | None => base
  end.

(** The groups of a match of [SEMVER]: the grammar is unambiguous, so they are
    the text up to the first ['-'], split at ['.'], and the text after it. A
    final line feed, which [$] skips, belongs to no group. *)
Definition semver_groups (s : string) : option (string * string * string * option string) :=
  let '(core, dashed, rest) := partition_on "-" (if fullmatch SEMVER s then s
                                                 else stake (slen s - 1) s) in
  match split_on "." core with
  | [a; b; c] => Some (a, b, c, if dashed then Some rest else None)
  | _ => None
  end.

(** [int(digits)]: CPython refuses to convert more than 4300 digits. *)
Definition int_of_digits (s : string) : M N :=
  if (4300 <? slen s)%nat then
    raise (Raised ValueError "Exceeds the limit (4300 digits) for integer string conversion")
  else Ok (dec_value 0 s).

Definition parse_version (value : pyval) : M ContractVersion :=
  match value with
  | VStr s =>
      if match_dollar SEMVER s then
        match semver_groups s with
        | Some (a, b, c, pre) =>
            let* major := int_of_digits a in
            let* minor := int_of_digits b in
            let* patch := int_of_digits c in
            Ok (MkVersion major minor patch pre)
        | None => raise (Raised IncompatibleContractVersionError
                           "version is not a Semantic Versioning value")
        end
      else raise (Raised IncompatibleContractVersionError
                    "version is not a Semantic Versioning value")
  | _ => raise (Raised IncompatibleContractVersionError "version must be a string")
  end.

Definition require_supported (value : pyval) : M ContractVersion :=
  let* declared := parse_version value in
  let* supported := parse_version (VStr CONTRACT_VERSION) in
  if negb (major declared =? major supported)%N then
    raise (Raised IncompatibleContractVersionError
      ("contract major version " +:+ str_of_N (major declared) +:+
       " is not supported by this build (expected " +:+ str_of_N (major supported) +:+ ")"))
  else if (minor supported <? minor declared)%N then
    raise (Raised IncompatibleContractVersionError
      "contract minor version is newer than this build understands")
  else Ok declared.

Definition is_supported (value : pyval) : M bool :=
  except (let* _ := require_supported value in Ok true)
         (is_class IncompatibleContractVersionError) (fun _ => Ok false).

Definition core_compare (l r : ContractVersion) : comparison :=
  match N.compare (major l) (major r) with
  | Eq => match N.compare (minor l) (minor r) with
          | Eq => N.compare (patch l) (patch r)
          | c => c
          end
  | c => c
  end.

(** Strings compare by code points: [String.compare]. *)
Definition compare_precedence (l r : ContractVersion) : Z :=
  match core_compare l r with
  | Lt => -1
  | Gt => 1
  | Eq =>
      if bool_decide (prerelease l = prerelease r) then 0
      else match prerelease l, prerelease r with
           | None, _ => 1
           | _, None => -1
           | Some a, Some b => match String.compare a b with Lt => -1 | _ => 1 end
           end
  end%Z.

(** ** Precedence is a total order *)

Lemma core_compare_antisym l r : core_compare l r = CompOpp (core_compare r l).
Proof.
  unfold core_compare.
  rewrite (N.compare_antisym (major r)), (N.compare_antisym (minor r)),
    (N.compare_antisym (patch r)).
  by destruct (N.compare (major r) _), (N.compare (minor r) _).
Qed.

(** The order as a key: numbers, then a release above every prerelease. *)
Definition precedes (l r : ContractVersion) : Prop :=
  (major l < major r)%N \/ major l = major r /\
  ((minor l < minor r)%N \/ minor l = minor r /\
   ((patch l < patch r)%N \/ patch l = patch r /\
    match prerelease l, prerelease r with
    | Some a, Some b => String.compare a b = Lt
    | Some _, None => True
    | _, _ => False
    end)).

Lemma compare_precedence_lt l r : compare_precedence l r = (-1)%Z <-> precedes l r.
Proof.
  unfold compare_precedence, core_compare, precedes.
  destruct (N.compare_spec (major l) (major r)); [|split; [lia | done]|split; [done|lia]].
  destruct (N.compare_spec (minor l) (minor r)); [|split; [lia | done]|split; [done|lia]].
  destruct (N.compare_spec (patch l) (patch r)); [|split; [lia | done]|split; [done|lia]].
  destruct (prerelease l) as [a|], (prerelease r) as [b|]; case_bool_decide as E;
    simplify_eq; try (split; [done | lia]); try (split; [by intuition|done]).
  - assert (String.compare b b = Eq) as -> by (apply scompare_refl).
    split; [done | intuition (lia || done)].
  - destruct (String.compare a b); intuition (lia || done).
Qed.

Lemma compare_precedence_eq l r : compare_precedence l r = 0%Z <-> l = r.
Proof.
  unfold compare_precedence, core_compare. destruct l as [a b c p], r as [a' b' c' p']; simpl.
  destruct (N.compare_spec a a'); [|split; [done | intros [=]; lia]..].
  destruct (N.compare_spec b b'); [|split; [done | intros [=]; lia]..].
  destruct (N.compare_spec c c'); [|split; [done | intros [=]; lia]..].
  subst. case_bool_decide as E.
  - by subst.
  - split; [|congruence]. destruct p, p'; try done. by destruct (String.compare _ _).
Qed.

Lemma compare_precedence_range l r :
  compare_precedence l r = (-1)%Z \/ compare_precedence l r = 0%Z \/
  compare_precedence l r = 1%Z.
Proof.
  unfold compare_precedence. destruct (core_compare l r); auto.
  case_bool_decide; auto. destruct (prerelease l), (prerelease r); auto.
  destruct (String.compare _ _); auto.
Qed.

Lemma compare_precedence_antisym l r : compare_precedence l r = (- compare_precedence r l)%Z.
Proof.
  unfold compare_precedence. rewrite core_compare_antisym.
  destruct (core_compare r l); simpl; try done.
  destruct (prerelease l) as [a|], (prerelease r) as [b|]; repeat case_bool_decide;
    simplify_eq; try done.
  rewrite (String.compare_antisym a b).
  destruct (String.compare b a) eqn:E; simpl; try done.
  apply scompare_eq in E as ->. congruence.
Qed.

Lemma compare_precedence_neg l r : (compare_precedence l r < 0)%Z <-> precedes l r.
Proof.
  rewrite <- compare_precedence_lt.
  destruct (compare_precedence_range l r) as [H|[H|H]]; rewrite H; lia.
Qed.

Lemma precedes_trans a b c : precedes a b -> precedes b c -> precedes a c.
Proof.
  unfold precedes. intros H1 H2.
  assert (match prerelease a, prerelease b with
          | Some x, Some y => String.compare x y = Lt | Some _, None => True | _, _ => False end ->
          match prerelease b, prerelease c with
          | Some x, Some y => String.compare x y = Lt | Some _, None => True | _, _ => False end ->
          match prerelease a, prerelease c with
          | Some x, Some y => String.compare x y = Lt | Some _, None => True | _, _ => False end).
  { destruct (prerelease a), (prerelease b), (prerelease c); try done. apply scompare_trans. }
  intuition (try lia).
Qed.

(** ** Printing and parsing *)

Definition valid_prerelease (p : string) : Prop := matches re_prerelease p.
Definition valid_version (v : ContractVersion) : Prop :=
  match prerelease v with Some p => valid_prerelease p | None => True end.

Lemma numeric_matches n : matches re_numeric (str_of_N n).
Proof.
  destruct (str_of_N_spec n) as (Hd & Hv & d & r & Hs & Hd10 & Hd0 & H0).
  destruct (decide (n = 0%N)) as [->|Hn].
  - rewrite H0 by done. apply m_alt_l. by apply matches_char.
  - rewrite Hs in *. apply m_alt_r. change (String (digit_char d) r) with (String (digit_char d) "" +:+ r).
    simpl in Hd. apply andb_true_iff in Hd as [_ Hr].
    constructor; [constructor | by apply matches_star_set].
    unfold in_range. rewrite digit_char_code by done. specialize (Hd0 Hn).
    apply andb_true_iff. rewrite !N.leb_le. change (code "1") with 49%N.
    change (code "9") with 57%N. lia.
Qed.

Lemma prerelease_nonempty p : valid_prerelease p -> is_empty p = false.
Proof.
  unfold valid_prerelease, re_prerelease. rewrite matches_cat.
  intros (u & v & -> & [_ Hu]%matches_plus_set & _). by destruct u.
Qed.

Definition tail_of (v : ContractVersion) : string :=
  match prerelease v with Some p => "-" +:+ p | None => "" end.

Lemma version_str_tail v :
  valid_version v ->
  version_str v = (str_of_N (major v) +:+ "." +:+ str_of_N (minor v) +:+ "." +:+
                   str_of_N (patch v)) +:+ tail_of v.
Proof.
  unfold version_str, valid_version, tail_of. destruct (prerelease v) as [p|].
  - by intros ->%prerelease_nonempty.
  - by rewrite sapp_nil_r.
Qed.

Lemma version_str_matches v : valid_version v -> matches SEMVER (version_str v).
Proof.
  intros Hv. rewrite version_str_tail by done. rewrite !sapp_assoc. unfold SEMVER.
  do 4 (constructor; [apply numeric_matches || by apply matches_char|]).
  constructor; [apply numeric_matches|]. apply matches_opt.
  unfold tail_of, valid_version in *. destruct (prerelease v) as [p|]; [right|by left].
  constructor; [by apply matches_char | done].
Qed.

Lemma digits_no_char c s :
  sall is_digit s = true -> is_digit c = false -> has_char c s = false.
Proof. apply has_char_false_all. Qed.

Lemma semver_groups_str v :
  valid_version v ->
  semver_groups (version_str v) =
    Some (str_of_N (major v), str_of_N (minor v), str_of_N (patch v), prerelease v).
Proof.
  intros Hv. unfold semver_groups.
  rewrite (proj2 (fullmatch_spec _ _)) by by apply version_str_matches.
  destruct (str_of_N_spec (major v)) as [Ha _], (str_of_N_spec (minor v)) as [Hb _],
    (str_of_N_spec (patch v)) as [Hc _].
  rewrite version_str_tail by done.
  set (core := (str_of_N (major v) +:+ _)).
  assert (split_on "." core = [str_of_N (major v); str_of_N (minor v); str_of_N (patch v)]) as Hsplit.
  { subst core. rewrite !sapp_cons, !sapp_nil_l.
    rewrite !split_on_app, split_on_cons_notin by (by apply digits_no_char). done. }
  assert (has_char "-" core = false) as Hdash.
  { subst core. rewrite !sapp_cons, !sapp_nil_l. unfold has_char.
    repeat rewrite sany_app || rewrite sany_cons.
    fold (has_char "-"). rewrite !(digits_no_char "-") by done. done. }
  unfold tail_of. destruct (prerelease v) as [p|].
  - change ("-" +:+ p) with (String "-" p). by rewrite partition_on_app, Hsplit.
  - by rewrite sapp_nil_r, partition_on_notin, Hsplit.
Qed.

(** [int()] and [str()] of a number stop at 4300 digits. *)
Definition printable (v : ContractVersion) : Prop :=
  (slen (str_of_N (major v)) <= 4300 /\ slen (str_of_N (minor v)) <= 4300 /\
   slen (str_of_N (patch v)) <= 4300)%nat.

Lemma int_of_digits_str n :
  (slen (str_of_N n) <= 4300)%nat -> int_of_digits (str_of_N n) = Ok n.
Proof.
  intros H. unfold int_of_digits. destruct (Nat.ltb_spec 4300 (slen (str_of_N n))); [lia|].
  by destruct (str_of_N_spec n) as (_ & -> & _).
Qed.

Lemma parse_version_groups s v :
  match_dollar SEMVER s = true ->
  semver_groups s = Some (str_of_N (major v), str_of_N (minor v), str_of_N (patch v), prerelease v) ->
  printable v -> parse_version (VStr s) = Ok v.
Proof.
  intros Hm Hg (Ha & Hb & Hc). unfold parse_version. rewrite Hm, Hg.
  rewrite !int_of_digits_str by done. by destruct v.
Qed.

Lemma SEMVER_over (p : ascii -> bool) :
  (forall c, is_digit c || prerelease_char c || Ascii.eqb "." c = true -> p c = true) ->
  re_over p SEMVER.
Proof.
  intros Hp. cbn -[Ascii.eqb in_range].
  assert (forall d, prerelease_char d || Ascii.eqb "." d = true ->
            forall c, Ascii.eqb d c = true -> p c = true) as He.
  { intros d Hd c <-%Ascii.eqb_eq. apply Hp. rewrite <- orb_assoc, Hd. apply orb_true_r. }
  assert (forall c, in_range "1" "9" c = true -> p c = true) as Hr.
  { intros c Hc. apply Hp. replace (is_digit c) with true; [done|]. symmetry.
    apply is_digit_code. unfold in_range in Hc. apply andb_true_iff in Hc.
    rewrite !N.leb_le in Hc. change (code "1") with 49%N in Hc. change (code "9") with 57%N in Hc.
    lia. }
  split_and!; try done; try (by apply He); try apply Hr; intros c Hc; apply Hp; by rewrite Hc, ?orb_true_r.
Qed.

Lemma SEMVER_no_newline s : matches SEMVER (s +:+ String newline "") -> False.
Proof.
  intros H. apply (matches_over (fun c => negb (Ascii.eqb newline c))) in H.
  - rewrite sall_app in H. apply andb_true_iff in H as [_ H]. by vm_compute in H.
  - apply SEMVER_over. intros c. destruct (Ascii.eqb_spec newline c) as [<-|]; [by vm_compute | done].
Qed.

Lemma re_numeric_inv s : matches re_numeric s -> exists n, s = str_of_N n.
Proof.
  intros H. exists (dec_value 0 s). symmetry. unfold re_numeric in H.
  apply matches_alt in H as [->%matches_char|(u & r & -> & (c & -> & Hc)%matches_set &
    Hr%matches_star_set)%matches_cat]; [done|].
  rewrite sapp_cons, sapp_nil_l. unfold in_range in Hc. apply andb_true_iff in Hc.
  rewrite !N.leb_le in Hc. change (code "1") with 49%N in Hc. change (code "9") with 57%N in Hc.
  apply str_of_N_dec; simpl; [|lia]. apply andb_true_iff. split; [apply is_digit_code; lia | done].
Qed.

Lemma SEMVER_inv s : matches SEMVER s -> exists v, valid_version v /\ s = version_str v.
Proof.
  unfold SEMVER.
  intros (u1 & r1 & -> & [a ->]%re_numeric_inv & (u2 & r2 & -> & ->%matches_char &
    (u3 & r3 & -> & [b ->]%re_numeric_inv & (u4 & r4 & -> & ->%matches_char &
    (u5 & r5 & -> & [c ->]%re_numeric_inv & H)%matches_cat)%matches_cat)%matches_cat)%matches_cat)%matches_cat.
  apply matches_opt in H as [->|(u & p & -> & ->%matches_char & Hp)%matches_cat].
  - exists (MkVersion a b c None). split; [done|]. by rewrite sapp_nil_r.
  - exists (MkVersion a b c (Some p)). split; [done|].
    rewrite version_str_tail by done. by rewrite !sapp_assoc.
Qed.

Lemma semver_groups_newline v :
  valid_version v ->
  semver_groups (version_str v +:+ String newline "") = semver_groups (version_str v).
Proof.
  intros Hv. unfold semver_groups at 1.
  destruct (fullmatch SEMVER (version_str v +:+ _)) eqn:E.
  { by apply fullmatch_spec, SEMVER_no_newline in E. }
  rewrite slen_app. simpl slen. rewrite Nat.add_sub, stake_app. unfold semver_groups.
  by rewrite (proj2 (fullmatch_spec _ _)) by by apply version_str_matches.
Qed.

Lemma parse_version_str_Ok v :
  valid_version v -> printable v ->
  parse_version (VStr (version_str v)) = Ok v /\
  parse_version (VStr (version_str v +:+ String newline "")) = Ok v.
Proof.
  intros Hv Hp. pose proof (version_str_matches v Hv) as Hm.
  split; apply parse_version_groups; auto.
  - apply match_dollar_spec. auto.
  - by apply semver_groups_str.
  - apply match_dollar_spec. eauto.
  - rewrite semver_groups_newline by done. by apply semver_groups_str.
Qed.

Lemma parse_version_inv s v :
  parse_version (VStr s) = Ok v ->
  valid_version v /\ printable v /\ (s = version_str v \/ s = version_str v +:+ String newline "").
Proof.
  unfold parse_version. destruct (match_dollar SEMVER s) eqn:Hm; [|done].
  apply match_dollar_spec in Hm.
  assert (exists w, valid_version w /\ (s = version_str w \/ s = version_str w +:+ String newline ""))
    as (w & Hw & Hs).
  { destruct Hm as [(w & ? & ->)%SEMVER_inv|(t & -> & (w & ? & ->)%SEMVER_inv)]; eauto. }
  assert (semver_groups s = Some (str_of_N (major w), str_of_N (minor w), str_of_N (patch w), prerelease w)) as ->.
  { destruct Hs as [->| ->]; [|rewrite semver_groups_newline by done]; by apply semver_groups_str. }
  unfold int_of_digits. intros H. inv_ok.
  repeat match goal with Hb : (_ <? _)%nat = false |- _ => apply Nat.ltb_ge in Hb end.
  destruct (str_of_N_spec (major w)) as (_ & -> & _), (str_of_N_spec (minor w)) as (_ & -> & _),
    (str_of_N_spec (patch w)) as (_ & -> & _). by destruct w.
Qed.

Lemma parse_version_other value v : parse_version value = Ok v -> exists s, value = VStr s.
Proof. destruct value; try done. eauto. Qed.

Lemma require_supported_inv value v :
  require_supported value = Ok v <->
  parse_version value = Ok v /\ major v = 1%N /\ (minor v <= 1)%N.
Proof.
  unfold require_supported. change (parse_version (VStr CONTRACT_VERSION)) with
    (Ok (E:=exn) (MkVersion 1 1 0 None)).
  destruct (parse_version value) as [d|e]; cbn [bind]; [|by split; [|intros []]].
  cbn [major minor].
  destruct (N.eqb_spec (major d) 1), (N.ltb_spec 1 (minor d)); cbn [negb]; split;
    naive_solver lia.
Qed.

(** ** Properties *)

(** [parse_version] accepts exactly the canonical texts of the versions with
    a valid prerelease (numbers without leading zeros, at most 4300 digits),
    and those followed by one line feed, and returns the version printed:
    parsing inverts [str], and nothing else parses. *)
Theorem parse_version_exact :
  forall value v, parse_version value = Ok v <->
    exists s, value = VStr s /\ valid_version v /\ printable v /\
      (s = version_str v \/ s = version_str v +:+ String newline "").
Proof.
  intros value v. split.
  - intros H. destruct (parse_version_other _ _ H) as [s ->].
    exists s. split; [done|]. by apply parse_version_inv.
  - intros (s & -> & Hv & Hp & [->| ->]); by apply parse_version_str_Ok.
Qed.

(** The precedence of versions is a total order: zero exactly on equal
    versions, antisymmetric and transitive, so "is newer" never depends on the
    order of the comparisons. *)
Theorem compare_precedence_order :
  (forall l r, compare_precedence l r = 0%Z <-> l = r) /\
  (forall l r, compare_precedence l r = (- compare_precedence r l)%Z) /\
  (forall a b c, (compare_precedence a b < 0)%Z -> (compare_precedence b c < 0)%Z ->
     (compare_precedence a c < 0)%Z) /\
  (forall v p, prerelease v = Some p ->
     compare_precedence v (MkVersion (major v) (minor v) (patch v) None) = (-1)%Z).
Proof.
  split_and!.
  - apply compare_precedence_eq.
  - apply compare_precedence_antisym.
  - intros a b c. rewrite !compare_precedence_neg. apply precedes_trans.
  - intros v p Hp. apply compare_precedence_lt. unfold precedes. simpl. rewrite Hp. tauto.
Qed.

(** A document is consumable exactly when its version parses, is of major
    line 1 and of minor at most 1; [is_supported] decides that without raising
    for every value whose numbers [int()] can read. *)
Theorem require_supported_exact :
  (forall value v, require_supported value = Ok v <->
     parse_version value = Ok v /\ major v = 1%N /\ (minor v <= 1)%N) /\
  (forall value b, is_supported value = Ok b ->
     b = true <-> exists v, require_supported value = Ok v).
Proof.
  split; [apply require_supported_inv|]. intros value b. unfold is_supported, except.
  destruct (require_supported value) as [v|e]; cbn [bind].
  - intros [= <-]. split; eauto.
  - destruct (is_class _ e); [|done]. intros [= <-]. split; [done | by intros [??]].
Qed.

Lemma require_supported_exact_witness :
  is_supported (VStr "1.2.0") = Ok false /\ is_supported (VStr "1.1.7-rc.1") = Ok true /\
  (true = true <-> exists v, require_supported (VStr "1.0.3") = Ok v).
Proof.
  split_and!; [vm_compute; reflexivity..|].
  apply (proj2 require_supported_exact (VStr "1.0.3") true). vm_compute; reflexivity.
Defined.
