(* ===== verification/CanonicalJson.v ===== *)
(** * Canonical JSON and content digests

    [toollayer_contracts/canonical_json.py]: [json.dumps] as the source calls
    it (sorted keys, no white space, no escaping beyond JSON's own, no
    non-finite numbers), the serializability check in front of it, and digests.
    [hashlib.sha256] and [float.__repr__] are fields of the class [Platform]. *)

From S2P Require Export Errors.
From Stdlib Require Import Floats.SpecFloat.

(** What the development does not look into: the text of a float and the
    hexadecimal SHA-256 of bytes. *)
Class Platform := {
  float_repr : spec_float -> string;
  sha256_hex : string -> string;
}.

Definition DIGEST_PREFIX : string := "sha256:".
Definition SNAPSHOT_DIGEST_EXCLUDED : list string := ["snapshot_id"; "snapshot_digest"; "signature"].

(** ** Text of strings *)

Definition json_escape (c : ascii) : string :=
  if Ascii.eqb c dquote then String "\" (String dquote "")
  else if Ascii.eqb c "\" then "\\"
  else if Ascii.eqb c "010" then "\n"
  else if Ascii.eqb c "013" then "\r"
  else if Ascii.eqb c "009" then "\t"
  else if Ascii.eqb c "012" then "\f"
  else if Ascii.eqb c "008" then "\b"
  else if (code c <? 32)%N then
    "\u00" +:+ hex_byte c
  else String c "".
Definition quote_json (s : string) : string :=
  String dquote (sflat_map json_escape s +:+ String dquote "").

(** ** Members in key order *)

Section ksort.
Context {A : Type}.

Definition key_le (x y : string * A) : bool :=
  match String.compare x.1 y.1 with Gt => false | _ => true end.
Fixpoint kinsert (x : string * A) (l : list (string * A)) : list (string * A) :=
  match l with
  | [] => [x]
  | y :: l' => if key_le x y then x :: l else y :: kinsert x l'
  end.
Fixpoint ksort (l : list (string * A)) : list (string * A) :=
  match l with
  | [] => []
  | x :: l => kinsert x (ksort l)
  end.
End ksort.

Definition key_text (k : pykey) : string := match k with KStr s | KOther s => s end.

Section canonical.
Context `{Platform}.

(** [isinstance] tests in the order of the code; a [Mapping] is a dict. *)
Definition or_root (path : string) : string := if is_empty path then "<root>" else path.
Fixpoint assert_serializable (value : pyval) (path : string) {struct value} : M unit :=
  let fix members (d : dict) : M unit :=
    match d with
    | [] => Ok tt
    | (KStr k, v) :: d =>
        let* _ := assert_serializable v (path +:+ "/" +:+ k) in members d
    | (KOther _, _) :: _ =>
        raise (Raised CanonicalJsonError ("non-string object key at " +:+ or_root path))
    end in
  let fix items (index : N) (l : list pyval) : M unit :=
    match l with
    | [] => Ok tt
    | v :: l =>
        let* _ := assert_serializable v (path +:+ "/" +:+ str_of_N index) in
        items (index + 1)%N l
    end in
  match value with
  | VNone | VStr _ | VBool _ | VInt _ => Ok tt
  | VFloat f =>
      match f with
      | S754_nan | S754_infinity _ =>
          raise (Raised CanonicalJsonError ("non-finite number at " +:+ or_root path))
      | _ => Ok tt
      end
  | VDict d => members d
  | VList l | VTuple l => items 0%N l
  | VOther _ => raise (Raised CanonicalJsonError ("unsupported type at " +:+ or_root path))
  end.

Definition member_text (m : string * string) : string := quote_json m.1 +:+ ":" +:+ m.2.

(** [json.dumps] with [sort_keys], on a value [assert_serializable] accepts. *)
Fixpoint dumps (value : pyval) : string :=
  match value with
  | VNone => "null"
  | VBool true => "true"
  | VBool false => "false"
  | VInt z => str_of_Z z
  | VFloat f => float_repr f
  | VStr s => quote_json s
  | VList l | VTuple l => "[" +:+ join "," (map dumps l) +:+ "]"
  | VDict d =>
      "{" +:+ join "," (map member_text
                (ksort (map (fun kv => (key_text kv.1, dumps kv.2)) d))) +:+ "}"
  | VOther t => t
  end.

Definition canonical_json (document : pyval) : M string :=
  let* _ := assert_serializable document "" in Ok (dumps document).

Definition canonical_bytes (document : pyval) : M string :=
  let* text := canonical_json document in Ok (encode_utf8 text).

Definition digest_of (data : string) : string := DIGEST_PREFIX +:+ sha256_hex data.

(** [{k: v for k, v in document.items() if k not in excluded}]. *)
Definition without (excluded : list string) (d : dict) : dict :=
  List.filter (fun kv => match kv.1 with
                         | KStr k => negb (str_in k excluded)
                         | KOther _ => true
                         end) d.

Definition digest_payload (document : pyval) (exclude : list string) : M pyval :=
  match exclude with
  | [] => Ok document
  | _ =>
      match document with
      | VDict d => Ok (VDict (without exclude d))
      | _ => raise (Raised CanonicalJsonError "exclude is only meaningful for object documents")
      end
  end.
Definition content_digest (document : pyval) (exclude : list string) : M string :=
  let* payload := digest_payload document exclude in
  let* data := canonical_bytes payload in
  Ok (digest_of data).

Definition verify_digest (document expected : pyval) (exclude : list string) : M bool :=
  match expected with
  | VStr e =>
      if negb (starts_with DIGEST_PREFIX e) then Ok false
      else except (let* actual := content_digest document exclude in Ok (String.eqb actual e))
                  (is_class CanonicalJsonError) (fun _ => Ok false)
  | _ => Ok false
  end.
End canonical.

(** ** Members in key order: [ksort] *)

Section ksort_lemmas.
Context {A B : Type}.

Lemma key_le_total (x y : string * A) : key_le x y = false -> key_le y x = true.
Proof.
  unfold key_le. rewrite (String.compare_antisym y.1). by destruct (String.compare x.1 y.1).
Qed.
Lemma key_le_trans (x y z : string * A) :
  key_le x y = true -> key_le y z = true -> key_le x z = true.
Proof.
  unfold key_le.
  destruct (String.compare x.1 y.1) eqn:E1, (String.compare y.1 z.1) eqn:E2; try done; intros _ _.
  - apply scompare_eq in E1, E2. by rewrite E1, E2, scompare_refl.
  - apply scompare_eq in E1. by rewrite E1, E2.
  - apply scompare_eq in E2. by rewrite <- E2, E1.
  - by rewrite (scompare_trans _ _ _ E1 E2).
Qed.

Lemma kinsert_perm (x : string * A) l : kinsert x l ≡ₚ x :: l.
Proof.
  induction l as [|y l IH]; simpl; [done|]. destruct (key_le x y); [done|].
  rewrite IH. apply perm_swap.
Qed.
Lemma ksort_perm (l : list (string * A)) : ksort l ≡ₚ l.
Proof. induction l as [|x l IH]; simpl; [done|]. by rewrite kinsert_perm, IH. Qed.

Lemma kinsert_sorted (x : string * A) l :
  StronglySorted key_le l -> StronglySorted key_le (kinsert x l).
Proof.
  induction 1 as [|y l Hs IH Hy]; simpl; [repeat constructor|].
  destruct (key_le x y) eqn:E.
  - constructor; [by constructor|]. constructor; [by rewrite E|].
    eapply Forall_impl; [done|]. intros z Hz. apply Is_true_true in Hz.
    apply Is_true_true. by eapply key_le_trans.
  - constructor; [done|]. rewrite kinsert_perm. constructor; [|done].
    apply Is_true_true. by apply key_le_total.
Qed.
Lemma ksort_sorted (l : list (string * A)) : StronglySorted key_le (ksort l).
Proof. induction l; simpl; [constructor | by apply kinsert_sorted]. Qed.

Lemma NoDup_fst_inj (l : list (string * A)) x y :
  NoDup l.*1 -> x ∈ l -> y ∈ l -> x.1 = y.1 -> x = y.
Proof.
  induction l as [|z l IH]; csimpl; [by intros _ ?%elem_of_nil|].
  intros [Hz Hl]%NoDup_cons [->|Hx]%elem_of_cons [->|Hy]%elem_of_cons Hxy; auto.
  - destruct Hz. rewrite Hxy. by apply list_elem_of_fmap_2.
  - destruct Hz. rewrite <- Hxy. by apply list_elem_of_fmap_2.
Qed.

(** With distinct keys, the sorted list depends on the members only. *)
Lemma ksort_unique (l l' : list (string * A)) :
  l ≡ₚ l' -> NoDup l.*1 -> ksort l = ksort l'.
Proof.
  intros Hp Hnd. apply (StronglySorted_unique_strong key_le).
  - intros x y Hx Hy Hxy Hyx. rewrite ksort_perm in Hx. rewrite ksort_perm, <- Hp in Hy.
    apply (NoDup_fst_inj l); try done.
    apply Is_true_true in Hxy, Hyx. unfold key_le in *.
    rewrite String.compare_antisym in Hyx.
    destruct (String.compare x.1 y.1) eqn:E; try done. by apply scompare_eq.
  - apply ksort_sorted.
  - apply ksort_sorted.
  - by rewrite !ksort_perm.
Qed.
End ksort_lemmas.

Lemma ksort_map {A B} (g : A -> B) (l : list (string * A)) :
  ksort (prod_map id g <$> l) = prod_map id g <$> ksort l.
Proof.
  assert (forall x (l : list (string * A)),
            kinsert (prod_map id g x) (prod_map id g <$> l) = prod_map id g <$> kinsert x l) as Hi.
  { intros x l'. induction l' as [|y l' IH]; csimpl; [done|].
    unfold key_le at 1. simpl. fold (key_le x y). destruct (key_le x y); [done|].
    csimpl. by rewrite IH. }
  induction l as [|x l IH]; csimpl; [done|]. by rewrite IH, Hi.
Qed.

(** ** What can be serialized *)

Definition is_str_key (k : pykey) : bool := match k with KStr _ => true | _ => false end.
Definition finite_float (f : spec_float) : bool :=
  match f with S754_nan | S754_infinity _ => false | _ => true end.

(** The condition [assert_serializable] checks, without the path. *)
Fixpoint serializable (v : pyval) : bool :=
  match v with
  | VNone | VBool _ | VInt _ | VStr _ => true
  | VFloat f => finite_float f
  | VList l | VTuple l => forallb serializable l
  | VDict d => forallb (fun kv => is_str_key kv.1 && serializable kv.2) d
  | VOther _ => false
  end.

Lemma assert_serializable_spec v p :
  match assert_serializable v p with
  | Ok _ => serializable v = true
  | Err e => serializable v = false /\ exists m, e = Raised CanonicalJsonError m
  end.
Proof.
  revert p. induction v as [| | |f| |l IH|l IH|d IH|] using pyval_ind'; intros p; simpl; eauto.
  - destruct f; simpl; eauto.
  - generalize 0%N as i. induction IH as [|v l Hv _ IHl]; intros i; simpl; [done|].
    specialize (Hv (p +:+ "/" +:+ str_of_N i)). destruct (assert_serializable v _); simpl.
    + rewrite Hv. apply IHl.
    + destruct Hv as [-> ?]. done.
  - generalize 0%N as i. induction IH as [|v l Hv _ IHl]; intros i; simpl; [done|].
    specialize (Hv (p +:+ "/" +:+ str_of_N i)). destruct (assert_serializable v _); simpl.
    + rewrite Hv. apply IHl.
    + destruct Hv as [-> ?]. done.
  - induction IH as [|[[k|k] v] d Hv _ IHd]; simpl; [done| |eauto].
    specialize (Hv (p +:+ "/" +:+ k)). simpl in Hv. destruct (assert_serializable v _); simpl.
    + rewrite Hv. apply IHd.
    + destruct Hv as [-> ?]. done.
Qed.

Lemma canonical_json_Ok `{Platform} v s :
  canonical_json v = Ok s <-> serializable v = true /\ s = dumps v.
Proof.
  unfold canonical_json. pose proof (assert_serializable_spec v "") as Hs.
  destruct (assert_serializable v ""); simpl.
  - split; [by intros [= <-] | by intros [_ ->]].
  - destruct Hs as [-> _]. split; [done | by intros [? _]].
Qed.

(** ** The same JSON value: members in any order, tuples as arrays *)

Definition is_scalar (v : pyval) : bool :=
  match v with VList _ | VTuple _ | VDict _ => false | _ => true end.
Definition as_seq (v : pyval) : option (list pyval) :=
  match v with VList l | VTuple l => Some l | _ => None end.

Inductive same_json : pyval -> pyval -> Prop :=
  | same_scalar v : is_scalar v = true -> same_json v v
  | same_seq v w l l' :
      as_seq v = Some l -> as_seq w = Some l' -> Forall2 same_json l l' -> same_json v w
  | same_dict d e d' :
      d ≡ₚ e -> Forall2 (fun x y => x.1 = y.1 /\ same_json x.2 y.2) e d' ->
      same_json (VDict d) (VDict d').

Lemma wf_list l : fold_right (fun v P => wf v /\ P) True l <-> Forall wf l.
Proof. induction l; simpl; [done|]. by rewrite Forall_cons, IHl. Qed.
Lemma wf_members (d : dict) :
  fold_right (fun kv P => wf kv.2 /\ P) True d <-> Forall (fun kv => wf kv.2) d.
Proof. induction d; simpl; [done|]. by rewrite Forall_cons, IHd. Qed.

(** What the texts below assume of a value: distinct keys, serializable. *)
Definition clean (v : pyval) : Prop := wf v /\ serializable v = true.
Definition clean_dict (d : dict) : Prop :=
  dict_ok d /\ Forall (fun kv => is_str_key kv.1 = true /\ clean kv.2) d.

Lemma clean_VDict d : clean (VDict d) <-> clean_dict d.
Proof.
  unfold clean, clean_dict. simpl. rewrite wf_members, forallb_Forall, !Forall_forall.
  split.
  - intros [[Hd Hw] Hs]. split; [done|]. intros x Hx. specialize (Hw x Hx).
    specialize (Hs x Hx). apply andb_true_iff in Hs as [??]. done.
  - intros [Hd H]. split; [split; [done|]|]; intros x Hx; destruct (H x Hx) as (Hk & Hw & Hs);
      [done|]. by rewrite Hk, Hs.
Qed.
Lemma clean_list l :
  (Forall wf l /\ forallb serializable l = true) <-> Forall clean l.
Proof. rewrite forallb_Forall. unfold clean. by rewrite Forall_and. Qed.
Lemma clean_seq v l : as_seq v = Some l -> clean v <-> Forall clean l.
Proof.
  rewrite <- clean_list. unfold clean. intros Hl.
  destruct v; simpl in *; simplify_eq; by rewrite wf_list.
Qed.

Lemma clean_dict_keys d : clean_dict d -> NoDup (map (fun kv => key_text kv.1) d).
Proof.
  intros [Hnd Hs]. unfold dict_ok, dkeys in Hnd.
  replace (map _ d) with (key_text <$> d.*1) by (rewrite <- list_fmap_compose; done).
  apply NoDup_fmap_2_strong; [|done].
  intros x y (? & -> & Hx)%list_elem_of_fmap (? & -> & Hy)%list_elem_of_fmap.
  rewrite Forall_forall in Hs. apply Hs in Hx as [Hx _], Hy as [Hy _].
  destruct (_.1); [|done]. destruct (_.1); [|done]. simpl. by intros ->.
Qed.
Lemma clean_dict_perm d e : d ≡ₚ e -> clean_dict d -> clean_dict e.
Proof. intros Hp [Hnd Hs]. split; unfold dict_ok, dkeys in *; by rewrite <- Hp. Qed.

Section canonical_lemmas.
Context `{Platform}.

Definition texts (d : dict) : list (string * string) :=
  map (fun kv => (key_text kv.1, dumps kv.2)) d.

Lemma texts_keys d : (texts d).*1 = map (fun kv => key_text kv.1) d.
Proof. unfold texts. induction d; csimpl; congruence. Qed.

Lemma dumps_seq v l : as_seq v = Some l -> dumps v = "[" +:+ join "," (map dumps l) +:+ "]".
Proof. destruct v; simpl; intros; simplify_eq; done. Qed.

Lemma dumps_dict d :
  dumps (VDict d) = "{" +:+ join "," (map member_text (ksort (texts d))) +:+ "}".
Proof. done. Qed.

Definition same_text (v : pyval) : Prop := forall w, clean v -> same_json v w -> dumps v = dumps w.

Lemma same_text_list l l' :
  Forall same_text l -> Forall clean l -> Forall2 same_json l l' -> map dumps l = map dumps l'.
Proof.
  intros IH Hc HF. induction HF as [|x y l l' Hxy HF IHF]; [done|].
  apply Forall_cons in IH as [IHx IH], Hc as [Hx Hc]. simpl.
  by rewrite (IHx y), IHF.
Qed.
Lemma same_text_members d d' :
  Forall (fun kv => same_text kv.2) d -> clean_dict d ->
  Forall2 (fun x y => x.1 = y.1 /\ same_json x.2 y.2) d d' -> texts d = texts d'.
Proof.
  intros IH [_ Hc] HF. induction HF as [|x y l l' [Hk Hxy] HF IHF]; [done|].
  apply Forall_cons in IH as [IHx IH], Hc as [[_ Hx] Hc]. unfold texts. simpl.
  rewrite Hk, (IHx y.2) by done. f_equal. by apply IHF.
Qed.

Lemma same_json_seq_inv v l w :
  as_seq v = Some l -> same_json v w -> exists l', as_seq w = Some l' /\ Forall2 same_json l l'.
Proof.
  intros Hl. destruct 1 as [v Hv|v w l0 l' Hv Hw HF|]; [by destruct v| |done].
  simplify_eq. eauto.
Qed.

(** The same value has the same text. *)
Lemma dumps_same v : same_text v.
Proof.
  assert (forall v l, as_seq v = Some l -> Forall same_text l -> same_text v) as Hseq.
  { intros v0 l Hl IH w Hc Hw. destruct (same_json_seq_inv _ _ _ Hl Hw) as (l' & Hl' & HF).
    rewrite (dumps_seq _ _ Hl), (dumps_seq _ _ Hl'). do 3 f_equal.
    apply same_text_list; [done | by apply (clean_seq _ _ Hl) | done]. }
  induction v as [| | | | |l IH|l IH|d IH|] using pyval_ind'; [..|by eapply Hseq|by eapply Hseq| |];
    intros w Hc Hw; inversion Hw as [| |d0 e d' Hp HF]; subst; try done.
  apply clean_VDict in Hc. rewrite !dumps_dict. do 4 f_equal.
  rewrite <- (same_text_members e d'); [|by rewrite <- Hp|by apply (clean_dict_perm _ _ Hp)|done].
  apply ksort_unique; [by apply Permutation_map|]. rewrite texts_keys. by apply clean_dict_keys.
Qed.
End canonical_lemmas.

(** ** Reading a text back *)

Definition num_char (c : ascii) : bool :=
  is_digit c || Ascii.eqb c "-" || Ascii.eqb c "+" || Ascii.eqb c "." || Ascii.eqb c "e".
Definition int_char (c : ascii) : bool := is_digit c || Ascii.eqb c "-".

(** What Python documents of the text of a finite float: it is written with
    digits, signs, a point and an exponent, it never looks like an integer,
    and [float()] reads it back. *)
Class FloatText `{Platform} := {
  float_repr_chars f : finite_float f = true -> sall num_char (float_repr f) = true;
  float_repr_not_int f : finite_float f = true -> sall int_char (float_repr f) = false;
  float_repr_inj f g : finite_float f = true -> finite_float g = true ->
    float_repr f = float_repr g -> f = g;
}.

Lemma str_of_Z_chars z : sall int_char (str_of_Z z) = true.
Proof.
  assert (forall n, sall int_char (str_of_N n) = true) as Hn.
  { intros n. eapply sall_impl; [|apply (str_of_N_spec n)]. intros c. unfold int_char. by intros ->. }
  destruct z; [done | apply Hn |]. cbn [str_of_Z sall]. by rewrite Hn.
Qed.
Lemma str_of_N_not_dash n r : str_of_N n <> String "-" r.
Proof.
  destruct (str_of_N_spec n) as (Hd & _). intros E. rewrite E in Hd. by vm_compute in Hd.
Qed.
Lemma str_of_Z_inj y z : str_of_Z y = str_of_Z z -> y = z.
Proof.
  assert (forall z, str_of_Z z = match z with Zneg p => String "-" (str_of_N (Npos p))
                                 | _ => str_of_N (Z.to_N z) end) as Hz by by intros [].
  rewrite !Hz. destruct y as [|p|p], z as [|q|q]; intros E; try (by apply str_of_N_inj in E);
    try (by symmetry in E; apply str_of_N_not_dash in E); try (by apply str_of_N_not_dash in E).
  - apply str_of_N_inj in E. simpl in E. congruence.
  - injection E as E. apply str_of_N_inj in E. congruence.
Qed.

Lemma json_escape_prefix_free : prefix_free json_escape = true.
Proof. vm_compute. reflexivity. Qed.
Lemma json_escape_no_dquote c r : json_escape c <> String dquote r.
Proof.
  assert (forallb (fun c => negb (starts_with (String dquote "") (json_escape c))) all_chars = true)
    as Hall by (vm_compute; reflexivity).
  rewrite forallb_Forall, Forall_forall in Hall. specialize (Hall c (all_chars_complete c)).
  intros E. by rewrite E in Hall.
Qed.
Lemma quote_json_inj s t x y :
  quote_json s +:+ x = quote_json t +:+ y -> s = t /\ x = y.
Proof.
  unfold quote_json. rewrite !sapp_cons, !sapp_assoc, !sapp_cons, !sapp_nil_l. intros [= E].
  by apply (sflat_map_term _ json_escape_prefix_free) in E; [|apply json_escape_no_dquote].
Qed.

(** The first character of a text tells the kind of value. *)
Definition kind_of_char (c : ascii) : nat :=
  if num_char c then 0 else if Ascii.eqb c "n" then 1 else if Ascii.eqb c "t" then 2
  else if Ascii.eqb c "f" then 3 else if Ascii.eqb c dquote then 4
  else if Ascii.eqb c "[" then 5 else if Ascii.eqb c "{" then 6 else 7.
Definition kind (v : pyval) : nat :=
  match v with
  | VInt _ | VFloat _ => 0 | VNone => 1 | VBool true => 2 | VBool false => 3
  | VStr _ => 4 | VList _ | VTuple _ => 5 | VDict _ => 6 | VOther _ => 8
  end.

(** Items read one after the other, for arrays and for members of objects. *)
Section items.
Context {A : Type} (t : A -> string) (R : A -> A -> Prop) (good : A -> Prop) (close : ascii).
Hypothesis Hclose : num_char close = false.
Hypothesis Hcomma : close <> ","%char.
Hypothesis Hhead : forall a r, good a -> t a <> String close r.
Hypothesis Hempty : forall a, good a -> t a <> "".

Definition reads (a : A) : Prop := forall b x y,
  good a -> good b -> ends_run num_char x -> ends_run num_char y ->
  t a +:+ x = t b +:+ y -> R a b /\ x = y.

Fixpoint tail_join (ws : list string) : string :=
  match ws with [] => "" | w :: ws => "," +:+ w +:+ tail_join ws end.
Lemma join_cons w ws : join "," (w :: ws) = w +:+ tail_join ws.
Proof.
  revert w. induction ws as [|w' ws IH]; intros w; [by rewrite sapp_nil_r|].
  change (join "," (w :: w' :: ws)) with (w +:+ "," +:+ join "," (w' :: ws)).
  by rewrite IH.
Qed.

Lemma tail_ends ws x : ends_run num_char (tail_join ws +:+ String close x).
Proof using Hclose. destruct ws; [apply Hclose | done]. Qed.

Lemma reads_tail l l' x y :
  Forall reads l -> Forall good l -> Forall good l' ->
  tail_join (map t l) +:+ String close x = tail_join (map t l') +:+ String close y ->
  Forall2 R l l' /\ x = y.
Proof using Hclose Hcomma.
  intros Hr Hg. revert l'. induction l as [|a l IH]; intros [|b l'] Hg'; simpl.
  - intros [= ->]. auto.
  - rewrite sapp_nil_l, sapp_cons. intros [= E _]. congruence.
  - rewrite sapp_nil_l, sapp_cons. intros [= E _]. congruence.
  - rewrite !sapp_cons, !sapp_nil_l, !sapp_assoc. intros [= E].
    apply Forall_cons in Hr as [Ha Hr], Hg as [Hga Hg], Hg' as [Hgb Hg'].
    apply Ha in E as [Hab E]; [|done|done|apply tail_ends|apply tail_ends].
    apply IH in E as [HF ->]; auto.
Qed.

Lemma reads_items l l' x y :
  Forall reads l -> Forall good l -> Forall good l' ->
  join "," (map t l) +:+ String close x = join "," (map t l') +:+ String close y ->
  Forall2 R l l' /\ x = y.
Proof using Hclose Hcomma Hhead Hempty.
  assert (forall b l' x y, good b ->
            String close x <> join "," (map t (b :: l')) +:+ String close y) as Hne.
  { intros b l0 x0 y0 Hb. cbn [map]. rewrite join_cons, sapp_assoc.
    destruct (t b) as [|c r] eqn:E; [by apply Hempty in E|].
    rewrite sapp_cons. intros [= -> _]. by apply (Hhead b r). }
  destruct l as [|a l], l' as [|b l']; intros Hr Hg Hg'.
  - cbn. intros [= ->]. auto.
  - apply Forall_cons in Hg' as [Hb _]. intros E. by apply (Hne b l' x y) in E.
  - apply Forall_cons in Hg as [Ha _]. intros E. symmetry in E. by apply (Hne a l y x) in E.
  - cbn [map]. rewrite !join_cons, !sapp_assoc.
    apply Forall_cons in Hr as [Ha Hr], Hg as [Hga Hg], Hg' as [Hgb Hg'].
    intros E. apply Ha in E as [Hab E]; [|done|done|apply tail_ends|apply tail_ends].
    apply reads_tail in E as [HF ->]; auto.
Qed.
End items.

Section reading.
Context `{FloatText}.

Lemma num_char_head s : s <> "" -> sall num_char s = true ->
  exists c r, s = String c r /\ kind_of_char c = 0%nat.
Proof.
  destruct s as [|c r]; [done|]. simpl. intros _ [Hc _]%andb_true_iff.
  exists c, r. split; [done|]. unfold kind_of_char. by rewrite Hc.
Qed.
Lemma int_num_chars s : sall int_char s = true -> sall num_char s = true.
Proof.
  apply sall_impl. intros c. unfold int_char, num_char. intros Hc. by rewrite Hc.
Qed.
Lemma str_of_Z_nonempty z : str_of_Z z <> "".
Proof.
  destruct z as [|p|p]; [done| |done]. cbn [str_of_Z].
  destruct (str_of_N_spec (Npos p)) as (_ & _ & d & r & -> & _). done.
Qed.

Lemma dumps_head v :
  clean v -> exists c r, dumps v = String c r /\ kind_of_char c = kind v.
Proof.
  intros [_ Hs]. destruct v as [|[]|z|f|s|l|l|d|t]; try discriminate Hs;
    try (by eexists _, _).
  - apply num_char_head; [apply str_of_Z_nonempty | apply int_num_chars, str_of_Z_chars].
  - pose proof (float_repr_chars f Hs). pose proof (float_repr_not_int f Hs) as Hn.
    apply num_char_head; [|done]. simpl. intros E. by rewrite E in Hn.
Qed.

Definition readable : pyval -> Prop := reads dumps same_json clean.

Lemma readable_numbers v w x y :
  kind v = 0%nat -> kind w = 0%nat -> clean v -> clean w ->
  ends_run num_char x -> ends_run num_char y ->
  dumps v +:+ x = dumps w +:+ y -> same_json v w /\ x = y.
Proof.
  intros Hv Hw [_ Sv] [_ Sw] Hx Hy E.
  assert (forall v, kind v = 0%nat -> serializable v = true -> sall num_char (dumps v) = true) as Hn.
  { intros [|[]|z|f| | | | |]; try done; intros _ Hs;
      [apply int_num_chars, str_of_Z_chars | by apply float_repr_chars]. }
  destruct (sall_run_inj num_char _ _ _ _ (Hn v Hv Sv) (Hn w Hw Sw) Hx Hy E) as [E' ->].
  split; [|done].
  destruct v as [|[]|z|f| | | | |], w as [|[]|z'|f'| | | | |]; try done; simpl in E'.
  - apply str_of_Z_inj in E' as ->. by constructor.
  - pose proof (float_repr_not_int f' Sw) as G. by rewrite <- E', str_of_Z_chars in G.
  - pose proof (float_repr_not_int f Sv) as G. by rewrite E', str_of_Z_chars in G.
  - apply float_repr_inj in E' as ->; [by constructor | done..].
Qed.

Lemma dumps_not_close v c r : clean v -> kind_of_char c = 7%nat -> dumps v <> String c r.
Proof.
  intros Hv Hc E. destruct (dumps_head v Hv) as (c' & r' & E' & Hk).
  rewrite E in E'. injection E' as <- <-. rewrite Hc in Hk. by destruct v as [|[]| | | | | | |].
Qed.

Lemma readable_seq v w l l' x y :
  as_seq v = Some l -> as_seq w = Some l' -> Forall readable l -> clean v -> clean w ->
  dumps v +:+ x = dumps w +:+ y -> same_json v w /\ x = y.
Proof.
  intros Hl Hl' IH Hv Hw. rewrite (dumps_seq _ _ Hl), (dumps_seq _ _ Hl'), !sapp_assoc.
  rewrite !sapp_cons, !sapp_nil_l. intros [= E].
  apply (clean_seq _ _ Hl) in Hv. apply (clean_seq _ _ Hl') in Hw.
  apply (reads_items dumps same_json clean "]") in E as [HF ->]; try done.
  - split; [by econstructor | done].
  - intros a r Ha. by apply dumps_not_close.
  - intros a Ha E'. destruct (dumps_head a Ha) as (? & ? & E2 & _). congruence.
Qed.

(** Members with their keys as strings, before encoding the values. *)
Definition keyed (d : dict) : list (string * pyval) :=
  map (fun kv => (key_text kv.1, kv.2)) d.
Definition unkeyed (l : list (string * pyval)) : dict := map (fun m => (KStr m.1, m.2)) l.
Lemma texts_keyed d : texts d = prod_map id dumps <$> keyed d.
Proof. unfold texts, keyed. rewrite <- list_fmap_compose. done. Qed.
Lemma unkeyed_keyed d : clean_dict d -> unkeyed (keyed d) = d.
Proof.
  intros [_ Hs]. unfold unkeyed, keyed. induction Hs as [|[[k|k] v] d [Hk _] Hs IH]; simpl in *;
    [done|by rewrite IH|done].
Qed.
Definition member (m : string * pyval) : string := member_text (prod_map id dumps m).
Definition same_member (m n : string * pyval) : Prop := m.1 = n.1 /\ same_json m.2 n.2.

Lemma reads_member m : readable m.2 -> reads member same_member (fun m => clean m.2) m.
Proof.
  intros Hr n x y Hm Hn Hx Hy. unfold member, member_text. destruct m as [k v], n as [k' v'].
  cbn [prod_map fst snd id] in *. rewrite !sapp_assoc. intros E.
  apply quote_json_inj in E as [-> E]. rewrite !sapp_cons, !sapp_nil_l in E. injection E as E.
  apply Hr in E as [Hs ->]; auto. by repeat split.
Qed.

Lemma readable_dict d d' x y :
  Forall (fun kv => readable kv.2) d -> clean_dict d -> clean_dict d' ->
  dumps (VDict d) +:+ x = dumps (VDict d') +:+ y -> same_json (VDict d) (VDict d') /\ x = y.
Proof.
  intros IH Hd Hd'. rewrite !dumps_dict, !texts_keyed, !ksort_map, !sapp_assoc.
  rewrite !sapp_cons, !sapp_nil_l. intros [= E].
  assert (forall l, map member_text (prod_map id dumps <$> l) = map member l) as Hmap.
  { intros l. unfold member. by rewrite <- (list_fmap_compose _ member_text). }
  rewrite !Hmap in E.
  assert (forall d, clean_dict d -> Forall (fun m => clean m.2) (ksort (keyed d))) as Hcl.
  { intros d0 [_ Hd0]. rewrite ksort_perm. apply Forall_map. eapply Forall_impl; [exact Hd0|].
    by intros ? [_ ?]. }
  apply (reads_items member same_member (fun m => clean m.2) "}") in E as [HF ->];
    [|done|done|done|done| |by apply Hcl|by apply Hcl].
  2: { rewrite ksort_perm. apply Forall_map. eapply Forall_impl; [exact IH|].
       intros kv Hkv. by apply reads_member. }
  split; [|done].
  destruct (Permutation_Forall2 (ksort_perm (keyed d')) (proj2 (Forall2_flip _ _ _) HF)) as (e & He & HF').
  apply same_dict with (e := unkeyed e).
  - rewrite <- (unkeyed_keyed d) at 1 by done. apply Permutation_map. by rewrite <- He, ksort_perm.
  - rewrite <- (unkeyed_keyed d') by done. apply Forall2_fmap.
    apply Forall2_flip. eapply Forall2_impl; [exact HF'|].
    intros m n [Hk Hs]. split; [simpl; by rewrite Hk | done].
Qed.

Lemma dumps_readable v : readable v.
Proof.
  induction v as [| | | | |l IH|l IH|d IH|] using pyval_ind'; intros w x y Hv Hw Hx Hy E;
    pose proof E as E0;
    destruct (dumps_head _ Hv) as (c & r & Ec & Hc), (dumps_head w Hw) as (c' & r' & Ec' & Hc');
    rewrite Ec, Ec', !sapp_cons in E0; injection E0 as -> _; rewrite Hc in Hc'; clear Hc.
  - destruct w as [|[]| | | | | | |]; try done.
    apply sapp_inj_l in E as ->. split; [by constructor | done].
  - destruct b, w as [|[]| | | | | | |]; try done; apply sapp_inj_l in E as ->; split;
      (by constructor) || done.
  - apply readable_numbers; auto.
  - apply readable_numbers; auto.
  - destruct w as [|[]| | | | | | |]; try done. apply quote_json_inj in E as [-> ->].
    split; [by constructor | done].
  - destruct (as_seq w) as [l'|] eqn:Hl'; [|by destruct w as [|[]| | | | | | |]].
    by apply (readable_seq (VList l) w l l').
  - destruct (as_seq w) as [l'|] eqn:Hl'; [|by destruct w as [|[]| | | | | | |]].
    by apply (readable_seq (VTuple l) w l l').
  - destruct w as [|[]| | | | | |d'|]; try done. apply readable_dict; [done| | |done];
      by apply clean_VDict.
  - destruct Hv as [_ Hv]. done.
Qed.

Lemma dumps_inj v w : clean v -> clean w -> dumps v = dumps w -> same_json v w.
Proof.
  intros Hv Hw E. apply (dumps_readable v w "" ""); auto; [done|done|]. by rewrite !sapp_nil_r.
Qed.
End reading.

(** ** Properties *)

Lemma canonical_bytes_Ok `{Platform} v b :
  canonical_bytes v = Ok b <-> serializable v = true /\ b = encode_utf8 (dumps v).
Proof.
  unfold canonical_bytes. rewrite bind_Ok. setoid_rewrite canonical_json_Ok.
  split; [intros (t & [Hs ->] & [= <-]); done | intros [Hs ->]; eauto].
Qed.

(** Two documents with distinct keys have the same bytes exactly when they are
    the same JSON value. *)
Lemma canonical_bytes_same `{FloatText} v w b c :
  wf v -> wf w -> canonical_bytes v = Ok b -> canonical_bytes w = Ok c ->
  b = c <-> same_json v w.
Proof.
  rewrite !canonical_bytes_Ok. intros Wv Ww [Sv ->] [Sw ->]. split.
  - intros E%encode_utf8_inj. by apply dumps_inj.
  - intros E. f_equal. by apply dumps_same.
Qed.
Lemma canonical_bytes_fails `{Platform} v :
  serializable v = false <-> exists m, canonical_bytes v = Err (Raised CanonicalJsonError m).
Proof.
  unfold canonical_bytes, canonical_json. pose proof (assert_serializable_spec v "") as Hs.
  destruct (assert_serializable v "") as [[]|e]; cbn [bind].
  - rewrite Hs. split; [done | by intros [? [=]]].
  - destruct Hs as [Hs [m ->]]. split; eauto.
Qed.


(** A concrete platform for the witnesses: a float as [mantissa e exponent]. *)
Definition demo_float_repr (f : spec_float) : string :=
  match f with
  | S754_zero s => if s then "-0.0" else "0.0"
  | S754_finite s m e =>
      (if s then "-" else "") +:+ str_of_N (Npos m) +:+ "e" +:+ str_of_Z e
  | S754_infinity s => if s then "-inf" else "inf"
  | S754_nan => "nan"
  end.
#[export] Instance demo_platform : Platform :=
  {| float_repr := demo_float_repr; sha256_hex := fun s => s |}.

Lemma digits_no_e n : has_char "e" (str_of_N n) = false.
Proof. apply (has_char_false_all _ is_digit); [apply str_of_N_spec | done]. Qed.

Lemma demo_finite_parts s m e :
  partition_on "e" (demo_float_repr (S754_finite s m e)) =
    ((if s then "-" else "") +:+ str_of_N (Npos m), true, str_of_Z e).
Proof.
  unfold demo_float_repr. rewrite <- sapp_assoc, sapp_cons, sapp_nil_l.
  rewrite partition_on_app; [done|]. unfold has_char. rewrite sany_app.
  fold (has_char "e"). rewrite digits_no_e. by destruct s.
Qed.

#[export] Instance demo_float_text : FloatText.
Proof.
  split.
  - intros [[]|[]| |s m e]; try done. intros _. cbn [float_repr demo_platform demo_float_repr].
    rewrite !sall_app. pose proof (str_of_Z_chars e) as He%int_num_chars.
    pose proof (int_num_chars _ (str_of_Z_chars (Zpos m))) as Hm. simpl in Hm.
    rewrite He, Hm. by destruct s.
  - intros [[]|[]| |s m e]; try done. intros _. cbn [float_repr demo_platform demo_float_repr].
    rewrite !sall_app. change (sall int_char "e") with false. by rewrite !andb_false_r.
  - intros f g Hf Hg E. cbn [float_repr demo_platform] in E.
    assert (partition_on "e" (demo_float_repr f) = partition_on "e" (demo_float_repr g)) as P
      by (by rewrite E).
    destruct f as [[]|[]| |s m e], g as [[]|[]| |s' m' e']; try done;
      rewrite ?demo_finite_parts in P; try discriminate P.
    injection P as P1 P2. apply str_of_Z_inj in P2 as ->.
    destruct s, s'; rewrite ?sapp_cons, ?sapp_nil_l in P1.
    + injection P1 as P1. apply str_of_N_inj in P1. congruence.
    + symmetry in P1. by apply str_of_N_not_dash in P1.
    + by apply str_of_N_not_dash in P1.
    + apply str_of_N_inj in P1. congruence.
Qed.


Section digests.
Context `{FloatText}.

Lemma content_digest_Ok d ex e :
  content_digest d ex = Ok e <->
  exists p b, digest_payload d ex = Ok p /\ canonical_bytes p = Ok b /\ e = digest_of b.
Proof.
  unfold content_digest. rewrite bind_Ok. split.
  - intros (p & Hp & (b & Hb & [= <-])%bind_Ok). eauto 6.
  - intros (p & b & Hp & Hb & ->). exists p. split; [done|]. by rewrite Hb.
Qed.

Lemma verify_digest_true d expected ex :
  verify_digest d expected ex = Ok true <->
  exists e, expected = VStr e /\ content_digest d ex = Ok e.
Proof.
  unfold verify_digest. split.
  - destruct expected as [| | | |e| | | |]; try done.
    destruct (negb (starts_with _ _)); [done|]. unfold except.
    destruct (content_digest d ex) as [a|x]; cbn [bind].
    + intros [= E]. apply String.eqb_eq in E as ->. eauto.
    + by destruct (is_class _ x).
  - intros (e & -> & Hc). rewrite Hc. apply content_digest_Ok in Hc as (p & b & _ & _ & ->).
    unfold digest_of. replace (starts_with _ _) with true; [|symmetry; apply starts_with_true; eauto].
    cbn [negb bind except]. by rewrite String.eqb_refl.
Qed.

Lemma verify_digest_total d expected ex : exists b, verify_digest d expected ex = Ok b.
Proof.
  unfold verify_digest. destruct expected; eauto. destruct (negb _); eauto.
  unfold except. destruct (content_digest d ex) as [a|x] eqn:E; cbn [bind]; eauto.
  replace (is_class CanonicalJsonError x) with true; [eauto|].
  unfold content_digest in E. apply bind_Err in E as [E|(p & _ & E)].
  - destruct ex; [done|]. destruct d; try done; by injection E as <-.
  - apply bind_Err in E as [E|(b & _ & [=])]. unfold canonical_bytes, canonical_json in E.
    pose proof (assert_serializable_spec p "") as Hs.
    destruct (assert_serializable p ""); [done|]. destruct Hs as [_ [m ->]]. by injection E as <-.
Qed.
End digests.

(** [verify_digest] never raises, and accepts a document against the digest
    of another one exactly when the two payloads, without the excluded fields,
    are the same JSON value, unless SHA-256 itself maps two different byte
    strings to one digest. *)
Theorem verify_digest_binds `{FloatText} :
  (forall d expected ex, exists b, verify_digest d expected ex = Ok b) /\
  (forall d d' ex e p p',
     content_digest d ex = Ok e -> digest_payload d ex = Ok p -> digest_payload d' ex = Ok p' ->
     wf p -> wf p' -> serializable p' = true ->
     (same_json p p' -> verify_digest d' (VStr e) ex = Ok true) /\
     (verify_digest d' (VStr e) ex = Ok true ->
        same_json p p' \/ exists b c, b <> c /\ sha256_hex b = sha256_hex c)).
Proof.
  split; [apply verify_digest_total|].
  intros d d' ex e p p' (p0 & b & Hp0 & Hb & ->)%content_digest_Ok Hp Hp' Wp Wp' Sp'.
  rewrite Hp0 in Hp. injection Hp as ->.
  assert (canonical_bytes p' = Ok (encode_utf8 (dumps p'))) as Hb' by by apply canonical_bytes_Ok.
  rewrite verify_digest_true. pose proof (canonical_bytes_same p p' _ _ Wp Wp' Hb Hb') as Hs.
  split.
  - intros Hj. eexists. split; [done|]. apply content_digest_Ok.
    exists p', b. split; [done|]. split; [by rewrite (proj2 Hs Hj)|done].
  - intros (e & [= <-] & (p1 & c & Hp1 & Hc & E)%content_digest_Ok).
    rewrite Hp' in Hp1. injection Hp1 as <-. rewrite Hb' in Hc. injection Hc as <-.
    unfold digest_of in E. apply sapp_inj_l in E.
    destruct (decide (b = encode_utf8 (dumps p'))) as [Eb|Nb]; [left; by apply Hs | right; eauto].
Qed.

Lemma verify_digest_binds_witness :
  verify_digest (VDict {{ "signature" ~> VNone; "a" ~> VInt 1; "b" ~> VBool true }})
    (VStr (digest_of (encode_utf8 (dumps (VDict {{ "b" ~> VBool true; "a" ~> VInt 1 }})))))
    SNAPSHOT_DIGEST_EXCLUDED = Ok true.
Proof.
  apply (proj2 verify_digest_binds (VDict {{ "b" ~> VBool true; "a" ~> VInt 1 }})
           (VDict {{ "signature" ~> VNone; "a" ~> VInt 1; "b" ~> VBool true }})
           SNAPSHOT_DIGEST_EXCLUDED _
           (VDict {{ "b" ~> VBool true; "a" ~> VInt 1 }})
           (VDict {{ "a" ~> VInt 1; "b" ~> VBool true }}));
    try (vm_compute; reflexivity);
    try (split; [apply (bool_decide_unpack _); vm_compute; exact I | simpl; tauto]).
  eapply same_dict; [apply perm_swap|]. repeat constructor.
Defined.
