(* ===== verification/Signing.v ===== *)
(** * Producer signatures

    [toollayer_contracts/signing.py]: base64url as the source calls it (the
    non-strict [binascii.a2b_base64]), key rings, signing and verification of
    documents. Ed25519 itself is the class [Ed25519]; a key object stands for
    its raw bytes. *)

From S2P Require Export CanonicalJson Regex.

Definition SIGNATURE_ALGORITHM : string := "ed25519".
Definition SIGNATURE_EXCLUDED_FIELD : string := "signature".
Definition ED25519_KEY_BYTES : nat := 32.
Definition ED25519_SIGNATURE_BYTES : nat := 64.

Definition key_id_edge (c : ascii) : bool := is_lower c || is_digit c.
Definition key_id_char (c : ascii) : bool :=
  key_id_edge c || Ascii.eqb c "." || Ascii.eqb c "_" || Ascii.eqb c "-".
Definition KEY_ID_PATTERN : re :=
  RCat (RSet key_id_edge) (RCat (rrep 0 62 (RSet key_id_char)) (RSet key_id_edge)).

(** ** Base64url *)

Definition b64_char (n : N) : ascii :=
  if (n <? 26)%N then ascii_of_N (65 + n)
  else if (n <? 52)%N then ascii_of_N (71 + n)
  else if (n <? 62)%N then ascii_of_N (n - 4)
  else if (n =? 62)%N then "-"%char else "_"%char.
(** The decoding table after the translation of [-_] to [+/]. *)
Definition b64_value (c : ascii) : option N :=
  if is_upper c then Some (code c - 65)%N
  else if is_lower c then Some (code c - 71)%N
  else if is_digit c then Some (code c + 4)%N
  else if Ascii.eqb c "+" || Ascii.eqb c "-" then Some 62%N
  else if Ascii.eqb c "/" || Ascii.eqb c "_" then Some 63%N
  else None.

(** Three bytes to four characters; the tail without its [=] padding, which
    [rstrip] removes. *)
Fixpoint b64u_encode (raw : string) : string :=
  match raw with
  | "" => ""
  | String a "" =>
      String (b64_char (code a / 4)) (String (b64_char (code a mod 4 * 16)) "")
  | String a (String b "") =>
      String (b64_char (code a / 4))
        (String (b64_char (code a mod 4 * 16 + code b / 16))
          (String (b64_char (code b mod 16 * 4)) ""))
  | String a (String b (String c raw)) =>
      String (b64_char (code a / 4))
        (String (b64_char (code a mod 4 * 16 + code b / 16))
          (String (b64_char (code b mod 16 * 4 + code c / 64))
            (String (b64_char (code c mod 64)) (b64u_encode raw))))
  end.

(** [binascii.a2b_base64] without [strict_mode]: characters outside the
    alphabet are skipped, a completed padding ends the input.  The state is
    the position in the current quad, the bits left over and the number of
    padding characters seen since the last data character. *)
Fixpoint a2b_base64 (quad_pos : nat) (leftchar : N) (pads : nat) (s : string) : option string :=
  match s with
  | "" => match quad_pos with O => Some "" | _ => None end
  | String c s =>
      if Ascii.eqb c "=" then
        if (2 <=? quad_pos)%nat && (4 <=? quad_pos + S pads)%nat then Some ""
        else a2b_base64 quad_pos leftchar (if (2 <=? quad_pos)%nat then S pads else pads) s
      else
        match b64_value c with
        | None => a2b_base64 quad_pos leftchar pads s
        | Some v =>
            match quad_pos with
            | 0%nat => a2b_base64 1 v 0 s
            | 1%nat => String (ascii_of_N (leftchar * 4 + v / 16)) <$> a2b_base64 2 (v mod 16) 0 s
            | 2%nat => String (ascii_of_N (leftchar * 16 + v / 4)) <$> a2b_base64 3 (v mod 4) 0 s
            | _ => String (ascii_of_N (leftchar * 64 + v)) <$> a2b_base64 0 0 0 s
            end
        end
  end.

Fixpoint padding (n : nat) : string := match n with O => "" | S n => String "=" (padding n) end.

Definition b64u_decode (value : pyval) (expected_length : option nat) : M string :=
  match value with
  | VStr value =>
      if is_empty value then
        raise (Raised InvalidKeyMaterial "expected a non-empty base64url string")
      else
        let padded := value +:+ padding ((4 - slen value mod 4) mod 4)%nat in
        if is_ascii padded then
          match a2b_base64 0 0 0 padded with
          | None => raise (Raised InvalidKeyMaterial "the value is not valid base64url")
          | Some raw =>
              match expected_length with
              | Some n =>
                  if negb (slen raw =? n)%nat then
                    raise (Raised InvalidKeyMaterial
                      ("expected " +:+ str_of_N (N.of_nat n) +:+ " bytes, got " +:+
                       str_of_N (N.of_nat (slen raw))))
                  else Ok raw
              | None => Ok raw
              end
          end
        else raise (Raised InvalidKeyMaterial "the value is not valid base64url")
  | _ => raise (Raised InvalidKeyMaterial "expected a non-empty base64url string")
  end.

Definition require_key_id (key_id : string) : M string :=
  if negb (match_dollar KEY_ID_PATTERN key_id) then
    raise (Raised InvalidKeyMaterial
      "a key id must be 2-64 characters of lowercase alphanumerics, '.', '_' or '-'")
  else Ok key_id.

(** ** Keys *)

(** The operations of an Ed25519 implementation on raw keys. *)
Class Ed25519 := {
  ed_public : string -> string;                    (* seed, public key *)
  ed_sign : string -> string -> string;            (* seed, message, signature *)
  ed_verify : string -> string -> string -> bool;  (* public key, signature, message *)
}.
(** What the program relies on: a signature has 64 bytes and verifies. *)
Class Ed25519Laws `{Ed25519} := {
  ed_sign_length seed m : slen (ed_sign seed m) = ED25519_SIGNATURE_BYTES;
  ed_sign_verifies seed m : ed_verify (ed_public seed) (ed_sign seed m) m = true;
}.

Record VerifyingKey := MkVerifyingKey { vk_key_id : string; vk_public : string }.
Record SigningKey := MkSigningKey { sk_key_id : string; sk_private : string }.

#[export] Instance VerifyingKey_eq_dec : EqDecision VerifyingKey.
Proof. solve_decision. Defined.

(** The length is checked before the key id, as in the source. *)
Definition verifying_key_from_encoded (key_id public_key : string) : M VerifyingKey :=
  let* raw := b64u_decode (VStr public_key) (Some ED25519_KEY_BYTES) in
  let* key_id := require_key_id key_id in
  Ok (MkVerifyingKey key_id raw).
Definition signing_key_from_encoded (key_id private_key : string) : M SigningKey :=
  let* raw := b64u_decode (VStr private_key) (Some ED25519_KEY_BYTES) in
  let* key_id := require_key_id key_id in
  Ok (MkSigningKey key_id raw).
(** [Ed25519PrivateKey.generate()] draws the seed. *)
Definition generate_signing_key (key_id seed : string) : M SigningKey :=
  let* key_id := require_key_id key_id in Ok (MkSigningKey key_id seed).
Definition encoded_private_key (key : SigningKey) : string := b64u_encode (sk_private key).

Section keys.
Context `{Ed25519}.

Definition vk_verify (key : VerifyingKey) (message signature : string) : bool :=
  if negb (slen signature =? ED25519_SIGNATURE_BYTES)%nat then false
  else ed_verify (vk_public key) signature message.
Definition sk_sign (key : SigningKey) (message : string) : string :=
  ed_sign (sk_private key) message.
Definition public_key (key : SigningKey) : VerifyingKey :=
  MkVerifyingKey (sk_key_id key) (ed_public (sk_private key)).
Definition encoded_public_key (key : SigningKey) : string :=
  b64u_encode (ed_public (sk_private key)).
End keys.

(** ** Key rings *)

Abbreviation TrustedKeyRing := (list VerifyingKey).
Definition EMPTY_KEY_RING : TrustedKeyRing := [].

Fixpoint ring_parse_go (entries : list string) (seen : list string) (keys : list VerifyingKey)
  : M TrustedKeyRing :=
  match entries with
  | [] => Ok keys
  | entry :: entries =>
      let '(key_id, separator, encoded) := partition_on ":" entry in
      if negb separator then
        raise (Raised InvalidKeyMaterial
          "a trusted key entry must be written as 'key_id:base64url_public_key'")
      else
        let* key := verifying_key_from_encoded (strip key_id) (strip encoded) in
        if str_in (vk_key_id key) seen then
          raise (Raised InvalidKeyMaterial
            ("the key id " +:+ repr_str (vk_key_id key) +:+ " is listed more than once"))
        else ring_parse_go entries (vk_key_id key :: seen) (keys ++ [key])
  end.
Definition ring_parse (entries : list string) : M TrustedKeyRing := ring_parse_go entries [] [].
Definition key_ids (ring : TrustedKeyRing) : list string := map vk_key_id ring.
Definition ring_find (ring : TrustedKeyRing) (key_id : string) : option VerifyingKey :=
  find_first (fun key => String.eqb (vk_key_id key) key_id) ring.

(** ** Documents *)

Section documents.
Context `{Platform, Ed25519}.

Definition signing_input (document : dict) : M string :=
  canonical_bytes (VDict (without [SIGNATURE_EXCLUDED_FIELD] document)).

Definition signature_block (key_id value : string) : pyval :=
  VDict {{ "algorithm" ~> VStr SIGNATURE_ALGORITHM; "key_id" ~> VStr key_id;
           "value" ~> VStr value }}.
Definition sign_document (document : dict) (key : SigningKey) : M pyval :=
  let* input := signing_input document in
  Ok (signature_block (sk_key_id key) (b64u_encode (sk_sign key input))).

Definition verify_document (document : dict) (ring : TrustedKeyRing) : M string :=
  match get SIGNATURE_EXCLUDED_FIELD document with
  | VNone => raise (Raised SignatureVerificationError "the document carries no producer signature")
  | VDict block =>
      if negb (py_eq (get "algorithm" block) (VStr SIGNATURE_ALGORITHM)) then
        raise (Raised SignatureVerificationError
          ("the signature algorithm is not supported; expected " +:+ repr_str SIGNATURE_ALGORITHM))
      else
      match get "key_id" block with
      | VStr key_id =>
          if is_empty key_id then
            raise (Raised SignatureVerificationError "the signature names no key id")
          else if match ring with [] => true | _ => false end then
            raise (Raised SignatureVerificationError
              "this consumer has no trusted signing keys configured")
          else
          match ring_find ring key_id with
          | None =>
              raise (Raised SignatureVerificationError
                ("the signing key " +:+ repr_str key_id +:+ " is not trusted here"))
          | Some key =>
              match get "value" block with
              | VStr value =>
                  let* signature :=
                    except (b64u_decode (VStr value) (Some ED25519_SIGNATURE_BYTES))
                      (is_class InvalidKeyMaterial)
                      (fun _ => raise (Raised SignatureVerificationError
                                         "the signature value is malformed")) in
                  let* input := signing_input document in
                  if negb (vk_verify key input signature) then
                    raise (Raised SignatureVerificationError
                      "the signature does not verify for this document")
                  else Ok (vk_key_id key)
              | _ => raise (Raised SignatureVerificationError "the signature value is missing")
              end
          end
      | _ => raise (Raised SignatureVerificationError "the signature names no key id")
      end
  | _ => raise (Raised SignatureVerificationError "the signature block is not an object")
  end.
End documents.

(** ** Base64url round trip *)

Lemma b64_value_char n : (n < 64)%N -> b64_value (b64_char n) = Some n.
Proof.
  assert (forallb (fun n => bool_decide (b64_value (b64_char n) = Some n))
            (map N.of_nat (seq 0 64)) = true) as Hall by (vm_compute; reflexivity).
  rewrite forallb_Forall, Forall_forall in Hall. intros Hn.
  specialize (Hall n). rewrite bool_decide_eq_true in Hall. apply Hall.
  apply list_elem_of_In, in_map_iff. exists (N.to_nat n). split; [lia|]. apply in_seq. lia.
Qed.
Lemma b64_char_plain n : (n < 64)%N -> Ascii.eqb (b64_char n) "=" = false.
Proof.
  intros Hn. destruct (Ascii.eqb_spec (b64_char n) "=") as [E|]; [|done].
  pose proof (b64_value_char n Hn) as G. rewrite E in G. by vm_compute in G.
Qed.
Lemma code_lt c : (code c < 256)%N.
Proof. apply N_ascii_bounded. Qed.
Lemma ascii_of_code c n : n = code c -> ascii_of_N n = c.
Proof. intros ->. apply ascii_N_embedding. Qed.

(** One data character. *)
Lemma a2b_step q l p n s :
  (n < 64)%N ->
  a2b_base64 q l p (String (b64_char n) s) =
  match q with
  | 0%nat => a2b_base64 1 n 0 s
  | 1%nat => String (ascii_of_N (l * 4 + n / 16)) <$> a2b_base64 2 (n mod 16) 0 s
  | 2%nat => String (ascii_of_N (l * 16 + n / 4)) <$> a2b_base64 3 (n mod 4) 0 s
  | _ => String (ascii_of_N (l * 64 + n)) <$> a2b_base64 0 0 0 s
  end.
Proof. intros Hn. cbn [a2b_base64]. by rewrite b64_char_plain, b64_value_char. Qed.

Lemma a2b_pad2 l : a2b_base64 2 l 0 "==" = Some "".
Proof. done. Qed.
Lemma a2b_pad3 l : a2b_base64 3 l 0 "=" = Some "".
Proof. done. Qed.

(** The text of [b64u_encode] with its padding restored decodes to the bytes. *)
Lemma b64u_padding_step raw a b c :
  slen (b64u_encode (String a (String b (String c raw)))) = (4 + slen (b64u_encode raw))%nat.
Proof. done. Qed.

Definition pad_for (n : nat) : string := padding ((4 - n mod 4) mod 4)%nat.
Lemma pad_for_4 n : pad_for (4 + n) = pad_for n.
Proof.
  unfold pad_for. replace (4 + n)%nat with (n + 1 * 4)%nat by lia. by rewrite Nat.Div0.mod_add.
Qed.

(** [lia] with division and remainder by constants. *)
Ltac div_lia := zify; Z.to_euclidean_division_equations; lia.

(** The bits of each byte, spread over two characters and put together again. *)
Lemma b64_byte1 x y : (x < 256)%N -> (y < 256)%N ->
  (x / 4 * 4 + (x mod 4 * 16 + y / 16) / 16)%N = x.
Proof. intros. div_lia. Qed.
Lemma b64_byte2 x y z : (x < 256)%N -> (y < 256)%N -> (z < 256)%N ->
  ((x mod 4 * 16 + y / 16) mod 16 * 16 + (y mod 16 * 4 + z / 64) / 4)%N = y.
Proof. intros. div_lia. Qed.
Lemma b64_byte3 y z : (y < 256)%N -> (z < 256)%N ->
  ((y mod 16 * 4 + z / 64) mod 4 * 64 + z mod 64)%N = z.
Proof. intros. div_lia. Qed.
Lemma b64_sextets x y z : (x < 256)%N -> (y < 256)%N -> (z < 256)%N ->
  (x / 4 < 64)%N /\ (x mod 4 * 16 + y / 16 < 64)%N /\ (y mod 16 * 4 + z / 64 < 64)%N /\
  (z mod 64 < 64)%N.
Proof. intros. split_and!; div_lia. Qed.

(** Strings by groups of three characters. *)
Lemma string_ind3 (P : string -> Prop) :
  P "" -> (forall a, P (String a "")) -> (forall a b, P (String a (String b ""))) ->
  (forall a b c s, P s -> P (String a (String b (String c s)))) -> forall s, P s.
Proof.
  intros H0 H1 H2 H3 s.
  enough (P s /\ (forall a, P (String a s)) /\ (forall a b, P (String a (String b s)))) by tauto.
  induction s as [|c s (IH0 & IH1 & IH2)]; auto.
Qed.

Lemma a2b_encode raw :
  a2b_base64 0 0 0 (b64u_encode raw +:+ pad_for (slen (b64u_encode raw))) = Some raw.
Proof.
  induction raw as [|a|a b|a b c raw IH] using string_ind3; [done|..];
    pose proof (code_lt a) as Ha.
  - destruct (b64_sextets (code a) 0 0 Ha) as (H1 & H2 & _); [lia..|].
    cbn [b64u_encode]. rewrite !sapp_cons, sapp_nil_l. rewrite a2b_step by done.
    rewrite a2b_step by (rewrite N.add_0_r in H2; exact H2).
    change (pad_for _) with "==". rewrite a2b_pad2. simpl. f_equal. f_equal.
    apply ascii_of_code. rewrite <- (b64_byte1 (code a) 0) at 3 by lia. by rewrite !N.add_0_r.
  - pose proof (code_lt b) as Hb.
    destruct (b64_sextets (code a) (code b) 0 Ha Hb) as (H1 & H2 & H3 & _); [lia..|].
    rewrite N.add_0_r in H3.
    cbn [b64u_encode]. rewrite !sapp_cons, sapp_nil_l, !a2b_step by done.
    change (pad_for _) with "=". rewrite a2b_pad3. cbn [fmap option_fmap option_map].
    do 2 f_equal; [|f_equal]; apply ascii_of_code; [by apply b64_byte1|].
    rewrite <- (b64_byte2 (code a) (code b) 0) at 3 by lia. by rewrite !N.add_0_r.
  - pose proof (code_lt b) as Hb. pose proof (code_lt c) as Hc.
    destruct (b64_sextets (code a) (code b) (code c) Ha Hb Hc) as (H1 & H2 & H3 & H4).
    rewrite b64u_padding_step, pad_for_4.
    cbn [b64u_encode]. rewrite !sapp_cons, !a2b_step by done. rewrite IH.
    cbn [fmap option_fmap option_map].
    do 2 f_equal; [|f_equal; [|f_equal]]; apply ascii_of_code;
      [by apply b64_byte1 | by apply b64_byte2 | by apply b64_byte3].
Qed.

(** What holds of the 64 characters of the alphabet holds of encoded text. *)
Definition alphabet_all (p : ascii -> bool) : bool :=
  forallb (fun n => p (b64_char n)) (map N.of_nat (seq 0 64)).
Lemma b64_char_all p n : alphabet_all p = true -> (n < 64)%N -> p (b64_char n) = true.
Proof.
  intros Hall Hn. unfold alphabet_all in Hall. rewrite forallb_Forall, Forall_forall in Hall. apply Hall.
  apply list_elem_of_In, in_map_iff. exists (N.to_nat n). split; [lia|]. apply in_seq. lia.
Qed.
Lemma b64u_encode_all p raw : alphabet_all p = true -> sall p (b64u_encode raw) = true.
Proof.
  intros Hp. induction raw as [|a|a b|a b c raw IH] using string_ind3; [done|..];
    pose proof (code_lt a) as Ha; cbn [b64u_encode sall];
    repeat (apply andb_true_iff; split; [apply b64_char_all; [exact Hp|]|]); try done;
    try (pose proof (code_lt b) as Hb); try (pose proof (code_lt c) as Hc); div_lia.
Qed.
Lemma b64u_encode_ascii raw : is_ascii (b64u_encode raw) = true.
Proof. by apply b64u_encode_all. Qed.
Lemma b64u_encode_no_dot raw : has_char "." (b64u_encode raw) = false.
Proof. by apply (has_char_false_all _ (fun c => negb (Ascii.eqb c "."))); [apply b64u_encode_all|]. Qed.
Lemma padding_ascii n : is_ascii (padding n) = true.
Proof. induction n; [done|]. apply IHn. Qed.
Lemma b64u_encode_empty raw : is_empty (b64u_encode raw) = is_empty raw.
Proof. by destruct raw as [|a [|b [|c r]]]. Qed.

Lemma b64u_decode_encode raw n :
  raw <> "" -> n = None \/ n = Some (slen raw) -> b64u_decode (VStr (b64u_encode raw)) n = Ok raw.
Proof.
  intros Hne Hn. unfold b64u_decode. rewrite b64u_encode_empty.
  replace (is_empty raw) with false by by destruct raw.
  cbv zeta. unfold is_ascii. rewrite sall_app. fold is_ascii.
  rewrite b64u_encode_ascii, padding_ascii. cbn [andb].
  fold (pad_for (slen (b64u_encode raw))). rewrite a2b_encode.
  destruct Hn as [->| ->]; [done|]. by rewrite Nat.eqb_refl.
Qed.

Lemma b64u_decode_fails v n e :
  b64u_decode v n = Err e -> exists m, e = Raised InvalidKeyMaterial m.
Proof.
  unfold b64u_decode. destruct v; try (intros [= <-]; eauto).
  destruct (is_empty _); [intros [= <-]; eauto|]. cbv zeta.
  destruct (is_ascii _); [|intros [= <-]; eauto].
  destruct (a2b_base64 _ _ _ _); [|intros [= <-]; eauto].
  destruct n; [|done]. destruct (negb _); [intros [= <-]; eauto|done].
Qed.
Lemma b64u_decode_length v n raw : b64u_decode v (Some n) = Ok raw -> slen raw = n.
Proof.
  unfold b64u_decode. destruct v; try done. destruct (is_empty _); [done|]. cbv zeta.
  destruct (is_ascii _); [|done]. destruct (a2b_base64 _ _ _ _) as [r|]; [|done].
  destruct (Nat.eqb_spec (slen r) n); cbn [negb]; [|done]. by intros [= <-].
Qed.

(** ** Key rings *)

Definition key_ok (key : VerifyingKey) : Prop :=
  match_dollar KEY_ID_PATTERN (vk_key_id key) = true /\ slen (vk_public key) = ED25519_KEY_BYTES.

Lemma verifying_key_ok k p key :
  verifying_key_from_encoded k p = Ok key -> key_ok key /\ vk_key_id key = k.
Proof.
  unfold verifying_key_from_encoded. intros (raw & Hr & (k' & Hk & [= <-])%bind_Ok)%bind_Ok.
  unfold require_key_id in Hk. destruct (match_dollar _ _) eqn:E; [|done]. injection Hk as <-.
  split; [|done]. split; [done | by eapply b64u_decode_length].
Qed.

Lemma ring_parse_go_ok entries seen keys ring :
  ring_parse_go entries seen keys = Ok ring ->
  NoDup (key_ids keys) -> (forall k, k ∈ seen <-> k ∈ key_ids keys) -> Forall key_ok keys ->
  NoDup (key_ids ring) /\ Forall key_ok ring /\ length ring = (length keys + length entries)%nat.
Proof.
  revert seen keys. induction entries as [|entry entries IH]; intros seen keys; cbn [ring_parse_go].
  - intros [= <-] Hn _ Hk. split_and!; [done..|]. simpl. lia.
  - destruct (partition_on ":" entry) as [[k sep] enc]. destruct sep; cbn [negb]; [|done].
    intros (key & Hkey & H)%bind_Ok Hn Hseen Hk.
    apply verifying_key_ok in Hkey as [Hok _].
    unfold str_in in H. case_bool_decide as Hs; [done|].
    apply IH in H as (Hn' & Hk' & Hl').
    + split_and!; [done..|]. rewrite Hl', length_app. simpl. lia.
    + unfold key_ids. rewrite map_app. apply NoDup_app. split; [done|].
      split; [|apply NoDup_singleton]. intros x Hx ->%list_elem_of_singleton.
      apply Hs. by apply Hseen.
    + intros x. unfold key_ids. rewrite map_app, elem_of_cons, elem_of_app, Hseen.
      change (map vk_key_id [key]) with [vk_key_id key]. rewrite list_elem_of_singleton.
      unfold key_ids. tauto.
    + apply Forall_app. split; [done|]. by constructor.
Qed.

Lemma ring_find_Some ring k key :
  ring_find ring k = Some key -> key ∈ ring /\ vk_key_id key = k.
Proof. intros [Hin H]%find_first_Some. apply String.eqb_eq in H. done. Qed.
Lemma ring_find_NoDup ring key :
  NoDup (key_ids ring) -> key ∈ ring -> ring_find ring (vk_key_id key) = Some key.
Proof.
  unfold ring_find. intros Hn Hin.
  rewrite <- (find_first_NoDup vk_key_id ring key Hn Hin).
  clear. induction ring as [|k r IH]; simpl; [done|].
  rewrite IH. destruct (String.eqb_spec (vk_key_id k) (vk_key_id key)) as [E|E].
  - by rewrite bool_decide_eq_true_2.
  - by rewrite bool_decide_eq_false_2.
Qed.

(** A key ring parsed from configuration holds one key per entry, in order
    and with pairwise distinct well-formed ids and 32-byte public keys, so that
    looking a key up by its id finds that key and no other. *)
Theorem ring_parse_sound :
  forall entries ring, ring_parse entries = Ok ring ->
    length ring = length entries /\ Forall key_ok ring /\ NoDup (key_ids ring) /\
    (forall key, key ∈ ring -> ring_find ring (vk_key_id key) = Some key) /\
    (forall k key, ring_find ring k = Some key -> key ∈ ring /\ vk_key_id key = k).
Proof.
  intros entries ring H. apply ring_parse_go_ok in H as (Hn & Hk & Hl);
    [|constructor|done|constructor].
  split_and!; [done..| |apply ring_find_Some].
  intros key. by apply ring_find_NoDup.
Qed.

Definition demo_key_text : string := b64u_encode "0123456789abcdef0123456789abcdef".
Lemma ring_parse_sound_witness :
  exists ring, ring_parse [" demo-key : " +:+ demo_key_text; "old.key:" +:+ demo_key_text] = Ok ring /\
    length ring = 2%nat.
Proof.
  eexists. split; [vm_compute; reflexivity|].
  eapply (ring_parse_sound [" demo-key : " +:+ demo_key_text; "old.key:" +:+ demo_key_text]).
  vm_compute. reflexivity.
Defined.

(** ** Signed documents *)

Lemma without_dset k v d : without [k] (dset (KStr k) v d) = without [k] d.
Proof.
  unfold without. induction d as [|[k0 v0] d IH]; simpl; unfold str_in in *.
  - rewrite bool_decide_eq_true_2 by left. done.
  - destruct (bool_decide_reflect (KStr k = k0)) as [<-|Hne]; simpl.
    + by rewrite bool_decide_eq_true_2 by left.
    + by rewrite IH.
Qed.

Section signed_documents.
Context `{Platform, Ed25519}.

Lemma signing_input_dset v d :
  signing_input (dset (KStr SIGNATURE_EXCLUDED_FIELD) v d) = signing_input d.
Proof. unfold signing_input. by rewrite without_dset. Qed.

(** What an accepted signature says. *)
Definition signed_by (document : dict) (ring : TrustedKeyRing) (key : VerifyingKey) : Prop :=
  exists block value signature input,
    get SIGNATURE_EXCLUDED_FIELD document = VDict block /\
    get "algorithm" block = VStr SIGNATURE_ALGORITHM /\
    get "key_id" block = VStr (vk_key_id key) /\ get "value" block = VStr value /\
    vk_key_id key <> "" /\ ring_find ring (vk_key_id key) = Some key /\
    b64u_decode (VStr value) (Some ED25519_SIGNATURE_BYTES) = Ok signature /\
    signing_input document = Ok input /\ ed_verify (vk_public key) signature input = true.

Lemma verify_document_inv document ring k :
  verify_document document ring = Ok k -> exists key, vk_key_id key = k /\ signed_by document ring key.
Proof.
  unfold verify_document. destruct (get SIGNATURE_EXCLUDED_FIELD document) as [| | | | | | |block|] eqn:Hb;
    try done.
  destruct (py_eq _ _) eqn:Ha; cbn [negb]; [|done]. apply py_eq_str in Ha.
  destruct (get "key_id" block) as [| | | |kid| | | |] eqn:Hk; try done.
  destruct (is_empty kid) eqn:He; [done|]. destruct ring as [|k0 ring0]; [done|].
  destruct (ring_find _ kid) as [key|] eqn:Hf; [|done].
  destruct (get "value" block) as [| | | |value| | | |] eqn:Hv; try done.
  intros (sg & Hs & (input & Hi & H1)%bind_Ok)%bind_Ok.
  unfold except in Hs. destruct (b64u_decode _ _) as [sg'|e] eqn:Hd.
  2: { by destruct (is_class _ e). }
  injection Hs as ->. pose proof (b64u_decode_length _ _ _ Hd) as Hlen.
  unfold vk_verify in H1. rewrite Hlen, Nat.eqb_refl in H1. cbn [negb] in H1.
  destruct (ed_verify _ _ _) eqn:Hver; [|done]. injection H1 as <-.
  exists key. split; [done|]. pose proof (ring_find_Some _ _ _ Hf) as [_ Hkid].
  exists block, value, sg, input. rewrite Hkid. split_and!; try done. by destruct kid.
Qed.

Lemma verify_document_signed document ring key :
  signed_by document ring key -> verify_document document ring = Ok (vk_key_id key).
Proof.
  intros (block & value & sg & input & Hb & Ha & Hk & Hv & Hne & Hf & Hd & Hi & Hver).
  unfold verify_document. rewrite Hb, Ha, Hk, Hv, Hf, Hd, Hi. simpl py_eq.
  replace (is_empty (vk_key_id key)) with false by by destruct (vk_key_id key).
  destruct ring as [|k0 ring0]; [done|]. cbn [negb except bind].
  unfold vk_verify. rewrite (b64u_decode_length _ _ _ Hd), Nat.eqb_refl. cbn [negb].
  by rewrite Hver.
Qed.

Lemma verify_document_fails document ring e :
  verify_document document ring = Err e ->
  exists m, e = Raised SignatureVerificationError m \/ e = Raised CanonicalJsonError m.
Proof.
  unfold verify_document. destruct (get _ document) as [| | | | | | |block|]; try (intros [= <-]; eauto).
  destruct (negb _); [intros [= <-]; eauto|].
  destruct (get "key_id" block) as [| | | |kid| | | |]; try (intros [= <-]; eauto).
  destruct (is_empty kid); [intros [= <-]; eauto|]. destruct ring as [|k0 ring0]; [intros [= <-]; eauto|].
  destruct (ring_find _ kid) as [key|]; [|intros [= <-]; eauto].
  destruct (get "value" block) as [| | | |value| | | |]; try (intros [= <-]; eauto).
  intros [Hs|(sg & _ & [Hi|(input & _ & H1)]%bind_Err)]%bind_Err.
  - unfold except in Hs. destruct (b64u_decode _ _) as [sg'|e'] eqn:Hd; [done|].
    apply b64u_decode_fails in Hd as [m ->]. injection Hs as <-. eauto.
  - unfold signing_input in Hi. destruct (serializable (VDict (without [SIGNATURE_EXCLUDED_FIELD] document))) eqn:Hs.
    + rewrite (proj2 (canonical_bytes_Ok _ _)) in Hi by done. done.
    + apply canonical_bytes_fails in Hs as [m Hs]. rewrite Hi in Hs. injection Hs as ->. eauto.
  - destruct (negb _); [injection H1 as <-; eauto | done].
Qed.
End signed_documents.

(** C34. [verify_document] returns exactly when the document carries a signature
    block naming [ed25519] and a key id of the ring, whose 64-byte value that
    key verifies over the canonical bytes of the document without the block;
    every other document raises, so no return value means "unchecked". *)
Theorem verify_document_exact `{Platform, Ed25519} :
  (forall document ring k,
     verify_document document ring = Ok k <->
     exists key, vk_key_id key = k /\ signed_by document ring key) /\
  (forall document ring e, verify_document document ring = Err e ->
     exists m, e = Raised SignatureVerificationError m \/ e = Raised CanonicalJsonError m).
Proof.
  split; [|apply verify_document_fails]. intros document ring k. split.
  - apply verify_document_inv.
  - intros (key & <- & Hs). by apply verify_document_signed.
Qed.

Lemma signed_by_message `{FloatText, Ed25519} d d' p p' input input' :
  signing_input d = Ok input -> signing_input d' = Ok input' ->
  p = VDict (without [SIGNATURE_EXCLUDED_FIELD] d) ->
  p' = VDict (without [SIGNATURE_EXCLUDED_FIELD] d') -> wf p -> wf p' ->
  input = input' <-> same_json p p'.
Proof. intros Hi Hi' -> -> Wp Wp'. by apply canonical_bytes_same. Qed.

Lemma get_signature_dset v d :
  get SIGNATURE_EXCLUDED_FIELD (dset (KStr SIGNATURE_EXCLUDED_FIELD) v d) = v.
Proof. unfold get, get_or. rewrite dget_dset. by rewrite bool_decide_eq_true_2. Qed.

(** Attaching the block [sign_document] returns makes the document verify. *)
Lemma sign_verifies `{Platform, Ed25519, !Ed25519Laws} document key ring block :
  sign_document document key = Ok block -> sk_key_id key <> "" ->
  ring_find ring (sk_key_id key) = Some (public_key key) ->
  verify_document (dset (KStr SIGNATURE_EXCLUDED_FIELD) block document) ring = Ok (sk_key_id key).
Proof.
  intros (input & Hi & [= <-])%bind_Ok Hne Hf.
  pose proof (ed_sign_length (sk_private key) input) as Hlen. fold (sk_sign key input) in Hlen.
  change (sk_key_id key) with (vk_key_id (public_key key)) at 2. apply verify_document_signed.
  exists {{ "algorithm" ~> VStr SIGNATURE_ALGORITHM; "key_id" ~> VStr (sk_key_id key);
            "value" ~> VStr (b64u_encode (sk_sign key input)) }}, (b64u_encode (sk_sign key input)),
    (sk_sign key input), input.
  rewrite signing_input_dset, get_signature_dset. split_and!; try done.
  - apply b64u_decode_encode; [intros E; by rewrite E in Hlen | right; by rewrite Hlen].
  - apply ed_sign_verifies.
Qed.

(** C35. A document signed by a key of the ring verifies: attaching the block
    [sign_document] returns, to any document that can be serialized and
    whatever its field held before, makes [verify_document] return that key's
    id; and the block verifies on another document only if the two are the same
    JSON value apart from the signature, or the key verifies that one signature
    for two different messages. *)
Theorem sign_document_verifies `{FloatText, Ed25519, !Ed25519Laws} :
  forall document key ring block,
    sign_document document key = Ok block -> sk_key_id key <> "" ->
    ring_find ring (sk_key_id key) = Some (public_key key) ->
    verify_document (dset (KStr SIGNATURE_EXCLUDED_FIELD) block document) ring
      = Ok (sk_key_id key) /\
    (forall other, wf (VDict (without [SIGNATURE_EXCLUDED_FIELD] document)) ->
       wf (VDict (without [SIGNATURE_EXCLUDED_FIELD] other)) ->
       verify_document (dset (KStr SIGNATURE_EXCLUDED_FIELD) block other) ring = Ok (sk_key_id key) ->
       same_json (VDict (without [SIGNATURE_EXCLUDED_FIELD] document))
                 (VDict (without [SIGNATURE_EXCLUDED_FIELD] other)) \/
       exists signature m m', m <> m' /\
         ed_verify (vk_public (public_key key)) signature m = true /\
         ed_verify (vk_public (public_key key)) signature m' = true).
Proof.
  intros document key ring block Hsign Hne Hf. split; [by apply sign_verifies|].
  apply bind_Ok in Hsign as (input & Hi & [= <-]). set (sg := sk_sign key input).
  assert (slen sg = ED25519_SIGNATURE_BYTES) as Hlen by apply ed_sign_length.
  assert (b64u_decode (VStr (b64u_encode sg)) (Some ED25519_SIGNATURE_BYTES) = Ok sg) as Hd.
  { apply b64u_decode_encode; [intros E; by rewrite E in Hlen | right; by rewrite Hlen]. }
  intros other Wd Wo (key' & Hk' & Hs)%verify_document_inv.
  destruct Hs as (block & value & sg' & input' & Hb & _ & _ & Hv & _ & Hf' & Hd' & Hi' & Hver').
  rewrite Hk', Hf in Hf'. injection Hf' as <-. rewrite get_signature_dset in Hb.
  injection Hb as <-. injection Hv as <-. rewrite Hd in Hd'. injection Hd' as <-.
  rewrite signing_input_dset in Hi'. destruct (decide (input = input')) as [E|N].
  - left. by apply (signed_by_message document other _ _ input input').
  - right. exists sg, input, input'. split_and!; try done. apply ed_sign_verifies.
Qed.

(** A concrete scheme for the witnesses: the seed is the public key. *)
Fixpoint repeat_char (n : nat) (c : ascii) : string :=
  match n with O => "" | S n => String c (repeat_char n c) end.
#[export] Instance demo_ed25519 : Ed25519 :=
  {| ed_public := fun seed => seed;
     ed_sign := fun seed m => stake 64 (seed +:+ m +:+ repeat_char 64 "0");
     ed_verify := fun pub sg m => String.eqb sg (stake 64 (pub +:+ m +:+ repeat_char 64 "0")) |}.
#[export] Instance demo_ed25519_laws : Ed25519Laws.
Proof.
  split; intros seed m; cbn [ed_sign ed_verify ed_public demo_ed25519].
  - rewrite slen_stake, !slen_app. change (slen (repeat_char 64 _)) with 64%nat.
    unfold ED25519_SIGNATURE_BYTES. lia.
  - apply String.eqb_refl.
Qed.

Definition demo_document : dict := {{ "snapshot_id" ~> VStr "s"; "connectors" ~> VList [] }}.
Definition demo_signing_key : SigningKey := MkSigningKey "demo-key" "0123456789abcdef0123456789abcdef".

Lemma verify_document_exact_witness :
  exists block, sign_document demo_document demo_signing_key = Ok block /\
    exists key, vk_key_id key = "demo-key" /\
      signed_by (dset (KStr "signature") block demo_document) [public_key demo_signing_key] key.
Proof.
  eexists. split; [vm_compute; reflexivity|]. apply (proj1 verify_document_exact).
  vm_compute. reflexivity.
Defined.

Lemma sign_document_verifies_witness :
  exists block, sign_document demo_document demo_signing_key = Ok block /\
    verify_document (dset (KStr SIGNATURE_EXCLUDED_FIELD) block demo_document)
      [public_key demo_signing_key] = Ok "demo-key".
Proof.
  eexists. split; [vm_compute; reflexivity|].
  apply (sign_document_verifies demo_document demo_signing_key); vm_compute; (done || reflexivity).
Defined.

(** [b64u_decode] does not refuse characters outside the alphabet: it skips
    them, so different texts decode to the same bytes. *)
Lemma b64u_decode_lenient :
  b64u_decode (VStr "QU?JD") None = b64u_decode (VStr "QUJD?") None /\
  b64u_decode (VStr "QUJD") None = Ok "ABC" /\ b64u_decode (VStr "QU%JD!! =") None = Ok "ABC".
Proof. vm_compute. split_and!; reflexivity. Qed.
