(* ===== verification/IpAddress.v ===== *)
(** * IP addresses

    The part of Python's [ipaddress] module the destination policy relies on:
    parsing and printing of addresses, and the address classes, as CPython 3.12
    defines them. *)

From S2P Require Export PyStr.

Inductive ip :=
  | V4 (n : N)
  | V6 (n : N) (scope : option string).

#[export] Instance ip_eq_dec : EqDecision ip.
Proof. solve_decision. Defined.

(** ** IPv4 *)

Definition parse_octet (s : string) : option N :=
  if is_empty s || negb (sall is_digit s) || (3 <? slen s)%nat then None
  else if negb (String.eqb s "0") && starts_with "0" s then None
  else let n := dec_value 0 s in if (255 <? n)%N then None else Some n.

Definition parse_v4 (s : string) : option N :=
  if has_char "/" s then None
  else match split_on "." s with
       | [a; b; c; d] =>
           a ← parse_octet a; b ← parse_octet b; c ← parse_octet c; d ← parse_octet d;
           Some (((a * 256 + b) * 256 + c) * 256 + d)%N
       | _ => None
       end.

Definition v4_str (n : N) : string :=
  str_of_N (n / 16777216) +:+ "." +:+ str_of_N (n / 65536 mod 256) +:+ "." +:+
  str_of_N (n / 256 mod 256) +:+ "." +:+ str_of_N (n mod 256).

(** ** IPv6 *)

Definition hex_val (c : ascii) : option N :=
  if is_digit c then Some (code c - 48)%N
  else if in_range "a" "f" c then Some (code c - 87)%N
  else if in_range "A" "F" c then Some (code c - 55)%N
  else None.
Fixpoint hex_value (acc : N) (s : string) : option N :=
  match s with
  | "" => Some acc
  | String c s => v ← hex_val c; hex_value (acc * 16 + v)%N s
  end.
Definition parse_hextet (s : string) : option N :=
  if is_empty s || (4 <? slen s)%nat then None else hex_value 0 s.

(** [format(n, 'x')] of a 16-bit number. *)
Definition hextet_str (n : N) : string :=
  if (n <? 16)%N then String (hex_digit n) ""
  else if (n <? 256)%N then String (hex_digit (n / 16)) (String (hex_digit (n mod 16)) "")
  else if (n <? 4096)%N then
    String (hex_digit (n / 256)) (String (hex_digit (n / 16 mod 16)) (String (hex_digit (n mod 16)) ""))
  else String (hex_digit (n / 4096)) (String (hex_digit (n / 256 mod 16))
         (String (hex_digit (n / 16 mod 16)) (String (hex_digit (n mod 16)) ""))).

(** An IPv4 suffix becomes two hextets. *)
Fixpoint expand_v4_suffix (parts : list string) : option (list string) :=
  match parts with
  | [] => Some []
  | [p] =>
      if has_char "." p then
        n ← parse_v4 p; Some [hextet_str (n / 65536); hextet_str (n mod 65536)]
      else Some [p]
  | p :: parts => rest ← expand_v4_suffix parts; Some (p :: rest)
  end.

(** The indices, from [i] on, of the empty parts strictly inside the list. *)
Fixpoint inner_empty (i : nat) (parts : list string) : list nat :=
  match parts with
  | [] | [_] => []
  | p :: parts => (if is_empty p then [i] else []) ++ inner_empty (S i) parts
  end.

Definition part_at (i : nat) (parts : list string) : string := nth i parts "".
Definition first_empty (parts : list string) : bool := is_empty (part_at 0 parts).
Definition last_empty (parts : list string) : bool := is_empty (part_at (length parts - 1) parts).

Fixpoint join_hextets (acc : N) (parts : list string) : option N :=
  match parts with
  | [] => Some acc
  | p :: parts => h ← parse_hextet p; join_hextets (acc * 65536 + h)%N parts
  end.

(** [_ip_int_from_string]: [hi] parts before the [::], [lo] after it. *)
Definition v6_of_string (s : string) : option N :=
  let parts := split_on ":" s in
  if is_empty s || (length parts <? 3)%nat then None else
  parts ← expand_v4_suffix parts;
  if (9 <? length parts)%nat then None else
  match inner_empty 1 (tail parts) with
  | [] =>
      if negb (length parts =? 8)%nat || first_empty parts || last_empty parts then None
      else join_hextets 0 parts
  | [skip] =>
      let hi := if first_empty parts then (skip - 1)%nat else skip in
      let lo := (length parts - skip - 1)%nat in
      let lo := if last_empty parts then (lo - 1)%nat else lo in
      if (first_empty parts && negb (hi =? 0)%nat) || (last_empty parts && negb (lo =? 0)%nat)
         || (8 - (hi + lo) <? 1)%nat
      then None
      else
        top ← join_hextets 0 (firstn hi parts);
        join_hextets (top * 65536 ^ N.of_nat (8 - (hi + lo)))%N
          (skipn (length parts - lo) parts)
  | _ => None
  end.

Definition parse_v6 (s : string) : option (N * option string) :=
  if has_char "/" s then None else
  let '(addr, sep, scope) := partition_on "%" s in
  if sep && (is_empty scope || has_char "%" scope) then None
  else n ← v6_of_string addr; Some (n, if sep then Some scope else None).

Definition ip_address (s : string) : option ip :=
  match parse_v4 s with
  | Some n => Some (V4 n)
  | None => p ← parse_v6 s; Some (V6 p.1 p.2)
  end.

(** [_compress_hextets]: the longest run of zeros, the first of that length. *)
Record run := MkRun { r_best_start : nat; r_best_len : nat; r_start : option nat; r_len : nat }.
Fixpoint zero_run (index : nat) (hextets : list N) (r : run) : run :=
  match hextets with
  | [] => r
  | h :: hextets =>
      zero_run (S index) hextets
        (if (h =? 0)%N then
           let len := S (r_len r) in
           let start := match r_start r with Some s => s | None => index end in
           if (r_best_len r <? len)%nat then MkRun start len (Some start) len
           else MkRun (r_best_start r) (r_best_len r) (Some start) len
         else MkRun (r_best_start r) (r_best_len r) None 0)
  end.
Definition hextets_of (n : N) : list N :=
  map (fun i => (n / 65536 ^ N.of_nat (7 - i) mod 65536)%N) (seq 0 8).
Definition compress_hextets (hextets : list N) : list string :=
  let texts := map hextet_str hextets in
  let r := zero_run 0 hextets (MkRun 0 0 None 0) in
  let best_end := (r_best_start r + r_best_len r)%nat in
  if (1 <? r_best_len r)%nat then
    (if (r_best_start r =? 0)%nat then [""] else [])
    ++ firstn (r_best_start r) texts ++ [""] ++ skipn best_end texts
    ++ (if (best_end =? length texts)%nat then [""] else [])
  else texts.
Definition v6_str (n : N) (scope : option string) : string :=
  join ":" (compress_hextets (hextets_of n)) +:+
  match scope with Some s => "%" +:+ s | None => "" end.

Definition ip_str (a : ip) : string :=
  match a with V4 n => v4_str n | V6 n scope => v6_str n scope end.

(** ** Networks and address classes *)

Definition in_v4 (n : N) (net : N * N) : bool := (n / 2 ^ (32 - net.2) =? net.1 / 2 ^ (32 - net.2))%N.
Definition in_v6 (n : N) (net : N * N) : bool := (n / 2 ^ (128 - net.2) =? net.1 / 2 ^ (128 - net.2))%N.
Definition quad (a b c d : N) : N := (((a * 256 + b) * 256 + c) * 256 + d)%N.
(** A network given by its first three hextets. *)
Definition hex3 (a b c : N) : N := (((a * 65536 + b) * 65536 + c) * 65536 ^ 5)%N.

Definition v4_private_networks : list (N * N) :=
  [(quad 0 0 0 0, 8); (quad 10 0 0 0, 8); (quad 127 0 0 0, 8); (quad 169 254 0 0, 16);
   (quad 172 16 0 0, 12); (quad 192 0 0 0, 24); (quad 192 0 0 170, 31); (quad 192 0 2 0, 24);
   (quad 192 168 0 0, 16); (quad 198 18 0 0, 15); (quad 198 51 100 0, 24);
   (quad 203 0 113 0, 24); (quad 240 0 0 0, 4); (quad 255 255 255 255, 32)]%N.
Definition v4_private_exceptions : list (N * N) :=
  [(quad 192 0 0 9, 32); (quad 192 0 0 10, 32)]%N.
Definition v6_private_networks : list (N * N) :=
  [(1, 128); (0, 128); (65535 * 65536 ^ 2, 96); (hex3 0x64 0xff9b 1, 48); (hex3 0x100 0 0, 64);
   (hex3 0x2001 0 0, 23); (hex3 0x2001 0xdb8 0, 32); (hex3 0x2002 0 0, 16);
   (hex3 0xfc00 0 0, 7); (hex3 0xfe80 0 0, 10)]%N.
Definition v6_private_exceptions : list (N * N) :=
  [(hex3 0x2001 1 0 + 1, 128); (hex3 0x2001 1 0 + 2, 128); (hex3 0x2001 3 0, 32);
   (hex3 0x2001 4 0x112, 48); (hex3 0x2001 0x20 0, 28); (hex3 0x2001 0x30 0, 28)]%N.
Definition v6_reserved_networks : list (N * N) :=
  [(0, 8); (hex3 0x100 0 0, 8); (hex3 0x200 0 0, 7); (hex3 0x400 0 0, 6); (hex3 0x800 0 0, 5);
   (hex3 0x1000 0 0, 4); (hex3 0x4000 0 0, 3); (hex3 0x6000 0 0, 3); (hex3 0x8000 0 0, 3);
   (hex3 0xa000 0 0, 3); (hex3 0xc000 0 0, 3); (hex3 0xe000 0 0, 4); (hex3 0xf000 0 0, 5);
   (hex3 0xf800 0 0, 6); (hex3 0xfe00 0 0, 9)]%N.

Definition ipv4_mapped (a : ip) : option N :=
  match a with
  | V6 n _ => if (n / 2 ^ 32 =? 65535)%N then Some (n mod 2 ^ 32)%N else None
  | V4 _ => None
  end.

Definition v4_is_private (n : N) : bool :=
  existsb (in_v4 n) v4_private_networks && forallb (fun net => negb (in_v4 n net)) v4_private_exceptions.
Definition is_private (a : ip) : bool :=
  match a with
  | V4 n => v4_is_private n
  | V6 n _ =>
      match ipv4_mapped a with
      | Some m => v4_is_private m
      | None => existsb (in_v6 n) v6_private_networks
                && forallb (fun net => negb (in_v6 n net)) v6_private_exceptions
      end
  end.
Definition is_global (a : ip) : bool :=
  match a with
  | V4 n => negb (in_v4 n (quad 100 64 0 0, 10)%N) && negb (is_private a)
  | V6 _ _ => negb (is_private a)
  end.
Definition is_loopback (a : ip) : bool :=
  match a with V4 n => in_v4 n (quad 127 0 0 0, 8)%N | V6 n _ => (n =? 1)%N end.
Definition is_multicast (a : ip) : bool :=
  match a with V4 n => in_v4 n (quad 224 0 0 0, 4)%N | V6 n _ => in_v6 n (hex3 0xff00 0 0, 8)%N end.
Definition is_reserved (a : ip) : bool :=
  match a with V4 n => in_v4 n (quad 240 0 0 0, 4)%N | V6 n _ => existsb (in_v6 n) v6_reserved_networks end.
Definition is_unspecified (a : ip) : bool :=
  match a with V4 n => (n =? 0)%N | V6 n _ => (n =? 0)%N end.
Definition is_link_local (a : ip) : bool :=
  match a with V4 n => in_v4 n (quad 169 254 0 0, 16)%N | V6 n _ => in_v6 n (hex3 0xfe80 0 0, 10)%N end.

Example ip_examples :
  map ip_address ["127.0.0.1"; "01.2.3.4"; "1.2.3"; "::1"; "::ffff:10.0.0.1"; "fe80::1%eth0";
                  "1:2:3:4:5:6:7:8"; "1::2::3"; "::"; "1:2:3:4:5:6:7::"; ":1:2:3:4:5:6:7"] =
  [Some (V4 2130706433); None; None; Some (V6 1 None); Some (V6 281470849515521 None);
   Some (V6 (0xfe80 * 65536 ^ 7 + 1) (Some "eth0")); Some (V6 0x00010002000300040005000600070008 None);
   None; Some (V6 0 None); Some (V6 0x00010002000300040005000600070000 None); None]%N.
Proof. vm_compute. reflexivity. Qed.
Example ip_str_examples :
  map ip_str [V4 2130706433; V6 1 None; V6 0 None; V6 (hex3 0x2001 0xdb8 0 + 1) None;
              V6 0x00010000000000040005000000000008 (Some "z")]%N =
  ["127.0.0.1"; "::1"; "::"; "2001:db8::1"; "1::4:5:0:0:8%z"].
Proof. vm_compute. reflexivity. Qed.
