(* ===== verification/Url.v ===== *)
(** * URLs

    The functions of [urllib.parse] the source calls: [urlsplit] and the
    attributes of its result, [quote] and [urlencode], as CPython 3.12 defines
    them.  [_checknetloc] raises for no character below 256. *)

From S2P Require Export Errors IpAddress Regex.

Record SplitResult := MkSplit {
  sr_scheme : string;
  sr_netloc : string;
  sr_path : string;
  sr_query : string;
  sr_fragment : string;
}.

Definition value_error {A} (m : string) : M A := raise (Raised ValueError m).

(** [s.rpartition(c)]: the last two components; the first is empty when the
    separator does not occur. *)
Fixpoint rpartition_on (sep : ascii) (s : string) : string * bool * string :=
  match s with
  | "" => ("", false, "")
  | String c s' =>
      let '(a, found, b) := rpartition_on sep s' in
      if found then (String c a, true, b)
      else if Ascii.eqb c sep then ("", true, s')
      else ("", false, s)
  end.

Definition scheme_char (c : ascii) : bool :=
  is_alnum c || Ascii.eqb c "+" || Ascii.eqb c "-" || Ascii.eqb c ".".
Definition c0_or_space (c : ascii) : bool := (code c <=? 32)%N.
Definition unsafe_url_byte (c : ascii) : bool :=
  Ascii.eqb c "009" || Ascii.eqb c "013" || Ascii.eqb c "010".
Definition url_clean (url : string) : string :=
  sflat_map (fun c => if unsafe_url_byte c then "" else String c "") (lstrip_by c0_or_space url).

Definition split_scheme (url : string) : string * string :=
  let '(before, found, after) := partition_on ":" url in
  match before with
  | String c _ =>
      if found && is_alpha c && sall scheme_char before then (lower before, after) else ("", url)
  | "" => ("", url)
  end.

Definition netloc_end (c : ascii) : bool := Ascii.eqb c "/" || Ascii.eqb c "?" || Ascii.eqb c "#".
(** [_splitnetloc]: up to the first of [/?#]. *)
Fixpoint split_netloc (s : string) : string * string :=
  match s with
  | "" => ("", "")
  | String c s' =>
      if netloc_end c then ("", s) else let '(a, b) := split_netloc s' in (String c a, b)
  end.

Definition re_ipvfuture : re :=
  RCat (rchar "v") (RCat (rplus (RSet (fun c => is_digit c || in_range "a" "f" c || in_range "A" "F" c)))
    (RCat (rchar ".") (rplus (RSet (fun c => negb (Ascii.eqb c newline)))))).
Definition check_bracketed_host (hostname : string) : M unit :=
  if starts_with "v" hostname then
    if fullmatch re_ipvfuture hostname then Ok tt else value_error "IPvFuture address is invalid"
  else match ip_address hostname with
       | None => value_error "does not appear to be an IPv4 or IPv6 address"
       | Some (V4 _) => value_error "An IPv4 address cannot be in brackets"
       | Some (V6 _ _) => Ok tt
       end.
Definition check_bracketed_netloc (netloc : string) : M unit :=
  let '(_, _, hostname_and_port) := rpartition_on "@" netloc in
  let '(before_bracket, have_open_br, bracketed) := partition_on "[" hostname_and_port in
  if have_open_br then
    if negb (is_empty before_bracket) then value_error "Invalid IPv6 URL"
    else
      let '(hostname, _, port) := partition_on "]" bracketed in
      if negb (is_empty port) && negb (starts_with ":" port) then value_error "Invalid IPv6 URL"
      else check_bracketed_host hostname
  else
    let '(hostname, _, _) := partition_on ":" hostname_and_port in
    check_bracketed_host hostname.

Definition urlsplit (url : string) : M SplitResult :=
  let '(scheme, url) := split_scheme (url_clean url) in
  let* parts :=
    match strip_prefix "//" url with
    | Some rest =>
        let '(netloc, url) := split_netloc rest in
        let open := has_char "[" netloc in
        let closed := has_char "]" netloc in
        if negb (Bool.eqb open closed) then value_error "Invalid IPv6 URL"
        else if open && closed then let* _ := check_bracketed_netloc netloc in Ok (netloc, url)
        else Ok (netloc, url)
    | None => Ok ("", url)
    end in
  let '(netloc, url) := parts in
  let '(url, _, fragment) := partition_on "#" url in
  let '(url, _, query) := partition_on "?" url in
  Ok (MkSplit scheme netloc url query fragment).

(** [_hostinfo] and [_userinfo]. *)
Definition hostinfo (r : SplitResult) : string * string :=
  let '(_, _, hostinfo) := rpartition_on "@" (sr_netloc r) in
  let '(_, have_open_br, bracketed) := partition_on "[" hostinfo in
  if have_open_br then
    let '(hostname, _, port) := partition_on "]" bracketed in
    let '(_, _, port) := partition_on ":" port in (hostname, port)
  else let '(hostname, _, port) := partition_on ":" hostinfo in (hostname, port).
(** [bool(username or password)]. *)
Definition has_credentials (r : SplitResult) : bool :=
  let '(userinfo, have_info, _) := rpartition_on "@" (sr_netloc r) in
  let '(username, _, password) := partition_on ":" userinfo in
  have_info && (negb (is_empty username) || negb (is_empty password)).
Definition hostname (r : SplitResult) : option string :=
  let '(h, _) := hostinfo r in
  if is_empty h then None
  else let '(name, percent, zone) := partition_on "%" h in
       Some (lower name +:+ (if percent then "%" else "") +:+ zone).
Definition port (r : SplitResult) : M (option N) :=
  let '(_, p) := hostinfo r in
  if is_empty p then Ok None
  else if negb (sall is_digit p) then value_error "Port could not be cast to integer value"
  else if (65535 <? dec_value 0 p)%N then value_error "Port out of range 0-65535"
  else Ok (Some (dec_value 0 p)).

(** ** Percent encoding *)

Definition always_safe (c : ascii) : bool :=
  is_alnum c || Ascii.eqb c "_" || Ascii.eqb c "." || Ascii.eqb c "-" || Ascii.eqb c "~".
Definition upper_hex (n : N) : ascii :=
  if (n <? 10)%N then ascii_of_N (48 + n) else ascii_of_N (55 + n).
Definition percent_byte (c : ascii) : string :=
  if always_safe c then String c ""
  else String "%" (String (upper_hex (code c / 16)) (String (upper_hex (code c mod 16)) "")).
(** [quote(s, safe="")]: of the UTF-8 bytes. *)
Definition quote (s : string) : string := sflat_map percent_byte (encode_utf8 s).
(** [quote_plus(s)]: a space becomes [+]. *)
Definition plus_byte (c : ascii) : string := if Ascii.eqb c " " then "+" else percent_byte c.
Definition quote_plus (s : string) : string := sflat_map plus_byte (encode_utf8 s).
Definition urlencode (query : list (string * string)) : string :=
  join "&" (map (fun kv => quote_plus kv.1 +:+ "=" +:+ quote_plus kv.2) query).

(** ** Percent encoding is injective and leaves no delimiter *)

Definition unreserved (c : ascii) : bool := always_safe c || Ascii.eqb c "%".

Lemma percent_prefix_free : prefix_free percent_byte = true.
Proof. vm_compute. reflexivity. Qed.
Lemma plus_prefix_free : prefix_free plus_byte = true.
Proof. vm_compute. reflexivity. Qed.

Lemma all_codes (f : ascii -> bool) : forallb f all_chars = true -> forall c, f c = true.
Proof.
  rewrite forallb_Forall, Forall_forall. intros H c. apply H, all_chars_complete.
Qed.

Lemma quote_inj s t : quote s = quote t -> s = t.
Proof. intros E%(sflat_map_inj _ percent_prefix_free). by apply encode_utf8_inj. Qed.
Lemma quote_plus_inj s t : quote_plus s = quote_plus t -> s = t.
Proof. intros E%(sflat_map_inj _ plus_prefix_free). by apply encode_utf8_inj. Qed.

Lemma quote_unreserved s : sall unreserved (quote s) = true.
Proof.
  apply sall_sflat_map. apply (all_codes (fun c => sall unreserved (percent_byte c))).
  vm_compute. reflexivity.
Qed.
Lemma quote_plus_chars s : sall (fun c => unreserved c || Ascii.eqb c "+") (quote_plus s) = true.
Proof.
  apply sall_sflat_map.
  apply (all_codes (fun c => sall (fun c => unreserved c || Ascii.eqb c "+") (plus_byte c))).
  vm_compute. reflexivity.
Qed.

Example urlsplit_examples :
  (urlsplit " https://User:pw@API.example.org:8443/a/b?x=1#f",
   bind (urlsplit "http://[::1]:80/x") (fun r => Ok (hostname r)),
   bind (urlsplit "https://api.example.org:99999/x") port,
   is_ok (urlsplit "http://[1.2.3.4]/"), is_ok (urlsplit "http://[::1/")) =
  (Ok (MkSplit "https" "User:pw@API.example.org:8443" "/a/b" "x=1" "f"),
   Ok (Some "::1"), value_error "Port out of range 0-65535", false, false).
Proof. vm_compute. reflexivity. Qed.
