(* ===== verification/Models.v ===== *)
(** * Contract models

    [toollayer_contracts/models.py]: the typed models, their constructors with
    every field constraint and validator, reading them from a document
    ([model_validate]) and writing them back ([model_dump] in JSON mode).  The
    coercions pydantic's lax mode makes for a [bool] or an [int] field from a
    value that is neither are the class [Pydantic]. *)

From S2P Require Export Version CanonicalJson Url.

Class Pydantic := {
  lax_bool : pyval -> option bool;
  lax_int : pyval -> option Z;
}.

Definition invalid {A} (m : string) : M A := raise (Raised PydanticValidationError m).
Definition require (b : bool) (m : string) : M unit := if b then Ok tt else invalid m.

(** ** Patterns: pydantic's engine reads [$] as the end of the text *)

Definition alnum_lower (c : ascii) : bool := is_lower c || is_digit c.
Definition KEY_PATTERN : re :=
  RCat (RSet is_lower) (RCat (RStar (RSet alnum_lower))
    (RStar (RCat (rchar "-") (rplus (RSet alnum_lower))))).
Definition TOOL_NAME_PATTERN : re :=
  RCat (RSet is_lower) (RStar (RSet (fun c => alnum_lower c || Ascii.eqb c "_"))).
Definition JSON_POINTER_PATTERN : re :=
  RStar (RCat (rchar "/") (RStar (RAlt (RSet (fun c => negb (Ascii.eqb c "~" || Ascii.eqb c "/")))
    (RCat (rchar "~") (RSet (fun c => Ascii.eqb c "0" || Ascii.eqb c "1")))))).
Definition hex_lower (c : ascii) : bool := is_digit c || in_range "a" "f" c.
Definition DIGEST_PATTERN : re := RCat (rlit "sha256:") (rrep 64 0 (RSet hex_lower)).
Definition PATH_PATTERN : re :=
  RCat (rchar "/") (ropt (RCat
    (RSet (fun c => negb (Ascii.eqb c "/" || Ascii.eqb c "?" || Ascii.eqb c "#" || is_space c)))
    (RStar (RSet (fun c => negb (Ascii.eqb c "?" || Ascii.eqb c "#" || is_space c)))))).
Definition KEY_ID_MODEL_PATTERN : re :=
  let edge := RSet alnum_lower in
  RCat edge (RCat (rrep 0 62 (RSet (fun c =>
    alnum_lower c || Ascii.eqb c "." || Ascii.eqb c "_" || Ascii.eqb c "-"))) edge).
Definition SIGNATURE_PATTERN : re :=
  rrep 86 0 (RSet (fun c => is_alnum c || Ascii.eqb c "_" || Ascii.eqb c "-")).
Definition SNAPSHOT_ID_PATTERN : re := RCat (rlit "snap_") (rrep 32 0 (RSet hex_lower)).

Definition within (lo hi : nat) (s : string) : bool := (lo <=? slen s)%nat && (slen s <=? hi)%nat.
Definition semantic_version (s : string) : bool := fullmatch SEMVER s && within 0 64 s.
Definition resource_key (s : string) : bool := fullmatch KEY_PATTERN s && within 1 64 s.
Definition tool_name_ok (s : string) : bool := fullmatch TOOL_NAME_PATTERN s && within 1 64 s.
Definition json_pointer (s : string) : bool := fullmatch JSON_POINTER_PATTERN s.
Definition digest_ok (s : string) : bool := fullmatch DIGEST_PATTERN s.

(** ** Enumerations *)

Inductive BindingTarget := TPath | TQuery | THeader | TBody.
Inductive EffectClass := EffectRead | EffectWrite | EffectDestructive.
Inductive AccessMode := Public | Restricted.
Inductive LifecycleState := Draft | Published | Disabled.
Inductive DescriptionOrigin := FromSource | Generated | Assisted | Human.

#[export] Instance BindingTarget_eq_dec : EqDecision BindingTarget.
Proof. solve_decision. Defined.
#[export] Instance EffectClass_eq_dec : EqDecision EffectClass.
Proof. solve_decision. Defined.
#[export] Instance AccessMode_eq_dec : EqDecision AccessMode.
Proof. solve_decision. Defined.
#[export] Instance LifecycleState_eq_dec : EqDecision LifecycleState.
Proof. solve_decision. Defined.
#[export] Instance DescriptionOrigin_eq_dec : EqDecision DescriptionOrigin.
Proof. solve_decision. Defined.

Definition binding_targets : list (string * BindingTarget) :=
  [("path", TPath); ("query", TQuery); ("header", THeader); ("body", TBody)].
Definition effect_classes : list (string * EffectClass) :=
  [("read", EffectRead); ("write", EffectWrite); ("destructive", EffectDestructive)].
Definition access_modes : list (string * AccessMode) :=
  [("public", Public); ("restricted", Restricted)].
Definition lifecycle_states : list (string * LifecycleState) :=
  [("draft", Draft); ("published", Published); ("disabled", Disabled)].
Definition description_origins : list (string * DescriptionOrigin) :=
  [("source", FromSource); ("generated", Generated); ("assisted", Assisted); ("human", Human)].
Definition HTTP_METHODS : list string := ["GET"; "POST"; "PUT"; "PATCH"; "DELETE"].
Definition SOURCE_METHODS : list string := ["get"; "post"; "put"; "patch"; "delete"].

(** The text of an enumeration's value, from the table that reads it. *)
Fixpoint text_of {A} `{EqDecision A} (l : list (string * A)) (a : A) : string :=
  match l with
  | [] => ""
  | (s, b) :: l => if bool_decide (a = b) then s else text_of l a
  end.

(** ** Models and their constructors *)

Record ArgumentBinding := MkBinding {
  argument_pointer : string;
  target : BindingTarget;
  target_name : string;
}.
Definition ArgumentBinding_new (b : ArgumentBinding) : M ArgumentBinding :=
  let* _ := require (json_pointer (argument_pointer b)) "argument_pointer" in
  let* _ := require (within 1 256 (target_name b)) "target_name" in
  let* _ := require (negb (bool_decide (target b = TBody) && negb (starts_with "/" (target_name b))))
              "a body binding target_name must be an RFC 6901 pointer" in
  let* _ := require (negb (negb (bool_decide (target b = TBody)) && has_char newline (target_name b)))
              "a parameter name may not contain a line break" in
  Ok b.

Record ToolOperation := MkOperation {
  method : string;
  path_template : string;
  bindings : list ArgumentBinding;
  request_body_media_type : bool;   (* ["application/json"], or [None] *)
}.
Definition binding_location (b : ArgumentBinding) : BindingTarget * string := (target b, target_name b).
Definition has_body_binding (o : ToolOperation) : bool :=
  existsb (fun b => bool_decide (target b = TBody)) (bindings o).
Definition ToolOperation_new (o : ToolOperation) : M ToolOperation :=
  let* _ := require (str_in (method o) HTTP_METHODS) "method" in
  let* _ := require (within 1 2048 (path_template o) && fullmatch PATH_PATTERN (path_template o))
              "path_template" in
  let* _ := require (negb (has_duplicate (map binding_location (bindings o))))
              "two arguments bind to the same request location" in
  let* _ := require (negb (has_body_binding o && negb (request_body_media_type o)))
              "a body binding requires a request_body_media_type" in
  let* _ := require (negb (request_body_media_type o && negb (has_body_binding o)))
              "a request_body_media_type requires at least one body binding" in
  Ok o.

Definition sorted_strs (l : list string) : list string :=
  (ksort (map (fun s => (s, tt)) l)).*1.

Record ToolAccessPolicy := MkAccess {
  access_mode : AccessMode;
  allowed_roles : list string;
}.
(** The field validator sorts the roles before the model validator runs. *)
Definition ToolAccessPolicy_new (mode : AccessMode) (roles : list string) : M ToolAccessPolicy :=
  let* _ := require (forallb resource_key roles) "allowed_roles" in
  let roles := sorted_strs roles in
  let empty := match roles with [] => true | _ => false end in
  let* _ := require (negb (bool_decide (mode = Public) && negb empty))
              "a public tool cannot carry a role list" in
  let* _ := require (negb (bool_decide (mode = Restricted) && empty))
              "a restricted tool must allow at least one role" in
  let* _ := require (negb (has_duplicate roles)) "allowed_roles contains a duplicate" in
  Ok (MkAccess mode roles).
Definition ToolAccessPolicy_public : ToolAccessPolicy := MkAccess Public [].

Record ToolPolicy := MkToolPolicy {
  effect_class : EffectClass;
  requires_confirmation : bool;
  access : ToolAccessPolicy;
}.

Record ToolProvenance := MkProvenance {
  source_operation_id : option string;
  source_path : string;
  source_method : string;
  tags : list string;
  deprecated : bool;
  description_origin : DescriptionOrigin;
}.
Definition opt_within (hi : nat) (o : option string) : bool :=
  match o with Some s => (slen s <=? hi)%nat | None => true end.
Definition ToolProvenance_new (p : ToolProvenance) : M ToolProvenance :=
  let* _ := require (opt_within 256 (source_operation_id p)) "source_operation_id" in
  let* _ := require (within 1 2048 (source_path p)) "source_path" in
  let* _ := require (str_in (source_method p) SOURCE_METHODS) "source_method" in
  Ok p.

Definition DIALECT : string := "https://json-schema.org/draft/2020-12/schema".

Record ToolDefinition := MkTool {
  tool_name : string;
  display_name : string;
  description : string;
  input_schema : dict;
  operation : ToolOperation;
  policy : ToolPolicy;
  provenance : ToolProvenance;
}.
Definition is_false (v : pyval) : bool := match v with VBool false => true | _ => false end.
Definition closed_object_schema (s : dict) : M unit :=
  let* _ := require (py_eq (get "type" s) (VStr "object")) "input_schema must describe an object" in
  let* _ := require (is_false (get "additionalProperties" s))
              "input_schema must set additionalProperties to false" in
  let* _ := require (py_eq (get "$schema" s) (VStr DIALECT))
              "input_schema must declare the Draft 2020-12 dialect" in
  let* _ := require (is_dict (get "properties" s)) "input_schema must declare a properties object" in
  let* _ := require (is_list (get "required" s)) "input_schema must declare a required array" in
  Ok tt.
Definition declared_arguments (s : dict) : list string :=
  match get "properties" s with
  | VDict properties => map (fun kv => "/" +:+ key_text kv.1) properties
  | _ => []
  end.
Definition binding_root (b : ArgumentBinding) : string :=
  "/" +:+ hd "" (split_on "/" (lstrip_char "/" (argument_pointer b))).
Definition ToolDefinition_new (t : ToolDefinition) : M ToolDefinition :=
  let* _ := require (tool_name_ok (tool_name t)) "tool_name" in
  let* _ := require (within 1 128 (display_name t)) "display_name" in
  let* _ := require (within 1 1024 (description t)) "description" in
  let* _ := require (forallb (fun kv => is_str_key kv.1) (input_schema t)) "input_schema" in
  let* _ := closed_object_schema (input_schema t) in
  let* _ := require (forallb (fun b => str_in (binding_root b) (declared_arguments (input_schema t)))
                       (bindings (operation t)))
              "a binding reads an argument the input schema does not declare" in
  Ok t.

Record RuntimeBinding := MkRuntimeBinding {
  base_url : string;
  auth_profile_ref : option string;
}.
Definition reviewed_origin (value : string) : M unit :=
  match urlsplit value with
  | Err _ => invalid "base_url"
  | Ok parsed =>
      let* _ := require (str_in (sr_scheme parsed) ["http"; "https"]) "base_url must use http or https" in
      let* _ := require (negb (is_empty (sr_netloc parsed) || has_char "@" (sr_netloc parsed)))
                  "base_url must name a host and must not contain userinfo" in
      require (is_empty (sr_query parsed) && is_empty (sr_fragment parsed))
        "base_url must not contain a query string or fragment"
  end.
Definition RuntimeBinding_new (r : RuntimeBinding) : M RuntimeBinding :=
  let* _ := require (within 0 2048 (base_url r)) "base_url" in
  let* _ := reviewed_origin (base_url r) in
  let* _ := require (opt_within 256 (auth_profile_ref r)) "auth_profile_ref" in
  Ok r.

Record SourceProvenance := MkSource {
  spec_version : string;
  document_filename : string;
  document_digest : string;
  byte_length : Z;
}.
Definition SourceProvenance_new (s : SourceProvenance) : M SourceProvenance :=
  let* _ := require (within 1 16 (spec_version s)) "spec_version" in
  let* _ := require (within 1 256 (document_filename s)) "document_filename" in
  let* _ := require (digest_ok (document_digest s)) "document_digest" in
  let* _ := require (1 <=? byte_length s)%Z "byte_length" in
  Ok s.

Record AuditTimestamps := MkAudit {
  created_at : string;
  updated_at : string;
  published_at : option string;
}.

Record ConnectorDefinition := MkConnector {
  contract_version : string;
  connector_key : string;
  c_display_name : string;
  summary : string;
  version : string;
  lifecycle_state : LifecycleState;
  runtime : RuntimeBinding;
  source : SourceProvenance;
  tools : list ToolDefinition;
  labels : list string;
  audit : AuditTimestamps;
}.
Definition ConnectorDefinition_new (c : ConnectorDefinition) : M ConnectorDefinition :=
  let* _ := require (semantic_version (contract_version c)) "contract_version" in
  let* _ := require (resource_key (connector_key c)) "connector_key" in
  let* _ := require (within 1 128 (c_display_name c)) "display_name" in
  let* _ := require (within 1 1024 (summary c)) "summary" in
  let* _ := require (semantic_version (version c)) "version" in
  let* _ := require (negb (bool_decide (tools c = []))) "tools" in
  let* _ := require (negb (has_duplicate (map tool_name (tools c))))
              "tool names must be unique within a connector version" in
  Ok c.
Definition connector_tool (c : ConnectorDefinition) (name : string) : option ToolDefinition :=
  find_first (fun t => String.eqb (tool_name t) name) (tools c).

Record SnapshotSignature := MkSignature { sig_key_id : string; sig_value : string }.
Definition SnapshotSignature_new (s : SnapshotSignature) : M SnapshotSignature :=
  let* _ := require (fullmatch KEY_ID_MODEL_PATTERN (sig_key_id s) && within 2 64 (sig_key_id s)) "key_id" in
  let* _ := require (fullmatch SIGNATURE_PATTERN (sig_value s)) "value" in
  Ok s.

Record DeploymentSnapshot := MkSnapshot {
  s_contract_version : string;
  snapshot_id : string;
  deployment_key : string;
  revision : Z;
  s_created_at : string;
  snapshot_digest : string;
  connectors : list ConnectorDefinition;
  signature : option SnapshotSignature;
}.
Definition is_published (c : ConnectorDefinition) : bool := bool_decide (lifecycle_state c = Published).
Definition DeploymentSnapshot_new (s : DeploymentSnapshot) : M DeploymentSnapshot :=
  let* _ := require (semantic_version (s_contract_version s)) "contract_version" in
  let* _ := require (fullmatch SNAPSHOT_ID_PATTERN (snapshot_id s)) "snapshot_id" in
  let* _ := require (resource_key (deployment_key s)) "deployment_key" in
  let* _ := require (1 <=? revision s)%Z "revision" in
  let* _ := require (digest_ok (snapshot_digest s)) "snapshot_digest" in
  let* _ := require (negb (has_duplicate (map connector_key (connectors s))))
              "a snapshot may pin only one version per connector" in
  let* _ := require (forallb is_published (connectors s))
              "a snapshot may contain only published connector versions" in
  Ok s.

Record ToolExecutionResult := MkResult {
  r_tool_name : string;
  r_connector_key : string;
  r_connector_version : string;
  r_succeeded : bool;            (* "succeeded", or "upstream_error" *)
  r_http_status : Z;
  r_duration_ms : Z;
  r_content : pyval;
  r_request_id : option string;
}.
Definition ToolExecutionResult_new (r : ToolExecutionResult) : M ToolExecutionResult :=
  let* _ := require (tool_name_ok (r_tool_name r)) "tool_name" in
  let* _ := require (resource_key (r_connector_key r)) "connector_key" in
  let* _ := require (semantic_version (r_connector_version r)) "connector_version" in
  let* _ := require ((100 <=? r_http_status r) && (r_http_status r <=? 599))%Z "http_status" in
  let* _ := require (0 <=? r_duration_ms r)%Z "duration_ms" in
  let* _ := require (opt_within 64 (r_request_id r)) "request_id" in
  Ok r.

(** ** Reading a model from a document *)

(** [extra="forbid"]: an object with declared fields only. *)
Definition fields (declared : list string) (v : pyval) : M dict :=
  match v with
  | VDict d =>
      if forallb (fun kv => match kv.1 with KStr k => str_in k declared | KOther _ => false end) d
      then Ok d else invalid "Extra inputs are not permitted"
  | _ => invalid "Input should be a valid dictionary"
  end.
Definition field (k : string) (d : dict) : M pyval := of_option (Raised PydanticValidationError k) (dget (KStr k) d).

Definition as_string (v : pyval) : M string :=
  match v with VStr s => Ok s | _ => invalid "Input should be a valid string" end.
Definition as_optional {A} (f : pyval -> M A) (v : pyval) : M (option A) :=
  match v with VNone => Ok None | _ => let* a := f v in Ok (Some a) end.
Definition as_items {A} (f : pyval -> M A) (v : pyval) : M (list A) :=
  match as_seq v with Some l => map_result f l | None => invalid "Input should be a valid tuple" end.
Definition as_enum {A} (table : list (string * A)) (v : pyval) : M A :=
  let* s := as_string v in of_option (Raised PydanticValidationError "literal") (alookup s table).
Definition as_literal (s : string) (v : pyval) : M unit :=
  match v with VStr t => require (String.eqb s t) "literal" | _ => invalid "literal" end.
Definition as_object (v : pyval) : M dict :=
  match v with VDict d => Ok d | _ => invalid "Input should be a valid dictionary" end.

Section parse.
Context `{Pydantic}.

Definition as_boolean (v : pyval) : M bool :=
  match v with
  | VBool b => Ok b
  | _ => of_option (Raised PydanticValidationError "Input should be a valid boolean") (lax_bool v)
  end.
Definition as_integer (v : pyval) : M Z :=
  match v with
  | VInt z => Ok z
  | _ => of_option (Raised PydanticValidationError "Input should be a valid integer") (lax_int v)
  end.

Definition get_as {A} (f : pyval -> M A) (k : string) (d : dict) : M A :=
  let* v := field k d in f v.
(** A field with a default. *)
Definition get_as_or {A} (f : pyval -> M A) (k : string) (default : A) (d : dict) : M A :=
  match dget (KStr k) d with Some v => f v | None => Ok default end.
(** Text of bounded length; [X | None = None]. *)
Definition as_text (lo hi : nat) (v : pyval) : M string :=
  let* s := as_string v in let* _ := require (within lo hi s) "length" in Ok s.
Definition optional_field {A} (f : pyval -> M A) (k : string) (d : dict) : M (option A) :=
  get_as_or (as_optional f) k None d.

Definition parse_binding (v : pyval) : M ArgumentBinding :=
  let* d := fields ["argument_pointer"; "target"; "target_name"] v in
  let* p := get_as as_string "argument_pointer" d in
  let* t := get_as (as_enum binding_targets) "target" d in
  let* n := get_as as_string "target_name" d in
  ArgumentBinding_new (MkBinding p t n).

Definition as_media_type (v : pyval) : M bool :=
  match v with
  | VNone => Ok false
  | _ => let* _ := as_literal "application/json" v in Ok true
  end.
Definition parse_operation (v : pyval) : M ToolOperation :=
  let* d := fields ["protocol"; "method"; "path_template"; "bindings"; "request_body_media_type"] v in
  let* _ := get_as (as_literal "http") "protocol" d in
  let* m := get_as as_string "method" d in
  let* p := get_as as_string "path_template" d in
  let* b := get_as (as_items parse_binding) "bindings" d in
  let* r := get_as as_media_type "request_body_media_type" d in
  ToolOperation_new (MkOperation m p b r).

Definition parse_access (v : pyval) : M ToolAccessPolicy :=
  let* d := fields ["access_mode"; "allowed_roles"] v in
  let* m := get_as (as_enum access_modes) "access_mode" d in
  let* r := get_as (as_items as_string) "allowed_roles" d in
  ToolAccessPolicy_new m r.

Definition parse_policy (v : pyval) : M ToolPolicy :=
  let* d := fields ["effect_class"; "requires_confirmation"; "access"] v in
  let* e := get_as (as_enum effect_classes) "effect_class" d in
  let* c := get_as as_boolean "requires_confirmation" d in
  let* a := get_as parse_access "access" d in
  Ok (MkToolPolicy e c a).

Definition parse_provenance (v : pyval) : M ToolProvenance :=
  let* d := fields ["source_operation_id"; "source_path"; "source_method"; "tags"; "deprecated";
                    "description_origin"] v in
  let* i := get_as (as_optional as_string) "source_operation_id" d in
  let* p := get_as as_string "source_path" d in
  let* m := get_as as_string "source_method" d in
  let* t := get_as (as_items as_string) "tags" d in
  let* b := get_as as_boolean "deprecated" d in
  let* o := get_as (as_enum description_origins) "description_origin" d in
  ToolProvenance_new (MkProvenance i p m t b o).

Definition parse_tool (v : pyval) : M ToolDefinition :=
  let* d := fields ["tool_name"; "display_name"; "description"; "input_schema"; "operation";
                    "policy"; "provenance"] v in
  let* n := get_as as_string "tool_name" d in
  let* t := get_as as_string "display_name" d in
  let* s := get_as as_string "description" d in
  let* i := get_as as_object "input_schema" d in
  let* o := get_as parse_operation "operation" d in
  let* p := get_as parse_policy "policy" d in
  let* v := get_as parse_provenance "provenance" d in
  ToolDefinition_new (MkTool n t s i o p v).

Definition parse_runtime (v : pyval) : M RuntimeBinding :=
  let* d := fields ["protocol"; "base_url"; "auth_profile_ref"] v in
  let* _ := get_as (as_literal "http") "protocol" d in
  let* b := get_as as_string "base_url" d in
  let* a := get_as (as_optional as_string) "auth_profile_ref" d in
  RuntimeBinding_new (MkRuntimeBinding b a).

Definition parse_source (v : pyval) : M SourceProvenance :=
  let* d := fields ["format"; "spec_version"; "document_filename"; "document_digest"; "byte_length"] v in
  let* _ := get_as (as_literal "openapi") "format" d in
  let* s := get_as as_string "spec_version" d in
  let* f := get_as as_string "document_filename" d in
  let* g := get_as as_string "document_digest" d in
  let* n := get_as as_integer "byte_length" d in
  SourceProvenance_new (MkSource s f g n).

Definition parse_audit (v : pyval) : M AuditTimestamps :=
  let* d := fields ["created_at"; "updated_at"; "published_at"] v in
  let* c := get_as as_string "created_at" d in
  let* u := get_as as_string "updated_at" d in
  let* p := get_as (as_optional as_string) "published_at" d in
  Ok (MkAudit c u p).

Definition parse_connector (v : pyval) : M ConnectorDefinition :=
  let* d := fields ["contract_version"; "connector_key"; "display_name"; "summary"; "version";
                    "lifecycle_state"; "runtime"; "source"; "tools"; "labels"; "audit"] v in
  let* cv := get_as as_string "contract_version" d in
  let* k := get_as as_string "connector_key" d in
  let* n := get_as as_string "display_name" d in
  let* s := get_as as_string "summary" d in
  let* v := get_as as_string "version" d in
  let* l := get_as (as_enum lifecycle_states) "lifecycle_state" d in
  let* r := get_as parse_runtime "runtime" d in
  let* o := get_as parse_source "source" d in
  let* t := get_as (as_items parse_tool) "tools" d in
  let* b := get_as (as_items as_string) "labels" d in
  let* a := get_as parse_audit "audit" d in
  ConnectorDefinition_new (MkConnector cv k n s v l r o t b a).

Definition parse_signature (v : pyval) : M SnapshotSignature :=
  let* d := fields ["algorithm"; "key_id"; "value"] v in
  let* _ := get_as (as_literal "ed25519") "algorithm" d in
  let* k := get_as as_string "key_id" d in
  let* s := get_as as_string "value" d in
  SnapshotSignature_new (MkSignature k s).

Definition parse_snapshot (v : pyval) : M DeploymentSnapshot :=
  let* d := fields ["contract_version"; "snapshot_id"; "deployment_key"; "revision"; "created_at";
                    "snapshot_digest"; "connectors"; "signature"] v in
  let* cv := get_as as_string "contract_version" d in
  let* i := get_as as_string "snapshot_id" d in
  let* k := get_as as_string "deployment_key" d in
  let* r := get_as as_integer "revision" d in
  let* c := get_as as_string "created_at" d in
  let* g := get_as as_string "snapshot_digest" d in
  let* l := get_as (as_items parse_connector) "connectors" d in
  let* s := match dget (KStr "signature") d with
            | Some v => as_optional parse_signature v
            | None => Ok None
            end in
  DeploymentSnapshot_new (MkSnapshot cv i k r c g l s).
End parse.

(** ** Writing a model: [model_dump(mode="json")] *)

Definition dump_opt {A} (f : A -> pyval) (o : option A) : pyval :=
  match o with Some a => f a | None => VNone end.
Definition dump_binding (b : ArgumentBinding) : pyval :=
  VDict {{ "argument_pointer" ~> VStr (argument_pointer b);
           "target" ~> VStr (text_of binding_targets (target b));
           "target_name" ~> VStr (target_name b) }}.
Definition dump_operation (o : ToolOperation) : pyval :=
  VDict {{ "protocol" ~> VStr "http"; "method" ~> VStr (method o);
           "path_template" ~> VStr (path_template o);
           "bindings" ~> VList (map dump_binding (bindings o));
           "request_body_media_type" ~>
             (if request_body_media_type o then VStr "application/json" else VNone) }}.
Definition dump_access (a : ToolAccessPolicy) : pyval :=
  VDict {{ "access_mode" ~> VStr (text_of access_modes (access_mode a));
           "allowed_roles" ~> strs (allowed_roles a) }}.
Definition dump_policy (p : ToolPolicy) : pyval :=
  VDict {{ "effect_class" ~> VStr (text_of effect_classes (effect_class p));
           "requires_confirmation" ~> VBool (requires_confirmation p);
           "access" ~> dump_access (access p) }}.
Definition dump_provenance (p : ToolProvenance) : pyval :=
  VDict {{ "source_operation_id" ~> dump_opt VStr (source_operation_id p);
           "source_path" ~> VStr (source_path p); "source_method" ~> VStr (source_method p);
           "tags" ~> strs (tags p); "deprecated" ~> VBool (deprecated p);
           "description_origin" ~> VStr (text_of description_origins (description_origin p)) }}.
Definition dump_tool (t : ToolDefinition) : pyval :=
  VDict {{ "tool_name" ~> VStr (tool_name t); "display_name" ~> VStr (display_name t);
           "description" ~> VStr (description t); "input_schema" ~> VDict (input_schema t);
           "operation" ~> dump_operation (operation t); "policy" ~> dump_policy (policy t);
           "provenance" ~> dump_provenance (provenance t) }}.
Definition dump_runtime (r : RuntimeBinding) : pyval :=
  VDict {{ "protocol" ~> VStr "http"; "base_url" ~> VStr (base_url r);
           "auth_profile_ref" ~> dump_opt VStr (auth_profile_ref r) }}.
Definition dump_source (s : SourceProvenance) : pyval :=
  VDict {{ "format" ~> VStr "openapi"; "spec_version" ~> VStr (spec_version s);
           "document_filename" ~> VStr (document_filename s);
           "document_digest" ~> VStr (document_digest s); "byte_length" ~> VInt (byte_length s) }}.
Definition dump_audit (a : AuditTimestamps) : pyval :=
  VDict {{ "created_at" ~> VStr (created_at a); "updated_at" ~> VStr (updated_at a);
           "published_at" ~> dump_opt VStr (published_at a) }}.
Definition dump_connector (c : ConnectorDefinition) : pyval :=
  VDict {{ "contract_version" ~> VStr (contract_version c); "connector_key" ~> VStr (connector_key c);
           "display_name" ~> VStr (c_display_name c); "summary" ~> VStr (summary c);
           "version" ~> VStr (version c);
           "lifecycle_state" ~> VStr (text_of lifecycle_states (lifecycle_state c));
           "runtime" ~> dump_runtime (runtime c); "source" ~> dump_source (source c);
           "tools" ~> VList (map dump_tool (tools c)); "labels" ~> strs (labels c);
           "audit" ~> dump_audit (audit c) }}.
Definition dump_signature (s : SnapshotSignature) : pyval :=
  VDict {{ "algorithm" ~> VStr "ed25519"; "key_id" ~> VStr (sig_key_id s);
           "value" ~> VStr (sig_value s) }}.
Definition dump_snapshot (s : DeploymentSnapshot) : pyval :=
  VDict {{ "contract_version" ~> VStr (s_contract_version s); "snapshot_id" ~> VStr (snapshot_id s);
           "deployment_key" ~> VStr (deployment_key s); "revision" ~> VInt (revision s);
           "created_at" ~> VStr (s_created_at s); "snapshot_digest" ~> VStr (snapshot_digest s);
           "connectors" ~> VList (map dump_connector (connectors s));
           "signature" ~> dump_opt dump_signature (signature s) }}.

(** ** Valid models *)

Lemma require_Ok b m u : require b m = Ok u <-> b = true.
Proof. unfold require, invalid. destruct b, u; done. Qed.

Definition valid_binding (b : ArgumentBinding) : Prop := ArgumentBinding_new b = Ok b.
Definition valid_operation (o : ToolOperation) : Prop :=
  ToolOperation_new o = Ok o /\ Forall valid_binding (bindings o).
Definition valid_access (a : ToolAccessPolicy) : Prop :=
  ToolAccessPolicy_new (access_mode a) (allowed_roles a) = Ok a.
Definition valid_tool (t : ToolDefinition) : Prop :=
  ToolDefinition_new t = Ok t /\ valid_operation (operation t) /\
  valid_access (access (policy t)) /\ ToolProvenance_new (provenance t) = Ok (provenance t).
Definition valid_connector (c : ConnectorDefinition) : Prop :=
  ConnectorDefinition_new c = Ok c /\ RuntimeBinding_new (runtime c) = Ok (runtime c) /\
  SourceProvenance_new (source c) = Ok (source c) /\ Forall valid_tool (tools c).
Definition valid_signature (s : SnapshotSignature) : Prop := SnapshotSignature_new s = Ok s.
Definition valid_snapshot (s : DeploymentSnapshot) : Prop :=
  DeploymentSnapshot_new s = Ok s /\ Forall valid_connector (connectors s) /\
  match signature s with Some g => valid_signature g | None => True end.

(** A constructor returns what it was given. *)
Ltac returns_argument :=
  intros H; repeat (apply bind_Ok in H; destruct H as (? & _ & H)); by injection H.
Lemma ArgumentBinding_new_eq b b' : ArgumentBinding_new b = Ok b' -> b = b'.
Proof. unfold ArgumentBinding_new. returns_argument. Qed.
Lemma ToolOperation_new_eq o o' : ToolOperation_new o = Ok o' -> o = o'.
Proof. unfold ToolOperation_new. returns_argument. Qed.
Lemma ToolProvenance_new_eq p p' : ToolProvenance_new p = Ok p' -> p = p'.
Proof. unfold ToolProvenance_new. returns_argument. Qed.
Lemma ToolDefinition_new_eq t t' : ToolDefinition_new t = Ok t' -> t = t'.
Proof. unfold ToolDefinition_new. returns_argument. Qed.
Lemma RuntimeBinding_new_eq r r' : RuntimeBinding_new r = Ok r' -> r = r'.
Proof. unfold RuntimeBinding_new. returns_argument. Qed.
Lemma SourceProvenance_new_eq s s' : SourceProvenance_new s = Ok s' -> s = s'.
Proof. unfold SourceProvenance_new. returns_argument. Qed.
Lemma ConnectorDefinition_new_eq c c' : ConnectorDefinition_new c = Ok c' -> c = c'.
Proof. unfold ConnectorDefinition_new. returns_argument. Qed.
Lemma SnapshotSignature_new_eq s s' : SnapshotSignature_new s = Ok s' -> s = s'.
Proof. unfold SnapshotSignature_new. returns_argument. Qed.
Lemma DeploymentSnapshot_new_eq s s' : DeploymentSnapshot_new s = Ok s' -> s = s'.
Proof. unfold DeploymentSnapshot_new. returns_argument. Qed.

(** Sorting role lists: sorted input stays. *)
Lemma ksort_sorted_id {A} (l : list (string * A)) : StronglySorted key_le l -> ksort l = l.
Proof.
  induction 1 as [|x l Hs IH Hx]; simpl; [done|]. rewrite IH.
  destruct l as [|y l]; simpl; [done|]. apply Forall_cons in Hx as [Hxy _].
  apply Is_true_true in Hxy. by rewrite Hxy.
Qed.
Lemma unit_pairs (l : list (string * unit)) : map (fun s => (s, tt)) l.*1 = l.
Proof. induction l as [|[s []] l IH]; csimpl; congruence. Qed.
Lemma sorted_strs_idem l : sorted_strs (sorted_strs l) = sorted_strs l.
Proof.
  unfold sorted_strs at 1. unfold sorted_strs at 1. rewrite unit_pairs.
  rewrite ksort_sorted_id by apply ksort_sorted. done.
Qed.
Lemma sorted_strs_perm l : sorted_strs l ≡ₚ l.
Proof.
  unfold sorted_strs. rewrite (fmap_Permutation fst _ _ (ksort_perm _)).
  rewrite <- list_fmap_compose. by rewrite (list_fmap_ext _ id), list_fmap_id.
Qed.
Lemma sorted_strs_nil l : sorted_strs l = [] <-> l = [].
Proof.
  split; [|by intros ->]. intros H. apply Permutation_nil. by rewrite <- H, sorted_strs_perm.
Qed.

(** What [ToolAccessPolicy] guarantees: the mode and the roles agree. *)
Definition access_ok (a : ToolAccessPolicy) : Prop :=
  (access_mode a = Public <-> allowed_roles a = []) /\ NoDup (allowed_roles a) /\
  Forall (fun r => resource_key r = true) (allowed_roles a) /\
  sorted_strs (allowed_roles a) = allowed_roles a.

Lemma ToolAccessPolicy_new_Ok m r a :
  ToolAccessPolicy_new m r = Ok a <->
  a = MkAccess m (sorted_strs r) /\ access_ok a.
Proof.
  unfold ToolAccessPolicy_new, access_ok. cbv zeta. split.
  - intros (? & H1%require_Ok & (? & H2%require_Ok & (? & H3%require_Ok & (? & H4%require_Ok &
      [= <-])%bind_Ok)%bind_Ok)%bind_Ok)%bind_Ok.
    split; [done|]. cbn [access_mode allowed_roles].
    apply negb_true_iff, has_duplicate_false in H4. split_and!.
    + destruct m, (sorted_strs r); simpl in *; try done. 
    + done.
    + rewrite sorted_strs_perm. by apply forallb_Forall.
    + apply sorted_strs_idem.
  - intros (-> & Hm & Hn & Hr & _). cbn [access_mode allowed_roles] in *.
    rewrite sorted_strs_perm in Hr. apply forallb_Forall in Hr.
    apply has_duplicate_false in Hn. rewrite Hr, Hn. cbn [require bind negb].
    destruct m, (sorted_strs r); simpl in *; try done; destruct Hm; naive_solver.
Qed.
Lemma ToolAccessPolicy_new_valid m r a : ToolAccessPolicy_new m r = Ok a -> valid_access a.
Proof.
  intros H. unfold valid_access. apply ToolAccessPolicy_new_Ok in H as [-> H].
  apply ToolAccessPolicy_new_Ok. cbn [access_mode allowed_roles]. by rewrite sorted_strs_idem.
Qed.

(** ** Reading back what was written *)

Lemma fields_Ok ks names d :
  dkeys d = map KStr ks -> forallb (fun k => str_in k names) ks = true -> fields names (VDict d) = Ok d.
Proof.
  intros Hk Hs. unfold fields. replace (forallb _ d) with true; [done|]. symmetry.
  revert ks Hk Hs. induction d as [|[k v] d IH]; intros [|k' ks]; simpl; try done.
  intros [= -> Hk] [H1 H2]%andb_true_iff. rewrite H1. by apply (IH ks).
Qed.
Lemma get_as_cons {A} (f : pyval -> M A) k k' v d :
  get_as f k ((KStr k', v) :: d) = if String.eqb k k' then f v else get_as f k d.
Proof.
  unfold get_as, field. simpl. destruct (String.eqb_spec k k') as [->|Hne].
  - by rewrite bool_decide_eq_true_2.
  - rewrite bool_decide_eq_false_2; [done|congruence].
Qed.
Lemma as_items_map {A B} (f : pyval -> M B) (g : A -> pyval) (h : A -> B) l :
  Forall (fun a => f (g a) = Ok (h a)) l -> as_items f (VList (map g l)) = Ok (map h l).
Proof.
  unfold as_items. simpl. intros H. apply map_result_Ok. induction H; simpl; by constructor.
Qed.
Lemma as_items_self {A} (f : pyval -> M A) (g : A -> pyval) l :
  Forall (fun a => f (g a) = Ok a) l -> as_items f (VList (map g l)) = Ok l.
Proof. intros H. rewrite (as_items_map f g id) by done. by rewrite map_id. Qed.
Lemma as_items_strs l : as_items as_string (strs l) = Ok l.
Proof. apply as_items_self. by apply Forall_true. Qed.
Lemma as_optional_dump o : as_optional as_string (dump_opt VStr o) = Ok o.
Proof. by destruct o. Qed.
Lemma as_enum_text {A} `{EqDecision A} (table : list (string * A)) a :
  alookup (text_of table a) table = Some a -> as_enum table (VStr (text_of table a)) = Ok a.
Proof. unfold as_enum. cbn [as_string bind]. by intros ->. Qed.

(** Read every field of a literal document. *)
Ltac read_doc ks :=
  rewrite (fields_Ok ks) by reflexivity; cbn [bind];
  repeat (rewrite get_as_cons; cbn [String.eqb Ascii.eqb Bool.eqb]);
  cbn [as_string bind as_literal require String.eqb Ascii.eqb Bool.eqb as_object].

Section dump_parse.
Context `{Pydantic}.

Lemma parse_dump_binding b : valid_binding b -> parse_binding (dump_binding b) = Ok b.
Proof.
  intros Hb. unfold parse_binding, dump_binding.
  read_doc ["argument_pointer"; "target"; "target_name"].
  rewrite as_enum_text by (by destruct (target b)). cbn [bind].
  destruct b. exact Hb.
Qed.
Lemma parse_dump_operation o : valid_operation o -> parse_operation (dump_operation o) = Ok o.
Proof.
  intros [Ho Hb]. unfold parse_operation, dump_operation.
  read_doc ["protocol"; "method"; "path_template"; "bindings"; "request_body_media_type"].
  rewrite (as_items_self parse_binding dump_binding)
    by (eapply Forall_impl; [exact Hb|]; apply parse_dump_binding). cbn [bind].
  replace (as_media_type _) with (Ok (E:=exn) (request_body_media_type o))
    by by destruct (request_body_media_type o).
  cbn [bind]. destruct o. exact Ho.
Qed.
Lemma parse_dump_access a : valid_access a -> parse_access (dump_access a) = Ok a.
Proof.
  intros Ha. unfold parse_access, dump_access. read_doc ["access_mode"; "allowed_roles"].
  rewrite as_enum_text by (by destruct (access_mode a)). cbn [bind].
  rewrite as_items_strs. exact Ha.
Qed.
Lemma parse_dump_policy p : valid_access (access p) -> parse_policy (dump_policy p) = Ok p.
Proof.
  intros Ha. unfold parse_policy, dump_policy.
  read_doc ["effect_class"; "requires_confirmation"; "access"].
  rewrite as_enum_text by (by destruct (effect_class p)). cbn [bind as_boolean].
  rewrite parse_dump_access by done. by destruct p.
Qed.
Lemma parse_dump_provenance p :
  ToolProvenance_new p = Ok p -> parse_provenance (dump_provenance p) = Ok p.
Proof.
  intros Hp. unfold parse_provenance, dump_provenance.
  read_doc ["source_operation_id"; "source_path"; "source_method"; "tags"; "deprecated"; "description_origin"].
  rewrite as_optional_dump, as_items_strs. cbn [bind as_boolean].
  rewrite as_enum_text by (by destruct (description_origin p)). destruct p. exact Hp.
Qed.
Lemma parse_dump_tool t : valid_tool t -> parse_tool (dump_tool t) = Ok t.
Proof.
  intros (Ht & Ho & Ha & Hp). unfold parse_tool, dump_tool.
  read_doc ["tool_name"; "display_name"; "description"; "input_schema"; "operation"; "policy"; "provenance"].
  rewrite parse_dump_operation, parse_dump_policy, parse_dump_provenance by done.
  destruct t. exact Ht.
Qed.
Lemma parse_dump_runtime r : RuntimeBinding_new r = Ok r -> parse_runtime (dump_runtime r) = Ok r.
Proof.
  intros Hr. unfold parse_runtime, dump_runtime. read_doc ["protocol"; "base_url"; "auth_profile_ref"].
  rewrite as_optional_dump. destruct r. exact Hr.
Qed.
Lemma parse_dump_source s : SourceProvenance_new s = Ok s -> parse_source (dump_source s) = Ok s.
Proof.
  intros Hs. unfold parse_source, dump_source.
  read_doc ["format"; "spec_version"; "document_filename"; "document_digest"; "byte_length"].
  destruct s. exact Hs.
Qed.
Lemma parse_dump_audit a : parse_audit (dump_audit a) = Ok a.
Proof.
  unfold parse_audit, dump_audit. read_doc ["created_at"; "updated_at"; "published_at"].
  rewrite as_optional_dump. by destruct a.
Qed.
Lemma parse_dump_connector c : valid_connector c -> parse_connector (dump_connector c) = Ok c.
Proof.
  intros (Hc & Hr & Hs & Ht). unfold parse_connector, dump_connector.
  read_doc ["contract_version"; "connector_key"; "display_name"; "summary"; "version";
            "lifecycle_state"; "runtime"; "source"; "tools"; "labels"; "audit"].
  rewrite as_enum_text by (by destruct (lifecycle_state c)). cbn [bind].
  rewrite parse_dump_runtime, parse_dump_source, parse_dump_audit, as_items_strs by done.
  rewrite (as_items_self parse_tool dump_tool)
    by (eapply Forall_impl; [exact Ht|]; apply parse_dump_tool).
  destruct c. exact Hc.
Qed.
Lemma parse_dump_signature s : valid_signature s -> parse_signature (dump_signature s) = Ok s.
Proof.
  intros Hs. unfold parse_signature, dump_signature. read_doc ["algorithm"; "key_id"; "value"].
  destruct s. exact Hs.
Qed.
Lemma parse_dump_snapshot s : valid_snapshot s -> parse_snapshot (dump_snapshot s) = Ok s.
Proof.
  intros (Hs & Hc & Hg). unfold parse_snapshot, dump_snapshot.
  read_doc ["contract_version"; "snapshot_id"; "deployment_key"; "revision"; "created_at";
            "snapshot_digest"; "connectors"; "signature"].
  cbn [as_integer bind].
  rewrite (as_items_self parse_connector dump_connector)
    by (eapply Forall_impl; [exact Hc|]; apply parse_dump_connector).
  cbn [bind]. simpl dget. cbn iota beta.
  replace (as_optional parse_signature (dump_opt dump_signature (signature s)))
    with (Ok (E:=exn) (signature s)).
  2: { destruct (signature s) as [g|]; [|done]. cbn [dump_opt].
       unfold dump_signature, as_optional. fold (dump_signature g).
       by rewrite parse_dump_signature. }
  destruct s. exact Hs.
Qed.

(** What [model_validate] accepts is valid. *)
Lemma get_as_Ok {A} (f : pyval -> M A) k d a :
  get_as f k d = Ok a -> exists v, dget (KStr k) d = Some v /\ f v = Ok a.
Proof. unfold get_as, field. intros (v & Hv%of_option_Ok & Hf)%bind_Ok. eauto. Qed.
Lemma as_items_Forall {A} (f : pyval -> M A) (P : A -> Prop) v l :
  (forall v a, f v = Ok a -> P a) -> as_items f v = Ok l -> Forall P l.
Proof.
  unfold as_items. intros Hf. destruct (as_seq v) as [vs|]; [|done].
  intros H1%map_result_Ok. induction H1; constructor; eauto.
Qed.

Ltac open_parse :=
  repeat match goal with
  | H : bind (fields _ _) _ = Ok _ |- _ => apply bind_Ok in H; destruct H as (? & _ & H)
  | H : bind (get_as _ _ _) _ = Ok _ |- _ =>
      apply bind_Ok in H; destruct H as (? & (? & _ & ?)%get_as_Ok & H)
  | H : Ok _ = Ok _ |- _ => injection H as H; subst
  end.

Lemma parse_binding_valid v b : parse_binding v = Ok b -> valid_binding b.
Proof.
  unfold parse_binding. intros Hv. open_parse.
  pose proof (ArgumentBinding_new_eq _ _ Hv) as E. by rewrite E in Hv.
Qed.
Lemma parse_operation_valid v o : parse_operation v = Ok o -> valid_operation o.
Proof.
  unfold parse_operation. intros Hv. open_parse.
  pose proof (ToolOperation_new_eq _ _ Hv) as E. rewrite E in Hv. split; [done|].
  rewrite <- E. simpl. eapply as_items_Forall; [|eassumption]. apply parse_binding_valid.
Qed.
Lemma parse_access_valid v a : parse_access v = Ok a -> valid_access a.
Proof. unfold parse_access. intros Hv. open_parse. by eapply ToolAccessPolicy_new_valid. Qed.
Lemma parse_policy_valid v p : parse_policy v = Ok p -> valid_access (access p).
Proof. unfold parse_policy. intros Hv. open_parse. simpl. by eapply parse_access_valid. Qed.
Lemma parse_provenance_valid v p : parse_provenance v = Ok p -> ToolProvenance_new p = Ok p.
Proof.
  unfold parse_provenance. intros Hv. open_parse.
  pose proof (ToolProvenance_new_eq _ _ Hv) as E. by rewrite E in Hv.
Qed.
Lemma parse_tool_valid v t : parse_tool v = Ok t -> valid_tool t.
Proof.
  unfold parse_tool. intros Hv. open_parse.
  pose proof (ToolDefinition_new_eq _ _ Hv) as E. rewrite E in Hv. rewrite <- E in *. unfold valid_tool.
  split_and!; [done|..]; simpl.
  - by eapply parse_operation_valid.
  - by eapply parse_policy_valid.
  - by eapply parse_provenance_valid.
Qed.
Lemma parse_runtime_valid v r : parse_runtime v = Ok r -> RuntimeBinding_new r = Ok r.
Proof.
  unfold parse_runtime. intros Hv. open_parse.
  pose proof (RuntimeBinding_new_eq _ _ Hv) as E. by rewrite E in Hv.
Qed.
Lemma parse_source_valid v s : parse_source v = Ok s -> SourceProvenance_new s = Ok s.
Proof.
  unfold parse_source. intros Hv. open_parse.
  pose proof (SourceProvenance_new_eq _ _ Hv) as E. by rewrite E in Hv.
Qed.
Lemma parse_connector_valid v c : parse_connector v = Ok c -> valid_connector c.
Proof.
  unfold parse_connector. intros Hv. open_parse.
  pose proof (ConnectorDefinition_new_eq _ _ Hv) as E. rewrite E in Hv. rewrite <- E in *.
  unfold valid_connector. split_and!; [done|..]; simpl.
  - by eapply parse_runtime_valid.
  - by eapply parse_source_valid.
  - eapply as_items_Forall; [|eassumption]. apply parse_tool_valid.
Qed.
Lemma parse_signature_valid v s : parse_signature v = Ok s -> valid_signature s.
Proof.
  unfold parse_signature. intros Hv. open_parse.
  pose proof (SnapshotSignature_new_eq _ _ Hv) as E. by rewrite E in Hv.
Qed.
Lemma parse_snapshot_valid v s : parse_snapshot v = Ok s -> valid_snapshot s.
Proof.
  unfold parse_snapshot. intros Hv. open_parse. apply bind_Ok in Hv as (g & Hg & Hv).
  pose proof (DeploymentSnapshot_new_eq _ _ Hv) as E. rewrite E in Hv. rewrite <- E in *.
  unfold valid_snapshot. split_and!; [done|..]; simpl.
  - eapply as_items_Forall; [|eassumption]. apply parse_connector_valid.
  - destruct (dget _ _) as [u|]; [|by injection Hg as <-].
    unfold as_optional in Hg. destruct u; inv_ok; try done; by eapply parse_signature_valid.
Qed.
End dump_parse.

(** ** What a valid model guarantees *)

Lemma new_tool_facts t :
  ToolDefinition_new t = Ok t ->
  tool_name_ok (tool_name t) = true /\ closed_object_schema (input_schema t) = Ok tt /\
  Forall (fun b => binding_root b ∈ declared_arguments (input_schema t)) (bindings (operation t)).
Proof.
  unfold ToolDefinition_new. intros (? & H1%require_Ok & (? & _ & (? & _ & (? & _ & ([] & H2 &
    (? & H3%require_Ok & _)%bind_Ok)%bind_Ok)%bind_Ok)%bind_Ok)%bind_Ok)%bind_Ok.
  split_and!; [done..|]. apply forallb_Forall in H3. eapply Forall_impl; [exact H3|].
  intros b. unfold str_in. apply bool_decide_eq_true.
Qed.
Lemma closed_schema_facts s :
  closed_object_schema s = Ok tt ->
  get "type" s = VStr "object" /\ get "additionalProperties" s = VBool false /\
  get "$schema" s = VStr DIALECT /\
  exists props req, get "properties" s = VDict props /\ get "required" s = VList req.
Proof.
  unfold closed_object_schema. intros (? & H1%require_Ok & (? & H2%require_Ok & (? & H3%require_Ok &
    (? & H4%require_Ok & (? & H5%require_Ok & _)%bind_Ok)%bind_Ok)%bind_Ok)%bind_Ok)%bind_Ok.
  apply py_eq_str in H1, H3. split_and!; [done| |done|].
  - by destruct (get "additionalProperties" s) as [|[]| | | | | | |].
  - destruct (get "properties" s) as [| | | | | | |props|]; try done.
    destruct (get "required" s) as [| | | | |req| | |]; try done. eauto.
Qed.
Lemma new_operation_facts o :
  ToolOperation_new o = Ok o ->
  method o ∈ HTTP_METHODS /\ NoDup (map binding_location (bindings o)) /\
  has_body_binding o = request_body_media_type o.
Proof.
  unfold ToolOperation_new. intros (? & H1%require_Ok & (? & _ & (? & H3%require_Ok &
    (? & H4%require_Ok & (? & H5%require_Ok & _)%bind_Ok)%bind_Ok)%bind_Ok)%bind_Ok)%bind_Ok.
  apply bool_decide_eq_true in H1. apply negb_true_iff, has_duplicate_false in H3.
  split_and!; [done..|]. by destruct (has_body_binding o), (request_body_media_type o).
Qed.

(** A tool as the runtime may rely on it. *)
Record tool_guarantees (t : ToolDefinition) : Prop := {
  tg_name : fullmatch TOOL_NAME_PATTERN (tool_name t) = true /\ (1 <= slen (tool_name t) <= 64)%nat;
  tg_schema : get "type" (input_schema t) = VStr "object" /\
              get "additionalProperties" (input_schema t) = VBool false;
  tg_declared : Forall (fun b => binding_root b ∈ declared_arguments (input_schema t))
                  (bindings (operation t));
  tg_method : method (operation t) ∈ HTTP_METHODS;
  tg_distinct : NoDup (map binding_location (bindings (operation t)));
  tg_body : has_body_binding (operation t) = request_body_media_type (operation t);
  tg_access : access_ok (access (policy t));
}.

Lemma valid_tool_guarantees t : valid_tool t -> tool_guarantees t.
Proof.
  intros (Ht & [Ho _] & Ha & _).
  destruct (new_tool_facts t Ht) as (Hn & (Hty & Hap & _)%closed_schema_facts & Hb).
  destruct (new_operation_facts _ Ho) as (Hm & Hd & Hbody).
  split; try done.
  - unfold tool_name_ok, within in Hn. apply andb_true_iff in Hn as [Hn [H1 H2]%andb_true_iff].
    apply Nat.leb_le in H1, H2. done.
  - apply ToolAccessPolicy_new_Ok in Ha as [_ Ha]. done.
Qed.

Lemma new_connector_facts c :
  ConnectorDefinition_new c = Ok c -> tools c <> [] /\ NoDup (map tool_name (tools c)).
Proof.
  unfold ConnectorDefinition_new. intros (? & _ & (? & _ & (? & _ & (? & _ & (? & _ &
    (? & H5%require_Ok & (? & H6%require_Ok & _)%bind_Ok)%bind_Ok)%bind_Ok)%bind_Ok)%bind_Ok)%bind_Ok)%bind_Ok.
  apply negb_true_iff, bool_decide_eq_false in H5.
  by apply negb_true_iff, has_duplicate_false in H6.
Qed.
Lemma new_snapshot_facts s :
  DeploymentSnapshot_new s = Ok s ->
  (1 <= revision s)%Z /\ NoDup (map connector_key (connectors s)) /\
  Forall (fun c => lifecycle_state c = Published) (connectors s).
Proof.
  unfold DeploymentSnapshot_new. intros (? & _ & (? & _ & (? & _ & (? & H4%require_Ok & (? & _ &
    (? & H6%require_Ok & (? & H7%require_Ok & _)%bind_Ok)%bind_Ok)%bind_Ok)%bind_Ok)%bind_Ok)%bind_Ok)%bind_Ok.
  apply Z.leb_le in H4. apply negb_true_iff, has_duplicate_false in H6. split_and!; [done..|].
  apply forallb_Forall in H7. eapply Forall_impl; [exact H7|]. intros c. apply bool_decide_eq_true.
Qed.


(** A snapshot document that validates pins at most one version per
    connector, all of them published and each with at least one tool under
    pairwise distinct names; every tool has a well-formed name, a closed object
    schema, bindings that read declared arguments and write pairwise distinct
    request locations, a body exactly when it declares a media type, and an
    access policy whose mode and sorted role list agree. *)
Theorem parsed_snapshot_guarantees `{Pydantic} :
  forall v s, parse_snapshot v = Ok s ->
    (1 <= revision s)%Z /\ NoDup (map connector_key (connectors s)) /\
    Forall (fun c => lifecycle_state c = Published /\ tools c <> [] /\
                     NoDup (map tool_name (tools c)) /\ Forall tool_guarantees (tools c))
      (connectors s).
Proof.
  intros v s (Hs & Hc & _)%parse_snapshot_valid.
  destruct (new_snapshot_facts s Hs) as (Hr & Hn & Hp). split_and!; [done..|].
  rewrite Forall_forall in Hc, Hp |- *. intros c Hin.
  destruct (Hc c Hin) as (Hcn & _ & _ & Ht). destruct (new_connector_facts c Hcn) as [H1 H2].
  split_and!; auto. eapply Forall_impl; [exact Ht | apply valid_tool_guarantees].
Qed.

(** Concrete documents for the witnesses. *)
#[export] Instance demo_pydantic : Pydantic := {| lax_bool := fun _ => None; lax_int := fun _ => None |}.
Definition demo_schema : dict :=
  {{ "$schema" ~> VStr DIALECT; "type" ~> VStr "object"; "additionalProperties" ~> VBool false;
     "properties" ~> VDict {{ "ticket_id" ~> VDict {{ "type" ~> VStr "string" }};
                              "note" ~> VDict {{ "type" ~> VStr "string" }} }};
     "required" ~> strs ["ticket_id"] }}.
Definition demo_tool : ToolDefinition :=
  MkTool "add_note" "Add note" "Add a note to a ticket." demo_schema
    (MkOperation "POST" "/tickets/{ticket_id}/notes"
       [MkBinding "/ticket_id" TPath "ticket_id"; MkBinding "/note" TBody "/note"] true)
    (MkToolPolicy EffectWrite true (MkAccess Restricted ["support-agent"]))
    (MkProvenance (Some "addNote") "/tickets/{ticket_id}/notes" "post" ["tickets"] false FromSource).
Definition zeros64 : string := join "" (replicate 64 "0").
Definition demo_connector : ConnectorDefinition :=
  MkConnector "1.1.0" "ticket-api" "Ticket API" "Tickets." "0.1.0" Published
    (MkRuntimeBinding "https://api.example.org/v1" None)
    (MkSource "3.0.3" "tickets.yaml" ("sha256:" +:+ zeros64) 10) [demo_tool] []
    (MkAudit "2024-01-01T00:00:00Z" "2024-01-01T00:00:00Z" None).
Definition demo_snapshot : DeploymentSnapshot :=
  MkSnapshot "1.1.0" ("snap_" +:+ join "" (replicate 32 "a")) "default" 1 "2024-01-01T00:00:00Z"
    ("sha256:" +:+ zeros64) [demo_connector] None.


Lemma parsed_snapshot_guarantees_witness :
  (1 <= revision demo_snapshot)%Z /\ NoDup (map connector_key (connectors demo_snapshot)).
Proof.
  destruct (parsed_snapshot_guarantees (dump_snapshot demo_snapshot) demo_snapshot
              ltac:(vm_compute; reflexivity)) as (H1 & H2 & _).
  split; [exact H1 | exact H2].
Defined.
