(* ===== verification/Envelope.v ===== *)
(** * The models of the wire the services do not instantiate

    [toollayer_contracts/models.py]: the request of an execution and the error
    envelope as models, and how the envelopes [errors.py] writes meet the
    latter. *)

From S2P Require Export Models.

(** ** The request of an execution *)

Record ToolExecutionRequest := MkExecutionRequest {
  xr_connector_key : string;
  xr_connector_version : string;
  xr_tool_name : string;
  xr_arguments : dict;
  xr_caller_roles : list string;
  xr_request_id : option string;
}.
Definition ToolExecutionRequest_new (r : ToolExecutionRequest) : M ToolExecutionRequest :=
  let* _ := require (resource_key (xr_connector_key r)) "connector_key" in
  let* _ := require (semantic_version (xr_connector_version r)) "connector_version" in
  let* _ := require (tool_name_ok (xr_tool_name r)) "tool_name" in
  let* _ := require (forallb resource_key (xr_caller_roles r)) "caller_roles" in
  let* _ := require (opt_within 64 (xr_request_id r)) "request_id" in
  Ok r.
Definition parse_execution_request (v : pyval) : M ToolExecutionRequest :=
  let* d := fields ["connector_key"; "connector_version"; "tool_name"; "arguments"; "caller_roles"; "request_id"] v in
  let* key := get_as as_string "connector_key" d in
  let* version := get_as as_string "connector_version" d in
  let* name := get_as as_string "tool_name" d in
  let* arguments := get_as_or as_object "arguments" [] d in
  let* roles := get_as_or (as_items as_string) "caller_roles" [] d in
  let* request_id := optional_field as_string "request_id" d in
  ToolExecutionRequest_new (MkExecutionRequest key version name arguments roles request_id).

(** ** The error envelope *)

Definition ERROR_CODE_PATTERN : re :=
  RCat (RSet is_lower) (RStar (RSet (fun c => alnum_lower c || Ascii.eqb c "_"))).
Definition error_code_ok (s : string) : bool := fullmatch ERROR_CODE_PATTERN s && within 0 64 s.
Record ErrorBody := MkErrorBody {
  eb_code : string;
  eb_message : string;
  eb_pointer : option string;
  eb_details : list dict;
  eb_request_id : option string;
}.
Definition ErrorBody_new (b : ErrorBody) : M ErrorBody :=
  let* _ := require (error_code_ok (eb_code b)) "code" in
  let* _ := require (within 1 512 (eb_message b)) "message" in
  Ok b.
Definition parse_error_body (v : pyval) : M ErrorBody :=
  let* d := fields ["code"; "message"; "pointer"; "details"; "request_id"] v in
  let* code := get_as as_string "code" d in
  let* message := get_as as_string "message" d in
  let* pointer := optional_field as_string "pointer" d in
  let* details := get_as_or (as_items as_object) "details" [] d in
  let* request_id := optional_field as_string "request_id" d in
  ErrorBody_new (MkErrorBody code message pointer details request_id).
Definition parse_error_envelope (v : pyval) : M ErrorBody :=
  let* d := fields ["error"] v in get_as parse_error_body "error" d.

(** ** What the services write *)

Definition detail_dict (d : ErrorDetail) : dict :=
  {{ "code" ~> VStr (d_code d); "message" ~> VStr (d_message d);
     "pointer" ~> opt_str (d_pointer d); "severity" ~> VStr (d_severity d) }}.
Definition body_of (e : ErrorEnvelope) : ErrorBody :=
  MkErrorBody (env_code e) (env_message e) (env_pointer e) (map detail_dict (env_details e)) (env_request_id e).

Lemma details_read l : map_result as_object (map detail_to_dict l) = Ok (map detail_dict l).
Proof. induction l as [|d l IH]; [done|]. cbn [map map_result]. rewrite IH. done. Qed.
(** Every declared code is one the model accepts. *)
Lemma declared_codes_ok : forallb (fun e : string * Z => error_code_ok e.1) STATUS_BY_CODE = true.
Proof. vm_compute. reflexivity. Qed.

(** An envelope reads back as the model, with everything it says, exactly when
    its code has the declared form and its message has 1 to 512 characters. *)
Theorem envelope_conforms :
  forall e b, parse_error_envelope (envelope_to_dict e) = Ok b <->
    b = body_of e /\ error_code_ok (env_code e) = true /\ within 1 512 (env_message e) = true.
Proof.
  intros [code message pointer details request_id] b.
  assert (parse_error_envelope (envelope_to_dict (MkEnvelope code message pointer details request_id)) =
    ErrorBody_new (body_of (MkEnvelope code message pointer details request_id))) as ->.
  { unfold body_of, envelope_to_dict. cbn [env_code env_message env_pointer env_details env_request_id].
    destruct details as [|x details]; [by destruct pointer, request_id|].
    pose proof (details_read (x :: details)) as Hd. cbv zeta iota. revert Hd.
    generalize (map detail_to_dict (x :: details)) (map detail_dict (x :: details)). intros written read Hd.
    destruct pointer as [p|], request_id as [r|]; lazy -[map_result as_object ErrorBody_new]; by rewrite Hd. }
  unfold ErrorBody_new, require. cbn [eb_code eb_message body_of]. cbn [env_code env_message].
  destruct (error_code_ok code), (within 1 512 message); cbn [bind]; split; try done;
    [by intros [= <-]|by intros [-> _]|by intros (_ & _ & ?)|by intros (_ & ? & _)|by intros (_ & ? & _)].
Qed.
