(* ===== verification/Naming.v ===== *)
(** * Tool names

    [toollayer_openapi/naming.py]: tool names from operation ids and from methods
    and paths, and display names. *)

From S2P Require Export Models.

Definition MAX_TOOL_NAME_LENGTH : nat := 64.

Definition METHOD_VERB : list (string * string) :=
  [("get", "get"); ("post", "create"); ("put", "replace"); ("patch", "update"); ("delete", "delete")].

(** A pattern of the form "between [c] and what follows": substituting an
    underscore for its empty matches. *)
Fixpoint sub_between (p : ascii -> string -> bool) (s : string) : string :=
  match s with
  | "" => ""
  | String c rest =>
      if p c rest then String c (String "_" (sub_between p rest)) else String c (sub_between p rest)
  end.
Definition CAMEL_BOUNDARY (c : ascii) (rest : string) : bool :=
  (is_lower c || is_digit c) && match rest with String d _ => is_upper d | _ => false end.
Definition ACRONYM_BOUNDARY (c : ascii) (rest : string) : bool :=
  is_upper c && match rest with String d (String e _) => is_upper d && is_lower e | _ => false end.
(** Substituting an underscore for every longest run of [p]. *)
Fixpoint sub_runs (p : ascii -> bool) (in_run : bool) (s : string) : string :=
  match s with
  | "" => ""
  | String c rest =>
      if p c then if in_run then sub_runs p true rest else String "_" (sub_runs p true rest)
      else String c (sub_runs p false rest)
  end.
Definition NON_IDENTIFIER (c : ascii) : bool := negb (is_alnum c).

Definition snake_case (value : string) : string :=
  let spaced := sub_between ACRONYM_BOUNDARY (sub_between CAMEL_BOUNDARY value) in
  lower (strip_char "_" (sub_runs NON_IDENTIFIER false spaced)).

Section naming.
Context `{Platform}.

Definition bounded (candidate : string) : string :=
  if (slen candidate <=? MAX_TOOL_NAME_LENGTH)%nat then candidate
  else
    let suffix := stake 10 (sha256_hex (encode_utf8 candidate)) in
    let keep := (MAX_TOOL_NAME_LENGTH - slen suffix - 1)%nat in
    rstrip_char "_" (stake keep candidate) +:+ "_" +:+ suffix.

Definition normalize_tool_name (value : string) : M string :=
  match snake_case value with
  | "" => value_error "the operation identifier cannot produce a tool name"
  | String c _ as candidate => Ok (bounded (if is_digit c then "op_" +:+ candidate else candidate))
  end.

(** [v\d+[a-z0-9]*]. *)
Definition VERSION_SEGMENT : re :=
  RCat (rchar "v") (RCat (rplus (RSet is_digit)) (RStar (RSet alnum_lower))).
(** [segment[1:-1]]. *)
Definition inner (s : string) : string := stake (slen s - 2) (sdrop 1 s).
Definition segment_words (segment : string) : list string :=
  if starts_with "{" segment && ends_with "}" segment then
    let normalized := snake_case (inner segment) in
    if is_empty normalized then [] else ["by"; normalized]
  else
    let normalized := snake_case segment in
    if is_empty normalized then [] else [normalized].
Definition path_words (path : string) : list string :=
  let raw_segments := List.filter (fun s => negb (is_empty s)) (split_on "/" (strip_char "/" path)) in
  match raw_segments with
  | first :: rest =>
      List.concat (map segment_words (if fullmatch VERSION_SEGMENT (lower first) then rest else first :: rest))
  | [] => []
  end.
Definition derive_tool_name (method path : string) : M string :=
  let* verb := of_option (Raised ValueError ("unsupported HTTP method: " +:+ repr_str method)) (alookup (lower method) METHOD_VERB) in
  match path_words path with
  | [] => Ok (bounded (verb +:+ "_root"))
  | segments => Ok (bounded (verb +:+ "_" +:+ join "_" segments))
  end.
End naming.

(** [s.capitalize()]. *)
Definition capitalize (s : string) : string :=
  match s with "" => "" | String c s => String (upper_char c) (lower s) end.
Definition to_display_name (tool_name : string) : string :=
  match List.filter (fun w => negb (is_empty w)) (split_on "_" tool_name) with
  | [] => tool_name
  | w :: words => join " " (capitalize w :: words)
  end.

Example naming_examples `{Platform} :
  (normalize_tool_name "getTicketByID", normalize_tool_name "listHTTPServers2Go", normalize_tool_name "2fa.reset",
   derive_tool_name "GET" "/v1/tickets/{ticketId}", derive_tool_name "post" "/", to_display_name "get_tickets_by_id") =
  (Ok "get_ticket_by_id", Ok "list_http_servers2_go", Ok "op_2fa_reset",
   Ok "get_tickets_by_ticket_id", Ok "create_root", "Get tickets by id").
Proof. reflexivity. Qed.

(** ** Names as the contract wants them *)

(** Words over [p], each next to at most one underscore on either side;
    [edge] says that an underscore may not come next. *)
Fixpoint spaced (p : ascii -> bool) (edge : bool) (s : string) : bool :=
  match s with
  | "" => true
  | String c s => if Ascii.eqb c "_" then negb edge && spaced p true s else p c && spaced p false s
  end.
(** The same, not ending in an underscore: non-empty words joined by single
    underscores, at least one when [edge]. *)
Fixpoint tidy (p : ascii -> bool) (edge : bool) (s : string) : bool :=
  match s with
  | "" => negb edge
  | String c s => if Ascii.eqb c "_" then negb edge && tidy p true s else p c && tidy p false s
  end.

Section tidy_lemmas.
Context (p : ascii -> bool).

Lemma spaced_stake k e s : spaced p e s = true -> spaced p e (stake k s) = true.
Proof.
  revert e s. induction k as [|k IH]; intros e [|c s]; simpl; try done.
  destruct (Ascii.eqb c "_"); intros [H1 H2]%andb_true_iff; by rewrite H1, IH.
Qed.
Lemma tidy_spaced e s : tidy p e s = true -> spaced p e s = true.
Proof.
  revert e. induction s as [|c s IH]; intros e; simpl; [done|].
  destruct (Ascii.eqb c "_"); intros [H1 H2]%andb_true_iff; by rewrite H1, IH.
Qed.
Lemma spaced_lstrip e s : spaced p e s = true -> spaced p true (lstrip_char "_" s) = true.
Proof.
  unfold lstrip_char. revert e. induction s as [|c s IH]; intros e; [done|].
  cbn [spaced lstrip_by]. rewrite (Ascii.eqb_sym "_" c). destruct (Ascii.eqb c "_") eqn:Hc.
  - intros [_ H]%andb_true_iff. eauto.
  - intros H. cbn [spaced]. by rewrite Hc, H.
Qed.
Lemma spaced_rstrip e s :
  spaced p e s = true -> rstrip_char "_" s = "" \/ tidy p e (rstrip_char "_" s) = true.
Proof.
  unfold rstrip_char. revert e. induction s as [|c s IH]; intros e; [by left|].
  cbn [spaced rstrip_by]. rewrite (Ascii.eqb_sym "_" c). destruct (Ascii.eqb c "_") eqn:Hc; intros [H1 H2]%andb_true_iff.
  - destruct (IH _ H2) as [->|Ht]; [by left|].
    destruct (rstrip_by _ s); [by left|]. right. cbn [tidy] in *. by rewrite Hc, H1, Ht.
  - destruct (IH _ H2) as [->|Ht]; right.
    + cbn [tidy]. by rewrite Hc, H1.
    + destruct (rstrip_by _ s); cbn [tidy] in *; by rewrite Hc, H1.
Qed.
Lemma rstrip_first c s : c <> "_"%char -> rstrip_char "_" (String c s) <> "".
Proof.
  intros Hc. unfold rstrip_char. cbn [rstrip_by]. destruct (Ascii.eqb_spec "_" c) as [<-|_]; [done|].
  by destruct (rstrip_by _ s).
Qed.
Lemma tidy_join e s t : tidy p e s = true -> s <> "" -> tidy p true t = true -> tidy p e (s +:+ "_" +:+ t) = true.
Proof.
  revert e. induction s as [|c s IH]; intros e; [done|]. rewrite sapp_cons. cbn [tidy].
  intros Hs _ Ht. destruct (Ascii.eqb c "_"); apply andb_true_iff in Hs as [H1 H2]; rewrite H1.
  - destruct s; [done|]. by rewrite IH.
  - destruct s as [|d s]; [|by rewrite IH]. rewrite sapp_nil_l, sapp_cons, sapp_nil_l. cbn [tidy]. done.
Qed.
Lemma tidy_join_list w ws :
  Forall (fun w => tidy p true w = true) (w :: ws) -> tidy p true (join "_" (w :: ws)) = true.
Proof.
  revert w. induction ws as [|v ws IH]; intros w [Hw Hws]%Forall_cons; [done|].
  change (join "_" (w :: v :: ws)) with (w +:+ "_" +:+ join "_" (v :: ws)).
  apply tidy_join; [done| |by apply IH]. by destruct w.
Qed.
Lemma tidy_all s : sall p s = true -> (p "_"%char = false) -> s <> "" -> forall e, tidy p e s = true.
Proof.
  intros Hs Hp. induction s as [|c s IH]; [done|]. intros _ e. cbn [tidy sall] in *.
  apply andb_true_iff in Hs as [Hc Hs]. destruct (Ascii.eqb_spec c "_") as [->|_]; [congruence|].
  rewrite Hc. destruct s; [done|]. by apply IH.
Qed.
Lemma tidy_weaken s : tidy p true s = true -> tidy p false s = true.
Proof. destruct s as [|c s]; [done|]. cbn [tidy]. by destruct (Ascii.eqb c "_"). Qed.
End tidy_lemmas.

Lemma tidy_lower e t : tidy is_alnum e t = true -> tidy alnum_lower e (lower t) = true.
Proof.
  revert e. induction t as [|c t IH]; intros e; [done|]. cbn [tidy lower smap].
  destruct (Ascii.eqb_spec c "_") as [->|Hne].
  - change (lower_char "_") with "_"%char. rewrite Ascii.eqb_refl.
    intros [H1 H2]%andb_true_iff. rewrite H1. by apply IH.
  - intros [H1 H2]%andb_true_iff. assert (alnum_lower (lower_char c) = true) as Hl.
    { clear -H1. by destruct c as [[] [] [] [] [] [] [] []]. }
    destruct (Ascii.eqb_spec (lower_char c) "_") as [E|_]; [by rewrite E in Hl|]. rewrite Hl. by apply IH.
Qed.
Lemma sub_runs_spaced s b : spaced is_alnum b (sub_runs NON_IDENTIFIER b s) = true.
Proof.
  revert b. induction s as [|c s IH]; intros b; [done|]. cbn [sub_runs]. unfold NON_IDENTIFIER at 1.
  destruct (is_alnum c) eqn:Hc; cbn [negb].
  - cbn [spaced]. destruct (Ascii.eqb_spec c "_") as [->|_]; [done|]. by rewrite Hc, IH.
  - destruct b; [apply IH|]. cbn [spaced]. by rewrite Ascii.eqb_refl, IH.
Qed.
Lemma snake_case_tidy v : snake_case v = "" \/ tidy alnum_lower true (snake_case v) = true.
Proof.
  unfold snake_case. cbv zeta. unfold strip_char, strip_by. generalize (sub_between ACRONYM_BOUNDARY (sub_between CAMEL_BOUNDARY v)) as s.
  intros s. destruct (spaced_rstrip is_alnum true _ (spaced_lstrip _ _ _ (sub_runs_spaced s false))) as [H|H].
  - left. unfold rstrip_char, lstrip_char in H. by rewrite H.
  - right. by apply tidy_lower in H.
Qed.

(** Snake case is left alone. *)
Definition no_upper : string -> bool := sall (fun d => negb (is_upper d)).
Lemma sub_between_id p s :
  (forall c rest, no_upper rest = true -> p c rest = false) -> no_upper s = true -> sub_between p s = s.
Proof.
  intros Hp. unfold no_upper. induction s as [|c s IH]; [done|]. intros [Hc Hs]%andb_true_iff. cbn [sub_between].
  rewrite Hp by done. by rewrite IH.
Qed.
Lemma camel_no_upper c rest : no_upper rest = true -> CAMEL_BOUNDARY c rest = false.
Proof.
  unfold CAMEL_BOUNDARY. destruct rest as [|d rest]; [by rewrite andb_false_r|].
  intros [H%negb_true_iff _]%andb_true_iff. by rewrite H, andb_false_r.
Qed.
Lemma acronym_no_upper c rest : no_upper rest = true -> ACRONYM_BOUNDARY c rest = false.
Proof.
  unfold ACRONYM_BOUNDARY. destruct rest as [|d [|e rest]]; [by rewrite andb_false_r..|].
  intros [H%negb_true_iff _]%andb_true_iff. by rewrite H, andb_false_r.
Qed.
Lemma tidy_chars e s : tidy alnum_lower e s = true -> sall (fun c => alnum_lower c || Ascii.eqb c "_") s = true.
Proof.
  revert e. induction s as [|c s IH]; intros e; [done|]. cbn [tidy sall].
  destruct (Ascii.eqb c "_"); intros [H1 H2]%andb_true_iff; [rewrite orb_true_r|rewrite H1]; eauto.
Qed.
Lemma snake_case_id s : tidy alnum_lower true s = true -> snake_case s = s.
Proof.
  intros Ht. assert (no_upper s = true) as Hu.
  { eapply sall_impl; [|eapply tidy_chars; exact Ht]. intros c. by destruct c as [[] [] [] [] [] [] [] []]. }
  unfold snake_case. cbv zeta.
  rewrite (sub_between_id CAMEL_BOUNDARY), (sub_between_id ACRONYM_BOUNDARY)
    by auto using camel_no_upper, acronym_no_upper.
  assert (forall e b s, tidy alnum_lower e s = true -> (b = true -> e = true) -> sub_runs NON_IDENTIFIER b s = s) as Hr.
  { clear. intros e b s. revert e b. induction s as [|c s IH]; intros e b; [done|]. cbn [tidy sub_runs].
    destruct (Ascii.eqb_spec c "_") as [->|_]; intros [H1 H2]%andb_true_iff Hb.
    - destruct e; [done|]. destruct b; [by discriminate Hb|]. cbn. f_equal. by apply (IH true).
    - assert (NON_IDENTIFIER c = false) as -> by (clear -H1; by destruct c as [[] [] [] [] [] [] [] []]).
      f_equal. by apply (IH false). }
  rewrite (Hr true false s) by done.
  assert (strip_char "_" s = s) as ->.
  { unfold strip_char, strip_by. assert (lstrip_by (Ascii.eqb "_") s = s) as ->.
    { destruct s as [|c s]; [done|]. cbn [lstrip_by tidy] in *. rewrite (Ascii.eqb_sym "_" c).
      by destruct (Ascii.eqb c "_"). }
    clear -Ht. revert Ht. generalize true at 1 as e. induction s as [|c s IH]; intros e; [done|]. cbn [tidy rstrip_by].
    rewrite (Ascii.eqb_sym "_" c). destruct (Ascii.eqb c "_") eqn:Hc; intros [H1 H2]%andb_true_iff.
    - rewrite (IH _ H2). by destruct s.
    - rewrite (IH _ H2). by destruct s. }
  clear -Hu. unfold lower, no_upper in *. induction s as [|c s IH]; [done|]. cbn [smap sall] in *.
  apply andb_true_iff in Hu as [Hc Hs]. rewrite IH by done. unfold lower_char. by destruct (is_upper c).
Qed.

(** A name is empty only when nothing in the text can be part of one. *)
Lemma sub_between_alnum p s : sany is_alnum (sub_between p s) = sany is_alnum s.
Proof.
  induction s as [|c s IH]; [done|]. cbn [sub_between]. destruct (p c s); rewrite !sany_cons, IH; done.
Qed.
Lemma sub_runs_alnum b s : sany is_alnum (sub_runs NON_IDENTIFIER b s) = sany is_alnum s.
Proof.
  revert b. induction s as [|c s IH]; intros b; [done|]. cbn [sub_runs]. unfold NON_IDENTIFIER at 1.
  rewrite sany_cons. destruct (is_alnum c) eqn:Hc; cbn [negb].
  - by rewrite sany_cons, Hc.
  - destruct b; rewrite ?sany_cons; apply IH.
Qed.
Lemma lstrip_alnum s : sany is_alnum (lstrip_char "_" s) = sany is_alnum s.
Proof.
  unfold lstrip_char. induction s as [|c s IH]; [done|]. cbn [lstrip_by].
  destruct (Ascii.eqb_spec "_" c) as [<-|_]; [by rewrite IH, sany_cons|done].
Qed.
Lemma rstrip_alnum s : sany is_alnum (rstrip_char "_" s) = sany is_alnum s.
Proof.
  unfold rstrip_char. induction s as [|c s IH]; [done|]. cbn [rstrip_by]. rewrite sany_cons, <- IH.
  destruct (rstrip_by _ s).
  - destruct (Ascii.eqb_spec "_" c) as [<-|_]; [done|by rewrite sany_cons].
  - by rewrite sany_cons.
Qed.
Lemma snake_case_empty v : snake_case v = "" <-> sany is_alnum v = false.
Proof.
  rewrite <- (sub_between_alnum CAMEL_BOUNDARY v), <- (sub_between_alnum ACRONYM_BOUNDARY),
    <- (sub_runs_alnum false), <- lstrip_alnum, <- rstrip_alnum.
  unfold snake_case. cbv zeta. unfold strip_char, strip_by, rstrip_char, lstrip_char.
  pose proof (sub_runs_spaced (sub_between ACRONYM_BOUNDARY (sub_between CAMEL_BOUNDARY v)) false) as Hs.
  apply spaced_lstrip, spaced_rstrip in Hs. unfold rstrip_char, lstrip_char in Hs.
  destruct Hs as [->|Ht]; [done|]. destruct (rstrip_by _ _) as [|c s]; [done|].
  split; [done|]. cbn [tidy] in Ht. rewrite sany_cons.
  destruct (Ascii.eqb c "_"); apply andb_true_iff in Ht as [Hc _]; [done|]. by rewrite Hc.
Qed.

(** [hashlib]: a hexadecimal SHA-256 is 64 digits, in lower case. *)
Class ShaText `{Platform} := {
  sha256_hex_shape s : slen (sha256_hex s) = 64%nat /\ sall hex_lower (sha256_hex s) = true;
}.

Section names.
Context `{ShaText}.

(** A name the contract accepts, in the form the naming rules produce. *)
Definition canonical_name (n : string) : Prop :=
  tidy alnum_lower true n = true /\ tool_name_ok n = true.

Lemma tidy_tool_name n c r :
  tidy alnum_lower true n = true -> n = String c r -> is_digit c = false -> (slen n <= 64)%nat -> tool_name_ok n = true.
Proof.
  intros Ht -> Hc Hl. pose proof (tidy_chars _ _ Ht) as Hall. cbn [tidy sall] in *.
  apply andb_true_iff in Hall as [_ Hall].
  unfold tool_name_ok, within. apply andb_true_iff. split; [|apply andb_true_iff; split; [done|by apply Nat.leb_le]].
  apply fullmatch_spec, matches_cat. exists (String c ""), r. split; [done|]. split.
  - apply matches_set. exists c. split; [done|].
    destruct (Ascii.eqb c "_"); [done|]. apply andb_true_iff in Ht as [Ht _].
    unfold alnum_lower in Ht. by rewrite Hc, orb_false_r in Ht.
  - by apply matches_star_set.
Qed.
Lemma stake_sall p k s : sall p s = true -> sall p (stake k s) = true.
Proof.
  revert s. induction k as [|k IH]; intros [|c s]; [done..|]. cbn [sall stake].
  intros [Hc Hs]%andb_true_iff. by rewrite Hc, IH.
Qed.
Lemma rstrip_length p s : (slen (rstrip_by p s) <= slen s)%nat.
Proof.
  induction s as [|c s IH]; [done|]. cbn [rstrip_by]. destruct (rstrip_by p s); [destruct (p c)|]; simpl in *; lia.
Qed.
Lemma truncated_tidy k c r h :
  tidy alnum_lower true (String c r) = true -> tidy alnum_lower true h = true ->
  exists r', rstrip_char "_" (stake (S k) (String c r)) +:+ "_" +:+ h = String c r' /\
    tidy alnum_lower true (String c r') = true /\ (slen (String c r') <= S k + 1 + slen h)%nat.
Proof.
  intros Ht Hh. assert (c <> "_"%char) as Hu by (intros ->; by cbn in Ht).
  pose proof (rstrip_first c (stake k r) Hu) as Hne.
  destruct (spaced_rstrip alnum_lower true (stake (S k) (String c r))) as [E|Hr];
    [by apply spaced_stake, tidy_spaced|done|].
  pose proof (rstrip_length (Ascii.eqb "_") (stake (S k) (String c r))) as Hl. rewrite slen_stake in Hl.
  fold (rstrip_char "_") in Hl. cbn [stake] in *.
  assert (exists r', rstrip_char "_" (String c (stake k r)) = String c r') as [r' Er].
  { unfold rstrip_char in *. cbn [rstrip_by] in *. destruct (rstrip_by _ (stake k r)); [|by eexists].
    destruct (Ascii.eqb "_" c); [done|by eexists]. }
  pose proof (tidy_join _ _ _ _ Hr Hne Hh) as Hj. rewrite Er in *. rewrite sapp_cons in *.
  eexists. split; [done|]. split; [done|]. cbn [slen] in *. rewrite slen_app, sapp_cons. simpl slen. rewrite sapp_nil_l. lia.
Qed.
Lemma bounded_canonical c r :
  tidy alnum_lower true (String c r) = true -> is_digit c = false -> canonical_name (bounded (String c r)).
Proof.
  intros Ht Hc. unfold bounded. destruct (Nat.leb_spec (slen (String c r)) MAX_TOOL_NAME_LENGTH) as [Hl|_].
  { split; [done|]. by eapply tidy_tool_name. }
  cbv zeta. destruct (sha256_hex_shape (encode_utf8 (String c r))) as [Hlen Hhex].
  revert Hlen Hhex. generalize (sha256_hex (encode_utf8 (String c r))) as x. intros x Hlen Hhex.
  assert (slen (stake 10 x) = 10%nat) as Hh by (by rewrite slen_stake, Hlen).
  assert (tidy alnum_lower true (stake 10 x) = true) as Hth.
  { apply tidy_all; [|done|by intros E; rewrite E in Hh]. eapply sall_impl; [|apply stake_sall; exact Hhex].
    intros d. by destruct d as [[] [] [] [] [] [] [] []]. }
  rewrite Hh. destruct (truncated_tidy 52 c r _ Ht Hth) as (r' & E & Hj & Hl).
  change (MAX_TOOL_NAME_LENGTH - 10 - 1)%nat with 53%nat. rewrite E.
  split; [done|]. eapply tidy_tool_name; [done..|]. rewrite Hh in Hl. lia.
Qed.
Lemma canonical_name_normal n : canonical_name n -> normalize_tool_name n = Ok n.
Proof.
  intros [Ht Hn]. unfold normalize_tool_name. rewrite snake_case_id by done.
  unfold tool_name_ok in Hn. apply andb_true_iff in Hn as [Hp [_ Hl]%andb_true_iff].
  apply fullmatch_spec, matches_cat in Hp as (u & v & -> & (c & -> & Hc)%matches_set & _).
  rewrite sapp_cons in *. assert (is_digit c = false) as -> by (clear -Hc; by destruct c as [[] [] [] [] [] [] [] []]).
  unfold bounded. change MAX_TOOL_NAME_LENGTH with 64%nat. by rewrite Hl.
Qed.

Lemma normalize_tool_name_canonical :
  forall value,
    (sany is_alnum value = false ->
       normalize_tool_name value = raise (Raised ValueError "the operation identifier cannot produce a tool name")) /\
    (sany is_alnum value = true ->
       exists n, normalize_tool_name value = Ok n /\ canonical_name n /\ normalize_tool_name n = Ok n).
Proof.
  intros value. split; intros Hv.
  - unfold normalize_tool_name. by rewrite (proj2 (snake_case_empty value) Hv).
  - unfold normalize_tool_name at 1.
    destruct (snake_case_tidy value) as [E|Ht]; [apply snake_case_empty in E; congruence|].
    destruct (snake_case value) as [|c s]; [done|]. eexists. split; [done|].
    assert (canonical_name (bounded (if is_digit c then "op_" +:+ String c s else String c s))) as Hc; [|auto using canonical_name_normal].
    destruct (is_digit c) eqn:Hd; [|by apply bounded_canonical].
    apply bounded_canonical; [|done]. by apply (tidy_join alnum_lower true "op").
Qed.

Lemma segment_words_tidy s : Forall (fun w => tidy alnum_lower true w = true) (segment_words s).
Proof.
  unfold segment_words. cbv zeta.
  destruct (_ && _).
  - destruct (snake_case_tidy (inner s)) as [->|Ht]; simpl; [by constructor|].
    destruct (snake_case (inner s)); [done|]. repeat constructor. done.
  - destruct (snake_case_tidy s) as [->|Ht]; simpl; [by constructor|].
    destruct (snake_case s); [done|]. by repeat constructor.
Qed.
Lemma path_words_tidy path : Forall (fun w => tidy alnum_lower true w = true) (path_words path).
Proof.
  unfold path_words. cbv zeta. destruct (List.filter _ _) as [|s ss]; [constructor|].
  apply Forall_concat, Forall_map, Forall_true. intros; apply segment_words_tidy.
Qed.
Lemma derive_tool_name_canonical :
  forall method path,
    lower method ∈ METHOD_VERB.*1 ->
    exists n, derive_tool_name method path = Ok n /\ canonical_name n.
Proof.
  intros method path Hm. unfold derive_tool_name.
  destruct (alookup (lower method) METHOD_VERB) as [verb|] eqn:E; [|by apply alookup_None in E].
  assert (exists c v, verb = String c v /\ is_digit c = false /\ tidy alnum_lower true verb = true) as (c & v & -> & Hd & Hv).
  { revert Hm E. generalize (lower method) as m. intros m.
    unfold METHOD_VERB. csimpl. rewrite !elem_of_cons. intros [->|[->|[->|[->|[->|?%elem_of_nil]]]]]; [..|done];
      intros [= <-]; eexists _, _; done. }
  cbn [of_option bind]. pose proof (path_words_tidy path) as Hw. destruct (path_words path) as [|w ws].
  - eexists. split; [done|]. rewrite sapp_cons. apply bounded_canonical; [|done].
    by apply (tidy_join alnum_lower true (String c v) "root").
  - eexists. split; [done|]. rewrite sapp_cons. apply bounded_canonical; [|done].
    apply (tidy_join alnum_lower true (String c v) (join "_" (w :: ws))); [done..|by apply tidy_join_list].
Qed.
End names.

(** Tool names are always ones the contract accepts.  An operation id gives
    a name exactly when it has an ASCII letter or digit, and a [ValueError]
    otherwise; a method and a path always give one.  Every name is canonical:
    at most 64 characters of snake case that match the contract's pattern, also
    when it was truncated and suffixed by a digest, and normalizing it again
    changes nothing. *)
Theorem tool_names_canonical `{ShaText} :
  (forall value,
    (sany is_alnum value = false ->
       normalize_tool_name value = raise (Raised ValueError "the operation identifier cannot produce a tool name")) /\
    (sany is_alnum value = true ->
       exists n, normalize_tool_name value = Ok n /\ canonical_name n /\ normalize_tool_name n = Ok n)) /\
  (forall method path, lower method ∈ METHOD_VERB.*1 ->
     exists n, derive_tool_name method path = Ok n /\ canonical_name n).
Proof. split; [apply normalize_tool_name_canonical | apply derive_tool_name_canonical]. Qed.

Definition hex_platform : Platform := {| float_repr := demo_float_repr; sha256_hex := fun _ => zeros64 |}.
#[export] Instance hex_sha_text : ShaText (H:=hex_platform).
Proof. by constructor. Qed.

Lemma tool_names_canonical_witness :
  let long := "getTheCompleteHistoryOfEveryTicketThatWasEverAssignedToTheGivenSupportAgent" in
  exists n, normalize_tool_name (H:=hex_platform) long = Ok n /\ canonical_name n /\ slen n = 64%nat.
Proof.
  intros long. destruct (proj2 (proj1 (tool_names_canonical (H:=hex_platform)) long) eq_refl) as (n & Hn & Hc & _).
  exists n. split; [exact Hn|]. split; [exact Hc|]. revert Hn. vm_compute. intros [= <-]. reflexivity.
Defined.
