(* ===== verification/Diagnostics.v ===== *)
(** * Conversion errors and diagnostics

    [toollayer_openapi/errors.py]: the three errors of the converter, which are
    the [ConversionError] exceptions of Errors.v with the code of their class,
    and what a reviewer is told about a part of a document. *)

From S2P Require Export Errors.

Definition InvalidDocumentError (message pointer : string) : exn :=
  ConversionError ErrorCode.INVALID_SOURCE_DOCUMENT message pointer.
Definition UnsupportedFeatureError (message pointer : string) : exn :=
  ConversionError ErrorCode.UNSUPPORTED_SPEC_FEATURE message pointer.
Definition DocumentTooLargeError (message : string) : exn :=
  ConversionError ErrorCode.SOURCE_TOO_LARGE message "".

Record Diagnostic := MkDiagnostic {
  dg_code : string;
  dg_message : string;
  dg_pointer : string;
  dg_severity : string;
  dg_operation_key : option string;
}.
Definition diagnostic_to_dict (d : Diagnostic) : pyval :=
  VDict {{ "code" ~> VStr (dg_code d); "message" ~> VStr (dg_message d); "pointer" ~> VStr (dg_pointer d);
           "severity" ~> VStr (dg_severity d); "operation_key" ~> opt_str (dg_operation_key d) }}.
Definition as_diagnostic (code message pointer : string) (operation_key : option string) : Diagnostic :=
  MkDiagnostic code message pointer "error" operation_key.

(** [try: ... except ConversionError as error: ...]: what the body gave, or the
    code, message and pointer of the error. *)
Definition try_conversion {A} (c : M A) : M (A + string * string * string) :=
  match c with
  | Ok a => Ok (inl a)
  | Err (ConversionError code message pointer) => Ok (inr (code, message, pointer))
  | Err e => Err e
  end.

(** ** Outcomes: a result that satisfies [P], or a [ConversionError] *)

Definition converts {A} (P : A -> Prop) (c : M A) : Prop :=
  match c with Ok a => P a | Err e => is_conversion_error e = true end.

Lemma converts_weaken {A} (P Q : A -> Prop) (c : M A) : converts P c -> (forall a, P a -> Q a) -> converts Q c.
Proof. destruct c; simpl; auto. Qed.
Lemma converts_bind {A B} (Q : A -> Prop) (P : B -> Prop) (c : M A) (k : A -> M B) :
  converts Q c -> (forall a, c = Ok a -> Q a -> converts P (k a)) -> converts P (bind c k).
Proof. destruct c as [a|e]; simpl; auto. Qed.
Lemma converts_of_option {A} (P : A -> Prop) e (o : option A) :
  is_conversion_error e = true -> (forall a, o = Some a -> P a) -> converts P (of_option e o).
Proof. destruct o; simpl; auto. Qed.
Lemma converts_map_result {A B} (P : B -> Prop) (f : A -> M B) l :
  Forall (fun a => converts P (f a)) l -> converts (Forall P) (map_result f l).
Proof.
  induction 1 as [|a l Ha _ IH]; simpl; [constructor|].
  eapply converts_bind; [exact Ha|]. intros b _ Hb. eapply converts_bind; [exact IH|]. intros bs _ Hbs. by constructor.
Qed.
Lemma converts_fold_result {A B} (P : B -> Prop) (f : B -> A -> M B) l b :
  P b -> Forall (fun a => forall b, P b -> converts P (f b a)) l -> converts P (fold_result f l b).
Proof.
  intros Hb Hl. revert b Hb. induction Hl as [|a l Ha _ IH]; intros b Hb; simpl; [done|].
  eapply converts_bind; [by apply Ha|]. auto.
Qed.
Lemma converts_Ok {A} (P : A -> Prop) (c : M A) a : converts P c -> c = Ok a -> P a.
Proof. by intros Hc ->. Qed.
Lemma converts_Err {A} (P : A -> Prop) (c : M A) e : converts P c -> c = Err e -> is_conversion_error e = true.
Proof. by intros Hc ->. Qed.
