(* ===== verification/Validation.v ===== *)
(** * Validation of contract documents

    [toollayer_contracts/validation.py].  The JSON Schema engine and the
    packaged schema files are the class [JsonSchema]: the errors of a validator
    for a schema, the errors of the packaged contract schema of a given file
    name, and the metaschema check. *)

From S2P Require Export Models.

Definition TOOL_SCHEMA : string := "tool-definition.schema.json".
Definition CONNECTOR_SCHEMA : string := "connector-definition.schema.json".
Definition DEPLOYMENT_SNAPSHOT_SCHEMA : string := "deployment-snapshot.schema.json".
Definition TOOL_EXECUTION_SCHEMA : string := "tool-execution.schema.json".
Definition ERROR_ENVELOPE_SCHEMA : string := "error-envelope.schema.json".
Definition SCHEMA_NAMES : list string :=
  [TOOL_SCHEMA; CONNECTOR_SCHEMA; DEPLOYMENT_SNAPSHOT_SCHEMA; TOOL_EXECUTION_SCHEMA; ERROR_ENVELOPE_SCHEMA].
Definition schema_names : list string := SCHEMA_NAMES.

(** A jsonschema error: [absolute_path] and [validator]. *)
Inductive path_part := PKey (k : string) | PIndex (i : N).
Record SchemaError := MkSchemaError {
  se_path : list path_part;
  se_validator : option string;   (* [None] when it is no string *)
}.

Class JsonSchema := {
  iter_errors : pyval -> pyval -> M (list SchemaError);        (* schema, instance *)
  contract_errors : string -> pyval -> M (list SchemaError);   (* schema file, document *)
  check_schema : pyval -> bool;
}.

(** Python's order on lists of keys and indices; a key and an index never meet
    at the same place of one document. *)
Definition part_le (p q : path_part) : comparison :=
  match p, q with
  | PKey k, PKey l => String.compare k l
  | PIndex i, PIndex j => N.compare i j
  | PKey _, PIndex _ => Lt
  | PIndex _, PKey _ => Gt
  end.
Fixpoint path_le (p q : list path_part) : bool :=
  match p, q with
  | [], _ => true
  | _ :: _, [] => false
  | x :: p, y :: q => match part_le x y with Lt => true | Gt => false | Eq => path_le p q end
  end.
(** [sorted], stable. *)
Fixpoint einsert (e : SchemaError) (l : list SchemaError) : list SchemaError :=
  match l with
  | [] => [e]
  | f :: l' => if path_le (se_path e) (se_path f) then e :: l else f :: einsert e l'
  end.
Definition sort_errors (l : list SchemaError) : list SchemaError := foldr einsert [] l.

Definition escape_pointer (s : string) : string := replace_char "/" "~1" (replace_char "~" "~0" s).
Definition part_text (p : path_part) : string :=
  match p with PKey k => k | PIndex i => str_of_N i end.
Definition pointer_of (path : list path_part) : string :=
  foldr (fun p acc => "/" +:+ escape_pointer (part_text p) +:+ acc) "" path.

Definition keyword_of (e : SchemaError) : string :=
  match se_validator e with Some k => k | None => "schema" end.
Definition detail_of (e : SchemaError) : ErrorDetail :=
  let keyword := keyword_of e in
  MkDetail ("schema." +:+ keyword)
    ("the document violates the " +:+ repr_str keyword +:+ " constraint")
    (Some (pointer_of (se_path e))) "error".

Section validation.
Context `{JsonSchema}.

Definition load_schema_name (name : string) : M unit :=
  if negb (str_in name SCHEMA_NAMES) then
    raise (Raised KeyError ("unknown contract schema: " +:+ name))
  else Ok tt.

Definition validate (document : pyval) (schema_name label : string) : M unit :=
  let* _ := load_schema_name schema_name in
  let* errors := contract_errors schema_name document in
  match sort_errors errors with
  | [] => Ok tt
  | (first :: _) as errors =>
      raise (ContractViolationError ("the " +:+ label +:+ " does not satisfy its contract")
               (pointer_of (se_path first)) (map detail_of (firstn 50 errors)))
  end.

Definition require_contract_version (document : pyval) (label : string) : M unit :=
  match document with
  | VDict d =>
      except (let* _ := require_supported (get "contract_version" d) in Ok tt)
             (is_class IncompatibleContractVersionError)
             (fun exc => raise (ContractViolationError (exn_message exc) "/contract_version" []))
  | _ => raise (ContractViolationError ("the " +:+ label +:+ " must be a JSON object") "" [])
  end.

Definition validate_tool_input_schema (document : pyval) (pointer : string) : M unit :=
  if negb (is_dict document) then
    raise (ContractViolationError "input_schema must be an object" pointer [])
  else if check_schema document then Ok tt
  else raise (ContractViolationError "input_schema is not a valid Draft 2020-12 schema" pointer []).

(** [d[k]]: a missing key is a [KeyError]. *)
Definition item (k : string) (v : pyval) : M pyval :=
  match v with
  | VDict d => of_option (Raised KeyError k) (dget (KStr k) d)
  | _ => raise (Raised TypeError k)
  end.
Definition iterate (v : pyval) : M (list pyval) :=
  match v with
  | VList l | VTuple l => Ok l
  | _ => raise (Raised TypeError "object is not iterable")
  end.

Definition validate_tool_definition (document : pyval) : M unit :=
  let* _ := validate document TOOL_SCHEMA "tool definition" in
  let* schema := if is_dict document then item "input_schema" document else Ok VNone in
  validate_tool_input_schema schema "/input_schema".

(** [x in seen] on the values of a key: by equality. *)
Fixpoint unique_tools (index : N) (seen : list pyval) (tools : list pyval) : M unit :=
  match tools with
  | [] => Ok tt
  | tool :: tools =>
      let* name := item "tool_name" tool in
      if val_in name seen then
        raise (ContractViolationError "tool names must be unique within a connector version"
                 ("/tools/" +:+ str_of_N index +:+ "/tool_name") [])
      else
        let* schema := item "input_schema" tool in
        let* _ := validate_tool_input_schema schema ("/tools/" +:+ str_of_N index +:+ "/input_schema") in
        unique_tools (index + 1)%N (name :: seen) tools
  end.
Definition validate_connector_definition (document : pyval) : M unit :=
  let* _ := require_contract_version document "connector definition" in
  let* _ := validate document CONNECTOR_SCHEMA "connector definition" in
  let* tools := item "tools" document in
  let* tools := iterate tools in
  unique_tools 0 [] tools.

Fixpoint unique_connectors (index : N) (seen : list pyval) (connectors : list pyval) : M unit :=
  match connectors with
  | [] => Ok tt
  | connector :: connectors =>
      let* key := item "connector_key" connector in
      if val_in key seen then
        raise (ContractViolationError "a snapshot may pin only one version per connector"
                 ("/connectors/" +:+ str_of_N index +:+ "/connector_key") [])
      else
        let* state := item "lifecycle_state" connector in
        if negb (py_eq state (VStr "published")) then
          raise (ContractViolationError "a snapshot may contain only published connector versions"
                   ("/connectors/" +:+ str_of_N index +:+ "/lifecycle_state") [])
        else
          let* _ := validate_connector_definition connector in
          unique_connectors (index + 1)%N (key :: seen) connectors
  end.
Definition validate_deployment_snapshot (document : pyval) : M unit :=
  let* _ := require_contract_version document "deployment snapshot" in
  let* _ := validate document DEPLOYMENT_SNAPSHOT_SCHEMA "deployment snapshot" in
  let* connectors := item "connectors" document in
  let* connectors := iterate connectors in
  unique_connectors 0 [] connectors.

Definition validate_error_envelope (document : pyval) : M unit :=
  validate document ERROR_ENVELOPE_SCHEMA "error envelope".
End validation.

(** ** Lemmas *)

Section lemmas.
Context `{JsonSchema}.

Lemma sort_errors_perm l : sort_errors l ≡ₚ l.
Proof.
  assert (forall e l, einsert e l ≡ₚ e :: l) as Hi.
  { intros e m. induction m as [|f m IH]; simpl; [done|]. destruct (path_le _ _); [done|].
    rewrite IH. apply perm_swap. }
  induction l as [|e l IH]; simpl; [done|]. by rewrite Hi, IH.
Qed.
Lemma sort_errors_nil l : sort_errors l = [] <-> l = [].
Proof.
  split; [|by intros ->]. intros E. apply Permutation_nil. by rewrite <- E, sort_errors_perm.
Qed.

Lemma validate_Ok document name label :
  validate document name label = Ok tt <->
  name ∈ SCHEMA_NAMES /\ contract_errors name document = Ok [].
Proof.
  unfold validate, load_schema_name, str_in. case_bool_decide as Hn; cbn [negb bind]; [|naive_solver].
  destruct (contract_errors name document) as [l|e]; cbn [bind]; [|naive_solver].
  destruct (sort_errors l) eqn:E.
  - apply sort_errors_nil in E as ->. done.
  - split; [done|]. intros [_ [= ->]]. done.
Qed.

Lemma require_contract_version_Ok document label :
  require_contract_version document label = Ok tt <->
  exists d v, document = VDict d /\ require_supported (get "contract_version" d) = Ok v.
Proof.
  unfold require_contract_version. destruct document; try naive_solver.
  unfold except. destruct (require_supported _) as [v|e] eqn:E; cbn [bind].
  - split; [intros _; eauto | done].
  - destruct (is_class _ e); split; try done; intros (d' & v & [= <-] & Hv); congruence.
Qed.

Lemma validate_tool_input_schema_Ok document pointer :
  validate_tool_input_schema document pointer = Ok tt <->
  is_dict document = true /\ check_schema document = true.
Proof.
  unfold validate_tool_input_schema. destruct (is_dict document), (check_schema document); naive_solver.
Qed.

Lemma item_Ok k v w : item k v = Ok w <-> exists d, v = VDict d /\ dget (KStr k) d = Some w.
Proof.
  unfold item. destruct v; try naive_solver. rewrite of_option_Ok. naive_solver.
Qed.
End lemmas.

(** ** What the validators establish *)

Section validated.
Context `{JsonSchema}.

(** The tools of an accepted connector: names not equal to one another or to
    those already [seen], and input schemas that are schemas. *)
Lemma unique_tools_spec index seen ts :
  unique_tools index seen ts = Ok tt ->
  exists names, Forall2 (fun t n => item "tool_name" t = Ok n /\ val_in n seen = false) ts names /\
    Forall (fun t => exists s, item "input_schema" t = Ok s /\ is_dict s = true /\ check_schema s = true) ts /\
    (forall strs, names = map VStr strs -> NoDup strs).
Proof.
  revert index seen. induction ts as [|t ts IH]; intros index seen; simpl.
  - intros _. exists []. split_and!; [constructor|constructor|]. intros [|]; [constructor|done].
  - intros (n & Hn & Hr)%bind_Ok. destruct (val_in n seen) eqn:Hs; [done|].
    apply bind_Ok in Hr as (s & Hsch & ([] & Hv & Hr)%bind_Ok).
    apply validate_tool_input_schema_Ok in Hv as [Hd Hc].
    apply IH in Hr as (names & HF & Hall & Hnd).
    exists (n :: names). split_and!.
    + constructor; [done|]. eapply Forall2_impl; [exact HF|]. intros t' n' [Ht' Hn'].
      split; [done|]. unfold val_in in *. simpl in Hn'. by apply orb_false_iff in Hn' as [_ ?].
    + constructor; eauto.
    + intros [|m strs]; [done|]. intros [= -> ->]. constructor; [|by apply Hnd].
      intros Hin. apply list_elem_of_lookup in Hin as [i Hi].
      assert (map VStr strs !! i = Some (VStr m)) as Hi' by (by rewrite list_lookup_fmap, Hi).
      eapply Forall2_lookup_r in HF as (t' & _ & _ & Hn'); [|exact Hi'].
      unfold val_in in Hn'. simpl in Hn'. by rewrite String.eqb_refl in Hn'.
Qed.

Definition connector_document_ok (document : pyval) : Prop :=
  exists d v ts names, document = VDict d /\
    require_supported (get "contract_version" d) = Ok v /\
    contract_errors CONNECTOR_SCHEMA document = Ok [] /\
    (dget (KStr "tools") d = Some (VList ts) \/ dget (KStr "tools") d = Some (VTuple ts)) /\
    Forall2 (fun t n => item "tool_name" t = Ok n) ts names /\
    (forall strs, names = map VStr strs -> NoDup strs) /\
    Forall (fun t => exists s, item "input_schema" t = Ok s /\ is_dict s = true /\ check_schema s = true) ts.

Lemma validate_connector_spec document :
  validate_connector_definition document = Ok tt -> connector_document_ok document.
Proof.
  unfold validate_connector_definition.
  intros ([] & (d & v & -> & Hv)%require_contract_version_Ok & ([] & [_ Hs]%validate_Ok &
    (ts & (d' & [= <-] & Hd)%item_Ok & (l & Hl & Hu)%bind_Ok)%bind_Ok)%bind_Ok)%bind_Ok.
  apply unique_tools_spec in Hu as (names & HF & Hall & Hnd).
  exists d, v, l, names. split_and!; try done.
  - destruct ts; try done; injection Hl as ->; auto.
  - eapply Forall2_impl; [exact HF|]. by intros ?? [? _].
Qed.

Lemma unique_connectors_spec index seen cs :
  unique_connectors index seen cs = Ok tt ->
  exists keys, Forall2 (fun c k => item "connector_key" c = Ok k /\ val_in k seen = false) cs keys /\
    Forall (fun c => item "lifecycle_state" c = Ok (VStr "published") /\ connector_document_ok c) cs /\
    (forall strs, keys = map VStr strs -> NoDup strs).
Proof.
  revert index seen. induction cs as [|c cs IH]; intros index seen; simpl.
  - intros _. exists []. split_and!; [constructor|constructor|]. intros [|]; [constructor|done].
  - intros (k & Hk & Hr)%bind_Ok. destruct (val_in k seen) eqn:Hs; [done|].
    apply bind_Ok in Hr as (st & Hst & Hr). destruct (py_eq st (VStr "published")) eqn:Hp; [|done].
    apply py_eq_str in Hp as ->. cbn [negb] in Hr.
    apply bind_Ok in Hr as ([] & Hv%validate_connector_spec & Hr).
    apply IH in Hr as (keys & HF & Hall & Hnd).
    exists (k :: keys). split_and!.
    + constructor; [done|]. eapply Forall2_impl; [exact HF|]. intros c' n' [Hc' Hn'].
      split; [done|]. unfold val_in in *. simpl in Hn'. by apply orb_false_iff in Hn' as [_ ?].
    + constructor; eauto.
    + intros [|m strs]; [done|]. intros [= -> ->]. constructor; [|by apply Hnd].
      intros Hin. apply list_elem_of_lookup in Hin as [i Hi].
      assert (map VStr strs !! i = Some (VStr m)) as Hi' by (by rewrite list_lookup_fmap, Hi).
      eapply Forall2_lookup_r in HF as (t' & _ & _ & Hn'); [|exact Hi'].
      unfold val_in in Hn'. simpl in Hn'. by rewrite String.eqb_refl in Hn'.
Qed.
End validated.

(** A snapshot document that passes [validate_deployment_snapshot] declares
    a supported version, meets its schema, holds connectors with pairwise
    distinct keys, every one of them published and itself passing the connector
    validator: supported version, schema, pairwise distinct tool names and a
    usable input schema per tool. *)
Theorem validated_snapshot `{JsonSchema} :
  forall document, validate_deployment_snapshot document = Ok tt ->
    exists d v cs keys, document = VDict d /\
      require_supported (get "contract_version" d) = Ok v /\
      contract_errors DEPLOYMENT_SNAPSHOT_SCHEMA document = Ok [] /\
      (dget (KStr "connectors") d = Some (VList cs) \/ dget (KStr "connectors") d = Some (VTuple cs)) /\
      Forall2 (fun c k => item "connector_key" c = Ok k) cs keys /\
      (forall strs, keys = map VStr strs -> NoDup strs) /\
      Forall (fun c => item "lifecycle_state" c = Ok (VStr "published") /\ connector_document_ok c) cs.
Proof.
  intros document. unfold validate_deployment_snapshot.
  intros ([] & (d & v & -> & Hv)%require_contract_version_Ok & ([] & [_ Hs]%validate_Ok &
    (ts & (d' & [= <-] & Hd)%item_Ok & (l & Hl & Hu)%bind_Ok)%bind_Ok)%bind_Ok)%bind_Ok.
  apply unique_connectors_spec in Hu as (keys & HF & Hall & Hnd).
  exists d, v, l, keys. split_and!; try done.
  - destruct ts; try done; injection Hl as ->; auto.
  - eapply Forall2_impl; [exact HF|]. by intros ?? [? _].
Qed.

(** A schema engine for the witnesses: it accepts objects. *)
#[export] Instance demo_json_schema : JsonSchema :=
  {| iter_errors := fun _ v => Ok (if is_dict v then [] else [MkSchemaError [] (Some "type")]);
     contract_errors := fun _ v => Ok (if is_dict v then [] else [MkSchemaError [] (Some "type")]);
     check_schema := is_dict |}.

Lemma validated_snapshot_witness :
  exists d v cs keys, dump_snapshot demo_snapshot = VDict d /\
    require_supported (get "contract_version" d) = Ok v /\
    (dget (KStr "connectors") d = Some (VList cs) \/ dget (KStr "connectors") d = Some (VTuple cs)) /\
    Forall2 (fun c k => item "connector_key" c = Ok k) cs keys.
Proof.
  destruct (validated_snapshot (H:=demo_json_schema) (dump_snapshot demo_snapshot) ltac:(vm_compute; reflexivity))
    as (d & v & cs & keys & H1 & H2 & _ & H4 & H5 & _).
  exists d, v, cs, keys. split; [exact H1|]. split; [exact H2|]. split; [exact H4|exact H5].
Defined.
