(* ===== verification/Authorization.v ===== *)
(** * Authorization

    [toollayer_policy/authorization.py]: the one decision both boundaries of
    the runtime take, from the stored policy and the caller. *)

From S2P Require Export Models.

Definition ROLE_KEY : re := KEY_PATTERN.
Definition MAX_ROLES : nat := 32.
Definition DENY_REASONS : list string :=
  ["role_not_permitted"; "caller_has_no_roles"; "tool_policy_unreadable"].
Definition DENIED_MESSAGE : string := "This caller is not permitted to use the requested tool.".

Record ToolAudiencePolicy := MkAudience { ap_mode : string; ap_roles : gset string }.
Definition ap_restricted (p : ToolAudiencePolicy) : bool := String.eqb (ap_mode p) "restricted".
Definition PUBLIC_POLICY : ToolAudiencePolicy := MkAudience "public" ∅.

Record CallerIdentity := MkCaller { subject : string; roles : gset string }.
Definition CallerIdentity_of (subject : string) (roles : list string) : CallerIdentity :=
  MkCaller subject (list_to_set roles).

Record AuthorizationDecision := MkDecision {
  allowed : bool;
  reason_code : option string;
  decided_mode : string;
}.
Definition denied (d : AuthorizationDecision) : bool := negb (allowed d).

Definition policy_error {A} (m : string) : M A := raise (Raised ToolPolicyError m).

Fixpoint collect_roles (items : list pyval) (acc : gset string) : M (gset string) :=
  match items with
  | [] => Ok acc
  | VStr r :: items =>
      if fullmatch ROLE_KEY r then collect_roles items ({[ r ]} ∪ acc)
      else policy_error "a role key is not canonical"
  | _ :: _ => policy_error "a role key is not canonical"
  end.
Definition read_roles (value : pyval) : M (gset string) :=
  match value with
  | VNone => Ok ∅
  | VList l | VTuple l =>
      if (MAX_ROLES <? length l)%nat then policy_error "the allowed role list is too long"
      else collect_roles l ∅
  | _ => policy_error "the allowed role list is not an array"
  end.

Definition parse_audience_policy (policy : pyval) : M ToolAudiencePolicy :=
  match policy with
  | VDict policy =>
      match get "access" policy with
      | VNone => Ok PUBLIC_POLICY
      | VDict access =>
          match get "access_mode" access with
          | VStr mode =>
              if negb (str_in mode ["public"; "restricted"]) then
                policy_error "the tool access mode is not supported"
              else
                let* roles := read_roles (get "allowed_roles" access) in
                if String.eqb mode "restricted" && bool_decide (roles = ∅) then
                  policy_error "a restricted tool allows no role"
                else if String.eqb mode "public" && negb (bool_decide (roles = ∅)) then
                  policy_error "a public tool carries a role list"
                else Ok (MkAudience mode roles)
          | _ => policy_error "the tool access mode is not supported"
          end
      | _ => policy_error "the tool access policy is not an object"
      end
  | _ => policy_error "the tool policy is not an object"
  end.

Definition authorize_tool (policy : option ToolAudiencePolicy) (caller : option CallerIdentity)
  : AuthorizationDecision :=
  match policy with
  | None => MkDecision false (Some "tool_policy_unreadable") "restricted"
  | Some policy =>
      if negb (ap_restricted policy) then MkDecision true None "public"
      else match caller with
           | None => MkDecision false (Some "caller_has_no_roles") "restricted"
           | Some caller =>
               if bool_decide (roles caller = ∅) then
                 MkDecision false (Some "caller_has_no_roles") "restricted"
               else if negb (bool_decide (roles caller ∩ ap_roles policy = ∅)) then
                 MkDecision true None "restricted"
               else MkDecision false (Some "role_not_permitted") "restricted"
           end
  end.

(** Only [ToolPolicyError] is caught; parsing raises nothing else. *)
Definition authorize_stored_policy (tool_policy : pyval) (caller : option CallerIdentity)
  : M AuthorizationDecision :=
  let* policy := except (let* p := parse_audience_policy tool_policy in Ok (Some p))
                   (is_class ToolPolicyError) (fun _ => Ok None) in
  Ok (authorize_tool policy caller).

(** ** Lemmas *)

Lemma collect_roles_Ok items acc rs :
  collect_roles items acc = Ok rs <->
  exists ss, items = map VStr ss /\ Forall (fun r => fullmatch ROLE_KEY r = true) ss /\
    rs = list_to_set ss ∪ acc.
Proof.
  revert acc. induction items as [|v items IH]; intros acc; simpl.
  - split.
    + intros [= <-]. exists []. split_and!; [done|constructor|set_solver].
    + intros ([|] & ? & _ & ->); [|done]. f_equal. set_solver.
  - destruct v as [| | | |r| | | |]; simpl;
      try (split; [done | by intros ([|] & ? & _)]).
    destruct (fullmatch ROLE_KEY r) eqn:Hr.
    + rewrite IH. split.
      * intros (ss & -> & Hs & ->). exists (r :: ss). split_and!; [done|by constructor|set_solver].
      * intros ([|r' ss] & [= -> ->] & [_ Hs]%Forall_cons & ->). exists ss. split_and!; [done..|set_solver].
    + split; [done|]. intros ([|r' ss] & [= -> ->] & [Hr' _]%Forall_cons & _). congruence.
Qed.

Lemma read_roles_fails v e : read_roles v = Err e -> is_class ToolPolicyError e = true.
Proof.
  assert (forall l acc e, collect_roles l acc = Err e -> is_class ToolPolicyError e = true) as Hc.
  { induction l as [|x l IH]; intros acc e'; simpl; [done|].
    destruct x; try (by intros [= <-]). destruct (fullmatch _ _); [apply IH | by intros [= <-]]. }
  unfold read_roles. destruct v; try done; try (by intros [= <-]);
    (destruct (_ <? _)%nat; [by intros [= <-] | apply Hc]).
Qed.
Lemma parse_audience_fails v e : parse_audience_policy v = Err e -> is_class ToolPolicyError e = true.
Proof.
  unfold parse_audience_policy. destruct v as [| | | | | | |d|]; try (by intros [= <-]).
  destruct (get "access" d) as [| | | | | | |a|]; try done; try (by intros [= <-]).
  destruct (get "access_mode" a) as [| | | |m| | | |]; try (by intros [= <-]).
  destruct (negb _); [by intros [= <-]|].
  intros [H|(rs & _ & H)]%bind_Err; [by apply read_roles_fails in H|].
  destruct (_ && _); [by injection H as <-|]. destruct (_ && _); [by injection H as <-|done].
Qed.

Lemma authorize_stored_total v caller :
  authorize_stored_policy v caller =
    Ok (authorize_tool (match parse_audience_policy v with Ok p => Some p | Err _ => None end) caller).
Proof.
  unfold authorize_stored_policy. destruct (parse_audience_policy v) as [p|e] eqn:E; [done|].
  cbn [bind except]. by rewrite (parse_audience_fails v e E).
Qed.

(** The audience of a policy document: what an allowed decision rests on. *)
Definition public_policy (v : pyval) : Prop :=
  exists d, v = VDict d /\
    (get "access" d = VNone \/
     exists a, get "access" d = VDict a /\ get "access_mode" a = VStr "public" /\
       read_roles (get "allowed_roles" a) = Ok ∅).
Definition restricted_to (v : pyval) (rs : gset string) : Prop :=
  exists d a, v = VDict d /\ get "access" d = VDict a /\ get "access_mode" a = VStr "restricted" /\
    read_roles (get "allowed_roles" a) = Ok rs /\ rs <> ∅.

Lemma parse_audience_Ok v p :
  parse_audience_policy v = Ok p <->
  (public_policy v /\ p = PUBLIC_POLICY) \/
  (exists rs, restricted_to v rs /\ p = MkAudience "restricted" rs).
Proof.
  unfold parse_audience_policy, public_policy, restricted_to. split.
  - destruct v as [| | | | | | |d|]; try done.
    destruct (get "access" d) as [| | | | | | |a|] eqn:Ha; try done.
    { intros [= <-]. left. eauto 6. }
    destruct (get "access_mode" a) as [| | | |m| | | |] eqn:Hm; try done.
    unfold str_in. case_bool_decide as Hin; [|done]. cbn [negb].
    intros (rs & Hrs & H)%bind_Ok.
    apply elem_of_cons in Hin as [->|Hin%list_elem_of_singleton]; [|subst].
    + simpl in H. case_bool_decide as E; [|done]. injection H as <-. subst. left.
      split; [|done]. exists d. split; [done|]. right. eauto.
    + simpl in H. case_bool_decide as E; [done|]. injection H as <-. right. exists rs. split; [|done]. eauto 8.
  - intros [[(d & -> & [->|(a & -> & -> & Hr)]) ->]|(rs & (d & a & -> & -> & -> & Hr & Hne) & ->)].
    + done.
    + cbn [str_in]. change (str_in "public" _) with true. cbn [negb]. by rewrite Hr.
    + change (str_in "restricted" _) with true. cbn [negb]. rewrite Hr. cbn [bind].
      simpl. by rewrite bool_decide_eq_false_2.
Qed.

Lemma authorize_allowed v caller :
  allowed (authorize_tool (match parse_audience_policy v with Ok p => Some p | Err _ => None end) caller) = true <->
  public_policy v \/
  exists rs c r, restricted_to v rs /\ caller = Some c /\ r ∈ roles c /\ r ∈ rs.
Proof.
  destruct (parse_audience_policy v) as [p|e] eqn:E.
  - apply parse_audience_Ok in E as E'. destruct E' as [[Hp ->]|(rs & Hr & ->)].
    + simpl. split; [by left | done].
    + assert (~ public_policy v) as Hnp.
      { intros Hp. assert (parse_audience_policy v = Ok PUBLIC_POLICY) as E2
          by (apply parse_audience_Ok; by left). rewrite E in E2. discriminate. }
      cbn. destruct caller as [c|]; simpl.
      * case_bool_decide as He; simpl.
        { split; [done|]. intros [?|(rs' & c' & r & _ & [= <-] & Hin & _)]; [done|]. set_solver. }
        case_bool_decide as Hi; simpl; (split; [|try done]).
        -- done.
        -- intros [?|(rs' & c' & r & Hr' & [= <-] & Hin & Hin')]; [done|].
           assert (rs' = rs) as ->; [|set_solver].
           assert (parse_audience_policy v = Ok (MkAudience "restricted" rs')) as E2
             by (apply parse_audience_Ok; right; eauto). congruence.
        -- intros _. right. apply set_choose_L in Hi as [r Hr']. exists rs, c, r. set_solver.
      * split; [done|]. intros [?|(? & ? & ? & _ & ? & _)]; done.
  - simpl. split; [done|]. intros [Hp|(rs & c & r & Hr & _)].
    + assert (parse_audience_policy v = Ok PUBLIC_POLICY) by (apply parse_audience_Ok; by left). congruence.
    + assert (parse_audience_policy v = Ok (MkAudience "restricted" rs)) by (apply parse_audience_Ok; right; eauto).
      congruence.
Qed.

(** ** Properties *)

(** C38. The stored-policy decision never raises, and allows exactly when the
    policy is readable and public, or readable and restricted to a set of roles
    the caller shares a role with; every unreadable policy, and every caller
    without roles on a restricted tool, is denied. *)
Theorem authorize_exact :
  forall tool_policy caller, exists d, authorize_stored_policy tool_policy caller = Ok d /\
    (allowed d = true <->
       public_policy tool_policy \/
       exists rs c r, restricted_to tool_policy rs /\ caller = Some c /\ r ∈ roles c /\ r ∈ rs) /\
    (allowed d = false -> exists reason, reason_code d = Some reason /\ reason ∈ DENY_REASONS) /\
    (allowed d = true -> reason_code d = None).
Proof.
  intros v caller. rewrite authorize_stored_total. eexists. split; [done|].
  split; [apply authorize_allowed|].
  generalize (match parse_audience_policy v with Ok p => Some p | Err _ => None end).
  intros [p|]; cbn.
  - destruct (ap_restricted p); cbn; [|done]. destruct caller as [c|]; cbn.
    + case_bool_decide; cbn; [split; [|done]; intros _; eexists; split; [done|by repeat constructor]|].
      case_bool_decide; cbn; (split; [|done]); [|done].
      intros _; eexists; split; [done|by repeat constructor].
    + split; [|done]. intros _. eexists. split; [done|by repeat constructor].
  - split; [|done]. intros _. eexists. split; [done|by repeat constructor].
Qed.

Lemma collect_roles_strs ss :
  Forall (fun r => fullmatch ROLE_KEY r = true) ss -> collect_roles (map VStr ss) ∅ = Ok (list_to_set ss).
Proof. intros Hs. apply collect_roles_Ok. exists ss. split_and!; [done..|set_solver]. Qed.

Lemma read_roles_strs ss :
  Forall (fun r => resource_key r = true) ss -> (length ss <= 32)%nat ->
  read_roles (strs ss) = Ok (list_to_set ss).
Proof.
  intros Hs Hl. unfold read_roles, strs, MAX_ROLES. rewrite length_map.
  destruct (Nat.ltb_spec 32 (length ss)); [lia|]. apply collect_roles_strs.
  eapply Forall_impl; [exact Hs|]. intros r. unfold resource_key. by intros [? _]%andb_true_iff.
Qed.

Lemma list_to_set_empty (l : list string) : list_to_set (C:=gset string) l = ∅ <-> l = [].
Proof. split; [|by intros ->]. destruct l; [done|set_solver]. Qed.

Lemma parse_audience_dump p :
  access_ok (access p) -> (length (allowed_roles (access p)) <= 32)%nat ->
  parse_audience_policy (dump_policy p) =
    Ok (MkAudience (text_of access_modes (access_mode (access p)))
          (list_to_set (allowed_roles (access p)))).
Proof.
  intros (Hm & _ & Hk & _) Hl. destruct p as [e c [m rs]]. cbn [access access_mode allowed_roles] in *.
  unfold parse_audience_policy, dump_policy. cbn [access].
  change (get "access" _) with (dump_access (MkAccess m rs)). unfold dump_access. cbn [allowed_roles access_mode].
  change (get "access_mode" _) with (VStr (text_of access_modes m)).
  change (get "allowed_roles" _) with (strs rs). cbv iota beta.
  rewrite read_roles_strs by done. cbn [bind].
  replace (negb (str_in (text_of access_modes m) ["public"; "restricted"])) with false by by destruct m.
  pose proof (list_to_set_empty rs) as He. revert He. generalize (list_to_set (C:=gset string) rs).
  intros X HX. destruct m; simpl; case_bool_decide as E; try done.
  - destruct E. by apply HX, Hm.
  - by apply HX, Hm in E.
Qed.

(** For a policy the contract model accepts (with at most the 32 roles of
    the schema), dumping it and deciding from the dump, as the runtime does,
    allows exactly the callers the model names: everyone when public, the
    holders of a listed role when restricted; and a caller given more roles is
    never denied what it was allowed before. *)
Theorem authorize_model_policy :
  forall p caller, access_ok (access p) -> (length (allowed_roles (access p)) <= 32)%nat ->
    exists d, authorize_stored_policy (dump_policy p) caller = Ok d /\
      (allowed d = true <->
         access_mode (access p) = Public \/
         exists c r, caller = Some c /\ r ∈ roles c /\ r ∈ allowed_roles (access p)) /\
      (forall c more d', caller = Some c -> roles c ⊆ more ->
         authorize_stored_policy (dump_policy p) (Some (MkCaller (subject c) more)) = Ok d' ->
         allowed d = true -> allowed d' = true).
Proof.
  intros p caller Ha Hl. rewrite authorize_stored_total, (parse_audience_dump p Ha Hl).
  eexists. split; [done|].
  assert (forall caller, allowed (authorize_tool (Some (MkAudience
            (text_of access_modes (access_mode (access p))) (list_to_set (allowed_roles (access p))))) caller) = true <->
          access_mode (access p) = Public \/
          exists c r, caller = Some c /\ r ∈ roles c /\ r ∈ allowed_roles (access p)) as Hiff.
  { intros cl. destruct Ha as (Hm & _ & _ & _). unfold authorize_tool, ap_restricted. cbn [ap_mode ap_roles].
    destruct (access_mode (access p)).
    - change (String.eqb (text_of access_modes Public) "restricted") with false. cbn [negb allowed].
      split; [by left | done].
    - change (String.eqb (text_of access_modes Restricted) "restricted") with true. cbn [negb].
      destruct cl as [c|]; [|split; [done|]; intros [H|(c' & r & H & _)]; discriminate H].
      case_bool_decide as He; cbn [allowed].
      { split; [done|]. intros [|(c' & r & [= <-] & Hin & _)]; [done|]. set_solver. }
      case_bool_decide as Hi; cbn [negb allowed].
      + split; [done|]. intros [|(c' & r & [= <-] & Hin & Hin')]; [done|].
        apply (elem_of_list_to_set (C:=gset string)) in Hin'. set_solver.
      + split; [|done]. intros _. right. apply set_choose_L in Hi as [r Hr].
        apply elem_of_intersection in Hr as [H1 H2]. apply elem_of_list_to_set in H2. eauto 6. }
  split; [apply Hiff|]. intros c more d' -> Hsub.
  rewrite authorize_stored_total, (parse_audience_dump p Ha Hl).
  match goal with |- Ok ?x = Ok _ -> _ => intros E; assert (d' = x) as -> by congruence end.
  intros H%Hiff. apply Hiff. destruct H as [?|(c' & r & [= <-] & Hin & Hin')]; [by left|].
  right. exists (MkCaller (subject c) more), r. simpl. set_solver.
Qed.

Lemma authorize_model_policy_witness :
  exists d, authorize_stored_policy (dump_policy (policy demo_tool))
      (Some (CallerIdentity_of "alice" ["support-agent"; "billing"])) = Ok d /\
    (allowed d = true <->
         access_mode (access (policy demo_tool)) = Public \/
         exists c r, Some (CallerIdentity_of "alice" ["support-agent"; "billing"]) = Some c /\
           r ∈ roles c /\ r ∈ allowed_roles (access (policy demo_tool))).
Proof.
  destruct (authorize_model_policy (policy demo_tool)
              (Some (CallerIdentity_of "alice" ["support-agent"; "billing"]))) as (d & H1 & H2 & _).
  - split_and!; try reflexivity; [by split | apply (bool_decide_unpack _); vm_compute; exact I
      | apply (bool_decide_unpack _); vm_compute; exact I].
  - simpl. lia.
  - exists d. split; [exact H1 | exact H2].
Defined.
