(* ===== verification/Arguments.v ===== *)
(** * Arguments and request construction

    [toollayer_policy/arguments.py]: validating proposed arguments against the
    tool's schema, and building the request from the tool's bindings.

    Bodies are values here.  The source writes into nested dicts in place; the
    two agree as long as no body binding writes inside the value of another
    one, since every other object on the way is created by the function. *)

From S2P Require Export Validation.
From Stdlib Require Import Floats.SpecFloat.

Definition MAX_ARGUMENT_BYTES : nat := (64 * 1024)%nat.

Definition argument_error (message pointer : string) : exn :=
  tool_layer_error_at ErrorCode.ARGUMENT_VALIDATION_FAILED message pointer.

Record PreparedRequest := MkRequest {
  rq_method : string;
  rq_url : string;
  rq_path : string;
  rq_query : list (string * string);
  rq_headers : list (string * string);
  rq_body : option string;
  rq_content_type : option string;
}.

(** ** Pointers *)

Definition unescape_token (t : string) : string := replace "~0" "~" (replace "~1" "/" t).
(** [pointer.split("/")[1:]], unescaped. *)
Definition pointer_tokens (pointer : string) : list string :=
  map unescape_token (tail (split_on "/" pointer)).

Fixpoint walk (current : pyval) (keys : list string) : bool * pyval :=
  match keys with
  | [] => (true, current)
  | key :: keys =>
      match current with
      | VDict d => match dget (KStr key) d with
                   | Some v => walk v keys
                   | None => (false, VNone)
                   end
      | _ => (false, VNone)
      end
  end.
Definition read_pointer (document : dict) (pointer : string) : bool * pyval :=
  if is_empty pointer then (true, VDict document)
  else walk (VDict document) (pointer_tokens pointer).

Fixpoint write_tokens (document : dict) (token : string) (tokens : list string) (value : pyval) : dict :=
  match tokens with
  | [] => dset (KStr token) value document
  | next :: tokens =>
      let nested := match get token document with VDict n => n | _ => [] end in
      dset (KStr token) (VDict (write_tokens nested next tokens value)) document
  end.
Definition write_pointer (document : dict) (pointer : string) (value : pyval) : M dict :=
  match pointer_tokens pointer with
  | [] => raise (argument_error "a body binding must target a property" pointer)
  | token :: tokens => Ok (write_tokens document token tokens value)
  end.

Section arguments.
Context `{Platform, JsonSchema}.

(** [json.dumps(v, ensure_ascii=False)] with the given separators, members in
    insertion order; a value outside JSON is a [TypeError]. *)
Definition float_json (f : spec_float) : string :=
  match f with
  | S754_nan => "NaN"
  | S754_infinity s => if s then "-Infinity" else "Infinity"
  | _ => float_repr f
  end.
Fixpoint json_text (comma colon : string) (v : pyval) : M string :=
  let fix items (l : list pyval) : M (list string) :=
    match l with
    | [] => Ok []
    | v :: l =>
        let* t := json_text comma colon v in
        let* ts := items l in Ok (t :: ts)
    end in
  let fix members (d : dict) : M (list string) :=
    match d with
    | [] => Ok []
    | (k, v) :: d =>
        let* t := json_text comma colon v in
        let* ts := members d in Ok ((quote_json (key_text k) +:+ colon +:+ t) :: ts)
    end in
  match v with
  | VNone => Ok "null"
  | VBool b => Ok (if b then "true" else "false")
  | VInt z => Ok (str_of_Z z)
  | VFloat f => Ok (float_json f)
  | VStr s => Ok (quote_json s)
  | VList l | VTuple l => let* ts := items l in Ok ("[" +:+ join comma ts +:+ "]")
  | VDict d => let* ts := members d in Ok ("{" +:+ join comma ts +:+ "}")
  | VOther t => raise (Raised TypeError ("Object of type " +:+ t +:+ " is not JSON serializable"))
  end.

Definition argument_detail (e : SchemaError) : ErrorDetail :=
  MkDetail ("schema." +:+ keyword_of e)
    ("the argument violates the " +:+ repr_str (keyword_of e) +:+ " constraint")
    (Some (pointer_of (se_path e))) "error".

Definition validate_arguments (tool : ToolDefinition) (arguments : pyval) : M dict :=
  match arguments with
  | VDict d =>
      let* text := json_text ", " ": " arguments in
      if (MAX_ARGUMENT_BYTES <? slen (encode_utf8 text))%nat then
        raise (argument_error
          ("tool arguments exceed the " +:+ str_of_N (N.of_nat MAX_ARGUMENT_BYTES) +:+ " byte limit") "")
      else
        let* errors := iter_errors (VDict (input_schema tool)) arguments in
        match sort_errors errors with
        | [] => Ok d
        | (first :: _) as errors =>
            raise (ToolLayerError (MkError ErrorCode.ARGUMENT_VALIDATION_FAILED
              "the proposed arguments do not satisfy the tool's input schema"
              (Some (pointer_of (se_path first))) (map argument_detail (firstn 25 errors)) []))
        end
  | _ => raise (argument_error "tool arguments must be a JSON object" "")
  end.

(** ** Construction *)

Definition scalar (value : pyval) (pointer : string) : M string :=
  match value with
  | VBool b => Ok (if b then "true" else "false")
  | VInt z => Ok (str_of_Z z)
  | VFloat f => Ok (float_repr f)
  | VStr s => Ok s
  | _ => raise (argument_error "only scalar arguments can be placed in a path or query" pointer)
  end.

Definition control_char (c : ascii) : bool :=
  Ascii.eqb c "013" || Ascii.eqb c "010" || Ascii.eqb c "000".
Definition header_value (value : pyval) (pointer : string) : M string :=
  let* text := scalar value pointer in
  if sany control_char text then
    raise (argument_error "a header value may not contain a control character" pointer)
  else Ok text.

(** The locals of [prepare_request] that its loop updates. *)
Record building := MkBuilding {
  b_path : string;
  b_query : list (string * string);
  b_headers : list (string * string);
  b_body : dict;
  b_has_body : bool;
}.

Definition bind_argument (arguments : dict) (b : building) (binding : ArgumentBinding) : M building :=
  let pointer := argument_pointer binding in
  let '(present, value) := read_pointer arguments pointer in
  if negb present || is_vnone value then Ok b
  else
    match target binding with
    | TPath =>
        let placeholder := "{" +:+ target_name binding +:+ "}" in
        if negb (contains placeholder (b_path b)) then
          raise (argument_error "a path binding does not match the tool's path template" pointer)
        else
          let* text := scalar value pointer in
          Ok (MkBuilding (replace placeholder (quote text) (b_path b))
                (b_query b) (b_headers b) (b_body b) (b_has_body b))
    | TQuery =>
        let* text := scalar value pointer in
        Ok (MkBuilding (b_path b) (b_query b ++ [(target_name binding, text)])
              (b_headers b) (b_body b) (b_has_body b))
    | THeader =>
        let* text := header_value value pointer in
        Ok (MkBuilding (b_path b) (b_query b) (b_headers b ++ [(target_name binding, text)])
              (b_body b) (b_has_body b))
    | TBody =>
        let* body := write_pointer (b_body b) (target_name binding) value in
        Ok (MkBuilding (b_path b) (b_query b) (b_headers b) body true)
    end.

Definition build (tool : ToolDefinition) (arguments : dict) : M building :=
  fold_result (bind_argument arguments) (bindings (operation tool))
    (MkBuilding (path_template (operation tool)) [] [] [] false).

Definition prepare_request (tool : ToolDefinition) (arguments : dict) (base_url : string)
  : M PreparedRequest :=
  let* b := build tool arguments in
  if has_char "{" (b_path b) || has_char "}" (b_path b) then
    raise (argument_error "the request path still contains an unfilled placeholder" "")
  else
    let* body :=
      if b_has_body b then
        let* text := json_text "," ":" (VDict (b_body b)) in Ok (Some (encode_utf8 text))
      else Ok None in
    let content_type := if b_has_body b then Some "application/json" else None in
    let url := rstrip_char "/" base_url +:+ b_path b in
    let url := match b_query b with [] => url | q => url +:+ "?" +:+ urlencode q end in
    Ok {| rq_method := method (operation tool);
          rq_url := url;
          rq_path := b_path b;
          rq_query := b_query b;
          rq_headers := [("accept", "application/json")]
            ++ match content_type with Some c => [("content-type", c)] | None => [] end
            ++ b_headers b;
          rq_body := body;
          rq_content_type := content_type |}.
End arguments.

(** ** Counting a delimiter through [replace] *)

Fixpoint count_char (c : ascii) (s : string) : nat :=
  match s with "" => 0 | String d s => (if Ascii.eqb c d then 1 else 0) + count_char c s end.

Lemma count_char_app c s t : count_char c (s +:+ t) = (count_char c s + count_char c t)%nat.
Proof. induction s as [|d s IH]; [done|]. rewrite sapp_cons. simpl. rewrite IH. lia. Qed.
Lemma count_char_0 c s : has_char c s = false <-> count_char c s = 0%nat.
Proof.
  unfold has_char. induction s as [|d s IH]; [done|]. rewrite sany_cons, orb_false_iff, IH. simpl.
  destruct (Ascii.eqb c d); simpl; [|tauto]. split; [intros [? _]; done | lia].
Qed.
Lemma count_char_replace c pat sub s :
  count_char c pat = 0%nat -> count_char c sub = 0%nat -> count_char c (replace pat sub s) = count_char c s.
Proof.
  intros Hp Hs. unfold replace. generalize (S (slen s)) as fuel. intros fuel. revert s.
  induction fuel as [|fuel IH]; intros s; simpl; [done|].
  destruct (strip_prefix pat s) as [r|] eqn:E.
  - apply strip_prefix_Some in E as ->. rewrite !count_char_app, IH. lia.
  - destruct s as [|d s]; simpl; [done|]. by rewrite IH.
Qed.
Lemma quote_no_char c s : unreserved c = false -> has_char c (quote s) = false.
Proof. intros Hc. by apply (has_char_false_all _ unreserved); [apply quote_unreserved|]. Qed.

Section request.
Context `{Platform, JsonSchema}.

(** A binding never changes a delimiter of the path that neither its
    placeholder nor an encoded value can contain. *)
Lemma bind_argument_count c args b bd b' :
  unreserved c = false -> c <> "{"%char -> c <> "}"%char ->
  (target bd = TPath -> has_char c (target_name bd) = false) ->
  bind_argument args b bd = Ok b' -> count_char c (b_path b') = count_char c (b_path b).
Proof.
  intros Hc H1 H2 Hn. unfold bind_argument. destruct (read_pointer _ _) as [present value].
  destruct (_ || _); [by intros [= <-]|]. destruct (target bd).
  - destruct (negb (contains _ _)); [done|]. intros (t & _ & [= <-])%bind_Ok. cbn [b_path].
    apply count_char_replace.
    + rewrite !count_char_app. rewrite (proj1 (count_char_0 c (target_name bd))) by auto.
      cbn [count_char]. destruct (Ascii.eqb_spec c "{"); [done|]. by destruct (Ascii.eqb_spec c "}").
    + apply count_char_0. by apply quote_no_char.
  - by intros (t & _ & [= <-])%bind_Ok.
  - by intros (t & _ & [= <-])%bind_Ok.
  - by intros (t & _ & [= <-])%bind_Ok.
Qed.

Lemma build_count c tool args b :
  unreserved c = false -> c <> "{"%char -> c <> "}"%char ->
  Forall (fun bd => target bd = TPath -> has_char c (target_name bd) = false) (bindings (operation tool)) ->
  build tool args = Ok b -> count_char c (b_path b) = count_char c (path_template (operation tool)).
Proof.
  intros Hc H1 H2 Hn Hb. unfold build in Hb.
  rewrite Forall_forall in Hn.
  enough (forall l b0, (forall bd, bd ∈ l -> target bd = TPath -> has_char c (target_name bd) = false) ->
            fold_result (bind_argument args) l b0 = Ok b -> count_char c (b_path b) = count_char c (b_path b0))
    as G by by apply (G _ _ Hn) in Hb.
  clear Hb Hn. induction l as [|bd l IH]; intros b0 Hl; simpl; [by intros [= ->]|].
  intros (b1 & Hb1 & Hr)%bind_Ok.
  rewrite (IH b1); [|intros bd' Hin; apply Hl; by right|done].
  eapply bind_argument_count; eauto. apply Hl. left.
Qed.

Definition header_safe (h : string * string) : Prop := sany control_char h.2 = false.
Lemma build_headers tool args b :
  build tool args = Ok b -> Forall header_safe (b_headers b).
Proof.
  unfold build. intros Hb. eapply (fold_result_inv _ (fun _ b => Forall header_safe (b_headers b)) _ _ _ Hb);
    [constructor|]. intros _ bd b0 b1 Hh. unfold bind_argument.
  destruct (read_pointer _ _) as [present value]. destruct (_ || _); [by intros [= <-]|].
  destruct (target bd).
  - destruct (negb (contains _ _)); [done|]. by intros (t & _ & [= <-])%bind_Ok.
  - by intros (t & _ & [= <-])%bind_Ok.
  - intros (t & Ht & [= <-])%bind_Ok. cbn [b_headers]. apply Forall_app. split; [done|].
    constructor; [|constructor]. unfold header_value in Ht. apply bind_Ok in Ht as (t' & _ & Ht).
    unfold header_safe. destruct (sany control_char t') eqn:E; [done|]. by injection Ht as <-.
  - by intros (t & _ & [= <-])%bind_Ok.
Qed.

(** The request, once built. *)
Lemma prepare_request_Ok tool args base r :
  prepare_request tool args base = Ok r ->
  exists b, build tool args = Ok b /\ rq_path r = b_path b /\ rq_query r = b_query b /\
    has_char "{" (rq_path r) = false /\ has_char "}" (rq_path r) = false /\
    rq_method r = method (operation tool) /\
    rq_url r = rstrip_char "/" base +:+ rq_path r +:+
      match rq_query r with [] => "" | q => "?" +:+ urlencode q end /\
    rq_headers r = [("accept", "application/json")]
      ++ (if b_has_body b then [("content-type", "application/json")] else []) ++ b_headers b /\
    (rq_body r = None <-> b_has_body b = false) /\
    (b_has_body b = true -> exists t, json_text "," ":" (VDict (b_body b)) = Ok t /\
       rq_body r = Some (encode_utf8 t)).
Proof.
  unfold prepare_request. intros (b & Hb & Hr)%bind_Ok.
  destruct (has_char "{" (b_path b)) eqn:E1; [done|]. cbn [orb] in Hr.
  destruct (has_char "}" (b_path b)) eqn:E2; [done|]. apply bind_Ok in Hr as (body & Hbody & Hr).
  match type of Hr with Ok ?x = Ok _ => assert (r = x) as -> by congruence end. clear Hr. exists b.
  cbn [rq_path rq_query rq_method rq_url rq_headers rq_body].
  split_and!; try done.
  - destruct (b_query b); rewrite ?sapp_nil_r, ?sapp_assoc; done.
  - by destruct (b_has_body b).
  - destruct (b_has_body b); [|by injection Hbody as <-].
    by apply bind_Ok in Hbody as (t & _ & [= <-]).
  - intros E. rewrite E in Hbody. apply bind_Ok in Hbody as (t & Ht & [= <-]). by exists t.
Qed.

(** Only what the bindings read matters. *)
Lemma build_ext tool args args' :
  Forall (fun bd => read_pointer args (argument_pointer bd) = read_pointer args' (argument_pointer bd))
    (bindings (operation tool)) ->
  build tool args = build tool args'.
Proof.
  unfold build. generalize (MkBuilding (path_template (operation tool)) [] [] [] false).
  induction (bindings (operation tool)) as [|bd l IH]; intros b0; [done|].
  intros [Hbd Hl]%Forall_cons. simpl.
  replace (bind_argument args b0 bd) with (bind_argument args' b0 bd).
  - destruct (bind_argument args' b0 bd); simpl; [by apply IH | done].
  - unfold bind_argument. by rewrite Hbd.
Qed.

Lemma walk_dset_other args k v keys :
  keys <> [] -> hd "" keys <> k -> walk (VDict (dset (KStr k) v args)) keys = walk (VDict args) keys.
Proof.
  destruct keys as [|key keys]; [done|]. simpl. intros _ Hk. rewrite dget_dset.
  rewrite bool_decide_eq_false_2 by congruence. done.
Qed.
Lemma read_pointer_dset_other args k v pointer :
  pointer <> "" -> hd "" (pointer_tokens pointer) <> k -> pointer_tokens pointer <> [] ->
  read_pointer (dset (KStr k) v args) pointer = read_pointer args pointer.
Proof.
  intros Hp Hk Hne. unfold read_pointer. destruct pointer; [done|]. cbn [is_empty].
  by apply walk_dset_other.
Qed.

Lemma validate_arguments_Ok tool v d :
  validate_arguments tool v = Ok d <->
  v = VDict d /\ (exists t, json_text ", " ": " v = Ok t /\ slen (encode_utf8 t) <= MAX_ARGUMENT_BYTES)%nat /\
  iter_errors (VDict (input_schema tool)) v = Ok [].
Proof.
  unfold validate_arguments. destruct v as [| | | | | | |d0|]; try (split; [done | by intros (? & _)]).
  split.
  - intros (t & Ht & Hr)%bind_Ok. destruct (Nat.ltb_spec MAX_ARGUMENT_BYTES (slen (encode_utf8 t))); [done|].
    apply bind_Ok in Hr as (es & Hes & Hr). destruct (sort_errors es) eqn:E; [|done].
    apply sort_errors_nil in E as ->. injection Hr as ->. split_and!; [done|by exists t|done].
  - intros ([= ->] & (t & Ht & Hl) & He). rewrite Ht. cbn [bind].
    destruct (Nat.ltb_spec MAX_ARGUMENT_BYTES (slen (encode_utf8 t))); [lia|]. by rewrite He.
Qed.
End request.

(** ** Bodies: what a binding writes can be read back *)

(** Two token lists that part at some place. *)
Fixpoint diverge (p q : list string) : Prop :=
  match p, q with
  | x :: p, y :: q => x <> y \/ (x = y /\ diverge p q)
  | _, _ => False
  end.

Lemma walk_write d t ts v : walk (VDict (write_tokens d t ts v)) (t :: ts) = (true, v).
Proof.
  revert d t. induction ts as [|n ts IH]; intros d t; cbn [write_tokens walk].
  - by rewrite dget_dset, bool_decide_eq_true_2.
  - rewrite dget_dset, bool_decide_eq_true_2 by done. apply IH.
Qed.
Lemma walk_not_dict v k ks : is_dict v = false -> walk v (k :: ks) = (false, VNone).
Proof. by destruct v. Qed.
Lemma walk_write_diverge d t ts v keys :
  diverge (t :: ts) keys -> walk (VDict (write_tokens d t ts v)) keys = walk (VDict d) keys.
Proof.
  revert d t keys. induction ts as [|n ts IH]; intros d t [|k keys]; cbn [diverge write_tokens]; try done;
    intros Hd; cbn [walk]; rewrite dget_dset.
  - destruct Hd as [Hne|[-> []]]. rewrite bool_decide_eq_false_2 by congruence. done.
  - destruct Hd as [Hne|[-> Hd]].
    { rewrite bool_decide_eq_false_2 by congruence. done. }
    rewrite bool_decide_eq_true_2 by done. rewrite IH by done.
    destruct keys as [|k' keys]; [by destruct ts|].
    unfold get, get_or. destruct (dget (KStr k) d) as [w|]; [|done].
    destruct (is_dict w) eqn:E; [by destruct w|]. rewrite (walk_not_dict w) by done.
    by destruct w.
Qed.

Section bodies.
Context `{Platform, JsonSchema}.

Definition body_tokens (bd : ArgumentBinding) : list string := pointer_tokens (target_name bd).
(** Body bindings write apart from one another. *)
Definition separate (bds : list ArgumentBinding) : Prop :=
  ForallOrdPairs (fun x y => target x = TBody -> target y = TBody ->
                    diverge (body_tokens x) (body_tokens y)) bds.
Definition body_holds (args : dict) (body : dict) (bd : ArgumentBinding) : Prop :=
  forall v, target bd = TBody -> read_pointer args (argument_pointer bd) = (true, v) -> v <> VNone ->
    walk (VDict body) (body_tokens bd) = (true, v).

Lemma diverge_sym p q : diverge p q -> diverge q p.
Proof.
  revert q. induction p as [|x p IH]; intros [|y q]; simpl; try done.
  intros [H1|[-> H1]]; [left; congruence | right; auto].
Qed.

Lemma bind_argument_body args b bd b' :
  bind_argument args b bd = Ok b' ->
  body_holds args (b_body b') bd /\
  (forall keys, (target bd = TBody -> diverge (body_tokens bd) keys) ->
     walk (VDict (b_body b')) keys = walk (VDict (b_body b)) keys).
Proof.
  unfold bind_argument, body_holds. destruct (read_pointer args _) as [present value] eqn:Er.
  destruct present, (is_vnone value) eqn:Ev; cbn [negb orb];
    try (intros [= <-]; split; [|done]; intros v _ [= ->] Hv; by destruct v).
  destruct (target bd) eqn:Et.
  - destruct (negb _); [done|]. by intros (t & _ & [= <-])%bind_Ok.
  - by intros (t & _ & [= <-])%bind_Ok.
  - by intros (t & _ & [= <-])%bind_Ok.
  - intros (body & Hw & [= <-])%bind_Ok. cbn [b_body]. unfold write_pointer, body_tokens in *.
    destruct (pointer_tokens (target_name bd)) as [|t ts]; [done|]. injection Hw as <-.
    split; [intros v _ [= ->] _; apply walk_write|]. intros keys Hk. apply walk_write_diverge. auto.
Qed.

Lemma build_body_go args l b b' :
  separate l -> fold_result (bind_argument args) l b = Ok b' ->
  Forall (body_holds args (b_body b')) l /\
  (forall keys, (forall bd, bd ∈ l -> target bd = TBody -> diverge (body_tokens bd) keys) ->
     walk (VDict (b_body b')) keys = walk (VDict (b_body b)) keys).
Proof.
  intros Hs. revert b. induction Hs as [|bd l Hbd Hs IH]; intros b; simpl.
  - intros [= <-]. split; [constructor | done].
  - intros (b1 & [H1 K1]%bind_argument_body & [H2 K2]%IH)%bind_Ok. split.
    + constructor; [|done]. intros v Ht Hr Hv. rewrite K2; [by apply H1|].
      intros bd' Hin Ht'. apply diverge_sym. rewrite Forall_forall in Hbd. by apply (Hbd bd').
    + intros keys Hk. rewrite K2 by (intros; apply Hk; [by right|done]).
      apply K1. apply Hk. left.
Qed.
End bodies.

(** ** Properties *)


(** The request depends on nothing but what the bindings read: two argument
    objects on which every binding reads the same give the same request, so an
    undeclared argument, whatever its value, has nowhere to go. *)
Theorem undeclared_arguments_ignored `{Platform} :
  forall tool args args' base,
    (Forall (fun bd => read_pointer args (argument_pointer bd) = read_pointer args' (argument_pointer bd))
       (bindings (operation tool)) ->
     prepare_request tool args base = prepare_request tool args' base) /\
    (forall k v,
       Forall (fun bd => argument_pointer bd <> "" /\ pointer_tokens (argument_pointer bd) <> [] /\
                         hd "" (pointer_tokens (argument_pointer bd)) <> k) (bindings (operation tool)) ->
       prepare_request tool (dset (KStr k) v args) base = prepare_request tool args base).
Proof.
  intros tool args args' base. split.
  - intros Hb. unfold prepare_request. by rewrite (build_ext tool args args' Hb).
  - intros k v Hb. unfold prepare_request. rewrite (build_ext tool (dset (KStr k) v args) args); [done|].
    eapply Forall_impl; [exact Hb|]. intros bd (H1 & H2 & H3). by apply read_pointer_dset_other.
Qed.

(** [validate_arguments] returns exactly the objects of at most 64 KiB of
    JSON that the tool's published schema reports no error for, unchanged. *)
Theorem validate_arguments_exact `{Platform, JsonSchema} :
  forall tool v d, validate_arguments tool v = Ok d <->
    v = VDict d /\
    (exists text, json_text ", " ": " v = Ok text /\ slen (encode_utf8 text) <= 65536)%nat /\
    iter_errors (VDict (input_schema tool)) v = Ok [].
Proof.
  intros tool v d. rewrite validate_arguments_Ok.
  change MAX_ARGUMENT_BYTES with (64 * 1024)%nat.
  replace (64 * 1024)%nat with 65536%nat by (apply Nat2N.inj; vm_compute; reflexivity). done.
Qed.

(** When the body bindings of a tool write at places that are not inside one
    another, the body holds, at each binding's target pointer, exactly the
    argument the binding reads, for every argument that is present and not
    null; so no binding overwrites another one. *)
Theorem request_body_faithful `{Platform} :
  forall tool args b, build tool args = Ok b -> separate (bindings (operation tool)) ->
    Forall (body_holds args (b_body b)) (bindings (operation tool)).
Proof. intros tool args b Hb Hs. by eapply build_body_go in Hb as [H1 _]. Qed.

Definition demo_arguments : dict :=
  {{ "ticket_id" ~> VStr "T/1?x"; "note" ~> VStr "hello"; "extra" ~> VInt 3 }}.
Definition demo_request : M PreparedRequest :=
  prepare_request demo_tool demo_arguments "https://api.example.org/v1/".
Example demo_request_url :
  (let* r := demo_request in Ok (rq_url r, rq_body r)) =
  Ok ("https://api.example.org/v1/tickets/T%2F1%3Fx/notes",
      Some ("{" +:+ quote_json "note" +:+ ":" +:+ quote_json "hello" +:+ "}")).
Proof. vm_compute. reflexivity. Qed.


Lemma undeclared_arguments_ignored_witness :
  prepare_request demo_tool (dset (KStr "role") (VStr "admin") demo_arguments) "https://api.example.org" =
  prepare_request demo_tool demo_arguments "https://api.example.org".
Proof.
  apply (proj2 (undeclared_arguments_ignored demo_tool demo_arguments demo_arguments "https://api.example.org")).
  repeat constructor; vm_compute; discriminate.
Defined.

Lemma request_body_faithful_witness :
  exists b, build demo_tool demo_arguments = Ok b /\
    Forall (body_holds demo_arguments (b_body b)) (bindings (operation demo_tool)).
Proof.
  eexists. split; [vm_compute; reflexivity|].
  apply (request_body_faithful demo_tool demo_arguments); [vm_compute; reflexivity|].
  repeat constructor. intros [=].
Defined.

(** [quote] leaves dots alone: the value [..] makes a dot segment, which a URL
    normalizer in the transport or at the upstream resolves to another target. *)
Lemma dot_segment_survives :
  (let* r := prepare_request demo_tool {{ "ticket_id" ~> VStr ".." }} "https://api.example.org/v1" in
   Ok (rq_url r)) = Ok "https://api.example.org/v1/tickets/../notes".
Proof. vm_compute. reflexivity. Qed.
