(* ===== verification/Destinations.v ===== *)
(** * Destination policy

    [toollayer_policy/destinations.py]: origins, the allowlist and the checks on
    every resolved address.  [socket.getaddrinfo] is a parameter. *)

From S2P Require Export Url.

Definition DEFAULT_ALLOWED_METHODS : gset string := {[ "GET"; "POST"; "PUT"; "PATCH"; "DELETE" ]}.
Definition DEFAULT_PORTS : list (string * N) := [("http", 80%N); ("https", 443%N)].

(** A resolver returns addresses or raises. *)
Definition DnsResolver : Type := string -> N -> M (list string).

Fixpoint dedup (seen l : list string) : list string :=
  match l with
  | [] => seen
  | a :: l => dedup (if str_in a seen then seen else seen ++ [a]) l
  end.
(** [getaddrinfo] fails with [OSError] ([None]) or lists the first element of
    each sockaddr, [None] when it is no string. *)
Definition system_resolve (getaddrinfo : string -> N -> option (list (option string))) : DnsResolver :=
  fun host port =>
    match getaddrinfo host port with
    | None => raise (PolicyDenied ErrorCode.UPSTREAM_UNAVAILABLE
                       "the destination host could not be resolved")
    | Some infos =>
        match dedup [] (omap id infos) with
        | [] => raise (PolicyDenied ErrorCode.UPSTREAM_UNAVAILABLE
                         "the destination host resolved to no address")
        | addresses => Ok addresses
        end
    end.

Record Authority := MkAuthority {
  a_scheme : string;
  a_host : string;
  a_port : N;
  a_has_userinfo : bool;
}.

Definition split_authority (value : string) : M Authority :=
  let* parsed := except (urlsplit value) is_value_error
                   (fun _ => value_error "the URL could not be parsed") in
  let scheme := lower (sr_scheme parsed) in
  match alookup scheme DEFAULT_PORTS with
  | None => value_error "the URL must use http or https"
  | Some default_port =>
      let* parsed_port := except (port parsed) is_value_error
                            (fun _ => value_error "the URL has a malformed authority") in
      match hostname parsed with
      | None => value_error "the URL must name a host"
      | Some host =>
          let host := rstrip_char "." host in
          if is_empty host then value_error "the URL must name a host"
          else Ok {| a_scheme := scheme; a_host := lower host;
                     a_port := match parsed_port with
                               | Some p => if (p =? 0)%N then default_port else p
                               | None => default_port
                               end;
                     a_has_userinfo := has_credentials parsed |}
      end
  end.

Definition origin_of (scheme host : string) (port : N) : string :=
  scheme +:+ "://" +:+ host +:+ ":" +:+ str_of_N port.

Definition normalize_origin (value : string) : M string :=
  let* authority := split_authority (if contains "://" value then value else "https://" +:+ value) in
  if a_has_userinfo authority then value_error "an origin must not contain userinfo"
  else Ok (origin_of (a_scheme authority) (a_host authority) (a_port authority)).

Record ResolvedDestination := MkDestination {
  rd_origin : string;
  rd_scheme : string;
  rd_host : string;
  rd_port : N;
  rd_addresses : list string;
}.

Record DestinationPolicy := MkPolicy {
  allowed_origins : gset string;
  allowed_methods : gset string;
  allow_plaintext_http : bool;
  allow_loopback : bool;
  allow_private_addresses : bool;
}.
Definition DEFAULT_POLICY : DestinationPolicy := MkPolicy ∅ DEFAULT_ALLOWED_METHODS false false false.

(** [allowed_methods or DEFAULT_ALLOWED_METHODS]: an empty set is falsy too. *)
Definition from_origins (origins : list string) (methods : option (gset string))
    (plaintext loopback private : bool) : M DestinationPolicy :=
  let* normalized :=
    map_result (fun origin => except (normalize_origin origin) is_value_error
      (fun error => value_error ("invalid allowlist entry: " +:+ exn_message error))) origins in
  Ok (MkPolicy (list_to_set normalized)
        (match methods with
         | Some m => if decide (m = ∅) then DEFAULT_ALLOWED_METHODS else m
         | None => DEFAULT_ALLOWED_METHODS
         end) plaintext loopback private).

Section policy.
Context (policy : DestinationPolicy).

Definition check_method (method : string) : M unit :=
  if negb (bool_decide (upper method ∈ allowed_methods policy)) then
    raise (PolicyDenied ErrorCode.METHOD_NOT_ALLOWED
      ("the " +:+ upper method +:+ " method is not permitted by this deployment"))
  else Ok tt.

Definition blocked {A} (message : string) : M A :=
  raise (PolicyDenied ErrorCode.PRIVATE_ADDRESS_BLOCKED message).

(** An IPv4-mapped address is checked as the IPv4 address it reaches. *)
Definition unwrap_mapped (a : ip) : ip :=
  match ipv4_mapped a with Some n => V4 n | None => a end.
Definition check_address (address : string) : M unit :=
  match ip_address address with
  | None => blocked "the destination resolved to an address that could not be parsed"
  | Some parsed =>
      let parsed := unwrap_mapped parsed in
      if is_loopback parsed then
        if negb (allow_loopback policy) then
          blocked "the destination resolves to a loopback address"
        else Ok tt
      else if is_multicast parsed || is_reserved parsed || is_unspecified parsed then
        blocked "the destination resolves to a reserved address"
      else if is_link_local parsed then
        blocked "the destination resolves to a link-local address"
      else if negb (is_global parsed) && negb (allow_private_addresses policy) then
        blocked "the destination resolves to an address that is not globally routable"
      else Ok tt
  end.

Definition resolved_addresses (host : string) (port : N) (resolver : DnsResolver)
  : M (list string) :=
  match ip_address host with
  | Some literal => Ok [ip_str literal]
  | None => resolver host port
  end.

Fixpoint check_addresses (addresses : list string) : M unit :=
  match addresses with
  | [] => Ok tt
  | a :: addresses => let* _ := check_address a in check_addresses addresses
  end.

Definition not_allowed {A} (message : string) : M A :=
  raise (PolicyDenied ErrorCode.DESTINATION_NOT_ALLOWED message).

Definition check (url : string) (resolver : DnsResolver) : M ResolvedDestination :=
  let* authority := except (split_authority url) is_value_error
                      (fun _ => not_allowed "the destination URL is not parseable") in
  let scheme := a_scheme authority in
  if String.eqb scheme "http" && negb (allow_plaintext_http policy) then
    not_allowed "plaintext http destinations are disabled for this deployment"
  else if a_has_userinfo authority then
    not_allowed "the destination URL must not contain credentials"
  else
    let host := a_host authority in
    let port := a_port authority in
    let origin := origin_of scheme host port in
    if bool_decide (allowed_origins policy = ∅) then
      not_allowed "this deployment has no allowlisted destinations"
    else if negb (bool_decide (origin ∈ allowed_origins policy)) then
      not_allowed "the destination origin is not on this deployment's allowlist"
    else
      let* addresses := resolved_addresses host port resolver in
      let* _ := check_addresses addresses in
      Ok (MkDestination origin scheme (lower host) port addresses).
End policy.

(** ** Lemmas *)

Lemma check_addresses_Ok p l :
  check_addresses p l = Ok tt <-> Forall (fun a => check_address p a = Ok tt) l.
Proof.
  induction l as [|a l IH]; simpl; [by split|]. rewrite Forall_cons, <- IH.
  destruct (check_address p a) as [[]|e]; simpl; split; try done; by intros [??].
Qed.

(** What an address must satisfy, without the exceptions. *)
Definition address_allowed (p : DestinationPolicy) (a : ip) : bool :=
  if is_loopback a then allow_loopback p
  else negb (is_multicast a || is_reserved a || is_unspecified a) && negb (is_link_local a)
       && (is_global a || allow_private_addresses p).

(** The cases of the checks on one address. *)
Ltac address_cases p a :=
  destruct (is_loopback a), (allow_loopback p); cbn [negb]; try done;
  destruct (is_multicast a), (is_reserved a), (is_unspecified a); cbn [orb]; try done;
  destruct (is_link_local a), (is_global a), (allow_private_addresses p); cbn; try done.

Lemma check_address_Ok p s :
  check_address p s = Ok tt <->
  exists a, ip_address s = Some a /\ address_allowed p (unwrap_mapped a) = true.
Proof.
  unfold check_address, address_allowed, blocked. destruct (ip_address s) as [a|].
  - transitivity (address_allowed p (unwrap_mapped a) = true).
    + unfold address_allowed. cbv zeta. generalize (unwrap_mapped a). intros b. by address_cases p b.
    + split; [by exists a | by intros (a' & [= <-] & H)].
  - split; [done | by intros (? & ? & _)].
Qed.

Lemma check_address_fails p s e :
  check_address p s = Err e -> exn_code e = Some ErrorCode.PRIVATE_ADDRESS_BLOCKED.
Proof.
  unfold check_address, blocked. destruct (ip_address s) as [a|]; [|by intros [= <-]].
  cbv zeta. generalize (unwrap_mapped a). intros b. address_cases p b; intros [=]; by subst.
Qed.

Lemma lower_char_idem c : lower_char (lower_char c) = lower_char c.
Proof.
  apply Ascii.eqb_eq. revert c.
  apply (all_codes (fun c => Ascii.eqb (lower_char (lower_char c)) (lower_char c))).
  vm_compute. reflexivity.
Qed.
Lemma lower_idem s : lower (lower s) = lower s.
Proof. unfold lower. induction s; simpl; [done|]. by rewrite lower_char_idem, IHs. Qed.

(** The condition under which a URL is authorized. *)
Record authorized (p : DestinationPolicy) (url : string) (resolver : DnsResolver)
    (d : ResolvedDestination) : Prop := {
  auth_authority : exists a, split_authority url = Ok a /\ a_has_userinfo a = false /\
    rd_scheme d = a_scheme a /\ rd_host d = a_host a /\ rd_port d = a_port a;
  auth_origin : rd_origin d = origin_of (rd_scheme d) (rd_host d) (rd_port d);
  auth_listed : rd_origin d ∈ allowed_origins p;
  auth_scheme : rd_scheme d = "https" \/ rd_scheme d = "http" /\ allow_plaintext_http p = true;
  auth_resolved : resolved_addresses (rd_host d) (rd_port d) resolver = Ok (rd_addresses d);
  auth_addresses : Forall (fun s => exists a, ip_address s = Some a /\
    address_allowed p (unwrap_mapped a) = true) (rd_addresses d);
}.

Lemma split_authority_scheme url a :
  split_authority url = Ok a ->
  (a_scheme a = "http" \/ a_scheme a = "https") /\ lower (a_host a) = a_host a.
Proof.
  unfold split_authority. intros (r & _ & H)%bind_Ok.
  destruct (alookup _ DEFAULT_PORTS) eqn:E; [|done].
  apply bind_Ok in H as (pp & _ & H). destruct (hostname r) as [h|]; [|done].
  destruct (is_empty _); [done|]. injection H as <-. simpl. split; [|apply lower_idem].
  simpl in E. repeat case_bool_decide; auto; done.
Qed.

Lemma bool_decide_listed (s : string) (X : gset string) :
  bool_decide (X = ∅) = false /\ bool_decide (s ∈ X) = true <-> s ∈ X.
Proof.
  rewrite bool_decide_eq_true, bool_decide_eq_false. split; [by intros [_ ?]|].
  intros H. split; [|done]. intros ->. set_solver.
Qed.

Lemma check_authorized p url resolver d :
  check p url resolver = Ok d <-> authorized p url resolver d.
Proof.
  unfold check. split.
  - intros (a & Ha & H)%bind_Ok. unfold except in Ha.
    destruct (split_authority url) as [a'|e] eqn:Hs; [injection Ha as ->|by destruct (is_value_error e)].
    destruct (split_authority_scheme _ _ Hs) as [Hsch Hlow].
    destruct (String.eqb (a_scheme a) "http" && _) eqn:Hp; [done|].
    destruct (a_has_userinfo a) eqn:Hu; [done|].
    destruct (bool_decide (_ = ∅)) eqn:He; [done|].
    destruct (bool_decide (_ ∈ _)) eqn:Hl; cbn [negb] in H; [|done].
    apply bind_Ok in H as (addrs & Hr & ([] & Hc & [= <-])%bind_Ok).
    split; cbn [rd_origin rd_scheme rd_host rd_port rd_addresses]; rewrite ?Hlow; try done.
    + exists a. done.
    + by apply bool_decide_eq_true in Hl.
    + destruct Hsch as [Hsch| ->]; [right|by left]. split; [done|].
      rewrite Hsch in Hp. simpl in Hp. by apply negb_false_iff.
    + apply check_addresses_Ok in Hc. eapply Forall_impl; [exact Hc|].
      intros s. apply check_address_Ok.
  - intros [(a & Hs & Hu & Esch & Eh & Ep) Eo Hl Hsch Hr Hc].
    destruct (split_authority_scheme _ _ Hs) as [_ Hlow].
    rewrite Hs. cbn [except bind]. rewrite Hu, <- Esch, <- Eh, <- Ep, <- Eo.
    replace (String.eqb (rd_scheme d) "http" && negb (allow_plaintext_http p)) with false.
    2: { destruct Hsch as [->|[-> ->]]; done. }
    apply bool_decide_listed in Hl as [-> ->]. cbn [negb]. rewrite Hr. cbn [bind].
    rewrite (proj2 (check_addresses_Ok p (rd_addresses d))).
    2: { eapply Forall_impl; [exact Hc|]. intros s. apply check_address_Ok. }
    cbn [bind]. rewrite Eh, Hlow, <- Eh. by destruct d.
Qed.

(** ** Origins determine scheme, host and port *)

Lemma rpartition_on_notin sep d : has_char sep d = false -> rpartition_on sep d = ("", false, d).
Proof.
  induction d as [|c d IH]; [done|]. unfold has_char in *. rewrite sany_cons.
  intros [Hc Hd]%orb_false_iff. simpl. rewrite IH by done. by rewrite Ascii.eqb_sym, Hc.
Qed.
Lemma rpartition_on_app sep w d :
  has_char sep d = false -> rpartition_on sep (w +:+ String sep d) = (w, true, d).
Proof.
  intros Hd. induction w as [|c w IH].
  - rewrite sapp_nil_l. simpl. rewrite (rpartition_on_notin _ _ Hd). by rewrite Ascii.eqb_refl.
  - rewrite sapp_cons. simpl. by rewrite IH.
Qed.

Lemma origin_of_inj s h p s' h' p' :
  has_char ":" s = false -> has_char ":" s' = false ->
  origin_of s h p = origin_of s' h' p' -> s = s' /\ h = h' /\ p = p'.
Proof.
  unfold origin_of. rewrite !sapp_cons, !sapp_nil_l. intros Hs Hs' E.
  assert (forall p, has_char ":" (str_of_N p) = false) as Hp.
  { intros q. apply (has_char_false_all _ is_digit); [apply str_of_N_spec | done]. }
  assert (partition_on ":" (s +:+ String ":" (String "/" (String "/" (h +:+ String ":" (str_of_N p))))) =
          partition_on ":" (s' +:+ String ":" (String "/" (String "/" (h' +:+ String ":" (str_of_N p')))))) as E1
    by (by rewrite E).
  rewrite !partition_on_app in E1 by done. injection E1 as -> E1.
  assert (rpartition_on ":" (h +:+ String ":" (str_of_N p)) =
          rpartition_on ":" (h' +:+ String ":" (str_of_N p'))) as E2 by (by rewrite E1).
  rewrite !rpartition_on_app in E2 by done. injection E2 as -> E2.
  by apply str_of_N_inj in E2 as ->.
Qed.

Lemma http_no_colon s : s = "http" \/ s = "https" -> has_char ":" s = false.
Proof. by intros [->| ->]. Qed.

Lemma normalize_origin_Ok value o :
  normalize_origin value = Ok o ->
  exists a, split_authority (if contains "://" value then value else "https://" +:+ value) = Ok a /\
    a_has_userinfo a = false /\ o = origin_of (a_scheme a) (a_host a) (a_port a).
Proof.
  unfold normalize_origin. intros (a & Ha & H)%bind_Ok. exists a.
  destruct (a_has_userinfo a) eqn:E; [done|]. injection H as <-. done.
Qed.

(** ** Address ranges *)

Lemma in_v4_range n base len :
  (len <= 32)%N -> (base mod 2 ^ (32 - len) = 0)%N ->
  in_v4 n (base, len) = true <-> (base <= n < base + 2 ^ (32 - len))%N.
Proof.
  unfold in_v4. cbn [fst snd]. intros Hl Hb. rewrite N.eqb_eq.
  set (size := (2 ^ (32 - len))%N) in *.
  assert (size <> 0)%N as Hz by (apply N.pow_nonzero; lia).
  clearbody size.
  pose proof (N.div_mod n size Hz) as Hn. pose proof (N.mod_lt n size Hz) as Hm.
  pose proof (N.div_mod base size Hz) as Hbase. rewrite Hb, N.add_0_r in Hbase.
  split.
  - intros E. rewrite E, <- Hbase in Hn.
    revert Hn Hm. generalize (n mod size)%N. clear. lia.
  - intros [H1 H2]. symmetry. apply N.le_antisymm.
    + apply N.Div0.div_le_mono. done.
    + apply N.lt_succ_r. apply N.Div0.div_lt_upper_bound.
      by rewrite N.mul_succ_r, <- Hbase.
Qed.

(** The IPv4 address an address reaches, when it is one. *)
Definition reaches_v4 (s : string) (n : N) : Prop :=
  exists a, ip_address s = Some a /\ unwrap_mapped a = V4 n.

Definition metadata_range (n : N) : Prop := (quad 169 254 0 0 <= n <= quad 169 254 255 255)%N.
Definition internal_range (n : N) : Prop :=
  ((quad 10 0 0 0 <= n <= quad 10 255 255 255) \/ (quad 172 16 0 0 <= n <= quad 172 31 255 255) \/
   (quad 192 168 0 0 <= n <= quad 192 168 255 255) \/ (quad 100 64 0 0 <= n <= quad 100 127 255 255) \/
   (quad 0 0 0 0 <= n <= quad 0 255 255 255))%N.
Definition loopback_range (n : N) : Prop := (quad 127 0 0 0 <= n <= quad 127 255 255 255)%N.

Ltac in_net base len :=
  apply (in_v4_range _ base len); [lia | vm_compute; reflexivity |];
  match goal with |- (?a <= ?n < ?b)%N =>
    let b' := eval vm_compute in b in let a' := eval vm_compute in a in
    change (a' <= n < b')%N end.

Lemma link_local_range n : metadata_range n -> is_link_local (V4 n) = true.
Proof.
  unfold metadata_range. cbn -[quad N.pow]. intros H.
  in_net (quad 169 254 0 0) 16%N. unfold quad in *; lia.
Qed.
Lemma loopback_range_v4 n : loopback_range n <-> is_loopback (V4 n) = true.
Proof.
  unfold loopback_range. cbn -[quad N.pow in_v4].
  rewrite (in_v4_range n (quad 127 0 0 0) 8) by (lia || reflexivity).
  change (quad 127 0 0 0 + 2 ^ (32 - 8))%N with 2147483648%N.
  change (quad 127 255 255 255) with 2147483647%N. lia.
Qed.
Lemma internal_not_global n : internal_range n -> is_global (V4 n) = false.
Proof.
  intros H. apply not_true_iff_false. unfold is_global. rewrite andb_true_iff, !negb_true_iff.
  intros [Hs Hp]. unfold is_private, v4_is_private in Hp. apply andb_false_iff in Hp as [Hp|Hp].
  - assert (forall net, net ∈ v4_private_networks -> in_v4 n net = false) as Hall.
    { intros net Hnet. destruct (in_v4 n net) eqn:E; [|done].
      exfalso. apply not_true_iff_false in Hp. apply Hp, existsb_Exists, Exists_exists. eauto. }
    apply not_true_iff_false in Hs.
    assert (forall net, in_v4 n net = true -> net ∉ v4_private_networks) as Hno.
    { intros net E Hin. by rewrite (Hall _ Hin) in E. }
    destruct H as [H|[H|[H|[H|H]]]].
    + apply (Hno (quad 10 0 0 0, 8)%N); [|by repeat constructor].
      in_net (quad 10 0 0 0) 8%N. unfold quad in *; lia.
    + apply (Hno (quad 172 16 0 0, 12)%N); [|by repeat constructor].
      in_net (quad 172 16 0 0) 12%N. unfold quad in *; lia.
    + apply (Hno (quad 192 168 0 0, 16)%N); [|by repeat constructor].
      in_net (quad 192 168 0 0) 16%N. unfold quad in *; lia.
    + apply Hs. in_net (quad 100 64 0 0) 10%N. unfold quad in *; lia.
    + apply (Hno (quad 0 0 0 0, 8)%N); [|by repeat constructor].
      in_net (quad 0 0 0 0) 8%N. unfold quad in *; lia.
  - apply not_true_iff_false in Hp. apply Hp. rewrite forallb_Forall.
    assert (n <> quad 192 0 0 9 /\ n <> quad 192 0 0 10) as [H9 H10].
    { unfold internal_range in H. unfold quad in *; lia. }
    repeat constructor; apply negb_true_iff, not_true_iff_false; intros E.
    + apply (in_v4_range n (quad 192 0 0 9) 32) in E; [|lia|reflexivity]. change (2 ^ (32 - 32))%N with 1%N in E. lia.
    + apply (in_v4_range n (quad 192 0 0 10) 32) in E; [|lia|reflexivity]. change (2 ^ (32 - 32))%N with 1%N in E. lia.
Qed.

Lemma unwrap_v4 s n p :
  reaches_v4 s n ->
  check_address p s = Ok tt <-> address_allowed p (V4 n) = true.
Proof.
  intros (a & Ha & Hu). rewrite check_address_Ok. split.
  - intros (a' & Ha' & H). rewrite Ha in Ha'. injection Ha' as <-. by rewrite <- Hu.
  - intros H. exists a. by rewrite Hu.
Qed.

Lemma metadata_refused p n : metadata_range n -> address_allowed p (V4 n) = false.
Proof.
  intros Hm. unfold address_allowed.
  replace (is_loopback (V4 n)) with false.
  - rewrite (link_local_range n Hm). by rewrite andb_false_r.
  - symmetry. apply not_true_iff_false. rewrite <- loopback_range_v4.
    unfold metadata_range, loopback_range, quad in *. lia.
Qed.

Lemma except_value_error {A} (c : M A) m x :
  except c is_value_error (fun _ => value_error m) = Err x ->
  is_value_error x = true \/ exists y, c = Err y /\ is_value_error y = false /\ x = y.
Proof.
  unfold except. destruct c as [a|y]; [done|]. destruct (is_value_error y) eqn:E.
  - intros [= <-]. by left.
  - intros [= <-]. right. eauto.
Qed.
Lemma value_error_fails {A} m x : @value_error A m = Err x -> is_value_error x = true.
Proof. by intros [= <-]. Qed.

(** Everything [urlsplit] and [port] raise is a [ValueError]. *)
Lemma urlsplit_fails url x : urlsplit url = Err x -> is_value_error x = true.
Proof.
  unfold urlsplit. destruct (split_scheme _) as [sch rest].
  intros [H|([netloc u] & _ & H)]%bind_Err.
  - destruct (strip_prefix _ _) as [r|]; [|done]. destruct (split_netloc r) as [netloc u]. cbv zeta in H.
    destruct (negb _); [by apply value_error_fails in H|]. destruct (_ && _); [|done].
    apply bind_Err in H as [H|(? & _ & [=])]. unfold check_bracketed_netloc, check_bracketed_host in H.
    repeat match goal with
    | H : (let '(_, _) := ?p in _) = _ |- _ => destruct p
    | H : context [if ?b then _ else _] |- _ => destruct b
    | H : match ?o with _ => _ end = _ |- _ => destruct o
    end; (done || by apply value_error_fails in H).
  - destruct (partition_on "#" u) as [[? ?] ?]. destruct (partition_on "?" _) as [[? ?] ?]. done.
Qed.
Lemma port_fails r x : port r = Err x -> is_value_error x = true.
Proof.
  unfold port. destruct (hostinfo r) as [h q]. destruct (is_empty q); [done|].
  destruct (negb _); [apply value_error_fails|]. destruct (_ <? _)%N; [apply value_error_fails|done].
Qed.
Lemma split_authority_fails url x : split_authority url = Err x -> is_value_error x = true.
Proof.
  unfold split_authority. intros [[H|(y & Hy & Hn & ->)]%except_value_error|(r & _ & H)]%bind_Err; [done| |].
  { apply urlsplit_fails in Hy. congruence. }
  cbv zeta in H. destruct (alookup _ _); [|by apply value_error_fails in H].
  apply bind_Err in H as [[H|(y & Hy & Hn & ->)]%except_value_error|(q & _ & H)]; [done| |].
  { apply port_fails in Hy. congruence. }
  destruct (hostname r); [|by apply value_error_fails in H].
  destruct (is_empty _); [by apply value_error_fails in H|done].
Qed.

Lemma check_failure_codes p url resolver e :
  check p url resolver = Err e ->
  exn_code e = Some ErrorCode.DESTINATION_NOT_ALLOWED \/
  exn_code e = Some ErrorCode.PRIVATE_ADDRESS_BLOCKED \/
  exists h q, resolver h q = Err e.
Proof.
  unfold check. intros [H|(a & Ha & H)]%bind_Err.
  - unfold except in H. destruct (split_authority url) as [a|x] eqn:E; [done|].
    assert (is_value_error x = true) as Hv by (by eapply split_authority_fails).
    rewrite Hv in H. injection H as <-. by left.
  - destruct (_ && _); [injection H as <-; by left|].
    destruct (a_has_userinfo a); [injection H as <-; by left|].
    destruct (bool_decide _); [injection H as <-; by left|].
    destruct (negb _); [injection H as <-; by left|].
    apply bind_Err in H as [H|(l & _ & H)].
    + unfold resolved_addresses in H. destruct (ip_address _); [done|]. right. right. eauto.
    + apply bind_Err in H as [H|(? & _ & [=])]. right. left.
      induction l as [|s l IH]; simpl in H; [done|].
      apply bind_Err in H as [H|(_ & _ & H)]; [by apply check_address_fails in H | auto].
Qed.

(** ** Properties *)

(** C33. [DestinationPolicy.check] authorizes a URL exactly when its authority
    parses without credentials, its scheme is https (or plaintext http is
    enabled), its origin is on the allowlist, and every resolved address parses
    and is admitted; and it fails only with [destination_not_allowed],
    [private_address_blocked] or the resolver's own error. *)
Theorem check_exact :
  forall policy url resolver,
    (forall d, check policy url resolver = Ok d <-> authorized policy url resolver d) /\
    (forall e, check policy url resolver = Err e ->
       exn_code e = Some ErrorCode.DESTINATION_NOT_ALLOWED \/
       exn_code e = Some ErrorCode.PRIVATE_ADDRESS_BLOCKED \/
       exists host port, resolver host port = Err e).
Proof.
  intros policy url resolver. split; [intros d; apply check_authorized | apply check_failure_codes].
Qed.

(** The cloud metadata range 169.254.0.0/16 is refused under every policy,
    also written as an IPv4-mapped IPv6 address; without the two flags, so are
    loopback, the RFC 1918 ranges, carrier-grade NAT and 0.0.0.0/8. *)
Theorem internal_addresses_refused :
  forall policy s n, reaches_v4 s n ->
    (metadata_range n -> check_address policy s <> Ok tt) /\
    (loopback_range n -> check_address policy s = Ok tt <-> allow_loopback policy = true) /\
    (internal_range n -> allow_private_addresses policy = false -> check_address policy s <> Ok tt).
Proof.
  intros p s n Hs. rewrite (unwrap_v4 s n p Hs). split_and!.
  - intros Hm. by rewrite (metadata_refused p n Hm).
  - intros Hl%loopback_range_v4. unfold address_allowed. by rewrite Hl.
  - intros Hi Hp. unfold address_allowed.
    replace (is_loopback (V4 n)) with false.
    + rewrite (internal_not_global n Hi), Hp. simpl. by rewrite andb_false_r.
    + symmetry. apply not_true_iff_false. rewrite <- loopback_range_v4.
      unfold internal_range, loopback_range, quad in *. lia.
Qed.

Lemma internal_addresses_refused_witness :
  check_address (MkPolicy ∅ ∅ true true true) "::ffff:169.254.169.254" <> Ok tt.
Proof.
  apply (proj1 (internal_addresses_refused (MkPolicy ∅ ∅ true true true) "::ffff:169.254.169.254"
           (quad 169 254 169 254)
           ltac:(eexists; split; vm_compute; reflexivity))).
  unfold metadata_range, quad. lia.
Defined.

(** The allowlist compares scheme, host and port exactly: a URL is
    authorized only if some configured entry has the same scheme, the same host
    (up to case and trailing dots) and the same port, and an URL whose origin is
    not listed is refused alike for every resolver, so it triggers no DNS
    lookup. *)
Theorem allowlist_exact :
  forall origins methods plaintext loopback private policy,
    from_origins origins methods plaintext loopback private = Ok policy ->
    (forall url resolver d, check policy url resolver = Ok d ->
       exists entry a b, entry ∈ origins /\
         split_authority (if contains "://" entry then entry else "https://" +:+ entry) = Ok a /\
         split_authority url = Ok b /\
         a_scheme a = a_scheme b /\ a_host a = a_host b /\ a_port a = a_port b) /\
    (forall url b resolver resolver', split_authority url = Ok b ->
       origin_of (a_scheme b) (a_host b) (a_port b) ∉ allowed_origins policy ->
       check policy url resolver = check policy url resolver' /\
       exists e, check policy url resolver = Err e /\
         exn_code e = Some ErrorCode.DESTINATION_NOT_ALLOWED).
Proof.
  intros origins methods pl lo pr policy H. split.
  - unfold from_origins in H. apply bind_Ok in H as (os & Hos & [= <-]).
    intros url resolver d [(b & Hb & _ & Es & Eh & Ep) Eo Hl _ _ _]%check_authorized.
    cbn [allowed_origins] in Hl. apply elem_of_list_to_set in Hl.
    apply map_result_Ok in Hos. apply list_elem_of_lookup in Hl as [i Hi].
    apply (Forall2_lookup_r _ _ _ _ _ Hos) in Hi as (entry & Hentry & Hn).
    unfold except in Hn. destruct (normalize_origin entry) as [o|x] eqn:En;
      [injection Hn as ->|by destruct (is_value_error x)].
    apply normalize_origin_Ok in En as (a & Ha & _ & E).
    apply split_authority_scheme in Ha as Ha', Hb as Hb'. destruct Ha' as [Ha' _], Hb' as [Hb' _].
    rewrite Eo, Es, Eh, Ep in E. apply origin_of_inj in E as (E1 & E2 & E3);
      [|by apply http_no_colon|by apply http_no_colon].
    exists entry, a, b. split; [by eapply list_elem_of_lookup_2|]. done.
  - intros url b resolver resolver' Hb Hno. unfold check. rewrite Hb. cbn [except bind].
    rewrite (bool_decide_eq_false_2 (_ ∈ _)) by done.
    destruct (_ && _); [split; [done | by eexists]|].
    destruct (a_has_userinfo b); [split; [done | by eexists]|].
    destruct (bool_decide _); [split; [done | by eexists]|].
    cbn [negb]. split; [done | by eexists].
Qed.

Lemma allowlist_exact_witness :
  exists policy, from_origins ["API.example.org."; "http://localhost:8000"] None true true false = Ok policy /\
    exists e, check policy "https://api.example.org:444/x" (fun _ _ => Ok ["93.184.216.34"]) = Err e /\
      exn_code e = Some ErrorCode.DESTINATION_NOT_ALLOWED.
Proof.
  eexists. split; [vm_compute; reflexivity|].
  eapply (proj2 (allowlist_exact ["API.example.org."; "http://localhost:8000"] None true true false _
           ltac:(vm_compute; reflexivity)) "https://api.example.org:444/x" _ _
           (fun _ _ => Ok [])); [vm_compute; reflexivity|].
  apply (bool_decide_unpack _). vm_compute. exact I.
Defined.

Lemma check_exact_witness :
  check (MkPolicy {[ "https://api.example.org:443" ]} ∅ false false false)
    "https://API.example.org/v1?q=1" (fun _ _ => Ok ["93.184.216.34"])
  = Ok (MkDestination "https://api.example.org:443" "https" "api.example.org" 443 ["93.184.216.34"]).
Proof.
  apply (check_exact (MkPolicy {[ "https://api.example.org:443" ]} ∅ false false false)
           "https://API.example.org/v1?q=1" (fun _ _ => Ok ["93.184.216.34"])).
  split; cbn [rd_origin rd_scheme rd_host rd_port rd_addresses].
  - eexists. split; [vm_compute; reflexivity|]. vm_compute. auto.
  - reflexivity.
  - apply (bool_decide_unpack _). vm_compute. exact I.
  - by left.
  - reflexivity.
  - repeat constructor. eexists. split; [vm_compute; reflexivity | vm_compute; reflexivity].
Defined.
