(* ===== verification/Executor.v ===== *)
(** * The execution boundary

    [toollayer_policy/executor.py]: the pre-flight checks, the bounded read of a
    streamed response and the classification of its outcome.  The HTTP library
    is the class [Httpx]: what a request leads to, the body being a stream that
    need not end.  [json.loads] and the replacing UTF-8 decoder are the class
    [Decoding].  What an execution sends is part of its result. *)

From S2P Require Export Arguments Destinations.
From Stdlib Require Import Floats.SpecFloat.

Definition MAX_RESPONSE_PREVIEW : nat := 4096.

(** ** Limits *)

Definition sf_of_Z (z : Z) : spec_float := binary_normalize 53 1024 z 0 false.
Definition sf_within (lo hi : Z) (f : spec_float) : bool := SFltb (sf_of_Z lo) f && SFleb f (sf_of_Z hi).

Record ExecutionLimits := MkLimits {
  connect_timeout_seconds : spec_float;
  read_timeout_seconds : spec_float;
  max_response_bytes : Z;
}.
Definition ExecutionLimits_new (l : ExecutionLimits) : M ExecutionLimits :=
  if negb (sf_within 0 30 (connect_timeout_seconds l)) then
    value_error "connect_timeout_seconds must be within (0, 30]"
  else if negb (sf_within 0 60 (read_timeout_seconds l)) then
    value_error "read_timeout_seconds must be within (0, 60]"
  else if negb ((0 <? max_response_bytes l) && (max_response_bytes l <=? 16 * 1024 * 1024))%Z then
    value_error "max_response_bytes must be within (0, 16 MiB]"
  else Ok l.
Definition DEFAULT_LIMITS : ExecutionLimits := MkLimits (sf_of_Z 3) (sf_of_Z 10) (1024 * 1024).
(** The limit as a length; a constructed limit is positive. *)
Definition byte_limit (l : ExecutionLimits) : nat := Z.to_nat (max_response_bytes l).

(** ** The transport *)

Abbreviation headers := (list (string * string)).
Definition header_get (name : string) (hs : headers) : option string := alookup name hs.

Inductive stream_event :=
  | Chunk (bytes : string)
  | StreamEnd
  | StreamTimeout
  | StreamError.
Inductive exchange :=
  | Responded (status : Z) (response_headers : headers) (body : nat -> stream_event)
  | TimedOut
  | TransportFailed.

Class Httpx := { exchange_of : PreparedRequest -> headers -> exchange }.

Definition declared_length_exceeds (hs : headers) (maximum : Z) : bool :=
  match header_get "content-length" hs with
  | None => false
  | Some raw => match py_int raw with Some n => (maximum <? n)%Z | None => false end
  end.

Definition timeout_error : exn :=
  PolicyDenied ErrorCode.UPSTREAM_TIMEOUT "the upstream API did not respond in time".
Definition unavailable_error : exn :=
  PolicyDenied ErrorCode.UPSTREAM_UNAVAILABLE "the upstream API could not be reached".
Definition too_large (l : ExecutionLimits) : exn :=
  PolicyDenied ErrorCode.RESPONSE_TOO_LARGE
    ("the upstream response exceeds the " +:+ str_of_Z (max_response_bytes l) +:+ " byte limit").

(** The loop over [iter_bytes]; [None] when the fuel runs out. *)
Fixpoint collect (fuel : nat) (ceiling : nat) (body : nat -> stream_event) (index : nat)
    (collected : string) : option (M string) :=
  match fuel with
  | O => None
  | S fuel =>
      match body index with
      | Chunk bytes =>
          let collected := collected +:+ bytes in
          if (ceiling <=? slen collected)%nat then Some (Ok (stake ceiling collected))
          else collect fuel ceiling body (S index) collected
      | StreamEnd => Some (Ok collected)
      | StreamTimeout => Some (raise timeout_error)
      | StreamError => Some (raise unavailable_error)
      end
  end.

Section transport.
Context `{Httpx}.

(** [dict(request.headers)]: a repeated name keeps its place, the last value wins. *)
Fixpoint header_set (name value : string) (hs : headers) : headers :=
  match hs with
  | [] => [(name, value)]
  | (n, v) :: hs => if String.eqb n name then (n, value) :: hs else (n, v) :: header_set name value hs
  end.
Definition header_dict (hs : headers) : headers := foldl (fun acc h => header_set h.1 h.2 acc) [] hs.
(** [headers.setdefault("user-agent", ...)]. *)
Definition request_headers (request : PreparedRequest) : headers :=
  let hs := header_dict (rq_headers request) in
  match header_get "user-agent" hs with
  | Some _ => hs
  | None => hs ++ [("user-agent", "toollayer-runtime/0.1")]
  end.

(** Every chunk has a byte, so [ceiling] rounds reach the ceiling. *)
Definition httpx_send (request : PreparedRequest) (limits : ExecutionLimits)
  : option (M (Z * headers * string)) :=
  match exchange_of request (request_headers request) with
  | TimedOut => Some (raise timeout_error)
  | TransportFailed => Some (raise unavailable_error)
  | Responded status hs body =>
      if declared_length_exceeds hs (max_response_bytes limits) then Some (raise (too_large limits))
      else
        let ceiling := S (byte_limit limits) in
        collected ← collect (S ceiling) ceiling body 0 "";
        Some (let* bytes := collected in Ok (status, hs, bytes))
  end.
End transport.

(** ** Decoding *)

Class Decoding := {
  json_loads : string -> M pyval;      (* of the decoded bytes *)
  utf8_replace : string -> string;
}.

Definition content_type_of (hs : headers) : string :=
  lower (strip (hd "" (split_on ";" (match header_get "content-type" hs with Some t => t | None => "" end)))).

Definition decode `{Decoding} (body : string) (hs : headers) : M pyval :=
  if is_empty body then Ok VNone
  else
    let content_type := content_type_of hs in
    let text := VDict {{ "content_type" ~> VStr (if is_empty content_type then "unknown" else content_type);
                         "text" ~> VStr (stake MAX_RESPONSE_PREVIEW (utf8_replace body)) }} in
    if ends_with "json" content_type || ends_with "+json" content_type then
      except (json_loads body) is_value_error (fun _ => Ok text)
    else Ok text.

(** ** The executor *)

(** [HttpTransport.send]. *)
Definition Transport : Type := PreparedRequest -> ExecutionLimits -> M (Z * headers * string).

Record ToolExecutor := MkExecutor {
  ex_policy : DestinationPolicy;
  ex_limits : ExecutionLimits;
  ex_transport : Transport;
  ex_resolver : DnsResolver;
}.

Section executor.
Context `{Platform, JsonSchema, Decoding}.

Definition prepare (ex : ToolExecutor) (tool : ToolDefinition) (arguments : pyval) (base_url : string)
  : M PreparedRequest :=
  let* _ := check_method (ex_policy ex) (method (operation tool)) in
  let* validated := validate_arguments tool arguments in
  let* request := prepare_request tool validated base_url in
  let* _ := check (ex_policy ex) (rq_url request) (ex_resolver ex) in
  Ok request.

(** What happens after the response came back. *)
Definition outcome (ex : ToolExecutor) (tool : ToolDefinition) (connector_key connector_version : string)
    (request_id : option string) (elapsed_ms : Z) (response : Z * headers * string)
  : M ToolExecutionResult :=
  let '(status_code, hs, body) := response in
  if ((300 <=? status_code) && (status_code <? 400))%Z then
    raise (PolicyDenied ErrorCode.REDIRECT_NOT_ALLOWED
             "the upstream API returned a redirect, which is not followed")
  else if (max_response_bytes (ex_limits ex) <? Z.of_nat (slen body))%Z then
    raise (too_large (ex_limits ex))
  else
    let* content := decode body hs in
    ToolExecutionResult_new
      {| r_tool_name := tool_name tool;
         r_connector_key := connector_key;
         r_connector_version := connector_version;
         r_succeeded := (status_code <? 400)%Z;
         r_http_status := status_code;
         r_duration_ms := elapsed_ms;
         r_content := content;
         r_request_id := request_id |}.

(** The requests sent, and what [execute] returns or raises. *)
Definition execute (ex : ToolExecutor) (tool : ToolDefinition) (arguments : pyval) (base_url : string)
    (connector_key connector_version : string) (request_id : option string) (elapsed_ms : Z)
  : list PreparedRequest * M ToolExecutionResult :=
  match prepare ex tool arguments base_url with
  | Err e => ([], Err e)
  | Ok request =>
      ([request],
       let* response := ex_transport ex request (ex_limits ex) in
       outcome ex tool connector_key connector_version request_id elapsed_ms response)
  end.
End executor.

(** ** The bounded read *)

Definition chunks_nonempty (body : nat -> stream_event) : Prop :=
  forall i bytes, body i = Chunk bytes -> bytes <> "".

(** The bytes of the first [n] events. *)
Fixpoint prefix_bytes (body : nat -> stream_event) (n : nat) : string :=
  match n with
  | O => ""
  | S n => prefix_bytes body n +:+ match body n with Chunk b => b | _ => "" end
  end.

Lemma stake_all n s : (slen s <= n)%nat -> stake n s = s.
Proof.
  revert s. induction n as [|n IH]; intros [|c s]; simpl; try done; [lia|]. intros Hl. rewrite IH; [done|lia].
Qed.
Lemma prefix_bytes_length body n :
  chunks_nonempty body -> (forall i, (i < n)%nat -> exists b, body i = Chunk b) -> (n <= slen (prefix_bytes body n))%nat.
Proof.
  intros Hc. induction n as [|n IH]; intros Hb; simpl; [lia|]. rewrite slen_app.
  destruct (Hb n) as [b Hn]; [lia|]. rewrite Hn. specialize (Hc n b Hn).
  assert (n <= slen (prefix_bytes body n))%nat by (apply IH; intros; apply Hb; lia).
  destruct b; [done|]. simpl. lia.
Qed.

Definition is_chunk (e : stream_event) : bool := match e with Chunk _ => true | _ => false end.

Lemma collect_spec fuel ceiling body i :
  chunks_nonempty body ->
  (forall j, (j < i)%nat -> is_chunk (body j) = true) -> (slen (prefix_bytes body i) < ceiling)%nat ->
  (ceiling <= fuel + i)%nat ->
  exists n, (i <= n)%nat /\ (forall j, (j < n)%nat -> is_chunk (body j) = true) /\
    (slen (prefix_bytes body n) < ceiling)%nat /\
    collect (S fuel) ceiling body i (prefix_bytes body i) =
      Some (match body n with
            | Chunk b => Ok (stake ceiling (prefix_bytes body (S n)))
            | StreamEnd => Ok (prefix_bytes body n)
            | StreamTimeout => raise timeout_error
            | StreamError => raise unavailable_error
            end) /\
    (forall b, body n = Chunk b -> (ceiling <= slen (prefix_bytes body (S n)))%nat).
Proof.
  intros Hc. revert i. induction fuel as [|fuel IH]; intros i Hi Hl Hf.
  - pose proof (prefix_bytes_length body i Hc) as Hlen.
    assert (i <= slen (prefix_bytes body i))%nat; [|lia].
    apply Hlen. intros j Hj. specialize (Hi j Hj). destruct (body j) as [b| | |]; [by exists b|done..].
  - remember (S fuel) as fuel'. cbn [collect]. destruct (body i) as [b| | |] eqn:Eb.
    2-4: exists i; rewrite Eb; split_and!; [lia|done|done|done|done].
    assert (prefix_bytes body i +:+ b = prefix_bytes body (S i)) as Ep by (simpl; by rewrite Eb).
    rewrite Ep. destruct (Nat.leb_spec ceiling (slen (prefix_bytes body (S i)))) as [Hle|Hlt].
    + exists i. rewrite Eb. split_and!; [lia|done..].
    + subst fuel'. destruct (IH (S i)) as (n & Hn & H1 & H2 & H3 & H4); [|done|lia|].
      * intros j Hj. destruct (decide (j = i)) as [->|]; [by rewrite Eb | apply Hi; lia].
      * exists n. split_and!; [lia|done..].
Qed.

Lemma collect_ext fuel ceiling body body' i acc :
  (forall j, (i <= j < i + fuel)%nat -> body j = body' j) ->
  collect fuel ceiling body i acc = collect fuel ceiling body' i acc.
Proof.
  revert i acc. induction fuel as [|fuel IH]; intros i acc Hb; simpl; [done|].
  rewrite (Hb i) by lia. destruct (body' i); try done. destruct (_ <=? _)%nat; [done|].
  apply IH. intros j Hj. apply Hb. lia.
Qed.

Section send.
Context `{Httpx}.

Lemma httpx_send_spec request limits status hs body :
  exchange_of request (request_headers request) = Responded status hs body -> chunks_nonempty body ->
  exists r, httpx_send request limits = Some r /\
    match r with
    | Ok (st, hs', bytes) =>
        st = status /\ hs' = hs /\ (slen bytes <= S (byte_limit limits))%nat /\
        ((slen bytes <= byte_limit limits)%nat -> exists n, body n = StreamEnd /\
           (forall j, (j < n)%nat -> is_chunk (body j) = true) /\ bytes = prefix_bytes body n)
    | Err e => e = too_large limits \/ e = timeout_error \/ e = unavailable_error
    end.
Proof.
  intros He Hc. unfold httpx_send. rewrite He.
  destruct (declared_length_exceeds _ _); [eexists; split; [done|]; by left|].
  cbv zeta. remember (S (byte_limit limits)) as ceiling eqn:Hceil.
  destruct (collect_spec ceiling ceiling body 0 Hc) as (n & _ & Hn & Hl & Hcol & Hch);
    [lia | subst; simpl; lia | lia|].
  cbn [prefix_bytes] in Hcol. rewrite Hcol. cbn [mbind option_bind]. eexists. split; [done|].
  destruct (body n) as [b| | |] eqn:Eb; cbn [bind]; [| |by auto|by auto].
  - specialize (Hch b eq_refl). rewrite slen_stake. split_and!; try done; [lia|].
    intros Hle. exfalso. cbn [prefix_bytes] in *. rewrite Eb in Hch. lia.
  - split_and!; try done; [lia|]. eauto.
Qed.

End send.

Lemma httpx_send_ext (H1 H2 : Httpx) (body body' : nat -> stream_event) request limits status hs :
  @exchange_of H1 request (request_headers request) = Responded status hs body ->
  @exchange_of H2 request (request_headers request) = Responded status hs body' ->
  (forall j, (j <= S (byte_limit limits))%nat -> body j = body' j) ->
  @httpx_send H1 request limits = @httpx_send H2 request limits.
Proof.
  intros E E' Hb. unfold httpx_send. rewrite E, E'. destruct (declared_length_exceeds _ _); [done|].
  rewrite (collect_ext _ _ body body'); [done|]. intros j Hj. apply Hb. lia.
Qed.


Section execution.
Context `{Platform, JsonSchema, Decoding}.

Lemma prepare_Ok ex tool arguments base r :
  prepare ex tool arguments base = Ok r <->
  upper (method (operation tool)) ∈ allowed_methods (ex_policy ex) /\
  exists args d, validate_arguments tool arguments = Ok args /\
    prepare_request tool args base = Ok r /\ check (ex_policy ex) (rq_url r) (ex_resolver ex) = Ok d.
Proof.
  unfold prepare, check_method. split.
  - case_bool_decide as Hm; cbn [negb bind]; [|done].
    intros (args & Ha & (r' & Hr & (d & Hd & [= <-])%bind_Ok)%bind_Ok)%bind_Ok. eauto 8.
  - intros (Hm & args & d & Ha & Hr & Hd). rewrite bool_decide_eq_true_2 by done. cbn [negb bind].
    rewrite Ha. cbn [bind]. rewrite Hr. cbn [bind]. by rewrite Hd.
Qed.

Lemma outcome_Ok ex tool ck cv rid ms response r :
  outcome ex tool ck cv rid ms response = Ok r ->
  (~ (300 <= r_http_status r < 400))%Z /\ (100 <= r_http_status r <= 599)%Z /\
  r_http_status r = response.1.1 /\ r_succeeded r = (r_http_status r <? 400)%Z /\
  (Z.of_nat (slen response.2) <= max_response_bytes (ex_limits ex))%Z /\
  r_tool_name r = tool_name tool /\ r_connector_key r = ck /\ r_connector_version r = cv.
Proof.
  unfold outcome. destruct response as [[st hs] body]. cbn [fst snd].
  destruct ((300 <=? st) && (st <? 400))%Z eqn:E3; [done|].
  destruct (Z.ltb_spec (max_response_bytes (ex_limits ex)) (Z.of_nat (slen body))); [done|].
  intros (c & _ & Hr)%bind_Ok. unfold ToolExecutionResult_new in Hr.
  apply bind_Ok in Hr as (? & _ & Hr). apply bind_Ok in Hr as (? & _ & Hr).
  apply bind_Ok in Hr as (? & _ & Hr). apply bind_Ok in Hr as (? & Hst%require_Ok & Hr).
  apply bind_Ok in Hr as (? & _ & Hr). apply bind_Ok in Hr as (? & _ & Hr).
  match type of Hr with Ok ?x = Ok _ => assert (r = x) as -> by congruence end.
  cbn in *. apply andb_false_iff in E3. apply andb_true_iff in Hst as [H1s H2s].
  apply Z.leb_le in H1s, H2s. split_and!; try done. intros [H3 H4].
  destruct E3 as [E3%Z.leb_gt|E3%Z.ltb_ge]; lia.
Qed.
End execution.

(** ** Properties *)

(** Nothing is sent before every check has passed: an execution sends at
    most one request, the one built from the published bindings, and only if
    the method is allowed, the arguments validated and the destination is
    authorized; if any check refuses, nothing is sent and the call raises; and a
    result means the response was no redirect and within the byte limit. *)
Theorem execute_governed `{Platform, JsonSchema, Decoding} :
  forall ex tool arguments base ck cv rid ms sent r,
    execute ex tool arguments base ck cv rid ms = (sent, r) ->
    (sent = [] /\ (exists e, r = Err e) \/
     exists request args d, sent = [request] /\
       upper (method (operation tool)) ∈ allowed_methods (ex_policy ex) /\
       validate_arguments tool arguments = Ok args /\
       prepare_request tool args base = Ok request /\
       authorized (ex_policy ex) (rq_url request) (ex_resolver ex) d) /\
    (forall result, r = Ok result ->
       (~ (300 <= r_http_status result < 400))%Z /\ (100 <= r_http_status result <= 599)%Z /\
       r_succeeded result = (r_http_status result <? 400)%Z /\
       exists request hs body, sent = [request] /\
         ex_transport ex request (ex_limits ex) = Ok (r_http_status result, hs, body) /\
         (Z.of_nat (slen body) <= max_response_bytes (ex_limits ex))%Z).
Proof.
  intros ex tool arguments base ck cv rid ms sent r. unfold execute.
  destruct (prepare ex tool arguments base) as [request|e] eqn:Hp.
  - intros [= <- <-]. split.
    + right. apply prepare_Ok in Hp as (Hm & args & d & Ha & Hr & Hd%check_authorized). eauto 10.
    + intros result (response & Ht & Ho)%bind_Ok. destruct response as [[st hs] body].
      destruct (outcome_Ok _ _ _ _ _ _ _ _ Ho) as (H3 & H5 & Hst & Hs & Hl & _). cbn [fst snd] in *.
      split; [exact H3|]. split; [exact H5|]. split; [exact Hs|].
      exists request, hs, body. by rewrite Hst.
  - intros [= <- <-]. split; [left; eauto | done].
Qed.

(** C32. The default transport reads a bounded part of any response, an endless
    one included: it always returns, having looked at no more than two events
    past the limit, with at most one byte more than the limit; a body within
    the limit is the complete one, and the only errors are the limit, the
    timeout and the transport errors. *)
Theorem bounded_read `{Httpx} :
  forall request limits status hs body,
    exchange_of request (request_headers request) = Responded status hs body -> chunks_nonempty body ->
    (exists r, httpx_send request limits = Some r /\
       match r with
       | Ok (st, hs', bytes) =>
           st = status /\ hs' = hs /\ (slen bytes <= S (byte_limit limits))%nat /\
           ((slen bytes <= byte_limit limits)%nat -> exists n, body n = StreamEnd /\
              (forall j, (j < n)%nat -> is_chunk (body j) = true) /\ bytes = prefix_bytes body n)
       | Err e => e = too_large limits \/ e = timeout_error \/ e = unavailable_error
       end) /\
    (forall (H' : Httpx) body',
       @exchange_of H' request (request_headers request) = Responded status hs body' ->
       (forall j, (j <= S (byte_limit limits))%nat -> body j = body' j) ->
       @httpx_send H' request limits = httpx_send request limits).
Proof.
  intros request limits status hs body He Hc. split; [by eapply httpx_send_spec|].
  intros H' body' He' Hb. symmetry. by eapply httpx_send_ext.
Qed.

(** ** Concrete instances for the witnesses *)

#[export] Instance demo_decoding : Decoding :=
  {| json_loads := fun _ => value_error "Expecting value"; utf8_replace := fun s => s |}.
Definition demo_body (j : nat) : stream_event := Chunk "xyz".
#[export] Instance demo_httpx : Httpx :=
  {| exchange_of := fun _ _ => Responded 200 [("content-type", "text/plain")] demo_body |}.

Definition demo_transport (status : Z) : Transport := fun _ _ => Ok (status, [("content-type", "text/plain")], "fine").
Definition demo_executor (status : Z) : ToolExecutor :=
  MkExecutor (MkPolicy {[ "https://api.example.org:443" ]} DEFAULT_ALLOWED_METHODS false false false)
    DEFAULT_LIMITS (demo_transport status) (fun _ _ => Ok ["93.184.216.34"]).
Definition demo_execution (status : Z) : list PreparedRequest * M ToolExecutionResult :=
  execute (demo_executor status) demo_tool (VDict demo_arguments) "https://api.example.org/v1"
    "ticket-api" "0.1.0" None 12.

Lemma execute_governed_witness :
  exists sent result, demo_execution 201 = (sent, Ok result) /\ length sent = 1%nat /\
    (100 <= r_http_status result <= 599)%Z.
Proof.
  destruct (demo_execution 201) as [sent [result|e]] eqn:E; [|exfalso; revert E; vm_compute; discriminate].
  destruct (execute_governed (demo_executor 201) demo_tool (VDict demo_arguments) "https://api.example.org/v1"
    "ticket-api" "0.1.0" None 12 sent (Ok result) E) as [_ Hr].
  destruct (Hr result eq_refl) as (_ & H5 & _ & request & hs & body & -> & _).
  exists [request], result. split; [reflexivity|]. split; [reflexivity|exact H5].
Defined.

Definition small_limits : ExecutionLimits := MkLimits (sf_of_Z 3) (sf_of_Z 10) 10.
Definition demo_prepared : PreparedRequest := MkRequest "GET" "https://api.example.org/" "/" [] [] None None.
Lemma bounded_read_witness :
  exists st hs bytes, httpx_send demo_prepared small_limits = Some (Ok (st, hs, bytes)) /\
    (slen bytes <= 11)%nat.
Proof.
  destruct (proj1 (bounded_read (H:=demo_httpx) demo_prepared small_limits 200 [("content-type", "text/plain")] demo_body
              eq_refl ltac:(intros i b [= <-]; discriminate))) as (r & Hr & Hspec).
  destruct r as [[[st hs] bytes]|e]; [|exfalso; revert Hr; vm_compute; discriminate].
  destruct Hspec as (_ & _ & Hl & _). exists st, hs, bytes. split; [exact Hr|exact Hl].
Defined.

(** An upstream answering with a status of 600 or more makes the result model
    itself raise, after the request was sent, an exception that is no
    [ToolLayerError]. *)
Lemma unusual_status_escapes :
  exists request m, demo_execution 999 = ([request], Err (Raised PydanticValidationError m)).
Proof. eexists _, _. vm_compute. reflexivity. Qed.
