(* ===== verification/Snapshot.v ===== *)
(** * Deployment snapshots in the runtime

    [runtime_service/snapshot.py]: authenticating, loading and indexing a
    snapshot document, the client's interpretation of a response, and the store
    that holds the current snapshot.  The HTTP exchange is a parameter of
    [fetch]; the monotonic clock is an argument, in nanoseconds.  [refresh] runs
    under the store's lock and swaps one reference, so each of its executions is
    one step of the store. *)

From S2P Require Export Signing Validation.

Definition SnapshotError (m : string) : exn := tool_layer_error ErrorCode.SNAPSHOT_UNAVAILABLE m.
Definition SnapshotIntegrityError (m : string) : exn :=
  tool_layer_error ErrorCode.SNAPSHOT_INTEGRITY_FAILED m.
Definition SnapshotSignatureError (m : string) : exn :=
  tool_layer_error ErrorCode.SNAPSHOT_SIGNATURE_INVALID m.

Inductive VerificationMode := Required | Disabled.
Record SnapshotVerification := MkVerification {
  mode : VerificationMode;
  trusted_keys : TrustedKeyRing;
}.
Definition DEFAULT_VERIFICATION : SnapshotVerification := MkVerification Required EMPTY_KEY_RING.
Definition enforced (v : SnapshotVerification) : bool :=
  match mode v with Required => true | Disabled => false end.

Record BoundTool := MkBound {
  bt_connector_key : string;
  bt_connector_version : string;
  bt_base_url : string;
  bt_tool : ToolDefinition;
}.
Definition bt_tool_name (b : BoundTool) : string := tool_name (bt_tool b).
Definition qualified_name (b : BoundTool) : string := bt_connector_key b +:+ ":" +:+ bt_tool_name b.

(** The index is a dict from names to tools, in insertion order. *)
Record LoadedSnapshot := MkLoaded {
  ls_snapshot : DeploymentSnapshot;
  ls_etag : option string;
  ls_loaded_at : Z;
  tools_by_name : list (string * BoundTool);
  signing_key_id : option string;
}.
Definition ls_revision (s : LoadedSnapshot) : Z := revision (ls_snapshot s).
Definition ls_tools (s : LoadedSnapshot) : list BoundTool := (tools_by_name s).*2.
Definition ls_signed (s : LoadedSnapshot) : bool := negb (is_none (signing_key_id s)).

Definition resolve (s : LoadedSnapshot) (name : string) : M BoundTool :=
  match alookup name (tools_by_name s) with
  | None => raise (tool_layer_error ErrorCode.UNKNOWN_TOOL
                     "the requested tool is not present in this deployment snapshot")
  | Some bound => Ok bound
  end.

Definition bind_tool (c : ConnectorDefinition) (t : ToolDefinition) : BoundTool :=
  MkBound (connector_key c) (version c) (base_url (runtime c)) t.
Definition index_tool (c : ConnectorDefinition) (index : list (string * BoundTool)) (t : ToolDefinition)
  : M (list (string * BoundTool)) :=
  match alookup (tool_name t) index with
  | Some _ => raise (SnapshotIntegrityError
                       "the snapshot defines the same tool name in more than one connector")
  | None => Ok (index ++ [(tool_name t, bind_tool c t)])
  end.
Definition index_snapshot (s : DeploymentSnapshot) : M (list (string * BoundTool)) :=
  fold_result (fun index c => fold_result (index_tool c) (tools c) index) (connectors s) [].

Section loading.
Context `{Platform, Ed25519, JsonSchema, Pydantic}.

Definition verified_key (v : SnapshotVerification) (document : dict) : M (option string) :=
  except (let* k := verify_document document (trusted_keys v) in Ok (Some k))
    (is_class SignatureVerificationError)
    (fun error => raise (SnapshotSignatureError (exn_message error))).
Definition verification_check (v : SnapshotVerification) (document : dict) : M (option string) :=
  if negb (enforced v) then
    if negb (is_vnone (get "signature" document)) then verified_key v document else Ok None
  else verified_key v document.

(** [str(v)]; only a string can start with the digest prefix. *)
Definition digest_text (v : pyval) : string := match v with VStr s => s | _ => "" end.

Definition load_snapshot_document (document : pyval) (etag : option string)
    (verification : option SnapshotVerification) (now : Z) : M LoadedSnapshot :=
  match document with
  | VDict d =>
      let* _ := except (require_supported (get "contract_version" d))
                  (is_class IncompatibleContractVersionError)
                  (fun error => raise (tool_layer_error_at ErrorCode.UNSUPPORTED_CONTRACT_VERSION
                                         (exn_message error) "/contract_version")) in
      let* _ := validate_deployment_snapshot document in
      let* declared := item "snapshot_digest" document in
      let* intact := verify_digest document (VStr (digest_text declared)) SNAPSHOT_DIGEST_EXCLUDED in
      if negb intact then
        raise (SnapshotIntegrityError "the snapshot content does not match the digest it declares")
      else
        let* key := verification_check
          (match verification with Some v => v | None => DEFAULT_VERIFICATION end) d in
        let* snapshot := parse_snapshot document in
        let* _ := map_result (fun c => parse_connector (dump_connector c)) (connectors snapshot) in
        let* index := index_snapshot snapshot in
        Ok (MkLoaded snapshot etag now index key)
  | _ => raise (SnapshotIntegrityError "the snapshot payload is not a JSON object")
  end.

(** ** The client *)

(** An exchange with the control plane: [None] is an [httpx.HTTPError]; the
    JSON body may fail to parse. *)
Record http_response := MkResponse {
  hr_status : Z;
  hr_etag : option string;
  hr_json : M pyval;
}.
Definition http_get : Type := string -> list (string * string) -> option http_response.

Record SnapshotClient := MkClient {
  cl_base_url : string;
  cl_service_token : string;
  cl_verification : SnapshotVerification;
  cl_get : http_get;
}.
Definition SnapshotClient_new (base token : string) (v : option SnapshotVerification) (get : http_get)
  : SnapshotClient :=
  MkClient (rstrip_char "/" base) token
    (match v with Some v => v | None => DEFAULT_VERIFICATION end) get.

Definition fetch (cl : SnapshotClient) (deployment_key : string) (if_none_match : option string) (now : Z)
  : M (option LoadedSnapshot) :=
  let url := cl_base_url cl +:+ "/internal/v1/deployments/" +:+ deployment_key +:+ "/snapshot" in
  let headers := [("x-toollayer-service-token", cl_service_token cl)]
    ++ match if_none_match with
       | Some e => if is_empty e then [] else [("if-none-match", e)]
       | None => []
       end in
  match cl_get cl url headers with
  | None => raise (SnapshotError "the control plane could not be reached")
  | Some response =>
      let status := hr_status response in
      if (status =? 304)%Z then Ok None
      else if (status =? 404)%Z then raise (SnapshotError "the deployment has no snapshot to serve")
      else if (status =? 401)%Z || (status =? 403)%Z then
        raise (tool_layer_error ErrorCode.UNAUTHENTICATED
                 "the runtime is not authorized to read this deployment's snapshot")
      else if (400 <=? status)%Z then
        raise (SnapshotError "the control plane rejected the snapshot request")
      else
        let* document := hr_json response in
        let* loaded := load_snapshot_document document (hr_etag response) (Some (cl_verification cl)) now in
        Ok (Some loaded)
  end.

(** ** The store *)

Record SnapshotStore := MkStore {
  st_client : SnapshotClient;
  st_deployment_key : string;
  st_refresh_seconds : Z;
  st_current : option LoadedSnapshot;
}.
Definition SnapshotStore_new (cl : SnapshotClient) (deployment_key : string) (refresh_seconds : Z)
  : SnapshotStore :=
  MkStore cl deployment_key (Z.max refresh_seconds 1) None.
Definition with_current (st : SnapshotStore) (s : LoadedSnapshot) : SnapshotStore :=
  MkStore (st_client st) (st_deployment_key st) (st_refresh_seconds st) (Some s).

Definition current (st : SnapshotStore) : M LoadedSnapshot :=
  match st_current st with
  | None => raise (SnapshotError "the runtime has no deployment snapshot; it cannot serve any tool")
  | Some s => Ok s
  end.
Definition loaded (st : SnapshotStore) : bool := negb (is_none (st_current st)).

Definition set_snapshot (st : SnapshotStore) (s : LoadedSnapshot) : SnapshotStore := with_current st s.

Definition refresh (st : SnapshotStore) (now : Z) : SnapshotStore * M LoadedSnapshot :=
  let existing := st_current st in
  match fetch (st_client st) (st_deployment_key st)
          (match existing with Some s => ls_etag s | None => None end) now with
  | Err e =>
      if is_tool_layer_error e then
        match existing with None => (st, Err e) | Some s => (st, Ok s) end
      else (st, Err e)
  | Ok None =>
      match existing with
      | None => (st, raise (Raised AssertionError ""))
      | Some s =>
          let refreshed := MkLoaded (ls_snapshot s) (ls_etag s) now (tools_by_name s) (signing_key_id s) in
          (with_current st refreshed, Ok refreshed)
      end
  | Ok (Some fetched) => (with_current st fetched, Ok fetched)
  end.

Definition ensure_fresh (st : SnapshotStore) (now : Z) : SnapshotStore * M LoadedSnapshot :=
  match st_current st with
  | Some s =>
      if (now - ls_loaded_at s <? st_refresh_seconds st * 1000000000)%Z then (st, Ok s)
      else refresh st now
  | None => refresh st now
  end.
End loading.

(** ** The index *)

Definition bound_tools (s : DeploymentSnapshot) : list (string * BoundTool) :=
  concat (map (fun c => map (fun t => (tool_name t, bind_tool c t)) (tools c)) (connectors s)).

Lemma index_tools_spec c ts idx idx' :
  NoDup idx.*1 ->
  fold_result (index_tool c) ts idx = Ok idx' <->
  idx' = idx ++ map (fun t => (tool_name t, bind_tool c t)) ts /\ NoDup idx'.*1.
Proof.
  revert idx. induction ts as [|t ts IH]; intros idx Hn; simpl.
  - rewrite app_nil_r. split; [by intros [= <-] | by intros [-> _]].
  - unfold index_tool at 1. destruct (alookup (tool_name t) idx) as [b|] eqn:E; simpl.
    + split; [done|]. intros [-> Hnd]. apply alookup_elem in E; [|done].
      rewrite fmap_app in Hnd. apply NoDup_app in Hnd as (_ & Hd & _).
      destruct (Hd (tool_name t)); [by apply (list_elem_of_fmap_2 fst) in E | left].
    + rewrite IH.
      * by rewrite <- app_assoc.
      * rewrite fmap_app. apply NoDup_app. split; [done|]. split; [|apply NoDup_singleton].
        intros x Hx ->%list_elem_of_singleton. by apply alookup_None in E.
Qed.

Lemma index_snapshot_spec s idx :
  index_snapshot s = Ok idx <-> idx = bound_tools s /\ NoDup (bound_tools s).*1.
Proof.
  unfold index_snapshot, bound_tools.
  enough (forall cs idx0, NoDup idx0.*1 ->
    fold_result (fun index c => fold_result (index_tool c) (tools c) index) cs idx0 = Ok idx <->
    idx = idx0 ++ concat (map (fun c => map (fun t => (tool_name t, bind_tool c t)) (tools c)) cs) /\
    NoDup idx.*1) as G.
  { rewrite G by constructor. split; [intros [-> ?]; done | intros [-> ?]; done]. }
  induction cs as [|c cs IH]; intros idx0 Hn; simpl.
  - rewrite app_nil_r. split; [by intros [= <-] | by intros [-> _]].
  - rewrite bind_Ok. split.
    + intros (idx1 & [-> Hn1]%index_tools_spec & [-> Hi]%IH); [|done|done]. by rewrite <- app_assoc in *.
    + intros [Hidx Hi]. rewrite app_assoc in Hidx.
      assert (NoDup (idx0 ++ map (fun t => (tool_name t, bind_tool c t)) (tools c)).*1) as Hn1.
      { rewrite Hidx, fmap_app in Hi. by apply NoDup_app in Hi as [? _]. }
      eexists. split; [by apply index_tools_spec|]. by apply IH.
Qed.

Lemma index_tools_fails c ts idx e :
  fold_result (index_tool c) ts idx = Err e -> exn_code e = Some ErrorCode.SNAPSHOT_INTEGRITY_FAILED.
Proof.
  revert idx. induction ts as [|t ts IH]; intros idx; simpl; [done|]. unfold index_tool at 1.
  destruct (alookup _ _); simpl; [by intros [= <-] | apply IH].
Qed.

(** What [resolve] finds in a loaded snapshot. *)
Lemma resolve_bound s name b :
  NoDup (bound_tools (ls_snapshot s)).*1 -> tools_by_name s = bound_tools (ls_snapshot s) ->
  resolve s name = Ok b <->
  exists c t, c ∈ connectors (ls_snapshot s) /\ t ∈ tools c /\ tool_name t = name /\ b = bind_tool c t.
Proof.
  intros Hn Hi. unfold resolve. rewrite Hi.
  transitivity (alookup name (bound_tools (ls_snapshot s)) = Some b).
  { destruct (alookup _ _); [|done]. split; congruence. }
  rewrite alookup_elem by done. unfold bound_tools. rewrite list_elem_of_In, in_concat. split.
  - intros (l & (c & <- & Hc)%in_map_iff & (t & [= <- <-] & Ht)%in_map_iff).
    exists c, t. apply list_elem_of_In in Hc, Ht. done.
  - intros (c & t & Hc%list_elem_of_In & Ht%list_elem_of_In & <- & ->).
    eexists. split; [by apply in_map_iff; exists c|]. apply in_map_iff. by exists t.
Qed.

Section loading_lemmas.
Context `{Platform, Ed25519, JsonSchema, Pydantic}.

Lemma verified_key_Ok v d k :
  verified_key v d = Ok k <-> exists key, k = Some (vk_key_id key) /\ signed_by d (trusted_keys v) key.
Proof.
  unfold verified_key, except. split.
  - destruct (verify_document d (trusted_keys v)) as [k'|e] eqn:E; simpl.
    + intros [= <-]. apply verify_document_inv in E as (key & <- & Hs). eauto.
    + by destruct (is_class _ e).
  - intros (key & -> & Hs). by rewrite (verify_document_signed _ _ _ Hs).
Qed.

Definition signed_when_needed (v : SnapshotVerification) (d : dict) (k : option string) : Prop :=
  (mode v = Disabled /\ get "signature" d = VNone /\ k = None) \/
  (exists key, k = Some (vk_key_id key) /\ signed_by d (trusted_keys v) key).

Lemma verification_check_Ok v d k :
  verification_check v d = Ok k <-> signed_when_needed v d k.
Proof.
  unfold verification_check, enforced, signed_when_needed. destruct (mode v); cbn [negb].
  - rewrite verified_key_Ok. naive_solver.
  - destruct (get "signature" d) eqn:E; cbn [is_vnone negb]; try (rewrite verified_key_Ok; naive_solver).
    split; [intros [= <-]; by left|]. intros [(_ & _ & ->)|(key & _ & Hs)]; [done|].
    destruct Hs as (block & ? & ? & ? & Hb & _). unfold SIGNATURE_EXCLUDED_FIELD in Hb. by rewrite E in Hb.
Qed.

(** Everything a loaded snapshot has been through. *)
Record load_checked (document : pyval) (v : SnapshotVerification) (s : LoadedSnapshot) (d : dict) : Prop := {
  lc_object : document = VDict d;
  lc_version : exists cv, require_supported (get "contract_version" d) = Ok cv;
  lc_contract : validate_deployment_snapshot document = Ok tt;
  lc_digest : exists declared, dget (KStr "snapshot_digest") d = Some declared /\
    verify_digest document (VStr (digest_text declared)) SNAPSHOT_DIGEST_EXCLUDED = Ok true;
  lc_signature : signed_when_needed v d (signing_key_id s);
  lc_model : parse_snapshot document = Ok (ls_snapshot s);
  lc_index : tools_by_name s = bound_tools (ls_snapshot s) /\ NoDup (bound_tools (ls_snapshot s)).*1;
}.

Lemma load_snapshot_checked document etag v now s :
  load_snapshot_document document etag (Some v) now = Ok s ->
  exists d, load_checked document v s d /\ ls_etag s = etag /\ ls_loaded_at s = now.
Proof.
  unfold load_snapshot_document. destruct document as [| | | | | | |d|]; try done.
  intros (cv & Hcv & Hr)%bind_Ok. apply bind_Ok in Hr as ([] & Hval & Hr).
  apply bind_Ok in Hr as (declared & Hdec & Hr). apply bind_Ok in Hr as (intact & Hint & Hr).
  destruct intact; cbn [negb] in Hr; [|done].
  apply bind_Ok in Hr as (key & Hkey & Hr). apply bind_Ok in Hr as (snapshot & Hsnap & Hr).
  apply bind_Ok in Hr as (cs & _ & Hr). apply bind_Ok in Hr as (index & [-> Hn]%index_snapshot_spec & [= <-]).
  exists d. split; [|done]. split; try done.
  - unfold except in Hcv. destruct (require_supported _) as [cv'|e]; [by eexists|].
    by destruct (is_class _ e).
  - apply item_Ok in Hdec as (d' & [= <-] & Hdec). eauto.
  - by apply verification_check_Ok.
Qed.

Lemma parsed_connectors_reload v s cs :
  parse_snapshot v = Ok s -> cs = connectors s ->
  map_result (fun c => parse_connector (dump_connector c)) cs = Ok cs.
Proof.
  intros (_ & Hc & _)%parse_snapshot_valid ->. apply map_result_Ok.
  induction Hc; constructor; [by apply parse_dump_connector | done].
Qed.

Lemma load_checked_load document v s d :
  load_checked document v s d ->
  load_snapshot_document document (ls_etag s) (Some v) (ls_loaded_at s) = Ok s.
Proof.
  intros [-> [cv Hcv] Hval (declared & Hd & Hint) Hsig Hp [Hi Hn]]. unfold load_snapshot_document.
  rewrite Hcv. cbn [except bind]. rewrite Hval. cbn [bind].
  replace (item "snapshot_digest" (VDict d)) with (Ok (E:=exn) declared)
    by (symmetry; apply item_Ok; eauto). cbn [bind].
  rewrite Hint. cbn [bind negb]. apply verification_check_Ok in Hsig as ->. cbn [bind].
  rewrite Hp. cbn [bind]. rewrite (parsed_connectors_reload _ _ _ Hp eq_refl). cbn [bind].
  replace (index_snapshot (ls_snapshot s)) with (Ok (E:=exn) (tools_by_name s))
    by (symmetry; by apply index_snapshot_spec). by destruct s.
Qed.

Lemma fetch_loaded cl key etag now s :
  fetch cl key etag now = Ok (Some s) ->
  exists document, load_snapshot_document document (ls_etag s) (Some (cl_verification cl)) now = Ok s.
Proof.
  unfold fetch. destruct (cl_get cl _ _) as [r|]; [|done]. cbv zeta.
  destruct (_ =? _)%Z; [done|]. destruct (_ =? _)%Z; [done|]. destruct (_ || _); [done|].
  destruct (_ <=? _)%Z; [done|]. intros (doc & Hd & (s' & Hs & [= <-])%bind_Ok)%bind_Ok.
  exists doc. destruct (load_snapshot_checked _ _ _ _ _ Hs) as (d & _ & -> & _). done.
Qed.

(** A snapshot the store may hold: loaded under its verification, up to the
    time stamp a 304 renews. *)
Definition verified_by (v : SnapshotVerification) (s : LoadedSnapshot) : Prop :=
  exists document d, load_checked document v s d.

Lemma verified_by_time v s now :
  verified_by v s -> verified_by v (MkLoaded (ls_snapshot s) (ls_etag s) now (tools_by_name s) (signing_key_id s)).
Proof. intros (doc & d & Hc). exists doc, d. by destruct Hc. Qed.

(** The steps of a store: refreshes against a network that may answer anything
    each time, requests asking for a fresh snapshot, and installing a snapshot
    that was loaded under the same verification. *)
Definition on_network (st : SnapshotStore) (get : http_get) : SnapshotStore :=
  MkStore (MkClient (cl_base_url (st_client st)) (cl_service_token (st_client st))
             (cl_verification (st_client st)) get)
    (st_deployment_key st) (st_refresh_seconds st) (st_current st).
Inductive store_step : SnapshotStore -> SnapshotStore -> Prop :=
  | step_refresh st get now : store_step st (refresh (on_network st get) now).1
  | step_ensure st get now : store_step st (ensure_fresh (on_network st get) now).1
  | step_set st s : verified_by (cl_verification (st_client st)) s -> store_step st (set_snapshot st s).
Definition store_reachable (cl : SnapshotClient) (key : string) (seconds : Z) : SnapshotStore -> Prop :=
  rtc store_step (SnapshotStore_new cl key seconds).

(** What every snapshot a store holds or may fetch satisfies. *)
Definition time_stable (good : LoadedSnapshot -> Prop) : Prop :=
  forall s now, good s -> good (MkLoaded (ls_snapshot s) (ls_etag s) now (tools_by_name s) (signing_key_id s)).
Record store_sat (good : LoadedSnapshot -> Prop) (st : SnapshotStore) : Prop := {
  ss_fetched etag now s : fetch (st_client st) (st_deployment_key st) etag now = Ok (Some s) -> good s;
  ss_current s : st_current st = Some s -> good s;
}.
(** A step of a store: its client and its deployment stay, and what it holds is
    only replaced. *)
Definition store_moves (st st' : SnapshotStore) : Prop :=
  st_client st' = st_client st /\ st_deployment_key st' = st_deployment_key st /\ (loaded st = true -> loaded st' = true).
Definition store_result (good : LoadedSnapshot -> Prop) (st : SnapshotStore) (r : SnapshotStore * M LoadedSnapshot) : Prop :=
  store_sat good r.1 /\ store_moves st r.1 /\ (forall s, r.2 = Ok s -> good s /\ st_current r.1 = Some s) /\
  (forall e, r.2 = Err e -> r.1 = st).

Lemma store_moves_refl st : store_moves st st.
Proof. done. Qed.
Lemma store_holds good st s : store_sat good st -> good s -> store_sat good (with_current st s).
Proof. intros [Hf Hc] Hs. split; [exact Hf|]. by intros ? [= <-]. Qed.
Lemma refresh_keeps good st now : time_stable good -> store_sat good st -> store_result good st (refresh st now).
Proof.
  intros Ht Hst. pose proof Hst as [Hf Hs]. unfold refresh, store_result, store_moves, loaded.
  destruct (fetch _ _ _ now) as [[s|]|e] eqn:E.
  - apply Hf in E. cbn [fst snd]. split_and!; [by apply store_holds|done..|by intros ? [= <-]|done].
  - destruct (st_current st) as [s|] eqn:Hc; cbn [fst snd].
    + pose proof (Ht s now (Hs s eq_refl)).
      split_and!; [by apply store_holds|done..|by intros ? [= <-]|done].
    + rewrite Hc. by split_and!.
  - destruct (is_tool_layer_error e), (st_current st) as [s|] eqn:Hc; cbn [fst snd];
      rewrite ?Hc; split_and!; try done. intros s0 [= <-]. auto.
Qed.
Lemma ensure_fresh_keeps good st now : time_stable good -> store_sat good st -> store_result good st (ensure_fresh st now).
Proof.
  intros Ht Hst. unfold ensure_fresh. destruct (st_current st) as [s|] eqn:Hc; [|by apply refresh_keeps].
  destruct (_ <? _)%Z; [|by apply refresh_keeps]. split_and!; [done|apply store_moves_refl| |done].
  intros s' [= <-]. split; [by apply (ss_current _ _ Hst)|done].
Qed.

(** In particular: every snapshot was verified. *)
Definition store_ok (v : SnapshotVerification) (st : SnapshotStore) : Prop :=
  cl_verification (st_client st) = v /\ forall s, st_current st = Some s -> verified_by v s.

Lemma store_ok_sat v st : store_ok v st -> store_sat (verified_by v) st.
Proof.
  intros [Hv Hs]. split; [|exact Hs]. intros etag now s (doc & Hl)%fetch_loaded.
  destruct (load_snapshot_checked _ _ _ _ _ Hl) as (d & Hc & _). rewrite Hv in Hc. by exists doc, d.
Qed.
Lemma store_sat_ok v st st' : store_ok v st -> store_moves st st' -> store_sat (verified_by v) st' -> store_ok v st'.
Proof. intros [Hv _] (Hcl & _) [_ Hs]. split; [by rewrite Hcl|exact Hs]. Qed.
Lemma store_ok_result v st r :
  store_ok v st -> store_result (verified_by v) st r ->
  store_ok v r.1 /\ (forall s, r.2 = Ok s -> verified_by v s /\ st_current r.1 = Some s) /\
  (loaded st = true -> loaded r.1 = true) /\ (forall e, r.2 = Err e -> r.1 = st).
Proof.
  intros Hok (Hsat & Hm & Hr & He). split_and!; [by eapply store_sat_ok|exact Hr|apply Hm|exact He].
Qed.
Lemma refresh_ok v st now :
  store_ok v st ->
  store_ok v (refresh st now).1 /\ (forall s, (refresh st now).2 = Ok s ->
    verified_by v s /\ st_current (refresh st now).1 = Some s) /\
  (loaded st = true -> loaded (refresh st now).1 = true) /\
  (forall e, (refresh st now).2 = Err e -> (refresh st now).1 = st).
Proof.
  intros Hok. apply store_ok_result; [done|]. apply refresh_keeps; [intros ??; apply verified_by_time|by apply store_ok_sat].
Qed.
Lemma ensure_fresh_ok v st now :
  store_ok v st ->
  store_ok v (ensure_fresh st now).1 /\ (forall s, (ensure_fresh st now).2 = Ok s ->
    verified_by v s /\ st_current (ensure_fresh st now).1 = Some s) /\
  (loaded st = true -> loaded (ensure_fresh st now).1 = true) /\
  (forall e, (ensure_fresh st now).2 = Err e -> (ensure_fresh st now).1 = st).
Proof.
  intros Hok. apply store_ok_result; [done|].
  apply ensure_fresh_keeps; [intros ??; apply verified_by_time|by apply store_ok_sat].
Qed.

Lemma on_network_ok v st get : store_ok v st -> store_ok v (on_network st get).
Proof. by intros [??]. Qed.

Lemma store_step_ok v st st' :
  store_ok v st -> store_step st st' -> store_ok v st' /\ (loaded st = true -> loaded st' = true).
Proof.
  intros Hst Hstep. destruct Hstep as [st get now|st get now|st s Hs].
  - destruct (refresh_ok v _ now (on_network_ok v st get Hst)) as (H1' & _ & H3' & _). split; [done|].
    intros Hl. apply H3'. exact Hl.
  - destruct (ensure_fresh_ok v _ now (on_network_ok v st get Hst)) as (H1' & _ & H3' & _). split; [done|].
    intros Hl. apply H3'. exact Hl.
  - destruct Hst as [Hv Hc]. rewrite Hv in Hs. split; [|done]. split; [done|]. by intros ? [= <-].
Qed.

Lemma store_reachable_ok cl key seconds st :
  store_reachable cl key seconds st -> store_ok (cl_verification cl) st.
Proof.
  intros Hr. unfold store_reachable in Hr.
  assert (store_ok (cl_verification cl) (SnapshotStore_new cl key seconds)) as H0' by (split; done).
  induction Hr as [st|st st1 st2 Hstep _ IH]; [done|]. apply IH. by eapply store_step_ok.
Qed.
End loading_lemmas.
(** ** Properties *)

(** C9. A snapshot document is loaded exactly when it declares a supported
    version, meets the contract, carries the digest of its own content, is
    signed by a trusted key (or is unsigned while verification is disabled), its
    models validate and its tool names are distinct over all connectors; and a
    loaded snapshot resolves a name exactly to the tool of that name, bound to
    the connector that declares it. *)
Theorem load_snapshot_exact `{Platform, Ed25519, JsonSchema, Pydantic} :
  forall document etag v now s,
    (load_snapshot_document document etag (Some v) now = Ok s <->
     (exists d, load_checked document v s d) /\ ls_etag s = etag /\ ls_loaded_at s = now) /\
    (load_snapshot_document document etag (Some v) now = Ok s -> forall name b,
       resolve s name = Ok b <->
       exists c t, c ∈ connectors (ls_snapshot s) /\ t ∈ tools c /\ tool_name t = name /\ b = bind_tool c t).
Proof.
  intros document etag v now s. split.
  - split.
    + intros (d & ? & ?)%load_snapshot_checked. eauto.
    + intros ((d & Hc) & <- & <-). by eapply load_checked_load.
  - intros (d & Hc & _)%load_snapshot_checked name b. destruct Hc as [_ _ _ _ _ _ [Hi Hn]].
    by apply resolve_bound.
Qed.


(** A refresh changes nothing it cannot authenticate: when the fetch fails
    with any error of the tool layer and a snapshot is held, that snapshot is
    kept and returned; an error it raises leaves the store as it was; a 304
    renews only the time stamp; and a returned snapshot is the one then held. *)
Theorem refresh_keeps_current `{Platform, Ed25519, JsonSchema, Pydantic} :
  forall st now,
    (forall s e, st_current st = Some s ->
       fetch (st_client st) (st_deployment_key st) (ls_etag s) now = Err e -> is_tool_layer_error e = true ->
       refresh st now = (st, Ok s)) /\
    (forall e, (refresh st now).2 = Err e -> (refresh st now).1 = st) /\
    (forall s, st_current st = Some s ->
       fetch (st_client st) (st_deployment_key st) (ls_etag s) now = Ok None ->
       exists s', refresh st now = (with_current st s', Ok s') /\
         ls_snapshot s' = ls_snapshot s /\ tools_by_name s' = tools_by_name s /\
         signing_key_id s' = signing_key_id s /\ ls_loaded_at s' = now) /\
    (forall s, (refresh st now).2 = Ok s -> current (refresh st now).1 = Ok s).
Proof.
  intros st now. unfold refresh, current. split_and!.
  - intros s e -> -> He. by rewrite He.
  - destruct (fetch _ _ _ _) as [[s|]|e]; cbn [fst snd]; [done| |].
    + by destruct (st_current st).
    + by destruct (is_tool_layer_error e), (st_current st).
  - intros s -> ->. by eexists.
  - destruct (fetch _ _ _ _) as [[s|]|e]; cbn [fst snd]; [by intros ? [= <-]| |].
    + destruct (st_current st); [by intros ? [= <-] | done].
    + destruct (is_tool_layer_error e), (st_current st) as [s|] eqn:E; try done.
      intros s' [= <-]. cbn [fst]. by rewrite E.
Qed.

(** ** A concrete store for the witnesses *)

Definition zero_platform : Platform := {| float_repr := demo_float_repr; sha256_hex := fun _ => zeros64 |}.
Definition demo_signed_document : pyval :=
  match dump_snapshot demo_snapshot with
  | VDict d =>
      match @sign_document zero_platform _ d demo_signing_key with
      | Ok block => VDict (dset (KStr "signature") block d)
      | Err _ => VNone
      end
  | _ => VNone
  end.
Definition demo_verification : SnapshotVerification := MkVerification Required [public_key demo_signing_key].
Definition demo_get : http_get := fun _ _ => Some (MkResponse 200 (Some "tag") (Ok demo_signed_document)).
Definition demo_client : SnapshotClient :=
  SnapshotClient_new "http://control-plane/" "service" (Some demo_verification) demo_get.
Definition demo_load (now : Z) : M LoadedSnapshot :=
  @load_snapshot_document zero_platform _ _ _ demo_signed_document (Some "tag") (Some demo_verification) now.
Definition demo_store (now : Z) : SnapshotStore :=
  (@refresh zero_platform _ _ _ (SnapshotStore_new demo_client "default" 60) now).1.

Lemma load_snapshot_exact_witness :
  exists s, demo_load 5 = Ok s /\ signing_key_id s = Some "demo-key" /\
    exists c t, c ∈ connectors (ls_snapshot s) /\ t ∈ tools c /\ tool_name t = "add_note".
Proof.
  destruct (demo_load 5) as [s|e] eqn:E; [|exfalso; revert E; vm_compute; discriminate].
  assert (resolve s "add_note" = Ok (bind_tool demo_connector demo_tool) /\ signing_key_id s = Some "demo-key")
    as [Hr Hk] by (revert E; vm_compute; intros [= <-]; split; reflexivity).
  exists s. split; [reflexivity|]. split; [exact Hk|].
  destruct (proj1 (proj2 (@load_snapshot_exact zero_platform _ _ _ demo_signed_document (Some "tag")
      demo_verification 5 s) E "add_note" _) Hr) as (c & t & Hc & Ht & Hn & _).
  exists c, t. split; [exact Hc|]. split; [exact Ht|exact Hn].
Defined.


Lemma refresh_keeps_current_witness :
  exists s, st_current (demo_store 7) = Some s /\
    @refresh zero_platform _ _ _ (on_network (demo_store 7) (fun _ _ => None)) 9 =
      (on_network (demo_store 7) (fun _ _ => None), Ok s).
Proof.
  destruct (st_current (demo_store 7)) as [s|] eqn:E; [|exfalso; revert E; vm_compute; discriminate].
  exists s. split; [reflexivity|].
  apply (proj1 (@refresh_keeps_current zero_platform _ _ _ (on_network (demo_store 7) (fun _ _ => None)) 9) s
    (SnapshotError "the control plane could not be reached")); [exact E | reflexivity | reflexivity].
Defined.

(** A response whose body is no JSON raises a [ValueError], which is no tool
    layer error: the refresh fails although a snapshot is held. *)
Lemma malformed_body_escapes :
  exists s, st_current (demo_store 7) = Some s /\
    (@refresh zero_platform _ _ _ (on_network (demo_store 7)
      (fun _ _ => Some (MkResponse 200 None (value_error "Expecting value")))) 9).2 =
    value_error "Expecting value".
Proof. eexists. split; vm_compute; reflexivity. Qed.

(** While verification is disabled, a signed snapshot whose key is not in the
    ring is refused, although its unsigned copy is loaded. *)
Definition demo_disabled : SnapshotVerification := MkVerification Disabled [].
Lemma disabled_refuses_unknown_key :
  (exists m, @load_snapshot_document zero_platform _ _ _ demo_signed_document None (Some demo_disabled) 0 =
     Err (SnapshotSignatureError m)) /\
  (exists s, @load_snapshot_document zero_platform _ _ _ (dump_snapshot demo_snapshot) None (Some demo_disabled) 0 = Ok s).
Proof. split; eexists; vm_compute; reflexivity. Qed.
