(* ===== verification/Provider.v ===== *)
(** * The provider interface

    The seam of [toollayer_mock_llm/provider.py]: what the runtime asks of a
    language model.  Whatever implements it may answer anything, or raise; the
    theorems about the runtime hold for every provider. *)

From S2P Require Export Models.
From Stdlib Require Import Floats.SpecFloat.

Record ToolSelection := MkSelection {
  sel_tool_name : string;
  sel_score : spec_float;
  sel_rationale : string;
  sel_runner_up : option string;
}.

Record ArgumentProposal := MkProposal {
  proposed : dict;
  missing_required : list string;
}.
Definition complete (p : ArgumentProposal) : bool :=
  match missing_required p with [] => true | _ => false end.

Record LLMProvider := MkProvider {
  provider_name : string;
  select_tool : string -> list ToolDefinition -> M (option ToolSelection);
  generate_arguments : string -> ToolDefinition -> M ArgumentProposal;
  format_response : string -> ToolDefinition -> pyval -> M string;
}.
