(* ===== verification/Orchestrator.v ===== *)
(** * The orchestrator

    [runtime_service/orchestrator.py]: discovery, the execution of one named
    tool, and the whole turn from a request in natural language.  A turn
    returns the store after it, the requests it sent, in order, and its outcome
    or the exception it raised.  The request id that [uuid] makes up, the clock
    and the elapsed time are arguments; the provider and the executor are the
    interfaces of the library. *)

From S2P Require Export Authorization Executor Snapshot Provider.

Definition NoToolSelected (m : string) : exn := tool_layer_error ErrorCode.NO_TOOL_SELECTED m.
Definition ConfirmationRequired (m : string) : exn := tool_layer_error ErrorCode.CONFIRMATION_REQUIRED m.
Definition AuthorizationError_role : exn :=
  tool_layer_error ErrorCode.ROLE_NOT_PERMITTED "this caller is not permitted to use the requested tool".

(** [ToolTrace.with_step]. *)
Definition trace := list dict.
Definition with_step (t : trace) (step : string) (detail : dict) : trace :=
  t ++ [(KStr "step", VStr step) :: detail].

Record OrchestrationOutcome := MkOutcome {
  oc_request_id : string;
  oc_snapshot_revision : Z;
  oc_snapshot_id : string;
  oc_selected_tool : string;
  oc_connector_key : string;
  oc_connector_version : string;
  oc_arguments : dict;
  oc_result : option ToolExecutionResult;
  oc_message : string;
  oc_trace : trace;
}.

Record Orchestrator := MkOrchestrator {
  or_provider : LLMProvider;
  or_executor : ToolExecutor;
}.

(** [request_id or uuid.uuid4().hex[:16]]. *)
Definition request_id_or (request_id : option string) (fresh : string) : string :=
  match request_id with Some i => if is_empty i then fresh else i | None => fresh end.

(** ** Discovery *)

Definition decide_tool (bound : BoundTool) (caller : option CallerIdentity) : M AuthorizationDecision :=
  authorize_stored_policy (dump_policy (policy (bt_tool bound))) caller.
Definition discover_in (snapshot : LoadedSnapshot) (caller : option CallerIdentity) : M (list BoundTool) :=
  fold_result (fun visible bound =>
    let* decision := decide_tool bound caller in
    Ok (if allowed decision then visible ++ [bound] else visible)) (ls_tools snapshot) [].

Definition authorize (bound : BoundTool) (caller : option CallerIdentity) : M unit :=
  let* decision := decide_tool bound caller in
  if denied decision then raise AuthorizationError_role else Ok tt.
Definition confirm (bound : BoundTool) (confirmed : bool) : M unit :=
  if requires_confirmation (policy (bt_tool bound)) && negb confirmed then
    raise (ConfirmationRequired "this tool requires explicit confirmation before it can be executed")
  else Ok tt.

(** [sorted(d)] over the string keys of a JSON object. *)
Definition sorted_names (d : dict) : pyval := strs (sorted_strs (map key_text (dkeys d))).

Section orchestration.
Context `{Platform, Ed25519, JsonSchema, Pydantic, Decoding}.

Definition discover (store : SnapshotStore) (caller : option CallerIdentity) (now : Z)
  : SnapshotStore * M (list BoundTool) :=
  let '(store, fresh) := ensure_fresh store now in
  (store, let* snapshot := fresh in discover_in snapshot caller).

(** The last steps of both entry points: execute, then describe the result. *)
Definition run_tool (o : Orchestrator) (snapshot : LoadedSnapshot) (bound : BoundTool) (validated : dict)
    (request_id utterance : string) (elapsed_ms : Z) (tr : trace) (tail : trace)
  : list PreparedRequest * M OrchestrationOutcome :=
  let '(sent, r) := execute (or_executor o) (bt_tool bound) (VDict validated) (bt_base_url bound)
    (bt_connector_key bound) (bt_connector_version bound) (Some request_id) elapsed_ms in
  (sent,
   let* result := r in
   let tr := with_step tr "executed"
     {{ "http_status" ~> VInt (r_http_status result); "duration_ms" ~> VInt (r_duration_ms result) }} in
   let* message := format_response (or_provider o) utterance (bt_tool bound) (r_content result) in
   Ok (MkOutcome request_id (ls_revision snapshot) (snapshot_id (ls_snapshot snapshot))
         (bt_tool_name bound) (bt_connector_key bound) (bt_connector_version bound)
         validated (Some result) message (tr ++ tail))).

(** ** A named tool *)

Definition named_checks (snapshot : LoadedSnapshot) (tool_name : string) (arguments : pyval)
    (caller : option CallerIdentity) (confirmed : bool) : M (BoundTool * dict * trace) :=
  let tr := with_step [] "snapshot_loaded"
    {{ "revision" ~> VInt (ls_revision snapshot);
       "snapshot_id" ~> VStr (snapshot_id (ls_snapshot snapshot)) }} in
  let* bound := resolve snapshot tool_name in
  let tr := with_step tr "tool_resolved"
    {{ "tool" ~> VStr (bt_tool_name bound); "connector" ~> VStr (bt_connector_key bound);
       "version" ~> VStr (bt_connector_version bound) }} in
  let* validated := validate_arguments (bt_tool bound) arguments in
  let tr := with_step tr "arguments_validated" {{ "argument_names" ~> sorted_names validated }} in
  let* _ := authorize bound caller in
  let tr := with_step tr "policy_evaluated"
    {{ "effect" ~> VStr (text_of effect_classes (effect_class (policy (bt_tool bound)))) }} in
  let* _ := confirm bound confirmed in
  Ok (bound, validated, tr).

Definition execute_tool (o : Orchestrator) (store : SnapshotStore) (tool_name : string) (arguments : pyval)
    (caller : option CallerIdentity) (request_id : option string) (confirmed : bool)
    (fresh_id : string) (now elapsed_ms : Z)
  : SnapshotStore * (list PreparedRequest * M OrchestrationOutcome) :=
  let request_id := request_id_or request_id fresh_id in
  let '(store, fresh) := ensure_fresh store now in
  (store,
   match fresh with
   | Err e => ([], Err e)
   | Ok snapshot =>
       match named_checks snapshot tool_name arguments caller confirmed with
       | Err e => ([], Err e)
       | Ok (bound, validated, tr) => run_tool o snapshot bound validated request_id tool_name elapsed_ms tr []
       end
   end).

(** ** The whole turn *)

Definition MAX_UTTERANCE : nat := 4000.
Definition request_text (utterance : string) : M string :=
  let text := strip utterance in
  if is_empty text then raise (ValidationError "the request text may not be empty" "/utterance")
  else if (MAX_UTTERANCE <? slen text)%nat then
    raise (ValidationError "the request text is too long" "/utterance")
  else Ok text.

Definition opt_text (o : option string) : pyval := match o with Some s => VStr s | None => VNone end.

Definition turn_checks (o : Orchestrator) (snapshot : LoadedSnapshot) (text : string)
    (caller : option CallerIdentity) (confirmed : bool) : M (BoundTool * dict * trace) :=
  let tr := with_step [] "snapshot_loaded"
    {{ "revision" ~> VInt (ls_revision snapshot);
       "snapshot_id" ~> VStr (snapshot_id (ls_snapshot snapshot));
       "digest" ~> VStr (snapshot_digest (ls_snapshot snapshot)) }} in
  let* available := discover_in snapshot caller in
  let tr := with_step tr "tools_discovered"
    {{ "visible" ~> strs (map bt_tool_name available);
       "hidden" ~> VInt (Z.of_nat (length (ls_tools snapshot)) - Z.of_nat (length available)) }} in
  match available with
  | [] => raise (NoToolSelected "no tool in this deployment is available to this caller")
  | _ =>
      let* selection := select_tool (or_provider o) text (map bt_tool available) in
      match selection with
      | None =>
          raise (NoToolSelected "the request did not match any available tool closely enough to act on")
      | Some selection =>
          let tr := with_step tr "tool_selected"
            {{ "tool" ~> VStr (sel_tool_name selection); "score" ~> VFloat (sel_score selection);
               "rationale" ~> VStr (sel_rationale selection);
               "runner_up" ~> opt_text (sel_runner_up selection) }} in
          let* bound := resolve snapshot (sel_tool_name selection) in
          let* proposal := generate_arguments (or_provider o) text (bt_tool bound) in
          if negb (complete proposal) then
            raise (tool_layer_error_at ErrorCode.ARGUMENT_VALIDATION_FAILED
                     ("the request does not supply every required argument: "
                      +:+ join ", " (missing_required proposal)) "/utterance")
          else
            let tr := with_step tr "arguments_generated"
              {{ "argument_names" ~> sorted_names (proposed proposal) }} in
            let* validated := validate_arguments (bt_tool bound) (VDict (proposed proposal)) in
            let tr := with_step tr "arguments_validated" {{ "arguments" ~> VDict validated }} in
            let* _ := authorize bound caller in
            let tr := with_step tr "policy_evaluated"
              {{ "effect" ~> VStr (text_of effect_classes (effect_class (policy (bt_tool bound))));
                 "requires_confirmation" ~> VBool (requires_confirmation (policy (bt_tool bound))) }} in
            let* _ := confirm bound confirmed in
            Ok (bound, validated, tr)
      end
  end.

Definition dry_run_outcome (o : Orchestrator) (snapshot : LoadedSnapshot) (bound : BoundTool)
    (validated : dict) (request_id : string) (tr : trace) : M OrchestrationOutcome :=
  let* prepared := prepare (or_executor o) (bt_tool bound) (VDict validated) (bt_base_url bound) in
  Ok (MkOutcome request_id (ls_revision snapshot) (snapshot_id (ls_snapshot snapshot))
        (bt_tool_name bound) (bt_connector_key bound) (bt_connector_version bound) validated None
        (rq_method prepared +:+ " " +:+ rq_path prepared +:+ " (not executed)")
        (with_step tr "dry_run"
           {{ "method" ~> VStr (rq_method prepared); "path" ~> VStr (rq_path prepared) }})).

Definition handle (o : Orchestrator) (store : SnapshotStore) (utterance : string)
    (caller : option CallerIdentity) (request_id : option string) (confirmed dry_run : bool)
    (fresh_id : string) (now elapsed_ms : Z)
  : SnapshotStore * (list PreparedRequest * M OrchestrationOutcome) :=
  let request_id := request_id_or request_id fresh_id in
  match request_text utterance with
  | Err e => (store, ([], Err e))
  | Ok text =>
      let '(store, fresh) := ensure_fresh store now in
      (store,
       match fresh with
       | Err e => ([], Err e)
       | Ok snapshot =>
           match turn_checks o snapshot text caller confirmed with
           | Err e => ([], Err e)
           | Ok (bound, validated, tr) =>
               if dry_run then ([], dry_run_outcome o snapshot bound validated request_id tr)
               else run_tool o snapshot bound validated request_id text elapsed_ms tr
                      (with_step [] "response_formatted" {{ "untrusted_content" ~> VBool true }})
           end
       end)
  end.
End orchestration.

(** ** Lemmas *)

(** Who a tool's policy lets in. *)
Definition may_use (p : ToolPolicy) (caller : option CallerIdentity) : Prop :=
  access_mode (access p) = Public \/
  exists c r, caller = Some c /\ r ∈ roles c /\ r ∈ allowed_roles (access p).

Definition decided (b : BoundTool) (caller : option CallerIdentity) : Prop :=
  exists d, decide_tool b caller = Ok d /\ allowed d = true.

Lemma decide_tool_total b caller : exists d, decide_tool b caller = Ok d.
Proof. unfold decide_tool. rewrite authorize_stored_total. eauto. Qed.

#[export] Instance VStr_inj : Inj (=) (=) VStr.
Proof. by intros ?? [= ->]. Qed.

Lemma read_roles_strs_inv ss rs : read_roles (strs ss) = Ok rs -> rs = list_to_set ss.
Proof.
  unfold read_roles, strs. destruct (_ <? _)%nat; [done|].
  intros (ss' & E & _ & ->)%collect_roles_Ok.
  apply (inj (fmap VStr)) in E as ->. set_solver.
Qed.

Lemma decided_may_use b caller : decided b caller -> may_use (policy (bt_tool b)) caller.
Proof.
  unfold decided, decide_tool, may_use. intros (d & Hd & Ha). rewrite authorize_stored_total in Hd.
  match type of Hd with Ok ?x = _ => assert (d = x) as -> by congruence end. apply authorize_allowed in Ha. destruct (policy (bt_tool b)) as [e c [m rs]].
  cbn [access access_mode allowed_roles]. destruct Ha as [(dd & [= <-] & Hp)|(X & cl & r & Hr & Hcl & H1 & H2)].
  - left. destruct Hp as [Hp|(a & [= <-] & Hm & _)]; [done|]. by destruct m.
  - right. exists cl, r. split_and!; [done..|]. destruct Hr as (dd & a & [= <-] & [= <-] & _ & Hr & _).
    apply read_roles_strs_inv in Hr as ->. by apply elem_of_list_to_set in H2.
Qed.

Lemma authorize_Ok b caller : authorize b caller = Ok tt <-> decided b caller.
Proof.
  unfold authorize, decided, denied. destruct (decide_tool_total b caller) as [d ->]. cbn [bind].
  destruct (allowed d) eqn:E; cbn [negb]; split; try done.
  - by exists d.
  - intros (d' & [= <-] & Hd). congruence.
Qed.
Lemma confirm_Ok b confirmed :
  confirm b confirmed = Ok tt <-> (requires_confirmation (policy (bt_tool b)) = true -> confirmed = true).
Proof. unfold confirm. destruct (requires_confirmation _), confirmed; simpl; intuition congruence. Qed.

Lemma discover_go l acc caller :
  exists vis, fold_result (fun visible bound =>
    let* decision := decide_tool bound caller in
    Ok (if allowed decision then visible ++ [bound] else visible)) l acc = Ok (acc ++ vis) /\
  sublist vis l /\ forall b, b ∈ vis <-> b ∈ l /\ decided b caller.
Proof.
  revert acc. induction l as [|b l IH]; intros acc; simpl.
  { exists []. rewrite app_nil_r. split_and!; [done..|]. intros b. rewrite elem_of_nil. naive_solver. }
  destruct (decide_tool_total b caller) as [d Hd]. rewrite Hd. cbn [bind].
  destruct (allowed d) eqn:Ha.
  - destruct (IH (acc ++ [b])) as (vis & Hv & Hs & Hi). exists (b :: vis).
    rewrite Hv, <- app_assoc. split_and!; [done|by constructor|].
    intros b'. rewrite !elem_of_cons, Hi. split; [|naive_solver].
    intros [->|[? ?]]; [|auto]. split; [by left|]. exists d. done.
  - destruct (IH acc) as (vis & Hv & Hs & Hi). exists vis. split_and!; [done|by constructor|].
    intros b'. rewrite elem_of_cons, Hi. split; [naive_solver|]. intros [[->|?] Hdec]; [|done].
    destruct Hdec as (d' & Hd' & Ha'). congruence.
Qed.
Lemma discover_in_spec s caller :
  exists vis, discover_in s caller = Ok vis /\ sublist vis (ls_tools s) /\
    forall b, b ∈ vis <-> b ∈ ls_tools s /\ decided b caller.
Proof. apply (discover_go (ls_tools s) []). Qed.

Section orchestration_lemmas.
Context `{Platform, Ed25519, JsonSchema, Pydantic, Decoding}.

(** What must hold before the executor is called. *)
Record cleared (s : LoadedSnapshot) (name : string) (arguments : pyval)
    (caller : option CallerIdentity) (confirmed : bool) (b : BoundTool) (validated : dict) : Prop := {
  cl_tool : resolve s name = Ok b;
  cl_arguments : validate_arguments (bt_tool b) arguments = Ok validated;
  cl_caller : decided b caller;
  cl_confirmed : requires_confirmation (policy (bt_tool b)) = true -> confirmed = true;
}.
(** What the executor checks before it sends [request]. *)
Record dispatchable (ex : ToolExecutor) (b : BoundTool) (validated : dict) (request : PreparedRequest)
  : Prop := {
  dp_method : upper (method (operation (bt_tool b))) ∈ allowed_methods (ex_policy ex);
  dp_request : prepare_request (bt_tool b) validated (bt_base_url b) = Ok request;
  dp_destination : exists d, authorized (ex_policy ex) (rq_url request) (ex_resolver ex) d;
}.

Lemma named_checks_Ok s name arguments caller confirmed b v :
  (exists tr, named_checks s name arguments caller confirmed = Ok (b, v, tr)) <->
  cleared s name arguments caller confirmed b v.
Proof.
  unfold named_checks. split.
  - intros (tr & Ht). apply bind_Ok in Ht as (b' & Hb & Ht). apply bind_Ok in Ht as (v' & Hv & Ht).
    apply bind_Ok in Ht as ([] & Ha & Ht). apply bind_Ok in Ht as ([] & Hc & Ht).
    injection Ht as <- <- _. apply authorize_Ok in Ha. pose proof (proj1 (confirm_Ok _ _) Hc). by constructor.
  - intros [Hb Hv Ha%authorize_Ok Hc]. apply (proj2 (confirm_Ok _ _)) in Hc. rewrite Hb. cbn [bind]. rewrite Hv. cbn [bind].
    rewrite Ha. cbn [bind]. rewrite Hc. eauto.
Qed.

(** What the provider said before the checks of a turn passed. *)
Definition turn_cleared (o : Orchestrator) (s : LoadedSnapshot) (text : string)
    (caller : option CallerIdentity) (confirmed : bool) (b : BoundTool) (v : dict) : Prop :=
  exists available selection proposal,
    discover_in s caller = Ok available /\ available <> [] /\
    select_tool (or_provider o) text (map bt_tool available) = Ok (Some selection) /\
    resolve s (sel_tool_name selection) = Ok b /\
    generate_arguments (or_provider o) text (bt_tool b) = Ok proposal /\ complete proposal = true /\
    cleared s (sel_tool_name selection) (VDict (proposed proposal)) caller confirmed b v.

Lemma turn_checks_Ok o s text caller confirmed b v :
  (exists tr, turn_checks o s text caller confirmed = Ok (b, v, tr)) <->
  turn_cleared o s text caller confirmed b v.
Proof.
  unfold turn_checks, turn_cleared. split.
  - intros (tr & Ht). apply bind_Ok in Ht as (av & Hav & Ht). destruct av as [|b0 av]; [done|].
    apply bind_Ok in Ht as ([sel|] & Hsel & Ht); [|done]. apply bind_Ok in Ht as (b' & Hb & Ht).
    apply bind_Ok in Ht as (p & Hp & Ht). destruct (complete p) eqn:Hc; cbn [negb] in Ht; [|done].
    apply bind_Ok in Ht as (v' & Hv & Ht). apply bind_Ok in Ht as ([] & Ha%authorize_Ok & Ht).
    apply bind_Ok in Ht as ([] & Hf & Ht). pose proof (proj1 (confirm_Ok _ _) Hf). injection Ht as <- <- _.
    exists (b0 :: av), sel, p. split_and!; try done; by constructor.
  - intros (av & sel & p & Hav & Hne & Hsel & Hb & Hp & Hc & [_ Hv Ha%authorize_Ok Hf]).
    apply (proj2 (confirm_Ok _ _)) in Hf.
    rewrite Hav. cbn [bind]. destruct av as [|b0 av]; [done|]. rewrite Hsel. cbn [bind].
    rewrite Hb. cbn [bind]. rewrite Hp. cbn [bind]. rewrite Hc. cbn [negb]. rewrite Hv. cbn [bind].
    rewrite Ha. cbn [bind]. rewrite Hf. cbn [bind]. eauto.
Qed.

Lemma validate_again tool arguments v :
  validate_arguments tool arguments = Ok v -> validate_arguments tool (VDict v) = Ok v.
Proof. intros Hv. pose proof Hv as (-> & _)%validate_arguments_Ok. done. Qed.

Lemma prepare_dispatchable ex b arguments v request :
  validate_arguments (bt_tool b) arguments = Ok v ->
  prepare ex (bt_tool b) (VDict v) (bt_base_url b) = Ok request <-> dispatchable ex b v request.
Proof.
  intros Hv%validate_again. rewrite prepare_Ok. split.
  - intros (Hm & args & d & Ha & Hr & Hd%check_authorized). rewrite Hv in Ha. injection Ha as <-.
    split; eauto.
  - intros [Hm Hr [d Hd%check_authorized]]. eauto 8.
Qed.

(** What [run_tool] sends and returns. *)
Lemma run_tool_spec o s b arguments v rid text ms tr tl sent r :
  validate_arguments (bt_tool b) arguments = Ok v ->
  run_tool o s b v rid text ms tr tl = (sent, r) ->
  (length sent <= 1)%nat /\
  (forall request, sent = [request] <-> dispatchable (or_executor o) b v request) /\
  (forall oc, r = Ok oc -> length sent = 1%nat /\ oc_snapshot_revision oc = ls_revision s /\
     oc_selected_tool oc = bt_tool_name b /\ oc_connector_key oc = bt_connector_key b /\
     oc_connector_version oc = bt_connector_version b /\ oc_arguments oc = v).
Proof.
  intros Hv. unfold run_tool, execute.
  destruct (prepare _ _ _ _) as [request|e] eqn:Hp.
  - intros [= <- <-]. split; [done|]. split.
    + intros q. rewrite <- (prepare_dispatchable _ _ _ _ _ Hv), Hp. naive_solver.
    + intros oc (result & _ & (m & _ & [= <-])%bind_Ok)%bind_Ok. done.
  - intros [= <- <-]. split; [simpl; lia|]. split; [|done].
    intros q. rewrite <- (prepare_dispatchable _ _ _ _ _ Hv), Hp. naive_solver.
Qed.

(** What a request of the runtime rests on. *)
Record governed (v : SnapshotVerification) (ex : ToolExecutor) (name : string) (caller : option CallerIdentity)
    (confirmed : bool) (request : PreparedRequest) (document : pyval) (d : dict) (s : LoadedSnapshot)
    (c : ConnectorDefinition) (t : ToolDefinition) : Prop := {
  gv_loaded : load_checked document v s d;
  gv_connector : c ∈ connectors (ls_snapshot s) /\ lifecycle_state c = Published;
  gv_tool : t ∈ tools c /\ tool_name t = name;
  gv_caller : may_use (policy t) caller;
  gv_confirmed : requires_confirmation (policy t) = true -> confirmed = true;
  gv_method : rq_method request = method (operation t);
  gv_destination : exists dest, authorized (ex_policy ex) (rq_url request) (ex_resolver ex) dest;
}.
Lemma prepare_request_method tool arguments base request :
  prepare_request tool arguments base = Ok request -> rq_method request = method (operation tool).
Proof.
  unfold prepare_request. intros (bd & _ & Hreq)%bind_Ok. destruct (_ || _); [done|].
  by apply bind_Ok in Hreq as (body & _ & [= <-]).
Qed.
Lemma cleared_governed v s ex name arguments caller confirmed b validated request :
  verified_by v s -> cleared s name arguments caller confirmed b validated ->
  dispatchable ex b validated request ->
  exists document d c t, governed v ex name caller confirmed request document d s c t.
Proof.
  intros (document & d & Hload) [Hr _ Hd Hconf] [_ Hreq Hdest]. destruct (lc_index _ _ _ _ Hload) as [Hi Hnd].
  apply (resolve_bound s name b Hnd Hi) in Hr as (c & t & Hc & Ht & Hname & ->).
  exists document, d, c, t. split; try done.
  - split; [done|]. pose proof (lc_model _ _ _ _ Hload) as (Hnew & _ & _)%parse_snapshot_valid.
    apply new_snapshot_facts in Hnew as (_ & _ & Hp). rewrite Forall_forall in Hp. auto.
  - by apply (decided_may_use (bind_tool c t)).
  - by eapply prepare_request_method.
Qed.
(** The two ways a request leaves the runtime. *)
Lemma execute_tool_sends o store name arguments caller rid confirmed fresh now ms :
  let '(store', (sent, _)) := execute_tool o store name arguments caller rid confirmed fresh now ms in
  store' = (ensure_fresh store now).1 /\ (length sent <= 1)%nat /\
  forall request, request ∈ sent -> exists s b v, (ensure_fresh store now).2 = Ok s /\
    cleared s name arguments caller confirmed b v /\ dispatchable (or_executor o) b v request.
Proof.
  unfold execute_tool. destruct (ensure_fresh store now) as [st [s|e]]; cbn [fst snd].
  2: { split_and!; [done|simpl; lia|]. by intros request ?%elem_of_nil. }
  destruct (named_checks s name arguments caller confirmed) as [[[b v] tr]|e] eqn:Hn.
  2: { split_and!; [done|simpl; lia|]. by intros request ?%elem_of_nil. }
  destruct (run_tool _ _ _ _ _ _ _ _ _) as [sent r] eqn:Hr.
  assert (cleared s name arguments caller confirmed b v) as Hc by (apply named_checks_Ok; eauto).
  destruct (run_tool_spec _ _ _ _ _ _ _ _ _ _ _ _ (cl_arguments _ _ _ _ _ _ _ Hc) Hr) as (Hl & Hs & _).
  split_and!; [done|done|]. intros request Hin. exists s, b, v. split_and!; [done|done|]. apply Hs.
  destruct sent as [|q [|]]; [by apply elem_of_nil in Hin| |simpl in Hl; lia]. by apply list_elem_of_singleton in Hin as ->.
Qed.
Lemma handle_sends o store utterance caller rid confirmed dry fresh now ms :
  let '(store', (sent, _)) := handle o store utterance caller rid confirmed dry fresh now ms in
  (store' = store \/ store' = (ensure_fresh store now).1) /\ (length sent <= 1)%nat /\
  forall request, request ∈ sent -> dry = false /\ exists s name arguments b v, (ensure_fresh store now).2 = Ok s /\
    cleared s name arguments caller confirmed b v /\ dispatchable (or_executor o) b v request.
Proof.
  unfold handle. destruct (request_text utterance) as [text|e].
  2: { split_and!; [by left|simpl; lia|]. by intros request ?%elem_of_nil. }
  destruct (ensure_fresh store now) as [st [s|e]]; cbn [fst snd].
  2: { split_and!; [by right|simpl; lia|]. by intros request ?%elem_of_nil. }
  destruct (turn_checks o s text caller confirmed) as [[[b v] tr]|e] eqn:Hn.
  2: { split_and!; [by right|simpl; lia|]. by intros request ?%elem_of_nil. }
  assert (turn_cleared o s text caller confirmed b v) as Hc by (apply turn_checks_Ok; eauto).
  destruct dry; [split_and!; [by right|simpl; lia|]; by intros request ?%elem_of_nil|].
  destruct (run_tool _ _ _ _ _ _ _ _ _) as [sent r] eqn:Hr. destruct Hc as (av & sel & p & _ & _ & _ & _ & _ & _ & Hcl).
  destruct (run_tool_spec _ _ _ _ _ _ _ _ _ _ _ _ (cl_arguments _ _ _ _ _ _ _ Hcl) Hr) as (Hl & Hs & _).
  split_and!; [by right|done|]. intros request Hin. split; [done|].
  exists s, (sel_tool_name sel), (VDict (proposed p)), b, v. split_and!; [done|done|]. apply Hs.
  destruct sent as [|q [|]]; [by apply elem_of_nil in Hin| |simpl in Hl; lia]. by apply list_elem_of_singleton in Hin as ->.
Qed.
End orchestration_lemmas.

(** ** Properties *)

(** C6. [execute_tool] sends exactly what every check cleared: after one refresh
    of the store, at most one request, and [request] is sent exactly when the
    snapshot then held resolves the name, the arguments meet that tool's schema,
    that tool's policy admits the caller, a required confirmation was given, and
    [request] is the one its bindings build, to an authorized destination; an
    outcome reports the revision, connector and arguments that were checked. *)
Theorem execute_tool_exact `{Platform, Ed25519, JsonSchema, Pydantic, Decoding} :
  forall o store name arguments caller rid confirmed fresh now ms store' sent r,
    execute_tool o store name arguments caller rid confirmed fresh now ms = (store', (sent, r)) ->
    store' = (ensure_fresh store now).1 /\ (length sent <= 1)%nat /\
    (forall request, sent = [request] <-> exists s b v, (ensure_fresh store now).2 = Ok s /\
       cleared s name arguments caller confirmed b v /\ dispatchable (or_executor o) b v request) /\
    (forall oc, r = Ok oc -> length sent = 1%nat /\ exists s b v, (ensure_fresh store now).2 = Ok s /\
       cleared s name arguments caller confirmed b v /\
       oc_snapshot_revision oc = ls_revision s /\ oc_selected_tool oc = bt_tool_name b /\
       oc_connector_key oc = bt_connector_key b /\ oc_connector_version oc = bt_connector_version b /\
       oc_arguments oc = v).
Proof.
  intros o store name arguments caller rid confirmed fresh now ms store' sent r. unfold execute_tool.
  destruct (ensure_fresh store now) as [st [s|e]] eqn:E; cbn [fst snd].
  2: { intros [= <- <- <-]. split_and!; [done|simpl; lia|naive_solver|done]. }
  destruct (named_checks s name arguments caller confirmed) as [[[b v] tr]|e] eqn:Hn.
  - intros Hr. injection Hr as <- Hr.
    assert (cleared s name arguments caller confirmed b v) as Hc by (apply named_checks_Ok; eauto).
    destruct (run_tool_spec _ _ _ _ _ _ _ _ _ _ _ _ (cl_arguments _ _ _ _ _ _ _ Hc) Hr) as (Hl & Hs & Ho).
    split; [done|]. split; [done|]. split.
    + intros request. rewrite Hs. split; [eauto 10|]. intros (s' & b' & v' & [= <-] & Hc' & Hd).
      apply named_checks_Ok in Hc' as [tr' Hn']. rewrite Hn in Hn'. by injection Hn' as <- <- _.
    + intros oc Hoc. destruct (Ho oc Hoc) as (H1' & H2'). split; [done|]. exists s, b, v. naive_solver.
  - intros [= <- <- <-]. split_and!; [done|simpl; lia| |done]. intros request. split; [done|].
    intros (s' & b & v & [= <-] & Hc & _). apply named_checks_Ok in Hc as [tr Hn']. congruence.
Qed.

(** C7. A whole turn makes at most one call, and only a cleared one: [handle]
    sends [request] exactly when it is no dry run, the text is within bounds,
    and in the one snapshot it acquired the provider selected, among the tools
    the caller may see, a name that resolves there to a tool for which the
    proposed arguments, the caller, the confirmation and the destination pass
    every check; whatever the provider answers, nothing else is sent. *)
Theorem handle_exact `{Platform, Ed25519, JsonSchema, Pydantic, Decoding} :
  forall o store utterance caller rid confirmed dry fresh now ms store' sent r,
    handle o store utterance caller rid confirmed dry fresh now ms = (store', (sent, r)) ->
    (length sent <= 1)%nat /\
    (store' = (ensure_fresh store now).1 \/ store' = store /\ exists e, request_text utterance = Err e) /\
    (forall request, sent = [request] <-> dry = false /\ exists text s b v,
       request_text utterance = Ok text /\ (ensure_fresh store now).2 = Ok s /\
       turn_cleared o s text caller confirmed b v /\ dispatchable (or_executor o) b v request) /\
    (forall oc, r = Ok oc -> length sent = (if dry then 0 else 1)%nat /\ exists text s b v,
       (ensure_fresh store now).2 = Ok s /\ turn_cleared o s text caller confirmed b v /\
       oc_snapshot_revision oc = ls_revision s /\ oc_selected_tool oc = bt_tool_name b /\
       oc_connector_key oc = bt_connector_key b /\ oc_connector_version oc = bt_connector_version b /\
       oc_arguments oc = v).
Proof.
  intros o store utterance caller rid confirmed dry fresh now ms store' sent r. unfold handle.
  destruct (request_text utterance) as [text|e] eqn:Ht.
  2: { intros [= <- <- <-]. split_and!; [simpl; lia|right; eauto|naive_solver|done]. }
  destruct (ensure_fresh store now) as [st [s|e]] eqn:E; cbn [fst snd].
  2: { intros [= <- <- <-]. split_and!; [simpl; lia|by left|naive_solver|done]. }
  destruct (turn_checks o s text caller confirmed) as [[[b v] tr]|e] eqn:Hn.
  2: { intros [= <- <- <-]. split_and!; [simpl; lia|by left| |done]. intros request. split; [done|].
       intros (_ & text' & s' & b & v & [= <-] & [= <-] & Hc & _).
       apply turn_checks_Ok in Hc as [tr Hn']. congruence. }
  assert (turn_cleared o s text caller confirmed b v) as Hc by (apply turn_checks_Ok; eauto).
  destruct dry.
  - intros [= <- <- <-]. split_and!; [simpl; lia|by left|naive_solver|].
    intros oc (prepared & _ & [= <-])%bind_Ok. split; [done|]. exists text, s, b, v. done.
  - intros Hr. injection Hr as <- Hr. pose proof Hc as (av & sel & p & _ & _ & _ & _ & _ & _ & Hcl).
    destruct (run_tool_spec _ _ _ _ _ _ _ _ _ _ _ _ (cl_arguments _ _ _ _ _ _ _ Hcl) Hr) as (Hl & Hs & Ho).
    split; [done|]. split; [by left|]. split.
    + intros request. rewrite Hs. split; [eauto 10|].
      intros (_ & text' & s' & b' & v' & [= <-] & [= <-] & Hc' & Hd).
      apply turn_checks_Ok in Hc' as [tr' Hn']. rewrite Hn in Hn'. by injection Hn' as <- <- _.
    + intros oc Hoc. destruct (Ho oc Hoc) as (H1' & H2'). split; [done|]. exists text, s, b, v. naive_solver.
Qed.

(** Discovery and execution take the same decision: discovery never fails,
    keeps the order of the index, and lists a tool exactly when the tool's
    policy admits the caller; what it does not list is not executed either. *)
Theorem discovery_is_authorization `{Platform, Ed25519, JsonSchema, Pydantic, Decoding} :
  forall s caller, exists visible, discover_in s caller = Ok visible /\ sublist visible (ls_tools s) /\
    (forall b, b ∈ visible <-> b ∈ ls_tools s /\ authorize b caller = Ok tt) /\
    (forall b, b ∈ visible -> may_use (policy (bt_tool b)) caller) /\
    (forall name b arguments confirmed v, resolve s name = Ok b -> b ∉ visible ->
       ~ cleared s name arguments caller confirmed b v).
Proof.
  intros s caller. destruct (discover_in_spec s caller) as (vis & Hv & Hsub & Hin).
  exists vis. split_and!; try done.
  - intros b. by rewrite Hin, authorize_Ok.
  - intros b [_ Hd]%Hin. by apply decided_may_use.
  - intros name b arguments confirmed v Hr Hb [_ _ Hd _]. apply Hb, Hin. split; [|done].
    unfold resolve in Hr. destruct (alookup name (tools_by_name s)) as [b'|] eqn:E; [|done].
    injection Hr as ->. unfold ls_tools. apply alookup_Some_elem in E.
    by apply (list_elem_of_fmap_2 snd) in E.
Qed.

(** End to end: whatever the network served and the client asked for, a
    request that leaves a runtime in required mode rests on a document signed by
    a trusted key, in which a published connector declares the tool; its
    method is the tool's, its destination is authorized, the caller may use the
    tool, and a tool that requires confirmation was confirmed. *)
Theorem every_request_is_governed `{Platform, Ed25519, JsonSchema, Pydantic, Decoding} :
  forall cl key seconds store o name arguments caller rid confirmed fresh now ms store' request r,
    store_reachable cl key seconds store -> mode (cl_verification cl) = Required ->
    execute_tool o store name arguments caller rid confirmed fresh now ms = (store', ([request], r)) ->
    exists document d k s c t,
      load_checked document (cl_verification cl) s d /\ signed_by d (trusted_keys (cl_verification cl)) k /\
      c ∈ connectors (ls_snapshot s) /\ lifecycle_state c = Published /\ t ∈ tools c /\ tool_name t = name /\
      may_use (policy t) caller /\ (requires_confirmation (policy t) = true -> confirmed = true) /\
      rq_method request = method (operation t) /\
      exists dest, authorized (ex_policy (or_executor o)) (rq_url request) (ex_resolver (or_executor o)) dest.
Proof.
  intros cl key seconds store o name arguments caller rid confirmed fresh now ms store' request r Hreach Hm Hx.
  pose proof (execute_tool_sends o store name arguments caller rid confirmed fresh now ms) as Hs. rewrite Hx in Hs.
  destruct Hs as (_ & _ & Hs). destruct (Hs request ltac:(left)) as (s & b & v & Hfresh & Hc & Hd).
  apply store_reachable_ok in Hreach. destruct (ensure_fresh_ok _ _ now Hreach) as (_ & Hf & _).
  destruct (Hf s Hfresh) as [Hv _].
  destruct (cleared_governed _ _ _ _ _ _ _ _ _ _ Hv Hc Hd) as (document & d & c & t & [Hload [Hci Hp] [Ht Hn] Hu Hconf Hme Hdest]).
  pose proof (lc_signature _ _ _ _ Hload) as [(? & _)|(k & _ & Hk)]; [congruence|].
  exists document, d, k, s, c, t. by split_and!.
Qed.

(** ** A concrete runtime for the witnesses *)

Definition demo_provider : LLMProvider :=
  MkProvider "demo"
    (fun _ tools => Ok (match tools with
                        | t :: _ => Some (MkSelection (tool_name t) (sf_of_Z 4) "first" None)
                        | [] => None
                        end))
    (fun _ _ => Ok (MkProposal demo_arguments []))
    (fun _ t _ => Ok (display_name t +:+ " completed")).
Definition demo_orchestrator : Orchestrator := MkOrchestrator demo_provider (demo_executor 201).
Definition demo_caller : option CallerIdentity := Some (CallerIdentity_of "alice" ["support-agent"]).
Definition demo_call (confirmed : bool) : SnapshotStore * (list PreparedRequest * M OrchestrationOutcome) :=
  @execute_tool zero_platform _ _ _ _ demo_orchestrator (demo_store 7) "add_note" (VDict demo_arguments)
    demo_caller None confirmed "0123456789abcdef" 9 12.
Definition demo_turn (dry : bool) : SnapshotStore * (list PreparedRequest * M OrchestrationOutcome) :=
  @handle zero_platform _ _ _ _ demo_orchestrator (demo_store 7) " add a note " demo_caller None true dry
    "0123456789abcdef" 9 12.

Example unconfirmed_call_sends_nothing :
  (demo_call false).2 =
    ([], raise (ConfirmationRequired "this tool requires explicit confirmation before it can be executed")).
Proof. vm_compute. reflexivity. Qed.

Lemma execute_tool_exact_witness :
  exists request oc, (demo_call true).2 = ([request], Ok oc) /\ oc_selected_tool oc = "add_note" /\
    exists s b v, @cleared zero_platform _ s "add_note" (VDict demo_arguments) demo_caller true b v.
Proof.
  destruct (demo_call true) as [store' [sent r]] eqn:E.
  unfold demo_call in E.
  assert (exists q oc, sent = [q] /\ r = Ok oc /\ oc_selected_tool oc = "add_note") as (q & oc & -> & -> & Hn).
  { revert E. vm_compute. intros [= <- <- <-]. eexists _, _. split_and!; reflexivity. }
  exists q, oc. split; [reflexivity|]. split; [exact Hn|].
  destruct (@execute_tool_exact zero_platform _ _ _ _ demo_orchestrator (demo_store 7) "add_note"
    (VDict demo_arguments) demo_caller None true "0123456789abcdef" 9 12 store' [q] (Ok oc) E) as (_ & _ & Hs & _).
  destruct (proj1 (Hs q) eq_refl) as (s & b & v & _ & Hc & _). exists s, b, v. exact Hc.
Defined.

Lemma handle_exact_witness :
  exists request oc, (demo_turn false).2 = ([request], Ok oc) /\
    exists s b v, @turn_cleared zero_platform _ demo_orchestrator s "add a note" demo_caller true b v.
Proof.
  destruct (demo_turn false) as [store' [sent r]] eqn:E.
  unfold demo_turn in E.
  assert (exists q oc, sent = [q] /\ r = Ok oc) as (q & oc & -> & ->).
  { revert E. vm_compute. intros [= <- <- <-]. eexists _, _. split; reflexivity. }
  exists q, oc. split; [reflexivity|].
  destruct (@handle_exact zero_platform _ _ _ _ demo_orchestrator (demo_store 7) " add a note " demo_caller None
    true false "0123456789abcdef" 9 12 store' [q] (Ok oc) E) as (_ & _ & Hs & _).
  destruct (proj1 (Hs q) eq_refl) as (_ & text & s & b & v & Ht & _ & Hc & _). exists s, b, v.
  assert (text = "add a note") as -> by (revert Ht; vm_compute; intros [= <-]; reflexivity). exact Hc.
Defined.

Lemma every_request_is_governed_witness :
  exists document d k s, @load_checked zero_platform _ _ _ document demo_verification s d /\
    @signed_by zero_platform _ d [public_key demo_signing_key] k /\
    may_use (policy demo_tool) demo_caller.
Proof.
  destruct (demo_call true) as [store' [sent r]] eqn:E.
  unfold demo_call in E.
  assert (exists q, sent = [q]) as [q ->].
  { revert E. vm_compute. intros [= <- <- <-]. eexists. reflexivity. }
  assert (@store_reachable zero_platform _ _ _ demo_client "default" 60 (demo_store 7)) as Hr.
  { apply rtc_once. exact (@step_refresh zero_platform _ _ _ (SnapshotStore_new demo_client "default" 60) demo_get 7). }
  destruct (@every_request_is_governed zero_platform _ _ _ _ demo_client "default" 60 (demo_store 7)
    demo_orchestrator "add_note" (VDict demo_arguments) demo_caller None true "0123456789abcdef" 9 12
    store' q r Hr eq_refl E) as (document & d & k & s & c & t & Hl & Hk & _).
  exists document, d, k, s. split; [exact Hl|]. split; [exact Hk|].
  right. exists (CallerIdentity_of "alice" ["support-agent"]), "support-agent".
  split; [reflexivity|]. split; [apply elem_of_list_to_set; left|left].
Defined.
