(* ===== verification/Identity.v ===== *)
(** * Caller identity

    [runtime_service/identity.py]: asserted headers, and caller tokens, which
    are JWS compact serializations signed with Ed25519.  [json.loads] on bytes
    is a parameter (its result is whatever the token's author wrote); the clock
    is an argument, a float as [time.time] returns it. *)

From S2P Require Export Signing Authorization.
From Stdlib Require Import Floats.SpecFloat.

Definition CLOCK_SKEW_SECONDS : Z := 30.
Definition MAX_TOKEN_BYTES : nat := (8 * 1024)%nat.

Definition InvalidCallerToken (m : string) : exn := tool_layer_error ErrorCode.UNAUTHENTICATED m.

Inductive CallerAuthMode := AssertedHeader | VerifiedToken.
Record CallerAuthenticator := MkAuthenticator {
  au_mode : CallerAuthMode;
  au_trusted_keys : TrustedKeyRing;
  au_issuer : string;
  au_audience : string;
}.
Definition verifies_identity (a : CallerAuthenticator) : bool :=
  match au_mode a with VerifiedToken => true | AssertedHeader => false end.

Class TokenJson := { json_loads_bytes : string -> M pyval }.

(** [float(n)] and float addition in binary64; an int beyond the range raises. *)
Definition float_of_Z (z : Z) : spec_float := binary_normalize 53 1024 z 0 false.
Definition py_float (v : pyval) : M spec_float :=
  match v with
  | VFloat f => Ok f
  | VInt z =>
      match float_of_Z z with
      | S754_infinity _ => raise (Raised OverflowError "int too large to convert to float")
      | f => Ok f
      end
  | _ => raise (Raised TypeError "float() argument must be a string or a real number")
  end.
Definition plus_skew (f : spec_float) : spec_float := SFadd 53 1024 f (float_of_Z CLOCK_SKEW_SECONDS).
(** [isinstance(v, (int, float)) and not isinstance(v, bool)]. *)
Definition is_numeric_date (v : pyval) : bool := is_number v && negb (is_bool v).

Definition encode_ascii (s : string) : M string :=
  if is_ascii s then Ok s
  else raise (Raised UnicodeEncodeError "'ascii' codec can't encode characters").

Definition audience_matches (claim : pyval) (expected : string) : bool :=
  match claim with
  | VStr s => String.eqb s expected
  | VList l => existsb (fun entry => match entry with VStr s => String.eqb s expected | _ => false end) l
  | _ => false
  end.

(** [tuple(e.strip() for e in entries if e.strip())]. *)
Definition stripped (entries : list string) : list string :=
  List.filter (fun e => negb (is_empty e)) (map strip entries).

Fixpoint all_strings (l : list pyval) : option (list string) :=
  match l with
  | [] => Some []
  | VStr s :: l => ss ← all_strings l; Some (s :: ss)
  | _ :: _ => None
  end.

Section identity.
Context `{Ed25519, TokenJson}.

(** [json.loads(b64u_decode(text))] under the [except] clause of the source:
    [InvalidKeyMaterial], [UnicodeDecodeError] and [ValueError]. *)
Definition decode_part (text message : string) : M pyval :=
  except (let* raw := b64u_decode (VStr text) None in json_loads_bytes raw)
    is_value_error (fun _ => raise (InvalidCallerToken message)).

Definition check_times (now : spec_float) (claims : dict) : M unit :=
  let expiry := get "exp" claims in
  if negb (is_numeric_date expiry) then raise (InvalidCallerToken "the caller token does not expire")
  else
    let* exp := py_float expiry in
    if SFltb (plus_skew exp) now then raise (InvalidCallerToken "the caller token has expired")
    else
      let not_before := get "nbf" claims in
      if is_numeric_date not_before then
        let* nbf := py_float not_before in
        if SFltb (plus_skew now) nbf then raise (InvalidCallerToken "the caller token is not valid yet")
        else Ok tt
      else Ok tt.

Definition verified_claims (a : CallerAuthenticator) (token : string) (now : spec_float) : M dict :=
  if (MAX_TOKEN_BYTES <? slen (encode_utf8 token))%nat then
    raise (InvalidCallerToken "the caller token is too large")
  else
  match split_on "." token with
  | [encoded_header; encoded_payload; encoded_signature] =>
      let* header := decode_part encoded_header "the caller token is malformed" in
      match header with
      | VDict header =>
          if negb (py_eq (get "alg" header) (VStr "EdDSA")) then
            raise (InvalidCallerToken "the caller token uses an unsupported signature algorithm")
          else
          match get "kid" header with
          | VStr key_id =>
              if is_empty key_id then raise (InvalidCallerToken "the caller token names no signing key")
              else
              match ring_find (au_trusted_keys a) key_id with
              | None => raise (InvalidCallerToken "the caller token was signed by a key that is not trusted")
              | Some key =>
                  let* signature :=
                    except (b64u_decode (VStr encoded_signature) None) is_value_error
                      (fun _ => raise (InvalidCallerToken "the caller token signature is malformed")) in
                  let* message := encode_ascii (encoded_header +:+ "." +:+ encoded_payload) in
                  if negb (vk_verify key message signature) then
                    raise (InvalidCallerToken "the caller token signature does not verify")
                  else
                  let* claims := decode_part encoded_payload "the caller token payload is malformed" in
                  match claims with
                  | VDict claims =>
                      if negb (is_empty (au_issuer a)) &&
                         negb (py_eq (get "iss" claims) (VStr (au_issuer a))) then
                        raise (InvalidCallerToken "the caller token was issued by an unexpected issuer")
                      else if negb (is_empty (au_audience a)) &&
                              negb (audience_matches (get "aud" claims) (au_audience a)) then
                        raise (InvalidCallerToken "the caller token is not intended for this runtime")
                      else
                        let* _ := check_times now claims in Ok claims
                  | _ => raise (InvalidCallerToken "the caller token payload is not an object")
                  end
              end
          | _ => raise (InvalidCallerToken "the caller token names no signing key")
          end
      | _ => raise (InvalidCallerToken "the caller token header is not an object")
      end
  | _ => raise (InvalidCallerToken "the caller token is not a compact JWS")
  end.

Definition from_token (a : CallerAuthenticator) (bearer_token : option string) (now : spec_float)
  : M CallerIdentity :=
  let token := match bearer_token with Some t => t | None => "" end in
  if is_empty token then raise (InvalidCallerToken "a caller token is required")
  else
    let* claims := verified_claims a token now in
    match get "sub" claims with
    | VStr subject =>
        if is_empty subject then raise (InvalidCallerToken "the caller token names no subject")
        else
        match get_or "roles" (VList []) claims with
        | VList raw =>
            match all_strings raw with
            | Some roles => Ok (CallerIdentity_of subject (stripped roles))
            | None => raise (InvalidCallerToken "the caller token's roles claim is not a list of strings")
            end
        | _ => raise (InvalidCallerToken "the caller token's roles claim is not a list of strings")
        end
    | _ => raise (InvalidCallerToken "the caller token names no subject")
    end.

Definition identify (a : CallerAuthenticator) (bearer_token asserted_subject asserted_roles : option string)
    (now : spec_float) : M (option CallerIdentity) :=
  match au_mode a with
  | VerifiedToken =>
      if negb (is_none asserted_subject) || negb (is_none asserted_roles) then
        raise (InvalidCallerToken
          "this runtime verifies caller identity; asserted identity headers are not accepted")
      else let* c := from_token a bearer_token now in Ok (Some c)
  | AssertedHeader =>
      match asserted_subject, asserted_roles with
      | None, None => Ok None
      | _, _ =>
          let roles := stripped (split_on "," (match asserted_roles with Some r => r | None => "" end)) in
          let subject := match asserted_subject with
                         | Some s => if is_empty s then "anonymous" else s
                         | None => "anonymous"
                         end in
          Ok (Some (CallerIdentity_of subject roles))
      end
  end.
End identity.

(** ** Issuing *)

(** [json.dumps] with [sort_keys], escaping everything that is not printable
    ASCII, as [ensure_ascii] does. *)
Definition ascii_escape (c : ascii) : string :=
  if (code c <? 127)%N then String c "" else "\u00" +:+ hex_byte c.

Section issuing.
Context `{Platform, Ed25519}.

Definition token_json (d : dict) : string := sflat_map ascii_escape (dumps (VDict d)).
(** [int(f)]. *)
Definition py_int_of_float (f : spec_float) : M Z :=
  match f with
  | S754_nan => raise (Raised ValueError "cannot convert float NaN to integer")
  | S754_infinity _ => raise (Raised OverflowError "cannot convert float infinity to integer")
  | S754_zero _ => Ok 0%Z
  | S754_finite s m e =>
      let n := if (0 <=? e)%Z then (Zpos m * 2 ^ e)%Z else (Zpos m / 2 ^ (- e))%Z in
      Ok (if s then - n else n)%Z
  end.

Definition token_header (key : SigningKey) : dict :=
  {{ "alg" ~> VStr "EdDSA"; "typ" ~> VStr "JWT"; "kid" ~> VStr (sk_key_id key) }}.
Definition token_claims (subject : string) (roles : list string) (issuer audience : string)
    (issued lifetime : Z) : dict :=
  {{ "iss" ~> VStr issuer; "aud" ~> VStr audience; "sub" ~> VStr subject; "roles" ~> strs roles;
     "iat" ~> VInt issued; "exp" ~> VInt (issued + lifetime) }}.
Definition issue_caller_token (key : SigningKey) (subject : string) (roles : list string)
    (issuer audience : string) (issued_at : spec_float) (lifetime_seconds : Z) : M string :=
  let* issued := py_int_of_float issued_at in
  let encoded_header := b64u_encode (token_json (token_header key)) in
  let encoded_claims :=
    b64u_encode (token_json (token_claims subject roles issuer audience issued lifetime_seconds)) in
  let* signing_input := encode_ascii (encoded_header +:+ "." +:+ encoded_claims) in
  Ok (encoded_header +:+ "." +:+ encoded_claims +:+ "." +:+ b64u_encode (sk_sign key signing_input)).
End issuing.

(** ** Lemmas *)

Section identity_lemmas.
Context `{Ed25519, TokenJson}.

Lemma decode_part_Ok text m v :
  decode_part text m = Ok v <-> exists raw, b64u_decode (VStr text) None = Ok raw /\ json_loads_bytes raw = Ok v.
Proof.
  unfold decode_part, except. split.
  - destruct (bind _ _) as [v'|e] eqn:E; [|by destruct (is_value_error e)].
    intros [= <-]. apply bind_Ok in E as (raw & Hr & Hj). eauto.
  - intros (raw & -> & Hj). cbn [bind]. by rewrite Hj.
Qed.

Lemma all_strings_Ok l ss : all_strings l = Some ss <-> l = map VStr ss.
Proof.
  revert ss. induction l as [|v l IH]; intros ss; simpl.
  - split; [by intros [= <-] | by destruct ss].
  - destruct v; try (split; [done | by destruct ss]).
    destruct (all_strings l) as [ss'|] eqn:E; simpl.
    + split.
      * intros [= <-]. simpl. by rewrite (proj1 (IH ss') eq_refl).
      * destruct ss as [|s' ss]; [done|]. intros [= -> Hl]. f_equal. f_equal. apply IH in Hl. congruence.
    + split; [done|]. destruct ss as [|s' ss]; [done|]. intros [= -> Hl]. by apply IH in Hl.
Qed.

(** The claims are in force at [now]. *)
Definition in_force (now : spec_float) (claims : dict) : Prop :=
  exists exp, is_numeric_date (get "exp" claims) = true /\ py_float (get "exp" claims) = Ok exp /\
    SFltb (plus_skew exp) now = false /\
    (is_numeric_date (get "nbf" claims) = true ->
     exists nbf, py_float (get "nbf" claims) = Ok nbf /\ SFltb (plus_skew now) nbf = false).

Lemma check_times_Ok now claims : check_times now claims = Ok tt <-> in_force now claims.
Proof.
  unfold check_times, in_force. destruct (is_numeric_date (get "exp" claims)); cbn [negb].
  2: { split; [done|]. by intros (? & ? & _). }
  destruct (py_float (get "exp" claims)) as [exp|e]; cbn [bind].
  2: { split; [done|]. by intros (? & _ & ? & _). }
  destruct (SFltb (plus_skew exp) now) eqn:Ex.
  { split; [done|]. intros (exp' & _ & [= <-] & ? & _). congruence. }
  destruct (is_numeric_date (get "nbf" claims)).
  2: { split; [|done]. intros _. exists exp. by split_and!. }
  destruct (py_float (get "nbf" claims)) as [nbf|e]; cbn [bind].
  2: { split; [done|]. intros (? & _ & _ & _ & Hn). by destruct (Hn eq_refl) as (? & ? & _). }
  destruct (SFltb (plus_skew now) nbf) eqn:En.
  - split; [done|]. intros (? & _ & _ & _ & Hn). destruct (Hn eq_refl) as (nbf' & [= <-] & ?). congruence.
  - split; [|done]. intros _. exists exp. split_and!; try done. intros _. by exists nbf.
Qed.

(** A token whose signature, issuer, audience and times were checked. *)
Record authentic (a : CallerAuthenticator) (token : string) (now : spec_float) (claims : dict) : Prop := {
  at_size : (slen (encode_utf8 token) <= 8192)%nat;
  at_signed : exists h p s header key signature raw_h raw_p,
    split_on "." token = [h; p; s] /\ is_ascii (h +:+ "." +:+ p) = true /\
    b64u_decode (VStr h) None = Ok raw_h /\ json_loads_bytes raw_h = Ok (VDict header) /\
    get "alg" header = VStr "EdDSA" /\ get "kid" header = VStr (vk_key_id key) /\
    vk_key_id key <> "" /\ ring_find (au_trusted_keys a) (vk_key_id key) = Some key /\
    b64u_decode (VStr s) None = Ok signature /\ slen signature = ED25519_SIGNATURE_BYTES /\
    ed_verify (vk_public key) signature (h +:+ "." +:+ p) = true /\
    b64u_decode (VStr p) None = Ok raw_p /\ json_loads_bytes raw_p = Ok (VDict claims);
  at_issuer : au_issuer a <> "" -> get "iss" claims = VStr (au_issuer a);
  at_audience : au_audience a <> "" -> audience_matches (get "aud" claims) (au_audience a) = true;
  at_times : in_force now claims;
}.

Lemma max_token_bytes : MAX_TOKEN_BYTES = 8192%nat.
Proof. apply Nat2N.inj. vm_compute. reflexivity. Qed.

Lemma vk_verify_true key m sg :
  vk_verify key m sg = true <-> slen sg = ED25519_SIGNATURE_BYTES /\ ed_verify (vk_public key) sg m = true.
Proof. unfold vk_verify. destruct (Nat.eqb_spec (slen sg) ED25519_SIGNATURE_BYTES); simpl; naive_solver. Qed.

Lemma is_empty_true s : is_empty s = true <-> s = "".
Proof. by destruct s. Qed.
Lemma is_empty_false s : is_empty s = false <-> s <> "".
Proof. by destruct s. Qed.

Lemma verified_claims_sound a token now claims :
  verified_claims a token now = Ok claims -> authentic a token now claims.
Proof.
  unfold verified_claims. rewrite max_token_bytes. destruct (Nat.ltb_spec 8192 (slen (encode_utf8 token))); [done|].
  destruct (split_on "." token) as [|h [|p [|s [|]]]] eqn:Hsp; try done.
  intros (hv & (raw_h & Hh & Hjh)%decode_part_Ok & Hr)%bind_Ok. destruct hv as [| | | | | | |header|]; try done.
  destruct (py_eq _ _) eqn:Halg; cbn [negb] in Hr; [|done]. apply py_eq_str in Halg.
  destruct (get "kid" header) as [| | | |kid| | | |] eqn:Hkid; try done.
  destruct (is_empty kid) eqn:Hne; [done|]. destruct (ring_find _ kid) as [key|] eqn:Hf; [|done].
  assert (vk_key_id key = kid) as <- by (by apply find_first_Some in Hf as [_ ?%String.eqb_eq]).
  apply bind_Ok in Hr as (sg & Hsg & Hr). unfold except in Hsg.
  destruct (b64u_decode (VStr s) None) as [sg'|e] eqn:Hs; [|by destruct (is_value_error e)]. injection Hsg as ->.
  apply bind_Ok in Hr as (msg & Hmsg & Hr). unfold encode_ascii in Hmsg.
  destruct (is_ascii _) eqn:Hascii; [|done]. injection Hmsg as <-.
  destruct (vk_verify key _ sg) eqn:Hv; cbn [negb] in Hr; [|done]. apply vk_verify_true in Hv as [Hl Hver].
  apply bind_Ok in Hr as (cv & (raw_p & Hp & Hjp)%decode_part_Ok & Hr). destruct cv as [| | | | | | |cl|]; try done.
  destruct (negb (is_empty (au_issuer a)) && _) eqn:Hiss; [done|].
  destruct (negb (is_empty (au_audience a)) && _) eqn:Haud; [done|].
  apply bind_Ok in Hr as ([] & Ht%check_times_Ok & [= <-]). apply is_empty_false in Hne.
  split; [lia|..].
  - by exists h, p, s, header, key, sg, raw_h, raw_p.
  - intros Hi%is_empty_false. rewrite Hi in Hiss. by apply negb_false_iff, py_eq_str in Hiss.
  - intros Hi%is_empty_false. rewrite Hi in Haud. by apply negb_false_iff in Haud.
  - done.
Qed.

Lemma verified_claims_complete a token now claims :
  authentic a token now claims -> verified_claims a token now = Ok claims.
Proof.
  intros [Hsize Hsigned Hi Ha Ht].
  destruct Hsigned as (h & p & s & header & key & sg & raw_h & raw_p & Hsp & Hascii & Hh & Hjh & Halg & Hkid &
    Hne & Hf & Hs & Hl & Hver & Hp & Hjp).
  unfold verified_claims. rewrite max_token_bytes. destruct (Nat.ltb_spec 8192 (slen (encode_utf8 token))); [lia|].
  rewrite Hsp. rewrite (proj2 (decode_part_Ok h _ _)) by eauto. cbn [bind].
  rewrite Halg. cbn [py_eq negb]. rewrite Hkid. apply is_empty_false in Hne. rewrite Hne, Hf, Hs. cbn [except bind].
  unfold encode_ascii. rewrite Hascii. cbn [bind].
  rewrite (proj2 (vk_verify_true key _ sg)) by done. cbn [negb].
  rewrite (proj2 (decode_part_Ok p _ _)) by eauto. cbn [bind].
  replace (negb (is_empty (au_issuer a)) && _) with false.
  2: { destruct (is_empty (au_issuer a)) eqn:E; [done|]. apply is_empty_false in E. rewrite Hi by done.
       simpl. by rewrite String.eqb_refl. }
  replace (negb (is_empty (au_audience a)) && _) with false.
  2: { destruct (is_empty (au_audience a)) eqn:E; [done|]. apply is_empty_false in E. by rewrite Ha. }
  apply check_times_Ok in Ht. by rewrite Ht.
Qed.

(** A token's identity, once its claims are authentic. *)
Lemma identify_complete a token claims name roles now :
  au_mode a = VerifiedToken -> authentic a token now claims -> get "sub" claims = VStr name -> name <> "" ->
  get_or "roles" (VList []) claims = strs roles ->
  identify a (Some token) None None now = Ok (Some (CallerIdentity_of name (stripped roles))).
Proof.
  intros Hm Hcl Hs Hn Hr. unfold identify. rewrite Hm. cbn [is_none negb orb]. unfold from_token.
  replace (is_empty token) with false.
  2: { destruct token; [|done]. destruct (at_signed _ _ _ _ Hcl) as (? & ? & ? & ? & ? & ? & ? & ? & Hsp & _). done. }
  rewrite (verified_claims_complete _ _ _ _ Hcl). cbn [bind]. rewrite Hs. apply is_empty_false in Hn. rewrite Hn.
  rewrite Hr. unfold strs. by rewrite (proj2 (all_strings_Ok _ roles) eq_refl).
Qed.
Lemma identify_sound a bearer su ro now r :
  au_mode a = VerifiedToken -> identify a bearer su ro now = Ok r ->
  su = None /\ ro = None /\
  exists token claims name roles, bearer = Some token /\ authentic a token now claims /\
    get "sub" claims = VStr name /\ name <> "" /\ get_or "roles" (VList []) claims = strs roles /\
    r = Some (CallerIdentity_of name (stripped roles)).
Proof.
  intros Hm. unfold identify. rewrite Hm. destruct su, ro; cbn [is_none negb orb]; try done. intros (c & Hc & [= <-])%bind_Ok.
  split; [done|]. split; [done|]. unfold from_token in Hc.
  destruct (is_empty _) eqn:Ht; [done|]. destruct bearer as [token|]; [|done].
  apply bind_Ok in Hc as (claims & Hcl%verified_claims_sound & Hc).
  destruct (get "sub" claims) as [| | | |name| | | |] eqn:Hs; try done.
  destruct (is_empty name) eqn:Hn; [done|]. apply is_empty_false in Hn.
  destruct (get_or "roles" _ claims) as [| | | | |raw| | |] eqn:Hr; try done.
  destruct (all_strings raw) as [roles|] eqn:Hall; [|done]. apply all_strings_Ok in Hall as ->.
  exists token, claims, name, roles. split_and!; try done. congruence.
Qed.
End identity_lemmas.

(** ** Properties *)

(** C8. In [verified_token] mode nobody is identified without a signature:
    [identify] returns an identity exactly when no identity header came along
    and the bearer token is a compact JWS of at most 8192 bytes whose EdDSA
    signature a trusted key verifies over the very header and payload that were
    decoded, from the configured issuer, for the configured audience, unexpired
    and already valid; the identity is the one its claims name.  It never lets
    a caller through anonymously. *)
Theorem identify_verified_exact `{Ed25519, TokenJson} :
  forall a bearer asserted_subject asserted_roles now r,
    au_mode a = VerifiedToken ->
    identify a bearer asserted_subject asserted_roles now = Ok r <->
    asserted_subject = None /\ asserted_roles = None /\
    exists token claims name roles, bearer = Some token /\ authentic a token now claims /\
      get "sub" claims = VStr name /\ name <> "" /\ get_or "roles" (VList []) claims = strs roles /\
      r = Some (CallerIdentity_of name (stripped roles)).
Proof.
  intros a bearer su ro now r Hm. split.
  - by apply identify_sound.
  - intros (-> & -> & token & claims & name & roles & -> & Hcl & Hs & Hn & Hr & ->).
    by apply (identify_complete a token claims).
Qed.

Lemma issued_token_parts `{Platform, Ed25519} key subject roles iss aud at_ life token :
  issue_caller_token key subject roles iss aud at_ life = Ok token ->
  exists issued, py_int_of_float at_ = Ok issued /\
  let h := b64u_encode (token_json (token_header key)) in
  let p := b64u_encode (token_json (token_claims subject roles iss aud issued life)) in
  split_on "." token = [h; p; b64u_encode (sk_sign key (h +:+ "." +:+ p))] /\ is_ascii (h +:+ "." +:+ p) = true.
Proof.
  unfold issue_caller_token. intros (issued & Hi & (m & Hm & Ht)%bind_Ok)%bind_Ok.
  match type of Ht with Ok ?x = Ok _ => assert (token = x) as -> by congruence end.
  exists issued. split; [done|]. cbv zeta.
  pose proof (b64u_encode_no_dot (token_json (token_header key))) as Hh.
  pose proof (b64u_encode_no_dot (token_json (token_claims subject roles iss aud issued life))) as Hp.
  clear Ht. revert Hm Hh Hp. generalize (b64u_encode (token_json (token_header key))).
  generalize (b64u_encode (token_json (token_claims subject roles iss aud issued life))). intros p h Hm Hh Hp.
  unfold encode_ascii in Hm. destruct (is_ascii _) eqn:E; [|done].
  injection Hm as <-. split; [|done].
  assert (forall w t, has_char "." w = false -> split_on "." (w +:+ "." +:+ t) = w :: split_on "." t) as Hs
    by (intros w t; apply split_on_app).
  rewrite !Hs by done. rewrite split_on_cons_notin; [done|apply b64u_encode_no_dot].
Qed.

Lemma json_text_nonempty `{Platform} d : token_json d <> "".
Proof. unfold token_json. cbn [dumps]. rewrite sapp_cons. done. Qed.

(** A token the issuer mints is accepted by a runtime that trusts its key,
    expects its issuer and audience and reads before the expiry (to 30 seconds
    past it), as the subject with the stripped, non-empty roles it was minted
    for, provided the JSON parser reads back what [json.dumps] wrote and the
    token is within the size limit. *)
Theorem issued_token_accepted `{Platform, Ed25519, !Ed25519Laws, TokenJson} :
  forall a key subject roles issued_at issued life now token exp,
    au_mode a = VerifiedToken -> subject <> "" -> sk_key_id key <> "" ->
    ring_find (au_trusted_keys a) (sk_key_id key) = Some (public_key key) ->
    py_int_of_float issued_at = Ok issued ->
    issue_caller_token key subject roles (au_issuer a) (au_audience a) issued_at life = Ok token ->
    (slen (encode_utf8 token) <= 8192)%nat ->
    (forall d, d = token_header key \/ d = token_claims subject roles (au_issuer a) (au_audience a) issued life ->
       json_loads_bytes (token_json d) = Ok (VDict d)) ->
    py_float (VInt (issued + life)) = Ok exp -> SFltb (plus_skew exp) now = false ->
    identify a (Some token) None None now = Ok (Some (CallerIdentity_of subject (stripped roles))).
Proof.
  intros a key subject roles issued_at issued life now token exp Hm Hsub Hkid Hf Hi Hissue Hsize Hjson Hexp Hnow.
  destruct (issued_token_parts _ _ _ _ _ _ _ _ Hissue) as (issued' & Hi' & Hsp & Hascii).
  rewrite Hi in Hi'. injection Hi' as <-.
  apply (identify_complete a token (token_claims subject roles (au_issuer a) (au_audience a) issued life)); try done.
  split; [done|..].
  - eexists _, _, _, (token_header key), (public_key key), (sk_sign key _), _, _.
    split_and!; [exact Hsp|done|apply b64u_decode_encode; [apply json_text_nonempty|by left]|auto|done..|exact Hf| | | | |].
    + apply b64u_decode_encode; [|by left]. intros E.
      pose proof (ed_sign_length (sk_private key) (b64u_encode (token_json (token_header key)) +:+ "." +:+
        b64u_encode (token_json (token_claims subject roles (au_issuer a) (au_audience a) issued life)))) as Hl.
      unfold sk_sign in E. by rewrite E in Hl.
    + apply ed_sign_length.
    + apply ed_sign_verifies.
    + apply b64u_decode_encode; [apply json_text_nonempty | by left].
    + auto.
  - done.
  - intros _. apply String.eqb_refl.
  - exists exp. by split_and!.
Qed.

(** [asserted_header] mode takes the headers at their word: no header means
    no identity, and otherwise the subject is the header's (or "anonymous") and
    the roles are its non-empty, stripped, comma-separated parts; it never
    refuses and never looks at the token. *)
Theorem identify_asserted `{Ed25519, TokenJson} :
  forall a bearer asserted_subject asserted_roles now, au_mode a = AssertedHeader ->
    (identify a bearer asserted_subject asserted_roles now = Ok None <->
     asserted_subject = None /\ asserted_roles = None) /\
    exists r, identify a bearer asserted_subject asserted_roles now = Ok r /\
      forall c, r = Some c -> subject c <> "" /\ (forall role, role ∈ roles c -> role <> "" /\
        exists text part, asserted_roles = Some text /\ part ∈ split_on "," text /\ role = strip part).
Proof.
  intros a bearer su ro now Hm. unfold identify. rewrite Hm. split.
  { destruct su, ro; split; try done; by intros [? ?]. }
  destruct su as [s|], ro as [r|]; (eexists; split; [done|]); try (by intros ? [=]);
    intros c [= <-]; cbn [subject roles CallerIdentity_of];
    (split; [try destruct (is_empty s) eqn:E; try done; try by apply is_empty_false|]);
    intros role Hr; apply elem_of_list_to_set in Hr; unfold stripped in Hr;
    apply list_elem_of_In, filter_In in Hr as [Hr Hne];
    apply negb_true_iff, is_empty_false in Hne; split; try done;
    apply in_map_iff in Hr as (part & <- & Hp); try (destruct Hp as [<-|[]]; done);
    exists r, part; by rewrite list_elem_of_In.
Qed.

(** ** Concrete tokens for the witnesses *)

Definition demo_token_header : dict := token_header demo_signing_key.
Definition demo_token_claims : dict :=
  token_claims "alice" [" support-agent "; " "] "https://issuer" "toollayer" 1000 300.
Definition demo_token_json (raw : string) : M pyval :=
  if String.eqb raw (token_json demo_token_header) then Ok (VDict demo_token_header)
  else if String.eqb raw (token_json demo_token_claims) then Ok (VDict demo_token_claims)
  else raise (Raised ValueError "Expecting value").
#[export] Instance demo_token_parser : TokenJson := {| json_loads_bytes := demo_token_json |}.
Definition demo_authenticator : CallerAuthenticator :=
  MkAuthenticator VerifiedToken [public_key demo_signing_key] "https://issuer" "toollayer".
Definition demo_token : string :=
  match issue_caller_token demo_signing_key "alice" [" support-agent "; " "] "https://issuer" "toollayer"
          (float_of_Z 1000) 300 with
  | Ok t => t
  | Err _ => ""
  end.

Lemma identify_verified_exact_witness :
  exists claims, authentic demo_authenticator demo_token (float_of_Z 1330) claims /\
    get "sub" claims = VStr "alice".
Proof.
  assert (identify demo_authenticator (Some demo_token) None None (float_of_Z 1330) =
          Ok (Some (CallerIdentity_of "alice" ["support-agent"]))) as Hid by (vm_compute; reflexivity).
  destruct (proj1 (identify_verified_exact demo_authenticator (Some demo_token) None None (float_of_Z 1330) _ eq_refl) Hid)
    as (_ & _ & token & claims & name & roles & Ht & Hc & Hs & _ & _ & Hr).
  exists claims. injection Ht as <-. split; [exact Hc|].
  assert (name = "alice") as <- by (injection Hr; intros _ E; symmetry; exact E). exact Hs.
Defined.

Lemma issued_token_accepted_witness :
  identify demo_authenticator (Some demo_token) None None (float_of_Z 1200) =
    Ok (Some (CallerIdentity_of "alice" (stripped [" support-agent "; " "]))).
Proof.
  apply (issued_token_accepted demo_authenticator demo_signing_key "alice" [" support-agent "; " "]
    (float_of_Z 1000) 1000 300 (float_of_Z 1200) demo_token (float_of_Z 1300)).
  - reflexivity.
  - discriminate.
  - discriminate.
  - vm_compute. reflexivity.
  - vm_compute. reflexivity.
  - vm_compute. reflexivity.
  - apply Nat.leb_le. vm_compute. reflexivity.
  - intros d [->| ->]; vm_compute; reflexivity.
  - vm_compute. reflexivity.
  - vm_compute. reflexivity.
Defined.

Lemma identify_asserted_witness :
  exists c, identify (MkAuthenticator AssertedHeader [] "" "") None None (Some " admin, ") (float_of_Z 0) = Ok (Some c) /\
    subject c <> "".
Proof.
  destruct (proj2 (identify_asserted (MkAuthenticator AssertedHeader [] "" "") None None (Some " admin, ")
    (float_of_Z 0) eq_refl)) as (r & Hr & Hc).
  destruct r as [c|]; [|discriminate Hr]. exists c. split; [exact Hr|]. exact (proj1 (Hc c eq_refl)).
Defined.

(** A token that is one second past its tolerance is refused. *)
Example expired_token_refused :
  identify demo_authenticator (Some demo_token) None None (float_of_Z 1331) =
    raise (InvalidCallerToken "the caller token has expired").
Proof. vm_compute. reflexivity. Qed.

(** An expiry that is not a number, or infinite, which the JSON parser accepts,
    satisfies the check that the token expires and then never expires. *)
Lemma not_a_number_never_expires now :
  check_times now {{ "exp" ~> VFloat S754_nan }} = Ok tt /\
  check_times now {{ "exp" ~> VFloat (S754_infinity false) }} = Ok tt.
Proof. by destruct now as [[]|[]| |[]]. Qed.

(** A payload with a character outside ASCII makes the signature check raise
    [UnicodeEncodeError], which is no tool layer error. *)
Lemma non_ascii_payload_escapes :
  exists m, identify demo_authenticator
    (Some (b64u_encode (token_json demo_token_header) +:+ "." +:+ String "233" "" +:+ "." +:+ "AAAA"))
    None None (float_of_Z 0) = Err (Raised UnicodeEncodeError m).
Proof. eexists. vm_compute. reflexivity. Qed.
