(* ===== verification/Settings.v ===== *)
(** * Configuration from the environment

    [runtime_service/config.py] and [control_plane/config.py]: reading and
    validating the settings of the two services.  The environment is a function
    from names to their values. *)

From S2P Require Export Snapshot Identity Destinations Executor.
From Stdlib Require Import Floats.SpecFloat.

(** ** [float(text)] *)

(** Underscores only between digits. *)
Fixpoint without_underscores (previous_digit : bool) (s : string) : option string :=
  match s with
  | "" => Some ""
  | String c s =>
      if Ascii.eqb c "_" then
        match s with
        | String d _ => if previous_digit && is_digit d then without_underscores false s else None
        | "" => None
        end
      else option_map (String c) (without_underscores (is_digit c) s)
  end.
Fixpoint span_digits (s : string) : string * string :=
  match s with
  | "" => ("", "")
  | String c r => if is_digit c then let '(ds, r) := span_digits r in (String c ds, r) else ("", s)
  end.
Definition signed (s : string) : bool * string :=
  match s with
  | String "-" s => (true, s)
  | String "+" s => (false, s)
  | _ => (false, s)
  end.
Definition with_sign (negative : bool) (z : Z) : Z := if negative then (- z)%Z else z.
(** The binary64 number nearest to [m * 10 ^ e]: the quotient keeps 66 bits and
    a sticky bit, so the one rounding is that of [binary_normalize]. *)
Definition decimal_float (negative : bool) (m : N) (digits : nat) (e : Z) : spec_float :=
  if (m =? 0)%N then S754_zero negative
  else if (310 <? Z.of_nat digits + e)%Z then S754_infinity negative
  else if (Z.of_nat digits + e <? -330)%Z then S754_zero negative
  else if (0 <=? e)%Z then binary_normalize 53 1024 (with_sign negative (Z.of_N m * 10 ^ e)) 0 negative
  else
    let d := (10 ^ (- e))%Z in
    let shift := Z.max 0 (66 + Z.log2 d - Z.log2 (Z.of_N m)) in
    let '(q, r) := Z.div_eucl (Z.of_N m * 2 ^ shift) d in
    binary_normalize 53 1024 (with_sign negative (2 * q + (if (r =? 0)%Z then 0 else 1))) (- shift - 1) negative.
Fixpoint lstrip_zeros (s : string) : string :=
  match s with String "0" s => lstrip_zeros s | _ => s end.
Definition float_literal (negative : bool) (s : string) : option spec_float :=
  let '(whole, rest) := span_digits s in
  let '(fraction, rest) := match rest with String "." r => span_digits r | _ => ("", rest) end in
  if is_empty (whole +:+ fraction) then None
  else
    let exponent :=
      match rest with
      | "" => Some 0%Z
      | String e r =>
          if Ascii.eqb (lower_char e) "e" then
            let '(negative, r) := signed r in
            let '(ds, r) := span_digits r in
            if is_empty ds || negb (is_empty r) then None else Some (with_sign negative (Z.of_N (dec_value 0 ds)))
          else None
      end in
    e ← exponent;
    let digits := lstrip_zeros (whole +:+ fraction) in
    Some (decimal_float negative (dec_value 0 digits) (slen digits) (e - Z.of_nat (slen fraction))).
Definition float_of_text (s : string) : option spec_float :=
  s ← without_underscores false (strip_by int_space s);
  let '(negative, s) := signed s in
  if str_in (lower s) ["inf"; "infinity"] then Some (S754_infinity negative)
  else if String.eqb (lower s) "nan" then Some S754_nan
  else float_literal negative s.
Example float_of_text_examples :
  map float_of_text ["3.0"; " 10 "; "1e-1"; "1_0.5"; "-.5E2"; "1__0"; "nan"; "1e400"; "0.1x"; "4.9e-324"] =
  [Some (sf_of_Z 3); Some (sf_of_Z 10); Some (S754_finite false 7205759403792794 (-56));
   Some (S754_finite false 5910974510923776 (-49)); Some (sf_of_Z (-50)); None; Some S754_nan;
   Some (S754_infinity false); None; Some (S754_finite false 1 (-1074))].
Proof. vm_compute. reflexivity. Qed.

(** ** Reading variables *)

Abbreviation environment := (string -> option string).
Definition configuration_error {A} (m : string) : M A := raise (Raised ConfigurationError m).

(** [os.environ.get(name, default)], and [os.environ.get(name) or default]. *)
Definition env_get (env : environment) (name default : string) : string :=
  match env name with Some raw => raw | None => default end.
Definition env_or (env : environment) (name default : string) : string :=
  match env name with Some (String _ _ as raw) => raw | _ => default end.

Definition truthy_text (raw : string) : bool := str_in (lower (strip raw)) ["1"; "true"; "yes"; "on"].
Definition env_bool (env : environment) (name : string) : bool :=
  match env name with Some raw => truthy_text raw | None => false end.
Definition env_float (env : environment) (name : string) (default : spec_float) : M spec_float :=
  match env name with
  | None => Ok default
  | Some raw => of_option (Raised ConfigurationError (name +:+ " must be a number")) (float_of_text raw)
  end.
Definition env_int (env : environment) (name : string) (default : Z) : M Z :=
  match env name with
  | None => Ok default
  | Some raw => of_option (Raised ConfigurationError (name +:+ " must be an integer")) (py_int raw)
  end.
Definition env_tuple (env : environment) (name : string) : list string :=
  stripped (split_on "," (env_get env name "")).
Definition env_mode (env : environment) (name default : string) : string :=
  match strip (env_get env name "") with "" => default | mode => mode end.

(** ** The runtime *)

Definition DEV_SERVICE_TOKEN : string := "dev-service-token-change-me".

Record RuntimeSettings := MkRuntimeSettings {
  rs_control_plane_url : string;
  rs_service_token : string;
  rs_deployment_key : string;
  rs_allowed_origins : list string;
  rs_allow_plaintext_http : bool;
  rs_allow_loopback : bool;
  rs_allow_private_addresses : bool;
  rs_connect_timeout_seconds : spec_float;
  rs_read_timeout_seconds : spec_float;
  rs_max_response_bytes : Z;
  rs_snapshot_refresh_seconds : Z;
  rs_cors_origins : list string;
  rs_snapshot_verification : string;
  rs_snapshot_trusted_keys : list string;
  rs_caller_auth_mode : string;
  rs_caller_token_trusted_keys : list string;
  rs_caller_token_issuer : string;
  rs_caller_token_audience : string;
}.
Definition VERIFICATION_MODES : list (string * VerificationMode) := [("required", Snapshot.Required); ("disabled", Snapshot.Disabled)].
Definition CALLER_AUTH_MODES : list (string * CallerAuthMode) :=
  [("asserted_header", AssertedHeader); ("verified_token", VerifiedToken)].

(** Key material that does not parse stops the process. *)
Definition usable_keys (message : string) {A} (c : M A) : M A :=
  except c (is_class InvalidKeyMaterial) (fun error => configuration_error (message +:+ exn_message error)).
Definition check_caller_auth (s : RuntimeSettings) (caller_ring : TrustedKeyRing) : M unit :=
  if String.eqb (rs_caller_auth_mode s) "verified_token" then
    match caller_ring with
    | [] => configuration_error "verified caller authentication needs TOOLLAYER_CALLER_TOKEN_TRUSTED_KEYS"
    | _ :: _ =>
        if is_empty (rs_caller_token_issuer s) || is_empty (rs_caller_token_audience s) then
          configuration_error "verified caller authentication needs both TOOLLAYER_CALLER_TOKEN_ISSUER and TOOLLAYER_CALLER_TOKEN_AUDIENCE"
        else Ok tt
    end
  else Ok tt.
(** [__post_init__]. *)
Definition RuntimeSettings_new (s : RuntimeSettings) : M RuntimeSettings :=
  if is_none (alookup (rs_snapshot_verification s) VERIFICATION_MODES) then
    configuration_error "TOOLLAYER_SNAPSHOT_VERIFICATION must be 'required' or 'disabled'"
  else if is_none (alookup (rs_caller_auth_mode s) CALLER_AUTH_MODES) then
    configuration_error "TOOLLAYER_CALLER_AUTH_MODE must be 'asserted_header' or 'verified_token'"
  else
    let* rings := usable_keys "a configured trusted key is unusable: "
      (let* snapshot_ring := ring_parse (rs_snapshot_trusted_keys s) in
       let* caller_ring := ring_parse (rs_caller_token_trusted_keys s) in
       Ok (snapshot_ring, caller_ring)) in
    let '(snapshot_ring, caller_ring) := rings in
    match String.eqb (rs_snapshot_verification s) "required", snapshot_ring with
    | true, [] =>
        configuration_error "snapshot signature verification is required but no trusted key is configured; set TOOLLAYER_SNAPSHOT_TRUSTED_KEYS, or set TOOLLAYER_SNAPSHOT_VERIFICATION=disabled to run the unsigned demonstration"
    | _, _ => let* _ := check_caller_auth s caller_ring in Ok s
    end.

Definition snapshot_verification_policy (s : RuntimeSettings) : M SnapshotVerification :=
  let* ring := ring_parse (rs_snapshot_trusted_keys s) in
  Ok (MkVerification (default Required (alookup (rs_snapshot_verification s) VERIFICATION_MODES)) ring).
Definition caller_authenticator (s : RuntimeSettings) : M CallerAuthenticator :=
  let* ring := ring_parse (rs_caller_token_trusted_keys s) in
  Ok (MkAuthenticator (default VerifiedToken (alookup (rs_caller_auth_mode s) CALLER_AUTH_MODES)) ring
        (rs_caller_token_issuer s) (rs_caller_token_audience s)).
Definition destination_policy (s : RuntimeSettings) : M DestinationPolicy :=
  from_origins (rs_allowed_origins s) (Some DEFAULT_ALLOWED_METHODS)
    (rs_allow_plaintext_http s) (rs_allow_loopback s) (rs_allow_private_addresses s).
Definition execution_limits (s : RuntimeSettings) : M ExecutionLimits :=
  ExecutionLimits_new (MkLimits (rs_connect_timeout_seconds s) (rs_read_timeout_seconds s) (rs_max_response_bytes s)).
Definition relaxed_for_local_development (s : RuntimeSettings) : bool :=
  rs_allow_plaintext_http s || rs_allow_loopback s || rs_allow_private_addresses s.
Definition security_posture (s : RuntimeSettings) : M dict :=
  let* ring := ring_parse (rs_snapshot_trusted_keys s) in
  Ok {{ "destination_policy_relaxed" ~> VBool (relaxed_for_local_development s);
        "snapshot_verification" ~> VStr (rs_snapshot_verification s);
        "snapshot_trusted_key_ids" ~> strs (key_ids ring);
        "caller_authentication" ~> VStr (rs_caller_auth_mode s);
        "caller_identity_is_verified" ~> VBool (String.eqb (rs_caller_auth_mode s) "verified_token") }}.

Definition runtime_get_settings (env : environment) : M RuntimeSettings :=
  let* connect := env_float env "TOOLLAYER_CONNECT_TIMEOUT_SECONDS" (sf_of_Z 3) in
  let* read := env_float env "TOOLLAYER_READ_TIMEOUT_SECONDS" (sf_of_Z 10) in
  let* bytes := env_int env "TOOLLAYER_MAX_RESPONSE_BYTES" (1024 * 1024) in
  let* refresh := env_int env "TOOLLAYER_SNAPSHOT_REFRESH_SECONDS" 60 in
  RuntimeSettings_new {|
    rs_control_plane_url := env_get env "TOOLLAYER_CONTROL_PLANE_URL" "http://localhost:8080";
    rs_service_token := env_or env "TOOLLAYER_SERVICE_TOKEN" DEV_SERVICE_TOKEN;
    rs_deployment_key := env_get env "TOOLLAYER_DEPLOYMENT_KEY" "demo-workspace";
    rs_allowed_origins := env_tuple env "TOOLLAYER_ALLOWED_ORIGINS";
    rs_allow_plaintext_http := env_bool env "TOOLLAYER_ALLOW_PLAINTEXT_HTTP";
    rs_allow_loopback := env_bool env "TOOLLAYER_ALLOW_LOOPBACK_DESTINATIONS";
    rs_allow_private_addresses := env_bool env "TOOLLAYER_ALLOW_PRIVATE_ADDRESSES";
    rs_connect_timeout_seconds := connect;
    rs_read_timeout_seconds := read;
    rs_max_response_bytes := bytes;
    rs_snapshot_refresh_seconds := refresh;
    rs_cors_origins := match env_tuple env "TOOLLAYER_RUNTIME_CORS_ORIGINS" with
                       | [] => ["http://localhost:5173"]
                       | origins => origins
                       end;
    rs_snapshot_verification := env_mode env "TOOLLAYER_SNAPSHOT_VERIFICATION" "required";
    rs_snapshot_trusted_keys := env_tuple env "TOOLLAYER_SNAPSHOT_TRUSTED_KEYS";
    rs_caller_auth_mode := env_mode env "TOOLLAYER_CALLER_AUTH_MODE" "asserted_header";
    rs_caller_token_trusted_keys := env_tuple env "TOOLLAYER_CALLER_TOKEN_TRUSTED_KEYS";
    rs_caller_token_issuer := strip (env_get env "TOOLLAYER_CALLER_TOKEN_ISSUER" "");
    rs_caller_token_audience := strip (env_get env "TOOLLAYER_CALLER_TOKEN_AUDIENCE" "") |}.

(** ** The Control Plane *)

Definition MIN_TOKEN_LENGTH : nat := 16.
Definition DEV_ADMIN_TOKEN : string := "dev-admin-token-change-me".

Record ControlPlaneSettings := MkControlPlaneSettings {
  cs_database_url : string;
  cs_admin_token : string;
  cs_service_token : string;
  cs_cors_origins : list string;
  cs_max_source_bytes : Z;
  cs_snapshot_signing_key : string;
  cs_snapshot_signing_key_id : string;
}.
Definition ControlPlaneSettings_new (s : ControlPlaneSettings) : M ControlPlaneSettings :=
  if (slen (cs_admin_token s) <? MIN_TOKEN_LENGTH)%nat then
    configuration_error ("the admin token must be at least " +:+ str_of_N (N.of_nat MIN_TOKEN_LENGTH) +:+ " characters")
  else if (slen (cs_service_token s) <? MIN_TOKEN_LENGTH)%nat then
    configuration_error ("the service token must be at least " +:+ str_of_N (N.of_nat MIN_TOKEN_LENGTH) +:+ " characters")
  else if String.eqb (cs_admin_token s) (cs_service_token s) then
    configuration_error "the admin and service tokens must differ"
  else if is_empty (cs_database_url s) then configuration_error "a database URL is required"
  else if xorb (is_empty (cs_snapshot_signing_key s)) (is_empty (cs_snapshot_signing_key_id s)) then
    configuration_error "a snapshot signing key and its key id must be configured together"
  else if is_empty (cs_snapshot_signing_key s) then Ok s
  else
    let* _ := usable_keys "the snapshot signing key is unusable: "
      (signing_key_from_encoded (cs_snapshot_signing_key_id s) (cs_snapshot_signing_key s)) in
    Ok s.
Definition uses_development_tokens (s : ControlPlaneSettings) : bool :=
  String.eqb (cs_admin_token s) DEV_ADMIN_TOKEN || String.eqb (cs_service_token s) DEV_SERVICE_TOKEN.
Definition signs_snapshots (s : ControlPlaneSettings) : bool := negb (is_empty (cs_snapshot_signing_key s)).
Definition signing_key (s : ControlPlaneSettings) : M (option SigningKey) :=
  if is_empty (cs_snapshot_signing_key s) then Ok None
  else
    let* key := signing_key_from_encoded (cs_snapshot_signing_key_id s) (cs_snapshot_signing_key s) in
    Ok (Some key).
Definition env_tuple_or (env : environment) (name : string) (default : list string) : list string :=
  match env name with Some raw => stripped (split_on "," raw) | None => default end.
Definition control_plane_get_settings (env : environment) : M ControlPlaneSettings :=
  let* bytes := env_int env "TOOLLAYER_MAX_SOURCE_BYTES" (2 * 1024 * 1024) in
  ControlPlaneSettings_new {|
    cs_database_url := env_or env "TOOLLAYER_CONTROL_PLANE_DATABASE_URL" "sqlite:///./data/control-plane.db";
    cs_admin_token := env_or env "TOOLLAYER_ADMIN_TOKEN" DEV_ADMIN_TOKEN;
    cs_service_token := env_or env "TOOLLAYER_SERVICE_TOKEN" DEV_SERVICE_TOKEN;
    cs_cors_origins := env_tuple_or env "TOOLLAYER_CONTROL_PLANE_CORS_ORIGINS" ["http://localhost:5173"];
    cs_max_source_bytes := bytes;
    cs_snapshot_signing_key := strip (env_get env "TOOLLAYER_SNAPSHOT_SIGNING_KEY" "");
    cs_snapshot_signing_key_id := strip (env_get env "TOOLLAYER_SNAPSHOT_SIGNING_KEY_ID" "") |}.

(** ** What settings guarantee *)

Lemma except_keys_Ok {A} message (c : M A) a : usable_keys message c = Ok a <-> c = Ok a.
Proof.
  unfold usable_keys, except. destruct c as [x|e]; [done|]. destruct (is_class _ e); split; done.
Qed.
Lemma RuntimeSettings_new_inv s s' :
  RuntimeSettings_new s = Ok s' ->
  s' = s /\ exists m a sr cr,
    alookup (rs_snapshot_verification s) VERIFICATION_MODES = Some m /\
    alookup (rs_caller_auth_mode s) CALLER_AUTH_MODES = Some a /\
    ring_parse (rs_snapshot_trusted_keys s) = Ok sr /\ ring_parse (rs_caller_token_trusted_keys s) = Ok cr /\
    (rs_snapshot_verification s = "required" -> sr <> []) /\
    (rs_caller_auth_mode s = "verified_token" ->
       cr <> [] /\ rs_caller_token_issuer s <> "" /\ rs_caller_token_audience s <> "").
Proof.
  unfold RuntimeSettings_new. destruct (alookup _ VERIFICATION_MODES) as [m|] eqn:Em; [|done].
  destruct (alookup _ CALLER_AUTH_MODES) as [a|] eqn:Ea; [|done]. cbn [is_none].
  intros ([sr cr] & Hr%except_keys_Ok & Hs)%bind_Ok. apply bind_Ok in Hr as (sr' & Hsr & Hr).
  apply bind_Ok in Hr as (cr' & Hcr & [= -> ->]).
  assert (s' = s /\ check_caller_auth s cr = Ok tt /\ (rs_snapshot_verification s = "required" -> sr <> [])) as (-> & Hc & Hne).
  { destruct (String.eqb_spec (rs_snapshot_verification s) "required").
    - destruct sr; [done|]. by apply bind_Ok in Hs as ([] & ? & [= <-]).
    - by apply bind_Ok in Hs as ([] & ? & [= <-]). }
  split; [done|]. exists m, a, sr, cr. split_and!; try done. intros Hv. unfold check_caller_auth in Hc.
  rewrite Hv in Hc. change (String.eqb "verified_token" "verified_token") with true in Hc.
  destruct cr; [done|]. destruct (rs_caller_token_issuer s), (rs_caller_token_audience s); done.
Qed.
Lemma runtime_get_settings_inv env s :
  runtime_get_settings env = Ok s -> RuntimeSettings_new s = Ok s /\
  rs_allowed_origins s = env_tuple env "TOOLLAYER_ALLOWED_ORIGINS" /\
  rs_allow_plaintext_http s = env_bool env "TOOLLAYER_ALLOW_PLAINTEXT_HTTP" /\
  rs_allow_loopback s = env_bool env "TOOLLAYER_ALLOW_LOOPBACK_DESTINATIONS" /\
  rs_allow_private_addresses s = env_bool env "TOOLLAYER_ALLOW_PRIVATE_ADDRESSES" /\
  rs_snapshot_verification s = env_mode env "TOOLLAYER_SNAPSHOT_VERIFICATION" "required" /\
  rs_caller_auth_mode s = env_mode env "TOOLLAYER_CALLER_AUTH_MODE" "asserted_header".
Proof.
  unfold runtime_get_settings.
  intros (c & _ & (r & _ & (b & _ & (f & _ & Hn)%bind_Ok)%bind_Ok)%bind_Ok)%bind_Ok.
  pose proof (RuntimeSettings_new_inv _ _ Hn) as [-> _]. split; [exact Hn|]. done.
Qed.
Lemma from_origins_Ok origins methods a b c p :
  from_origins origins methods a b c = Ok p ->
  allow_plaintext_http p = a /\ allow_loopback p = b /\ allow_private_addresses p = c /\
  (origins = [] -> allowed_origins p = ∅).
Proof. intros (n & Hn & [= <-])%bind_Ok. split_and!; try done. intros ->. by injection Hn as <-. Qed.
Lemma env_mode_default env name d m :
  env_mode env name d = m -> m <> d -> strip (env_get env name "") = m.
Proof. unfold env_mode. destruct (strip _); congruence. Qed.

Lemma required_unless_disabled env s v :
  runtime_get_settings env = Ok s -> snapshot_verification_policy s = Ok v ->
  strip (env_get env "TOOLLAYER_SNAPSHOT_VERIFICATION" "") <> "disabled" -> mode v = Snapshot.Required.
Proof.
  intros (Hn & _ & _ & _ & _ & Hv & _)%runtime_get_settings_inv Hp Hne.
  apply RuntimeSettings_new_inv in Hn as (_ & m & _ & sr & _ & Em & _ & Hsr & _).
  unfold snapshot_verification_policy in Hp. rewrite Hsr, Em in Hp. injection Hp as <-. cbn [mode default].
  unfold VERIFICATION_MODES in Em. cbn [alookup] in Em. case_bool_decide as E; [by injection Em as <-|].
  case_bool_decide as E'; [|done]. destruct Hne. rewrite E' in Hv. symmetry in Hv.
  by apply (env_mode_default _ _ "required" "disabled").
Qed.
Lemma verified_caller_mode s a :
  caller_authenticator s = Ok a -> rs_caller_auth_mode s = "verified_token" -> au_mode a = VerifiedToken.
Proof. unfold caller_authenticator. intros (r & _ & [= <-])%bind_Ok ->. done. Qed.

(** C28. A runtime is as strict as its environment leaves it.  Settings that
    were accepted verify snapshots against at least one trusted key, unless the
    environment says "disabled" in so many words; verify caller tokens against a
    key, an issuer and an audience when they verify them at all; and enable an
    escape hatch of the destination policy only if its own variable does: with
    no origin configured nothing is allowed. *)
Theorem runtime_settings_strict :
  forall env s,
    runtime_get_settings env = Ok s ->
    exists verification authenticator,
      snapshot_verification_policy s = Ok verification /\ caller_authenticator s = Ok authenticator /\
      (mode verification = Snapshot.Required /\ trusted_keys verification <> [] \/
       mode verification = Snapshot.Disabled /\ strip (env_get env "TOOLLAYER_SNAPSHOT_VERIFICATION" "") = "disabled") /\
      (au_mode authenticator = AssertedHeader \/
       au_mode authenticator = VerifiedToken /\ au_trusted_keys authenticator <> [] /\
       au_issuer authenticator <> "" /\ au_audience authenticator <> "" /\
       strip (env_get env "TOOLLAYER_CALLER_AUTH_MODE" "") = "verified_token") /\
      forall policy, destination_policy s = Ok policy ->
        allow_plaintext_http policy = env_bool env "TOOLLAYER_ALLOW_PLAINTEXT_HTTP" /\
        allow_loopback policy = env_bool env "TOOLLAYER_ALLOW_LOOPBACK_DESTINATIONS" /\
        allow_private_addresses policy = env_bool env "TOOLLAYER_ALLOW_PRIVATE_ADDRESSES" /\
        (env "TOOLLAYER_ALLOWED_ORIGINS" = None -> allowed_origins policy = ∅).
Proof.
  intros env s (Hn & Ho & Hp & Hl & Hpr & Hv & Ha)%runtime_get_settings_inv.
  apply RuntimeSettings_new_inv in Hn as (_ & m & a & sr & cr & Em & Ea & Hsr & Hcr & Hreq & Hver).
  unfold snapshot_verification_policy, caller_authenticator. rewrite Hsr, Hcr, Em, Ea. cbn [bind default].
  eexists _, _. split; [done|]. split; [done|]. cbn [mode trusted_keys au_mode au_trusted_keys au_issuer au_audience]. split_and!.
  - unfold VERIFICATION_MODES in Em. cbn [alookup] in Em. case_bool_decide as E; [injection Em as <-; left; auto|].
    case_bool_decide as E'; [|done]. injection Em as <-. right. split; [done|]. rewrite E' in Hv. symmetry in Hv.
    by apply (env_mode_default _ _ "required" "disabled").
  - unfold CALLER_AUTH_MODES in Ea. cbn [alookup] in Ea. case_bool_decide as E; [injection Ea as <-; by left|].
    case_bool_decide as E'; [|done]. injection Ea as <-. right. destruct (Hver E') as (? & ? & ?). split_and!; try done.
    rewrite E' in Ha. symmetry in Ha. by apply (env_mode_default _ _ "asserted_header" "verified_token").
  - intros policy (Hq1 & Hq2 & Hq3 & Hq4)%from_origins_Ok. rewrite Hq1, Hq2, Hq3. split_and!; try done.
    intros Hnone. apply Hq4. rewrite Ho. unfold env_tuple, env_get. by rewrite Hnone.
Qed.

(** A deployment that verifies snapshots and callers and allows one origin. *)
Definition demo_environment : environment :=
  fun name => alookup name
    [("TOOLLAYER_SNAPSHOT_TRUSTED_KEYS", " demo-key:" +:+ demo_key_text);
     ("TOOLLAYER_CALLER_AUTH_MODE", "verified_token");
     ("TOOLLAYER_CALLER_TOKEN_TRUSTED_KEYS", "issuer-key:" +:+ demo_key_text);
     ("TOOLLAYER_CALLER_TOKEN_ISSUER", "https://issuer.example.com");
     ("TOOLLAYER_CALLER_TOKEN_AUDIENCE", "runtime");
     ("TOOLLAYER_ALLOWED_ORIGINS", "http://localhost:9000, ");
     ("TOOLLAYER_ALLOW_PLAINTEXT_HTTP", "Yes");
     ("TOOLLAYER_SNAPSHOT_SIGNING_KEY", demo_key_text);
     ("TOOLLAYER_SNAPSHOT_SIGNING_KEY_ID", "demo-key")].

Lemma runtime_settings_strict_witness :
  exists s, runtime_get_settings demo_environment = Ok s /\
    exists verification, snapshot_verification_policy s = Ok verification /\ mode verification = Snapshot.Required.
Proof.
  destruct (runtime_get_settings demo_environment) as [s|e] eqn:E; [|exfalso; vm_compute in E; discriminate].
  exists s. split; [done|]. destruct (runtime_settings_strict demo_environment s E) as (v & a & Hv & _ & [[Hm _]|[_ Hm]] & _);
    [by exists v | exfalso; vm_compute in Hm; discriminate].
Defined.

(** The health report hides no relaxation: for accepted settings it says
    that the destination policy is relaxed exactly when one of its escape
    hatches is open, names the mode in which snapshots are verified and exactly
    the keys trusted for it, and says that callers are verified exactly when the
    authenticator verifies them. *)
Theorem security_posture_exact :
  forall env s policy verification authenticator,
    runtime_get_settings env = Ok s ->
    destination_policy s = Ok policy -> snapshot_verification_policy s = Ok verification ->
    caller_authenticator s = Ok authenticator ->
    exists posture, security_posture s = Ok posture /\
      get "destination_policy_relaxed" posture =
        VBool (allow_plaintext_http policy || allow_loopback policy || allow_private_addresses policy) /\
      get "snapshot_verification" posture = VStr (if enforced verification then "required" else "disabled") /\
      get "snapshot_trusted_key_ids" posture = strs (key_ids (trusted_keys verification)) /\
      get "caller_identity_is_verified" posture = VBool (verifies_identity authenticator).
Proof.
  intros env s policy v a (Hn & _)%runtime_get_settings_inv Hp Hv Ha.
  apply RuntimeSettings_new_inv in Hn as (_ & m & am & sr & cr & Em & Ea & Hsr & Hcr & _).
  unfold snapshot_verification_policy in Hv. unfold caller_authenticator in Ha. rewrite Hsr, Em in Hv. rewrite Hcr, Ea in Ha.
  injection Hv as <-. injection Ha as <-. apply from_origins_Ok in Hp as (-> & -> & -> & _).
  unfold security_posture. rewrite Hsr. cbn [bind]. eexists. split; [done|]. split_and!; try done.
  - unfold VERIFICATION_MODES in Em. cbn [alookup] in Em. repeat case_bool_decide; try done; injection Em as <-; cbn; f_equal;
      match goal with E : rs_snapshot_verification s = _ |- _ => by rewrite E end.
  - unfold CALLER_AUTH_MODES in Ea. cbn [alookup] in Ea. repeat case_bool_decide; try done; injection Ea as <-; cbn; f_equal;
      match goal with E : rs_caller_auth_mode s = _ |- _ => by rewrite E end.
Qed.

Lemma security_posture_exact_witness :
  exists s posture, runtime_get_settings demo_environment = Ok s /\ security_posture s = Ok posture /\
    get "destination_policy_relaxed" posture = VBool true /\ get "snapshot_trusted_key_ids" posture = strs ["demo-key"].
Proof.
  destruct (runtime_get_settings demo_environment) as [s|e] eqn:E; [|exfalso; vm_compute in E; discriminate].
  exists s. vm_compute in E. injection E as <-.
  edestruct (security_posture_exact demo_environment) as (posture & Hs & Hr & _ & Hk & _);
    [vm_compute; reflexivity..|].
  exists posture. split_and!; [vm_compute; reflexivity | exact Hs | rewrite Hr; reflexivity | rewrite Hk; reflexivity].
Defined.

(** The two credentials of the Control Plane are two: accepted settings
    have an administrator and a service token of at least 16 characters that
    differ, and a signing key that parses or none at all. *)
Theorem control_plane_settings_sound :
  forall env s,
    control_plane_get_settings env = Ok s ->
    (16 <= slen (cs_admin_token s))%nat /\ (16 <= slen (cs_service_token s))%nat /\
    cs_admin_token s <> cs_service_token s /\ cs_database_url s <> "" /\
    (signs_snapshots s = false /\ signing_key s = Ok None \/
     exists key, signs_snapshots s = true /\ signing_key s = Ok (Some key) /\ sk_key_id key = cs_snapshot_signing_key_id s).
Proof.
  intros env s (b & _ & Hs)%bind_Ok. set (raw := MkControlPlaneSettings _ _ _ _ _ _ _) in Hs. clearbody raw.
  unfold ControlPlaneSettings_new, MIN_TOKEN_LENGTH in Hs.
  destruct (Nat.ltb_spec (slen (cs_admin_token raw)) 16); [done|].
  destruct (Nat.ltb_spec (slen (cs_service_token raw)) 16); [done|].
  destruct (String.eqb_spec (cs_admin_token raw) (cs_service_token raw)); [done|].
  destruct (is_empty (cs_database_url raw)) eqn:Hd; [done|]. destruct (xorb _ _); [done|].
  destruct (is_empty (cs_snapshot_signing_key raw)) eqn:Hk.
  - assert (s = raw) as -> by congruence. split_and!; try done; [by intros E; rewrite E in Hd|].
    left. unfold signs_snapshots, signing_key. by rewrite Hk.
  - apply bind_Ok in Hs as (key & Hkey%except_keys_Ok & [= ->]). split_and!; try done; [by intros E; rewrite E in Hd|].
    right. exists key. unfold signs_snapshots, signing_key. rewrite Hk, Hkey. split_and!; try done.
    apply bind_Ok in Hkey as (seed & _ & (id & Hid & [= <-])%bind_Ok). unfold require_key_id in Hid.
    destruct (negb _); [done|]. by injection Hid as <-.
Qed.

Lemma control_plane_settings_sound_witness :
  exists s key, control_plane_get_settings demo_environment = Ok s /\
    signing_key s = Ok (Some key) /\ sk_key_id key = "demo-key" /\ uses_development_tokens s = true.
Proof.
  destruct (control_plane_get_settings demo_environment) as [s|e] eqn:E; [|exfalso; vm_compute in E; discriminate].
  destruct (control_plane_settings_sound demo_environment s E) as (_ & _ & _ & _ & [[_ Hn]|(key & _ & Hk & Hid)]);
    vm_compute in E; injection E as <-.
  - exfalso. vm_compute in Hn. discriminate.
  - by eexists _, key.
Defined.
