(* ===== verification/KeyTool.v ===== *)
(** * The key generator

    [scripts/generate_signing_key.py]: the pair it draws, the lines it prints,
    and what the two services read back from an environment that holds them.
    The caller's [eval] (or Compose) is modelled for the lines the script
    prints: assignments whose value has no character a shell interprets. *)

From S2P Require Export Settings.

(** ** The script *)

(** [--format]. *)
Inductive output_format := Shell | ComposeEnv.
Record key_arguments := MkKeyArguments { ka_key_id : string; ka_format : output_format }.
Definition FORMAT_CHOICES : list (string * output_format) := [("shell", Shell); ("compose-env", ComposeEnv)].
Definition DEFAULT_KEY_ARGUMENTS : key_arguments := MkKeyArguments "demo-signing-key" Shell.

Definition line_prefix (f : output_format) : string := match f with Shell => "export " | ComposeEnv => "" end.

Section script.
Context `{Ed25519}.

Definition key_values (key : SigningKey) : list (string * string) :=
  [("TOOLLAYER_SNAPSHOT_SIGNING_KEY", encoded_private_key key);
   ("TOOLLAYER_SNAPSHOT_SIGNING_KEY_ID", sk_key_id key);
   ("TOOLLAYER_SNAPSHOT_TRUSTED_KEYS", sk_key_id key +:+ ":" +:+ encoded_public_key key)].
(** One [print]. *)
Definition printed_line (prefix : string) (v : string * string) : string :=
  prefix +:+ v.1 +:+ "=" +:+ v.2 +:+ String newline "".
(** [main]: the seed is what [Ed25519PrivateKey.generate()] draws. *)
Definition key_tool (arguments : key_arguments) (seed : string) : M string :=
  let* key := generate_signing_key (ka_key_id arguments) seed in
  Ok (join "" (map (printed_line (line_prefix (ka_format arguments))) (key_values key))).
End script.

(** ** The reader *)

(** Characters a shell leaves alone in an unquoted word. *)
Definition word_char (c : ascii) : bool :=
  is_lower c || is_upper c || is_digit c || Ascii.eqb c "." || Ascii.eqb c "_" || Ascii.eqb c "-" || Ascii.eqb c ":".
Definition read_assignment (prefix line : string) : option (string * string) :=
  rest ← strip_prefix prefix line;
  let '(name, equals, value) := partition_on "=" rest in
  if equals && sall word_char value then Some (name, value) else None.
Definition with_variable (env : environment) (v : string * string) : environment :=
  fun name => if String.eqb name v.1 then Some v.2 else env name.
(** Each line of the text, which ends in a line feed, is an assignment. *)
Definition read_text (prefix text : string) (env : environment) : option environment :=
  values ← mapM (read_assignment prefix) (removelast (split_on newline text));
  Some (fold_left with_variable values env).

(** ** Lines read back *)

(** A value that can be printed on a line and read from it. *)
Definition plain_value (v : string * string) : Prop :=
  has_char "=" (v.1) = false /\ has_char newline (v.1) = false /\ sall word_char (v.2) = true.

Lemma read_printed_line prefix v : plain_value v -> read_assignment prefix (prefix +:+ v.1 +:+ "=" +:+ v.2) = Some v.
Proof.
  destruct v as [n x]. intros (Hn & _ & Hx). unfold read_assignment. rewrite strip_prefix_app. cbn [mbind option_bind].
  cbn [fst snd] in *. change ("=" +:+ x) with (String "=" x). rewrite partition_on_app by done. cbn [andb]. by rewrite Hx.
Qed.
Lemma word_chars_no_newline s : sall word_char s = true -> has_char newline s = false.
Proof. intros Hs. by apply (has_char_false_all _ word_char). Qed.
Lemma has_char_app c s t : has_char c (s +:+ t) = has_char c s || has_char c t.
Proof. unfold has_char, sany. by rewrite sall_app, negb_andb. Qed.

Lemma split_printed_lines prefix values :
  has_char newline prefix = false -> Forall plain_value values ->
  split_on newline (join "" (map (printed_line prefix) values)) =
  map (fun v => prefix +:+ v.1 +:+ "=" +:+ v.2) values ++ [""].
Proof.
  intros Hp. induction 1 as [|v values Hv _ IH]; [done|].
  assert (join "" (map (printed_line prefix) (v :: values)) =
    (prefix +:+ v.1 +:+ "=" +:+ v.2) +:+ String newline (join "" (map (printed_line prefix) values))) as ->.
  { transitivity (printed_line prefix v +:+ join "" (map (printed_line prefix) values)).
    - cbn [map join]. destruct (map (printed_line prefix) values); [by rewrite sapp_nil_r | done].
    - unfold printed_line. by rewrite !sapp_assoc, sapp_cons, sapp_nil_l. }
  destruct Hv as (_ & Hn & Hx%word_chars_no_newline). rewrite split_on_app; [by rewrite IH|].
  rewrite !has_char_app, Hp, Hn, Hx. done.
Qed.
(** What is printed is read back, whatever the environment held. *)
Lemma read_printed prefix values env :
  has_char newline prefix = false -> Forall plain_value values ->
  read_text prefix (join "" (map (printed_line prefix) values)) env = Some (fold_left with_variable values env).
Proof.
  intros Hp Hv. unfold read_text. rewrite split_printed_lines, removelast_last by done.
  assert (mapM (read_assignment prefix) (map (fun v => prefix +:+ v.1 +:+ "=" +:+ v.2) values) = Some values) as ->; [|done].
  induction Hv as [|v values Hv _ IH]; [done|]. cbn [map mapM]. by rewrite read_printed_line, IH.
Qed.

(** ** Key ids and encoded keys *)

Lemma lstrip_none p q s : (forall c, q c = true -> p c = false) -> sall q s = true -> lstrip_by p s = s.
Proof. intros Hpq. destruct s as [|c s]; [done|]. intros [Hc _]%andb_true_iff. cbn [lstrip_by]. by rewrite Hpq. Qed.
Lemma rstrip_none p q s : (forall c, q c = true -> p c = false) -> sall q s = true -> rstrip_by p s = s.
Proof.
  intros Hpq. induction s as [|c s IH]; [done|]. intros [Hc Hs]%andb_true_iff. cbn [rstrip_by]. rewrite IH by done.
  destruct s; [by rewrite Hpq | done].
Qed.
Lemma word_char_visible c : word_char c = true -> is_space c = false.
Proof.
  assert (forallb (fun n => implb (word_char (ascii_of_nat n)) (negb (is_space (ascii_of_nat n)))) (seq 0 256) = true) as Hall
    by (vm_compute; reflexivity).
  rewrite forallb_Forall, Forall_forall in Hall. intros Hc.
  specialize (Hall (nat_of_ascii c)). rewrite ascii_nat_embedding, Hc in Hall. apply negb_true_iff, Hall.
  apply list_elem_of_In, in_seq. pose proof (nat_ascii_bounded c). lia.
Qed.
Lemma strip_word s : sall word_char s = true -> strip s = s.
Proof.
  intros Hs. unfold strip, strip_by. rewrite (lstrip_none _ word_char), (rstrip_none _ word_char); auto using word_char_visible.
Qed.

(** What [fullmatch] asks of a key id; [match] with [$] also takes a line feed
    after it. *)
Definition plain_key_id (key_id : string) : bool := fullmatch KEY_ID_PATTERN key_id.
Lemma key_id_char_word c : key_id_char c = true -> word_char c = true /\ c <> ":"%char.
Proof.
  unfold key_id_char, key_id_edge, word_char. intros H. split.
  - repeat (apply orb_true_iff in H as [H|H]); rewrite ?H, ?orb_true_r; done.
  - intros ->. by vm_compute in H.
Qed.
Lemma rrep_over p r more : re_over p r -> re_over p (rrep 0 more r).
Proof. intros Hr. induction more as [|n IH]; cbn; [done|]. split; [done|]. split; [done | exact IH]. Qed.
Lemma plain_key_id_chars k : plain_key_id k = true -> sall key_id_char k = true /\ k <> "".
Proof.
  intros H%fullmatch_spec. split; [|intros ->; apply nullable_spec in H; by vm_compute in H].
  eapply matches_over; [|exact H]. unfold KEY_ID_PATTERN. cbn [re_over].
  assert (forall c, key_id_edge c = true -> key_id_char c = true) as He by (intros c Hc; unfold key_id_char; by rewrite Hc).
  split; [exact He|]. split; [|exact He]. apply rrep_over. by intros c Hc.
Qed.
Lemma plain_key_id_word k : plain_key_id k = true -> sall word_char k = true /\ has_char ":" k = false /\ k <> "".
Proof.
  intros [Hk Hne]%plain_key_id_chars. split_and!; [| |done].
  - eapply sall_impl; [|exact Hk]. apply key_id_char_word.
  - by apply (has_char_false_all _ key_id_char).
Qed.
Lemma encoded_word raw : sall word_char (b64u_encode raw) = true.
Proof. by apply b64u_encode_all. Qed.

Lemma require_plain_key_id k : plain_key_id k = true -> require_key_id k = Ok k.
Proof. unfold plain_key_id, require_key_id, match_dollar. by intros ->. Qed.
Lemma not_empty_of_length s n : slen s = S n -> s <> "".
Proof. by intros H ->. Qed.

Lemma one_key_ring_parse k public :
  plain_key_id k = true -> slen public = ED25519_KEY_BYTES ->
  ring_parse [k +:+ ":" +:+ b64u_encode public] = Ok [MkVerifyingKey k public].
Proof.
  intros Hk Hp. destruct (plain_key_id_word k Hk) as (Hw & Hc & _). unfold ring_parse. cbn [ring_parse_go].
  change (":" +:+ b64u_encode public) with (String ":" (b64u_encode public)). rewrite partition_on_app by done. cbn [negb].
  rewrite !strip_word by auto using encoded_word. unfold verifying_key_from_encoded.
  rewrite b64u_decode_encode, require_plain_key_id by (eauto using not_empty_of_length || (right; by rewrite Hp)). done.
Qed.
Lemma signing_key_read_back k seed :
  plain_key_id k = true -> slen seed = ED25519_KEY_BYTES ->
  signing_key_from_encoded k (b64u_encode seed) = Ok (MkSigningKey k seed).
Proof.
  intros Hk Hp. unfold signing_key_from_encoded.
  rewrite b64u_decode_encode, require_plain_key_id by (eauto using not_empty_of_length || (right; by rewrite Hp)). done.
Qed.

(** ** The services in that environment *)

Lemma RuntimeSettings_new_intro s m a sr cr :
  alookup (rs_snapshot_verification s) VERIFICATION_MODES = Some m ->
  alookup (rs_caller_auth_mode s) CALLER_AUTH_MODES = Some a ->
  ring_parse (rs_snapshot_trusted_keys s) = Ok sr -> ring_parse (rs_caller_token_trusted_keys s) = Ok cr ->
  sr <> [] ->
  (rs_caller_auth_mode s = "verified_token" ->
     cr <> [] /\ rs_caller_token_issuer s <> "" /\ rs_caller_token_audience s <> "") ->
  RuntimeSettings_new s = Ok s.
Proof.
  intros Hm Ha Hsr Hcr Hne Hc. unfold RuntimeSettings_new. rewrite Hm, Ha. cbn [is_none].
  rewrite Hsr, Hcr. cbn [bind usable_keys except].
  assert (check_caller_auth s cr = Ok tt) as ->.
  { unfold check_caller_auth. destruct (String.eqb_spec (rs_caller_auth_mode s) "verified_token") as [E|]; [|done].
    destruct (Hc E) as (? & ? & ?). by destruct cr, (rs_caller_token_issuer s), (rs_caller_token_audience s). }
  destruct (String.eqb _ _); by destruct sr.
Qed.

Section generated.
Context `{Ed25519}.
Variables (env : environment) (key_id seed : string) (format : output_format).
Hypothesis plain : plain_key_id key_id = true.
Hypothesis seed_length : slen seed = ED25519_KEY_BYTES.
Hypothesis public_length : slen (ed_public seed) = ED25519_KEY_BYTES.

Local Abbreviation key := (MkSigningKey key_id seed).
Definition generated_environment : environment := fold_left with_variable (key_values key) env.

Lemma key_values_plain : Forall plain_value (key_values key).
Proof.
  destruct (plain_key_id_word key_id plain) as (Hw & _ & _).
  repeat constructor; cbn [fst snd sk_key_id]; try done; [apply encoded_word|].
  rewrite !sall_app, Hw. apply encoded_word.
Qed.
Lemma key_tool_read_back :
  exists text, key_tool (MkKeyArguments key_id format) seed = Ok text /\
    read_text (line_prefix format) text env = Some generated_environment.
Proof.
  unfold key_tool, generate_signing_key. cbn [ka_key_id ka_format]. rewrite require_plain_key_id by done. cbn [bind].
  eexists. split; [done|]. apply read_printed; [by destruct format | apply key_values_plain].
Qed.

Lemma generated_other name :
  str_in name ["TOOLLAYER_SNAPSHOT_SIGNING_KEY"; "TOOLLAYER_SNAPSHOT_SIGNING_KEY_ID"; "TOOLLAYER_SNAPSHOT_TRUSTED_KEYS"] = false ->
  generated_environment name = env name.
Proof using Type.
  unfold str_in. intros Hn. case_bool_decide as E; [done|]. unfold generated_environment. cbn [fold_left key_values with_variable fst snd].
  unfold with_variable. cbn [fst snd].
  repeat case_match; try done; repeat match goal with E : String.eqb _ _ = true |- _ => apply String.eqb_eq in E as -> end;
    destruct E; rewrite !elem_of_cons; auto.
Qed.
Lemma generated_control_plane_starts s :
  control_plane_get_settings env = Ok s -> exists s', control_plane_get_settings generated_environment = Ok s'.
Proof using plain seed_length.
  clear public_length.
  unfold control_plane_get_settings, env_int, env_or, env_tuple_or, env_get. rewrite !generated_other by reflexivity.
  intros (b & -> & Hs)%bind_Ok. cbn [bind]. change (generated_environment "TOOLLAYER_SNAPSHOT_SIGNING_KEY") with (Some (b64u_encode seed)).
  change (generated_environment "TOOLLAYER_SNAPSHOT_SIGNING_KEY_ID") with (Some key_id).
  destruct (plain_key_id_word key_id plain) as (Hw & _ & Hne). rewrite !strip_word by auto using encoded_word.
  unfold ControlPlaneSettings_new in *.
  cbn [cs_admin_token cs_service_token cs_database_url cs_snapshot_signing_key cs_snapshot_signing_key_id] in *.
  repeat (destruct (_ <? _)%nat; [done|]). destruct (String.eqb _ _); [done|]. destruct (is_empty _) in Hs |- *; [done|]. clear Hs.
  rewrite b64u_encode_empty, signing_key_read_back by done.
  destruct key_id; [done|]. pose proof (not_empty_of_length _ _ seed_length). destruct seed; [done|]. cbn. eauto.
Qed.
Lemma generated_control_plane_key s :
  control_plane_get_settings generated_environment = Ok s ->
  cs_snapshot_signing_key s = b64u_encode seed /\ cs_snapshot_signing_key_id s = key_id.
Proof using plain.
  intros (b & _ & Hs)%bind_Ok. destruct (plain_key_id_word key_id plain) as (Hw & _ & _).
  assert (forall raw s, ControlPlaneSettings_new raw = Ok s -> s = raw) as Hnew.
  { clear. intros raw s. unfold ControlPlaneSettings_new. repeat (destruct (_ : bool); [try done; by intros [= <-]|]).
    by intros (k & _ & [= <-])%bind_Ok. }
  apply Hnew in Hs as ->. cbn [cs_snapshot_signing_key cs_snapshot_signing_key_id].
  split; (transitivity (strip (b64u_encode seed)); [reflexivity | by rewrite strip_word by apply encoded_word]) ||
    (transitivity (strip key_id); [reflexivity | by rewrite strip_word]).
Qed.
Lemma generated_signing_key s :
  control_plane_get_settings generated_environment = Ok s -> signing_key s = Ok (Some key).
Proof using plain seed_length.
  clear public_length.
  intros (Hk & Hi)%generated_control_plane_key. unfold signing_key. rewrite Hk, Hi, b64u_encode_empty, signing_key_read_back by done.
  pose proof (not_empty_of_length _ _ seed_length). by destruct seed.
Qed.

Lemma generated_trusted_keys : env_tuple generated_environment "TOOLLAYER_SNAPSHOT_TRUSTED_KEYS" =
  [key_id +:+ ":" +:+ b64u_encode (ed_public seed)].
Proof using plain.
  clear seed_length public_length.
  unfold env_tuple, env_get. destruct (plain_key_id_word key_id plain) as (Hw & _ & Hne).
  set (entry := key_id +:+ ":" +:+ b64u_encode (ed_public seed)).
  change (generated_environment "TOOLLAYER_SNAPSHOT_TRUSTED_KEYS") with (Some entry). cbn match.
  assert (sall word_char entry = true) as He by (unfold entry; rewrite !sall_app, Hw; apply encoded_word).
  rewrite split_on_cons_notin by by apply (has_char_false_all _ word_char).
  unfold stripped. cbn [map filter]. rewrite strip_word by done. unfold entry. by destruct key_id.
Qed.

(** The runtime needs no more than it needed with verification disabled. *)
Lemma generated_runtime_starts s :
  env "TOOLLAYER_SNAPSHOT_VERIFICATION" = None ->
  runtime_get_settings (with_variable env ("TOOLLAYER_SNAPSHOT_VERIFICATION", "disabled")) = Ok s ->
  exists s', runtime_get_settings generated_environment = Ok s' /\
    snapshot_verification_policy s' = Ok (MkVerification Snapshot.Required [public_key key]).
Proof using plain public_length.
  intros Hv. unfold runtime_get_settings, env_float, env_int.
  rewrite generated_trusted_keys. unfold env_get, env_or, env_bool, env_mode, env_tuple, env_get.
  rewrite !generated_other, Hv by reflexivity. unfold with_variable. cbn [fst snd String.eqb Ascii.eqb Bool.eqb].
  intros (c & -> & (r & -> & (b & -> & (f & -> & Hs)%bind_Ok)%bind_Ok)%bind_Ok)%bind_Ok. cbn [bind].
  apply RuntimeSettings_new_inv in Hs as (_ & m & a & sr & cr & _ & Ha & _ & Hcr & _ & Hcaller).
  cbn [rs_caller_auth_mode rs_caller_token_trusted_keys rs_caller_token_issuer rs_caller_token_audience] in Ha, Hcr, Hcaller.
  pose proof (one_key_ring_parse key_id (ed_public seed) plain public_length) as Hring.
  eexists. split.
  - eapply RuntimeSettings_new_intro; [reflexivity | exact Ha | exact Hring | exact Hcr | done | exact Hcaller].
  - unfold snapshot_verification_policy. cbn [rs_snapshot_trusted_keys rs_snapshot_verification]. by rewrite Hring.
Qed.
End generated.



(** [re.match] with [$] accepts a key id that ends in a line feed.  The
    generator then prints a trusted-keys entry broken over two lines, which
    does not read back. *)
Lemma key_id_with_line_feed :
  exists text, key_tool (MkKeyArguments ("demo-key" +:+ String newline "") ComposeEnv) "0123456789abcdef0123456789abcdef" = Ok text /\
    plain_key_id ("demo-key" +:+ String newline "") = false /\
    read_text (line_prefix ComposeEnv) text (fun _ => None) = None.
Proof. eexists. split; [vm_compute; reflexivity|]. split; vm_compute; reflexivity. Qed.
