(* ===== verification/PyRepr.v ===== *)
(** * Generic operations on Python values

    [str], [repr], iteration and attribute-style access on values whose type
    the source does not check.  A value outside JSON prints as its type name;
    no stored document holds one. *)

From S2P Require Export CanonicalJson.
From Stdlib Require Import Floats.SpecFloat.

Definition attribute_error {A} (m : string) : M A := raise (Raised AttributeError m).
Definition type_error {A} (m : string) : M A := raise (Raised TypeError m).

(** [v.get(k, default)] on a value of unknown type. *)
Definition get_attr (k : string) (dflt : pyval) (v : pyval) : M pyval :=
  match v with
  | VDict d => Ok (get_or k dflt d)
  | _ => attribute_error "object has no attribute 'get'"
  end.
(** [v[k]] for a [str] key. *)
Definition subscript (k : string) (v : pyval) : M pyval :=
  match v with
  | VDict d => of_option (Raised KeyError k) (dget (KStr k) d)
  | _ => type_error "object is not subscriptable by a string"
  end.
(** [list(v)]: strings iterate over their characters, dicts over their keys. *)
Fixpoint chars (s : string) : list pyval :=
  match s with "" => [] | String c s => VStr (String c "") :: chars s end.
Definition key_value (k : pykey) : pyval :=
  match k with KStr s => VStr s | KOther s => VOther s end.
Definition py_iter (v : pyval) : M (list pyval) :=
  match v with
  | VList l | VTuple l => Ok l
  | VStr s => Ok (chars s)
  | VDict d => Ok (map key_value (dkeys d))
  | _ => type_error "object is not iterable"
  end.

Section repr.
Context `{Platform}.

Definition float_str (f : spec_float) : string :=
  match f with
  | S754_nan => "nan"
  | S754_infinity s => if s then "-inf" else "inf"
  | _ => float_repr f
  end.
Definition repr_key (k : pykey) : string := match k with KStr s => repr_str s | KOther s => s end.
Fixpoint py_repr (v : pyval) : string :=
  match v with
  | VNone => "None"
  | VBool b => if b then "True" else "False"
  | VInt z => str_of_Z z
  | VFloat f => float_str f
  | VStr s => repr_str s
  | VList l => "[" +:+ join ", " (map py_repr l) +:+ "]"
  | VTuple [v] => "(" +:+ py_repr v +:+ ",)"
  | VTuple l => "(" +:+ join ", " (map py_repr l) +:+ ")"
  | VDict d => "{" +:+ join ", " (map (fun kv => repr_key kv.1 +:+ ": " +:+ py_repr kv.2) d) +:+ "}"
  | VOther t => t
  end.
Definition py_str (v : pyval) : string := match v with VStr s => s | _ => py_repr v end.
End repr.

Example repr_example `{Platform} :
  py_str (VList [VStr "a"; VBool true; VTuple [VInt 3]; VDict {{ "k" ~> VNone }}]) =
    "['a', True, (3,), {'k': None}]".
Proof. reflexivity. Qed.
