(* ===== verification/Redaction.v ===== *)
(** * Redaction

    [toollayer_policy/redaction.py]: what is kept of headers, mappings, URLs and
    values that go into a log line or an error. *)

From S2P Require Export Executor PyRepr.

Definition REDACTED : string := "[redacted]".

Definition SENSITIVE_HEADERS : list string :=
  ["authorization"; "proxy-authorization"; "cookie"; "set-cookie"; "x-api-key"; "x-auth-token";
   "x-toollayer-admin-token"; "x-toollayer-service-token"].

(** [_SENSITIVE_NAME.search]: a word with a separator or an end on both sides;
    [$] also matches before a final line feed.  The name is lowered, and no
    other character below 256 equals an ASCII letter up to case. *)
Definition separator_char (c : ascii) : bool := Ascii.eqb c "_" || Ascii.eqb c "-" || Ascii.eqb c ".".
Definition re_separator : re := RSet separator_char.
Definition re_any : re := RStar (RSet (fun _ => true)).
Definition re_sensitive_word : re :=
  RAlt (rlit "secret") (RAlt (rlit "token") (RAlt (rlit "password") (RAlt (rlit "passwd") (RAlt (rlit "credential")
    (RAlt (RCat (rlit "api") (RCat (ropt re_separator) (rlit "key")))
          (RCat (rlit "private") (RCat (ropt re_separator) (rlit "key")))))))).
Definition re_sensitive_name : re :=
  RCat (ropt (RCat re_any re_separator))
    (RCat re_sensitive_word (RAlt (ropt (rchar newline)) (RCat re_separator re_any))).
Definition is_sensitive (name : string) : bool :=
  let lowered := lower name in str_in lowered SENSITIVE_HEADERS || fullmatch re_sensitive_name lowered.

Definition redact_headers (headers : list (string * string)) : dict :=
  foldl (fun d nv => dset (KStr nv.1) (VStr (if is_sensitive nv.1 then REDACTED else nv.2)) d) [] headers.

(** ** Mappings *)

(** [redact_mapping(payload, depth=depth)] of a mapping.  A mapping of the list
    is redacted before the list is cut, which gives the same items. *)
Fixpoint redact_at (depth : nat) (payload : pyval) : dict :=
  match payload with
  | VDict payload =>
      if (6 <? depth)%nat then {{ "..." ~> VStr REDACTED }}
      else
        let keep (value : pyval) : pyval :=
          match value with
          | VDict _ => VDict (redact_at (S depth) value)
          | VList items =>
              VList (firstn 50 (map (fun item => match item with VDict _ => VDict (redact_at (S depth) item) | _ => item end) items))
          | _ => value
          end in
        (fix each (members : dict) (result : dict) : dict :=
           match members with
           | [] => result
           | (key, value) :: members =>
               let name := key_text key in
               each members (dset (KStr name) (if is_sensitive name then VStr REDACTED else keep value) result)
           end) payload []
  | _ => []
  end.
Definition redact_mapping (payload : dict) : dict := redact_at 0 (VDict payload).

(** ** URLs *)

Definition SENSITIVE_QUERY : list string :=
  ["access_token"; "api_key"; "apikey"; "code"; "id_token"; "password"; "secret"; "token"].
Definition secret_parameter (key : string) : bool := str_in (lower key) SENSITIVE_QUERY || is_sensitive key.

(** [unquote_to_bytes] of ASCII text. *)
Fixpoint unquote_to_bytes (s : string) : string :=
  match s with
  | "" => ""
  | String c rest =>
      if Ascii.eqb c "%" then
        match rest with
        | String a (String b rest') =>
            match hex_val a, hex_val b with
            | Some x, Some y => String (ascii_of_N (16 * x + y)) (unquote_to_bytes rest')
            | _, _ => String c (unquote_to_bytes rest)
            end
        | _ => String c (unquote_to_bytes rest)
        end
      else String c (unquote_to_bytes rest)
  end.

Section urls.
Context `{Decoding}.

(** Every longest run of ASCII characters is unquoted and decoded. *)
Definition unquote_run (run : string) : string :=
  if is_empty run then "" else utf8_replace (unquote_to_bytes run).
Fixpoint unquote_runs (run s : string) : string :=
  match s with
  | "" => unquote_run run
  | String c s =>
      if (code c <? 128)%N then unquote_runs (run +:+ String c "") s
      else unquote_run run +:+ String c (unquote_runs "" s)
  end.
Definition unquote (s : string) : string := if has_char "%" s then unquote_runs "" s else s.
(** [parse_qsl(query, keep_blank_values=True)]. *)
Definition parse_pair (text : string) : string * string :=
  let '(name, _, value) := partition_on "=" text in
  (unquote (replace_char "+" " " name), unquote (replace_char "+" " " value)).
Definition parse_qsl (query : string) : list (string * string) :=
  map parse_pair (List.filter (fun text => negb (is_empty text)) (split_on "&" query)).

Definition USES_NETLOC : list string :=
  [""; "ftp"; "http"; "gopher"; "nntp"; "telnet"; "imap"; "wais"; "file"; "mms"; "https"; "shttp"; "snews"; "prospero";
   "rtsp"; "rtsps"; "rtspu"; "rsync"; "svn"; "svn+ssh"; "sftp"; "nfs"; "git"; "git+ssh"; "ws"; "wss"; "itms-services"].
(** [urlunsplit] without a fragment. *)
Definition urlunsplit (scheme netloc path query : string) : string :=
  let url :=
    if negb (is_empty netloc) then
      "//" +:+ netloc +:+ (if negb (is_empty path) && negb (starts_with "/" path) then "/" +:+ path else path)
    else if starts_with "//" path then "//" +:+ path
    else if negb (is_empty scheme) && str_in scheme USES_NETLOC && (is_empty path || starts_with "/" path) then "//" +:+ path
    else path in
  let url := if is_empty scheme then url else scheme +:+ ":" +:+ url in
  if is_empty query then url else url +:+ "?" +:+ query.

Definition redact_pair (kv : string * string) : string * string :=
  (kv.1, if secret_parameter kv.1 then REDACTED else kv.2).
Definition redact_url (url : string) : M string :=
  match urlsplit url with
  | Err (Raised ValueError _) => Ok REDACTED
  | Err e => Err e
  | Ok parsed =>
      let netloc := default "" (hostname parsed) in
      let netloc := if has_credentials parsed then REDACTED +:+ "@" +:+ netloc else netloc in
      let* p := port parsed in
      let netloc := match p with
                    | Some n => if (n =? 0)%N then netloc else netloc +:+ ":" +:+ str_of_N n
                    | None => netloc
                    end in
      Ok (urlunsplit (sr_scheme parsed) netloc (sr_path parsed) (urlencode (map redact_pair (parse_qsl (sr_query parsed)))))
  end.
End urls.

(** ** Values *)

Definition safe_repr (value : pyval) (limit : nat) : string :=
  let counted (kind what : string) (n : nat) := kind +:+ "(" +:+ what +:+ "=" +:+ str_of_N (N.of_nat n) +:+ ")" in
  match value with
  | VNone => "null"
  | VBool _ => "boolean"
  | VInt _ => "integer"
  | VFloat _ => "number"
  | VStr s => counted "string" "len" (slen s)
  | VDict d => counted "object" "keys" (length d)
  | VList l | VTuple l => counted "array" "len" (length l)
  | VOther name => stake limit name
  end.

Example redaction_examples :
  redact_headers [("authorization", "Bearer abc"); ("accept", "json")] =
    {{ "authorization" ~> VStr REDACTED; "accept" ~> VStr "json" }} /\
  redact_mapping {{ "outer" ~> VDict {{ "api_key" ~> VStr "k"; "name" ~> VStr "n" }} }} =
    {{ "outer" ~> VDict {{ "api_key" ~> VStr REDACTED; "name" ~> VStr "n" }} }} /\
  redact_url "https://u:p@api.example.org/v1?access_token=abc&page=2" =
    Ok "https://[redacted]@api.example.org/v1?access_token=%5Bredacted%5D&page=2" /\
  map is_sensitive ["X-Auth.Token"; "tokens"; "my_api-key"; "keyring"; "token" +:+ String newline ""] =
    [true; false; true; false; true] /\
  safe_repr (VStr "secret") 120 = "string(len=6)".
Proof. split_and!; vm_compute; reflexivity. Qed.

(** ** What a redacted mapping tells *)

(** Equal up to what redaction hides: the values under a sensitive name, what
    lies seven mappings deep, and all but the first 50 items of a list. *)
Definition kept_alike (alike : dict -> dict -> Prop) (v w : pyval) : Prop :=
  let item_alike a b := match a, b with VDict d, VDict e => alike d e | _, _ => a = b end in
  match v, w with
  | VList l, VList m => Forall2 item_alike (firstn 50 l) (firstn 50 m)
  | _, _ => item_alike v w
  end.
Fixpoint alike (levels : nat) (d e : dict) : Prop :=
  match levels with
  | O => True
  | S levels =>
      Forall2 (fun kv kw => kv.1 = kw.1 /\
        (is_sensitive (key_text kv.1) = false -> kept_alike (alike levels) kv.2 kw.2)) d e
  end.

Definition keep_item (depth : nat) (item : pyval) : pyval :=
  match item with VDict _ => VDict (redact_at (S depth) item) | _ => item end.
Definition keep_value (depth : nat) (value : pyval) : pyval :=
  match value with
  | VDict _ => VDict (redact_at (S depth) value)
  | VList items => VList (firstn 50 (map (keep_item depth) items))
  | _ => value
  end.
Definition redact_member (depth : nat) (kv : pykey * pyval) : pykey * pyval :=
  (KStr (key_text kv.1), if is_sensitive (key_text kv.1) then VStr REDACTED else keep_value depth kv.2).

Lemma dset_fresh k v d : k ∉ dkeys d -> dset k v d = d ++ [(k, v)].
Proof.
  induction d as [|[k' v'] d IH]; [done|]. unfold dkeys. csimpl. rewrite not_elem_of_cons. intros [Hk Hd].
  rewrite bool_decide_eq_false_2 by done. by rewrite IH.
Qed.
Lemma redact_at_members depth payload :
  (depth <= 6)%nat -> NoDup (map (fun kv => key_text kv.1) payload) ->
  redact_at depth (VDict payload) = map (redact_member depth) payload.
Proof.
  intros Hd Hn. cbn [redact_at]. destruct (Nat.ltb_spec 6 depth) as [|_]; [lia|].
  match goal with |- ?each payload [] = _ =>
    enough (forall result, (forall kv, kv ∈ payload -> KStr (key_text kv.1) ∉ dkeys result) ->
      each payload result = result ++ map (redact_member depth) payload) as G
  end.
  { apply G. intros kv _. apply not_elem_of_nil. }
  induction payload as [|[k v] payload IH]; intros result Hr; [by rewrite app_nil_r|].
  cbn [map fst] in Hn. apply NoDup_cons in Hn as [Hk Hn]. cbn [map].
  rewrite dset_fresh by (apply (Hr (k, v)); left). rewrite IH; [|done|].
  - rewrite <- app_assoc. by destruct v.
  - intros kv Hkv. unfold dkeys. rewrite fmap_app, not_elem_of_app. split; [apply Hr; by right|].
    csimpl. rewrite list_elem_of_singleton. intros [= E]. apply Hk. rewrite <- E.
    apply list_elem_of_In, in_map_iff. exists kv. by rewrite <- list_elem_of_In.
Qed.
Lemma map_eq_Forall2 {A B} (f : A -> B) (P : A -> Prop) (R : A -> A -> Prop) l m :
  (forall a b, P a -> P b -> f a = f b <-> R a b) -> Forall P l -> Forall P m -> map f l = map f m <-> Forall2 R l m.
Proof.
  intros Hf Hl. revert m. induction Hl as [|a l Ha Hl IH]; intros [|b m] Hm; cbn [map].
  - by split; [constructor|].
  - split; [done|by intros ?%Forall2_nil_inv_l].
  - split; [done|by intros ?%Forall2_nil_inv_r].
  - apply Forall_cons in Hm as [Hb Hm]. rewrite Forall2_cons, <- (Hf a b Ha Hb), <- (IH m Hm).
    split; [intros E; by injection E|intros [-> ->]; done].
Qed.

Lemma serializable_items l : clean (VList l) -> Forall clean (firstn 50 l).
Proof. intros Hl. apply Forall_take. by apply (clean_seq (VList l) l). Qed.
Lemma keep_value_alike depth (alike' : dict -> dict -> Prop) v w :
  (forall d e, clean_dict d -> clean_dict e -> redact_at (S depth) (VDict d) = redact_at (S depth) (VDict e) <-> alike' d e) ->
  clean v -> clean w -> keep_value depth v = keep_value depth w <-> kept_alike alike' v w.
Proof.
  intros Hd Hv Hw.
  assert (forall a b, clean a -> clean b -> keep_item depth a = keep_item depth b <->
    match a, b with VDict d, VDict e => alike' d e | _, _ => a = b end) as Hitem.
  { intros a b Ha Hb. destruct a as [| | | | | | |d|], b as [| | | | | | |e|]; try done; cbn [keep_item]; try (by split).
    rewrite <- Hd by (by apply clean_VDict). split; [intros E; by injection E|by intros ->]. }
  destruct v as [| | | | |l| |d|], w as [| | | | |m| |e|];
    try exact (Hitem _ _ Hv Hw); try (cbn; by split).
  cbn [keep_value kept_alike]. rewrite !firstn_map.
  rewrite <- (map_eq_Forall2 (keep_item depth) clean _ (firstn 50 l) (firstn 50 m) Hitem) by (by apply serializable_items).
  split; [intros E; by injection E|by intros ->].
Qed.
Lemma redact_at_alike levels depth d e :
  (levels + depth = 7)%nat -> clean_dict d -> clean_dict e ->
  redact_at depth (VDict d) = redact_at depth (VDict e) <-> alike levels d e.
Proof.
  revert depth d e. induction levels as [|levels IH]; intros depth d e Hl Hd He.
  - assert (depth = 7%nat) as -> by lia. done.
  - rewrite !redact_at_members by (lia || by apply clean_dict_keys). cbn [alike].
    apply (map_eq_Forall2 _ (fun kv => is_str_key kv.1 = true /\ clean kv.2)); [|apply Hd|apply He].
    intros [k v] [k' w] [Hk Hv] [Hk' Hw]. destruct k as [k|], k' as [k'|]; try done. unfold redact_member. cbn [fst snd key_text].
    pose proof (keep_value_alike depth (alike levels) v w (fun d e => IH (S depth) d e ltac:(lia)) Hv Hw) as Hkeep.
    split.
    + intros E. injection E as -> E. split; [done|]. intros Hs. rewrite Hs in E. by apply Hkeep.
    + intros [[= ->] Ha]. destruct (is_sensitive k'); [done|]. f_equal. by apply Hkeep, Ha.
Qed.

(** ** Properties *)

(** Redaction hides exactly what it is meant to.  Two JSON mappings redact to
    the same mapping exactly when they have the same keys in the same order and
    differ only in values under a sensitive name, in mappings nested seven deep,
    or in list items from the 51st on; so nothing of a value under a sensitive
    name can be told from the result, and everything else is kept.  (A list
    inside a list is kept as it is, sensitive names included.) *)
Theorem redact_mapping_exact :
  forall d e, clean_dict d -> clean_dict e -> redact_mapping d = redact_mapping e <-> alike 7 d e.
Proof. intros d e. by apply redact_at_alike. Qed.

(** Two URLs a log line may not tell apart: the same origin, path and parameter
    names, the same values but those of secret parameters, whatever the user
    information and the fragment. *)
Record same_public `{Decoding} (r r' : SplitResult) : Prop := {
  sp_origin : sr_scheme r = sr_scheme r' /\ hostname r = hostname r' /\ port r = port r';
  sp_path : sr_path r = sr_path r';
  sp_credentials : has_credentials r = has_credentials r';
  sp_query : Forall2 (fun kv kw => kv.1 = kw.1 /\ (secret_parameter kv.1 = false -> kv.2 = kw.2))
               (parse_qsl (sr_query r)) (parse_qsl (sr_query r'));
}.

(** A redacted URL carries no secret: URLs that agree on their public part
    redact to the same text, so neither the user name, the password, the
    fragment nor the value of a secret parameter can be told from it; a text
    [urlsplit] refuses is hidden as a whole; and redaction raises only for a URL
    whose port is not one. *)
Theorem redact_url_hides `{Decoding} :
  forall url url',
    (forall r r', urlsplit url = Ok r -> urlsplit url' = Ok r' -> same_public r r' -> redact_url url = redact_url url') /\
    (forall m, urlsplit url = Err (Raised ValueError m) -> redact_url url = Ok REDACTED) /\
    (forall r e, urlsplit url = Ok r -> redact_url url = Err e <-> port r = Err e).
Proof.
  intros url url'. unfold redact_url. split_and!.
  - intros r r' -> -> [(Hs & Hh & Hp) Hpath Hc Hq]. rewrite Hs, Hh, Hp, Hpath, Hc.
    replace (map redact_pair (parse_qsl (sr_query r'))) with (map redact_pair (parse_qsl (sr_query r))); [done|].
    induction Hq as [|[k v] [k' w] l m [Hk Hv] _ IH]; [done|]. cbn [map]. rewrite IH. f_equal.
    unfold redact_pair. cbn [fst snd] in *. subst k'. destruct (secret_parameter k); [done|]. by rewrite Hv.
  - by intros m ->.
  - intros r e ->. destruct (port r) as [p|e']; cbn [bind]; [by split|]. by split; intros [= ->].
Qed.

(** ** Witnesses, and the limits of redaction *)

Definition demo_payload (secret deep : string) : dict :=
  {{ "user" ~> VDict {{ "name" ~> VStr "avery"; "api_key" ~> VStr secret }};
     "events" ~> VList [VDict {{ "Access-Token" ~> VStr deep; "id" ~> VInt 7 }}; VInt 3] }}.
Lemma redact_mapping_exact_witness :
  redact_mapping (demo_payload "k1" "t1") = redact_mapping (demo_payload "k2" "t2") /\
  demo_payload "k1" "t1" <> demo_payload "k2" "t2".
Proof.
  split; [|discriminate].
  apply (proj2 (redact_mapping_exact (demo_payload "k1" "t1") (demo_payload "k2" "t2")
    ltac:(apply clean_VDict; split; [cbn; repeat split; apply (bool_decide_unpack _); vm_compute; exact I|reflexivity])
    ltac:(apply clean_VDict; split; [cbn; repeat split; apply (bool_decide_unpack _); vm_compute; exact I|reflexivity]))).
  apply Forall2_cons_2; [split; [reflexivity|]; intros _|apply Forall2_cons_2; [split; [reflexivity|]; intros _|apply Forall2_nil_2]].
  - apply Forall2_cons_2; [split; [reflexivity|]; intros _; reflexivity|].
    apply Forall2_cons_2; [split; [reflexivity|]; intros Hs; vm_compute in Hs; discriminate Hs|apply Forall2_nil_2].
  - apply Forall2_cons_2; [|apply Forall2_cons_2; [reflexivity|apply Forall2_nil_2]].
    apply Forall2_cons_2; [split; [reflexivity|]; intros Hs; vm_compute in Hs; discriminate Hs|].
    apply Forall2_cons_2; [split; [reflexivity|]; intros _; reflexivity|apply Forall2_nil_2].
Defined.

Lemma redact_url_hides_witness :
  redact_url "https://u:p@api.example.org/v1?access_token=abc&page=2#x" =
  redact_url "https://me:pw@api.example.org/v1?access_token=xyz&page=2".
Proof.
  eapply (proj1 (redact_url_hides _ _)); [vm_compute; reflexivity..|].
  split; [by vm_compute|reflexivity|reflexivity|].
  change (Forall2 (fun kv kw => kv.1 = kw.1 /\ (secret_parameter kv.1 = false -> kv.2 = kw.2))
    (parse_qsl "access_token=abc&page=2") (parse_qsl "access_token=xyz&page=2")).
  replace (parse_qsl "access_token=abc&page=2") with [("access_token", "abc"); ("page", "2")] by (vm_compute; reflexivity).
  replace (parse_qsl "access_token=xyz&page=2") with [("access_token", "xyz"); ("page", "2")] by (vm_compute; reflexivity).
  apply Forall2_cons_2; [split; [reflexivity|]; intros Hs; vm_compute in Hs; discriminate Hs|].
  apply Forall2_cons_2; [split; [reflexivity|]; reflexivity|apply Forall2_nil_2].
Defined.

(** A sensitive name inside a list of lists keeps its value, as the code has it. *)
Lemma nested_lists_are_kept :
  let payload := {{ "rows" ~> VList [VList [VDict {{ "password" ~> VStr "hunter2" }}]] }} in
  redact_mapping payload = payload.
Proof. vm_compute. reflexivity. Qed.
(** The port is read outside the [try]; and an IPv6 host loses its brackets. *)
Lemma redact_url_limits :
  (exists m, redact_url "https://api.example.org:99999/" = Err (Raised ValueError m)) /\
  redact_url "https://[::1]:8443/x" = Ok "https://::1:8443/x".
Proof. split; [eexists|]; vm_compute; reflexivity. Qed.
