(* ===== verification/MockLlm.v ===== *)
(** * The mock provider

    [toollayer_mock_llm/provider.py]: the rule-based component that stands in
    for a language model.  A score is an integer number of halves, which the
    floating-point arithmetic of the source computes without rounding; [\w] and
    [\d] are read on ASCII. *)

From S2P Require Export Provider PyRepr.
From Stdlib Require Import Floats.SpecFloat.

(** ** Words *)

Definition token_char (c : ascii) : bool := is_lower c || is_digit c.
(** [_TOKEN.findall]: the maximal runs. *)
Fixpoint tokens_of (s : string) : list string :=
  match s with
  | "" => []
  | String c r =>
      if token_char c then
        match r with
        | String d _ =>
            if token_char d then
              match tokens_of r with w :: ws => String c w :: ws | [] => [String c ""] end
            else String c "" :: tokens_of r
        | "" => [String c ""]
        end
      else tokens_of r
  end.
Definition STOPWORDS : list string :=
  ["a"; "all"; "am"; "an"; "and"; "any"; "are"; "as"; "at"; "be"; "by"; "can"; "could"; "do"; "does"; "for";
   "from"; "get"; "give"; "has"; "have"; "i"; "in"; "is"; "it"; "me"; "my"; "of"; "on"; "or"; "please"; "show";
   "that"; "the"; "then"; "there"; "these"; "this"; "to"; "up"; "us"; "want"; "was"; "we"; "what"; "when";
   "which"; "who"; "will"; "with"; "would"; "you"; "your"].
Definition MUTATION_VERBS : list string :=
  ["add"; "assign"; "cancel"; "change"; "close"; "create"; "delete"; "edit"; "file"; "hand"; "mark"; "modify";
   "move"; "new"; "purge"; "raise"; "reassign"; "remove"; "reopen"; "replace"; "resolve"; "set"; "update"].
Definition content_words (text : string) : gset string :=
  list_to_set (List.filter (fun token => (1 <? slen token)%nat && negb (str_in token STOPWORDS))
                 (tokens_of (lower text))).
Definition effect_synonyms : list (string * list string) :=
  [("assign", ["assign"; "assigned"; "give"; "hand"; "reassign"]);
   ("change", ["change"; "set"; "mark"; "move"; "update"; "close"; "reopen"; "resolve"]);
   ("update", ["update"; "change"; "set"; "edit"; "modify"]);
   ("create", ["create"; "add"; "open"; "file"; "raise"; "new"]);
   ("delete", ["delete"; "remove"; "drop"; "purge"]);
   ("replace", ["replace"; "overwrite"; "set"])].
Definition effect_verbs (tool_name : string) : gset string :=
  let head := (partition_on "_" tool_name).1.1 in
  list_to_set (default [head] (alookup head effect_synonyms)).

(** ** Selection *)

Definition SELECTION_THRESHOLD : Z := 4. (* 2.0 *)
Definition half_float (halves : Z) : spec_float := binary_normalize 53 1024 halves (-1) false.

Definition common (words others : gset string) : Z := Z.of_nat (size (words ∩ others)).

Section mock.
Context `{Platform}.

Definition score (words : gset string) (tool : ToolDefinition) (mutating : bool) : M Z :=
  let name_words : gset string := list_to_set (tokens_of (tool_name tool)) in
  let description_words := content_words (description tool) in
  let tag_words : gset string := list_to_set (concat (map (fun tag => tokens_of (lower tag)) (tags (provenance tool)))) in
  let* arguments := py_iter (get_or "properties" (VDict []) (input_schema tool)) in
  let argument_words : gset string := list_to_set (concat (map (fun a => tokens_of (lower (py_str a))) arguments)) in
  let total := (4 * common words name_words + 3 * common words tag_words
                + 2 * common words argument_words + common words description_words)%Z in
  Ok (if negb (bool_decide (effect_class (policy tool) = EffectRead)) then
        if bool_decide (words ∩ effect_verbs (tool_name tool) = ∅) then (total - 6)%Z else total
      else if mutating then (total - 8)%Z else total).

(** [scored.sort(key=lambda entry: (-entry[0], entry[1]))]. *)
Definition entry_le (x y : Z * string) : Prop :=
  (y.1 < x.1)%Z \/ x.1 = y.1 /\ String.compare x.2 y.2 <> Gt.
#[export] Instance entry_le_dec : RelDecision entry_le.
Proof. intros x y. unfold entry_le. apply _. Defined.
Definition scored (words : gset string) (tools : list ToolDefinition) (mutating : bool) : M (list (Z * string)) :=
  map_result (fun tool => let* s := score words tool mutating in Ok (s, tool_name tool)) tools.
(** [round(best_score, 3)] leaves a multiple of a half as it is. *)
Definition mock_select_tool (utterance : string) (tools : list ToolDefinition) : M (option ToolSelection) :=
  let words := content_words utterance in
  if bool_decide (words = ∅) then Ok None
  else
    let mutating := negb (bool_decide (words ∩ list_to_set MUTATION_VERBS = ∅)) in
    let* entries := scored words tools mutating in
    match merge_sort entry_le entries with
    | [] => raise (Raised IndexError "list index out of range")
    | (best_score, best_name) :: rest =>
        if (best_score <? SELECTION_THRESHOLD)%Z then Ok None
        else
          let runner_up := match rest with
                           | (s, name) :: _ => if (0 <? s)%Z then Some name else None
                           | [] => None
                           end in
          Ok (Some (MkSelection best_name (half_float best_score)
                ("matched " +:+ str_of_Z (best_score / 2) +:+
                 " weighted term(s) from the request against the tool name, description, and tags")
                runner_up))
    end.

(** ** Matches with word boundaries *)

Definition word_char (c : ascii) : bool := is_alnum c || Ascii.eqb c "_".
Definition on_char (p : ascii -> bool) (o : option ascii) : bool := match o with Some c => p c | None => false end.
Definition head_char (s : string) : option ascii := match s with String c _ => Some c | "" => None end.
Definition boundary (before after : option ascii) : bool := xorb (on_char word_char before) (on_char word_char after).
(** The longest match of [r] that starts here and ends at a boundary: greedy
    repetition of these patterns tries the longer matches first. *)
Fixpoint longest (r : re) (before : option ascii) (s : string) : option nat :=
  let here := if nullable r && boundary before (head_char s) then Some 0%nat else None in
  match s with
  | "" => here
  | String c s =>
      match longest (deriv c r) (Some c) s with
      | Some n => Some (S n)
      | None => here
      end
  end.
(** [re.finditer] of [\b r \b], by the matched texts; [skip] characters belong
    to the last match. *)
Fixpoint finditer (r : re) (skip : nat) (before : option ascii) (s : string) : list string :=
  match s with
  | "" => []
  | String c rest =>
      match skip with
      | S skip => finditer r skip (Some c) rest
      | O =>
          match (if boundary before (Some c) then longest r before s else None) with
          | Some (S n) => stake (S n) s :: finditer r n (Some c) rest
          | _ => finditer r 0 (Some c) rest
          end
      end
  end.
Definition KEBAB_ID : re :=
  RCat (RSet is_lower) (RCat (RStar (RSet token_char)) (rplus (RCat (rchar "-") (rplus (RSet token_char))))).
Definition UPPER_ID : re :=
  RCat (RSet is_upper) (RCat (RStar (RSet (fun c => is_upper c || is_digit c)))
    (RCat (rchar "-") (rplus (RSet is_digit)))).
Definition INTEGER : re := rplus (RSet is_digit).

(** [re.search] of the variant with neither neighbour a token character. *)
Fixpoint occurs_free (variant : string) (before : option ascii) (s : string) : bool :=
  (negb (on_char token_char before) &&
   match strip_prefix variant s with
   | Some rest => negb (on_char token_char (head_char rest))
   | None => false
   end)
  || match s with "" => false | String c s => occurs_free variant (Some c) s end.
Definition mentions (lowered candidate : string) : bool :=
  let candidate := lower candidate in
  existsb (fun variant => occurs_free variant None lowered)
    [candidate; replace_char "_" " " candidate; replace_char "_" "-" candidate].

(** ** Arguments *)

Definition ENTITY_ALIASES : list (string * list string) :=
  [("assignee", ["agent"; "owner"]); ("member", ["agent"])].
Definition entity_of (name : string) : option string :=
  if ends_with "_id" name then Some (stake (slen name - 3) name) else None.
Definition entity_prefixes (entity : string) : list string :=
  sorted_strs (entity :: default [] (alookup entity ENTITY_ALIASES)).
(** The tokens within two of an index, nearest first. *)
Definition neighbours (tokens : list string) (index : nat) : list string :=
  omap (fun offset =>
    let i := (Z.of_nat index + offset)%Z in
    if (0 <=? i)%Z then tokens !! Z.to_nat i else None) [-1; 1; -2; 2]%Z.
Definition describes (prefix neighbour : string) : bool :=
  negb (str_in neighbour STOPWORDS) && negb (String.eqb neighbour prefix) && (2 <? slen neighbour)%nat.
Definition described_ids (tokens : list string) (prefix : string) : list string :=
  map (fun neighbour => prefix +:+ "-" +:+ neighbour)
    (List.filter (describes prefix)
       (concat (imap (fun index token => if String.eqb token prefix then neighbours tokens index else []) tokens))).
Definition extract_identifier (name utterance lowered : string) : option string :=
  entity ← entity_of name;
  let prefixes := entity_prefixes entity in
  let tokens := tokens_of lowered in
  match find_first (fun token => str_in (partition_on "-" token).1.1 prefixes) (finditer KEBAB_ID 0 None lowered) with
  | Some token => Some token
  | None =>
      match (if existsb (fun p => str_in p tokens) prefixes then head (finditer UPPER_ID 0 None utterance) else None) with
      | Some token => Some token
      | None => head (concat (map (described_ids tokens) prefixes))
      end
  end.

(** [z < v] and [z > v] for a number [v]: exact, as Python compares them. *)
Definition compare_int (z : Z) (v : pyval) : option comparison :=
  match v with
  | VInt m => Some (z ?= m)%Z
  | VBool b => Some (z ?= Z_of_bool b)%Z
  | VFloat (S754_infinity negative) => Some (if negative then Gt else Lt)
  | VFloat f =>
      match float_exact f with
      | Some (m, e) => Some (if (0 <=? e)%Z then z ?= m * 2 ^ e else z * 2 ^ (- e) ?= m)%Z
      | None => None
      end
  | _ => None
  end.
Definition is_comparison (c : comparison) (o : option comparison) : bool := bool_decide (o = Some c).
Definition within_bounds (schema : dict) (z : Z) : bool :=
  negb (is_comparison Lt (compare_int z (get "minimum" schema)))
  && negb (is_comparison Gt (compare_int z (get "maximum" schema))).
(** [int(match.group())]; a text of the runtime is below the limit on digits. *)
Definition int_of_digits (digits : string) : Z := Z.of_N (dec_value 0 digits).
Definition NO_FLAG_WORDS : list string := ["only"; "is"; "has"; "include"].
Definition flag_words (name : string) : gset string :=
  list_to_set (tokens_of name) ∖ list_to_set NO_FLAG_WORDS.

(** What a schema that is no object gives for an argument. *)
Definition extract_scalar (name : string) (schema : dict) (utterance lowered : string) (words : gset string)
  : option pyval :=
  match get "enum" schema with
  | VList enum =>
      find_first (fun candidate => match candidate with VStr s => mentions lowered s | _ => false end) enum
  | _ =>
      match get "type" schema with
      | VStr declared =>
          if String.eqb declared "boolean" then
            if negb (bool_decide (flag_words name = ∅)) && bool_decide (flag_words name ⊆ words)
            then Some (VBool true) else None
          else if String.eqb declared "integer" then
            option_map VInt (find_first (within_bounds schema) (map int_of_digits (finditer INTEGER 0 None utterance)))
          else if String.eqb declared "string" then option_map VStr (extract_identifier name utterance lowered)
          else None
      | _ => None
      end
  end.
(** The loop of [generate_arguments] and of [_extract_object]. *)
Definition add_property (extract : string -> dict -> M (option pyval)) (found : dict) (kv : pykey * pyval) : M dict :=
  match kv.2 with
  | VDict child =>
      let* value := extract (key_text kv.1) child in
      Ok match value with Some value => dset (KStr (key_text kv.1)) value found | None => found end
  | _ => Ok found
  end.
Definition extract_properties (extract : string -> dict -> M (option pyval)) (properties : pyval) : M dict :=
  match properties with
  | VDict properties => fold_result (add_property extract) properties []
  | _ => attribute_error "object has no attribute 'items'"
  end.
(** The fuel is one more than the height of the schema. *)
Fixpoint extract_at (fuel : nat) (utterance lowered : string) (words : gset string) (name : string) (schema : dict)
  : M (option pyval) :=
  match fuel with
  | O => Err (Raised AssertionError "the schema is higher than its height")
  | S fuel =>
      if is_the_str "object" (get "type" schema) then
        let* nested := extract_properties (extract_at fuel utterance lowered words) (get_or "properties" (VDict []) schema) in
        Ok match nested with [] => None | _ => Some (VDict nested) end
      else Ok (extract_scalar name schema utterance lowered words)
  end.
Definition extract (utterance lowered : string) (words : gset string) (name : string) (schema : dict)
  : M (option pyval) :=
  extract_at (S (height (VDict schema))) utterance lowered words name schema.

(** Names that are no strings, which the meta-schema rules out, are left to
    the error their sorting or printing raises. *)
Definition required_argument_names (schema : dict) : M (list string) :=
  let* required := py_iter (get_or "required" (VList []) schema) in
  map_result (fun v => match v with VStr s => Ok s | _ => type_error "a required name is not a string" end) required.
Definition mock_generate_arguments (utterance : string) (tool : ToolDefinition) : M ArgumentProposal :=
  let schema := input_schema tool in
  let* required := required_argument_names schema in
  let* arguments := extract_properties (extract utterance (lower utterance) (content_words utterance))
                      (get_or "properties" (VDict []) schema) in
  Ok (MkProposal arguments
        (sorted_strs (List.filter (fun name => negb (has name arguments)) (remove_dups required)))).

(** ** Describing a result *)

Definition PREFERRED_KEYS : list string :=
  ["ticket_id"; "team_id"; "member_id"; "subject"; "display_name"; "name"; "status"; "priority"; "assignee_id";
   "role"; "available"].
Definition describe (item : pyval) : string :=
  match item with
  | VDict item =>
      let part k v := k +:+ "=" +:+ py_str v in
      let parts := concat (map (fun k => if is_vnone (get k item) then [] else [part k (get k item)]) PREFERRED_KEYS) in
      let parts := match parts with [] => map (fun kv => part (key_text kv.1) kv.2) (firstn 4 item) | _ => parts end in
      stake 240 (join ", " parts)
  | _ => stake 120 (py_str item)
  end.
Definition type_name (v : pyval) : string :=
  match v with
  | VNone => "NoneType" | VBool _ => "bool" | VInt _ => "int" | VFloat _ => "float" | VStr _ => "str"
  | VList _ => "list" | VTuple _ => "tuple" | VDict _ => "dict" | VOther t => t
  end.
Definition nat_str (n : nat) : string := str_of_N (N.of_nat n).
Definition mock_format_response (utterance : string) (tool : ToolDefinition) (content : pyval) : M string :=
  let name := display_name tool in
  Ok match content with
     | VNone => name +:+ " completed and returned no content."
     | VDict d =>
         match get "items" d with
         | VList [] => name +:+ " matched no records."
         | VList items =>
             let n := length items in
             join (String newline "")
               ([name +:+ " returned " +:+ nat_str n +:+ " of "
                 +:+ py_str (get_or "total_matched" (VInt (Z.of_nat n)) d) +:+ " matching records:"]
                ++ map (fun item => "  - " +:+ describe item) (firstn 10 items)
                ++ (if (10 <? n)%nat then ["  ... and " +:+ nat_str (n - 10) +:+ " more"] else []))
         | _ => name +:+ " returned: " +:+ describe content
         end
     | VList items => name +:+ " returned " +:+ nat_str (length items) +:+ " records."
     | _ => name +:+ " returned a " +:+ type_name content +:+ " value."
     end.

Definition MockLLMProvider : LLMProvider :=
  MkProvider "mock" mock_select_tool mock_generate_arguments mock_format_response.
End mock.

Example mock_examples :
  (finditer KEBAB_ID 0 None "move team-x-1 and ab-c_d, a-b-c_", finditer UPPER_ID 0 None "TKT-1001 A-1x X-2",
   finditer INTEGER 0 None "12 a3 4-5", mentions "set it in progress" "in_progress", mentions "reopened" "open",
   extract_identifier "assignee_id" "" "give it to agent bao please",
   extract_identifier "ticket_id" "close ticket TKT-7" "close ticket tkt-7") =
  (["team-x-1"; "a-b"], ["TKT-1001"; "X-2"], ["12"; "4"; "5"], true, false, Some "agent-bao", Some "TKT-7").
Proof. vm_compute. reflexivity. Qed.

(** ** Selection *)

#[export] Instance entry_le_total : Total entry_le.
Proof.
  intros [a x] [b y]. unfold entry_le; cbn [fst snd].
  destruct (Z.lt_trichotomy a b) as [?|[->|?]]; [by right; left| |by left; left].
  rewrite (String.compare_antisym y x). destruct (String.compare x y) eqn:E; [left|left|right]; right; by rewrite ?E.
Qed.
#[export] Instance entry_le_trans : Transitive entry_le.
Proof.
  intros [a x] [b y] [c z]. unfold entry_le; cbn [fst snd]. intros [?|[-> Hxy]] [?|[-> Hyz]]; try (left; lia).
  right. split; [done|]. destruct (String.compare x y) eqn:E1, (String.compare y z) eqn:E2; try done.
  - apply scompare_eq in E1 as ->. by rewrite E2.
  - apply scompare_eq in E1 as ->. by rewrite E2.
  - apply scompare_eq in E2 as <-. by rewrite E1.
  - by rewrite (scompare_trans _ _ _ E1 E2).
Qed.
#[export] Instance entry_le_antisymm : AntiSymm eq entry_le.
Proof.
  intros [a x] [b y]. unfold entry_le; cbn [fst snd]. intros [?|[-> H1]] [?|[? H2]]; try lia. f_equal.
  rewrite String.compare_antisym in H2. destruct (String.compare x y) eqn:E; try done. by apply scompare_eq.
Qed.
(** Sorting a permutation of the entries gives the same list. *)
Lemma sort_permutation l l' : l ≡ₚ l' -> merge_sort entry_le l = merge_sort entry_le l'.
Proof.
  intros Hp. apply (StronglySorted_unique entry_le).
  - apply (StronglySorted_merge_sort entry_le).
  - apply (StronglySorted_merge_sort entry_le).
  - by rewrite !merge_sort_Permutation.
Qed.

Section mock_lemmas.
Context `{Platform}.

Definition has_properties (t : ToolDefinition) : Prop := is_dict (get "properties" (input_schema t)) = true.
(** The score of a candidate for a request. *)
Definition points (utterance : string) (t : ToolDefinition) : Z :=
  let words := content_words utterance in
  match score words t (negb (bool_decide (words ∩ list_to_set MUTATION_VERBS = ∅))) with Ok z => z | Err _ => 0%Z end.

Lemma score_points utterance t :
  has_properties t ->
  score (content_words utterance) t (negb (bool_decide (content_words utterance ∩ list_to_set MUTATION_VERBS = ∅)))
  = Ok (points utterance t).
Proof.
  unfold has_properties, points, score, get, get_or. intros Hp.
  destruct (dget _ _) as [v|]; [|done]. by destruct v.
Qed.
Lemma scored_points utterance tools :
  Forall has_properties tools ->
  scored (content_words utterance) tools
    (negb (bool_decide (content_words utterance ∩ list_to_set MUTATION_VERBS = ∅)))
  = Ok (map (fun t => (points utterance t, tool_name t)) tools).
Proof.
  intros Hp. apply map_result_Ok. induction Hp as [|t tools Ht _ IH]; constructor; [|done].
  by rewrite score_points.
Qed.

(** A first entry of the sorted list is a best one. *)
Lemma merge_sort_head l x r : merge_sort entry_le l = x :: r -> x ∈ l /\ forall y, y ∈ l -> x = y \/ entry_le x y.
Proof.
  intros E. pose proof (merge_sort_Permutation entry_le l) as Hp. rewrite E in Hp.
  pose proof (StronglySorted_merge_sort entry_le l) as Hs. rewrite E in Hs. apply StronglySorted_inv in Hs as [_ Hs].
  split; [rewrite <- Hp; left|]. intros y Hy. rewrite <- Hp in Hy. apply elem_of_cons in Hy as [->|Hy]; [by left|].
  right. rewrite Forall_forall in Hs. auto.
Qed.
End mock_lemmas.

(** Selection is a function of the set of candidates.  For tools that
    declare their arguments it never fails, and its answer does not depend on
    the order in which they are offered: the candidate with the most points,
    the least name among equals, if that is two points or more (four halves),
    and otherwise, or when the request has no content word, none; the runner-up is
    a candidate with points too. *)
Theorem mock_selects_best `{Platform} :
  forall utterance tools,
    tools <> [] -> Forall has_properties tools ->
    exists answer,
      (forall tools', tools' ≡ₚ tools -> mock_select_tool utterance tools' = Ok answer) /\
      match answer with
      | None => content_words utterance = ∅ \/ forall t, t ∈ tools -> (points utterance t < SELECTION_THRESHOLD)%Z
      | Some selection => exists t,
          t ∈ tools /\ sel_tool_name selection = tool_name t /\
          sel_score selection = half_float (points utterance t) /\ (SELECTION_THRESHOLD <= points utterance t)%Z /\
          (forall t', t' ∈ tools -> (points utterance t' < points utterance t)%Z \/
             points utterance t' = points utterance t /\ String.compare (tool_name t) (tool_name t') <> Gt) /\
          (forall name, sel_runner_up selection = Some name ->
             exists t', t' ∈ tools /\ tool_name t' = name /\ (0 < points utterance t')%Z)
      end.
Proof.
  intros utterance tools Hne Hp.
  set (entries := map (fun t => (points utterance t, tool_name t)) tools).
  assert (forall tools', tools' ≡ₚ tools -> Forall has_properties tools' /\
            merge_sort entry_le (map (fun t => (points utterance t, tool_name t)) tools') = merge_sort entry_le entries) as Hperm.
  { intros tools' Ht. split; [by rewrite Ht|]. apply sort_permutation. unfold entries. by rewrite Ht. }
  assert (forall e, e ∈ entries -> exists t, t ∈ tools /\ e = (points utterance t, tool_name t)) as Hent.
  { intros e He%list_elem_of_In. apply in_map_iff in He as (t & <- & Ht). exists t. by rewrite list_elem_of_In. }
  destruct (decide (content_words utterance = ∅)) as [Hw|Hw].
  { exists None. split; [|by left]. intros tools' _. unfold mock_select_tool. by rewrite bool_decide_true. }
  destruct (merge_sort entry_le entries) as [|[best name] rest] eqn:Es.
  { exfalso. pose proof (merge_sort_Permutation entry_le entries) as Hq. rewrite Es in Hq.
    apply Permutation_nil in Hq. unfold entries in Hq. by destruct tools. }
  destruct (merge_sort_head _ _ _ Es) as [Hin Hbest].
  destruct (Hent _ Hin) as (t & Ht & [= Hb Hn]).
  eexists (if (best <? SELECTION_THRESHOLD)%Z then None else Some (MkSelection name (half_float best) _ _)). split.
  - intros tools' Ht'. destruct (Hperm tools' Ht') as [Hp' Hs']. unfold mock_select_tool. rewrite bool_decide_false by done.
    rewrite (scored_points _ _ Hp'). cbn [bind]. rewrite Hs'. by destruct (_ <? _)%Z.
  - assert (forall t', t' ∈ tools -> (points utterance t' < best)%Z \/
              points utterance t' = best /\ String.compare name (tool_name t') <> Gt) as Hall.
    { intros t' Ht'.
      assert ((points utterance t', tool_name t') ∈ entries) as Hin'.
      { apply list_elem_of_In, in_map_iff. exists t'. by rewrite <- list_elem_of_In. }
      destruct (Hbest _ Hin') as [E|[E|[E1 E2]]]; cbn [fst snd] in *; [|by left|by right].
      assert (best = points utterance t' /\ name = tool_name t') as [E1 E2] by (split; congruence).
      right. split; [done|]. by rewrite E2, scompare_refl. }
    destruct (Z.ltb_spec best SELECTION_THRESHOLD) as [Hl|Hl].
    + right. intros t' Ht'. destruct (Hall t' Ht') as [?|[? _]]; lia.
    + exists t. rewrite <- Hb, <- Hn. split_and!; try done. cbn [sel_runner_up]. intros r Hr.
      destruct rest as [|[s r'] rest]; [done|]. destruct (Z.ltb_spec 0 s); [|done]. injection Hr as <-.
      assert ((s, r') ∈ entries) as He.
      { rewrite <- (merge_sort_Permutation entry_le entries), Es. right. left. }
      destruct (Hent _ He) as (t' & Ht' & [= -> ->]). by exists t'.
Qed.

Lemma mock_selects_best_witness :
  exists selection, mock_select_tool "please add a note" [demo_tool] = Ok (Some selection) /\
    sel_tool_name selection = "add_note".
Proof.
  destruct (mock_selects_best "please add a note" [demo_tool]) as (answer & Ha & Hb); [done|by repeat constructor|].
  exists (default (MkSelection "" (half_float 0) "" None) answer). specialize (Ha [demo_tool] (reflexivity _)).
  rewrite Ha. vm_compute in Ha. injection Ha as <-. split; reflexivity.
Defined.

(** ** Arguments *)

Lemma stake_prefix n s : exists r, s = stake n s +:+ r.
Proof.
  revert n. induction s as [|c s IH]; intros [|n]; cbn [stake]; try (by eexists).
  destruct (IH n) as [r Hr]. exists r. by rewrite sapp_cons, <- Hr.
Qed.
(** What [finditer] yields is text of the request. *)
Lemma finditer_contains r skip before s w : w ∈ finditer r skip before s -> contains w s = true.
Proof.
  assert (forall w c t, contains w t = true -> contains w (String c t) = true) as Hcons.
  { intros w' c t Hc. cbn [contains]. rewrite Hc. apply orb_true_r. }
  revert skip before. induction s as [|c s IH]; intros skip before; cbn [finditer]; [by intros ?%elem_of_nil|].
  destruct skip as [|skip]; [|intros Hw; eauto].
  destruct (if boundary before (Some c) then longest r before (String c s) else None) as [[|n]|]; try (intros Hw; eauto; fail).
  intros [->|Hw]%elem_of_cons; [|eauto]. destruct (stake_prefix (S n) (String c s)) as [rest Hr].
  rewrite Hr at 2. apply contains_true. exists "", rest. by rewrite sapp_nil_l.
Qed.

(** What may be proposed for an argument of a schema: a nested object of such
    values, a mentioned member of the enumeration, [true] when the argument's own
    words are spoken, a number of the text within the bounds, or an identifier
    that is text of the request or two of its words, the entity's among them. *)
Inductive grounded (utterance : string) : string -> dict -> pyval -> Prop :=
  | grounded_object name schema nested :
      get "type" schema = VStr "object" -> nested <> [] ->
      (forall k v, dget (KStr k) nested = Some v -> exists properties key child,
         get "properties" schema = VDict properties /\ (key, VDict child) ∈ properties /\ key_text key = k /\
         grounded utterance k child v) ->
      grounded utterance name schema (VDict nested)
  | grounded_enum name schema enum s :
      get "enum" schema = VList enum -> VStr s ∈ enum -> mentions (lower utterance) s = true ->
      grounded utterance name schema (VStr s)
  | grounded_flag name schema :
      get "type" schema = VStr "boolean" -> flag_words name <> ∅ -> flag_words name ⊆ content_words utterance ->
      grounded utterance name schema (VBool true)
  | grounded_integer name schema digits :
      get "type" schema = VStr "integer" -> contains digits utterance = true ->
      within_bounds schema (int_of_digits digits) = true ->
      grounded utterance name schema (VInt (int_of_digits digits))
  | grounded_identifier name schema entity s :
      get "type" schema = VStr "string" -> entity_of name = Some entity ->
      contains s (lower utterance) = true \/ contains s utterance = true \/
      (exists prefix neighbour, prefix ∈ entity_prefixes entity /\ s = prefix +:+ "-" +:+ neighbour /\
         prefix ∈ tokens_of (lower utterance) /\ neighbour ∈ tokens_of (lower utterance)) ->
      grounded utterance name schema (VStr s).

Lemma described_ids_words tokens prefix s :
  s ∈ described_ids tokens prefix ->
  exists neighbour, s = prefix +:+ "-" +:+ neighbour /\ prefix ∈ tokens /\ neighbour ∈ tokens.
Proof.
  unfold described_ids. intros (n & <- & Hn)%list_elem_of_In%in_map_iff. exists n. split; [done|].
  apply filter_In in Hn as [Hn _]. apply in_concat in Hn as (l & Hl & Hn). apply list_elem_of_In in Hl, Hn.
  apply elem_of_lookup_imap in Hl as (i & t & -> & Ht). destruct (String.eqb_spec t prefix) as [->|]; [|by apply elem_of_nil in Hn].
  split; [by eapply list_elem_of_lookup_2|]. unfold neighbours in Hn.
  apply list_elem_of_omap in Hn as (o & _ & Ho). destruct (_ <=? _)%Z; [|done]. by eapply list_elem_of_lookup_2.
Qed.
Lemma extract_identifier_grounded name schema utterance s :
  get "type" schema = VStr "string" -> extract_identifier name utterance (lower utterance) = Some s ->
  grounded utterance name schema (VStr s).
Proof.
  intros Ht. unfold extract_identifier. destruct (entity_of name) as [entity|] eqn:Ee; cbn [mbind option_bind]; [|done].
  intros Hs. eapply grounded_identifier; [done|done|].
  destruct (find_first _ _) as [t|] eqn:Ef in Hs.
  { injection Hs as <-. left. apply find_first_Some in Ef as [Hin _]. by eapply finditer_contains. }
  destruct (if existsb _ _ then _ else _) as [t|] eqn:Eu in Hs.
  { injection Hs as <-. right; left. destruct (existsb _ _); [|done].
    destruct (finditer UPPER_ID 0 None utterance) as [|u l] eqn:El; [done|]. injection Eu as <-.
    eapply finditer_contains. rewrite El. left. }
  right; right. apply head_Some_elem_of, list_elem_of_In, in_concat in Hs as (l & Hl & Hs).
  apply in_map_iff in Hl as (p & <- & Hp). apply list_elem_of_In in Hp, Hs.
  apply described_ids_words in Hs as (n & -> & ? & ?). by exists p, n.
Qed.
Lemma extract_scalar_grounded name schema utterance v :
  extract_scalar name schema utterance (lower utterance) (content_words utterance) = Some v ->
  grounded utterance name schema v.
Proof.
  unfold extract_scalar. destruct (get "enum" schema) as [| | | | |enum| | |] eqn:Ee.
  6: { intros [Hin Hm]%find_first_Some. destruct v; try done. by eapply grounded_enum. }
  all: destruct (get "type" schema) as [| | | |declared| | | |] eqn:Et; try done;
    destruct (String.eqb_spec declared "boolean") as [->|];
    [destruct (bool_decide_reflect (flag_words name = ∅)); [done|];
     destruct (bool_decide_reflect (flag_words name ⊆ content_words utterance)); [|done];
     intros [= <-]; by apply grounded_flag|];
    destruct (String.eqb_spec declared "integer") as [->|];
    [destruct (find_first _ _) as [found|] eqn:Ez; [|done]; intros [= <-];
     apply find_first_Some in Ez as [Hin Hb]; apply list_elem_of_In, in_map_iff in Hin as (digits & <- & Hd);
     apply grounded_integer; [done| |done]; eapply finditer_contains; by rewrite list_elem_of_In|];
    destruct (String.eqb_spec declared "string") as [->|]; [|done];
    destruct (extract_identifier _ _ _) as [found|] eqn:Es; [|done]; intros [= <-]; by apply extract_identifier_grounded.
Qed.

(** The loop over the properties: what it finds, and that only the properties'
    own errors leave it. *)
Lemma extract_properties_inv f properties found :
  extract_properties f properties = Ok found ->
  dict_ok found /\ exists ps, properties = VDict ps /\
    forall k v, dget (KStr k) found = Some v -> exists key child,
      (key, VDict child) ∈ ps /\ key_text key = k /\ f k child = Ok (Some v).
Proof.
  destruct properties as [| | | | | | |ps|]; try done. cbn [extract_properties]. intros Hf.
  apply (fold_result_inv _ (fun seen found => dict_ok found /\
    forall k v, dget (KStr k) found = Some v -> exists key child,
      (key, VDict child) ∈ seen /\ key_text key = k /\ f k child = Ok (Some v))) in Hf as [Hd Hf].
  - split; [done|]. by exists ps.
  - split; [apply NoDup_nil_2|done].
  - intros seen [key [| | | | | | |child|]] c c' [Hc Hin]; unfold add_property; cbn [snd fst]; try (intros [= <-]; split; [done|];
      intros k v (key' & child & ? & ?)%Hin; exists key', child; rewrite elem_of_app; tauto).
    intros (value & Hv & Hc')%bind_Ok. destruct value as [v|].
    + assert (dset (KStr (key_text key)) v c = c') as <- by congruence. split; [by apply dset_ok|].
      intros k w. rewrite dget_dset. case_bool_decide as E; [injection E as ->; intros [= <-]|].
      * exists key, child. rewrite elem_of_app. split_and!; [right; left|done|done].
      * intros (key' & child' & ? & ?)%Hin. exists key', child'. rewrite elem_of_app. tauto.
    + assert (c = c') as <- by congruence. split; [done|].
      intros k w (key' & child' & ? & ?)%Hin. exists key', child'. rewrite elem_of_app. tauto.
Qed.
Lemma get_or_member k s ps kv : get_or k (VDict []) s = VDict ps -> kv ∈ ps -> get k s = VDict ps.
Proof.
  unfold get, get_or. destruct (dget (KStr k) s); [done|]. intros [= <-] Hin. by apply elem_of_nil in Hin.
Qed.
Lemma extract_at_grounded fuel utterance name schema v :
  extract_at fuel utterance (lower utterance) (content_words utterance) name schema = Ok (Some v) ->
  grounded utterance name schema v.
Proof.
  revert name schema v. induction fuel as [|fuel IH]; intros name schema v; cbn [extract_at]; [done|].
  destruct (is_the_str "object" (get "type" schema)) eqn:Et; [|by intros [= Hs]; apply extract_scalar_grounded].
  apply py_eq_str in Et. intros (nested & Hn & Hv)%bind_Ok.
  apply extract_properties_inv in Hn as (_ & ps & Hps & Hn).
  destruct nested as [|kv nested]; [done|]. injection Hv as <-. apply grounded_object; [done|done|].
  intros k v (key & child & Hin & Hk & Hx)%Hn. exists ps, key, child. split_and!; [|done|done|by apply IH].
  by eapply get_or_member.
Qed.

(** The fuel of the extraction is enough: it fails as the source does or not at all. *)
Definition source_error (e : exn) : bool := is_class TypeError e || is_class AttributeError e.
Lemma extract_properties_ends f properties :
  (forall k child, match properties with VDict ps => exists key, (key, VDict child) ∈ ps /\ key_text key = k | _ => False end ->
     match f k child with Ok _ => True | Err e => source_error e = true end) ->
  match extract_properties f properties with Ok _ => True | Err e => source_error e = true end.
Proof.
  destruct properties as [| | | | | | |ps|]; try done. cbn [extract_properties].
  generalize (@nil (pykey * pyval)) as found.
  induction ps as [|[key v] ps IH]; intros found Hf; cbn [fold_result]; [done|].
  assert (forall found, match fold_result (add_property f) ps found with Ok _ => True | Err e => source_error e = true end) as IH'.
  { intros found'. apply (IH found'). intros k child (key' & Hin & Hk). apply Hf. exists key'. split; [by right|done]. }
  unfold add_property at 1. destruct v as [| | | | | | |child|]; cbn [snd fst bind]; try apply IH'.
  specialize (Hf (key_text key) child). destruct (f (key_text key) child) as [value|e]; cbn [bind]; [apply IH'|].
  apply Hf. exists key. split; [left|done].
Qed.
Lemma extract_at_ends fuel utterance lowered words name schema :
  (height (VDict schema) < fuel)%nat ->
  match extract_at fuel utterance lowered words name schema with Ok _ => True | Err e => source_error e = true end.
Proof.
  revert name schema. induction fuel as [|fuel IH]; intros name schema Hh; [lia|]. cbn [extract_at].
  destruct (is_the_str _ _); [|done].
  pose proof (extract_properties_ends (extract_at fuel utterance lowered words) (get_or "properties" (VDict []) schema)) as He.
  destruct (extract_properties _ _); cbn [bind]; [done|]. apply He. clear He.
  intros k child Hc. destruct (get_or "properties" (VDict []) schema) as [| | | | | | |ps|] eqn:Ep; try done.
  destruct Hc as (key & Hin & _). apply IH.
  pose proof (height_property _ _ _ _ (get_or_member _ _ _ _ Ep Hin) Hin). lia.
Qed.

(** A bare identifier is given to every entity the request mentions. *)
Lemma one_identifier_for_two_entities :
  let request := "move ticket TKT-1 to team OPS-9" in
  extract_identifier "ticket_id" request (lower request) = Some "TKT-1" /\
  extract_identifier "team_id" request (lower request) = Some "TKT-1".
Proof. split; vm_compute; reflexivity. Qed.
