(* ===== verification/RuntimeApi.v ===== *)
(** * The runtime's HTTP surface

    [runtime_service/main.py]: assembling the runtime from its settings, the
    caller of a request, the routes, and what they answer when something is
    raised.  A request of the framework is its headers and a route with its
    parsed body; the network, the resolver and the clocks at the time of a
    request are a [World]. *)

From S2P Require Export Orchestrator Settings MockLlm.
From Stdlib Require Import Floats.SpecFloat.

Record World := MkWorld {
  w_get : http_get;             (* the control plane *)
  w_transport : Transport;      (* the upstream APIs *)
  w_resolver : DnsResolver;
  w_now : Z;                    (* the monotonic clock *)
  w_time : spec_float;          (* [time.time()] *)
  w_elapsed_ms : Z;
  w_fresh_id : string;          (* [uuid.uuid4().hex[:16]] *)
}.

(** ** Request bodies *)

Record ChatRequest := MkChatRequest {
  cq_utterance : string;
  cq_confirmed : bool;
  cq_dry_run : bool;
}.
Record ExecuteRequest := MkExecuteRequest {
  xq_arguments : dict;
  xq_confirmed : bool;
}.

Section bodies.
Context `{Pydantic}.
Definition parse_chat_request (v : pyval) : M ChatRequest :=
  let* d := fields ["utterance"; "confirmed"; "dry_run"] v in
  let* u := get_as as_string "utterance" d in
  let* _ := require (within 1 4000 u) "utterance" in
  let* c := get_as_or as_boolean "confirmed" false d in
  let* r := get_as_or as_boolean "dry_run" false d in
  Ok (MkChatRequest u c r).
Definition parse_execute_request (v : pyval) : M ExecuteRequest :=
  let* d := fields ["arguments"; "confirmed"] v in
  let* a := get_as_or as_object "arguments" [] d in
  let* c := get_as_or as_boolean "confirmed" false d in
  Ok (MkExecuteRequest a c).
End bodies.

(** ** The caller *)

Record RequestHeaders := MkHeaders {
  h_request_id : option string;
  h_subject : option string;        (* x-toollayer-caller *)
  h_roles : option string;          (* x-toollayer-roles *)
  h_authorization : option string;
}.
Definition bearer (authorization : option string) : option string :=
  match authorization with
  | Some header =>
      if is_empty header then None
      else
        let '(scheme, separator, token) := partition_on " " header in
        if negb separator || negb (String.eqb (lower scheme) "bearer") then None
        else nonempty (strip token)
  | None => None
  end.
Definition caller_identity `{Ed25519, TokenJson} (settings : RuntimeSettings) (h : RequestHeaders) (now : spec_float)
  : M (option CallerIdentity) :=
  let* authenticator := caller_authenticator settings in
  identify authenticator (bearer (h_authorization h)) (h_subject h) (h_roles h) now.

(** ** Responses *)

Record HttpResponse := MkHttpResponse {
  ps_status : Z;
  ps_body : pyval;
  ps_request_id : option string;    (* the x-request-id header *)
}.
Definition REQUEST_INVALID : string := "the request body does not match the expected shape".
Definition REQUEST_FAILED : string := "the request could not be completed".
(** The three exception handlers.  The last one answers outside of the
    middleware that sets the header. *)
Definition domain_error (request_id : string) (e : tl_error) : HttpResponse :=
  MkHttpResponse (te_http_status e) (envelope_to_dict (to_envelope e (Some request_id))) (Some request_id).
Definition request_validation (request_id : string) : HttpResponse :=
  MkHttpResponse 422
    (envelope_to_dict (MkEnvelope ErrorCode.INVALID_REQUEST REQUEST_INVALID None [] (Some request_id))) (Some request_id).
Definition unexpected (request_id : string) : HttpResponse :=
  MkHttpResponse 500
    (envelope_to_dict (MkEnvelope ErrorCode.INTERNAL_ERROR REQUEST_FAILED None [] (Some request_id))) None.
Definition respond (request_id : string) (c : M (Z * dict)) : HttpResponse :=
  match c with
  | Ok (status, body) => MkHttpResponse status (VDict body) (Some request_id)
  | Err (ToolLayerError e) => domain_error request_id e
  | Err _ => unexpected request_id
  end.

Definition outcome_body (outcome : OrchestrationOutcome) : dict :=
  {{ "request_id" ~> VStr (oc_request_id outcome);
     "snapshot" ~> VDict {{ "revision" ~> VInt (oc_snapshot_revision outcome);
                            "snapshot_id" ~> VStr (oc_snapshot_id outcome) }};
     "selected_tool" ~> VStr (oc_selected_tool outcome);
     "connector_key" ~> VStr (oc_connector_key outcome);
     "connector_version" ~> VStr (oc_connector_version outcome);
     "arguments" ~> VDict (oc_arguments outcome);
     "message" ~> VStr (oc_message outcome);
     "trace" ~> VList (map VDict (oc_trace outcome)) }}
  ++ match oc_result outcome with
     | Some result =>
         {{ "result" ~> VDict {{ "status" ~> VStr (if r_succeeded result then "succeeded" else "upstream_error");
                                 "http_status" ~> VInt (r_http_status result);
                                 "duration_ms" ~> VInt (r_duration_ms result);
                                 "content" ~> r_content result;
                                 "untrusted" ~> VBool true }} }}
     | None => []
     end.
Definition tool_body (bound : BoundTool) : pyval :=
  let tool := bt_tool bound in
  VDict {{ "tool_name" ~> VStr (bt_tool_name bound); "display_name" ~> VStr (display_name tool);
           "description" ~> VStr (description tool); "connector_key" ~> VStr (bt_connector_key bound);
           "connector_version" ~> VStr (bt_connector_version bound);
           "effect_class" ~> VStr (text_of effect_classes (effect_class (policy tool)));
           "requires_confirmation" ~> VBool (requires_confirmation (policy tool));
           "input_schema" ~> VDict (input_schema tool) }}.
Definition tools_body (caller : option CallerIdentity) (visible : list BoundTool) : dict :=
  {{ "caller" ~> match caller with Some c => VStr (subject c) | None => VNone end;
     "roles" ~> match caller with Some c => strs (sorted_strs (elements (Authorization.roles c))) | None => VList [] end;
     "tools" ~> VList (map tool_body visible) }}.
Definition ready_body (s : LoadedSnapshot) : dict :=
  {{ "status" ~> VStr "ready"; "snapshot_revision" ~> VInt (ls_revision s);
     "snapshot_id" ~> VStr (snapshot_id (ls_snapshot s)); "tool_count" ~> VInt (Z.of_nat (length (ls_tools s)));
     "snapshot_signed" ~> VBool (ls_signed s); "snapshot_signing_key_id" ~> opt_text (signing_key_id s) }}.
Definition unavailable_body : dict := {{ "status" ~> VStr "unavailable"; "reason" ~> VStr "no deployment snapshot" }}.
Definition refreshed_body (s : LoadedSnapshot) : dict :=
  {{ "snapshot_revision" ~> VInt (ls_revision s); "snapshot_id" ~> VStr (snapshot_id (ls_snapshot s));
     "snapshot_digest" ~> VStr (snapshot_digest (ls_snapshot s)); "tool_count" ~> VInt (Z.of_nat (length (ls_tools s)));
     "snapshot_signed" ~> VBool (ls_signed s); "snapshot_signing_key_id" ~> opt_text (signing_key_id s) }}.
Definition health_body (settings : RuntimeSettings) : M dict :=
  let* posture := security_posture settings in
  Ok ({{ "status" ~> VStr "ok"; "contract_version" ~> VStr CONTRACT_VERSION; "provider" ~> VStr "mock" }} ++ posture).

(** ** The application *)

Inductive Route :=
  | Healthz
  | Readyz
  | ListTools
  | Chat (body : pyval)
  | Execute (tool_name : string) (body : pyval)
  | RefreshSnapshot.

Section application.
Context `{Platform, Ed25519, JsonSchema, Pydantic, Decoding, TokenJson}.

Definition build_orchestrator (settings : RuntimeSettings) (w : World) : M (Orchestrator * SnapshotStore) :=
  let* verification := snapshot_verification_policy settings in
  let client := SnapshotClient_new (rs_control_plane_url settings) (rs_service_token settings) (Some verification) (w_get w) in
  let store := SnapshotStore_new client (rs_deployment_key settings) (rs_snapshot_refresh_seconds settings) in
  let* destinations := destination_policy settings in
  let* limits := execution_limits settings in
  Ok (MkOrchestrator MockLLMProvider (MkExecutor destinations limits (w_transport w) (w_resolver w)), store).

(** The collaborators, talking to the world as it is when a request comes in. *)
Definition engine_in (w : World) (engine : Orchestrator) : Orchestrator :=
  MkOrchestrator (or_provider engine)
    (MkExecutor (ex_policy (or_executor engine)) (ex_limits (or_executor engine)) (w_transport w) (w_resolver w)).

Definition readyz (store : SnapshotStore) (w : World) : SnapshotStore * M (Z * dict) :=
  let '(store, checked) :=
    if loaded store then (store, Ok None)
    else
      let '(store, refreshed) := refresh store (w_now w) in
      (store, match refreshed with
              | Ok _ => Ok None
              | Err e => if is_tool_layer_error e then Ok (Some (503%Z, unavailable_body)) else Err e
              end) in
  (store,
   let* unavailable := checked in
   match unavailable with
   | Some answer => Ok answer
   | None => let* snapshot := current store in Ok (200%Z, ready_body snapshot)
   end).

(** What a route does once the caller is known, and the requests it sends. *)
Definition run_chat (engine : Orchestrator) (store : SnapshotStore) (w : World) (request_id : string)
    (caller : option CallerIdentity) (payload : ChatRequest) : SnapshotStore * (list PreparedRequest * M (Z * dict)) :=
  let '(store, (sent, outcome)) :=
    handle engine store (cq_utterance payload) caller (Some request_id) (cq_confirmed payload) (cq_dry_run payload)
      (w_fresh_id w) (w_now w) (w_elapsed_ms w) in
  (store, (sent, let* outcome := outcome in Ok (200%Z, outcome_body outcome))).
Definition run_execute (engine : Orchestrator) (store : SnapshotStore) (w : World) (request_id : string)
    (caller : option CallerIdentity) (tool_name : string) (payload : ExecuteRequest)
  : SnapshotStore * (list PreparedRequest * M (Z * dict)) :=
  let '(store, (sent, outcome)) :=
    execute_tool engine store tool_name (VDict (xq_arguments payload)) caller (Some request_id) (xq_confirmed payload)
      (w_fresh_id w) (w_now w) (w_elapsed_ms w) in
  (store, (sent, let* outcome := outcome in Ok (200%Z, outcome_body outcome))).

(** The middleware, the dependency, the validation of the body, the route and
    the exception handlers, in the order the framework runs them. *)
Definition serve (settings : RuntimeSettings) (engine : Orchestrator) (store : SnapshotStore) (w : World)
    (h : RequestHeaders) (route : Route) : SnapshotStore * (list PreparedRequest * HttpResponse) :=
  let request_id := request_id_or (h_request_id h) (w_fresh_id w) in
  let engine := engine_in w engine in
  let store := on_network store (w_get w) in
  let answer c := respond request_id c in
  match route with
  | Healthz => (store, ([], answer (let* body := health_body settings in Ok (200%Z, body))))
  | Readyz => let '(store, c) := readyz store w in (store, ([], answer c))
  | RefreshSnapshot =>
      let '(store, c) := refresh store (w_now w) in
      (store, ([], answer (let* snapshot := c in Ok (200%Z, refreshed_body snapshot))))
  | ListTools =>
      match caller_identity settings h (w_time w) with
      | Err e => (store, ([], answer (Err e)))
      | Ok caller =>
          let '(store, visible) := discover store caller (w_now w) in
          (store, ([], answer (let* visible := visible in Ok (200%Z, tools_body caller visible))))
      end
  | Chat body =>
      match caller_identity settings h (w_time w), parse_chat_request body with
      | Err e, _ => (store, ([], answer (Err e)))
      | Ok _, Err _ => (store, ([], request_validation request_id))
      | Ok caller, Ok payload =>
          let '(store, (sent, c)) := run_chat engine store w request_id caller payload in
          (store, (sent, answer c))
      end
  | Execute tool_name body =>
      match caller_identity settings h (w_time w), parse_execute_request body with
      | Err e, _ => (store, ([], answer (Err e)))
      | Ok _, Err _ => (store, ([], request_validation request_id))
      | Ok caller, Ok payload =>
          let '(store, (sent, c)) := run_execute engine store w request_id caller tool_name payload in
          (store, (sent, answer c))
      end
  end.
End application.

(** ** Lemmas *)

Section application_lemmas.
Context `{Platform, Ed25519, JsonSchema, Pydantic, Decoding, TokenJson}.

(** The steps of a running application: requests, each in a world of its own. *)
Inductive app_step (settings : RuntimeSettings) (engine : Orchestrator) : SnapshotStore -> SnapshotStore -> Prop :=
  | app_serves store w h route : app_step settings engine store (serve settings engine store w h route).1.

(** Whether the body of a request carries a confirmation. *)
Definition confirms (route : Route) : bool :=
  match route with
  | Chat body => match parse_chat_request body with Ok p => cq_confirmed p | Err _ => false end
  | Execute _ body => match parse_execute_request body with Ok p => xq_confirmed p | Err _ => false end
  | _ => false
  end.

(** A cleared request, as either route sends it, from a snapshot that is [good]. *)
Definition clears (good : LoadedSnapshot -> Prop) (engine : Orchestrator) (w : World) (caller : option CallerIdentity)
    (confirmed : bool) (request : PreparedRequest) : Prop :=
  exists s name arguments b validated, good s /\ cleared s name arguments caller confirmed b validated /\
    dispatchable (or_executor (engine_in w engine)) b validated request.
(** What a route does to the store, and what it sends. *)
Definition route_result (good : LoadedSnapshot -> Prop) (engine : Orchestrator) (w : World) (store store' : SnapshotStore)
    (allowed : PreparedRequest -> Prop) (sent : list PreparedRequest) : Prop :=
  store_sat good store' /\ store_moves store store' /\ (length sent <= 1)%nat /\ forall request, request ∈ sent -> allowed request.

Section good.
Variable good : LoadedSnapshot -> Prop.
Hypothesis good_stable : time_stable good.

Lemma route_silent engine w store store' allowed :
  store_sat good store' -> store_moves store store' -> route_result good engine w store store' allowed [].
Proof. intros Hs Hm. split_and!; [done|done|simpl; lia|]. by intros request ?%elem_of_nil. Qed.
Lemma readyz_keeps store w :
  store_sat good store -> store_sat good (readyz store w).1 /\ store_moves store (readyz store w).1.
Proof using good_stable.
  intros Hok. unfold readyz. destruct (loaded store) eqn:Hl; [split; [done|apply store_moves_refl]|].
  destruct (refresh_keeps good store (w_now w) good_stable Hok) as (Hs & Hm & _).
  by destruct (refresh store (w_now w)) as [st r].
Qed.
Lemma run_chat_keeps engine store w rid caller payload :
  store_sat good store ->
  let '(store', (sent, _)) := run_chat (engine_in w engine) store w rid caller payload in
  route_result good engine w store store' (clears good engine w caller (cq_confirmed payload)) sent.
Proof using good_stable.
  intros Hok. unfold run_chat.
  pose proof (handle_sends (engine_in w engine) store (cq_utterance payload) caller (Some rid) (cq_confirmed payload)
    (cq_dry_run payload) (w_fresh_id w) (w_now w) (w_elapsed_ms w)) as Hs.
  destruct (handle _ _ _ _ _ _ _ _ _ _) as [store' [sent r]]. destruct Hs as (Hst & Hl & Hs).
  destruct (ensure_fresh_keeps good store (w_now w) good_stable Hok) as (Hsat & Hm & Hr & _).
  split_and!; [by destruct Hst as [->| ->]|destruct Hst as [->| ->]; [apply store_moves_refl|done]|done|].
  intros request Hin. destruct (Hs request Hin) as (_ & s & name & arguments & b & validated & Hf & Hc & Hd).
  exists s, name, arguments, b, validated. destruct (Hr s Hf). by split_and!.
Qed.
Lemma run_execute_keeps engine store w rid caller name payload :
  store_sat good store ->
  let '(store', (sent, _)) := run_execute (engine_in w engine) store w rid caller name payload in
  route_result good engine w store store' (clears good engine w caller (xq_confirmed payload)) sent.
Proof using good_stable.
  intros Hok. unfold run_execute.
  pose proof (execute_tool_sends (engine_in w engine) store name (VDict (xq_arguments payload)) caller (Some rid)
    (xq_confirmed payload) (w_fresh_id w) (w_now w) (w_elapsed_ms w)) as Hs.
  destruct (execute_tool _ _ _ _ _ _ _ _ _ _) as [store' [sent r]]. destruct Hs as (-> & Hl & Hs).
  destruct (ensure_fresh_keeps good store (w_now w) good_stable Hok) as (Hsat & Hm & Hr & _).
  split_and!; [done..|]. intros request Hin. destruct (Hs request Hin) as (s & b & validated & Hf & Hc & Hd).
  exists s, name, (VDict (xq_arguments payload)), b, validated. destruct (Hr s Hf). by split_and!.
Qed.

(** Every request keeps the store's snapshots good and sends at most one
    cleared call. *)
Lemma serve_keeps settings engine store w h route :
  store_sat good (on_network store (w_get w)) ->
  let '(store', (sent, _)) := serve settings engine store w h route in
  route_result good engine w (on_network store (w_get w)) store'
    (fun request => exists caller, caller_identity settings h (w_time w) = Ok caller /\
       clears good engine w caller (confirms route) request) sent.
Proof using good_stable.
  unfold serve. cbv zeta. generalize dependent (on_network store (w_get w)). intros st Hok.
  destruct route as [| | |body|name body|].
  - apply route_silent; [done|apply store_moves_refl].
  - destruct (readyz_keeps st w Hok). destruct (readyz st w) as [st' c]. by apply route_silent.
  - destruct (caller_identity _ _ _) as [caller|e]; [|apply route_silent; [done|apply store_moves_refl]].
    destruct (ensure_fresh_keeps good st (w_now w) good_stable Hok) as (? & ? & _). unfold discover.
    destruct (ensure_fresh st (w_now w)) as [st' c]. by apply route_silent.
  - destruct (caller_identity _ _ _) as [caller|e]; [|apply route_silent; [done|apply store_moves_refl]].
    cbn [confirms]. destruct (parse_chat_request body) as [payload|e]; [|apply route_silent; [done|apply store_moves_refl]].
    pose proof (run_chat_keeps engine st w (request_id_or (h_request_id h) (w_fresh_id w)) caller payload Hok) as Hr.
    destruct (run_chat _ _ _ _ _ _) as [st' [sent c]]. destruct Hr as (? & ? & ? & Hs). split_and!; eauto.
  - destruct (caller_identity _ _ _) as [caller|e]; [|apply route_silent; [done|apply store_moves_refl]].
    cbn [confirms]. destruct (parse_execute_request body) as [payload|e]; [|apply route_silent; [done|apply store_moves_refl]].
    pose proof (run_execute_keeps engine st w (request_id_or (h_request_id h) (w_fresh_id w)) caller name payload Hok) as Hr.
    destruct (run_execute _ _ _ _ _ _ _) as [st' [sent c]]. destruct Hr as (? & ? & ? & Hs). split_and!; eauto.
  - destruct (refresh_keeps good st (w_now w) good_stable Hok) as (? & ? & _). destruct (refresh st (w_now w)) as [st' c].
    by apply route_silent.
Qed.
End good.

(** The case of verified snapshots, over any network. *)
Lemma verified_stable v : time_stable (verified_by v).
Proof. intros ??. apply verified_by_time. Qed.
Lemma readyz_ok v store w :
  store_ok v store -> store_ok v (readyz store w).1 /\ (loaded store = true -> loaded (readyz store w).1 = true).
Proof.
  intros Hok. destruct (readyz_keeps _ (verified_stable v) store w (store_ok_sat _ _ Hok)) as [Hs Hm].
  split; [by eapply store_sat_ok|apply Hm].
Qed.
Lemma serve_ok settings engine store w h route v :
  store_ok v store ->
  let '(store', (sent, _)) := serve settings engine store w h route in
  store_ok v store' /\ (loaded store = true -> loaded store' = true) /\ (length sent <= 1)%nat /\
  forall request, request ∈ sent -> exists caller,
    caller_identity settings h (w_time w) = Ok caller /\ clears (verified_by v) engine w caller (confirms route) request.
Proof.
  intros Hok%(on_network_ok v _ (w_get w)).
  pose proof (serve_keeps _ (verified_stable v) settings engine store w h route (store_ok_sat _ _ Hok)) as Hs.
  destruct (serve _ _ _ _ _ _) as [store' [sent r]]. destruct Hs as (Hs & Hm & Hl & Hsent).
  split_and!; [by eapply store_sat_ok|apply Hm|done|done].
Qed.

Lemma build_orchestrator_Ok settings w engine store :
  build_orchestrator settings w = Ok (engine, store) ->
  exists v policy, snapshot_verification_policy settings = Ok v /\ destination_policy settings = Ok policy /\
    ex_policy (or_executor engine) = policy /\ store_ok v store /\ loaded store = false.
Proof.
  unfold build_orchestrator. intros (v & Hv & (policy & Hp & (limits & _ & [= <- <-])%bind_Ok)%bind_Ok)%bind_Ok.
  exists v, policy. by split_and!.
Qed.
Lemma app_reachable_ok settings engine v store store' :
  store_ok v store -> rtc (app_step settings engine) store store' -> store_ok v store'.
Proof.
  intros Hok Hr. induction Hr as [store|store store1 store2 Hstep _ IH]; [done|]. apply IH. destruct Hstep as [store w h route].
  pose proof (serve_ok settings engine store w h route v Hok) as Hs.
  destruct (serve _ _ _ _ _ _) as [st [sent r]]. by destruct Hs as [? _].
Qed.

(** What [readyz] answers from a verified store. *)
Lemma readyz_spec v store w :
  store_ok v store ->
  let '(store', answer) := readyz store w in
  (exists s, st_current store' = Some s /\ verified_by v s /\ answer = Ok (200%Z, ready_body s)) \/
  loaded store' = false /\ match answer with Ok (status, _) => status = 503%Z | Err e => is_tool_layer_error e = false end.
Proof.
  intros Hok. unfold readyz, current. destruct (loaded store) eqn:Hl.
  - unfold loaded in Hl. destruct (st_current store) as [s|] eqn:Hs; [|done]. left. exists s.
    split_and!; [done|by apply Hok|by cbn; rewrite ?Hs].
  - destruct (refresh_ok v store (w_now w) Hok) as (_ & Hr & _ & He). destruct (refresh store (w_now w)) as [st [s|e]]; cbn [fst snd] in *.
    + destruct (Hr s eq_refl) as [Hv Hs]. left. exists s. split_and!; [done|done|]. cbn [bind]. by rewrite Hs.
    + rewrite (He e eq_refl). right. split; [done|]. by destruct (is_tool_layer_error e) eqn:E.
Qed.
Lemma required_signed settings v s :
  snapshot_verification_policy settings = Ok v -> rs_snapshot_verification settings = "required" -> verified_by v s ->
  exists key, signing_key_id s = Some (vk_key_id key) /\ ring_find (trusted_keys v) (vk_key_id key) = Some key.
Proof.
  unfold snapshot_verification_policy. intros (ring & _ & [= <-])%bind_Ok -> (document & d & Hload).
  destruct (lc_signature _ _ _ _ Hload) as [(? & _)|(key & Hk & Hsig)]; [done|]. exists key. split; [done|].
  by destruct Hsig as (? & ? & ? & ? & _ & _ & _ & _ & _ & ? & _).
Qed.
End application_lemmas.

(** ** Properties *)

(** C1. End to end, from the environment to the wire.  Take any environment the
    runtime accepts, any history of HTTP requests, and whatever the network, the
    resolver and the clocks did meanwhile.  One HTTP request makes at most one
    outbound call; it is made for the caller that the configured authenticator
    identified, for a tool of a loaded snapshot whose policy admits that caller,
    confirmed in the body of this request where the tool asks for it, to a
    destination of the configured policy.  The snapshot is signed by a configured
    key unless the environment disables verification by name, and in verified
    mode the caller holds an authentic token. *)
Theorem runtime_is_governed `{Platform, Ed25519, JsonSchema, Pydantic, Decoding, TokenJson} :
  forall env settings world engine store0 store w h route store' sent response,
    runtime_get_settings env = Ok settings ->
    build_orchestrator settings world = Ok (engine, store0) ->
    rtc (app_step settings engine) store0 store ->
    serve settings engine store w h route = (store', (sent, response)) ->
    (length sent <= 1)%nat /\
    forall request, request ∈ sent ->
      exists verification policy authenticator caller name document d s c t,
        snapshot_verification_policy settings = Ok verification /\
        destination_policy settings = Ok policy /\ ex_policy (or_executor (engine_in w engine)) = policy /\
        caller_authenticator settings = Ok authenticator /\
        identify authenticator (bearer (h_authorization h)) (h_subject h) (h_roles h) (w_time w) = Ok caller /\
        governed verification (or_executor (engine_in w engine)) name caller (confirms route) request document d s c t /\
        (strip (env_get env "TOOLLAYER_SNAPSHOT_VERIFICATION" "") <> "disabled" ->
           exists key, signed_by d (trusted_keys verification) key) /\
        (rs_caller_auth_mode settings = "verified_token" -> exists token claims,
           bearer (h_authorization h) = Some token /\ authentic authenticator token (w_time w) claims).
Proof.
  intros env settings world engine store0 store w h route store' sent response Henv Hb Hreach Hs.
  apply build_orchestrator_Ok in Hb as (v & policy & Hv & Hp & Hpol & Hok & _).
  apply (app_reachable_ok _ _ _ _ _ Hok) in Hreach.
  pose proof (serve_ok settings engine store w h route v Hreach) as Hserve. rewrite Hs in Hserve.
  destruct Hserve as (_ & _ & Hl & Hsent). split; [done|]. intros request Hin.
  destruct (Hsent request Hin) as (caller & Hcaller & s & name & arguments & b & validated & Hver & Hc & Hd).
  destruct (cleared_governed _ _ _ _ _ _ _ _ _ _ Hver Hc Hd) as (document & d & c & t & Hg).
  unfold caller_identity in Hcaller. apply bind_Ok in Hcaller as (a & Ha & Hcaller).
  exists v, policy, a, caller, name, document, d, s, c, t. split_and!; try done.
  - intros Hne. pose proof (required_unless_disabled _ _ _ Henv Hv Hne) as Hm.
    destruct (lc_signature _ _ _ _ (gv_loaded _ _ _ _ _ _ _ _ _ _ _ Hg)) as [(? & _)|(k & _ & Hk)]; [congruence|by exists k].
  - intros Hmode. pose proof (verified_caller_mode _ _ Ha Hmode) as Hm.
    apply (identify_sound _ _ _ _ _ _ Hm) in Hcaller as (_ & _ & token & claims & _ & _ & Ht & Hau & _). by exists token, claims.
Qed.

(** C19. Readiness is truthful and does not lapse: [/readyz] sends nothing
    upstream, answers 200 exactly when a snapshot is held after it, and then
    reports that snapshot's revision and, unless verification is disabled, that
    it is signed and by which trusted key; and no later request makes a ready
    runtime lose its snapshot. *)
Theorem readiness_truthful `{Platform, Ed25519, JsonSchema, Pydantic, Decoding, TokenJson} :
  forall settings world engine store0 store w h,
    build_orchestrator settings world = Ok (engine, store0) ->
    rtc (app_step settings engine) store0 store ->
    let '(store', (sent, response)) := serve settings engine store w h Readyz in
    sent = [] /\
    (ps_status response = 200%Z <-> loaded store' = true) /\
    (ps_status response = 200%Z -> exists s body, current store' = Ok s /\ ps_body response = VDict body /\
       get "snapshot_revision" body = VInt (ls_revision s) /\
       (rs_snapshot_verification settings = "required" -> exists verification key,
          snapshot_verification_policy settings = Ok verification /\
          get "snapshot_signed" body = VBool true /\ get "snapshot_signing_key_id" body = VStr (vk_key_id key) /\
          ring_find (trusted_keys verification) (vk_key_id key) = Some key)) /\
    forall w' h' route, loaded store' = true -> loaded (serve settings engine store' w' h' route).1 = true.
Proof.
  intros settings world engine store0 store w h Hb Hreach.
  apply build_orchestrator_Ok in Hb as (v & policy & Hv & _ & _ & Hok & _).
  apply (app_reachable_ok _ _ _ _ _ Hok), (on_network_ok v _ (w_get w)) in Hreach.
  unfold serve. pose proof (readyz_spec v _ w Hreach) as Hr. pose proof (readyz_ok v _ w Hreach) as [Hst _].
  destruct (readyz (on_network store (w_get w)) w) as [st answer]. cbn [fst] in Hst.
  assert (forall w' h' route, loaded st = true -> loaded (serve settings engine st w' h' route).1 = true) as Hkeep.
  { intros w' h' route. pose proof (serve_ok settings engine st w' h' route v Hst) as Hs.
    destruct (serve _ _ _ _ _ _) as [st' [sent r]]. by destruct Hs as (_ & ? & _). }
  split; [done|]. unfold loaded at 1. unfold current. destruct Hr as [(s & Hs & Hver & ->)|(Hl & Ha)].
  - rewrite Hs. split_and!; [done| |done]. intros _. exists s, (ready_body s). split_and!; try done.
    intros Hreq. destruct (required_signed _ _ _ Hv Hreq Hver) as (key & Hk & Hf). exists v, key.
    split_and!; [done| | |done]; unfold ready_body, ls_signed; by rewrite Hk.
  - unfold loaded in Hl. destruct (st_current st); [done|].
    assert (ps_status (respond (request_id_or (h_request_id h) (w_fresh_id w)) answer) <> 200%Z) as Hne.
    { destruct answer as [[status body]|[]]; cbn; by subst. }
    split_and!; [by split|done|done].
Qed.

(** ** A concrete deployment for the witnesses *)

Definition api_environment : environment :=
  fun name => alookup name
    [("TOOLLAYER_SNAPSHOT_TRUSTED_KEYS", "demo-key:" +:+ demo_key_text);
     ("TOOLLAYER_ALLOWED_ORIGINS", "https://api.example.org")].
Definition api_world (now : Z) : World :=
  MkWorld demo_get (demo_transport 201) (fun _ _ => Ok ["93.184.216.34"]) now (sf_of_Z 1000) 12 "0123456789abcdef".
Definition api_headers : RequestHeaders := MkHeaders (Some "req-1") (Some "alice") (Some "support-agent") None.
Definition api_route (confirmed : bool) : Route :=
  Execute "add_note" (VDict {{ "arguments" ~> VDict demo_arguments; "confirmed" ~> VBool confirmed }}).
Definition api_started : M (RuntimeSettings * (Orchestrator * SnapshotStore)) :=
  let* settings := runtime_get_settings api_environment in
  let* built := @build_orchestrator zero_platform settings (api_world 0) in
  Ok (settings, built).
Definition api_call (confirmed : bool) : M (list PreparedRequest * Z) :=
  let* started := api_started in
  let '(settings, (engine, store)) := started in
  let '(_, (sent, response)) :=
    @serve zero_platform _ _ _ _ _ settings engine store (api_world 5) api_headers (api_route confirmed) in
  Ok (sent, ps_status response).
Example api_examples :
  (let* confirmed := api_call true in Ok (length confirmed.1, confirmed.2)) = Ok (1%nat, 200%Z) /\
  api_call false = Ok ([], 409%Z) /\
  bearer (Some "Bearer  abc ") = Some "abc" /\ bearer (Some "Basic abc") = None.
Proof. split_and!; vm_compute; reflexivity. Qed.

(** The deployment starts, and what its first requests answer. *)
Lemma api_starts : exists settings engine store,
  runtime_get_settings api_environment = Ok settings /\
  @build_orchestrator zero_platform settings (api_world 0) = Ok (engine, store) /\ api_started = Ok (settings, (engine, store)).
Proof.
  assert (is_ok api_started = true) as Hok by (vm_compute; reflexivity). unfold api_started in *.
  destruct (runtime_get_settings api_environment) as [settings|e]; [|done]. cbn [bind] in *.
  destruct (build_orchestrator settings (api_world 0)) as [[engine store]|e] eqn:E; [|done].
  by exists settings, engine, store.
Qed.
Lemma api_call_answer settings engine store store' sent response :
  api_started = Ok (settings, (engine, store)) ->
  @serve zero_platform _ _ _ _ _ settings engine store (api_world 5) api_headers (api_route true) = (store', (sent, response)) ->
  length sent = 1%nat /\ ps_status response = 200%Z.
Proof.
  intros E Es. assert ((let* c := api_call true in Ok (length c.1, c.2)) = Ok (1%nat, 200%Z)) as Hc by (vm_compute; reflexivity).
  unfold api_call in Hc. rewrite E in Hc. cbn [bind] in Hc. rewrite Es in Hc. cbn [bind fst snd] in Hc.
  split; congruence.
Qed.
Definition api_ready : M Z :=
  let* started := api_started in
  let '(settings, (engine, store)) := started in
  Ok (ps_status (@serve zero_platform _ _ _ _ _ settings engine store (api_world 5) api_headers Readyz).2.2).

Lemma runtime_is_governed_witness :
  exists settings engine store request d key,
    api_started = Ok (settings, (engine, store)) /\
    (@serve zero_platform _ _ _ _ _ settings engine store (api_world 5) api_headers (api_route true)).2.1 = [request] /\
    @signed_by zero_platform _ d [public_key demo_signing_key] key.
Proof.
  destruct api_starts as (settings & engine & store & Hset & Hbuild & E).
  destruct (@serve zero_platform _ _ _ _ _ settings engine store (api_world 5) api_headers (api_route true))
    as [store' [sent response]] eqn:Es.
  destruct (api_call_answer _ _ _ _ _ _ E Es) as [Hl _]. destruct sent as [|request [|]]; [done| |done].
  destruct (@runtime_is_governed zero_platform _ _ _ _ _ api_environment settings (api_world 0) engine store store
    (api_world 5) api_headers (api_route true) store' [request] response Hset Hbuild (rtc_refl _ _) Es) as [_ Hg].
  destruct (Hg request (list_elem_of_here _ _)) as (v & policy & a & caller & name & document & d & s & c & t &
    Hv & _ & _ & _ & _ & Hgov & Hsigned & _).
  destruct Hsigned as [key Hk]; [vm_compute; discriminate|].
  assert (trusted_keys v = [public_key demo_signing_key]) as Hring.
  { vm_compute in Hset. injection Hset as <-. vm_compute in Hv. injection Hv as <-. vm_compute. reflexivity. }
  rewrite Hring in Hk. exists settings, engine, store, request, d, key. rewrite Es. by split_and!.
Defined.

Lemma readiness_truthful_witness :
  exists settings engine store, api_started = Ok (settings, (engine, store)) /\
    loaded (@serve zero_platform _ _ _ _ _ settings engine store (api_world 5) api_headers Readyz).1 = true.
Proof.
  destruct api_starts as (settings & engine & store & Hset & Hbuild & E). exists settings, engine, store. split; [done|].
  assert (api_ready = Ok 200%Z) as H200 by (vm_compute; reflexivity). unfold api_ready in H200. rewrite E in H200.
  cbn [bind] in H200.
  pose proof (@readiness_truthful zero_platform _ _ _ _ _ settings (api_world 0) engine store store (api_world 5)
    api_headers Hbuild (rtc_refl _ _)) as Hr.
  destruct (@serve zero_platform _ _ _ _ _ settings engine store (api_world 5) api_headers Readyz)
    as [store' [sent response]]. destruct Hr as (_ & Hiff & _). cbn [fst snd] in *. apply Hiff. congruence.
Defined.

(** A request id is echoed into the result, which takes 64 characters: a longer
    one from the client turns a call that was made into an internal error. *)
Lemma long_request_id_fails_after_sending :
  let headers := MkHeaders (Some (join "" (replicate 65 "x"))) (Some "alice") (Some "support-agent") None in
  (let* started := api_started in
   let '(settings, (engine, store)) := started in
   let '(_, (sent, response)) :=
     @serve zero_platform _ _ _ _ _ settings engine store (api_world 5) headers (api_route true) in
   Ok (length sent, ps_status response)) = Ok (1%nat, 500%Z).
Proof. vm_compute. reflexivity. Qed.
