(* ===== verification/Client.v ===== *)
(** * The command-line client of the runtime

    [runtime_service/cli.py]: the requests it makes, what it prints of an answer
    and its exit code.  The parsing of the command line is the library's: a
    command is its result.  What an exception leaves printed is not kept. *)

From S2P Require Export RuntimeApi PyRepr.

Record Namespace := MkNamespace {
  ns_url : string;
  ns_caller : option string;
  ns_roles : option string;
  ns_verbose : bool;
}.
Inductive Command :=
  | ToolsCommand
  | AskCommand (utterance : string) (confirm dry_run : bool)
  | RunCommand (tool_name arguments : string) (confirm : bool).

(** What an exchange leads to: a failure of the transport, or a status with what
    [response.json()] makes of the body. *)
Definition client_exchange : Type := string -> string -> option dict -> list (string * string) -> option (Z * M pyval).
Record ClientOutput := MkOutput {
  out_lines : list string;
  err_lines : list string;
  exit_code : Z;
}.

Definition client_headers (args : Namespace) : list (string * string) :=
  match ns_caller args with Some c => if is_empty c then [] else [("x-toollayer-caller", c)] | None => [] end
  ++ match ns_roles args with Some r => if is_empty r then [] else [("x-toollayer-roles", r)] | None => [] end.

Section client.
Context `{Platform, Decoding}.

(** [json.dumps(v, sort_keys=True)] of a value decoded from JSON. *)
Definition ascii_escape (c : ascii) : string := if (code c <? 127)%N then json_escape c else "\u00" +:+ hex_byte c.
Definition quote_ascii (s : string) : string := String dquote (sflat_map ascii_escape s +:+ String dquote "").
Fixpoint json_line (v : pyval) : string :=
  match v with
  | VNone => "null"
  | VBool b => if b then "true" else "false"
  | VInt z => str_of_Z z
  | VFloat f => float_json f
  | VStr s => quote_ascii s
  | VList l | VTuple l => "[" +:+ join ", " (map json_line l) +:+ "]"
  | VDict d =>
      "{" +:+ join ", " (map (fun m => quote_ascii m.1 +:+ ": " +:+ m.2)
                (ksort (map (fun kv => (key_text kv.1, json_line kv.2)) d))) +:+ "}"
  | VOther t => t
  end.

Fixpoint spaces (n : nat) : string := match n with O => "" | S n => String " " (spaces n) end.
(** [f"{v:width}"]: text to the left, numbers to the right, nothing else. *)
Definition padded (width : nat) (v : pyval) : M string :=
  let right s := spaces (width - slen s) +:+ s in
  match v with
  | VStr s => Ok (s +:+ spaces (width - slen s))
  | VInt z => Ok (right (str_of_Z z))
  | VBool b => Ok (right (if b then "1" else "0"))
  | VFloat f => Ok (right (float_str f))
  | _ => type_error "unsupported format string"
  end.
(** [v[:n]] and [len(v)]. *)
Definition first_items (n : nat) (v : pyval) : M (list pyval) :=
  match v with
  | VList l | VTuple l => Ok (firstn n l)
  | VStr s => Ok (firstn n (chars s))
  | _ => type_error "object is not subscriptable by a slice"
  end.
Definition py_len (v : pyval) : M nat :=
  match v with
  | VList l | VTuple l => Ok (length l)
  | VStr s => Ok (slen s)
  | VDict d => Ok (length d)
  | _ => type_error "object has no len()"
  end.

Definition detail_line (detail : pyval) : M string :=
  let* code := get_attr "code" VNone detail in
  let* message := get_attr "message" VNone detail in
  Ok ("  - " +:+ py_str code +:+ ": " +:+ py_str message).
Definition render_error (status : Z) (body : pyval) : M (list string * Z) :=
  let error := match body with VDict d => get_or "error" (VDict []) d | _ => VDict [] end in
  let* code := get_attr "code" (VStr "unknown") error in
  let* message := get_attr "message" (VStr "") error in
  let* details := get_attr "details" (VList []) error in
  let* details := first_items 5 details in
  let* lines := map_result detail_line details in
  Ok (("REJECTED [" +:+ str_of_Z status +:+ "] " +:+ py_str code +:+ ": " +:+ py_str message) :: lines, 1%Z).
Definition tool_line (tool : pyval) : M string :=
  let* effect := subscript "effect_class" tool in
  let* name := subscript "tool_name" tool in
  let* name := padded 34 name in
  let* shown := padded 12 effect in
  let* display := subscript "display_name" tool in
  Ok (" " +:+ (if py_eq effect (VStr "read") then " " else "!") +:+ " " +:+ name +:+ " " +:+ shown +:+ " " +:+ py_str display).
Definition render_tools (body : dict) (tools : pyval) : M (list string * Z) :=
  let* n := py_len tools in
  let caller := get "caller" body in
  let caller := if truthy caller then py_str caller else "anonymous" in
  let* tools := py_iter tools in
  let* lines := map_result tool_line tools in
  Ok ((str_of_Z (Z.of_nat n) +:+ " tool(s) available to " +:+ caller +:+ ":") :: lines, 0%Z).
Definition result_lines (result : pyval) : M (list string) :=
  if negb (truthy result) then Ok []
  else
    let* status := subscript "http_status" result in
    let* duration := subscript "duration_ms" result in
    Ok ["upstream  : HTTP " +:+ py_str status +:+ " in " +:+ py_str duration +:+ " ms (untrusted content)"].
Definition render_outcome (body : pyval) (verbose : bool) : M (list string * Z) :=
  let* selected := get_attr "selected_tool" VNone body in
  let* key := get_attr "connector_key" VNone body in
  let* version := get_attr "connector_version" VNone body in
  let* arguments := get_attr "arguments" (VDict []) body in
  let* result := get_attr "result" VNone body in
  let* upstream := result_lines result in
  let* message := get_attr "message" (VStr "") body in
  let* traced :=
    if verbose then
      let* steps := get_attr "trace" (VList []) body in
      let* steps := py_iter steps in Ok (["" ; "trace:"] ++ map (fun step => "  - " +:+ json_line step) steps)
    else Ok [] in
  Ok ((["tool      : " +:+ py_str selected; "connector : " +:+ py_str key +:+ " " +:+ py_str version;
        "arguments : " +:+ json_line arguments] ++ upstream ++ ["" ; py_str message] ++ traced)%list, 0%Z).
Definition _render (status : Z) (body : pyval) (verbose : bool) : M (list string * Z) :=
  if (400 <=? status)%Z then render_error status body
  else
    match body with
    | VDict d =>
        match dget (KStr "tools") d with
        | Some tools => render_tools d tools
        | None => render_outcome body verbose
        end
    | _ => render_outcome body verbose
    end.

(** What a command asks for; unreadable arguments end the program instead. *)
Definition client_request (command : Command) : M (option (string * string * option dict)) :=
  match command with
  | ToolsCommand => Ok (Some ("GET", "/v1/tools", None))
  | AskCommand utterance confirm dry_run =>
      Ok (Some ("POST", "/v1/chat",
        Some {{ "utterance" ~> VStr utterance; "confirmed" ~> VBool confirm; "dry_run" ~> VBool dry_run }}))
  | RunCommand tool_name arguments confirm =>
      except
        (let* arguments := json_loads arguments in
         Ok (Some ("POST", "/v1/tools/" +:+ tool_name +:+ "/execute",
           Some {{ "arguments" ~> arguments; "confirmed" ~> VBool confirm }})))
        is_value_error (fun _ => Ok None)
  end.
Definition client_main (args : Namespace) (command : Command) (send : client_exchange) : M ClientOutput :=
  let* request := client_request command in
  match request with
  | None => Ok (MkOutput [] ["--arguments must be a JSON object"] 2)
  | Some (method, path, payload) =>
      match send method (rstrip_char "/" (ns_url args) +:+ path) payload (client_headers args) with
      | None => Ok (MkOutput [] ["could not reach the runtime at " +:+ ns_url args] 2)
      | Some (status, body) =>
          let* body := body in
          let* rendered := _render status body (ns_verbose args) in
          Ok (MkOutput rendered.1 [] rendered.2)
      end
  end.
End client.

(** ** The client and the runtime *)

Section connection.
Context `{Platform, Ed25519, JsonSchema, Pydantic, Decoding, TokenJson}.

(** The framework's routing of the client's requests. *)
Definition route_of (method path : string) (payload : option dict) : option Route :=
  let body := default VNone (option_map VDict payload) in
  if String.eqb method "GET" then if String.eqb path "/v1/tools" then Some ListTools else None
  else if String.eqb path "/v1/chat" then Some (Chat body)
  else
    match strip_prefix "/v1/tools/" path with
    | Some rest =>
        let '(name, _, tail) := partition_on "/" rest in
        if negb (is_empty name) && String.eqb tail "execute" then Some (Execute name body) else None
    | None => None
    end.
Definition sent_headers (headers : list (string * string)) : RequestHeaders :=
  MkHeaders None (alookup "x-toollayer-caller" headers) (alookup "x-toollayer-roles" headers) None.
(** A transport that reaches a runtime at [base] and carries its JSON as it is. *)
Definition runtime_exchange (base : string) (settings : RuntimeSettings) (engine : Orchestrator) (store : SnapshotStore)
    (w : World) : client_exchange :=
  fun method url payload headers =>
    match strip_prefix base url with
    | None => None
    | Some path =>
        match route_of method path payload with
        | None => Some (404%Z, Ok (VDict {{ "detail" ~> VStr "Not Found" }}))
        | Some route =>
            let response := (serve settings engine store w (sent_headers headers) route).2.2 in
            Some (ps_status response, Ok (ps_body response))
        end
    end.

(** ** Every answer of the runtime renders *)

Definition renders (status : Z) (body : pyval) : Prop :=
  forall verbose, exists lines, _render status body verbose = Ok (lines, if (400 <=? status)%Z then 1%Z else 0%Z).

Lemma map_result_total {A B} (f : A -> M B) l : (forall a, a ∈ l -> exists b, f a = Ok b) -> exists bs, map_result f l = Ok bs.
Proof.
  induction l as [|a l IH]; intros Hf; cbn [map_result]; [by exists []|]. destruct (Hf a ltac:(left)) as [b ->]. cbn [bind].
  destruct IH as [bs ->]; [|cbn [bind]; by exists (b :: bs)]. intros a' Ha'. apply Hf. by right.
Qed.
Lemma detail_line_total d : exists line, detail_line (detail_to_dict d) = Ok line.
Proof. by eexists. Qed.
Lemma envelope_renders status e : (400 <= status)%Z -> renders status (envelope_to_dict e).
Proof.
  intros Hs verbose. unfold _render. replace (400 <=? status)%Z with true by (symmetry; by apply Z.leb_le).
  assert (exists error, envelope_to_dict e = VDict {{ "error" ~> VDict error }} /\
    get_or "code" (VStr "unknown") error = VStr (env_code e) /\ get_or "message" (VStr "") error = VStr (env_message e) /\
    get_or "details" (VList []) error = VList (map detail_to_dict (env_details e))) as (error & -> & Hc & Hm & Hd).
  { unfold envelope_to_dict. eexists. split; [reflexivity|].
    destruct (env_pointer e), (env_details e), (env_request_id e); by split_and!. }
  unfold render_error. cbn [get_or dget]. change (get_or "error" (VDict []) {{ "error" ~> VDict error }}) with (VDict error).
  cbn [get_attr bind]. rewrite Hc, Hm, Hd. cbn [bind first_items].
  rewrite firstn_map. destruct (map_result_total detail_line (map detail_to_dict (firstn 5 (env_details e)))) as [lines ->].
  - intros v Hv. apply list_elem_of_In, in_map_iff in Hv as (d & <- & _). apply detail_line_total.
  - cbn [bind]. by eexists.
Qed.
Lemma tool_line_total b : exists line, tool_line (tool_body b) = Ok line.
Proof. by eexists. Qed.
Lemma tools_render caller visible : renders 200 (VDict (tools_body caller visible)).
Proof.
  intros verbose. unfold _render, tools_body. cbn [Z.leb Z.compare Pos.compare Pos.compare_cont].
  change (dget (KStr "tools") _) with (Some (VList (map tool_body visible))). cbv iota. unfold render_tools. cbn [py_len bind py_iter].
  destruct (map_result_total tool_line (map tool_body visible)) as [lines ->]; [|cbn [bind]; by eexists].
  intros v Hv. apply list_elem_of_In, in_map_iff in Hv as (b & <- & _). apply tool_line_total.
Qed.
Lemma outcome_renders outcome : renders 200 (VDict (outcome_body outcome)).
Proof.
  intros verbose. unfold _render, outcome_body. destruct (oc_result outcome) as [result|], verbose; by eexists.
Qed.
Lemma respond_renders rid c body :
  (forall r, c = Ok r -> exists b, r = (200%Z, b) /\ renders 200 (VDict b)) -> body = ps_body (respond rid c) ->
  renders (ps_status (respond rid c)) body.
Proof.
  intros Hc ->. destruct c as [[status b]|e].
  - destruct (Hc _ eq_refl) as (b' & [= -> ->] & Hr). exact Hr.
  - destruct e; cbn [respond ps_status ps_body domain_error unexpected]; try (by apply envelope_renders).
    apply envelope_renders. apply status_for_error.
Qed.
Definition client_route (route : Route) : bool :=
  match route with ListTools | Chat _ | Execute _ _ => true | _ => false end.
Lemma serve_renders settings engine store w h route :
  client_route route = true ->
  let response := (serve settings engine store w h route).2.2 in renders (ps_status response) (ps_body response).
Proof.
  intros Hr. unfold serve. cbv zeta.
  assert (forall rid e, let r := respond rid (Err e) in renders (ps_status r) (ps_body r)) as Herr
    by (intros rid e; by eapply respond_renders).
  assert (forall rid, let r := request_validation rid in renders (ps_status r) (ps_body r)) as Hinvalid
    by (intros rid; by apply envelope_renders).
  assert (forall rid (c : M OrchestrationOutcome),
    let r := respond rid (let* outcome := c in Ok (200%Z, outcome_body outcome)) in renders (ps_status r) (ps_body r)) as Hdone.
  { intros rid c. eapply respond_renders; [|reflexivity]. intros r (o & _ & [= <-])%bind_Ok.
    eexists. split; [done|]. apply outcome_renders. }
  destruct route as [| | |body|name body|]; try done.
  - destruct (caller_identity _ _ _) as [caller|e]; [|apply Herr]. destruct (discover _ _ _) as [st c]. cbn [snd].
    eapply respond_renders; [|reflexivity]. intros r (visible & _ & [= <-])%bind_Ok. eexists. split; [done|]. apply tools_render.
  - destruct (caller_identity _ _ _) as [caller|e]; [|apply Herr]. destruct (parse_chat_request body); [|apply Hinvalid].
    unfold run_chat. destruct (handle _ _ _ _ _ _ _ _ _ _) as [st [sent c]]. apply Hdone.
  - destruct (caller_identity _ _ _) as [caller|e]; [|apply Herr]. destruct (parse_execute_request body); [|apply Hinvalid].
    unfold run_execute. destruct (execute_tool _ _ _ _ _ _ _ _ _ _) as [st [sent c]]. apply Hdone.
Qed.

(** The route a command asks for. *)
Definition command_route (command : Command) : M Route :=
  match command with
  | ToolsCommand => Ok ListTools
  | AskCommand utterance confirm dry_run =>
      Ok (Chat (VDict {{ "utterance" ~> VStr utterance; "confirmed" ~> VBool confirm; "dry_run" ~> VBool dry_run }}))
  | RunCommand tool_name arguments confirm =>
      let* arguments := json_loads arguments in
      Ok (Execute tool_name (VDict {{ "arguments" ~> arguments; "confirmed" ~> VBool confirm }}))
  end.
Definition named_plainly (command : Command) : bool :=
  match command with RunCommand tool_name _ _ => negb (is_empty tool_name) && negb (has_char "/" tool_name) | _ => true end.

Lemma command_routed command route :
  named_plainly command = true -> command_route command = Ok route ->
  client_route route = true /\
  exists method path payload, client_request command = Ok (Some (method, path, payload)) /\
    route_of method path payload = Some route.
Proof.
  destruct command as [|utterance confirm dry_run|name arguments confirm]; cbn [named_plainly command_route client_request].
  - intros _ [= <-]. split; [done|]. by eexists _, _, _.
  - intros _ [= <-]. split; [done|]. by eexists _, _, _.
  - intros [He%negb_true_iff Hn%negb_true_iff]%andb_true_iff (v & Hv & [= <-])%bind_Ok. split; [done|].
    rewrite Hv. cbn [bind except]. eexists _, _, _. split; [done|]. unfold route_of. cbn [String.eqb].
    change (String.eqb "POST" "GET") with false. cbv iota.
    replace (String.eqb ("/v1/tools/" +:+ name +:+ "/execute") "/v1/chat") with false by done.
    rewrite strip_prefix_app. change (name +:+ "/execute") with (name +:+ String "/" "execute").
    rewrite (partition_on_app _ _ _ Hn), He. done.
Qed.
Lemma sent_client_headers args :
  sent_headers (client_headers args) =
  MkHeaders None (match ns_caller args with Some c => nonempty c | None => None end)
    (match ns_roles args with Some r => nonempty r | None => None end) None.
Proof.
  unfold sent_headers, client_headers, nonempty.
  destruct (ns_caller args) as [c|], (ns_roles args) as [r|]; try destruct (is_empty c); try destruct (is_empty r); reflexivity.
Qed.
End connection.

(** ** Property *)

(** The client understands the runtime.  Connected to a runtime in any state,
    a command whose arguments can be read makes exactly the request it stands
    for, with the caller and the roles it was given; whatever the runtime
    answers, error or not, is printed without an exception, and the exit code is
    1 exactly when the answer is an error and 0 otherwise.  Arguments that cannot
    be read end it with 2 before anything is sent. *)
Theorem client_understands_runtime `{Platform, Ed25519, JsonSchema, Pydantic, Decoding, TokenJson} :
  forall args command settings engine store w,
    named_plainly command = true ->
    let send := runtime_exchange (rstrip_char "/" (ns_url args)) settings engine store w in
    let h := MkHeaders None (match ns_caller args with Some c => nonempty c | None => None end)
               (match ns_roles args with Some r => nonempty r | None => None end) None in
    (forall route, command_route command = Ok route ->
       let status := ps_status (serve settings engine store w h route).2.2 in
       exists lines, client_main args command send = Ok (MkOutput lines [] (if (400 <=? status)%Z then 1%Z else 0%Z))) /\
    (forall e, command_route command = Err e -> is_value_error e = true ->
       forall send', exists lines, client_main args command send' = Ok (MkOutput [] lines 2)).
Proof.
  intros args command settings engine store w Hplain send h. split.
  - intros route Hroute status. destruct (command_routed command route Hplain Hroute) as (Hcr & method & path & payload & Hq & Hrt).
    unfold client_main. rewrite Hq. cbn [bind]. unfold send, runtime_exchange. rewrite strip_prefix_app, Hrt, sent_client_headers.
    fold h. cbn [bind]. destruct (serve_renders settings engine store w h route Hcr (ns_verbose args)) as [lines ->].
    cbn [bind fst snd]. by exists lines.
  - intros e He Hv send'. unfold client_main. destruct command as [| |name arguments confirm]; try done.
    cbn [command_route client_request] in *. apply bind_Err in He as [He|(v & _ & He)]; [|done].
    rewrite He. cbn [bind except]. rewrite Hv. cbn [bind]. by eexists.
Qed.

(** ** The client on the concrete deployment *)

#[local] Instance client_decoding : Decoding :=
  {| json_loads := fun text => if String.eqb text "{}" then Ok (VDict []) else value_error "Expecting value"; utf8_replace := fun s => s |}.
Definition client_args : Namespace := MkNamespace "http://localhost:8082/" (Some "alice") (Some "support-agent") false.
Abbreviation client_run settings engine store command :=
  (@client_main zero_platform _ client_args command
    (@runtime_exchange zero_platform _ _ _ _ _ "http://localhost:8082" settings engine store (api_world 5))).
Abbreviation client_prints command :=
  (let* started := api_started in
   let '(settings, (engine, store)) := started in client_run settings engine store command).
Example client_examples :
  client_prints ToolsCommand =
    Ok (MkOutput ["1 tool(s) available to alice:"; " ! add_note                           write        Add note"] [] 0) /\
  client_prints (RunCommand "add_note" "{}" true) =
    Ok (MkOutput ["REJECTED [422] argument_validation_failed: the request path still contains an unfilled placeholder"] [] 1) /\
  client_prints (RunCommand "add_note" "{" true) = Ok (MkOutput [] ["--arguments must be a JSON object"] 2).
Proof. split_and!; vm_compute; reflexivity. Qed.
Lemma client_understands_runtime_witness :
  exists settings engine store lines, api_started = Ok (settings, (engine, store)) /\
    client_run settings engine store (RunCommand "add_note" "{}" true) = Ok (MkOutput lines [] 1).
Proof.
  destruct api_starts as (settings & engine & store & _ & _ & E).
  destruct (proj1 (@client_understands_runtime zero_platform _ _ _ client_decoding _ client_args (RunCommand "add_note" "{}" true)
    settings engine store (api_world 5) eq_refl) _ eq_refl) as [lines Hl].
  exists settings, engine, store, lines. split; [exact E|].
  assert (client_prints (RunCommand "add_note" "{}" true) = Ok (MkOutput lines [] 1)) as Hp.
  { rewrite E. cbn [bind]. pose proof (proj1 (proj2 client_examples)) as Hx. rewrite E in Hx. cbn [bind] in Hx.
    change (rstrip_char "/" (ns_url client_args)) with "http://localhost:8082" in Hl. rewrite Hx in Hl |- *. congruence. }
  rewrite E in Hp. exact Hp.
Defined.
