(* ===== verification/References.v ===== *)
(** * References

    [toollayer_openapi/references.py]: inlining the references of a node that
    point into the same document.  The recursion is the code's own: every call
    goes one deeper, and a depth above the limit raises. *)

From S2P Require Export Diagnostics PyRepr.

Definition MAX_RESOLUTION_DEPTH : nat := 32.

Definition encode_pointer_token (token : string) : string :=
  replace_char "/" "~1" (replace_char "~" "~0" token).
Definition decode_pointer_token (token : string) : string :=
  replace "~0" "~" (replace "~1" "/" token).
(** [f"{pointer}/{encode_pointer_token(key)}"]. *)
Definition child_pointer (pointer : string) (key : pykey) : M string :=
  match key with
  | KStr s => Ok (pointer +:+ "/" +:+ encode_pointer_token s)
  | KOther _ => attribute_error "object has no attribute 'replace'"
  end.

Definition reference_pointer (reference : pyval) (pointer : string) : M string :=
  match reference with
  | VStr (String _ _ as r) =>
      if starts_with "#/" r then Ok (sdrop 1 r)
      else raise (UnsupportedFeatureError
                    "only same-document references of the form '#/...' are supported" pointer)
  | _ => raise (InvalidDocumentError "a $ref value must be a non-empty string" pointer)
  end.

Section resolver.
Variable document : dict.

Definition descend (origin : string) (current : pyval) (token : string) : M pyval :=
  let key := decode_pointer_token token in
  match current with
  | VDict d =>
      of_option (InvalidDocumentError "a $ref points at a node the document does not contain" origin)
        (dget (KStr key) d)
  | VList l =>
      match py_int key with
      | None => raise (InvalidDocumentError "a $ref uses a non-numeric index into an array" origin)
      | Some index =>
          of_option (InvalidDocumentError "a $ref points past the end of an array" origin)
            (if (index <? 0)%Z then None else nth_error l (Z.to_nat index))
      end
  | _ => raise (InvalidDocumentError "a $ref traverses into a value that is not an object or array" origin)
  end.
Definition dereference (target_pointer origin : string) : M pyval :=
  fold_result (descend origin) (tl (split_on "/" target_pointer)) (VDict document).

(** [enumerate(node)] with the pointers of the items. *)
Definition item_pointers (pointer : string) (l : list pyval) : list (string * pyval) :=
  zip_with (fun i v => (pointer +:+ "/" +:+ str_of_N (N.of_nat i), v)) (seq 0 (length l)) l.

(** The pair a dict comprehension or the merge of siblings makes of a member. *)
Definition resolve_member (resolve_node : pyval -> string -> list string -> M pyval)
    (pointer : string) (seen : list string) (kv : pykey * pyval) : M (pykey * pyval) :=
  let* p := child_pointer pointer kv.1 in
  let* v := resolve_node kv.2 p seen in
  Ok (kv.1, v).
Definition resolve_reference (resolve_node : pyval -> string -> list string -> M pyval)
    (d : dict) (reference : pyval) (pointer : string) (seen : list string) : M pyval :=
  let* target_pointer := reference_pointer reference pointer in
  if str_in target_pointer seen then
    raise (UnsupportedFeatureError "recursive schema references are not supported" pointer)
  else
    let* target := dereference target_pointer pointer in
    let* resolved := resolve_node target target_pointer (seen ++ [target_pointer]) in
    let siblings := dpop (KStr "$ref") d in
    match siblings, resolved with
    | _ :: _, VDict target_members =>
        let* merged := fold_result (fun merged kv =>
                         let* m := resolve_member resolve_node pointer seen kv in Ok (dset m.1 m.2 merged))
                         siblings target_members in
        Ok (VDict merged)
    | _, _ => Ok resolved
    end.
(** [remaining] is what remains of the depth: a call at depth [33 - remaining]. *)
Fixpoint resolve_at (remaining : nat) (node : pyval) (pointer : string) (seen : list string) : M pyval :=
  match remaining with
  | O => raise (UnsupportedFeatureError "the referenced schema nests deeper than the resolver supports" pointer)
  | S remaining =>
      match node with
      | VDict d =>
          match get "$ref" d with
          | VNone =>
              let* members := map_result (resolve_member (resolve_at remaining) pointer seen) d in
              Ok (VDict members)
          | reference => resolve_reference (resolve_at remaining) d reference pointer seen
          end
      | VList l =>
          let* items := map_result (fun pv => resolve_at remaining pv.2 pv.1 seen) (item_pointers pointer l) in
          Ok (VList items)
      | _ => Ok node
      end
  end.
Definition resolve (node : pyval) (pointer : string) : M pyval :=
  resolve_at (S MAX_RESOLUTION_DEPTH) node pointer [].
End resolver.

Definition demo_refs : dict :=
  {{ "components" ~> VDict {{ "a/b" ~> VDict {{ "type" ~> VStr "string" }};
                              "loop" ~> VDict {{ "next" ~> VDict {{ "$ref" ~> VStr "#/components/loop" }} }} }};
     "list" ~> VList [VInt 1; VInt 2] }}.
Example resolve_examples :
  (resolve demo_refs (VDict {{ "x" ~> VDict {{ "$ref" ~> VStr "#/components/a~1b"; "title" ~> VStr "T" }} }}) "",
   resolve demo_refs (VDict {{ "$ref" ~> VStr "#/list/ +0_1 " }}) "",
   resolve demo_refs (VDict {{ "$ref" ~> VStr "#/components/loop" }}) "/p",
   resolve demo_refs (VDict {{ "$ref" ~> VStr "https://example.org/x" }}) "") =
  (Ok (VDict {{ "x" ~> VDict {{ "type" ~> VStr "string"; "title" ~> VStr "T" }} }}),
   Ok (VInt 2),
   raise (UnsupportedFeatureError "recursive schema references are not supported" "/components/loop/next"),
   raise (UnsupportedFeatureError "only same-document references of the form '#/...' are supported" "")).
Proof. vm_compute. reflexivity. Qed.

(** A sibling of a reference replaces any keyword of the target, [type] included. *)
Lemma sibling_overrides_type :
  resolve demo_refs (VDict {{ "$ref" ~> VStr "#/components/a~1b"; "type" ~> VStr "integer" }}) "" =
    Ok (VDict {{ "type" ~> VStr "integer" }}).
Proof. vm_compute. reflexivity. Qed.

(** ** Pointers *)

Lemma strip_prefix_shorter p s r : strip_prefix p s = Some r -> (slen r <= slen s)%nat.
Proof. intros ->%strip_prefix_Some. rewrite slen_app. lia. Qed.
Lemma replace_go_fuel n m pat sub s :
  pat <> "" -> (slen s < n)%nat -> (slen s < m)%nat -> replace_go n pat sub s = replace_go m pat sub s.
Proof.
  intros Hp. revert m s. induction n as [|n IH]; intros [|m] s; try lia. intros Hn Hm. simpl.
  destruct (strip_prefix pat s) as [r|] eqn:E.
  - apply strip_prefix_Some in E as ->. rewrite slen_app in *. destruct pat; [done|]. simpl in *.
    f_equal. apply IH; lia.
  - destruct s as [|c s]; [done|]. simpl in *. f_equal. apply IH; lia.
Qed.
Lemma replace_cons pat sub c s :
  pat <> "" ->
  replace pat sub (String c s) =
    match strip_prefix pat (String c s) with
    | Some rest => sub +:+ replace pat sub rest
    | None => String c (replace pat sub s)
    end.
Proof.
  intros Hp. unfold replace. change (replace_go (S (slen (String c s))) pat sub (String c s)) with
    (match strip_prefix pat (String c s) with
     | Some rest => sub +:+ replace_go (slen (String c s)) pat sub rest
     | None => String c (replace_go (slen (String c s)) pat sub s) end).
  destruct (strip_prefix pat (String c s)) as [r|] eqn:E.
  - f_equal. pose proof (strip_prefix_shorter _ _ _ E). apply strip_prefix_Some in E. 
    apply replace_go_fuel; [done| |lia]. destruct pat; [done|]. apply (f_equal slen) in E.
    rewrite slen_app in E. simpl in *. lia.
  - done.
Qed.

(** The escaping of one token, as one substitution. *)
Definition token_char (c : ascii) : string :=
  if Ascii.eqb c "~" then "~0" else if Ascii.eqb c "/" then "~1" else String c "".
Lemma encode_pointer_token_chars t : encode_pointer_token t = sflat_map token_char t.
Proof.
  unfold encode_pointer_token, replace_char. induction t as [|c t IH]; [done|]. cbn [sflat_map].
  rewrite sflat_map_app, IH. f_equal. unfold token_char.
  destruct (Ascii.eqb_spec c "~") as [->|Hc]; [done|]. cbn [sflat_map]. by destruct (Ascii.eqb c "/").
Qed.
Lemma decode_encode_token t : decode_pointer_token (encode_pointer_token t) = t.
Proof.
  rewrite encode_pointer_token_chars. unfold decode_pointer_token.
  assert (replace "~1" "/" (sflat_map token_char t) =
          sflat_map (fun c => if Ascii.eqb c "~" then "~0" else String c "") t) as ->.
  { induction t as [|c t IH]; [done|]. cbn [sflat_map]. unfold token_char at 1.
    destruct (Ascii.eqb_spec c "~") as [->|Hc].
    - change ("~0" +:+ ?x) with (String "~" (String "0" x)). rewrite !replace_cons by done. cbn [strip_prefix].
      change (Ascii.eqb "~" "~") with true. change (Ascii.eqb "1" "0") with false.
      change (Ascii.eqb "~" "0") with false. cbv iota. by rewrite IH.
    - destruct (Ascii.eqb_spec c "/") as [->|Hc'].
      + change ("~1" +:+ ?x) with (String "~" (String "1" x)). rewrite replace_cons by done. cbn [strip_prefix].
        change (Ascii.eqb "~" "~") with true. change (Ascii.eqb "1" "1") with true. cbv iota. by rewrite IH.
      + rewrite !sapp_cons, !sapp_nil_l, replace_cons by done. cbn [strip_prefix].
        rewrite (proj2 (Ascii.eqb_neq "~" c)) by done. by rewrite IH. }
  induction t as [|c t IH]; [done|]. cbn [sflat_map].
  destruct (Ascii.eqb_spec c "~") as [->|Hc].
  - change ("~0" +:+ ?x) with (String "~" (String "0" x)). rewrite replace_cons by done. cbn [strip_prefix].
    change (Ascii.eqb "~" "~") with true. change (Ascii.eqb "0" "0") with true. cbv iota. by rewrite IH.
  - rewrite !sapp_cons, !sapp_nil_l, replace_cons by done. cbn [strip_prefix].
    rewrite (proj2 (Ascii.eqb_neq "~" c)) by done. by rewrite IH.
Qed.

(** The values inside a value, by the tokens that lead to them. *)
Inductive points : list string -> pyval -> pyval -> Prop :=
  | points_here v : points [] v v
  | points_member k path d v w : dget (KStr k) d = Some v -> points path v w -> points (k :: path) (VDict d) w
  | points_item i path l v w :
      (Z.of_nat i < 2 ^ 63)%Z -> nth_error l i = Some v -> points path v w ->
      points (str_of_N (N.of_nat i) :: path) (VList l) w.
Definition pointer_to (path : list string) : string :=
  join "" (map (fun t => "/" +:+ encode_pointer_token t) path).

Lemma int_digits_run s : s <> "" -> sall is_digit s = true -> int_digits s = Some s.
Proof.
  induction s as [|c s IH]; [done|]. intros _ [Hc Hs]%andb_true_iff. cbn [int_digits]. rewrite Hc.
  destruct s as [|d s]; [done|]. rewrite IH by done. cbn [sall] in Hs. apply andb_true_iff in Hs as [Hd _].
  by destruct d as [[] [] [] [] [] [] [] []].
Qed.
Lemma rstrip_by_run (p q : ascii -> bool) s :
  (forall c, p c = true -> q c = false) -> sall p s = true -> rstrip_by q s = s.
Proof.
  intros Hpq. induction s as [|c s IH]; [done|]. intros [Hc Hs]%andb_true_iff. cbn [rstrip_by].
  rewrite IH by done. destruct s; [by rewrite Hpq|done].
Qed.
Lemma dec_go_length fuel n acc : (slen (dec_go fuel n acc) <= fuel + slen acc)%nat.
Proof.
  revert n acc. induction fuel as [|fuel IH]; intros n acc; simpl; [lia|].
  destruct (n <? 10)%N; simpl; [lia|]. etransitivity; [apply IH|]. simpl. lia.
Qed.
Lemma py_int_str_of_N n : (Z.of_N n < 2 ^ 63)%Z -> py_int (str_of_N n) = Some (Z.of_N n).
Proof.
  intros Hn. destruct (str_of_N_spec n) as (Hd & Hv & d & r & Hdr & _).
  assert (forall c, is_digit c = true -> int_space c = false) as Hsp by (intros c; by destruct c as [[] [] [] [] [] [] [] []]).
  assert (slen (str_of_N n) <= 64)%nat as Hl.
  { unfold str_of_N. etransitivity; [apply dec_go_length|]. simpl slen.
    destruct (N.eq_dec n 0) as [->|H0]; [simpl; lia|].
    assert (N.log2 n < 63)%N; [|lia]. apply N.log2_lt_pow2; lia. }
  unfold py_int, strip_by. assert (lstrip_by int_space (str_of_N n) = str_of_N n) as ->.
  { rewrite Hdr in *. cbn [lstrip_by sall] in *. apply andb_true_iff in Hd as [Hd _]. by rewrite Hsp. }
  rewrite (rstrip_by_run is_digit) by done.
  assert (int_digits (str_of_N n) = Some (str_of_N n)) as Hi by (apply int_digits_run; [by rewrite Hdr|done]).
  rewrite Hdr in *. cbn [sall] in Hd. apply andb_true_iff in Hd as [Hd _]. revert Hi Hv Hl. revert Hd.
  generalize (digit_char d) as c. intros c Hc Hi Hv Hl.
  assert (forall A (x y z : A), match String c r with String "-" _ => x | String "+" _ => y | _ => z end = z) as E
    by (intros; clear -Hc; by destruct c as [[] [] [] [] [] [] [] []]).
  replace (match String c r with String "-" s => (true, s) | String "+" s => (false, s) | _ => (false, String c r) end)
    with (false, String c r) by (clear -Hc; by destruct c as [[] [] [] [] [] [] [] []]).
  rewrite Hi. cbn [mbind option_bind]. destruct (Nat.ltb_spec 4300 (slen (String c r))); [lia|]. by rewrite Hv.
Qed.

Lemma split_pointer_to path :
  tl (split_on "/" (pointer_to path)) = map encode_pointer_token path.
Proof.
  assert (forall t, has_char "/" (encode_pointer_token t) = false) as He.
  { intros t. rewrite encode_pointer_token_chars. apply (has_char_false_all _ (fun c => negb (Ascii.eqb c "/"))); [|done].
    apply sall_sflat_map. intros c. unfold token_char. destruct (Ascii.eqb c "~"); [done|].
    destruct (Ascii.eqb c "/") eqn:E; [done|]. simpl. by rewrite E. }
  assert (forall t path, pointer_to (t :: path) = String "/" (encode_pointer_token t +:+ pointer_to path)) as Hp.
  { intros t [|u us]; unfold pointer_to; cbn [map join].
    - by rewrite sapp_nil_r, sapp_cons, sapp_nil_l.
    - by rewrite sapp_cons, !sapp_nil_l. }
  destruct path as [|t path]; [done|]. rewrite Hp.
  change (split_on "/" (String "/" ?s)) with ("" :: split_on "/" s). cbn [tl map].
  revert t. induction path as [|u path IH]; intros t.
  - change (pointer_to []) with "". rewrite sapp_nil_r. by apply split_on_cons_notin.
  - rewrite Hp, split_on_app by apply He. by rewrite IH.
Qed.
Lemma descend_points document origin path w :
  points path document w -> fold_result (descend origin) (map encode_pointer_token path) document = Ok w.
Proof.
  induction 1 as [v|k path d v w Hk _ IH|i path l v w Hi Hl _ IH]; [done|..]; cbn [map fold_result].
  - unfold descend at 1. rewrite decode_encode_token, Hk. done.
  - unfold descend at 1. rewrite decode_encode_token, py_int_str_of_N by lia.
    destruct (Z.ltb_spec (Z.of_N (N.of_nat i)) 0); [lia|].
    replace (Z.to_nat (Z.of_N (N.of_nat i))) with i by lia. by rewrite Hl.
Qed.

(** ** What resolution returns *)

(** Without references, within a depth, and with [str] keys only: a fixed point
    of resolution. *)
Fixpoint settled (depth : nat) (v : pyval) : Prop :=
  match depth with
  | O => False
  | S depth =>
      match v with
      | VDict d => get "$ref" d = VNone /\ Forall (fun kv => is_str_key kv.1 = true /\ settled depth kv.2) d
      | VList l => Forall (settled depth) l
      | _ => True
      end
  end.
(** Dicts as JSON has them: no key twice, [str] keys; tuples are opaque. *)
Fixpoint json_dicts (v : pyval) : Prop :=
  match v with
  | VDict d => dict_ok d /\ fold_right (fun kv P => (is_str_key kv.1 = true /\ json_dicts kv.2) /\ P) True d
  | VList l => fold_right (fun v P => json_dicts v /\ P) True l
  | _ => True
  end.
Lemma fold_right_Forall {A} (P : A -> Prop) l : fold_right (fun a Q => P a /\ Q) True l <-> Forall P l.
Proof. induction l; simpl; rewrite ?Forall_nil, ?Forall_cons; naive_solver. Qed.
Lemma json_dicts_dict d :
  json_dicts (VDict d) <-> dict_ok d /\ Forall (fun kv => is_str_key kv.1 = true /\ json_dicts kv.2) d.
Proof. cbn [json_dicts]. by rewrite (fold_right_Forall (fun kv => is_str_key kv.1 = true /\ json_dicts kv.2)). Qed.
Lemma json_dicts_list l : json_dicts (VList l) <-> Forall json_dicts l.
Proof. apply (fold_right_Forall json_dicts). Qed.

Lemma settled_S n v : settled n v -> settled (S n) v.
Proof.
  revert v. induction n as [|n IH]; intros v; [done|]. intros Hv.
  change (match v with
          | VDict d => get "$ref" d = VNone /\ Forall (fun kv => is_str_key kv.1 = true /\ settled (S n) kv.2) d
          | VList l => Forall (settled (S n)) l | _ => True end).
  destruct v; try done; cbn [settled] in Hv.
  - eapply Forall_impl; [exact Hv|]. intros; by apply IH.
  - destruct Hv as [Hr Hd]. split; [done|]. eapply Forall_impl; [exact Hd|]. intros kv [Hk Hv]. split; [done|by apply IH].
Qed.
Lemma dpop_incl k d : Forall (fun kv => kv ∈ d) (dpop k d).
Proof.
  induction d as [|[k0 v0] d IH]; [constructor|]. cbn [dpop]. case_bool_decide.
  - apply Forall_forall. intros kv H'. by right.
  - constructor; [by left|]. eapply Forall_impl; [exact IH|]. intros kv ?. by right.
Qed.
Lemma dpop_not k d : dict_ok d -> Forall (fun kv => kv.1 <> k) (dpop k d).
Proof.
  intros Hd. apply Forall_forall. intros [k0 v0] Hin He. cbn in He. subst.
  pose proof (dget_dpop k k d Hd) as H. rewrite bool_decide_eq_true_2 in H by done.
  apply dget_None in H. apply H. unfold dkeys. by apply (list_elem_of_fmap_2 fst) in Hin.
Qed.
Lemma dset_Forall (P : pykey * pyval -> Prop) k v d : P (k, v) -> Forall P d -> Forall P (dset k v d).
Proof.
  intros Hp. induction 1 as [|[k0 v0] d H0 Hd IH]; [by repeat constructor|]. cbn [dset].
  case_bool_decide; by constructor.
Qed.
Lemma map_result_Forall {E A B} (f : A -> result E B) (P : A -> Prop) (Q : B -> Prop) l bs :
  map_result f l = Ok bs -> Forall P l -> (forall a b, P a -> f a = Ok b -> Q b) -> Forall Q bs.
Proof.
  intros H%map_result_Ok Hl Hf. induction H as [|a b l bs Hab _ IH]; [constructor|].
  apply Forall_cons in Hl as [Ha Hl]. constructor; eauto.
Qed.

Section resolution.
Variable document : dict.
Hypothesis document_json : json_dicts (VDict document).

Lemma descend_json origin current token : json_dicts current -> converts json_dicts (descend origin current token).
Proof.
  intros Hc. unfold descend. destruct current as [| | | | |l| |d|]; try done.
  - destruct (py_int _) as [i|]; [|done]. apply converts_of_option; [done|]. intros a Ha.
    destruct (i <? 0)%Z; [done|]. apply json_dicts_list in Hc. rewrite Forall_forall in Hc.
    apply Hc. apply nth_error_In in Ha. by apply list_elem_of_In.
  - apply converts_of_option; [done|]. intros a Ha. apply json_dicts_dict in Hc as [_ Hd].
    rewrite Forall_forall in Hd. apply dget_elem_of in Ha. by apply Hd in Ha as [_ Ha].
Qed.
Lemma dereference_json target origin : converts json_dicts (dereference document target origin).
Proof using document_json.
  apply converts_fold_result; [done|]. apply Forall_true. intros t b. apply descend_json.
Qed.
Definition resolved (n : nat) (v : pyval) : Prop := settled n v /\ json_dicts v.
Definition resolved_member (n : nat) (kv : pykey * pyval) : Prop :=
  is_str_key kv.1 = true /\ resolved n kv.2.

Lemma resolved_dict n d :
  get "$ref" d = VNone -> dict_ok d -> Forall (resolved_member n) d -> resolved (S n) (VDict d).
Proof.
  intros Hr Hok Hd. split.
  - split; [done|]. eapply Forall_impl; [exact Hd|]. by intros kv (? & ? & ?).
  - apply json_dicts_dict. split; [done|]. eapply Forall_impl; [exact Hd|]. by intros kv (? & ? & ?).
Qed.
Lemma resolved_dict_inv n d :
  resolved n (VDict d) -> get "$ref" d = VNone /\ dict_ok d /\ Forall (resolved_member n) d.
Proof.
  intros [Hs Hj]. destruct n as [|n]; [done|]. destruct Hs as [Hr Hs].
  apply json_dicts_dict in Hj as [Hok Hj]. split_and!; [done..|].
  apply Forall_forall. intros kv Hin. rewrite Forall_forall in Hs, Hj.
  destruct (Hs kv Hin) as [Hk Hv], (Hj kv Hin) as [_ Hv']. split; [done|]. split; [by apply settled_S|done].
Qed.
Lemma resolved_S n v : resolved n v -> resolved (S n) v.
Proof. intros [Hs Hj]. split; [by apply settled_S|done]. Qed.

(** What resolving one member gives. *)
Definition member_of (n : nat) (kv m : pykey * pyval) : Prop :=
  m.1 = kv.1 /\ resolved_member n m /\ (kv.2 = VNone -> m.2 = VNone).
Definition resolves (n : nat) (rec : pyval -> string -> list string -> M pyval) : Prop :=
  forall v pointer seen, json_dicts v ->
    converts (fun r => resolved n r /\ (v = VNone -> r = VNone)) (rec v pointer seen).

Lemma resolve_member_spec n rec pointer seen kv :
  resolves n rec -> is_str_key kv.1 = true /\ json_dicts kv.2 ->
  converts (member_of n kv) (resolve_member rec pointer seen kv).
Proof.
  intros Hrec [Hk Hv]. destruct kv as [[k|] v]; [|done]. unfold resolve_member. cbn [child_pointer bind fst snd] in *.
  eapply converts_bind; [by apply Hrec|]. intros r _ [Hr Hn]. by repeat split; try apply Hr.
Qed.
Lemma members_facts n d ms :
  Forall2 (member_of n) d ms ->
  ms.*1 = d.*1 /\ Forall (resolved_member n) ms /\ (get "$ref" d = VNone -> get "$ref" ms = VNone).
Proof.
  unfold get, get_or. induction 1 as [|[k v] [k' w] d ms (Hk & Hm & Hn) _ (IH1 & IH2 & IH3)]; [done|].
  cbn [fst snd] in *. subst k'. csimpl. split_and!; [by f_equal|by constructor|].
  case_bool_decide; [done|]. done.
Qed.
Lemma resolve_siblings n siblings target rec pointer seen :
  resolves n rec ->
  Forall (fun kv => kv.1 <> KStr "$ref" /\ is_str_key kv.1 = true /\ json_dicts kv.2) siblings ->
  resolved n (VDict target) ->
  converts (fun d => resolved (S n) (VDict d))
    (fold_result (fun merged kv => let* m := resolve_member rec pointer seen kv in Ok (dset m.1 m.2 merged))
       siblings target).
Proof.
  intros Hrec Hs (Hr & Hok & Hd)%resolved_dict_inv.
  eapply (converts_weaken (fun d => get "$ref" d = VNone /\ dict_ok d /\ Forall (resolved_member n) d));
    [|intros d (? & ? & ?); by apply resolved_dict].
  apply converts_fold_result; [done|]. eapply Forall_impl; [exact Hs|]. intros kv [Hk Hg] d (Hr' & Hok' & Hd').
  eapply converts_bind; [by apply (resolve_member_spec n)|]. intros m _ (He & Hm & _). split_and!.
  - unfold get, get_or in *. rewrite dget_dset, bool_decide_eq_false_2 by congruence. done.
  - by apply dset_ok.
  - apply dset_Forall; [|done]. by destruct m.
Qed.
Lemma resolve_reference_spec n rec d reference pointer seen :
  resolves n rec -> json_dicts (VDict d) ->
  converts (resolved (S n)) (resolve_reference document rec d reference pointer seen).
Proof using document_json.
  intros Hrec [Hok Hd]%json_dicts_dict. unfold resolve_reference. eapply (converts_bind (fun _ => True)).
  { destruct reference as [| | | |[|c s]| | | |]; try done. cbn [reference_pointer]. by destruct (starts_with _ _). }
  intros target _ _. destruct (str_in _ _); [done|].
  eapply converts_bind; [apply dereference_json|]. intros t _ Ht.
  eapply converts_bind; [by apply Hrec|]. intros r _ [Hr _]. cbv zeta.
  pose proof (dpop_incl (KStr "$ref") d) as Hin. pose proof (dpop_not (KStr "$ref") d Hok) as Hne.
  destruct (dpop _ d) as [|kv siblings]; [by apply resolved_S|].
  destruct r as [| | | | | | |members|]; try by apply resolved_S.
  eapply converts_bind; [apply (resolve_siblings n); [exact Hrec| |exact Hr]|by intros ? _ ?].
  apply Forall_forall. intros kv' Hkv. rewrite Forall_forall in Hin, Hne, Hd. auto.
Qed.
Lemma resolve_at_spec n : resolves n (resolve_at document n).
Proof using document_json.
  induction n as [|n IH]; intros v pointer seen Hv; [done|]. cbn [resolve_at].
  destruct v as [| | | | |l| |d|]; try by repeat split.
  - apply json_dicts_list in Hv. eapply (converts_bind (Forall (resolved n))).
    + apply converts_map_result. unfold item_pointers. generalize (seq 0 (length l)) as ixs.
      induction Hv as [|v l Hv _ IHl]; intros [|i ixs]; constructor; [|apply IHl].
      eapply converts_weaken; [by apply IH|]. by intros ? [].
    + intros items _ Hi. split; [|done]. split; [|apply json_dicts_list]; eapply Forall_impl; try exact Hi; by intros ? [].
  - assert (forall reference, converts (fun r => resolved (S n) r /\ (VDict d = VNone -> r = VNone))
             (resolve_reference document (resolve_at document n) d reference pointer seen)) as Href.
    { intros reference. eapply converts_weaken; [by apply resolve_reference_spec|]. done. }
    apply json_dicts_dict in Hv as [Hok Hd].
    destruct (get "$ref" d) eqn:Eref; try apply Href.
    eapply (converts_bind (Forall2 (member_of n) d)).
    + clear -Hd IH document_json. induction Hd as [|kv d Hkv _ IHd]; [constructor|]. cbn [map_result].
      eapply converts_bind; [by apply resolve_member_spec|]. intros m _ Hm.
      eapply converts_bind; [exact IHd|]. intros ms _ Hms. by constructor.
    + intros ms _ (Hk & Hms & Hr)%members_facts. split; [|done].
      apply resolved_dict; [auto|unfold dict_ok, dkeys; by rewrite Hk|done].
Qed.
End resolution.

Lemma item_pointers_snd pointer l : (item_pointers pointer l).*2 = l.
Proof.
  unfold item_pointers. assert (length (seq 0 (length l)) = length l) as H by apply length_seq.
  revert H. generalize (seq 0 (length l)) as ixs. induction l as [|v l IH]; intros [|i ixs]; try done.
  intros [= H]. csimpl. by rewrite IH.
Qed.
Lemma settled_resolve document n v pointer seen : settled n v -> resolve_at document n v pointer seen = Ok v.
Proof.
  revert v pointer seen. induction n as [|n IH]; intros v pointer seen Hv; [done|]. cbn [resolve_at].
  destruct v as [| | | | |l| |d|]; try done; cbn [settled] in Hv.
  - assert (map_result (fun pv => resolve_at document n pv.2 pv.1 seen) (item_pointers pointer l) = Ok l) as ->; [|done].
    assert (Forall (fun pv => settled n pv.2) (item_pointers pointer l)) as Hi.
    { rewrite <- (item_pointers_snd pointer l), Forall_fmap in Hv. exact Hv. }
    apply map_result_Ok. rewrite <- (item_pointers_snd pointer l) at 2.
    induction Hi as [|pv xs Hpv _ IHx]; constructor; [by apply IH|done].
  - destruct Hv as [Hr Hd]. rewrite Hr.
    assert (map_result (resolve_member (resolve_at document n) pointer seen) d = Ok d) as ->; [|done].
    clear Hr. apply map_result_Ok. induction Hd as [|[[k|k] v] d [Hk Hv] _ IHd]; [constructor|constructor; [|apply IHd]|done].
    unfold resolve_member. cbn [child_pointer bind fst snd] in *. by rewrite IH.
Qed.

Lemma resolve_at_ref document n d v pointer seen :
  get "$ref" d = VStr v -> resolve_at document (S n) (VDict d) pointer seen =
    resolve_reference document (resolve_at document n) d (VStr v) pointer seen.
Proof. intros H. cbn [resolve_at]. by rewrite H. Qed.

(** C24. Resolving a document's node either raises a [ConversionError] or gives a
    value without references, whose members are dicts as JSON has them, and
    that resolving again, in this document or another, leaves as it is; it
    always returns, cyclic references included, since every step counts
    against the depth limit. *)
Theorem resolve_settles :
  forall document node pointer,
    json_dicts (VDict document) -> json_dicts node ->
    match resolve document node pointer with
    | Ok r => settled (S MAX_RESOLUTION_DEPTH) r /\ json_dicts r /\
              forall document' pointer', resolve document' r pointer' = Ok r
    | Err e => is_conversion_error e = true
    end.
Proof.
  intros document node pointer Hd Hn. unfold resolve.
  pose proof (resolve_at_spec document Hd (S MAX_RESOLUTION_DEPTH) node pointer [] Hn) as Hr.
  destruct (resolve_at _ _ _ _ _) as [r|e]; [|exact Hr]. destruct Hr as [[Hs Hj] _].
  split_and!; [done..|]. intros. by apply settled_resolve.
Qed.

(** A reference by an RFC 6901 pointer reads the node the pointer names:
    whatever the tokens, slashes, tildes and array indices included, the
    reference resolves as that node does, one level deeper; a reference that
    does not start with a hash and a slash is refused, so nothing outside the
    document is ever read. *)
Theorem reference_reads :
  forall document pointer,
    (forall path w, path <> [] -> points path (VDict document) w ->
       resolve document (VDict {{ "$ref" ~> VStr ("#" +:+ pointer_to path) }}) pointer =
         resolve_at document MAX_RESOLUTION_DEPTH w (pointer_to path) [pointer_to path]) /\
    (forall r siblings, r <> "" -> starts_with "#/" r = false ->
       resolve document (VDict ((KStr "$ref", VStr r) :: siblings)) pointer =
         raise (UnsupportedFeatureError "only same-document references of the form '#/...' are supported" pointer)).
Proof.
  intros document pointer. split.
  - intros path w Hp Hw. unfold resolve. rewrite (resolve_at_ref _ _ _ ("#" +:+ pointer_to path)) by done.
    generalize MAX_RESOLUTION_DEPTH as n. intros n. unfold resolve_reference.
    assert (reference_pointer (VStr ("#" +:+ pointer_to path)) pointer = Ok (pointer_to path)) as ->.
    { unfold pointer_to. destruct path as [|t path]; [done|]. destruct path; reflexivity. }
    cbn [bind]. unfold dereference. rewrite split_pointer_to, (descend_points _ _ _ _ Hw).
    change (str_in (pointer_to path) []) with false. cbn [bind app dpop].
    rewrite bool_decide_eq_true_2 by done. by destruct (resolve_at document n w _ _) as [[]|].
  - intros r siblings Hr Hs. unfold resolve. rewrite (resolve_at_ref _ _ _ r).
    + unfold resolve_reference. destruct r as [|c r]; [done|]. cbn [reference_pointer]. by rewrite Hs.
    + unfold get, get_or. cbn [dget]. by rewrite bool_decide_eq_true_2.
Qed.

Lemma resolve_settles_witness :
  let node := VDict {{ "x" ~> VDict {{ "$ref" ~> VStr "#/components/a~1b"; "title" ~> VStr "T" }} }} in
  let r := VDict {{ "x" ~> VDict {{ "type" ~> VStr "string"; "title" ~> VStr "T" }} }} in
  resolve demo_refs node "" = Ok r /\ forall document', resolve document' r "/p" = Ok r.
Proof.
  intros node r.
  assert (json_dicts (VDict demo_refs)) as Hd by (simpl; split_and!; try done; apply (bool_decide_unpack _); vm_compute; done).
  assert (json_dicts node) as Hn by (simpl; split_and!; try done; apply (bool_decide_unpack _); vm_compute; done).
  assert (resolve demo_refs node "" = Ok r) as E by (vm_compute; reflexivity).
  split; [exact E|]. pose proof (resolve_settles demo_refs node "" Hd Hn) as H. rewrite E in H.
  intros document'. apply H.
Defined.
Lemma reference_reads_witness :
  dereference demo_refs "/components/a~1b" "" = Ok (VDict {{ "type" ~> VStr "string" }}) /\
  resolve demo_refs (VDict {{ "$ref" ~> VStr "#/components/a~1b" }}) "" = Ok (VDict {{ "type" ~> VStr "string" }}).
Proof.
  split; [vm_compute; reflexivity|].
  exact (proj1 (reference_reads demo_refs "") ["components"; "a/b"] (VDict {{ "type" ~> VStr "string" }})
    ltac:(discriminate) ltac:(repeat (econstructor; [reflexivity|]); constructor)).
Defined.
