(* ===== verification/ErrorContract.v ===== *)
(** * What the runtime's errors promise

    Every answer of the runtime that is no success is the error envelope of
    [errors.py], with a declared code and the status of that code, and a client
    can read it back (Envelope.v); the messages that quote something unbounded
    are three, and named.  The predicate [carries] says of a computation what
    holds of every [ToolLayerError] it raises; the file pushes it through every
    step of a request. *)

From S2P Require Export RuntimeApi Envelope.
From S2P Require References.

(** ** Errors that keep the promise *)

Definition MISSING_ARGUMENTS : string := "the request does not supply every required argument: ".
(** The messages with a part that nothing bounds: the major version a fetched
    document declares, the key id its signature names, the names of the
    arguments a tool requires. *)
Inductive quoting : string -> string -> Prop :=
  | quotes_version code n :
      code = ErrorCode.UNSUPPORTED_CONTRACT_VERSION \/ code = ErrorCode.CONTRACT_VIOLATION ->
      quoting code ("contract major version " +:+ str_of_N n +:+ " is not supported by this build (expected 1)")
  | quotes_key_id key_id :
      quoting ErrorCode.SNAPSHOT_SIGNATURE_INVALID ("the signing key " +:+ repr_str key_id +:+ " is not trusted here")
  | quotes_arguments names :
      quoting ErrorCode.ARGUMENT_VALIDATION_FAILED (MISSING_ARGUMENTS +:+ join ", " names).
Definition contracted (e : tl_error) : Prop :=
  te_code e ∈ ErrorCode.all /\ (within 1 512 (te_message e) = true \/ quoting (te_code e) (te_message e)).

(** ** What a computation raises *)

Definition carries (P : tl_error -> Prop) {A} (c : M A) : Prop := forall e, c = Err (ToolLayerError e) -> P e.
(** A computation that raises none of the program's domain errors. *)
Definition plain {A} (c : M A) : Prop := forall e, c = Err e -> is_tool_layer_error e = false.

Section carries.
Context (P : tl_error -> Prop).
Lemma carries_Ok {A} (a : A) : carries P (Ok a).
Proof. by intros e. Qed.
Lemma carries_raise {A} e : P e -> carries P (@Err _ A (ToolLayerError e)).
Proof. by intros ? e' [= <-]. Qed.
Lemma carries_raised {A} cls m : carries P (@Err _ A (Raised cls m)).
Proof. by intros e. Qed.
Lemma carries_plain {A} (c : M A) : plain c -> carries P c.
Proof. by intros Hc e He%Hc. Qed.
Lemma carries_bind {A B} (c : M A) (k : A -> M B) :
  carries P c -> (forall a, c = Ok a -> carries P (k a)) -> carries P (bind c k).
Proof. intros Hc Hk e. destruct c as [a|e']; cbn [bind]; [by apply Hk|]. intros [= ->]. by apply Hc. Qed.
Lemma carries_except {A} (c : M A) p h :
  carries P c -> (forall e, c = Err e -> carries P (h e)) -> carries P (except c p h).
Proof.
  intros Hc Hh e. destruct c as [a|e']; cbn [except]; [done|]. destruct (p e'); [by apply Hh|]. intros [= ->]. by apply Hc.
Qed.
Lemma carries_of_option {A} cls m (o : option A) : carries P (of_option (Raised cls m) o).
Proof. by destruct o. Qed.
Lemma carries_map {A B} (f : A -> M B) l : (forall a, a ∈ l -> carries P (f a)) -> carries P (map_result f l).
Proof.
  induction l as [|a l IH]; intros Hf; cbn [map_result]; [apply carries_Ok|].
  apply carries_bind; [apply Hf; left|]. intros b _. apply carries_bind; [|intros ??; apply carries_Ok].
  apply IH. intros a' Ha. apply Hf. by right.
Qed.
Lemma carries_fold {A B} (f : B -> A -> M B) l : (forall b a, a ∈ l -> carries P (f b a)) -> forall b, carries P (fold_result f l b).
Proof.
  induction l as [|a l IH]; intros Hf b; cbn [fold_result]; [apply carries_Ok|].
  apply carries_bind; [apply Hf; left|]. intros b' _. apply IH. intros. apply Hf. by right.
Qed.
End carries.
Lemma plain_carries {A} (c : M A) : plain c <-> carries (fun _ => False) c.
Proof.
  split; [intros Hc e He; by apply Hc in He|]. intros Hc e He. destruct e; try done. by destruct (Hc _ He).
Qed.
Lemma carries_weaken {A} (P Q : tl_error -> Prop) (c : M A) : (forall e, P e -> Q e) -> carries P c -> carries Q c.
Proof. intros HPQ Hc e He. by apply HPQ, Hc. Qed.

Create HintDb carries.
#[export] Hint Resolve carries_Ok carries_raised carries_of_option : carries.
(** An error whose code and message are literals. *)
Ltac literal_error :=
  apply carries_raise; split; [apply (bool_decide_unpack _); vm_compute; exact I | left; vm_compute; reflexivity].
(** One step into a computation. *)
Ltac carrying :=
  repeat first
    [ solve [auto with carries nocore]
    | literal_error
    | apply carries_bind; [|intros ? ?]
    | apply carries_except; [|intros ? ?]
    | match goal with
      | |- carries _ (if ?b then _ else _) => destruct b
      | |- carries _ (let '(_, _) := ?p in _) => destruct p
      | |- carries _ (match ?x with _ => _ end) => destruct x
      end ].

(** ** Reading models: only pydantic's errors *)

Section models.
Context `{Pydantic} (P : tl_error -> Prop).

Lemma carries_require b m : carries P (require b m).
Proof. by destruct b. Qed.
Hint Resolve carries_require : carries.
Lemma carries_fields l v : carries P (fields l v).
Proof. unfold fields, invalid. carrying. Qed.
Lemma carries_get_as {A} (f : pyval -> M A) k d : (forall v, carries P (f v)) -> carries P (get_as f k d).
Proof. intros Hf. unfold get_as, field. carrying. Qed.
Lemma carries_optional {A} (f : pyval -> M A) v : (forall v, carries P (f v)) -> carries P (as_optional f v).
Proof. intros Hf. unfold as_optional. destruct v; carrying. Qed.
Lemma carries_items {A} (f : pyval -> M A) v : (forall v, carries P (f v)) -> carries P (as_items f v).
Proof. intros Hf. unfold as_items, invalid. destruct (as_seq v); [|carrying]. apply carries_map. auto. Qed.
Lemma carries_string v : carries P (as_string v).
Proof. unfold as_string, invalid. carrying. Qed.
Lemma carries_enum {A} (table : list (string * A)) v : carries P (as_enum table v).
Proof. unfold as_enum. apply carries_bind; [apply carries_string|]. intros. apply carries_of_option. Qed.
Lemma carries_literal s v : carries P (as_literal s v).
Proof. unfold as_literal, invalid. carrying. Qed.
Lemma carries_object v : carries P (as_object v).
Proof. unfold as_object, invalid. carrying. Qed.
Lemma carries_boolean v : carries P (as_boolean v).
Proof. unfold as_boolean. carrying. Qed.
Lemma carries_integer v : carries P (as_integer v).
Proof. unfold as_integer. carrying. Qed.
Hint Resolve carries_fields carries_string carries_enum carries_literal carries_object carries_boolean carries_integer
  carries_get_as carries_optional carries_items : carries.

(** A reader of fields into a constructor that checks. *)
Ltac reading :=
  repeat first
    [ solve [auto with carries nocore]
    | apply carries_bind; [|intros ? ?] | apply carries_get_as; intros ? | apply carries_items; intros ?
    | apply carries_optional; intros ?
    | match goal with
      | |- carries _ (if ?b then _ else _) => destruct b
      | |- carries _ (match ?x with _ => _ end) => destruct x
      end ].
Lemma carries_parse_binding v : carries P (parse_binding v).
Proof. unfold parse_binding, ArgumentBinding_new. reading. Qed.
Lemma carries_parse_media_type v : carries P (as_media_type v).
Proof. unfold as_media_type. reading. Qed.
Hint Resolve carries_parse_binding carries_parse_media_type : carries.
Lemma carries_parse_operation v : carries P (parse_operation v).
Proof. unfold parse_operation, ToolOperation_new. reading. Qed.
Lemma carries_parse_access v : carries P (parse_access v).
Proof. unfold parse_access, ToolAccessPolicy_new. reading. Qed.
Hint Resolve carries_parse_operation carries_parse_access : carries.
Lemma carries_parse_policy v : carries P (parse_policy v).
Proof. unfold parse_policy. reading. Qed.
Lemma carries_parse_provenance v : carries P (parse_provenance v).
Proof. unfold parse_provenance, ToolProvenance_new. reading. Qed.
Lemma carries_closed_schema s : carries P (closed_object_schema s).
Proof. unfold closed_object_schema. reading. Qed.
Hint Resolve carries_parse_policy carries_parse_provenance carries_closed_schema : carries.
Lemma carries_parse_tool v : carries P (parse_tool v).
Proof. unfold parse_tool, ToolDefinition_new. reading. Qed.
Lemma carries_parse_runtime v : carries P (parse_runtime v).
Proof. unfold parse_runtime, RuntimeBinding_new, reviewed_origin, invalid. reading. Qed.
Lemma carries_parse_source v : carries P (parse_source v).
Proof. unfold parse_source, SourceProvenance_new. reading. Qed.
Lemma carries_parse_audit v : carries P (parse_audit v).
Proof. unfold parse_audit. reading. Qed.
Hint Resolve carries_parse_tool carries_parse_runtime carries_parse_source carries_parse_audit : carries.
Lemma carries_parse_connector v : carries P (parse_connector v).
Proof. unfold parse_connector, ConnectorDefinition_new. reading. Qed.
Lemma carries_parse_signature v : carries P (parse_signature v).
Proof. unfold parse_signature, SnapshotSignature_new. reading. Qed.
Hint Resolve carries_parse_connector carries_parse_signature : carries.
Lemma carries_parse_snapshot v : carries P (parse_snapshot v).
Proof. unfold parse_snapshot, DeploymentSnapshot_new. reading. Qed.
Lemma carries_result_new r : carries P (ToolExecutionResult_new r).
Proof. unfold ToolExecutionResult_new. reading. Qed.
End models.
#[export] Hint Resolve carries_parse_connector carries_parse_snapshot carries_result_new : carries.

(** ** Messages taken from another exception *)

Lemma parse_version_message v cls m :
  parse_version v = Err (Raised cls m) -> within 1 512 m = true.
Proof.
  unfold parse_version, int_of_digits. destruct v; intros H;
    repeat match goal with
    | H : bind _ _ = Err _ |- _ => apply bind_Err in H as [H|(? & _ & H)]
    | H : context [if ?b then _ else _] |- _ => destruct b
    | H : context [match semver_groups ?s with _ => _ end] |- _ => destruct (semver_groups s) as [[[[? ?] ?] ?]|]
    end; try done; injection H as <- <-; vm_compute; reflexivity.
Qed.
Lemma require_supported_message v cls m :
  require_supported v = Err (Raised cls m) ->
  within 1 512 m = true \/
  exists n, m = "contract major version " +:+ str_of_N n +:+ " is not supported by this build (expected 1)".
Proof.
  unfold require_supported. intros [H|(declared & _ & H)]%bind_Err; [left; by eapply parse_version_message|].
  assert (parse_version (VStr CONTRACT_VERSION) = Ok (MkVersion 1 1 0 None)) as E by (vm_compute; reflexivity).
  rewrite E in H. cbn [bind major minor] in H. destruct (negb _); [right; injection H as <- <-; by exists (major declared)|].
  destruct (_ <? _)%N; [|done]. left. injection H as <- <-. vm_compute. reflexivity.
Qed.

Ltac literal_message := intros [= <-]; left; vm_compute; reflexivity.
Lemma verify_document_message `{Platform, Ed25519} document ring m :
  verify_document document ring = Err (Raised SignatureVerificationError m) ->
  within 1 512 m = true \/ exists key_id, m = "the signing key " +:+ repr_str key_id +:+ " is not trusted here".
Proof.
  unfold verify_document. destruct (get _ document) as [| | | | | | |block|];
    try (literal_message).
  destruct (negb _); [literal_message|].
  destruct (get "key_id" block) as [| | | |kid| | | |];
    try (literal_message).
  destruct (is_empty kid); [literal_message|].
  destruct ring as [|k0 ring0]; [literal_message|].
  destruct (ring_find _ kid) as [key|]; [|intros H1; injection H1 as <-; right; by exists kid].
  destruct (get "value" block) as [| | | |value| | | |];
    try (literal_message).
  intros [Hs|(sg & _ & [Hi|(input & _ & H1)]%bind_Err)]%bind_Err; left.
  - unfold except in Hs. destruct (b64u_decode _ _) as [sg'|e'] eqn:Hd; [done|].
    apply b64u_decode_fails in Hd as [m' ->]. injection Hs as <-. vm_compute. reflexivity.
  - unfold signing_input in Hi. destruct (serializable (VDict (without [SIGNATURE_EXCLUDED_FIELD] document))) eqn:Hs.
    + rewrite (proj2 (canonical_bytes_Ok _ _)) in Hi by done. done.
    + apply canonical_bytes_fails in Hs as [m' Hs]. rewrite Hi in Hs. done.
  - destruct (negb _); [|done]. injection H1 as <-. vm_compute. reflexivity.
Qed.

(** ** Loading a snapshot *)

(** Two shapes of the program's messages. *)
Lemma contracted_literal code m p ds issues :
  code ∈ ErrorCode.all -> within 1 512 m = true -> contracted (MkError code m p ds issues).
Proof. intros Hc Hm. split; [done|by left]. Qed.
Lemma code_declared c : bool_decide (c ∈ ErrorCode.all) = true -> c ∈ ErrorCode.all.
Proof. apply bool_decide_eq_true_1. Qed.
Ltac declared_code := apply code_declared; vm_compute; reflexivity.

(** What the libraries raise is none of the program's own errors. *)
Class PlainLibraries `{JsonSchema, Decoding, TokenJson} := {
  iter_errors_plain schema v : plain (iter_errors schema v);
  contract_errors_plain name v : plain (contract_errors name v);
  json_loads_plain text : plain (json_loads text);
  json_loads_bytes_plain raw : plain (json_loads_bytes raw);
}.

Section loading_errors.
Context `{Platform, Ed25519, JsonSchema, Pydantic, Decoding, TokenJson, !PlainLibraries}.
Local Abbreviation ok := (carries contracted).

Lemma item_carries P k v : carries P (item k v).
Proof. unfold item. carrying. Qed.
Lemma iterate_carries P v : carries P (iterate v).
Proof. unfold iterate. carrying. Qed.
Hint Resolve item_carries iterate_carries : carries.
Lemma parse_version_carries P v : carries P (parse_version v).
Proof. unfold parse_version, int_of_digits. carrying. Qed.
Hint Resolve parse_version_carries : carries.
Lemma require_supported_carries P v : carries P (require_supported v).
Proof. unfold require_supported. carrying. Qed.
Hint Resolve require_supported_carries : carries.

Lemma validate_carries document name label :
  (slen label <= 64)%nat -> ok (validate document name label).
Proof.
  intros Hl. unfold validate, load_schema_name. carrying; [apply carries_plain, contract_errors_plain|].
  apply carries_raise. apply contracted_literal; [declared_code|].
  unfold within. rewrite !slen_app. cbn [slen]. apply andb_true_iff. split; apply Nat.leb_le; lia.
Qed.
Hint Extern 1 (carries contracted (validate _ _ _)) => apply validate_carries; cbn; lia : carries.

(** The version a document declares is quoted. *)
Lemma version_errors code A v (k : string -> M A) :
  code = ErrorCode.UNSUPPORTED_CONTRACT_VERSION \/ code = ErrorCode.CONTRACT_VIOLATION ->
  (forall m, exists p, k m = raise (ToolLayerError (MkError code m p [] []))) ->
  forall e, require_supported v = Err e -> ok (if is_class IncompatibleContractVersionError e then k (exn_message e) else Err e).
Proof.
  intros Hc Hk e He. destruct e as [e| | |cls m]; cbn [is_class]; try by intros ?.
  - by apply (require_supported_carries (fun _ => False)) in He.
  - case_bool_decide; [|by intros ?]. cbn [exn_message]. destruct (Hk m) as [p ->]. apply carries_raise. split.
    + destruct Hc as [-> | ->]; declared_code.
    + cbn [te_code te_message]. apply require_supported_message in He as [Hm|[n ->]]; [by left|right]. by constructor.
Qed.
Lemma require_contract_version_carries document label :
  (slen label <= 64)%nat -> ok (require_contract_version document label).
Proof.
  intros Hl. unfold require_contract_version.
  destruct document as [| | | | | | |d|];
    try (apply carries_raise, contracted_literal; [declared_code|];
         unfold within; rewrite !slen_app; cbn [slen]; apply andb_true_iff; split; apply Nat.leb_le; lia).
  intros e. unfold except. destruct (require_supported (get "contract_version" d)) as [cv|e'] eqn:E; cbn [bind]; [done|].
  apply (version_errors ErrorCode.CONTRACT_VIOLATION unit _
    (fun m => raise (ContractViolationError m "/contract_version" [])) (or_intror eq_refl) ltac:(eauto) _ E).
Qed.
Hint Extern 1 (carries contracted (require_contract_version _ _)) => apply require_contract_version_carries; cbn; lia : carries.
Lemma validate_tool_schema_carries document pointer : ok (validate_tool_input_schema document pointer).
Proof. unfold validate_tool_input_schema. carrying. Qed.
Hint Resolve validate_tool_schema_carries : carries.
Lemma unique_tools_carries index seen l : ok (unique_tools index seen l).
Proof. revert index seen. induction l as [|t l IH]; intros index seen; cbn [unique_tools]; carrying. Qed.
Hint Resolve unique_tools_carries : carries.
Lemma validate_connector_carries document : ok (validate_connector_definition document).
Proof. unfold validate_connector_definition. carrying. Qed.
Hint Resolve validate_connector_carries : carries.
Lemma unique_connectors_carries index seen l : ok (unique_connectors index seen l).
Proof. revert index seen. induction l as [|t l IH]; intros index seen; cbn [unique_connectors]; carrying. Qed.
Hint Resolve unique_connectors_carries : carries.
Lemma validate_snapshot_carries document : ok (validate_deployment_snapshot document).
Proof. unfold validate_deployment_snapshot. carrying. Qed.
Hint Resolve validate_snapshot_carries : carries.

Lemma canonical_carries P v : carries P (canonical_bytes v).
Proof.
  intros e He. destruct (serializable v) eqn:Hs.
  - by rewrite (proj2 (canonical_bytes_Ok v _) (conj Hs eq_refl)) in He.
  - apply canonical_bytes_fails in Hs as [m Hs]. by rewrite He in Hs.
Qed.
Hint Resolve canonical_carries : carries.
Lemma verify_digest_carries P v expected exclude : carries P (verify_digest v expected exclude).
Proof. unfold verify_digest, content_digest, digest_payload. carrying. Qed.
Lemma verified_key_carries v d : ok (verified_key v d).
Proof.
  unfold verified_key, except. intros e. destruct (verify_document d (trusted_keys v)) as [k|e'] eqn:E; cbn [bind]; [done|].
  destruct (verify_document_fails _ _ _ E) as [m [-> | ->]]; cbn [is_class]; [|done]. case_bool_decide; [|done].
  revert e. apply carries_raise. cbn [exn_message]. split; [declared_code|].
  apply verify_document_message in E as [Hm|[k ->]]; [by left|right; constructor].
Qed.
Hint Resolve verify_digest_carries verified_key_carries : carries.
Lemma index_snapshot_carries s : ok (index_snapshot s).
Proof. apply carries_fold. intros index c _. apply carries_fold. intros index' t _. unfold index_tool. carrying. Qed.
Hint Resolve index_snapshot_carries : carries.
Lemma load_snapshot_carries document etag v now : ok (load_snapshot_document document etag v now).
Proof.
  unfold load_snapshot_document, verification_check. destruct document as [| | | | | | |d|]; try literal_error.
  apply carries_bind.
  - intros e. unfold except. destruct (require_supported (get "contract_version" d)) as [cv|e'] eqn:E; [done|].
    apply (version_errors ErrorCode.UNSUPPORTED_CONTRACT_VERSION _ _
      (fun m => raise (tool_layer_error_at ErrorCode.UNSUPPORTED_CONTRACT_VERSION m "/contract_version"))
      (or_introl eq_refl) ltac:(unfold tool_layer_error_at; eauto) _ E).
  - intros cv _. carrying. apply carries_map. intros. apply carries_parse_connector.
Qed.
Hint Resolve load_snapshot_carries : carries.

(** The control plane's answer may fail to parse; it raises nothing else. *)
Definition plain_network (get : http_get) : Prop :=
  forall url headers response, get url headers = Some response -> plain (hr_json response).
Lemma fetch_carries cl key etag now : plain_network (cl_get cl) -> ok (fetch cl key etag now).
Proof.
  intros Hp. unfold fetch. destruct (cl_get cl _ _) as [response|] eqn:E; [|literal_error].
  apply Hp, (carries_plain contracted) in E. carrying.
Qed.
Lemma refresh_carries st now : plain_network (cl_get (st_client st)) -> ok (refresh st now).2.
Proof.
  intros Hp. unfold refresh.
  pose proof (fetch_carries (st_client st) (st_deployment_key st) (match st_current st with Some s => ls_etag s | None => None end)
    now Hp) as Hf.
  destruct (fetch _ _ _ _) as [[s|]|e]; [done|by destruct (st_current st)|].
  destruct (is_tool_layer_error e); destruct (st_current st); cbn [snd]; intros e' [= ->]; by apply Hf.
Qed.
Lemma ensure_fresh_carries st now : plain_network (cl_get (st_client st)) -> ok (ensure_fresh st now).2.
Proof.
  intros Hp. unfold ensure_fresh. destruct (st_current st); [destruct (_ <? _)%Z; [done|]|]; by apply refresh_carries.
Qed.
End loading_errors.

(** ** Callers *)

Section identity_errors.
Context `{Ed25519, JsonSchema, Decoding, TokenJson, !PlainLibraries}.
Local Abbreviation ok := (carries contracted).

Lemma b64u_decode_carries P v n : carries P (b64u_decode v n).
Proof. by intros e (m & [=])%b64u_decode_fails. Qed.
Hint Resolve b64u_decode_carries : carries.
Lemma verifying_key_carries P k p : carries P (verifying_key_from_encoded k p).
Proof. unfold verifying_key_from_encoded, require_key_id. carrying. Qed.
Hint Resolve verifying_key_carries : carries.
Lemma ring_parse_carries P entries : carries P (ring_parse entries).
Proof.
  unfold ring_parse. generalize (@nil string) (@nil VerifyingKey).
  induction entries as [|entry entries IH]; intros seen keys; cbn [ring_parse_go]; carrying.
Qed.
Hint Resolve ring_parse_carries : carries.
Lemma json_loads_bytes_carries P raw : carries P (json_loads_bytes raw).
Proof. apply carries_plain, json_loads_bytes_plain. Qed.
Hint Resolve json_loads_bytes_carries : carries.
Lemma py_float_carries P v : carries P (py_float v).
Proof. unfold py_float. carrying. Qed.
Hint Resolve py_float_carries : carries.
Lemma identify_carries a token asserted_subject asserted_roles now : ok (identify a token asserted_subject asserted_roles now).
Proof. unfold identify, from_token, verified_claims, decode_part, encode_ascii, check_times. carrying. Qed.
Lemma caller_identity_carries settings h now : ok (caller_identity settings h now).
Proof. unfold caller_identity, caller_authenticator. carrying. apply identify_carries. Qed.
End identity_errors.

(** ** Calls *)

(** The transport is [HttpTransport] over some HTTP library, the resolver
    [system_resolve] over some [getaddrinfo]. *)
Definition plain_transport (t : Transport) : Prop :=
  exists exchange, forall request limits, @httpx_send (Build_Httpx exchange) request limits = Some (t request limits).
Definition plain_resolver (r : DnsResolver) : Prop :=
  exists getaddrinfo, forall host port, r host port = system_resolve getaddrinfo host port.

Section call_errors.
Context `{Platform, JsonSchema, Decoding, TokenJson, !PlainLibraries}.
Local Abbreviation ok := (carries contracted).

Lemma json_text_carries P comma colon v : carries P (json_text comma colon v).
Proof.
  induction v as [| | | | |l IH|l IH|d IH|] using pyval_ind'; cbn [json_text]; carrying.
  1-2: induction IH as [|v l Hv _ IHl]; carrying.
  induction IH as [|[k v] d Hv _ IHd]; carrying.
Qed.
Hint Resolve json_text_carries : carries.
Lemma iter_errors_carries P s v : carries P (iter_errors s v).
Proof. apply carries_plain, iter_errors_plain. Qed.
Hint Resolve iter_errors_carries : carries.
Lemma validate_arguments_carries tool arguments : ok (validate_arguments tool arguments).
Proof. unfold validate_arguments. carrying. Qed.
Lemma scalar_carries v pointer : ok (scalar v pointer).
Proof. unfold scalar. carrying. Qed.
Hint Resolve validate_arguments_carries scalar_carries : carries.
Lemma write_pointer_carries d pointer v : ok (write_pointer d pointer v).
Proof. unfold write_pointer. carrying. Qed.
Hint Resolve write_pointer_carries : carries.
Lemma bind_argument_carries arguments b binding : ok (bind_argument arguments b binding).
Proof. unfold bind_argument, header_value. cbv zeta. carrying. Qed.
Lemma prepare_request_carries tool arguments base : ok (prepare_request tool arguments base).
Proof.
  unfold prepare_request, build. apply carries_bind; [apply carries_fold; intros; apply bind_argument_carries|].
  intros b _. carrying.
Qed.
Hint Resolve prepare_request_carries : carries.

Lemma check_method_carries policy m : m ∈ HTTP_METHODS -> ok (check_method policy m).
Proof.
  intros Hm. unfold check_method. destruct (negb _); [|apply carries_Ok].
  unfold HTTP_METHODS in Hm. rewrite !elem_of_cons, elem_of_nil in Hm.
  destruct Hm as [->|[->|[->|[->|[->|[]]]]]]; literal_error.
Qed.
Lemma check_address_carries policy a : ok (check_address policy a).
Proof. unfold check_address, blocked. cbv zeta. carrying. Qed.
Hint Resolve check_address_carries : carries.
Lemma check_addresses_carries policy l : ok (check_addresses policy l).
Proof. induction l as [|a l IH]; cbn [check_addresses]; carrying. Qed.
Hint Resolve check_addresses_carries : carries.
Lemma resolver_carries r host port : plain_resolver r -> ok (r host port).
Proof. intros [g Hg]. rewrite Hg. unfold system_resolve. carrying. Qed.
Lemma check_carries policy url r : plain_resolver r -> ok (check policy url r).
Proof.
  intros Hr. unfold check, not_allowed, resolved_addresses.
  assert (forall P, carries P (split_authority url)) as Hs by (intros P e He%split_authority_fails; done).
  carrying. by apply resolver_carries.
Qed.
Lemma prepare_carries ex tool arguments base :
  method (operation tool) ∈ HTTP_METHODS -> plain_resolver (ex_resolver ex) -> ok (prepare ex tool arguments base).
Proof.
  intros Hm Hr. unfold prepare. apply carries_bind; [by apply check_method_carries|]. intros _ _.
  apply carries_bind; [apply validate_arguments_carries|]. intros args _.
  apply carries_bind; [apply prepare_request_carries|]. intros request _.
  apply carries_bind; [by apply check_carries|]. intros. apply carries_Ok.
Qed.

Definition limited (l : ExecutionLimits) : Prop := (0 < max_response_bytes l <= 16 * 1024 * 1024)%Z.
Lemma too_large_carries {A} l : limited l -> carries (A:=A) contracted (raise (too_large l)).
Proof.
  intros [Hl Hu]. apply carries_raise, contracted_literal; [declared_code|].
  assert (slen (str_of_Z (max_response_bytes l)) <= 64)%nat.
  { destruct (max_response_bytes l) as [|p|p]; [simpl; lia| |lia]. cbn [str_of_Z]. unfold str_of_N.
    etransitivity; [apply References.dec_go_length|]. simpl slen.
    assert (N.log2 (Npos p) < 25)%N; [|lia]. apply N.log2_lt_pow2; lia. }
  unfold within. rewrite !slen_app. cbn [slen]. apply andb_true_iff. split; apply Nat.leb_le; lia.
Qed.
Lemma collect_carries fuel ceiling body index collected r :
  collect fuel ceiling body index collected = Some r -> ok r.
Proof.
  revert index collected. induction fuel as [|fuel IH]; intros index collected; cbn [collect]; [done|].
  destruct (body index); [destruct (_ <=? _)%nat; [intros [= <-]; apply carries_Ok|apply IH]|intros [= <-]..];
    [apply carries_Ok|literal_error..].
Qed.
Lemma transport_carries t request l : plain_transport t -> limited l -> ok (t request l).
Proof.
  intros [exchange Ht] Hl. specialize (Ht request l). unfold httpx_send in Ht.
  destruct (exchange_of _ _) as [status hs body| |]; [|injection Ht as <-; literal_error..].
  destruct (declared_length_exceeds _ _); [injection Ht as <-; by apply too_large_carries|].
  destruct (collect _ _ _ _ _) as [collected|] eqn:Hc; [|done]. cbn [mbind option_bind] in Ht. injection Ht as <-.
  apply collect_carries in Hc. carrying.
Qed.
Lemma outcome_carries ex tool ck cv rid ms response : limited (ex_limits ex) -> ok (outcome ex tool ck cv rid ms response).
Proof.
  intros Hl. unfold outcome, Executor.decode. destruct response as [[status hs] body].
  destruct (_ && _)%Z; [literal_error|]. destruct (_ <? _)%Z; [by apply too_large_carries|].
  carrying. apply carries_plain, json_loads_plain.
Qed.
Lemma execute_carries ex tool arguments base ck cv rid ms :
  method (operation tool) ∈ HTTP_METHODS -> plain_resolver (ex_resolver ex) -> plain_transport (ex_transport ex) ->
  limited (ex_limits ex) -> ok (execute ex tool arguments base ck cv rid ms).2.
Proof.
  intros Hm Hr Ht Hl. unfold execute. pose proof (prepare_carries ex tool arguments base Hm Hr) as Hp.
  destruct (prepare ex tool arguments base) as [request|e]; [|by intros e' [= ->]; apply Hp]. cbn [snd].
  apply carries_bind; [by apply transport_carries|]. intros. by apply outcome_carries.
Qed.
End call_errors.

(** ** The provider and the orchestrator *)

Section provider_errors.
Context `{Platform}.

Lemma py_iter_carries P v : carries P (py_iter v).
Proof. unfold py_iter, type_error. carrying. Qed.
Hint Resolve py_iter_carries : carries.
Lemma mock_select_carries P utterance l : carries P (mock_select_tool utterance l).
Proof.
  unfold mock_select_tool, scored. cbv zeta. destruct (bool_decide _); [apply carries_Ok|]. apply carries_bind; [|intros; carrying].
  apply carries_map. intros t _. unfold score. carrying.
Qed.
Lemma extract_properties_carries P f properties :
  (forall k child, carries P (f k child)) -> carries P (extract_properties f properties).
Proof.
  intros Hf. unfold extract_properties, attribute_error. destruct properties; carrying.
  apply carries_fold. intros found kv _. unfold add_property. carrying.
Qed.
Lemma extract_at_carries P fuel utterance lowered words name schema :
  carries P (extract_at fuel utterance lowered words name schema).
Proof.
  revert name schema. induction fuel as [|fuel IH]; intros name schema; cbn [extract_at]; [carrying|].
  destruct (is_the_str _ _); [|carrying]. apply carries_bind; [by apply extract_properties_carries|]. carrying.
Qed.
Lemma mock_generate_carries P utterance tool : carries P (mock_generate_arguments utterance tool).
Proof.
  unfold mock_generate_arguments, required_argument_names. cbv zeta. apply carries_bind.
  - apply carries_bind; [apply py_iter_carries|]. intros l _. apply carries_map. intros v _. unfold type_error. carrying.
  - intros required _. apply carries_bind; [|intros; apply carries_Ok].
    apply extract_properties_carries. intros. apply extract_at_carries.
Qed.
End provider_errors.

Section orchestrator_errors.
Context `{Platform, Ed25519, JsonSchema, Pydantic, Decoding, TokenJson, !PlainLibraries}.
Local Abbreviation ok := (carries contracted).

Lemma decide_carries bound caller : ok (decide_tool bound caller).
Proof.
  unfold decide_tool, authorize_stored_policy, parse_audience_policy, read_roles, policy_error.
  assert (forall l acc, ok (collect_roles l acc)) as Hc.
  { induction l as [|v l IH]; intros acc; cbn [collect_roles]; unfold policy_error; carrying. }
  carrying.
Qed.
Hint Resolve decide_carries : carries.
Lemma authorize_carries bound caller : ok (authorize bound caller).
Proof. unfold authorize, AuthorizationError_role. carrying. Qed.
Lemma confirm_carries bound confirmed : ok (confirm bound confirmed).
Proof. unfold confirm, ConfirmationRequired. carrying. Qed.
Lemma resolve_carries s name : ok (resolve s name).
Proof. unfold resolve. carrying. Qed.
Lemma discover_in_carries s caller : ok (discover_in s caller).
Proof. apply carries_fold. intros visible b _. carrying. Qed.
Hint Resolve authorize_carries confirm_carries resolve_carries discover_in_carries : carries.
Hint Extern 1 (carries contracted (validate_arguments _ _)) => apply validate_arguments_carries : carries.
Lemma named_checks_carries s name arguments caller confirmed : ok (named_checks s name arguments caller confirmed).
Proof. unfold named_checks. cbv zeta. carrying. Qed.
Lemma turn_checks_carries o s text caller confirmed :
  or_provider o = MockLLMProvider -> ok (turn_checks o s text caller confirmed).
Proof.
  intros Ho. unfold turn_checks. cbv zeta. rewrite Ho. cbn [select_tool generate_arguments MockLLMProvider].
  apply carries_bind; [apply discover_in_carries|]. intros [|b available] _; [literal_error|].
  apply carries_bind; [apply mock_select_carries|]. intros [selection|] _; [|literal_error].
  apply carries_bind; [apply resolve_carries|]. intros bound _.
  apply carries_bind; [apply mock_generate_carries|]. intros proposal _.
  destruct (negb _).
  - apply carries_raise. split; [declared_code|]. right. constructor.
  - carrying.
Qed.

Lemma verified_method v s name b :
  verified_by v s -> resolve s name = Ok b -> method (operation (bt_tool b)) ∈ HTTP_METHODS.
Proof.
  intros (doc & d & [_ _ _ _ _ Hm [Hi Hn]]) Hb. apply (resolve_bound s name b Hn Hi) in Hb as (c & t & Hc & Ht & _ & ->).
  apply parse_snapshot_valid in Hm as (_ & Hcs & _). rewrite Forall_forall in Hcs.
  destruct (Hcs c Hc) as (_ & _ & _ & Hts). rewrite Forall_forall in Hts. by apply (tg_method _ (valid_tool_guarantees t (Hts t Ht))).
Qed.

(** An orchestrator built from settings, in a world of documented libraries. *)
Record plain_engine (o : Orchestrator) : Prop := {
  pe_provider : or_provider o = MockLLMProvider;
  pe_limits : limited (ex_limits (or_executor o));
  pe_transport : plain_transport (ex_transport (or_executor o));
  pe_resolver : plain_resolver (ex_resolver (or_executor o));
}.
Section engine.
Variables (o : Orchestrator) (v : SnapshotVerification) (st : SnapshotStore).
Hypothesis engine : plain_engine o.
Hypothesis network : plain_network (cl_get (st_client st)).
Hypothesis store : store_ok v st.

Lemma run_tool_carries s b validated rid utterance ms tr tail :
  method (operation (bt_tool b)) ∈ HTTP_METHODS -> ok (run_tool o s b validated rid utterance ms tr tail).2.
Proof.
  intros Hm. destruct engine as [Hp Hl Ht Hr]. unfold run_tool.
  pose proof (execute_carries (or_executor o) (bt_tool b) (VDict validated) (bt_base_url b) (bt_connector_key b)
    (bt_connector_version b) (Some rid) ms Hm Hr Ht Hl) as He.
  destruct (execute _ _ _ _ _ _ _ _) as [sent r]. cbn [snd] in *. rewrite Hp. cbn [format_response MockLLMProvider].
  unfold mock_format_response. cbv zeta. carrying.
Qed.
Lemma fresh_verified now s : (ensure_fresh st now).2 = Ok s -> verified_by v s.
Proof. intros Hs. destruct (ensure_fresh_ok v st now store) as (_ & H' & _). by apply H'. Qed.
Lemma execute_tool_carries name arguments caller rid confirmed fresh now ms :
  ok (execute_tool o st name arguments caller rid confirmed fresh now ms).2.2.
Proof.
  unfold execute_tool. cbv zeta. pose proof (ensure_fresh_carries st now network) as Hf. pose proof (fresh_verified now) as Hv.
  destruct (ensure_fresh st now) as [st' [s|e]]; cbn [snd] in *; [|by intros e' [= ->]; apply Hf].
  pose proof (named_checks_carries s name arguments caller confirmed) as Hn.
  destruct (named_checks _ _ _ _ _) as [[[b validated] tr]|e] eqn:En; cbn [snd]; [|by intros e' [= ->]; apply Hn].
  apply run_tool_carries. unfold named_checks in En. apply bind_Ok in En as (b' & Hb & En).
  assert (b' = b) as ->.
  { repeat (apply bind_Ok in En as (? & _ & En)). congruence. }
  by eapply verified_method; eauto.
Qed.
Lemma handle_carries utterance caller rid confirmed dry fresh now ms :
  ok (handle o st utterance caller rid confirmed dry fresh now ms).2.2.
Proof.
  unfold handle. cbv zeta. pose proof (ensure_fresh_carries st now network) as Hf. pose proof (fresh_verified now) as Hv.
  assert (ok (request_text utterance)) as Hu by (unfold request_text; cbv zeta; carrying).
  destruct (request_text utterance) as [text|e]; cbn [snd]; [|by intros e' [= ->]; apply Hu].
  destruct (ensure_fresh st now) as [st' [s|e]]; cbn [snd] in *; [|by intros e' [= ->]; apply Hf].
  pose proof (turn_checks_carries o s text caller confirmed (pe_provider _ engine)) as Hn.
  destruct (turn_checks _ _ _ _ _) as [[[b validated] tr]|e] eqn:En; cbn [snd]; [|by intros e' [= ->]; apply Hn].
  destruct (proj1 (turn_checks_Ok o s text caller confirmed b validated) (ex_intro _ tr En))
    as (av & sel & p & _ & _ & _ & Hb & _).
  pose proof (verified_method v s _ b (Hv s eq_refl) Hb) as Hm.
  destruct dry; cbn [snd]; [|by apply run_tool_carries].
  unfold dry_run_outcome. apply carries_bind; [|intros; apply carries_Ok].
  apply prepare_carries; [exact Hm|apply (pe_resolver _ engine)].
Qed.
End engine.
End orchestrator_errors.

(** ** Answers *)

(** Every answer of the runtime, by its shape. *)
Inductive promised (request_id : string) (route : Route) (r : HttpResponse) : Prop :=
  | promised_success : ps_status r = 200%Z -> promised request_id route r
  | promised_unready : route = Readyz -> ps_status r = 503%Z -> ps_body r = VDict unavailable_body -> promised request_id route r
  | promised_error e :
      ps_body r = envelope_to_dict e -> env_code e ∈ ErrorCode.all -> env_request_id e = Some request_id ->
      ps_status r = status_for (env_code e) \/
        env_code e = ErrorCode.INVALID_REQUEST /\ env_message e = REQUEST_INVALID /\ ps_status r = 422%Z ->
      parse_error_envelope (ps_body r) = Ok (body_of e) \/ quoting (env_code e) (env_message e) ->
      promised request_id route r.

Lemma error_code_ok_declared c : c ∈ ErrorCode.all -> error_code_ok c = true.
Proof.
  intros Hc. assert (forallb error_code_ok ErrorCode.all = true) as Hall by (vm_compute; reflexivity).
  rewrite forallb_Forall, Forall_forall in Hall. by apply Hall.
Qed.
Lemma envelope_reads code message p ds rid :
  code ∈ ErrorCode.all -> within 1 512 message = true ->
  parse_error_envelope (envelope_to_dict (MkEnvelope code message p ds rid)) = Ok (body_of (MkEnvelope code message p ds rid)).
Proof. intros Hc Hm. apply envelope_conforms. by split_and!; [|apply error_code_ok_declared|]. Qed.

(** What of a world is somebody else's code. *)
Record plain_world (w : World) : Prop := {
  pw_network : plain_network (w_get w);
  pw_transport : plain_transport (w_transport w);
  pw_resolver : plain_resolver (w_resolver w);
}.

Section answers.
Context `{Platform, Ed25519, JsonSchema, Pydantic, Decoding, TokenJson, !PlainLibraries}.
Local Abbreviation ok := (carries contracted).

Lemma envelope_promised rid route r code message p ds :
  ps_body r = envelope_to_dict (MkEnvelope code message p ds (Some rid)) -> code ∈ ErrorCode.all ->
  within 1 512 message = true \/ quoting code message ->
  ps_status r = status_for code \/ code = ErrorCode.INVALID_REQUEST /\ message = REQUEST_INVALID /\ ps_status r = 422%Z ->
  promised rid route r.
Proof.
  intros Hb Hc Hm Hs. apply (promised_error _ _ _ (MkEnvelope code message p ds (Some rid))); try done.
  rewrite Hb. destruct Hm as [Hm|Hm]; [left; by apply envelope_reads|by right].
Qed.
Lemma respond_promised rid route (c : M (Z * dict)) :
  ok c -> (forall status body, c = Ok (status, body) ->
    status = 200%Z \/ route = Readyz /\ status = 503%Z /\ body = unavailable_body) ->
  promised rid route (respond rid c).
Proof.
  intros Hc Hok. unfold respond. destruct c as [[status body]|e].
  - destruct (Hok status body eq_refl) as [->|(-> & -> & ->)]; [by constructor|by apply promised_unready].
  - destruct e as [e| | |]; try (eapply envelope_promised; [reflexivity|declared_code|left; vm_compute; reflexivity|by left]).
    destruct (Hc e eq_refl) as [Hcode Hm]. destruct e as [code m p ds issues].
    by eapply envelope_promised; [reflexivity|exact Hcode|exact Hm|left].
Qed.
Lemma request_validation_promised rid route : promised rid route (request_validation rid).
Proof.
  eapply envelope_promised; [reflexivity|declared_code|left; vm_compute; reflexivity|]. right. by split_and!.
Qed.

Lemma built_engine settings w0 engine store w :
  build_orchestrator settings w0 = Ok (engine, store) -> plain_world w -> plain_engine (engine_in w engine).
Proof.
  unfold build_orchestrator. intros (v & _ & (policy & _ & (limits & Hl & [= <- <-])%bind_Ok)%bind_Ok)%bind_Ok [_ Ht Hr].
  split; try done. cbn. unfold execution_limits, ExecutionLimits_new in Hl.
  destruct (negb _); [done|]. destruct (negb _); [done|]. destruct (negb ((0 <? _) && _)%Z) eqn:E; [done|].
  injection Hl as <-. apply negb_false_iff, andb_true_iff in E as [E1%Z.ltb_lt E2%Z.leb_le]. done.
Qed.
Lemma readyz_promised rid store w :
  plain_network (cl_get (st_client store)) -> promised rid Readyz (respond rid (readyz store w).2).
Proof.
  intros Hn. unfold readyz. destruct (loaded store) eqn:Hl; cbn [snd].
  - apply respond_promised; [unfold current; carrying|]. cbn [bind].
    intros status body (s & _ & [= <- _])%bind_Ok. by left.
  - pose proof (refresh_carries store (w_now w) Hn) as Hr.
    destruct (refresh store (w_now w)) as [st [s|e]]; cbn [snd bind] in *.
    + apply respond_promised; [unfold current; carrying|]. intros status body (s' & _ & [= <- _])%bind_Ok. by left.
    + destruct (is_tool_layer_error e) eqn:E; cbn [bind].
      * apply respond_promised; [apply carries_Ok|]. intros status body [= <- <-]. by right.
      * apply respond_promised; [intros e' [= ->]; by apply Hr|done].
Qed.

(** One request, from a runtime that was built and kept its snapshots verified. *)
Lemma serve_promised settings engine v store w h route :
  plain_engine (engine_in w engine) -> plain_world w -> store_ok v store ->
  promised (request_id_or (h_request_id h) (w_fresh_id w)) route (serve settings engine store w h route).2.2.
Proof.
  intros He [Hn _ _] Hst%(on_network_ok v _ (w_get w)). unfold serve. cbv zeta.
  assert (plain_network (cl_get (st_client (on_network store (w_get w))))) as Hnet by exact Hn.
  generalize dependent (on_network store (w_get w)). intros st Hst Hnet. generalize (request_id_or (h_request_id h) (w_fresh_id w)).
  intros rid. pose proof (caller_identity_carries settings h (w_time w)) as Hc.
  destruct route as [| | |body|name body|].
  - apply respond_promised; [unfold health_body, security_posture; carrying; apply ring_parse_carries|].
    intros status body (posture & _ & [= <- _])%bind_Ok. by left.
  - pose proof (readyz_promised rid st w Hnet) as Hr. by destruct (readyz st w).
  - destruct (caller_identity settings h (w_time w)) as [caller|e]; cbn [snd].
    + unfold discover. pose proof (ensure_fresh_carries st (w_now w) Hnet) as Hf.
      destruct (ensure_fresh st (w_now w)) as [st' fresh]. cbn [snd] in *. apply respond_promised.
      * carrying. apply discover_in_carries.
      * intros status body (visible & _ & [= <- _])%bind_Ok. by left.
    + apply respond_promised; [intros e' [= ->]; by apply Hc|done].
  - destruct (caller_identity settings h (w_time w)) as [caller|e]; cbn [snd];
      [|apply respond_promised; [intros e' [= ->]; by apply Hc|done]].
    destruct (parse_chat_request body) as [payload|]; cbn [snd]; [|apply request_validation_promised].
    unfold run_chat. pose proof (handle_carries _ v st He Hnet Hst (cq_utterance payload) caller (Some rid)
      (cq_confirmed payload) (cq_dry_run payload) (w_fresh_id w) (w_now w) (w_elapsed_ms w)) as Hh.
    destruct (handle _ _ _ _ _ _ _ _ _ _) as [st' [sent outcome]]. cbn [snd] in *. apply respond_promised; [carrying|].
    intros status b (out & _ & [= <- _])%bind_Ok. by left.
  - destruct (caller_identity settings h (w_time w)) as [caller|e]; cbn [snd];
      [|apply respond_promised; [intros e' [= ->]; by apply Hc|done]].
    destruct (parse_execute_request body) as [payload|]; cbn [snd]; [|apply request_validation_promised].
    unfold run_execute. pose proof (execute_tool_carries _ v st He Hnet Hst name (VDict (xq_arguments payload)) caller (Some rid)
      (xq_confirmed payload) (w_fresh_id w) (w_now w) (w_elapsed_ms w)) as Hh.
    destruct (execute_tool _ _ _ _ _ _ _ _ _ _) as [st' [sent outcome]]. cbn [snd] in *. apply respond_promised; [carrying|].
    intros status b (out & _ & [= <- _])%bind_Ok. by left.
  - pose proof (refresh_carries st (w_now w) Hnet) as Hr. destruct (refresh st (w_now w)) as [st' c]. cbn [snd] in *.
    apply respond_promised; [carrying|]. intros status b (s & _ & [= <- _])%bind_Ok. by left.
Qed.
End answers.

(** ** Property *)


(** The libraries of the demonstration, and an HTTP library that answers. *)
#[export] Instance demo_plain_libraries : PlainLibraries.
Proof.
  split; intros; intros e; cbn; try done; [by intros [= <-]|].
  unfold demo_token_json. repeat case_match; intros [=]; by subst.
Qed.
Definition answering (request : PreparedRequest) (hs : headers) : exchange :=
  Responded 201 [("content-type", "text/plain")] (fun i => match i with O => Chunk "fine" | _ => StreamEnd end).
Definition answering_transport : Transport := fun request limits =>
  default (raise timeout_error) (@httpx_send (Build_Httpx answering) request limits).
Lemma answering_plain : plain_transport answering_transport.
Proof.
  exists answering. intros request limits. unfold answering_transport.
  assert (is_Some (@httpx_send (Build_Httpx answering) request limits)) as [c ->]; [|done].
  unfold httpx_send. cbn -[collect]. unfold declared_length_exceeds. cbn -[collect].
  remember (S (byte_limit limits)) as ceiling. cbn [collect]. destruct (ceiling <=? _)%nat; [by eexists|].
  subst ceiling. cbn. by eexists.
Qed.
Definition plain_demo_world : World :=
  MkWorld demo_get answering_transport (system_resolve (fun _ _ => Some [Some "93.184.216.34"])) 5 (sf_of_Z 1000) 12
    "0123456789abcdef".
Lemma plain_demo_world_ok : plain_world plain_demo_world.
Proof.
  split.
  - intros url hs response [= <-] e. cbn. done.
  - apply answering_plain.
  - by exists (fun _ _ => Some [Some "93.184.216.34"]).
Qed.
(** An unconfirmed call and a confirmed one, in that world. *)
Definition promised_call (confirmed : bool) : M Z :=
  let* started := api_started in
  let '(settings, (engine, store)) := started in
  Ok (ps_status (@serve zero_platform _ _ _ _ _ settings engine store plain_demo_world api_headers (api_route confirmed)).2.2).

(** ** What is beyond the promise *)

(** A tool that requires many arguments: the message that names them is longer
    than the contract allows, and a client cannot read the envelope. *)
Definition wide_names : list string := map (fun i => "required_argument_" +:+ nat_str i) (seq 1 30).
Definition wide_schema : dict :=
  {{ "$schema" ~> VStr DIALECT; "type" ~> VStr "object"; "additionalProperties" ~> VBool false;
     "properties" ~> VDict (map (fun n => (KStr n, VDict {{ "type" ~> VStr "string" }})) wide_names);
     "required" ~> strs wide_names }}.
Definition wide_tool : ToolDefinition :=
  MkTool "add_note" "Add note" "Add a note to a ticket." wide_schema
    (MkOperation "POST" "/notes" (map (fun n => MkBinding ("/" +:+ n) TBody ("/" +:+ n)) wide_names) true)
    (MkToolPolicy EffectWrite false (MkAccess Public []))
    (MkProvenance (Some "addNote") "/notes" "post" ["tickets"] false FromSource).
Definition wide_loaded : LoadedSnapshot :=
  MkLoaded demo_snapshot None 0 [("add_note", MkBound "ticket-api" "0.1.0" "https://api.example.org/v1" wide_tool)] None.
Definition wide_turn : M (BoundTool * dict * trace) :=
  @turn_checks zero_platform _ (MkOrchestrator (@MockLLMProvider zero_platform) (demo_executor 201)) wide_loaded
    "add a note to ticket TKT-1" None true.
Lemma missing_arguments_unbounded :
  ToolDefinition_new wide_tool = Ok wide_tool /\
  match wide_turn with
  | Err (ToolLayerError e) => (te_code e, is_ok (parse_error_envelope (envelope_to_dict (to_envelope e (Some "req-1"))))) =
                                (ErrorCode.ARGUMENT_VALIDATION_FAILED, false)
  | _ => False
  end.
Proof. split; vm_compute; reflexivity. Qed.

(** The code of a detail is the keyword behind a prefix, capitals included,
    while the envelope's schema asks for lower case. *)
Definition DETAIL_CODE_PATTERN : re :=
  RCat (RSet is_lower) (RStar (RSet (fun c => alnum_lower c || Ascii.eqb c "_" || Ascii.eqb c "."))).
Lemma detail_code_not_lower :
  match_dollar DETAIL_CODE_PATTERN (d_code (argument_detail (MkSchemaError [] (Some "additionalProperties")))) = false /\
  match_dollar DETAIL_CODE_PATTERN (d_code (argument_detail (MkSchemaError [] (Some "required")))) = true.
Proof. split; vm_compute; reflexivity. Qed.
(** The framework's refusal of a body carries a code whose status is another. *)
Lemma refused_body_status : status_for ErrorCode.INVALID_REQUEST = 400%Z /\ ps_status (request_validation "req-1") = 422%Z.
Proof. done. Qed.
