(* ===== verification/SchemaConversion.v ===== *)
(** * Schema conversion

    [toollayer_openapi/schema_conversion.py]: an OpenAPI schema object becomes a
    closed Draft 2020-12 schema, or is refused.  The recursion is the code's
    own: every call goes one deeper, and a depth above the limit raises. *)

From S2P Require Export Models Diagnostics PyRepr.

Definition MAX_SCHEMA_DEPTH : nat := 8.
Definition ALL_TYPES : list string := ["string"; "integer"; "number"; "boolean"; "object"; "array"; "null"].
(** The keyword sets, in the order [sorted] gives them. *)
Definition ANNOTATION_KEYWORDS : list string := ["description"; "title"].
Definition STRING_KEYWORDS : list string := ["format"; "maxLength"; "minLength"; "pattern"].
Definition NUMBER_KEYWORDS : list string := ["maximum"; "minimum"].
Definition ARRAY_KEYWORDS : list string := ["maxItems"; "minItems"].
Definition IGNORED_KEYWORDS : list string :=
  ["example"; "examples"; "externalDocs"; "readOnly"; "writeOnly"; "xml"; "discriminator"].
Definition COMPOSITION_KEYWORDS : list string := ["allOf"; "anyOf"; "not"; "oneOf"].

Definition escape_token (token : string) : string := replace_char "/" "~1" (replace_char "~" "~0" token).

Definition matches_type (value : pyval) (declared_type : string) : bool :=
  if String.eqb declared_type "string" then is_str value
  else if String.eqb declared_type "boolean" then is_bool value
  else if String.eqb declared_type "integer" then is_int value && negb (is_bool value)
  else if String.eqb declared_type "number" then is_number value && negb (is_bool value)
  else if String.eqb declared_type "array" then is_list value
  else if String.eqb declared_type "object" then is_dict value
  else if String.eqb declared_type "null" then is_vnone value
  else false.

Definition apply_nullable (schema : dict) (converted : dict) (pointer : string) : M dict :=
  match get "nullable" schema with
  | VNone => Ok converted
  | VBool true => Ok (dset (KStr "type") (VList [get "type" converted; VStr "null"]) converted)
  | VBool false => Ok converted
  | _ => raise (InvalidDocumentError "'nullable' must be a boolean" pointer)
  end.

Definition apply_annotation (schema : dict) (pointer : string) (converted : dict) (keyword : string) : M dict :=
  match dget (KStr keyword) schema with
  | None => Ok converted
  | Some (VStr value) =>
      let text := strip value in
      Ok (if is_empty text then converted else dset (KStr keyword) (VStr text) converted)
  | Some _ => raise (InvalidDocumentError ("'" +:+ keyword +:+ "' must be a string") pointer)
  end.
Definition apply_annotations (schema converted : dict) (pointer : string) : M dict :=
  fold_result (apply_annotation schema pointer) ANNOTATION_KEYWORDS converted.

Definition apply_enum (schema converted : dict) (declared_type pointer : string) : M dict :=
  match dget (KStr "enum") schema with
  | None => Ok converted
  | Some (VList ((_ :: _) as enum)) =>
      if forallb (fun value => is_vnone value || matches_type value declared_type) enum then
        Ok (dset (KStr "enum") (VList enum) converted)
      else raise (InvalidDocumentError "an 'enum' value does not match the declared type" pointer)
  | Some _ => raise (InvalidDocumentError "'enum' must be a non-empty array" pointer)
  end.
Definition apply_default (schema converted : dict) (declared_type pointer : string) : M dict :=
  match dget (KStr "default") schema with
  | None => Ok converted
  | Some default =>
      if negb (matches_type default declared_type) then
        raise (InvalidDocumentError "'default' does not match the declared type" pointer)
      else if match dget (KStr "enum") converted with
              | Some (VList enum) => negb (val_in default enum)
              | _ => false
              end then raise (InvalidDocumentError "'default' is not one of the enum values" pointer)
      else Ok (dset (KStr "default") default converted)
  end.
Definition apply_enum_and_default (schema converted : dict) (declared_type pointer : string) : M dict :=
  let* converted := apply_enum schema converted declared_type pointer in
  apply_default schema converted declared_type pointer.

Definition apply_exclusive_bound (schema : dict) (pointer : string) (converted : dict) (names : string * string) : M dict :=
  let '(bound, exclusive) := names in
  match dget (KStr exclusive) schema with
  | None => Ok converted
  | Some (VBool false) => Ok converted
  | Some (VBool true) =>
      match get bound converted with
      | VNone => raise (InvalidDocumentError ("'" +:+ exclusive +:+ ": true' requires a '" +:+ bound +:+ "'") pointer)
      | inclusive => Ok (dset (KStr exclusive) inclusive (dpop (KStr bound) converted))
      end
  | Some value =>
      if is_number value then Ok (dset (KStr exclusive) value converted)
      else raise (InvalidDocumentError ("'" +:+ exclusive +:+ "' must be a number or a boolean") pointer)
  end.
Definition BOUNDS : list (string * string) := [("minimum", "exclusiveMinimum"); ("maximum", "exclusiveMaximum")].
Definition apply_exclusive_bounds (schema converted : dict) (pointer : string) : M dict :=
  fold_result (apply_exclusive_bound schema pointer) BOUNDS converted.

Definition copy_keyword (schema : dict) (pointer : string) (converted : dict) (keyword : string) : M dict :=
  match dget (KStr keyword) schema with
  | None => Ok converted
  | Some value =>
      if str_in keyword ["pattern"; "format"] then
        match value with
        | VStr (String _ _) => Ok (dset (KStr keyword) value converted)
        | _ => raise (InvalidDocumentError ("'" +:+ keyword +:+ "' must be a non-empty string") pointer)
        end
      else if is_number value && negb (is_bool value) then Ok (dset (KStr keyword) value converted)
      else raise (InvalidDocumentError ("'" +:+ keyword +:+ "' must be a number") pointer)
  end.
Definition copy_supported (schema converted : dict) (keywords : list string) (pointer : string) : M dict :=
  fold_result (copy_keyword schema pointer) keywords converted.

Definition known_keywords (declared_type : string) : list string :=
  ["type"; "nullable"; "enum"; "default"; "exclusiveMinimum"; "exclusiveMaximum"]
  ++ ANNOTATION_KEYWORDS ++ IGNORED_KEYWORDS
  ++ (if String.eqb declared_type "string" then STRING_KEYWORDS
      else if str_in declared_type ["integer"; "number"] then NUMBER_KEYWORDS
      else if String.eqb declared_type "array" then ARRAY_KEYWORDS ++ ["items"]
      else if String.eqb declared_type "object" then ["properties"; "required"; "additionalProperties"]
      else []).
Definition unknown_keywords (schema : dict) (declared_type : string) : list string :=
  sorted_strs (List.filter (fun k => negb (str_in k (known_keywords declared_type))) (map key_text (dkeys schema))).
Definition reject_unknown_keywords (schema : dict) (declared_type pointer : string) : M unit :=
  match unknown_keywords schema declared_type with
  | [] => Ok tt
  | unknown :: _ =>
      raise (UnsupportedFeatureError
        ("the schema keyword " +:+ repr_str unknown +:+ " is not supported for a " +:+ repr_str declared_type +:+ " schema")
        pointer)
  end.

(** The checks in front of the conversion; they give the declared type. *)
Definition declared_type_of (schema : dict) (pointer : string) : M string :=
  match find_first (fun k => has k schema) COMPOSITION_KEYWORDS with
  | Some keyword =>
      raise (UnsupportedFeatureError ("the schema keyword " +:+ repr_str keyword +:+ " is not supported") pointer)
  | None =>
      if has "$ref" schema then
        raise (InvalidDocumentError "the schema still contains a reference after resolution" pointer)
      else
        match get "type" schema with
        | VList _ => raise (UnsupportedFeatureError "union types are only supported through 'nullable'" pointer)
        | VNone =>
            raise (UnsupportedFeatureError
              "the schema does not declare a type; untyped values cannot be validated" pointer)
        | VStr t =>
            if str_in t ALL_TYPES then Ok t
            else raise (UnsupportedFeatureError "the schema declares an unsupported type" pointer)
        | _ => raise (UnsupportedFeatureError "the schema declares an unsupported type" pointer)
        end
  end.

Definition add_required (properties : dict) (pointer : string) (required : list string) (entry : pyval) : M (list string) :=
  match entry with
  | VStr name =>
      if negb (has name properties) then
        raise (InvalidDocumentError "'required' names a property the schema does not declare" (pointer +:+ "/required"))
      else Ok (if str_in name required then required else required ++ [name])
  | _ => raise (InvalidDocumentError "'required' entries must be strings" (pointer +:+ "/required"))
  end.
Definition required_names (schema properties : dict) (pointer : string) : M (list string) :=
  match get_or "required" (VList []) schema with
  | VList raw_required => fold_result (add_required properties pointer) raw_required []
  | _ => raise (InvalidDocumentError "'required' must be an array" (pointer +:+ "/required"))
  end.

(** [_convert_object], given the conversion of what is one level below. *)
Definition convert_property (convert : pyval -> string -> M dict) (pointer : string)
    (properties : dict) (member : pykey * pyval) : M dict :=
  match member.1 with
  | KStr (String _ _ as name) =>
      let* c := convert member.2 (pointer +:+ "/properties/" +:+ escape_token name) in
      Ok (dset (KStr name) (VDict c) properties)
  | _ => raise (InvalidDocumentError "a property name must be a non-empty string" pointer)
  end.
Definition convert_object (convert : pyval -> string -> M dict) (schema : dict) (pointer : string) : M dict :=
  match get "properties" schema with
  | VDict ((_ :: _) as raw_properties) =>
      let additional := get "additionalProperties" schema in
      if negb (is_vnone additional || py_eq additional (VBool false)) then
        raise (UnsupportedFeatureError
          "an object schema that permits additional properties cannot be converted into a closed tool schema" pointer)
      else
        let* properties := fold_result (convert_property convert pointer) raw_properties [] in
        let* required := required_names schema properties pointer in
        Ok {{ "properties" ~> VDict properties; "required" ~> strs required;
              "additionalProperties" ~> VBool false }}
  | _ =>
      raise (UnsupportedFeatureError
        "an object schema must declare at least one property; free-form objects cannot be validated and are refused rather than passed through"
        pointer)
  end.
(** [d.update(e)]. *)
Definition dupdate (d e : dict) : dict := foldl (fun d kv => dset kv.1 kv.2 d) d e.

(** What each type adds. *)
Definition convert_by_type (convert : pyval -> string -> M dict) (schema converted : dict)
    (declared_type pointer : string) : M dict :=
  if String.eqb declared_type "string" then copy_supported schema converted STRING_KEYWORDS pointer
  else if str_in declared_type ["integer"; "number"] then
    let* converted := copy_supported schema converted NUMBER_KEYWORDS pointer in
    apply_exclusive_bounds schema converted pointer
  else if String.eqb declared_type "array" then
    let* converted := copy_supported schema converted ARRAY_KEYWORDS pointer in
    match get "items" schema with
    | VNone => raise (UnsupportedFeatureError "an array schema must declare its items" pointer)
    | items =>
        let* c := convert items (pointer +:+ "/items") in
        Ok (dset (KStr "items") (VDict c) converted)
    end
  else if String.eqb declared_type "object" then
    let* object_part := convert_object convert schema pointer in
    Ok (dupdate converted object_part)
  else Ok converted.

(** [remaining] is what remains of the depth: a call at depth [9 - remaining]. *)
Fixpoint convert_at (remaining : nat) (schema : pyval) (pointer : string) : M dict :=
  match schema with
  | VDict schema =>
      match remaining with
      | O => raise (UnsupportedFeatureError
                      ("the schema nests deeper than " +:+ str_of_N (N.of_nat MAX_SCHEMA_DEPTH) +:+ " levels") pointer)
      | S remaining =>
          let* declared_type := declared_type_of schema pointer in
          let* converted := apply_nullable schema {{ "type" ~> VStr declared_type }} pointer in
          let* converted := apply_annotations schema converted pointer in
          let* converted := apply_enum_and_default schema converted declared_type pointer in
          let* converted := convert_by_type (convert_at remaining) schema converted declared_type pointer in
          let* _ := reject_unknown_keywords schema declared_type pointer in
          Ok converted
      end
  | _ => raise (InvalidDocumentError "a schema must be an object" pointer)
  end.
Definition convert_schema (schema : pyval) (pointer : string) : M dict :=
  convert_at (S MAX_SCHEMA_DEPTH) schema pointer.

Definition demo_source_schema : dict :=
  {{ "type" ~> VStr "object"; "example" ~> VNone;
     "properties" ~> VDict {{
       "id" ~> VDict {{ "type" ~> VStr "integer"; "minimum" ~> VInt 1; "exclusiveMinimum" ~> VBool true }};
       "note" ~> VDict {{ "type" ~> VStr "string"; "nullable" ~> VBool true; "maxLength" ~> VInt 10;
                          "description" ~> VStr " A note. " }} }};
     "required" ~> VList [VStr "id"; VStr "id"] }}.
Definition demo_converted_schema : dict :=
  {{ "type" ~> VStr "object";
     "properties" ~> VDict {{
       "id" ~> VDict {{ "type" ~> VStr "integer"; "exclusiveMinimum" ~> VInt 1 }};
       "note" ~> VDict {{ "type" ~> VList [VStr "string"; VStr "null"]; "description" ~> VStr "A note.";
                          "maxLength" ~> VInt 10 }} }};
     "required" ~> VList [VStr "id"]; "additionalProperties" ~> VBool false }}.
Example convert_schema_example : convert_schema (VDict demo_source_schema) "" = Ok demo_converted_schema.
Proof. vm_compute. reflexivity. Qed.
