(* ===== verification/SchemaSemantics.v ===== *)
(** * What schema conversion means

    Validity of an instance against a schema, for the schemas the converter
    reads and for those it writes.  The types and the assertion keywords that
    look at an instance as a whole are the class [Keywords], which both sides
    share, so the theorem holds whatever a pattern or a number comparison
    means; the OpenAPI side adds [nullable] and the boolean exclusive bounds,
    and leaves objects open unless they say otherwise. *)

From S2P Require Export SchemaConversion References.

Class Keywords := {
  type_holds : string -> pyval -> bool;
  keyword_holds : string -> pyval -> pyval -> bool;
}.
(** JSON Schema Validation, section 6.2: the exclusive bounds constrain numbers only. *)
Class KeywordLaws `{Keywords} := {
  bounds_numbers_only t k p v :
    type_holds t v = true -> str_in t ["integer"; "number"] = false ->
    str_in k ["exclusiveMinimum"; "exclusiveMaximum"] = true -> keyword_holds k p v = true;
}.

Definition UNBOUNDED_KEYWORDS : list string :=
  ["enum"; "format"; "maxLength"; "minLength"; "pattern"; "maxItems"; "minItems"].

(** The subschema of a property, and the names an object must have. *)
Definition property_schema (s : dict) (k : pykey) : option pyval :=
  match dget (KStr "properties") s with Some (VDict ps) => dget k ps | _ => None end.
Definition required_present (s d : dict) : bool :=
  match dget (KStr "required") s with
  | Some (VList l) => forallb (fun r => match r with VStr r => has r d | _ => true end) l
  | _ => true
  end.

Section semantics.
Context `{Keywords}.

Definition assertion (s : dict) (v : pyval) (k : string) : bool :=
  match dget (KStr k) s with Some p => keyword_holds k p v | None => true end.

(** ** JSON Schema, Draft 2020-12 *)

Definition draft_type (s : dict) (v : pyval) : bool :=
  match get "type" s with
  | VStr t => type_holds t v
  | VList ts => existsb (fun t => match t with VStr t => type_holds t v | _ => false end) ts
  | _ => true
  end.
Definition draft_bounds (s : dict) (v : pyval) (names : string * string) : bool :=
  assertion s v names.1 && assertion s v names.2.
Fixpoint draft_valid (schema v : pyval) {struct v} : bool :=
  match schema with
  | VBool b => b
  | VDict s =>
      draft_type s v && forallb (assertion s v) UNBOUNDED_KEYWORDS && forallb (draft_bounds s v) BOUNDS &&
      match v with
      | VList l =>
          match dget (KStr "items") s with
          | Some items => forallb (fun w => draft_valid items w) l
          | None => true
          end
      | VDict d =>
          required_present s d &&
          forallb (fun kv =>
            match property_schema s kv.1, dget (KStr "additionalProperties") s with
            | Some p, _ | None, Some p => draft_valid p kv.2
            | None, None => true
            end) d
      | _ => true
      end
  | _ => false
  end.

(** ** OpenAPI 3.0 *)

Definition openapi_type (s : dict) (v : pyval) : bool :=
  match get "type" s with
  | VStr t => type_holds t v || match get "nullable" s with VBool true => type_holds "null" v | _ => false end
  | _ => true
  end.
Definition openapi_bounds (s : dict) (v : pyval) (names : string * string) : bool :=
  match dget (KStr names.2) s with
  | Some (VBool true) =>
      match dget (KStr names.1) s with Some bound => keyword_holds names.2 bound v | None => true end
  | Some (VBool false) | None => assertion s v names.1
  | Some bound => assertion s v names.1 && keyword_holds names.2 bound v
  end.
Fixpoint openapi_valid (schema v : pyval) {struct v} : bool :=
  match schema with
  | VDict s =>
      openapi_type s v && forallb (assertion s v) UNBOUNDED_KEYWORDS && forallb (openapi_bounds s v) BOUNDS &&
      match v with
      | VList l =>
          match dget (KStr "items") s with
          | Some items => forallb (fun w => openapi_valid items w) l
          | None => true
          end
      | VDict d =>
          required_present s d &&
          forallb (fun kv =>
            match property_schema s kv.1, get "additionalProperties" s with
            | Some p, _ => openapi_valid p kv.2
            | None, VBool b => b
            | None, VDict _ as p => openapi_valid p kv.2
            | None, _ => true
            end) d
      | _ => true
      end
  | _ => false
  end.

(** Every member of the instance, at every level, is a declared property. *)
Fixpoint declared_only (schema v : pyval) {struct v} : bool :=
  match schema with
  | VDict s =>
      match v with
      | VList l =>
          match dget (KStr "items") s with
          | Some items => forallb (fun w => declared_only items w) l
          | None => true
          end
      | VDict d =>
          forallb (fun kv => match property_schema s kv.1 with
                              | Some p => declared_only p kv.2
                              | None => negb (is_the_str "object" (get "type" s))
                              end) d
      | _ => true
      end
  | _ => true
  end.
End semantics.

(** ** What each step of the conversion leaves alone, and what it sets *)

Definition agree_off (ks : list string) (c c' : dict) : Prop :=
  (forall k, k ∉ ks -> dget (KStr k) c' = dget (KStr k) c) /\ (dict_ok c -> dict_ok c').

Lemma agree_off_trans ks c1 c2 c3 : agree_off ks c1 c2 -> agree_off ks c2 c3 -> agree_off ks c1 c3.
Proof. intros [H1 O1] [H2 O2]. split; [|by auto]. intros k Hk. by rewrite H2, H1. Qed.
Lemma agree_off_dset ks k v c : k ∈ ks -> agree_off ks c (dset (KStr k) v c).
Proof.
  intros Hk. split; [|apply dset_ok]. intros k' Hk'. rewrite dget_dset. case_bool_decide as E; [|done]. by injection E as ->.
Qed.
Lemma agree_off_refl ks c : agree_off ks c c.
Proof. by split. Qed.
Lemma dget_dset_str k k' v d : dget (KStr k) (dset (KStr k') v d) = if String.eqb k k' then Some v else dget (KStr k) d.
Proof.
  rewrite dget_dset. destruct (String.eqb_spec k k') as [->|Hne]; case_bool_decide; try done; congruence.
Qed.

Lemma apply_nullable_spec s t p c :
  apply_nullable s {{ "type" ~> VStr t }} p = Ok c ->
  c = {{ "type" ~> (match get "nullable" s with VBool true => VList [VStr t; VStr "null"] | _ => VStr t end) }}.
Proof. unfold apply_nullable. by destruct (get "nullable" s) as [|[]| | | | | | |]; try done; intros [= <-]. Qed.
Lemma apply_annotations_frame s c p c' : apply_annotations s c p = Ok c' -> agree_off ANNOTATION_KEYWORDS c c'.
Proof.
  unfold apply_annotations. intros H.
  assert (forall c1 c2 k, k ∈ ANNOTATION_KEYWORDS -> apply_annotation s p c1 k = Ok c2 -> agree_off ANNOTATION_KEYWORDS c1 c2) as Hk.
  { intros c1 c2 k Hin. unfold apply_annotation. destruct (dget _ s) as [[]|]; try done; [|by intros [= <-]].
    cbv zeta. destruct (is_empty _); intros [= <-]; [done|by apply agree_off_dset]. }
  cbn [fold_result ANNOTATION_KEYWORDS] in H.
  apply bind_Ok in H as (c1 & H1 & (c2 & H2 & [= ->])%bind_Ok).
  eapply agree_off_trans; eapply Hk; try done; by repeat constructor.
Qed.
Lemma apply_enum_and_default_frame s c t p c' :
  apply_enum_and_default s c t p = Ok c' -> dget (KStr "enum") c = None ->
  agree_off ["enum"; "default"] c c' /\ dget (KStr "enum") c' = dget (KStr "enum") s.
Proof.
  unfold apply_enum_and_default. intros (c1 & H1 & H2)%bind_Ok Hc.
  assert (agree_off ["enum"; "default"] c c1 /\ dget (KStr "enum") c1 = dget (KStr "enum") s) as [Ha He].
  { revert H1. unfold apply_enum. destruct (dget (KStr "enum") s) as [[| | | | |[|e es]| | |]|]; try done.
    - destruct (forallb _ _); [|done]. intros [= <-]. split; [apply agree_off_dset; by left|].
      rewrite dget_dset_str. done.
    - by intros [= <-]. }
  revert H2. unfold apply_default. destruct (dget (KStr "default") s) as [d|]; [|by intros [= <-]].
  destruct (negb _); [done|].
  match goal with |- context [if ?b then _ else _] => destruct b end; [done|]. intros [= <-]. split.
  - eapply agree_off_trans; [done|]. apply agree_off_dset. by right; left.
  - rewrite dget_dset_str. done.
Qed.
Lemma copy_keyword_spec s p c k c' :
  copy_keyword s p c k = Ok c' -> c' = match dget (KStr k) s with Some v => dset (KStr k) v c | None => c end.
Proof.
  unfold copy_keyword. destruct (dget _ s) as [v|]; [|by intros [= <-]].
  destruct (str_in k _); [destruct v as [| | | |[|? ?]| | | |]; try discriminate; congruence|].
  destruct (_ && _); [by intros [= <-]|done].
Qed.
Lemma copy_supported_spec s c ks p c' :
  copy_supported s c ks p = Ok c' -> (forall k, k ∈ ks -> dget (KStr k) c = None) ->
  agree_off ks c c' /\ forall k, k ∈ ks -> dget (KStr k) c' = dget (KStr k) s.
Proof.
  unfold copy_supported. intros H Hc.
  assert ((forall k, dget (KStr k) c' =
             if str_in k ks then match dget (KStr k) s with Some v => Some v | None => dget (KStr k) c end
             else dget (KStr k) c) /\ (dict_ok c -> dict_ok c')) as [Hall Hok].
  { clear Hc. revert c H. induction ks as [|k0 ks IH]; intros c; cbn [fold_result].
    - by intros [= <-].
    - intros (c1 & ->%copy_keyword_spec & [H2 Hok]%IH)%bind_Ok. split.
      + intros k. rewrite H2. unfold str_in. destruct (decide (k = k0)) as [->|Hne].
        * rewrite (bool_decide_eq_true_2 (k0 ∈ k0 :: ks)) by left.
          destruct (dget (KStr k0) s) as [v|]; [rewrite dget_dset_str, String.eqb_refl|]; by case_bool_decide.
        * rewrite (bool_decide_ext (k ∈ k0 :: ks) (k ∈ ks)) by (rewrite elem_of_cons; naive_solver).
          destruct (dget (KStr k0) s) as [v|]; [|done]. rewrite dget_dset_str. by destruct (String.eqb_spec k k0).
      + intros Hd. apply Hok. destruct (dget (KStr k0) s); [by apply dset_ok|done]. }
  unfold str_in in Hall. split; [split; [|done]|]; intros k Hk; rewrite Hall.
  - by rewrite bool_decide_eq_false_2.
  - rewrite bool_decide_eq_true_2 by done. destruct (dget (KStr k) s); [done|by apply Hc].
Qed.
Lemma dpop_ok k d : dict_ok d -> dict_ok (dpop k d).
Proof.
  unfold dict_ok, dkeys. induction d as [|[k0 v0] d IH]; [done|]. cbn [dpop]. csimpl. intros [Hk Hd]%NoDup_cons.
  case_bool_decide; [done|]. csimpl. apply NoDup_cons. split; [|by apply IH].
  intros [[k1 v1] [-> Hin]]%list_elem_of_fmap. apply Hk. apply list_elem_of_fmap. exists (k1, v1). split; [done|].
  pose proof (dpop_incl k d) as Hi. rewrite Forall_forall in Hi. by apply Hi.
Qed.

Section bounds.
Context `{Keywords}.

Lemma apply_exclusive_bound_spec s p c b e c' :
  apply_exclusive_bound s p c (b, e) = Ok c' -> dict_ok c -> b <> e ->
  dget (KStr b) c = dget (KStr b) s -> dget (KStr e) c = None ->
  agree_off [b; e] c c' /\ forall v, draft_bounds c' v (b, e) = openapi_bounds s v (b, e).
Proof.
  intros Ha Hok Hne Hb He. unfold draft_bounds, openapi_bounds, assertion. cbn [fst snd].
  assert (forall x, dset (KStr e) x c = c' -> agree_off [b; e] c c' /\
            forall v, match dget (KStr b) c' with Some p => keyword_holds b p v | None => true end &&
                      match dget (KStr e) c' with Some p => keyword_holds e p v | None => true end =
                      match dget (KStr b) s with Some p => keyword_holds b p v | None => true end && keyword_holds e x v) as Hset.
  { intros x <-. split; [apply agree_off_dset; right; left|]. intros v. rewrite !dget_dset_str, String.eqb_refl.
    destruct (String.eqb_spec b e); [done|]. by rewrite Hb. }
  assert (c = c' -> agree_off [b; e] c c' /\
            forall v, match dget (KStr b) c' with Some p => keyword_holds b p v | None => true end &&
                      match dget (KStr e) c' with Some p => keyword_holds e p v | None => true end =
                      match dget (KStr b) s with Some p => keyword_holds b p v | None => true end) as Hsame.
  { intros <-. split; [apply agree_off_refl|]. intros v. by rewrite Hb, He, andb_true_r. }
  unfold apply_exclusive_bound in Ha. destruct (dget (KStr e) s) as [[|[]| | | | | | |]|] eqn:Es; try discriminate;
    try (apply Hset; cbn [is_number] in Ha; congruence); try (apply Hsame; congruence).
  destruct (get b c) as [| | | | | | | |] eqn:Eb; try discriminate;
    unfold get, get_or in Eb; destruct (dget (KStr b) c) as [m|] eqn:Em; try discriminate; subst m; injection Ha as <-;
    rewrite <- Hb; (split; [split; [|intros _; by apply dset_ok, dpop_ok]|]);
    try (intros k Hk; rewrite !not_elem_of_cons in Hk; destruct Hk as (Hkb & Hke & _);
         rewrite dget_dset_str, dget_dpop, bool_decide_eq_false_2 by congruence; by destruct (String.eqb_spec k e));
    intros v; rewrite !dget_dset_str, String.eqb_refl, dget_dpop, bool_decide_eq_true_2 by done;
    by destruct (String.eqb_spec b e).
Qed.
End bounds.

Lemma forallb_andb {A} (f g : A -> bool) l : forallb f l && forallb g l = forallb (fun x => f x && g x) l.
Proof.
  induction l as [|a l IH]; [done|]. cbn [forallb]. rewrite <- IH.
  destruct (f a), (g a), (forallb f l); done.
Qed.
Lemma forallb_same {A} (f g : A -> bool) l : (forall a, a ∈ l -> f a = g a) -> forallb f l = forallb g l.
Proof.
  induction l as [|a l IH]; intros H; [done|]. cbn [forallb]. rewrite (H a), IH; [done| |by left].
  intros b Hb. apply H. by right.
Qed.

Section refinement.
Context `{KeywordLaws}.

(** The written schema accepts what the read one does and declares. *)
Definition refined_by (schema : pyval) (c : dict) : Prop :=
  forall v, draft_valid (VDict c) v = openapi_valid schema v && declared_only schema v.

(** It does when the keywords correspond. *)
Record refines (s c : dict) : Prop := {
  r_type : forall v, draft_type c v = openapi_type s v;
  r_unbounded : forall k, k ∈ UNBOUNDED_KEYWORDS -> dget (KStr k) c = dget (KStr k) s;
  r_bounds : forall v, openapi_type s v = true -> forallb (draft_bounds c v) BOUNDS = forallb (openapi_bounds s v) BOUNDS;
  r_items : match dget (KStr "items") s with
            | Some i => exists ci, dget (KStr "items") c = Some (VDict ci) /\ refined_by i ci
            | None => dget (KStr "items") c = None
            end;
  r_required : forall d, required_present c d = required_present s d;
  r_properties : forall k, match property_schema s k with
                           | Some i => exists ci, property_schema c k = Some (VDict ci) /\ refined_by i ci
                           | None => property_schema c k = None
                           end;
  r_additional : if is_the_str "object" (get "type" s)
                 then dget (KStr "additionalProperties") c = Some (VBool false)
                 else dget (KStr "additionalProperties") c = None /\ dget (KStr "additionalProperties") s = None;
}.

Lemma refines_refined s c : refines s c -> refined_by (VDict s) c.
Proof.
  intros [Ht Hu Hb Hi Hr Hp Ha] v.
  assert (draft_type c v && forallb (assertion c v) UNBOUNDED_KEYWORDS && forallb (draft_bounds c v) BOUNDS =
          openapi_type s v && forallb (assertion s v) UNBOUNDED_KEYWORDS && forallb (openapi_bounds s v) BOUNDS) as Hflat.
  { rewrite Ht. specialize (Hb v). destruct (openapi_type s v); [|done]. rewrite Hb by done. f_equal.
    rewrite !andb_true_l. apply forallb_same. intros k Hk. unfold assertion. by rewrite Hu. }
  destruct v as [| | | | |l| |d|]; cbn [draft_valid openapi_valid declared_only]; rewrite Hflat, ?andb_true_r; try done;
    rewrite <- !andb_assoc; do 3 f_equal.
  - destruct (dget (KStr "items") s) as [i|]; [|by rewrite Hi].
    destruct Hi as (ci & -> & Hci). rewrite forallb_andb. apply forallb_same. intros w _. apply Hci.
  - rewrite Hr. f_equal. rewrite forallb_andb. apply forallb_same. intros [k w] _. cbn [fst snd]. specialize (Hp k).
    destruct (property_schema s k) as [i|].
    + destruct Hp as (ci & -> & Hci). rewrite Hci. done.
    + rewrite Hp. destruct (is_the_str "object" (get "type" s)).
      * rewrite Ha, andb_false_r. by destruct w.
      * destruct Ha as [Ha Ha']. unfold get, get_or. by rewrite Ha, Ha'.
Qed.
End refinement.

(** ** Every step of a conversion, put together *)

(** The keys the first steps may set. *)
Definition BASE_KEYS : list string := ["type"; "description"; "title"; "enum"; "default"].
Record based (s : dict) (t : string) (c : dict) : Prop := {
  b_type : get "type" c = match get "nullable" s with VBool true => VList [VStr t; VStr "null"] | _ => VStr t end;
  b_enum : dget (KStr "enum") c = dget (KStr "enum") s;
  b_rest : forall k, k ∉ BASE_KEYS -> dget (KStr k) c = None;
  b_ok : dict_ok c;
}.

Lemma base_steps s t p c1 c2 c3 :
  apply_nullable s {{ "type" ~> VStr t }} p = Ok c1 -> apply_annotations s c1 p = Ok c2 ->
  apply_enum_and_default s c2 t p = Ok c3 -> based s t c3.
Proof.
  intros ->%apply_nullable_spec [H2 O2]%apply_annotations_frame H3.
  apply apply_enum_and_default_frame in H3 as [[H3 O3] He]; [|by rewrite H2; [|set_solver]].
  split; [|done| |].
  - unfold get, get_or. by rewrite H3, H2 by set_solver.
  - intros k Hk. unfold BASE_KEYS in Hk. unfold ANNOTATION_KEYWORDS in *.
    rewrite H3, H2 by set_solver. cbn [dget]. rewrite bool_decide_eq_false_2; [done|]. intros [= ->]. set_solver.
  - apply O3, O2. apply (bool_decide_unpack _). done.
Qed.

(** A keyword the type does not know does not occur. *)
Lemma not_unknown s t p :
  reject_unknown_keywords s t p = Ok tt -> forall k, str_in k (known_keywords t) = false -> dget (KStr k) s = None.
Proof.
  unfold reject_unknown_keywords. destruct (unknown_keywords s t) as [|u us] eqn:E; [|done]. intros _ k Hk.
  unfold unknown_keywords in E. apply (proj1 (sorted_strs_nil _)) in E. apply dget_None. intros Hin.
  assert (k ∈ List.filter (fun k => negb (str_in k (known_keywords t))) (map key_text (dkeys s))) as H.
  { apply list_elem_of_In, filter_In. rewrite Hk. split; [|done]. apply in_map_iff. exists (KStr k).
    split; [done|]. by apply list_elem_of_In. }
  rewrite E in H. by apply elem_of_nil in H.
Qed.
Lemma declared_type_Ok s p t : declared_type_of s p = Ok t -> get "type" s = VStr t /\ t ∈ ALL_TYPES.
Proof.
  unfold declared_type_of. destruct (find_first _ _); [done|]. destruct (has "$ref" s); [done|].
  destruct (get "type" s); try done. destruct (str_in s0 ALL_TYPES) eqn:E; [|done]. intros [= <-].
  split; [done|]. by apply bool_decide_eq_true in E.
Qed.

Section steps.
Context `{KeywordLaws}.

Lemma based_type s t c v :
  get "type" s = VStr t -> get "type" c = match get "nullable" s with VBool true => VList [VStr t; VStr "null"] | _ => VStr t end ->
  draft_type c v = openapi_type s v.
Proof.
  intros Hs Hc. unfold draft_type, openapi_type. rewrite Hs, Hc.
  destruct (get "nullable" s) as [|[]| | | | | | |]; rewrite ?orb_false_r; try done. cbn [existsb]. by rewrite orb_false_r.
Qed.
(** Away from numbers the bounds say nothing. *)
Lemma bounds_vacuous s c t :
  get "type" s = VStr t -> str_in t ["integer"; "number"] = false ->
  (forall k, k ∈ ["minimum"; "maximum"; "exclusiveMinimum"; "exclusiveMaximum"] -> dget (KStr k) c = None) ->
  (forall k, k ∈ NUMBER_KEYWORDS -> dget (KStr k) s = None) ->
  forall v, openapi_type s v = true -> forallb (draft_bounds c v) BOUNDS = forallb (openapi_bounds s v) BOUNDS.
Proof using Type*.
  intros Ht Hn Hc Hs v Hv. assert (exists t', type_holds t' v = true /\ str_in t' ["integer"; "number"] = false) as (t' & Hv' & Hn').
  { unfold openapi_type in Hv. rewrite Ht in Hv. apply orb_true_iff in Hv as [Hv|Hv]; [by exists t|].
    destruct (get "nullable" s) as [|[]| | | | | | |]; try done. by exists "null". }
  unfold NUMBER_KEYWORDS in Hs. apply forallb_same. intros [b e] Hin.
  assert (dget (KStr b) c = None /\ dget (KStr e) c = None /\ dget (KStr b) s = None /\
          str_in e ["exclusiveMinimum"; "exclusiveMaximum"] = true) as (H1 & H2 & H3 & H4).
  { unfold BOUNDS in Hin. rewrite !elem_of_cons in Hin.
    destruct Hin as [[= -> ->]|[[= -> ->]|?%elem_of_nil]]; [..|done];
      (split_and!; [apply Hc|apply Hc|apply Hs|]); set_solver. }
  unfold draft_bounds, openapi_bounds, assertion. cbn [fst snd]. rewrite H1, H2, H3.
  destruct (dget (KStr e) s) as [[|[]| | | | | | |]|]; try done; by rewrite (bounds_numbers_only t').
Qed.
End steps.

Ltac decide_in := apply (bool_decide_unpack _); vm_compute; exact I.
Ltac each_keyword H :=
  unfold UNBOUNDED_KEYWORDS in H; rewrite !elem_of_cons in H;
  repeat (destruct H as [->|H]); [..|by apply elem_of_nil in H].

Section by_type.
Context `{KeywordLaws}.
Variables (s : dict) (t : string).
Hypothesis type_s : get "type" s = VStr t.
Hypothesis unknown_s : forall k, str_in k (known_keywords t) = false -> dget (KStr k) s = None.

Definition STRUCTURE : list string := ["items"; "properties"; "required"; "additionalProperties"].

(** Without subschemas. *)
Lemma refines_flat c :
  (forall v, draft_type c v = openapi_type s v) ->
  (forall k, k ∈ UNBOUNDED_KEYWORDS -> dget (KStr k) c = dget (KStr k) s) ->
  (forall v, openapi_type s v = true -> forallb (draft_bounds c v) BOUNDS = forallb (openapi_bounds s v) BOUNDS) ->
  t <> "object" -> (forall k, k ∈ STRUCTURE -> dget (KStr k) c = None /\ dget (KStr k) s = None) -> refines s c.
Proof using type_s.
  intros Ht Hu Hb Ho Hs.
  destruct (Hs "items") as [H1 H1']; [decide_in|]. destruct (Hs "properties") as [H2 H2']; [decide_in|].
  destruct (Hs "required") as [H3 H3']; [decide_in|]. destruct (Hs "additionalProperties") as [H4 H4']; [decide_in|].
  split; try done; unfold required_present, property_schema; rewrite ?H1, ?H1', ?H2, ?H2', ?H3, ?H3'; try done.
  rewrite type_s. unfold is_the_str. cbn [py_eq]. by rewrite (proj2 (String.eqb_neq t "object")).
Qed.
(** A based schema without type keywords: [boolean] and [null]. *)
Lemma refines_based c3 :
  based s t c3 -> (forall k, k ∈ UNBOUNDED_KEYWORDS -> k <> "enum" -> dget (KStr k) s = None) ->
  (forall k, k ∈ STRUCTURE ++ NUMBER_KEYWORDS -> dget (KStr k) s = None) ->
  str_in t ["integer"; "number"] = false -> t <> "object" -> refines s c3.
Proof using Type*.
  intros [Hty He Hr Hok] Hu Hs Hn Ho. apply refines_flat; [|..|done|].
  - intros v. by apply (based_type s t).
  - intros k Hk. destruct (decide (k = "enum")) as [->|Hne]; [done|].
    rewrite (Hu k Hk Hne). apply Hr. each_keyword Hk; try done; decide_in.
  - apply (bounds_vacuous s c3 t); [done|done| |].
    + intros k Hk. apply Hr. rewrite !elem_of_cons in Hk. destruct Hk as [->|[->|[->|[->|?%elem_of_nil]]]]; [..|done]; decide_in.
    + intros k Hk. apply Hs, elem_of_app. by right.
  - intros k Hk. split; [|apply Hs, elem_of_app; by left]. apply Hr.
    unfold STRUCTURE in Hk. rewrite !elem_of_cons in Hk. destruct Hk as [->|[->|[->|[->|?%elem_of_nil]]]]; [..|done]; decide_in.
Qed.

(** The keywords a type copies, and the rest. *)
Lemma copied_lookup c3 ks p c k :
  based s t c3 -> copy_supported s c3 ks p = Ok c -> (forall k, k ∈ ks -> k ∉ BASE_KEYS) ->
  (k = "enum" \/ k ∈ ks \/ k ∉ BASE_KEYS /\ str_in k (known_keywords t) = false) ->
  dget (KStr k) c = dget (KStr k) s.
Proof using unknown_s.
  intros [_ He Hr _] Hc Hks Hk. apply copy_supported_spec in Hc as [[Hoff _] Hon]; [|by auto].
  destruct (decide (k ∈ ks)) as [Hin|Hin]; [by apply Hon|]. rewrite Hoff by done.
  destruct Hk as [->|[Hk|[Hk Hu]]]; [done..|]. by rewrite Hr, unknown_s.
Qed.
Lemma copied_type c3 ks p c v :
  based s t c3 -> copy_supported s c3 ks p = Ok c -> (forall k, k ∈ ks -> k ∉ BASE_KEYS) ->
  draft_type c v = openapi_type s v.
Proof using type_s.
  intros [Hty _ Hr _] Hc Hks. apply copy_supported_spec in Hc as [[Hoff _] _]; [|by auto].
  apply (based_type s t); [done|]. unfold get, get_or in *. rewrite Hoff; [done|]. intros Hin. apply (Hks "type" Hin). by left.
Qed.
End by_type.

(** A known-keyword test on concrete keywords. *)
Ltac copied_keyword :=
  first [ by left | right; left; decide_in | right; right; split; [decide_in | reflexivity] ].

Section each_type.
Context `{KeywordLaws}.
Variable s : dict.

Lemma refines_string c3 p c :
  get "type" s = VStr "string" ->
  (forall k, str_in k (known_keywords "string") = false -> dget (KStr k) s = None) ->
  based s "string" c3 -> copy_supported s c3 STRING_KEYWORDS p = Ok c -> refines s c.
Proof using Type*.
  intros Ht Hu Hb Hc.
  assert (forall k, k ∈ STRING_KEYWORDS -> k ∉ BASE_KEYS) as Hks.
  { intros k Hk. unfold STRING_KEYWORDS in Hk. rewrite !elem_of_cons in Hk.
    destruct Hk as [->|[->|[->|[->|?%elem_of_nil]]]]; [..|done]; decide_in. }
  assert (forall k, (k = "enum" \/ k ∈ STRING_KEYWORDS \/ k ∉ BASE_KEYS /\ str_in k (known_keywords "string") = false) ->
            dget (KStr k) c = dget (KStr k) s) as Hl by (intros k Hk; by eapply copied_lookup).
  assert (forall k, k ∉ STRING_KEYWORDS -> k ∉ BASE_KEYS -> dget (KStr k) c = None) as Hn.
  { intros k Hk Hk'. apply copy_supported_spec in Hc as [[Hoff _] _]; [|intros; by apply Hb, Hks].
    rewrite Hoff by done. by apply Hb. }
  apply (refines_flat s "string"); [done| | | |done|].
  - intros v. by eapply copied_type.
  - intros k Hk. apply Hl. each_keyword Hk; copied_keyword.
  - apply (bounds_vacuous s c "string"); [done|done| |].
    + intros k Hk. rewrite !elem_of_cons in Hk. destruct Hk as [->|[->|[->|[->|?%elem_of_nil]]]]; [..|done]; apply Hn; decide_in.
    + intros k Hk. unfold NUMBER_KEYWORDS in Hk. rewrite !elem_of_cons in Hk.
      destruct Hk as [->|[->|?%elem_of_nil]]; [..|done]; by apply Hu.
  - intros k Hk. unfold STRUCTURE in Hk. rewrite !elem_of_cons in Hk.
    destruct Hk as [->|[->|[->|[->|?%elem_of_nil]]]]; [..|done]; (split; [apply Hn; decide_in|by apply Hu]).
Qed.

Lemma refines_array c3 p c4 items ci :
  get "type" s = VStr "array" ->
  (forall k, str_in k (known_keywords "array") = false -> dget (KStr k) s = None) ->
  based s "array" c3 -> copy_supported s c3 ARRAY_KEYWORDS p = Ok c4 ->
  dget (KStr "items") s = Some items -> refined_by items ci ->
  refines s (dset (KStr "items") (VDict ci) c4).
Proof using Type*.
  intros Ht Hu Hb Hc Hi Hci.
  assert (forall k, k ∈ ARRAY_KEYWORDS -> k ∉ BASE_KEYS) as Hks.
  { intros k Hk. unfold ARRAY_KEYWORDS in Hk. rewrite !elem_of_cons in Hk.
    destruct Hk as [->|[->|?%elem_of_nil]]; [..|done]; decide_in. }
  assert (forall k, (k = "enum" \/ k ∈ ARRAY_KEYWORDS \/ k ∉ BASE_KEYS /\ str_in k (known_keywords "array") = false) ->
            dget (KStr k) c4 = dget (KStr k) s) as Hl by (intros k Hk; by eapply copied_lookup).
  assert (forall k, k ∉ ARRAY_KEYWORDS -> k ∉ BASE_KEYS -> dget (KStr k) c4 = None) as Hn.
  { intros k Hk Hk'. apply copy_supported_spec in Hc as [[Hoff _] _]; [|intros; by apply Hb, Hks].
    rewrite Hoff by done. by apply Hb. }
  assert (forall v, draft_type c4 v = openapi_type s v) as Hty by (intros v; by eapply copied_type).
  set (c := dset _ _ c4). assert (forall k, k <> "items" -> dget (KStr k) c = dget (KStr k) c4) as Hd.
  { intros k Hk. unfold c. rewrite dget_dset_str. by destruct (String.eqb_spec k "items"). }
  assert (dget (KStr "items") c = Some (VDict ci)) as Hdi by (unfold c; by rewrite dget_dset_str).
  assert (forall k, k ∈ ["properties"; "required"; "additionalProperties"] -> dget (KStr k) c = None /\ dget (KStr k) s = None) as Hobj.
  { intros k Hk. rewrite !elem_of_cons in Hk.
    destruct Hk as [->|[->|[->|?%elem_of_nil]]]; [..|done]; (split; [rewrite Hd by done; apply Hn; decide_in|by apply Hu]). }
  destruct (Hobj "properties") as [H2 H2']; [decide_in|].
  destruct (Hobj "required") as [H3 H3']; [decide_in|]. destruct (Hobj "additionalProperties") as [H4 H4']; [decide_in|].
  split; unfold required_present, property_schema; rewrite ?H2, ?H2', ?H3, ?H3'; try done.
  - intros v. unfold draft_type, get, get_or. rewrite Hd by done. apply Hty.
  - intros k Hk. rewrite Hd by (each_keyword Hk; done). apply Hl. each_keyword Hk; copied_keyword.
  - apply (bounds_vacuous s c "array"); [done|done| |].
    + intros k Hk. rewrite !elem_of_cons in Hk.
      destruct Hk as [->|[->|[->|[->|?%elem_of_nil]]]]; [..|done]; rewrite Hd by done; apply Hn; decide_in.
    + intros k Hk. unfold NUMBER_KEYWORDS in Hk. rewrite !elem_of_cons in Hk.
      destruct Hk as [->|[->|?%elem_of_nil]]; [..|done]; by apply Hu.
  - rewrite Hi. by exists ci.
  - by rewrite Ht.
Qed.

Lemma refines_number t c3 p c4 c :
  t = "integer" \/ t = "number" -> get "type" s = VStr t ->
  (forall k, str_in k (known_keywords t) = false -> dget (KStr k) s = None) ->
  based s t c3 -> copy_supported s c3 NUMBER_KEYWORDS p = Ok c4 -> apply_exclusive_bounds s c4 p = Ok c -> refines s c.
Proof using Type*.
  intros Ht0 Ht Hu Hb Hc Hx.
  assert (forall k, k ∈ NUMBER_KEYWORDS -> k ∉ BASE_KEYS) as Hks.
  { intros k Hk. unfold NUMBER_KEYWORDS in Hk. rewrite !elem_of_cons in Hk.
    destruct Hk as [->|[->|?%elem_of_nil]]; [..|done]; decide_in. }
  assert (forall k, (k = "enum" \/ k ∈ NUMBER_KEYWORDS \/ k ∉ BASE_KEYS /\ str_in k (known_keywords t) = false) ->
            dget (KStr k) c4 = dget (KStr k) s) as Hl by (intros k Hk; by eapply copied_lookup).
  pose proof (copy_supported_spec _ _ _ _ _ Hc ltac:(intros; by apply Hb, Hks)) as [[Hoff Hok] _].
  assert (forall k, k ∉ NUMBER_KEYWORDS -> k ∉ BASE_KEYS -> dget (KStr k) c4 = None) as Hn.
  { intros k Hk Hk'. rewrite Hoff by done. by apply Hb. }
  specialize (Hok (b_ok _ _ _ Hb)).
  unfold apply_exclusive_bounds in Hx. cbn [fold_result BOUNDS] in Hx.
  apply bind_Ok in Hx as (c5 & H5 & (c6 & H6 & [= ->])%bind_Ok).
  apply apply_exclusive_bound_spec in H5 as [[F5 O5] D5]; [|done|done|apply Hl; copied_keyword|apply Hn; decide_in].
  apply apply_exclusive_bound_spec in H6 as [[F6 O6] D6];
    [|by auto|done|rewrite F5 by decide_in; apply Hl; copied_keyword|rewrite F5 by decide_in; apply Hn; decide_in].
  assert (forall k, k ∉ ["minimum"; "exclusiveMinimum"; "maximum"; "exclusiveMaximum"] -> dget (KStr k) c = dget (KStr k) c4) as Hd.
  { intros k Hk. rewrite !not_elem_of_cons in Hk. destruct Hk as (? & ? & ? & ? & _).
    rewrite F6, F5; [done|..]; rewrite !not_elem_of_cons; split_and!; try done; apply not_elem_of_nil. }
  apply (refines_flat s t); [done| | | |by destruct Ht0 as [->| ->]|].
  - intros v. unfold draft_type, get, get_or. rewrite Hd by decide_in. by eapply copied_type.
  - intros k Hk. rewrite Hd by (each_keyword Hk; decide_in). apply Hl. destruct Ht0 as [->| ->]; each_keyword Hk; copied_keyword.
  - intros v _. cbn [forallb BOUNDS]. rewrite <- D5, <- D6. f_equal. unfold draft_bounds, assertion. cbn [fst snd].
    by rewrite !F6 by decide_in.
  - intros k Hk. unfold STRUCTURE in Hk. rewrite !elem_of_cons in Hk.
    destruct Hk as [->|[->|[->|[->|?%elem_of_nil]]]]; [..|done];
      (split; [rewrite Hd by decide_in; apply Hn; decide_in|by destruct Ht0 as [->| ->]; apply Hu]).
Qed.
End each_type.

Section objects.
Context `{KeywordLaws}.
Variable convert : pyval -> string -> M dict.
Hypothesis convert_refines : forall schema p c, json_dicts schema -> convert schema p = Ok c -> refined_by schema c.

Definition same_property (o o' : option pyval) : Prop :=
  match o with
  | Some i => exists ci, o' = Some (VDict ci) /\ refined_by i ci
  | None => o' = None
  end.
Lemma convert_properties raw p acc acc' :
  fold_result (convert_property convert p) raw acc = Ok acc' -> json_dicts (VDict raw) ->
  forall k, match dget k raw with Some i => same_property (Some i) (dget k acc') | None => dget k acc' = dget k acc end.
Proof using convert_refines.
  intros Hf [Hok Hj]%json_dicts_dict. unfold dict_ok, dkeys in Hok. revert acc Hf Hok.
  induction Hj as [|[k0 i0] raw [_ Hi] _ IH]; intros acc; [by intros [= <-]|]. cbn [fold_result].
  intros (acc1 & H1 & H2)%bind_Ok [Hk0 Hok]%NoDup_cons k. specialize (IH acc1 H2 Hok k).
  unfold convert_property in H1. cbn [fst snd] in *. destruct k0 as [[|a n]|]; [done| |done].
  apply bind_Ok in H1 as (c & Hc%convert_refines & [= <-]); [|done]. cbn [dget].
  case_bool_decide as E.
  - subst k. rewrite (proj2 (dget_None _ raw)) in IH by done. rewrite dget_dset, bool_decide_eq_true_2 in IH by done.
    by exists c.
  - destruct (dget k raw); [done|]. rewrite IH, dget_dset. by rewrite bool_decide_eq_false_2.
Qed.
Lemma required_names_spec s properties p names :
  required_names s properties p = Ok names -> forall d, forallb (fun r => has r d) names = required_present s d.
Proof.
  unfold required_names, required_present, get_or. intros Hr d.
  destruct (dget (KStr "required") s) as [[| | | | |raw| | |]|]; try done; [|by injection Hr as <-].
  apply (fold_result_inv _ (fun raw names => forallb (fun r => has r d) names =
           forallb (fun r => match r with VStr r => has r d | _ => true end) raw)) in Hr; [done|done|].
  clear. intros raw entry names names' IH. unfold add_required. destruct entry; try done.
  destruct (negb _); [done|]. intros [= <-]. rewrite forallb_app, <- IH. cbn [forallb]. rewrite andb_true_r.
  destruct (str_in s names) eqn:E; [|rewrite forallb_app; cbn [forallb]; by rewrite andb_true_r].
  apply bool_decide_eq_true in E. destruct (forallb _ names) eqn:Ef; [|done].
  rewrite forallb_Forall, Forall_forall in Ef. by rewrite Ef.
Qed.

Lemma refines_object s c3 p object_part :
  get "type" s = VStr "object" -> json_dicts (VDict s) ->
  (forall k, str_in k (known_keywords "object") = false -> dget (KStr k) s = None) ->
  based s "object" c3 -> convert_object convert s p = Ok object_part -> refines s (dupdate c3 object_part).
Proof using Type*.
  intros Ht Hj Hu Hb Ho. unfold convert_object in Ho.
  destruct (get "properties" s) as [| | | | | | |raw|] eqn:Er; try done. destruct raw as [|m raw]; [done|].
  cbv zeta in Ho. destruct (negb _); [done|].
  apply bind_Ok in Ho as (props & Hp & (names & Hn & [= <-])%bind_Ok).
  set (c := dupdate _ _).
  assert (forall k, dget (KStr k) c = if String.eqb k "additionalProperties" then Some (VBool false)
            else if String.eqb k "required" then Some (strs names)
            else if String.eqb k "properties" then Some (VDict props) else dget (KStr k) c3) as Hd.
  { intros k. unfold c, dupdate. cbn [foldl fst snd]. by rewrite !dget_dset_str. }
  assert (forall k, k ∉ ["properties"; "required"; "additionalProperties"] -> dget (KStr k) c = dget (KStr k) c3) as Hoff.
  { intros k Hk. rewrite !not_elem_of_cons in Hk. destruct Hk as (H1 & H2 & H3 & _). rewrite Hd.
    by rewrite !(proj2 (String.eqb_neq _ _)). }
  assert (dget (KStr "properties") s = Some (VDict (m :: raw))) as Es.
  { unfold get, get_or in Er. destruct (dget _ s); congruence. }
  destruct Hb as [Hty He Hr Hok]. split.
  - intros v. apply (based_type s "object"); [done|]. unfold get, get_or in *. by rewrite Hoff by decide_in.
  - intros k Hk. rewrite Hoff by (each_keyword Hk; decide_in).
    each_keyword Hk; first [exact He | rewrite Hr by decide_in; by rewrite Hu].
  - apply (bounds_vacuous s c "object"); [done|done| |].
    + intros k Hk. rewrite Hoff, Hr; [done|..]; rewrite !elem_of_cons in Hk;
        destruct Hk as [->|[->|[->|[->|?%elem_of_nil]]]]; try done; decide_in.
    + intros k Hk. unfold NUMBER_KEYWORDS in Hk. rewrite !elem_of_cons in Hk.
      destruct Hk as [->|[->|?%elem_of_nil]]; [..|done]; by apply Hu.
  - rewrite Hu by done. by rewrite Hoff, Hr by decide_in.
  - intros d. rewrite <- (required_names_spec _ _ _ _ Hn d). unfold required_present.
    assert (dget (KStr "required") c = Some (VList (map VStr names))) as -> by (rewrite Hd; reflexivity).
    clear. induction names as [|n names IH]; [done|].
    cbn [map forallb]. f_equal. exact IH.
  - intros k. unfold property_schema. rewrite Es.
    assert (dget (KStr "properties") c = Some (VDict props)) as -> by (rewrite Hd; reflexivity).
    apply json_dicts_dict in Hj as [_ Hj]. rewrite Forall_forall in Hj.
    destruct (Hj (KStr "properties", VDict (m :: raw))) as [_ Hj']; [by apply dget_elem_of|].
    pose proof (convert_properties _ _ _ _ Hp Hj' k) as Hk. by destruct (dget k (m :: raw)).
  - rewrite Ht. cbn. by rewrite Hd.
Qed.
End objects.

Section conversion.
Context `{KeywordLaws}.

Lemma convert_by_type_refines convert s t c3 p c :
  (forall schema p c, json_dicts schema -> convert schema p = Ok c -> refined_by schema c) ->
  json_dicts (VDict s) -> get "type" s = VStr t -> t ∈ ALL_TYPES ->
  (forall k, str_in k (known_keywords t) = false -> dget (KStr k) s = None) ->
  based s t c3 -> convert_by_type convert s c3 t p = Ok c -> refines s c.
Proof using Type*.
  intros Hconv Hj Ht Hin Hu Hb Hc. unfold ALL_TYPES in Hin. rewrite !elem_of_cons in Hin. unfold convert_by_type in Hc.
  assert (forall k, k ∈ UNBOUNDED_KEYWORDS -> k <> "enum" -> t = "boolean" \/ t = "null" -> dget (KStr k) s = None) as Hu1.
  { intros k Hk Hne Ht'. apply Hu. each_keyword Hk; try done; by destruct Ht' as [->| ->]. }
  assert (forall k, k ∈ STRUCTURE ++ NUMBER_KEYWORDS -> t = "boolean" \/ t = "null" -> dget (KStr k) s = None) as Hu2.
  { intros k Hk Ht'. apply Hu. unfold STRUCTURE, NUMBER_KEYWORDS in Hk. cbn [app] in Hk. rewrite !elem_of_cons in Hk.
    repeat (destruct Hk as [->|Hk]); [..|by apply elem_of_nil in Hk]; by destruct Ht' as [->| ->]. }
  destruct Hin as [->|[->|[->|[->|[->|[->|[->|?%elem_of_nil]]]]]]]; [..|done].
  - exact (refines_string s c3 p c Ht Hu Hb Hc).
  - apply bind_Ok in Hc as (c4 & H4 & Hc). eapply (refines_number s "integer"); eauto.
  - apply bind_Ok in Hc as (c4 & H4 & Hc). eapply (refines_number s "number"); eauto.
  - injection Hc as <-. apply (refines_based s "boolean"); auto.
  - apply bind_Ok in Hc as (o & Ho & [= <-]). by eapply (refines_object convert).
  - apply bind_Ok in Hc as (c4 & H4 & Hc). destruct (dget (KStr "items") s) as [items|] eqn:Ei.
    2:{ exfalso. revert Hc. unfold get, get_or. by rewrite Ei. }
    assert (exists ci, convert items (p +:+ "/items") = Ok ci /\ c = dset (KStr "items") (VDict ci) c4) as (ci & Hci & ->).
    { unfold get, get_or in Hc. rewrite Ei in Hc.
      destruct items; [done|..]; apply bind_Ok in Hc as (ci & Hci & [= <-]); by exists ci. }
    eapply (refines_array s c3); try done. eapply Hconv; [|done].
    apply json_dicts_dict in Hj as [_ Hj]. rewrite Forall_forall in Hj. by apply dget_elem_of, Hj in Ei as [_ ?].
  - injection Hc as <-. apply (refines_based s "null"); auto.
Qed.
Lemma convert_at_refines n schema p c :
  json_dicts schema -> convert_at n schema p = Ok c -> refined_by schema c.
Proof using Type*.
  revert schema p c. induction n as [|n IH]; intros schema p c Hj Hc; destruct schema as [| | | | | | |s|]; try done.
  cbn [convert_at] in Hc.
  apply bind_Ok in Hc as (t & [Ht Hin]%declared_type_Ok & (c1 & H1 & (c2 & H2 & (c3 & H3 & (c4 & H4 & ([] & H5 & [= <-])%bind_Ok)%bind_Ok)%bind_Ok)%bind_Ok)%bind_Ok).
  apply refines_refined. eapply convert_by_type_refines; [|done|done|done| | |exact H4].
  - intros; by eapply IH.
  - by eapply not_unknown.
  - by eapply base_steps.
Qed.
End conversion.

(** ** Conversion fails in one way, and writes dicts as JSON has them *)

Lemma json_dset k v d : json_dicts v -> json_dicts (VDict d) -> json_dicts (VDict (dset (KStr k) v d)).
Proof.
  rewrite !json_dicts_dict. intros Hv [Hok Hd]. split; [by apply dset_ok|]. by apply dset_Forall.
Qed.
Lemma json_dget k d v : json_dicts (VDict d) -> dget k d = Some v -> json_dicts v.
Proof.
  intros [_ Hd]%json_dicts_dict Hk%dget_elem_of. rewrite Forall_forall in Hd. by apply Hd in Hk as [_ Hk].
Qed.
Lemma json_dpop k d : json_dicts (VDict d) -> json_dicts (VDict (dpop k d)).
Proof.
  rewrite !json_dicts_dict. intros [Hok Hd]. split; [by apply dpop_ok|]. rewrite Forall_forall in Hd.
  eapply Forall_impl; [apply dpop_incl|]. auto.
Qed.
Definition json_dict (d : dict) : Prop := json_dicts (VDict d).

Section errors.
Variable s : dict.
Hypothesis s_json : json_dict s.

Lemma apply_nullable_json c p : json_dict c -> converts json_dict (apply_nullable s c p).
Proof.
  intros Hc. unfold apply_nullable. destruct (get "nullable" s) as [|[]| | | | | | |]; try done.
  apply json_dset; [|done]. apply json_dicts_list. repeat constructor.
  unfold get, get_or. destruct (dget (KStr "type") c) eqn:E; [by eapply json_dget|done].
Qed.
Lemma apply_annotations_json c p : json_dict c -> converts json_dict (apply_annotations s c p).
Proof.
  intros Hc. apply converts_fold_result; [done|]. apply Forall_true. intros k d Hd. unfold apply_annotation.
  destruct (dget _ s) as [[]|]; try done. cbv zeta. destruct (is_empty _); [done|]. by apply json_dset.
Qed.
Lemma apply_enum_and_default_json c t p : json_dict c -> converts json_dict (apply_enum_and_default s c t p).
Proof using s_json.
  intros Hc. eapply (converts_bind json_dict).
  - unfold apply_enum. destruct (dget (KStr "enum") s) as [[| | | | |[|e es]| | |]|] eqn:E; try done.
    destruct (forallb _ _); [|done]. apply json_dset; [|done]. by apply (json_dget _ _ _ s_json E).
  - intros d _ Hd. unfold apply_default. destruct (dget (KStr "default") s) as [v|] eqn:E; [|done].
    destruct (negb _); [done|]. match goal with |- context [if ?b then _ else _] => destruct b end; [done|].
    apply json_dset; [by apply (json_dget _ _ _ s_json E)|done].
Qed.
Lemma copy_supported_json c ks p : json_dict c -> converts json_dict (copy_supported s c ks p).
Proof using s_json.
  intros Hc. apply converts_fold_result; [done|]. apply Forall_true. intros k d Hd. unfold copy_keyword.
  destruct (dget _ s) as [v|] eqn:E; [|done]. pose proof (json_dget _ _ _ s_json E) as Hv.
  destruct (str_in _ _); [destruct v as [| | | |[|? ?]| | | |]; try done; by apply json_dset|].
  destruct (_ && _); [by apply json_dset|done].
Qed.
Lemma apply_exclusive_bounds_json c p : json_dict c -> converts json_dict (apply_exclusive_bounds s c p).
Proof using s_json.
  intros Hc. apply converts_fold_result; [done|]. apply Forall_true. intros [b e] d Hd. unfold apply_exclusive_bound.
  assert (json_dicts (get b d)) as Hb.
  { unfold get, get_or. destruct (dget (KStr b) d) eqn:E; [by eapply json_dget|done]. }
  destruct (dget (KStr e) s) as [[|[]| | | | | | |]|]; try done; try (by apply json_dset).
  destruct (get b d); try done; (apply json_dset; [done|by apply json_dpop]).
Qed.
Lemma convert_object_json convert p :
  (forall schema p, json_dicts schema -> converts json_dict (convert schema p)) ->
  converts json_dict (convert_object convert s p).
Proof using s_json.
  intros Hconv. unfold convert_object. destruct (get "properties" s) as [| | | | | | |[|m raw]|] eqn:E; try done.
  cbv zeta. destruct (negb _); [done|].
  assert (json_dicts (VDict (m :: raw))) as Hraw.
  { unfold get, get_or in E. destruct (dget (KStr "properties") s) eqn:E'; [|done]. subst. by eapply json_dget. }
  apply json_dicts_dict in Hraw as [_ Hraw]. eapply (converts_bind json_dict).
  - apply converts_fold_result; [by split; [apply NoDup_nil_2|]|]. eapply Forall_impl; [exact Hraw|].
    intros [[[|a n]|k] i] [_ Hi] d Hd; try done. unfold convert_property. cbn [fst snd].
    eapply converts_bind; [by apply Hconv|]. intros c _ Hc. by apply json_dset.
  - intros props _ Hp. eapply (converts_bind (fun _ => True)).
    + unfold required_names. destruct (get_or _ _ s); try done. apply converts_fold_result; [done|].
      apply Forall_true. intros entry names _. unfold add_required. destruct entry; try done. by destruct (negb _).
    + intros names _ _. apply json_dicts_dict. split; [apply (bool_decide_unpack _); vm_compute; exact I|].
      rewrite !Forall_cons. split_and!; try done. apply json_dicts_list, Forall_map. by apply Forall_true.
Qed.
End errors.

Lemma convert_at_json n schema p : json_dicts schema -> converts json_dict (convert_at n schema p).
Proof.
  revert schema p. induction n as [|n IH]; intros schema p Hj; destruct schema as [| | | | | | |s|]; try done.
  cbn [convert_at]. eapply (converts_bind (fun _ => True)).
  { unfold declared_type_of. destruct (find_first _ _); [done|]. destruct (has _ s); [done|].
    destruct (get "type" s); try done. by destruct (str_in _ _). }
  intros t _ _. eapply converts_bind; [by apply apply_nullable_json; repeat constructor; set_solver|]. intros c1 _ H1.
  eapply converts_bind; [by apply apply_annotations_json|]. intros c2 _ H2.
  eapply converts_bind; [by apply apply_enum_and_default_json|]. intros c3 _ H3.
  eapply (converts_bind json_dict).
  - unfold convert_by_type. destruct (String.eqb t "string"); [by apply copy_supported_json|].
    destruct (str_in t _).
    { eapply converts_bind; [by apply copy_supported_json|]. intros; by apply apply_exclusive_bounds_json. }
    destruct (String.eqb t "array").
    { eapply converts_bind; [by apply copy_supported_json|]. intros c4 _ H4. unfold get, get_or.
      destruct (dget (KStr "items") s) as [i|] eqn:Ei; [|done]. pose proof (json_dget _ _ _ Hj Ei) as Hi.
      destruct i; try done; (eapply converts_bind; [by apply IH|]; intros ci _ Hci; by apply json_dset). }
    destruct (String.eqb t "object"); [|done].
    eapply converts_bind; [by apply convert_object_json|]. intros o _ Ho. unfold dupdate.
    apply json_dicts_dict in Ho as [_ Ho]. clear -H3 Ho. revert c3 H3.
    induction Ho as [|[[k|k] v] o [Hk Hv] _ IHo]; intros c3 H3; [done| |done]. cbn [foldl fst snd].
    apply IHo. by apply json_dset.
  - intros c4 _ H4. eapply (converts_bind (fun _ => True)); [|done].
    unfold reject_unknown_keywords. by destruct (unknown_keywords s t).
Qed.

(** C22. Conversion preserves meaning: it always returns, and what it does not
    refuse with a [ConversionError] means the same.  Whatever the types,
    patterns, formats, bounds and enumerations mean, an instance satisfies the
    converted Draft 2020-12 schema exactly when it satisfies the OpenAPI schema,
    nullable and the boolean exclusive bounds included, and every member of
    every object in it is a declared property.  So the converter never loosens
    a schema, and tightens it only by closing objects. *)
Theorem convert_schema_refines `{KeywordLaws} :
  forall schema pointer,
    json_dicts schema ->
    match convert_schema schema pointer with
    | Ok c => json_dict c /\
              forall v, draft_valid (VDict c) v = openapi_valid schema v && declared_only schema v
    | Err e => is_conversion_error e = true
    end.
Proof.
  intros schema pointer Hj. pose proof (convert_at_json (S MAX_SCHEMA_DEPTH) schema pointer Hj) as Hc.
  unfold convert_schema. destruct (convert_at _ _ _) as [c|e] eqn:E; [|exact Hc].
  split; [exact Hc|]. by apply (convert_at_refines (S MAX_SCHEMA_DEPTH) schema pointer).
Qed.

(** A concrete reading of the keywords for the witness: types, and bounds on integers. *)
#[export] Instance demo_keywords : Keywords := {|
  type_holds := fun t v => matches_type v t;
  keyword_holds := fun k p v =>
    match p, v with
    | VInt p, VInt v =>
        if String.eqb k "minimum" then (p <=? v)%Z else if String.eqb k "exclusiveMinimum" then (p <? v)%Z
        else if String.eqb k "maximum" then (v <=? p)%Z else if String.eqb k "exclusiveMaximum" then (v <? p)%Z
        else true
    | _, _ => true
    end |}.
#[export] Instance demo_keyword_laws : KeywordLaws.
Proof.
  constructor. intros t k p v Hv Ht Hk. cbn. destruct p, v; try done. cbn in Hv. unfold matches_type in Hv.
  unfold str_in in Ht. apply bool_decide_eq_false in Ht. rewrite !not_elem_of_cons in Ht. destruct Ht as (H1 & H2 & _).
  exfalso. rewrite (proj2 (String.eqb_neq t "integer")), (proj2 (String.eqb_neq t "number")) in Hv by done.
  by repeat case_match.
Qed.
Lemma convert_schema_refines_witness :
  let good := VDict {{ "id" ~> VInt 2; "note" ~> VNone }} in
  let bad := VDict {{ "id" ~> VInt 1 }} in
  let open := VDict {{ "id" ~> VInt 2; "other" ~> VInt 0 }} in
  map (draft_valid (VDict demo_converted_schema)) [good; bad; open] = [true; false; false] /\
  map (openapi_valid (VDict demo_source_schema)) [good; bad; open] = [true; false; true].
Proof.
  intros good bad open. split; [|vm_compute; reflexivity].
  assert (json_dicts (VDict demo_source_schema)) as Hj
    by (simpl; split_and!; try done; apply (bool_decide_unpack _); vm_compute; exact I).
  pose proof (convert_schema_refines (VDict demo_source_schema) "" Hj) as Hr.
  replace (convert_schema (VDict demo_source_schema) "") with (Ok (E:=exn) demo_converted_schema) in Hr
    by (vm_compute; reflexivity).
  destruct Hr as [_ Hr].
  cbn [map]. rewrite !Hr. vm_compute. reflexivity.
Defined.
