(* ===== verification/Adapters.v ===== *)
(** * Provider adapters

    [toollayer_contracts/adapters]: the projection of a canonical tool into the
    tool format of a provider.  A schema outside the audited subset is refused,
    one tool at a time. *)

From S2P Require Export Models SchemaConversion.

(** ** The audited subset (base.py) *)

Definition SUPPORTED_SCHEMA_KEYWORDS : list string :=
  ["$schema"; "additionalProperties"; "description"; "default"; "enum"; "exclusiveMaximum"; "exclusiveMinimum";
   "format"; "items"; "maxItems"; "maxLength"; "maximum"; "minItems"; "minLength"; "minimum"; "pattern";
   "properties"; "required"; "type"].
Definition SUPPORTED_TYPES : list string := ["array"; "boolean"; "integer"; "null"; "number"; "object"; "string"].
Definition MAX_NESTING_DEPTH : nat := 8.
Definition MAX_TOTAL_PROPERTIES : Z := 500.

Record AdapterDiagnostic := MkAdapterDiagnostic {
  ad_tool_name : string;
  ad_code : string;
  ad_message : string;
  ad_pointer : string;
}.
Record ProviderProjection := MkProjection {
  pp_provider : string;
  pp_tools : list dict;
  pp_diagnostics : list AdapterDiagnostic;
}.
Definition projection_complete (p : ProviderProjection) : bool :=
  match pp_diagnostics p with [] => true | _ => false end.

Definition property_pointer (pointer : string) (k : pykey) : string :=
  pointer +:+ "/properties/" +:+ escape_token (key_text k).
(** Every subschema with its pointer, in the order of the generator.  The fuel
    is the height of the schema, which every call lowers. *)
Definition walk_properties (walk : dict -> string -> list (string * dict)) (pointer : string) (ps : dict)
  : list (string * dict) :=
  flat_map (fun kv => match kv.2 with VDict value => walk value (property_pointer pointer kv.1) | _ => [] end) ps.
Fixpoint walk_at (fuel : nat) (schema : dict) (pointer : string) : list (string * dict) :=
  (pointer, schema) ::
  match fuel with
  | O => []
  | S fuel =>
      match get "properties" schema with
      | VDict ps => walk_properties (walk_at fuel) pointer ps
      | _ => []
      end
      ++ match get "items" schema with
         | VDict items => walk_at fuel items (pointer +:+ "/items")
         | _ => []
         end
  end.
Definition walk_schema (schema : dict) (pointer : string) : list (string * dict) :=
  walk_at (height (VDict schema)) schema pointer.

Definition pointer_depth (pointer : string) : nat := (count "/properties/" pointer + count "/items" pointer)%nat.
(** [sorted(set(subschema) - SUPPORTED_SCHEMA_KEYWORDS)]. *)
Definition unsupported_keywords (subschema : dict) : list string :=
  sorted_strs (List.filter (fun k => negb (str_in k SUPPORTED_SCHEMA_KEYWORDS)) (map key_text (dkeys subschema))).
(** One round of the loop over the subschemas; it counts the properties. *)
Definition check_subschema (total_properties : Z) (entry : string * dict) : M Z :=
  let '(pointer, subschema) := entry in
  if (MAX_NESTING_DEPTH <? pointer_depth pointer)%nat then
    raise (AdapterError "schema_nesting_limit_exceeded"
             "the input schema nests deeper than provider projection supports" pointer)
  else
    match unsupported_keywords subschema with
    | unsupported :: _ =>
        raise (AdapterError "unsupported_schema_keyword"
                 ("the input schema uses the unsupported keyword " +:+ repr_str unsupported) pointer)
    | [] =>
        let declared_type := get "type" subschema in
        if match declared_type with VNone => false | VStr t => negb (str_in t SUPPORTED_TYPES) | _ => true end then
          raise (AdapterError "unsupported_schema_type"
                   "the input schema uses a type providers cannot be given losslessly" pointer)
        else if is_the_str "object" declared_type then
          if negb (is_false (get "additionalProperties" subschema)) then
            raise (AdapterError "open_object_unsupported"
                     "open object schemas cannot be projected without weakening them" pointer)
          else
            Ok match get "properties" subschema with
               | VDict ps => (total_properties + Z.of_nat (length ps))%Z
               | _ => total_properties
               end
        else Ok total_properties
    end.
Definition assert_projectable (schema : dict) : M unit :=
  let* total_properties := fold_result check_subschema (walk_schema schema "") 0%Z in
  if (MAX_TOTAL_PROPERTIES <? total_properties)%Z then
    raise (AdapterError "schema_property_limit_exceeded"
             "the input schema declares more properties than provider projection supports" "")
  else Ok tt.

(** A [ProviderAdapter] is its identifier and its [project_tool]. *)
Record ProviderAdapter := MkAdapter {
  provider : string;
  project_tool : ToolDefinition -> M dict;
}.
Definition prepared_schema (tool : ToolDefinition) : M dict :=
  let* _ := assert_projectable (input_schema tool) in
  Ok (input_schema tool).
Definition project_one (adapter : ProviderAdapter) (state : list dict * list AdapterDiagnostic) (tool : ToolDefinition)
  : M (list dict * list AdapterDiagnostic) :=
  let '(payloads, diagnostics) := state in
  match project_tool adapter tool with
  | Ok payload => Ok (payloads ++ [payload], diagnostics)
  | Err (AdapterError code message pointer) =>
      Ok (payloads, diagnostics ++ [MkAdapterDiagnostic (tool_name tool) code message pointer])
  | Err e => Err e
  end.
Definition project (adapter : ProviderAdapter) (tools : list ToolDefinition) : M ProviderProjection :=
  let* state := fold_result (project_one adapter) tools ([], []) in
  Ok (MkProjection (provider adapter) state.1 state.2).

(** ** The Anthropic format (anthropic_adapter.py) *)

Definition anthropic_project_tool (tool : ToolDefinition) : M dict :=
  let* schema := prepared_schema tool in
  Ok {{ "name" ~> VStr (tool_name tool); "description" ~> VStr (description tool); "input_schema" ~> VDict schema }}.
Definition AnthropicToolAdapter : ProviderAdapter := MkAdapter "anthropic" anthropic_project_tool.

(** ** The OpenAI format (openai_adapter.py) *)

Definition unsupported_shape {A} (message pointer : string) : M A :=
  raise (AdapterError "unsupported_schema_shape" message pointer).
Definition allow_null_type (schema : dict) (pointer : string) : M dict :=
  match get "type" schema with
  | VList declared =>
      Ok (if val_in (VStr "null") declared then schema
          else dset (KStr "type") (VList (declared ++ [VStr "null"])) schema)
  | VStr declared =>
      Ok (if String.eqb declared "null" then schema
          else dset (KStr "type") (VList [VStr declared; VStr "null"]) schema)
  | _ => unsupported_shape "an optional property without a declared type cannot be projected to strict mode" pointer
  end.
Definition allow_null (schema : dict) (pointer : string) : M dict :=
  let* schema := allow_null_type schema pointer in
  Ok match get "enum" schema with
     | VList enum => if val_in VNone enum then schema else dset (KStr "enum") (VList (enum ++ [VNone])) schema
     | _ => schema
     end.

Definition required_names_of (schema : dict) : list pyval :=
  match get "required" schema with VList required => required | _ => [] end.
(** The items of an array property are made strict too. *)
Definition strict_items (strictify : dict -> string -> M dict) (child : dict) (pointer : string) : M dict :=
  match get "items" child with
  | VDict items =>
      let* items := strictify items (pointer +:+ "/items") in
      Ok (dset (KStr "items") (VDict items) child)
  | _ => Ok child
  end.
Definition strict_property (strictify : dict -> string -> M dict) (required : list pyval) (pointer : string)
    (kv : pykey * pyval) : M (pykey * pyval) :=
  let child_pointer := property_pointer pointer kv.1 in
  match kv.2 with
  | VDict value =>
      let* child := strictify value child_pointer in
      let* child := strict_items strictify child child_pointer in
      let* child := if val_in (key_value kv.1) required then Ok child else allow_null child child_pointer in
      Ok (kv.1, VDict child)
  | _ => unsupported_shape "a property schema must be an object" child_pointer
  end.
(** The fuel is one more than the height of the schema. *)
Fixpoint strictify_at (fuel : nat) (schema : dict) (pointer : string) : M dict :=
  match fuel with
  | O => Err (Raised AssertionError "the schema is higher than its height")
  | S fuel =>
      if negb (is_the_str "object" (get "type" schema)) then Ok schema
      else
        match get "properties" schema with
        | VDict properties =>
            let* new_properties :=
              map_result (strict_property (strictify_at fuel) (required_names_of schema) pointer) properties in
            let result := dset (KStr "properties") (VDict new_properties) schema in
            let result := dset (KStr "required") (VList (map key_value (dkeys properties))) result in
            Ok (dset (KStr "additionalProperties") (VBool false) result)
        | _ => Ok schema
        end
  end.
Definition strictify (schema : dict) (pointer : string) : M dict :=
  strictify_at (S (height (VDict schema))) schema pointer.

Definition openai_project_tool (tool : ToolDefinition) : M dict :=
  let* schema := prepared_schema tool in
  let* projected := strictify (dpop (KStr "$schema") schema) "" in
  Ok {{ "type" ~> VStr "function";
        "function" ~> VDict {{ "name" ~> VStr (tool_name tool); "description" ~> VStr (description tool);
                               "parameters" ~> VDict projected; "strict" ~> VBool true }} }}.
Definition OpenAIToolAdapter : ProviderAdapter := MkAdapter "openai" openai_project_tool.

(** [normalize_provider_arguments]: whether a [null] is the placeholder. *)
Definition is_placeholder (properties : dict) (required : list pyval) (kv : pykey * pyval) : bool :=
  is_vnone kv.2 && negb (val_in (key_value kv.1) required) &&
  match dget kv.1 properties with
  | Some (VDict declared) =>
      negb (is_the_str "null" (get "type" declared) ||
            match get "type" declared with VList types => val_in (VStr "null") types | _ => false end)
  | _ => false
  end.
Definition normalize_provider_arguments (canonical_input_schema : dict) (arguments : pyval) : M dict :=
  match arguments with
  | VDict arguments =>
      match get "properties" canonical_input_schema with
      | VDict properties =>
          let required := required_names_of canonical_input_schema in
          if negb (forallb hashable required) then type_error "unhashable type"
          else Ok (List.filter (fun kv => negb (is_placeholder properties required kv)) arguments)
      | _ => Ok arguments
      end
  | _ => raise (AdapterError "invalid_arguments" "tool arguments must be a JSON object" "")
  end.

(** ** The registry (__init__.py) *)

Definition ADAPTERS : list (string * ProviderAdapter) :=
  [(provider OpenAIToolAdapter, OpenAIToolAdapter); (provider AnthropicToolAdapter, AnthropicToolAdapter)].
Definition SUPPORTED_PROVIDERS : list string := sorted_strs ADAPTERS.*1.
Definition get_adapter (provider : string) : M ProviderAdapter :=
  of_option (Raised KeyError ("unsupported provider: " +:+ repr_str provider)) (alookup provider ADAPTERS).

Definition demo_parameters : dict :=
  {{ "type" ~> VStr "object";
     "properties" ~> VDict {{
       "id" ~> VDict {{ "type" ~> VStr "integer"; "minimum" ~> VInt 1 }};
       "state" ~> VDict {{ "type" ~> VStr "string"; "enum" ~> strs ["open"; "closed"] }} }};
     "required" ~> strs ["id"]; "additionalProperties" ~> VBool false }}.
Example adapter_examples :
  (assert_projectable demo_parameters, strictify demo_parameters "",
   normalize_provider_arguments demo_parameters (VDict {{ "id" ~> VInt 2; "state" ~> VNone; "x" ~> VNone }}),
   assert_projectable {{ "type" ~> VStr "array"; "items" ~> VDict {{ "oneOf" ~> VList [] }} }}, SUPPORTED_PROVIDERS) =
  (Ok tt,
   Ok {{ "type" ~> VStr "object";
         "properties" ~> VDict {{
           "id" ~> VDict {{ "type" ~> VStr "integer"; "minimum" ~> VInt 1 }};
           "state" ~> VDict {{ "type" ~> strs ["string"; "null"];
                               "enum" ~> VList [VStr "open"; VStr "closed"; VNone] }} }};
         "required" ~> strs ["id"; "state"]; "additionalProperties" ~> VBool false }},
   Ok {{ "id" ~> VInt 2; "x" ~> VNone }},
   Err (AdapterError "unsupported_schema_keyword" "the input schema uses the unsupported keyword 'oneOf'" "/items"),
   ["anthropic"; "openai"]).
Proof. vm_compute. reflexivity. Qed.
