(* ===== verification/AdapterProperties.v ===== *)
(** * Properties of the provider adapters

    What the audited subset is, that one tool's failure is that tool's alone,
    and what the strict projection of a schema means. *)

From S2P Require Export Adapters SchemaSemantics.

(** ** Subschemas *)

Inductive subschema : dict -> dict -> Prop :=
  | sub_refl s : subschema s s
  | sub_property s ps k p s' :
      get "properties" s = VDict ps -> (k, VDict p) ∈ ps -> subschema p s' -> subschema s s'
  | sub_items s items s' : get "items" s = VDict items -> subschema items s' -> subschema s s'.

(** The walk yields the subschemas, all of them and nothing else. *)
Lemma walk_at_sound n s pointer p s' : (p, s') ∈ walk_at n s pointer -> subschema s s'.
Proof.
  revert s pointer. induction n as [|n IH]; intros s pointer; cbn [walk_at]; rewrite elem_of_cons.
  { intros [[= -> ->]|?%elem_of_nil]; [constructor|done]. }
  intros [[= -> ->]|[Hp|Hi]%elem_of_app]; [constructor|..].
  - destruct (get "properties" s) as [| | | | | | |ps|] eqn:E; try by apply elem_of_nil in Hp.
    apply list_elem_of_In, in_flat_map in Hp as ([k v] & Hkv%list_elem_of_In & Hv%list_elem_of_In). cbn [fst snd] in Hv.
    destruct v; try by apply elem_of_nil in Hv. by eapply sub_property; [done..|eapply IH].
  - destruct (get "items" s) as [| | | | | | |items|] eqn:E; try by apply elem_of_nil in Hi.
    by eapply sub_items; [done|eapply IH].
Qed.
Lemma walk_at_complete n s pointer s' :
  subschema s s' -> (height (VDict s) <= n)%nat -> exists p, (p, s') ∈ walk_at n s pointer.
Proof.
  intros Hs. revert n pointer. induction Hs as [s|s ps k p s' Hg Hin _ IH|s items s' Hg _ IH]; intros n pointer Hn.
  - exists pointer. destruct n; cbn [walk_at]; by left.
  - pose proof (height_property _ _ _ _ Hg Hin). destruct n as [|n]; [lia|].
    destruct (IH n (property_pointer pointer k)) as [q Hq]; [lia|]. exists q. cbn [walk_at]. right. apply elem_of_app. left.
    rewrite Hg. apply list_elem_of_In, in_flat_map. exists (k, VDict p). split; [by apply list_elem_of_In|].
    by apply list_elem_of_In.
  - pose proof (height_items _ _ Hg). destruct n as [|n]; [lia|].
    destruct (IH n (pointer +:+ "/items")) as [q Hq]; [lia|]. exists q. cbn [walk_at]. right. apply elem_of_app. right.
    by rewrite Hg.
Qed.
Lemma walk_schema_exact s s' : subschema s s' <-> exists p, (p, s') ∈ walk_schema s "".
Proof.
  split; [intros Hs; by apply walk_at_complete|]. intros [p Hp]. by eapply walk_at_sound.
Qed.

(** ** What the audit accepts *)

(** What the audit asks of a subschema, wherever it is. *)
Definition audited (s : dict) : Prop :=
  (forall k, k ∈ dkeys s -> key_text k ∈ SUPPORTED_SCHEMA_KEYWORDS) /\
  (get "type" s = VNone \/ exists t, get "type" s = VStr t /\ t ∈ SUPPORTED_TYPES) /\
  (get "type" s = VStr "object" -> get "additionalProperties" s = VBool false).
(** The properties it counts. *)
Definition object_properties (s : dict) : Z :=
  if is_the_str "object" (get "type" s) then
    match get "properties" s with VDict ps => Z.of_nat (length ps) | _ => 0%Z end
  else 0%Z.
Definition total_properties (entries : list (string * dict)) : Z :=
  fold_right (fun e n => object_properties e.2 + n)%Z 0%Z entries.

Lemma unsupported_keywords_nil s :
  unsupported_keywords s = [] <-> forall k, k ∈ dkeys s -> key_text k ∈ SUPPORTED_SCHEMA_KEYWORDS.
Proof.
  unfold unsupported_keywords. split.
  - intros E k Hk. destruct (str_in (key_text k) SUPPORTED_SCHEMA_KEYWORDS) eqn:Es; [by apply bool_decide_eq_true in Es|].
    assert (key_text k ∈ sorted_strs (List.filter (fun k => negb (str_in k SUPPORTED_SCHEMA_KEYWORDS)) (map key_text (dkeys s)))) as Hin.
    { rewrite sorted_strs_perm. apply list_elem_of_In, filter_In. split; [|by rewrite Es].
      apply in_map_iff. exists k. split; [done|]. by apply list_elem_of_In. }
    rewrite E in Hin. by apply elem_of_nil in Hin.
  - intros H. destruct (List.filter _ _) as [|t l] eqn:E; [done|]. exfalso.
    assert (In t (t :: l)) as Hin by by left. rewrite <- E in Hin.
    apply filter_In in Hin as [(k & <- & Hk%list_elem_of_In)%in_map_iff Hs].
    unfold str_in in Hs. rewrite bool_decide_eq_true_2 in Hs by (by apply H). done.
Qed.
Lemma check_subschema_spec total p s :
  match check_subschema total (p, s) with
  | Ok n => ((pointer_depth p <= MAX_NESTING_DEPTH)%nat /\ audited s) /\ n = (total + object_properties s)%Z
  | Err e => is_adapter_error e = true /\ ~ ((pointer_depth p <= MAX_NESTING_DEPTH)%nat /\ audited s)
  end.
Proof.
  unfold check_subschema, object_properties.
  destruct (Nat.ltb_spec MAX_NESTING_DEPTH (pointer_depth p)) as [Hd|Hd]; [split; [done|]; intros [? _]; lia|].
  destruct (unsupported_keywords s) as [|u us] eqn:Eu.
  2:{ split; [done|]. intros (_ & Hk & _). by apply unsupported_keywords_nil in Hk; rewrite Hk in Eu. }
  assert (forall k, k ∈ dkeys s -> key_text k ∈ SUPPORTED_SCHEMA_KEYWORDS) as Hk by (by apply unsupported_keywords_nil).
  destruct (get "type" s) as [| | | |t| | | |] eqn:Et; cbn [is_the_str py_eq];
    try (split; [done|]; intros (_ & _ & [?|(t' & ? & _)] & _); congruence).
  - split; [|lia]. split; [done|]. split_and!; [done|by left|congruence].
  - destruct (str_in t SUPPORTED_TYPES) eqn:Es; cbn [negb].
    2:{ split; [done|]. apply bool_decide_eq_false in Es. intros (_ & _ & Ht & _). destruct Ht as [?|(t0 & E0 & ?)]; [congruence|]. assert (t0 = t) as -> by congruence. done. }
    apply bool_decide_eq_true in Es. cbn. destruct (String.eqb_spec t "object") as [->|Hne].
    + destruct (get "additionalProperties" s) as [|[] | | | | | | |] eqn:Ea; cbn [is_false negb];
        try (split; [done|]; intros (_ & _ & _ & Ho); by specialize (Ho Et); congruence).
      split; [|destruct (get "properties" s); lia].
      split; [done|]. split_and!; [done| |done]. right. eauto.
    + split; [|lia]. split; [done|]. split_and!; [done|right; eauto|congruence].
Qed.
Lemma check_all_spec entries total :
  match fold_result check_subschema entries total with
  | Ok n => Forall (fun e => (pointer_depth e.1 <= MAX_NESTING_DEPTH)%nat /\ audited e.2) entries /\
            n = (total + total_properties entries)%Z
  | Err e => is_adapter_error e = true /\
             ~ Forall (fun e => (pointer_depth e.1 <= MAX_NESTING_DEPTH)%nat /\ audited e.2) entries
  end.
Proof.
  revert total. induction entries as [|[p s] entries IH]; intros total; cbn [fold_result].
  { split; [constructor|]. cbn. lia. }
  pose proof (check_subschema_spec total p s) as Hs. destruct (check_subschema total (p, s)) as [n|e]; cbn [bind].
  - destruct Hs as [Hs ->]. specialize (IH (total + object_properties s)%Z).
    destruct (fold_result _ _ _) as [n|e].
    + destruct IH as [IH ->]. split; [by constructor|]. unfold total_properties; cbn [fold_right snd]; fold (total_properties entries); lia.
    + destruct IH as [He IH]. split; [done|]. intros Hf. by inversion Hf.
  - destruct Hs as [He Hs]. split; [done|]. intros Hf. by inversion Hf.
Qed.

Lemma audit_accepts schema u : assert_projectable schema = Ok u -> forall s, subschema schema s -> audited s.
Proof.
  intros (n & E & _)%bind_Ok s [p Hp]%walk_schema_exact. pose proof (check_all_spec (walk_schema schema "") 0) as Hs.
  rewrite E in Hs. destruct Hs as [Hf _]. rewrite Forall_forall in Hf. apply (Hf (p, s) Hp).
Qed.

(** ** What strict mode means *)

(** JSON Schema Validation, sections 6 and 7: a type looks at the kind of a
    value; apart from [enum], a keyword constrains one kind of value, and of an
    array its length; [null] is of the type "null" alone, and equal to [null]. *)
Definition same_shape (v w : pyval) : Prop :=
  match v, w with
  | VDict _, VDict _ => True
  | VList l, VList l' => length l = length l'
  | _, _ => v = w
  end.
Definition SCALAR_TYPES : list string := ["string"; "boolean"; "integer"; "number"].
Definition is_container (v : pyval) : bool := match v with VDict _ | VList _ => true | _ => false end.
Class ShapeLaws `{Keywords} := {
  type_shape t v w : same_shape v w -> type_holds t v = type_holds t w;
  keyword_shape k p v w : k <> "enum" -> same_shape v w -> keyword_holds k p v = keyword_holds k p w;
  scalar_type t v : t ∈ SCALAR_TYPES -> type_holds t v = true -> is_container v = false;
  null_type v : type_holds "null" v = is_vnone v;
  keyword_null k p : k <> "enum" -> keyword_holds k p VNone = true;
  enum_null l v : keyword_holds "enum" (VList (l ++ [VNone])) v = keyword_holds "enum" (VList l) v || is_vnone v;
  enum_has_null l : val_in VNone l = true -> keyword_holds "enum" (VList l) VNone = true;
}.

(** The properties strict mode makes required: those of an object schema. *)
Definition strict_properties (s : dict) : option dict :=
  if is_the_str "object" (get "type" s) then match get "properties" s with VDict ps => Some ps | _ => None end else None.
(** A [null] that stands for an absent optional argument. *)
Definition absent (s : dict) (kv : pykey * pyval) : bool :=
  match strict_properties s with
  | Some ps => is_placeholder ps (required_names_of s) kv
  | None => false
  end.
Definition subschema_at (s : dict) (k : pykey) : option dict :=
  match strict_properties s with
  | Some ps => match dget k ps with Some (VDict p) => Some p | _ => None end
  | None => None
  end.
Definition items_at (s : dict) : option dict := match get "items" s with VDict items => Some items | _ => None end.
(** The arguments a strict object stands for, at every level strict mode reaches. *)
Fixpoint prune (s : dict) (v : pyval) {struct v} : pyval :=
  match v with
  | VDict d =>
      VDict (flat_map (fun kv =>
        if absent s kv then []
        else [match kv with
              | (k, w) => (k, match subschema_at s k with
                              | Some p => match w, items_at p with
                                          | VList l, Some items => VList (map (prune items) l)
                                          | _, _ => prune p w
                                          end
                              | None => w
                              end)
              end]) d)
  | _ => v
  end.
Definition names_present (ks : list pykey) (d : dict) : bool :=
  forallb (fun k => match k with KStr r => has r d | KOther _ => true end) ks.
(** Every declared property is there, at every level strict mode reaches. *)
Fixpoint all_present (s : dict) (v : pyval) {struct v} : bool :=
  match v with
  | VDict d =>
      match strict_properties s with
      | Some ps => names_present (dkeys ps) d
      | None => true
      end &&
      forallb (fun kv =>
        match kv with
        | (k, w) => match subschema_at s k with
                    | Some p => match w, items_at p with
                                | VList l, Some items => forallb (all_present items) l
                                | _, _ => all_present p w
                                end
                    | None => true
                    end
        end) d
  | _ => true
  end.
(** The same for the value of a property. *)
Definition prune_child (p : dict) (w : pyval) : pyval :=
  match w, items_at p with VList l, Some items => VList (map (prune items) l) | _, _ => prune p w end.
Definition present_child (p : dict) (w : pyval) : bool :=
  match w, items_at p with VList l, Some items => forallb (all_present items) l | _, _ => all_present p w end.
Definition prune_member (s : dict) (kv : pykey * pyval) : pykey * pyval :=
  (kv.1, match subschema_at s kv.1 with Some p => prune_child p kv.2 | None => kv.2 end).
Lemma prune_dict s d :
  prune s (VDict d) = VDict (flat_map (fun kv => if absent s kv then [] else [prune_member s kv]) d).
Proof. cbn [prune]. f_equal. apply flat_map_ext. by intros [k w]. Qed.
Lemma all_present_dict s d :
  all_present s (VDict d) =
  match strict_properties s with
  | Some ps => names_present (dkeys ps) d
  | None => true
  end && forallb (fun kv => match subschema_at s kv.1 with Some p => present_child p kv.2 | None => true end) d.
Proof. cbn [all_present]. f_equal. apply forallb_same. by intros [k w] _. Qed.

(** Enumerations are of scalars, and required names are declared. *)
Definition regular (s : dict) : bool :=
  match dget (KStr "enum") s with
  | None => true
  | Some (VList _) => match get "type" s with VStr t => str_in t SCALAR_TYPES | _ => false end
  | Some _ => false
  end &&
  match get "properties" s with
  | VDict ps => forallb (fun r => match r with VStr r => has r ps | _ => true end) (required_names_of s)
  | _ => true
  end.

Lemma prune_shape s v : same_shape (prune s v) v.
Proof. by destruct v. Qed.
Lemma prune_child_shape p w : same_shape (prune_child p w) w.
Proof.
  unfold prune_child. destruct w as [| | | | |l| | |]; try apply prune_shape.
  destruct (items_at p); [|apply prune_shape]. cbn. by rewrite length_map.
Qed.
Lemma prune_not_strict s v : strict_properties s = None -> prune s v = v /\ all_present s v = true.
Proof.
  intros E. assert (forall k, subschema_at s k = None) as Es by (intros k; unfold subschema_at; by rewrite E).
  destruct v as [| | | | | | |d|]; try done. rewrite prune_dict, all_present_dict, E. split.
  - f_equal. induction d as [|[k w] d IH]; [done|]. cbn [flat_map]. unfold absent at 1, prune_member at 1.
    rewrite E, Es. cbn [fst snd app]. by rewrite IH.
  - apply forallb_Forall, Forall_forall. intros kv _. by rewrite Es.
Qed.

(** Shape decides everything but the enumeration. *)
Section strict.
Context `{ShapeLaws}.

Lemma draft_type_shape s v w : same_shape v w -> draft_type s v = draft_type s w.
Proof.
  intros Hs. unfold draft_type. destruct (get "type" s); try done; [by apply type_shape|].
  induction l as [|[] l IH]; cbn [existsb]; try done. by rewrite IH, (type_shape _ v w).
Qed.
Lemma assertion_shape s k v w : k <> "enum" -> same_shape v w -> assertion s v k = assertion s w k.
Proof. intros Hk Hs. unfold assertion. destruct (dget _ s); [|done]. by apply keyword_shape. Qed.
Lemma assertion_null s k : k <> "enum" -> assertion s VNone k = true.
Proof. intros Hk. unfold assertion. destruct (dget _ s); [|done]. by apply keyword_null. Qed.
Definition flat_valid (s : dict) (v : pyval) : bool :=
  draft_type s v && forallb (assertion s v) UNBOUNDED_KEYWORDS && forallb (draft_bounds s v) BOUNDS.
Lemma draft_valid_false v : draft_valid (VBool false) v = false.
Proof. by destruct v. Qed.
Definition member_valid (s : dict) (kv : pykey * pyval) : bool :=
  match property_schema s kv.1, dget (KStr "additionalProperties") s with
  | Some p, _ | None, Some p => draft_valid p kv.2
  | None, None => true
  end.
Lemma draft_valid_VDict s v :
  draft_valid (VDict s) v =
  flat_valid s v &&
  match v with
  | VList l => match dget (KStr "items") s with Some items => forallb (fun w => draft_valid items w) l | None => true end
  | VDict d => required_present s d && forallb (member_valid s) d
  | _ => true
  end.
Proof. by destruct v. Qed.
(** The keywords [flat_valid] looks at. *)
Definition FLAT_KEYS : list string := "type" :: UNBOUNDED_KEYWORDS ++ map fst BOUNDS ++ map snd BOUNDS.
Lemma flat_valid_agree s c v :
  (forall k, k ∈ FLAT_KEYS -> dget (KStr k) c = dget (KStr k) s) -> flat_valid c v = flat_valid s v.
Proof.
  intros Ha. unfold flat_valid, draft_type, get, get_or. rewrite (Ha "type") by (by left).
  assert (forallb (assertion c v) UNBOUNDED_KEYWORDS = forallb (assertion s v) UNBOUNDED_KEYWORDS) as ->.
  { apply forallb_same. intros k Hk. unfold assertion. rewrite (Ha k); [done|]. right. apply elem_of_app. by left. }
  assert (forallb (draft_bounds c v) BOUNDS = forallb (draft_bounds s v) BOUNDS) as ->; [|done].
  apply forallb_same. intros names Hn%list_elem_of_In. unfold draft_bounds, assertion. rewrite !Ha; [done|..];
    right; apply elem_of_app; right; apply elem_of_app; [right|left]; by apply list_elem_of_In, in_map.
Qed.
Lemma regular_enum s : regular s = true ->
  dget (KStr "enum") s = None \/ exists l t, dget (KStr "enum") s = Some (VList l) /\ get "type" s = VStr t /\ t ∈ SCALAR_TYPES.
Proof.
  intros [He _]%andb_true_iff. destruct (dget (KStr "enum") s) as [[]|]; try done; [|by left].
  right. destruct (get "type" s) as [| | | |t| | | |]; try done. apply bool_decide_eq_true in He. eauto.
Qed.
Lemma flat_valid_shape s v w : regular s = true -> same_shape v w -> flat_valid s v = flat_valid s w.
Proof.
  intros [He|(l & t & He & Et & Ht)]%regular_enum Hs.
  - unfold flat_valid. rewrite (draft_type_shape s v w) by done.
    assert (forallb (assertion s v) UNBOUNDED_KEYWORDS = forallb (assertion s w) UNBOUNDED_KEYWORDS) as ->.
    { apply forallb_same. intros k Hk. destruct (decide (k = "enum")) as [->|Hne]; [unfold assertion; by rewrite He|].
      by apply assertion_shape. }
    assert (forallb (draft_bounds s v) BOUNDS = forallb (draft_bounds s w) BOUNDS) as ->; [|done].
    apply forallb_same. intros [a b] Hab. unfold draft_bounds. cbn [fst snd].
    assert (a <> "enum" /\ b <> "enum") as [Ha Hb] by (unfold BOUNDS in Hab; rewrite !elem_of_cons in Hab;
      destruct Hab as [[= -> ->]|[[= -> ->]|?%elem_of_nil]]; by split).
    by rewrite (assertion_shape s a v w), (assertion_shape s b v w).
  - assert (forall u, is_container u = true -> flat_valid s u = false) as Hc.
    { intros u Hu. unfold flat_valid, draft_type. rewrite Et. destruct (type_holds t u) eqn:E; [|done].
      apply scalar_type in E; [congruence|done]. }
    destruct v, w; cbn in Hs; try congruence; rewrite !Hc; done.
Qed.

(** *** Admitting null *)

Lemma flat_valid_split s v :
  flat_valid s v = draft_type s v && assertion s v "enum" && (forallb (assertion s v) (tl UNBOUNDED_KEYWORDS) && forallb (draft_bounds s v) BOUNDS).
Proof. unfold flat_valid, UNBOUNDED_KEYWORDS. cbn [forallb tl]. by rewrite !andb_assoc. Qed.
Lemma flat_rest_null s :
  forallb (assertion s VNone) (tl UNBOUNDED_KEYWORDS) && forallb (draft_bounds s VNone) BOUNDS = true.
Proof. unfold UNBOUNDED_KEYWORDS, BOUNDS, draft_bounds. cbn [forallb tl fst snd]. by rewrite !assertion_null by done. Qed.
Lemma allow_null_type_spec c c' pointer v :
  allow_null_type c pointer = Ok c' ->
  draft_type c' v = draft_type c v || is_vnone v /\ forall k, k <> "type" -> dget (KStr k) c' = dget (KStr k) c.
Proof.
  assert (forall t, (forall k, k <> "type" -> dget (KStr k) (dset (KStr "type") t c) = dget (KStr k) c)) as Hk.
  { intros t k Hk. rewrite dget_dset, bool_decide_eq_false_2; congruence. }
  assert (forall t, get "type" (dset (KStr "type") t c) = t) as Hg.
  { intros t. unfold get, get_or. by rewrite dget_dset, bool_decide_eq_true_2. }
  unfold allow_null_type. destruct (get "type" c) as [| | | |t|ts| | |] eqn:Et; try done; intros [= <-].
  - destruct (String.eqb_spec t "null") as [->|Hne].
    + split; [|done]. unfold draft_type. rewrite Et. rewrite null_type. by destruct (is_vnone v).
    + split; [|apply Hk]. unfold draft_type. rewrite Hg, Et. cbn [existsb]. by rewrite null_type, orb_false_r.
  - destruct (val_in (VStr "null") ts) eqn:Ein.
    + split; [|done]. unfold draft_type. rewrite Et. destruct v; rewrite ?orb_false_r; try done.
      rewrite orb_true_r. apply existsb_exists in Ein as (x & Hx & Heq). apply existsb_exists. exists x. split; [done|].
      destruct x; try done. change (String.eqb "null" s = true) in Heq. apply String.eqb_eq in Heq as <-. by rewrite null_type.
    + split; [|apply Hk]. unfold draft_type. rewrite Hg, Et, existsb_app. cbn [existsb]. by rewrite null_type, orb_false_r.
Qed.
Lemma allow_null_valid c c' pointer :
  (match dget (KStr "enum") c with None | Some (VList _) => True | _ => False end) ->
  allow_null c pointer = Ok c' ->
  (forall v, draft_valid (VDict c') v = draft_valid (VDict c) v || is_vnone v).
Proof.
  intros He (c1 & H1 & [= H2])%bind_Ok v. destruct (allow_null_type_spec _ _ _ v H1) as [Ht Hk].
  assert (assertion c' v "enum" = assertion c v "enum" || is_vnone v /\ draft_type c' v = draft_type c1 v /\
          forall k, k <> "type" -> k <> "enum" -> dget (KStr k) c' = dget (KStr k) c) as (Hen & Ht' & Hk').
  { revert H2. unfold get, get_or. unfold assertion. rewrite (Hk "enum") by done.
    destruct (dget (KStr "enum") c) as [[| | | | |l| | |]|] eqn:Ee; try done.
    - destruct (val_in VNone l) eqn:Ein; intros <-.
      + rewrite Hk, Ee by done. split_and!; [|done|by intros; apply Hk].
        destruct v; rewrite ?orb_false_r; try done. by rewrite enum_has_null.
      + rewrite dget_dset, bool_decide_eq_true_2 by done. split_and!; [apply enum_null| |].
        * unfold draft_type, get, get_or. by rewrite dget_dset, bool_decide_eq_false_2.
        * intros k ??. rewrite dget_dset, bool_decide_eq_false_2 by congruence. by apply Hk.
    - intros <-. rewrite Hk, Ee by done. split_and!; [done|done|by intros; apply Hk]. }
  rewrite !draft_valid_VDict, !flat_valid_split, Hen, Ht', Ht.
  assert (forall k, k ∉ ["type"; "enum"] -> assertion c' v k = assertion c v k) as Ha.
  { intros k Hin. unfold assertion. rewrite Hk'; [done|..]; intros ->; apply Hin; decide_in. }
  assert (forallb (assertion c' v) (tl UNBOUNDED_KEYWORDS) && forallb (draft_bounds c' v) BOUNDS =
          forallb (assertion c v) (tl UNBOUNDED_KEYWORDS) && forallb (draft_bounds c v) BOUNDS) as ->.
  { unfold UNBOUNDED_KEYWORDS, BOUNDS, draft_bounds. cbn [forallb tl fst snd]. by rewrite !Ha by decide_in. }
  unfold member_valid, property_schema, required_present. rewrite !Hk' by done.
  destruct v; cbn [is_vnone]; rewrite ?orb_false_r; try done. by rewrite !orb_true_r, flat_rest_null.
Qed.

(** *** The strict schema *)

Lemma strictify_frame n s pointer c k :
  strictify_at n s pointer = Ok c -> k ∉ ["properties"; "required"; "additionalProperties"] ->
  dget (KStr k) c = dget (KStr k) s.
Proof.
  destruct n as [|n]; [done|]. cbn [strictify_at]. destruct (negb _); [by intros [= <-]|].
  destruct (get "properties" s); try by intros [= <-]. intros (new & _ & [= <-])%bind_Ok Hk.
  rewrite !not_elem_of_cons in Hk. destruct Hk as (H1 & H2 & H3 & _).
  by rewrite !dget_dset, !bool_decide_eq_false_2 by congruence.
Qed.
Lemma strictify_flat n s pointer c v :
  strictify_at n s pointer = Ok c -> flat_valid c v = flat_valid s v.
Proof.
  intros Hc. apply flat_valid_agree. intros k Hk. apply (strictify_frame n s pointer); [done|].
  unfold FLAT_KEYS, UNBOUNDED_KEYWORDS, BOUNDS in Hk. cbn [app map fst snd] in Hk. rewrite !elem_of_cons in Hk.
  repeat destruct Hk as [->|Hk]; try decide_in. by apply elem_of_nil in Hk.
Qed.

(** What [strict_items] adds to a property. *)
Definition stands_for (s c : dict) : Prop :=
  forall v, draft_valid (VDict c) v = all_present s v && draft_valid (VDict s) (prune s v).
Lemma forallb_map {A B} (f : A -> B) (p : B -> bool) l : forallb p (map f l) = forallb (fun a => p (f a)) l.
Proof. induction l as [|a l IH]; [done|]. cbn [map forallb]. by rewrite IH. Qed.
Lemma strict_items_spec n p pointer child c :
  regular p = true -> strictify_at n p pointer = Ok child -> stands_for p child ->
  (forall items pointer c', items_at p = Some items -> strictify_at n items pointer = Ok c' -> stands_for items c') ->
  strict_items (strictify_at n) child pointer = Ok c ->
  forall w, draft_valid (VDict c) w = present_child p w && draft_valid (VDict p) (prune_child p w).
Proof.
  intros Hr Hchild Hs Hi Hc w. unfold strict_items in Hc.
  assert (get "items" child = get "items" p) as Hg.
  { unfold get, get_or. by rewrite (strictify_frame n p pointer child "items" Hchild) by decide_in. }
  rewrite Hg in Hc. unfold present_child, prune_child. unfold items_at in *.
  destruct (get "items" p) as [| | | | | | |items|] eqn:Ei; try (injection Hc as <-; rewrite Hs; by destruct w).
  apply bind_Ok in Hc as (c' & Hc' & [= <-]). specialize (Hi items _ _ eq_refl Hc').
  assert (dget (KStr "items") p = Some (VDict items)) as Hd by (by apply (get_Some _ _ _ Ei)).
  assert (flat_valid (dset (KStr "items") (VDict c') child) w = flat_valid child w) as Hf.
  { apply flat_valid_agree. intros k Hk. rewrite dget_dset, bool_decide_eq_false_2; [done|]. intros [= ->].
    revert Hk. decide_in. }
  destruct w as [| | | | |l| |d|].
  6:{ rewrite !draft_valid_VDict, Hf, (strictify_flat n p pointer) by done.
      rewrite dget_dset, bool_decide_eq_true_2, Hd by done.
      rewrite (flat_valid_shape p (VList (map (prune items) l)) (VList l)) by (try done; cbn; by rewrite length_map).
      rewrite forallb_map, (forallb_same (draft_valid (VDict c')) (fun w => all_present items w && draft_valid (VDict items) (prune items w)))
        by (intros; apply Hi).
      rewrite <- forallb_andb. by destruct (flat_valid p (VList l)), (forallb (all_present items) l). }
  all: rewrite <- Hs, !draft_valid_VDict, Hf; try done.
  f_equal. unfold required_present, member_valid, property_schema. by rewrite !dget_dset, !bool_decide_eq_false_2 by done.
Qed.

(** A property of the strict schema, and how it was made. *)
Lemma strict_property_spec n s pointer kv kv' :
  strict_property (strictify_at n) (required_names_of s) pointer kv = Ok kv' ->
  exists p child c c', kv.2 = VDict p /\ kv' = (kv.1, VDict c') /\
    strictify_at n p (property_pointer pointer kv.1) = Ok child /\
    strict_items (strictify_at n) child (property_pointer pointer kv.1) = Ok c /\
    (if val_in (key_value kv.1) (required_names_of s) then c' = c
     else allow_null c (property_pointer pointer kv.1) = Ok c').
Proof.
  unfold strict_property. destruct kv as [k w]. cbn [fst snd]. destruct w as [| | | | | | |p|]; try done.
  intros (child & Hchild & H1)%bind_Ok. apply bind_Ok in H1 as (c & Hc & H1). apply bind_Ok in H1 as (c' & Hc' & [= <-]).
  exists p, child, c, c'. split_and!; try done. destruct (val_in _ _); [by injection Hc'|done].
Qed.
Lemma strict_items_enum n p pointer child c :
  strictify_at n p pointer = Ok child -> strict_items (strictify_at n) child pointer = Ok c ->
  dget (KStr "enum") c = dget (KStr "enum") p /\ get "type" c = get "type" p.
Proof.
  intros Hchild Hc.
  assert (dget (KStr "enum") c = dget (KStr "enum") child /\ get "type" c = get "type" child) as [-> ->].
  { unfold strict_items in Hc. destruct (get "items" child); try (by injection Hc as <-).
    apply bind_Ok in Hc as (c' & _ & [= <-]). unfold get, get_or. by rewrite !dget_dset, !bool_decide_eq_false_2. }
  unfold get, get_or. by rewrite !(strictify_frame n p pointer child) by (done || decide_in).
Qed.

Section step.
Variables (n : nat) (s ps : dict) (pointer : string).
Hypothesis IH : forall s pointer c, strictify_at n s pointer = Ok c ->
  (forall s', subschema s s' -> audited s' /\ regular s' = true) -> stands_for s c.
Hypothesis good : forall s', subschema s s' -> audited s' /\ regular s' = true.
Hypothesis strict_s : strict_properties s = Some ps.

Lemma strict_get : get "type" s = VStr "object" /\ get "properties" s = VDict ps.
Proof.
  clear IH good. unfold strict_properties in strict_s. destruct (is_the_str _ _) eqn:E; [|done]. apply py_eq_str in E.
  split; [done|]. destruct (get "properties" s); congruence.
Qed.
Lemma strict_additional : dget (KStr "additionalProperties") s = Some (VBool false).
Proof.
  destruct strict_get as [Ht _]. destruct (good s (sub_refl s)) as [(_ & _ & Ha) _]. by apply get_Some; [apply Ha|].
Qed.
(** A member of a strict object is what its declaration allows, or absent. *)
Lemma strict_member new k w :
  map_result (strict_property (strictify_at n) (required_names_of s) pointer) ps = Ok new ->
  match dget k new with Some c => draft_valid c w | None => false end =
  match subschema_at s k with Some p => present_child p w | None => true end &&
  (if absent s (k, w) then true
   else match dget k ps with Some p => draft_valid p (prune_member s (k, w)).2 | None => false end).
Proof.
  intros Hnew%map_result_Ok. unfold subschema_at, absent, prune_member, is_placeholder. cbn [fst snd].
  unfold subschema_at. rewrite strict_s.
  assert (forall q, dget k ps = Some q -> (k, q) ∈ ps) as Hin by (intros q; apply dget_elem_of).
  assert (match dget k ps with
          | Some v => exists kv', strict_property (strictify_at n) (required_names_of s) pointer (k, v) = Ok kv' /\ dget k new = Some kv'.2
          | None => dget k new = None end) as Hk.
  { clear -Hnew. induction Hnew as [|[k0 v0] [k1 v1] l l' Hp _ IHl]; [done|].
    destruct (strict_property_spec _ _ _ _ _ Hp) as (? & ? & ? & ? & _ & [= -> _] & _). cbn [dget fst].
    case_bool_decide as E; [subst; eauto|exact IHl]. }
  destruct (dget k ps) as [v|]; [|rewrite Hk; by rewrite andb_false_r].
  destruct Hk as (kv' & Hp & ->).
  destruct (strict_property_spec _ _ _ _ _ Hp) as (p & child & c & c' & Hv & -> & Hchild & Hc & Hc'). cbn [fst snd] in *. subst v.
  destruct strict_get as [_ Hgp]. specialize (Hin _ eq_refl).
  assert (forall s', subschema p s' -> audited s' /\ regular s' = true) as Hgood by (intros; apply good; by eapply sub_property).
  destruct (Hgood p (sub_refl p)) as [(_ & Htype & _) Hreg].
  assert (forall v, draft_valid (VDict c) v = present_child p v && draft_valid (VDict p) (prune_child p v)) as Hcv.
  { apply (strict_items_spec n p (property_pointer pointer k) child c); try done; [by eapply IH|].
    intros items ? c1 Hi Hc1. eapply IH; [exact Hc1|]. intros s' Hs'. apply Hgood.
    unfold items_at in Hi. destruct (get "items" p) eqn:E; try done. injection Hi as <-. by eapply sub_items. }
  destruct (strict_items_enum _ _ _ _ _ Hchild Hc) as [Hen Hty].
  destruct (val_in (key_value k) (required_names_of s)); [subst c'; by rewrite Hcv, andb_false_r|].
  rewrite (allow_null_valid c c' (property_pointer pointer k)); [|rewrite Hen|done].
  2:{ by destruct (regular_enum p Hreg) as [->|(l & t & -> & _)]. }
  rewrite Hcv. destruct w; cbn [is_vnone]; rewrite ?orb_false_r; try done.
  rewrite orb_true_r. cbn [negb andb present_child all_present]. unfold prune_child. cbn [prune].
  destruct Htype as [Ht|(t & Ht & _)].
  { exfalso. apply bind_Ok in Hc' as (c1 & Hc1 & _). unfold allow_null_type in Hc1. by rewrite Hty, Ht in Hc1. }
  rewrite Ht. rewrite orb_false_r. destruct (is_the_str "null" (VStr t)) eqn:En; [|done]. cbn [negb].
  apply py_eq_str in En as [= ->]. symmetry. rewrite draft_valid_VDict, flat_valid_split, flat_rest_null.
  unfold draft_type. rewrite Ht, null_type. cbn [is_vnone andb].
  destruct (regular_enum p Hreg) as [E|(l & t & _ & Et & Ht')].
  - unfold assertion. by rewrite E.
  - exfalso. assert (t = "null") as -> by congruence. revert Ht'. decide_in.
Qed.
End step.

Lemma forallb_flat_map {A B} (keep : A -> bool) (f : A -> B) (p : B -> bool) l :
  forallb p (flat_map (fun a => if keep a then [] else [f a]) l) = forallb (fun a => if keep a then true else p (f a)) l.
Proof.
  induction l as [|a l IH]; [done|]. cbn [flat_map forallb]. rewrite <- IH. destruct (keep a); [done|]. cbn. done.
Qed.
(** A required argument is never taken for absent. *)
Lemma pruned_required s d r :
  VStr r ∈ required_names_of s ->
  has r (flat_map (fun kv => if absent s kv then [] else [prune_member s kv]) d) = has r d.
Proof.
  intros Hr. unfold has. f_equal. induction d as [|[k w] d IHd]; [done|]. cbn [flat_map].
  destruct (absent s (k, w)) eqn:Ea.
  - cbn [app dget]. rewrite bool_decide_eq_false_2; [done|]. intros <-. unfold absent in Ea.
    destruct (strict_properties s) as [ps|]; [|done]. unfold is_placeholder in Ea. cbn [fst snd key_value] in Ea.
    apply andb_true_iff in Ea as [[_ Hn]%andb_true_iff _]. apply negb_true_iff in Hn.
    assert (val_in (VStr r) (required_names_of s) = true); [|congruence].
    apply existsb_exists. exists (VStr r). split; [by apply list_elem_of_In|]. by apply py_eq_str.
  - cbn [app dget prune_member fst]. by case_bool_decide.
Qed.
Lemma pruned_required_present s ps d :
  regular s = true -> strict_properties s = Some ps -> names_present (dkeys ps) d = true ->
  required_present s (flat_map (fun kv => if absent s kv then [] else [prune_member s kv]) d) = true.
Proof.
  intros [_ Hreg]%andb_true_iff Hs Hd. unfold required_present.
  destruct (dget (KStr "required") s) as [[| | | | |l| | |]|] eqn:E; try done.
  assert (required_names_of s = l) as El by (unfold required_names_of, get, get_or; by rewrite E).
  assert (get "properties" s = VDict ps) as Hp.
  { unfold strict_properties in Hs. destruct (is_the_str _ _); [|done]. destruct (get "properties" s); congruence. }
  rewrite Hp, El in Hreg. apply forallb_forall. intros r Hr. destruct r as [| | | |r| | | |]; try done.
  rewrite pruned_required by (rewrite El; by apply list_elem_of_In).
  rewrite forallb_forall in Hreg. specialize (Hreg _ Hr). apply has_true in Hreg.
  unfold names_present in Hd. rewrite forallb_forall in Hd. apply (Hd (KStr r)). by apply list_elem_of_In.
Qed.

Lemma strictify_at_spec n s pointer c :
  strictify_at n s pointer = Ok c -> (forall s', subschema s s' -> audited s' /\ regular s' = true) -> stands_for s c.
Proof.
  revert s pointer c. induction n as [|n IH]; intros s pointer c Hc Hgood; [done|].
  destruct (strict_properties s) as [ps|] eqn:Es.
  2:{ assert (c = s) as ->.
      { cbn [strictify_at] in Hc. unfold strict_properties in Es. destruct (is_the_str _ _); [|by injection Hc].
        cbn [negb] in Hc. destruct (get "properties" s); try done; by injection Hc. }
      intros v. destruct (prune_not_strict s v Es) as [-> ->]. done. }
  destruct (strict_get s ps Es) as [Ht Hp]. pose proof (strict_additional s ps Hgood Es) as Had.
  destruct (Hgood s (sub_refl s)) as [_ Hreg].
  intros v. pose proof (strictify_flat _ _ _ _ v Hc) as Hflat. cbn [strictify_at] in Hc. rewrite Ht, Hp in Hc.
  change (negb (is_the_str "object" (VStr "object"))) with false in Hc. cbn [negb] in Hc.
  apply bind_Ok in Hc as (new & Hnew & [= <-]).
  pose proof (fun k w => strict_member n s ps pointer IH Hgood Es new k w Hnew) as Hm.
  rewrite !draft_valid_VDict, Hflat. destruct v as [| | | | |l| |d|].
  1-7, 9: cbn [prune all_present andb]; rewrite ?dget_dset, ?bool_decide_eq_false_2 by done; done.
  rewrite prune_dict, all_present_dict, Es. cbv iota.
  rewrite (flat_valid_shape s (VDict d) (VDict (flat_map (fun kv => if absent s kv then [] else [prune_member s kv]) d))) by done.
  assert (forall c, required_present (dset (KStr "additionalProperties") (VBool false)
            (dset (KStr "required") (VList (map key_value (dkeys ps))) c)) d = names_present (dkeys ps) d) as ->.
  { intros c. unfold required_present. rewrite !dget_dset, (bool_decide_eq_false_2 (KStr "required" = _)), bool_decide_eq_true_2 by done.
    rewrite forallb_map. apply forallb_same. by intros []. }
  rewrite (forallb_same _ (fun kv : pykey * pyval =>
      match subschema_at s kv.1 with Some p => present_child p kv.2 | None => true end &&
      (if absent s kv then true
       else match dget kv.1 ps with Some p => draft_valid p (prune_member s kv).2 | None => false end)) d).
  2:{ intros [k w] _. cbn [fst snd]. rewrite <- Hm. unfold member_valid, property_schema. cbn [fst snd].
      rewrite !dget_dset, !bool_decide_eq_false_2, !bool_decide_eq_true_2 by done. destruct (dget k new); [done|apply draft_valid_false]. }
  rewrite <- forallb_andb, forallb_flat_map.
  rewrite (forallb_same (fun kv => if absent s kv then true else member_valid s (prune_member s kv)) (fun kv : pykey * pyval =>
      if absent s kv then true
      else match dget kv.1 ps with Some p => draft_valid p (prune_member s kv).2 | None => false end) d).
  2:{ intros [k w] _. destruct (absent s (k, w)); [done|]. unfold member_valid, property_schema. cbn [prune_member fst snd].
      rewrite Had. unfold get, get_or in Hp. destruct (dget (KStr "properties") s) as [[]|]; try done. injection Hp as ->.
      destruct (dget k ps); [done|apply draft_valid_false]. }
  pose proof (pruned_required_present s ps d Hreg Es) as Hr.
  destruct (names_present (dkeys ps) d); [rewrite Hr by done|by rewrite andb_false_r].
  set (M := forallb _ d). set (V := forallb _ d). clearbody M V. rewrite !andb_true_l. destruct M; cbn [andb]; [done|apply andb_false_r].
Qed.

(** *** Without the dialect marker *)

Lemma without_marker k s : dict_ok s -> k <> "$schema" -> dget (KStr k) (dpop (KStr "$schema") s) = dget (KStr k) s.
Proof. intros Hs Hk. rewrite dget_dpop, bool_decide_eq_false_2 by (done || congruence). done. Qed.
Lemma marker_stands_for s c : dict_ok s -> stands_for (dpop (KStr "$schema") s) c -> stands_for s c.
Proof.
  intros Hs Hc v. specialize (Hc v). set (s' := dpop (KStr "$schema") s) in *.
  assert (forall k, k <> "$schema" -> dget (KStr k) s' = dget (KStr k) s) as Hk by (intros; by apply without_marker).
  assert (strict_properties s' = strict_properties s) as Esp by (unfold strict_properties, get, get_or; by rewrite !Hk by done).
  assert (forall kv, absent s' kv = absent s kv) as Ea.
  { intros kv. unfold absent, required_names_of, get, get_or. by rewrite Esp, !Hk by done. }
  assert (forall k, subschema_at s' k = subschema_at s k) as Esub by (intros k; unfold subschema_at; by rewrite Esp).
  assert (forall w, draft_valid (VDict s') w = draft_valid (VDict s) w) as Ed.
  { intros w. rewrite !draft_valid_VDict. f_equal.
    - apply flat_valid_agree. intros k Hin. apply Hk. intros ->. revert Hin. decide_in.
    - unfold required_present, member_valid, property_schema. by rewrite !Hk by done. }
  rewrite Hc, Ed. destruct v as [| | | | | | |d|]; try done. rewrite !all_present_dict, !prune_dict, Esp.
  rewrite (flat_map_ext _ (fun kv => if absent s kv then [] else [prune_member s kv])) by (intros kv; by rewrite Ea; unfold prune_member; rewrite Esub).
  do 2 f_equal. apply forallb_same. intros kv _. by rewrite Esub.
Qed.
Lemma marker_good s :
  dict_ok s -> (forall s', subschema s s' -> audited s' /\ regular s' = true) ->
  forall s', subschema (dpop (KStr "$schema") s) s' -> audited s' /\ regular s' = true.
Proof.
  intros Hs Hgood. set (s0 := dpop (KStr "$schema") s).
  assert (forall k, k <> "$schema" -> dget (KStr k) s0 = dget (KStr k) s) as Hk by (intros; by apply without_marker).
  intros s' Hsub. remember s0 as s1 eqn:E1. destruct Hsub as [s1|s1 ps k p s' Hg Hin Hsub|s1 items s' Hg Hsub]; subst s1.
  - destruct (Hgood s (sub_refl s)) as [(Ha1 & Ha2 & Ha3) Hr]. unfold regular, required_names_of, get, get_or in *.
    rewrite !Hk by done. split; [|done]. unfold audited, get, get_or. rewrite !Hk by done. split_and!; try done.
    intros k Hin. apply Ha1. clear - Hin. subst s0. unfold dkeys in *. induction s as [|[k0 v0] s IH]; [done|].
    cbn [dpop] in Hin. case_bool_decide; csimpl in *; [by right|]. apply elem_of_cons in Hin as [->|Hin]; [by left|right; auto].
  - apply Hgood. eapply sub_property; [|exact Hin|exact Hsub]. revert Hg. unfold get, get_or. by rewrite Hk.
  - apply Hgood. eapply sub_items; [|exact Hsub]. revert Hg. unfold get, get_or. by rewrite Hk.
Qed.
End strict.

(** Without objects nested in the properties, the code's normalization is all
    there is to prune. *)
Definition flat (s : dict) : bool :=
  forallb is_str (required_names_of s) &&
  match strict_properties s with
  | Some ps => forallb (fun kv => match kv.2 with
                                  | VDict p => is_none (strict_properties p) &&
                                               match items_at p with Some i => is_none (strict_properties i) | None => true end
                                  | _ => true
                                  end) ps
  | None => false
  end.
Lemma flat_prune s d :
  flat s = true -> exists n, normalize_provider_arguments s (VDict d) = Ok n /\ prune s (VDict d) = VDict n.
Proof.
  intros [Hstr Hf]%andb_true_iff. rewrite prune_dict. unfold normalize_provider_arguments, absent, prune_member, subschema_at.
  destruct (strict_properties s) as [ps|] eqn:Es; [|done].
  assert (get "properties" s = VDict ps) as ->.
  { unfold strict_properties in Es. destruct (is_the_str _ _); [|done]. destruct (get "properties" s); congruence. }
  assert (forallb hashable (required_names_of s) = true) as ->.
  { rewrite forallb_forall in *. intros r Hr. specialize (Hstr _ Hr). by destruct r. }
  cbn [negb]. eexists. split; [done|]. f_equal. induction d as [|[k w] d IHd]; [done|].
  cbn [flat_map List.filter]. destruct (is_placeholder _ _ (k, w)); cbn [negb app]; [exact IHd|].
  rewrite IHd. do 2 f_equal. cbn [fst snd]. destruct (dget k ps) as [v|] eqn:Ek; [|done]. destruct v as [| | | | | | |p|]; try done.
  apply dget_elem_of, list_elem_of_In in Ek. rewrite forallb_forall in Hf. specialize (Hf _ Ek). cbn [snd] in Hf.
  apply andb_true_iff in Hf as [Hp Hi]. unfold prune_child.
  assert (strict_properties p = None) as Hp' by (by destruct (strict_properties p)).
  destruct w as [| | | | |l| | |]; try apply (prune_not_strict p _ Hp').
  destruct (items_at p) as [i|]; [|apply (prune_not_strict p _ Hp')]. f_equal.
  rewrite <- (map_id l) at 2. apply map_ext. intros w. apply prune_not_strict. by destruct (strict_properties i).
Qed.

Section projections.
Context `{ShapeLaws}.

End projections.

(** ** One tool's failure is its own *)

Lemma map_result_adapter {A B} (f : A -> M B) l :
  Forall (fun a => match f a with Ok _ => True | Err e => is_adapter_error e = true end) l ->
  match map_result f l with Ok _ => True | Err e => is_adapter_error e = true end.
Proof.
  induction 1 as [|a l Ha Hl IH]; [done|]. cbn [map_result]. destruct (f a); [|done]. cbn [bind].
  by destruct (map_result f l).
Qed.
Lemma allow_null_adapter c pointer :
  match allow_null c pointer with Ok _ => True | Err e => is_adapter_error e = true end.
Proof. unfold allow_null, allow_null_type. by destruct (get "type" c). Qed.
(** The recursion ends: the height of the schema is fuel enough. *)
Lemma strictify_at_ends n s pointer :
  (height (VDict s) < n)%nat ->
  match strictify_at n s pointer with Ok _ => True | Err e => is_adapter_error e = true end.
Proof.
  revert s pointer. induction n as [|n IH]; intros s pointer Hn; [lia|]. cbn [strictify_at].
  destruct (negb _); [done|]. destruct (get "properties" s) as [| | | | | | |ps|] eqn:Ep; try done.
  assert (match map_result (strict_property (strictify_at n) (required_names_of s) pointer) ps with
          | Ok _ => True | Err e => is_adapter_error e = true end) as Hm; [|by destruct (map_result _ _)].
  apply map_result_adapter, Forall_forall. intros [k v] Hin. unfold strict_property. cbn [fst snd].
  destruct v as [| | | | | | |p|]; try done. pose proof (height_property _ _ _ _ Ep Hin) as Hh.
  pose proof (IH p (property_pointer pointer k) ltac:(lia)) as H1.
  destruct (strictify_at n p _) as [child|e] eqn:E1; [|done]. cbn [bind].
  assert (match strict_items (strictify_at n) child (property_pointer pointer k) with
          | Ok _ => True | Err e => is_adapter_error e = true end) as H2.
  { unfold strict_items, get, get_or. rewrite (strictify_frame n p (property_pointer pointer k)) by (done || decide_in).
    pose proof (height_items p) as Hi. unfold get, get_or in Hi.
    destruct (match dget (KStr "items") p with Some v => v | None => VNone end) as [| | | | | | |items|]; try done.
    pose proof (IH items (property_pointer pointer k +:+ "/items") ltac:(specialize (Hi _ eq_refl); lia)).
    by destruct (strictify_at n items _). }
  destruct (strict_items _ _ _) as [c|e]; [|done]. cbn [bind]. destruct (val_in _ _); [done|].
  pose proof (allow_null_adapter c (property_pointer pointer k)). by destruct (allow_null _ _).
Qed.
Lemma prepared_adapter tool :
  match prepared_schema tool with Ok s => s = input_schema tool | Err e => is_adapter_error e = true end.
Proof.
  unfold prepared_schema, assert_projectable. pose proof (check_all_spec (walk_schema (input_schema tool) "") 0) as Hs.
  destruct (fold_result _ _ _) as [n|e]; cbn [bind]; [|apply Hs]. by destruct (_ <? _)%Z.
Qed.
Lemma project_tool_adapter :
  Forall (fun a => forall t, match project_tool a.2 t with Ok _ => True | Err e => is_adapter_error e = true end) ADAPTERS.
Proof.
  unfold ADAPTERS. repeat constructor; intros t; cbn [snd project_tool OpenAIToolAdapter AnthropicToolAdapter];
    unfold openai_project_tool, anthropic_project_tool; pose proof (prepared_adapter t) as Hp;
    destruct (prepared_schema t) as [s|e]; cbn [bind]; try done.
  pose proof (strictify_at_ends (S (height (VDict (dpop (KStr "$schema") s)))) (dpop (KStr "$schema") s) "" (Nat.lt_succ_diag_r _)) as Hs.
  unfold strictify. by destruct (strictify_at _ _ _).
Qed.

Definition payload_of (a : ProviderAdapter) (t : ToolDefinition) : option dict :=
  match project_tool a t with Ok p => Some p | Err _ => None end.
Definition diagnostic_of (a : ProviderAdapter) (t : ToolDefinition) : option AdapterDiagnostic :=
  match project_tool a t with
  | Err (AdapterError code message pointer) => Some (MkAdapterDiagnostic (tool_name t) code message pointer)
  | _ => None
  end.

(** Projecting a set of tools never fails: for every provider of the
    registry each tool gives its payload or its diagnostic, in the order of the
    tools, whatever the other tools are; and the payload of the Anthropic
    format carries the tool's own schema, unchanged. *)
Theorem projection_isolates :
  Forall (fun entry => forall tools,
    project entry.2 tools =
      Ok (MkProjection entry.1 (omap (payload_of entry.2) tools) (omap (diagnostic_of entry.2) tools)) /\
    (length (omap (payload_of entry.2) tools) + length (omap (diagnostic_of entry.2) tools) = length tools)%nat) ADAPTERS /\
  (forall tool payload, anthropic_project_tool tool = Ok payload ->
     get "input_schema" payload = VDict (input_schema tool)).
Proof.
  split.
  - assert (Forall (fun a => a.1 = provider a.2) ADAPTERS) as Hn by (repeat constructor).
    eapply Forall_impl; [apply Forall_and; split; [exact Hn|exact project_tool_adapter]|]. clear Hn.
    intros [name a] [-> Ha] tools. cbn [fst snd] in *. unfold project.
    enough (forall ps ds, fold_result (project_one a) tools (ps, ds) =
              Ok (ps ++ omap (payload_of a) tools, ds ++ omap (diagnostic_of a) tools) /\
            (length (omap (payload_of a) tools) + length (omap (diagnostic_of a) tools) = length tools)%nat) as H.
    { destruct (H [] []) as [-> ?]. done. }
    induction tools as [|t tools IH]; intros ps ds; [by rewrite !app_nil_r|]. cbn [fold_result omap list_omap].
    unfold project_one at 1. specialize (Ha t). destruct (project_tool a t) as [p|e] eqn:Et.
    + assert (payload_of a t = Some p /\ diagnostic_of a t = None) as [-> ->]
        by (unfold payload_of, diagnostic_of; by rewrite Et).
      cbn [bind]. destruct (IH (ps ++ [p]) ds) as [-> Hl]. rewrite <- app_assoc. split; [done|]. cbn [length]. lia.
    + destruct e as [| |code message pointer|]; try done. cbn [bind].
      assert (payload_of a t = None /\ diagnostic_of a t = Some (MkAdapterDiagnostic (tool_name t) code message pointer))
        as [-> ->] by (unfold payload_of, diagnostic_of; by rewrite Et).
      edestruct IH as [-> Hl]. rewrite <- app_assoc. split; [done|]. cbn [length]. lia.
  - intros tool payload (s & Hs & [= <-])%bind_Ok. pose proof (prepared_adapter tool) as Hp. rewrite Hs in Hp. by rewrite Hp.
Qed.

(** ** Concrete schemas *)

(** Types and enumerations as JSON Schema reads them; the other keywords hold. *)
Definition enum_keywords : Keywords := {|
  type_holds := fun t v => matches_type v t;
  keyword_holds := fun k p v =>
    match p with VList l => if String.eqb k "enum" then val_in v l else true | _ => true end |}.
Lemma enum_keyword_laws : ShapeLaws (H:=enum_keywords).
Proof.
  constructor; cbn -[matches_type].
  - intros t v w Hs. destruct v, w; cbn in Hs; try congruence; done.
  - intros k p v w Hk _. destruct p; try done. by destruct (String.eqb_spec k "enum").
  - intros t v Ht Hv. unfold SCALAR_TYPES in Ht. rewrite !elem_of_cons in Ht.
    destruct Ht as [->|[->|[->|[->|?%elem_of_nil]]]]; try done; by destruct v.
  - by intros [].
  - intros k p Hk. destruct p; try done. by destruct (String.eqb_spec k "enum").
  - intros l v. unfold val_in. rewrite existsb_app. cbn [existsb]. rewrite orb_false_r. by destruct v.
  - done.
Qed.

(** The normalization stops at the first level: an optional field of a request
    body, sent as [null] as the strict projection demands, is still there when
    the arguments are validated, and fails. *)
Definition body_tool_schema : dict :=
  {{ "type" ~> VStr "object"; "additionalProperties" ~> VBool false; "required" ~> strs ["body"];
     "properties" ~> VDict {{ "body" ~> VDict {{
       "type" ~> VStr "object"; "additionalProperties" ~> VBool false; "required" ~> VList [];
       "properties" ~> VDict {{ "note" ~> VDict {{ "type" ~> VStr "string" }} }} }} }} }}.
Lemma nested_null_survives :
  let arguments := {{ "body" ~> VDict {{ "note" ~> VNone }} }} in
  exists p, assert_projectable body_tool_schema = Ok tt /\ strictify body_tool_schema "" = Ok p /\
    draft_valid (H:=enum_keywords) (VDict p) (VDict arguments) = true /\
    normalize_provider_arguments body_tool_schema (VDict arguments) = Ok arguments /\
    draft_valid (H:=enum_keywords) (VDict body_tool_schema) (VDict arguments) = false.
Proof. eexists. split_and!; vm_compute; reflexivity. Qed.
(** A nullable property is written with two types, which the audit refuses. *)
Lemma nullable_not_projectable :
  exists m, assert_projectable {{ "type" ~> VStr "object"; "additionalProperties" ~> VBool false;
    "properties" ~> VDict {{ "note" ~> VDict {{ "type" ~> strs ["string"; "null"] }} }} }} =
    Err (AdapterError "unsupported_schema_type" m "/properties/note").
Proof. eexists. vm_compute. reflexivity. Qed.
