(* ===== verification/Converter.v ===== *)
(** * Operation conversion

    [toollayer_openapi/converter.py]: one resolved operation becomes one tool
    definition, or a [ConversionError].  Building the models and the tool's name
    can raise other errors, which are not caught there. *)

From S2P Require Export Naming SchemaConversion.

Definition SUPPORTED_METHODS : list string := ["get"; "post"; "put"; "patch"; "delete"].
Definition BODY_ARGUMENT : string := "body".
Definition JSON_MEDIA_TYPE : string := "application/json".
Definition METHOD_POLICY : list (string * (EffectClass * bool)) :=
  [("get", (EffectRead, false)); ("post", (EffectWrite, false)); ("put", (EffectWrite, false));
   ("patch", (EffectWrite, false)); ("delete", (EffectDestructive, true))].

Definition operation_key (path method : string) : string := lower method +:+ " " +:+ path.

Record Parameter_ := MkParameter {
  p_name : string;
  p_location : BindingTarget;
  p_required : bool;
  p_schema : dict;
  p_description : option string;
}.
Definition p_key (p : Parameter_) : string * BindingTarget := (p_name p, p_location p).

Definition invalid_doc {A} (m : string) : M A := raise (InvalidDocumentError m "").
Definition unsupported {A} (m : string) : M A := raise (UnsupportedFeatureError m "").

Definition reject_unsupported_operation_features (path_item operation : dict) : M unit :=
  if has "servers" path_item || has "servers" operation then
    unsupported "per-path and per-operation server overrides are not supported; the connector declares one reviewed base URL"
  else if has "callbacks" operation then unsupported "callbacks are not supported"
  else if negb (is_vnone (get "security" operation) || py_eq (get "security" operation) (VList [])) then
    unsupported "per-operation security requirements are not interpreted; authentication is a runtime concern resolved from the connector's auth profile"
  else Ok tt.

Section converter.
Context `{Platform}.

(** ** Parameters *)

Definition reject_flag (entry : dict) (name : string) (flag : string) : M unit :=
  match get_or flag (VBool false) entry with
  | VBool false => Ok tt
  | VBool true =>
      unsupported ("the parameter " +:+ repr_str name +:+ " sets " +:+ repr_str flag
                   +:+ ", which the executor does not implement")
  | _ => invalid_doc ("the parameter " +:+ repr_str name +:+ " has a non-boolean " +:+ repr_str flag)
  end.
Definition reject_unsupported_serialization (entry : dict) (name : string) (location : BindingTarget) : M unit :=
  let default_style := match location with TPath => "simple" | _ => "form" end in
  let style := get_or "style" (VStr default_style) entry in
  if negb (py_eq style (VStr default_style)) then
    unsupported ("the parameter " +:+ repr_str name +:+ " uses the serialization style " +:+ py_repr style
                 +:+ ", which the executor does not implement")
  else
    let default_explode := bool_decide (location = TQuery) in
    match get_or "explode" (VBool default_explode) entry with
    | VBool explode =>
        if negb (Bool.eqb explode default_explode) then
          unsupported ("the parameter " +:+ repr_str name +:+ " overrides 'explode', which the executor does not implement")
        else
          let* _ := reject_flag entry name "allowReserved" in
          reject_flag entry name "allowEmptyValue"
    | _ => invalid_doc ("the parameter " +:+ repr_str name +:+ " has a non-boolean 'explode'")
    end.
(** The location of a parameter, with the checks of the code's order. *)
Definition parameter_location (name : string) (location : pyval) : M BindingTarget :=
  match location with
  | VStr (String _ _ as location) =>
      if str_in location ["header"; "cookie"] then
        unsupported ("the parameter " +:+ repr_str name +:+ " is a " +:+ location
                     +:+ " parameter; header and cookie inputs are not exposed as model-supplied arguments")
      else if String.eqb location "path" then Ok TPath
      else if String.eqb location "query" then Ok TQuery
      else invalid_doc ("the parameter " +:+ repr_str name +:+ " declares an unknown location")
  | _ => invalid_doc ("the parameter " +:+ repr_str name +:+ " must declare an 'in' location")
  end.
Definition parameter_required (name : string) (location : BindingTarget) (entry : dict) : M bool :=
  match get_or "required" (VBool false) entry with
  | VBool required =>
      if bool_decide (location = TPath) && negb required then
        invalid_doc ("the path parameter " +:+ repr_str name +:+ " must declare 'required: true'")
      else Ok required
  | _ => invalid_doc ("the parameter " +:+ repr_str name +:+ " has a non-boolean 'required'")
  end.
Definition parse_parameter (entry : pyval) (source : string) : M Parameter_ :=
  match entry with
  | VDict entry =>
      if has "$ref" entry then invalid_doc "a parameter still contains a reference after resolution"
      else
        match get "name" entry with
        | VStr (String _ _ as name) =>
            let* location := parameter_location name (get "in" entry) in
            let* required := parameter_required name location entry in
            let* _ := reject_unsupported_serialization entry name location in
            if has "content" entry then
              unsupported ("the parameter " +:+ repr_str name +:+ " uses a media-type-encoded value, which is not supported")
            else
              match get "schema" entry with
              | VDict schema =>
                  match get "description" entry with
                  | VNone => Ok (MkParameter name location required schema None)
                  | VStr d => Ok (MkParameter name location required schema (Some (strip d)))
                  | _ => invalid_doc ("the parameter " +:+ repr_str name +:+ " has a non-string description")
                  end
              | _ => invalid_doc ("the parameter " +:+ repr_str name +:+ " must declare a schema object")
              end
        | _ => invalid_doc "a parameter must declare a non-empty name"
        end
  | _ => invalid_doc (source +:+ " parameter entries must be objects")
  end.

(** [merged[key] = parameter]. *)
Fixpoint put_parameter (p : Parameter_) (merged : list Parameter_) : list Parameter_ :=
  match merged with
  | [] => [p]
  | q :: merged => if bool_decide (p_key q = p_key p) then p :: merged else q :: put_parameter p merged
  end.
Definition add_parameter (source : string) (state : list (string * BindingTarget) * list Parameter_) (entry : pyval)
  : M (list (string * BindingTarget) * list Parameter_) :=
  let '(seen_in_source, merged) := state in
  let* parameter := parse_parameter entry source in
  if bool_decide (p_key parameter ∈ seen_in_source) then
    invalid_doc ("the " +:+ source +:+ " declares the parameter " +:+ repr_str (p_name parameter) +:+ " twice")
  else Ok (p_key parameter :: seen_in_source, put_parameter parameter merged).
Definition collect_source (source : string) (raw : pyval) (merged : list Parameter_) : M (list Parameter_) :=
  match raw with
  | VNone => Ok merged
  | VList entries => let* state := fold_result (add_parameter source) entries ([], merged) in Ok state.2
  | _ => invalid_doc (source +:+ " 'parameters' must be an array")
  end.
Definition collect_parameters (path_item operation : dict) : M (list Parameter_) :=
  let* merged := collect_source "path item" (get "parameters" path_item) [] in
  collect_source "operation" (get "parameters" operation) merged.

(** ** Placeholders *)

(** The loop over the characters; [None] is [depth == 0], [Some current] an open
    placeholder, its characters in reverse. *)
Fixpoint placeholders_of (current : option string) (path : string) : M (list string) :=
  match path with
  | "" =>
      match current with
      | None => Ok []
      | Some _ => invalid_doc "the path contains an unterminated placeholder"
      end
  | String c path =>
      if Ascii.eqb c "{" then
        match current with
        | Some _ => invalid_doc "the path contains a nested placeholder"
        | None => placeholders_of (Some "") path
        end
      else if Ascii.eqb c "}" then
        match current with
        | None => invalid_doc "the path contains an unbalanced placeholder"
        | Some name =>
            let* names := placeholders_of None path in
            Ok (srev name :: names)
        end
      else placeholders_of (option_map (String c) current) path
  end.
Definition path_names (parameters : list Parameter_) : list string :=
  map p_name (List.filter (fun p => bool_decide (p_location p = TPath)) parameters).
(** [sorted(set(xs) - set(ys))], its first element. *)
Definition first_missing (xs ys : list string) : option string :=
  head (sorted_strs (List.filter (fun x => negb (str_in x ys)) xs)).
Definition check_path_placeholders (path : string) (parameters : list Parameter_) : M unit :=
  let* placeholders := placeholders_of None path in
  if has_duplicate placeholders then invalid_doc "the path repeats a placeholder name"
  else
    let declared := path_names parameters in
    match first_missing placeholders declared with
    | Some name => invalid_doc ("the path placeholder " +:+ repr_str name +:+ " has no matching path parameter")
    | None =>
        match first_missing declared placeholders with
        | Some name => invalid_doc ("the path parameter " +:+ repr_str name +:+ " has no matching path placeholder")
        | None => Ok tt
        end
    end.

(** ** The argument object and its bindings *)

Record arguments_state := MkArguments {
  a_properties : dict;
  a_required : list string;
  a_bindings : list ArgumentBinding;
}.
Definition add_argument (a : arguments_state) (p : Parameter_) : M arguments_state :=
  if has (p_name p) (a_properties a) then
    unsupported ("the parameter name " +:+ repr_str (p_name p)
                 +:+ " is used in more than one location; the flat argument object cannot represent both")
  else
    let* schema := convert_schema (VDict (p_schema p)) ("/parameters/" +:+ p_name p) in
    let schema := match p_description p with
                  | Some (String _ _ as d) => if has "description" schema then schema
                                              else dset (KStr "description") (VStr d) schema
                  | _ => schema
                  end in
    let* binding := ArgumentBinding_new
                      (MkBinding ("/" +:+ escape_token (p_name p)) (p_location p) (p_name p)) in
    Ok (MkArguments (dset (KStr (p_name p)) (VDict schema) (a_properties a))
          (if p_required p then a_required a ++ [p_name p] else a_required a)
          (a_bindings a ++ [binding])).

Definition add_body_field (bindings : list ArgumentBinding) (field : pykey) : M (list ArgumentBinding) :=
  let escaped := escape_token (key_text field) in
  let* binding := ArgumentBinding_new
                    (MkBinding ("/" +:+ BODY_ARGUMENT +:+ "/" +:+ escaped) TBody ("/" +:+ escaped)) in
  Ok (bindings ++ [binding]).
(** The schema of a JSON request body, and whether it is required. *)
Definition body_schema_of (raw : dict) (properties : dict) : M (dict * bool) :=
  match get "content" raw with
  | VDict ((_ :: _) as content) =>
      match dget (KStr JSON_MEDIA_TYPE) content with
      | None =>
          unsupported ("the request body offers " +:+ repr_str (hd "" (sorted_strs (map key_text (dkeys content))))
                       +:+ "; only " +:+ repr_str JSON_MEDIA_TYPE +:+ " is supported")
      | Some (VDict media) =>
          match get "schema" media with
          | VDict schema =>
              if has BODY_ARGUMENT properties then
                unsupported ("the operation declares a parameter named " +:+ repr_str BODY_ARGUMENT
                             +:+ ", which collides with the request body argument")
              else
                let* body_schema := convert_schema (VDict schema) "/requestBody" in
                if negb (is_the_str "object" (get "type" body_schema)) then
                  unsupported "only object request bodies are supported; a scalar or array body cannot be described as a named tool argument"
                else
                  match get_or "required" (VBool false) raw with
                  | VBool body_required => Ok (body_schema, body_required)
                  | _ => invalid_doc "'requestBody.required' must be a boolean"
                  end
          | _ => invalid_doc "the request body must declare a schema object"
          end
      | Some _ => invalid_doc "the request body media type entry must be an object"
      end
  | _ => invalid_doc "'requestBody' must declare a content object"
  end.
(** The state, and whether there is a body ("application/json", or [None]). *)
Definition convert_request_body (operation : dict) (a : arguments_state) : M (arguments_state * bool) :=
  match get "requestBody" operation with
  | VNone => Ok (a, false)
  | VDict raw =>
      let* body := body_schema_of raw (a_properties a) in
      let '(body_schema, body_required) := body in
      let fields := match get_or "properties" (VDict []) body_schema with VDict ps => dkeys ps | _ => [] end in
      let* bindings := fold_result add_body_field fields (a_bindings a) in
      Ok (MkArguments (dset (KStr BODY_ARGUMENT) (VDict body_schema) (a_properties a))
            (if body_required then a_required a ++ [BODY_ARGUMENT] else a_required a) bindings, true)
  | _ => invalid_doc "'requestBody' must be an object"
  end.

(** ** Names, prose and provenance *)

Definition prose (operation : dict) (field : string) : option string :=
  match get field operation with
  | VStr value => let text := strip value in if is_empty text then None else Some text
  | _ => None
  end.
Definition operation_id (operation : dict) : M (option string) :=
  match dget (KStr "operationId") operation with
  | None => Ok None
  | Some (VStr value) =>
      if is_empty (strip value) then invalid_doc "'operationId' must be a non-empty string when present"
      else if (256 <? slen value)%nat then invalid_doc "'operationId' is too long"
      else Ok (Some value)
  | Some _ => invalid_doc "'operationId' must be a non-empty string when present"
  end.
Definition has_prose (operation : dict) : bool :=
  existsb (fun field => negb (is_none (prose operation field))) ["description"; "summary"].
Definition description_of (operation : dict) (method path : string) : string :=
  match prose operation "description", prose operation "summary" with
  | Some text, _ | None, Some text => stake 1024 text
  | None, None => stake 1024 ("Call " +:+ upper method +:+ " " +:+ path +:+ " on the connected API.")
  end.
Definition display_name_of (operation : dict) (tool_name : string) : string :=
  match prose operation "summary" with
  | Some text => stake 128 text
  | None => stake 128 (to_display_name tool_name)
  end.
Definition add_tag (tags : list string) (tag : pyval) : M (list string) :=
  match tag with
  | VStr tag =>
      if is_empty (strip tag) then invalid_doc "'tags' entries must be non-empty strings"
      else
        let text := stake 64 (strip tag) in
        Ok (if str_in text tags then tags else tags ++ [text])
  | _ => invalid_doc "'tags' entries must be non-empty strings"
  end.
Definition tags_of (operation : dict) : M (list string) :=
  match get_or "tags" (VList []) operation with
  | VList raw => let* tags := fold_result add_tag raw [] in Ok (firstn 32 tags)
  | _ => invalid_doc "'tags' must be an array"
  end.
Definition deprecated_of (operation : dict) : M bool :=
  match get_or "deprecated" (VBool false) operation with
  | VBool b => Ok b
  | _ => invalid_doc "'deprecated' must be a boolean"
  end.

(** ** The operation *)

Definition input_schema_of (a : arguments_state) : dict :=
  {{ "$schema" ~> VStr "https://json-schema.org/draft/2020-12/schema"; "type" ~> VStr "object";
     "properties" ~> VDict (a_properties a); "required" ~> strs (a_required a);
     "additionalProperties" ~> VBool false }}.
Definition convert_operation (path method : string) (path_item operation : dict) : M ToolDefinition :=
  let normalized_method := lower method in
  match alookup normalized_method METHOD_POLICY with
  | None => unsupported ("the HTTP method " +:+ repr_str method +:+ " is not supported")
  | Some (effect_class, requires_confirmation) =>
      let* _ := reject_unsupported_operation_features path_item operation in
      let* parameters := collect_parameters path_item operation in
      let* _ := check_path_placeholders path parameters in
      let* a := fold_result add_argument parameters (MkArguments [] [] []) in
      let* body := convert_request_body operation a in
      let '(a, body_media_type) := body in
      let* op_id := operation_id operation in
      let* tool_name := match op_id with
                        | Some id => normalize_tool_name id
                        | None => derive_tool_name normalized_method path
                        end in
      let* op := ToolOperation_new (MkOperation (upper normalized_method) path (a_bindings a) body_media_type) in
      let* tags := tags_of operation in
      let* deprecated := deprecated_of operation in
      let* provenance := ToolProvenance_new
        (MkProvenance op_id path normalized_method tags deprecated
           (if has_prose operation then FromSource else Generated)) in
      ToolDefinition_new
        (MkTool tool_name (display_name_of operation tool_name) (description_of operation normalized_method path)
           (input_schema_of a) op (MkToolPolicy effect_class requires_confirmation ToolAccessPolicy_public) provenance)
  end.
End converter.
