(* ===== verification/ConverterProperties.v ===== *)
(** * Properties of operation conversion

    What a converted tool is, in terms of the operation it came from. *)

From S2P Require Export SchemaSemantics Converter.

(** ** The parts of a converted tool *)

Definition parameter_binding (p : Parameter_) : ArgumentBinding :=
  MkBinding ("/" +:+ escape_token (p_name p)) (p_location p) (p_name p).
Definition body_binding (field : pykey) : ArgumentBinding :=
  let escaped := escape_token (key_text field) in
  MkBinding ("/" +:+ BODY_ARGUMENT +:+ "/" +:+ escaped) TBody ("/" +:+ escaped).
Definition with_description (d : option string) (schema : dict) : dict :=
  match d with
  | Some (String _ _ as d) => if has "description" schema then schema else dset (KStr "description") (VStr d) schema
  | _ => schema
  end.
Definition required_parameters (ps : list Parameter_) : list string := map p_name (List.filter p_required ps).

(** The schema and the flag of a JSON request body. *)
Definition source_body (operation : dict) : option (dict * bool) :=
  match get "requestBody" operation with
  | VDict raw =>
      match get "content" raw with
      | VDict content =>
          match get JSON_MEDIA_TYPE content with
          | VDict media =>
              match get "schema" media with
              | VDict schema => Some (schema, match get "required" raw with VBool b => b | _ => false end)
              | _ => None
              end
          | _ => None
          end
      | _ => None
      end
  | _ => None
  end.

Lemma ArgumentBinding_new_valid b b' : ArgumentBinding_new b = Ok b' -> b' = b /\ valid_binding b.
Proof. intros H. pose proof (ArgumentBinding_new_eq _ _ H) as <-. done. Qed.

(** The arguments after some parameters. *)
Record arguments_of (ps : list Parameter_) (a : arguments_state) : Prop := {
  ao_keys : dkeys (a_properties a) = map (fun p => KStr (p_name p)) ps;
  ao_distinct : NoDup (map p_name ps);
  ao_schemas : Forall (fun p => exists c, convert_schema (VDict (p_schema p)) ("/parameters/" +:+ p_name p) = Ok c /\
                 dget (KStr (p_name p)) (a_properties a) = Some (VDict (with_description (p_description p) c))) ps;
  ao_required : a_required a = required_parameters ps;
  ao_bindings : a_bindings a = map parameter_binding ps;
  ao_valid : Forall valid_binding (a_bindings a);
}.

Section arguments.
Context `{Platform}.

Lemma add_arguments_spec ps a :
  fold_result add_argument ps (MkArguments [] [] []) = Ok a -> arguments_of ps a.
Proof.
  intros Hf. apply (fold_result_inv add_argument arguments_of) in Hf; [done| |].
  { split; try done; constructor. }
  clear. intros ps p a a' [Hk Hd Hs Hr Hb Hv] Ha. unfold add_argument in Ha.
  destruct (has (p_name p) (a_properties a)) eqn:Hhas; [done|]. unfold unsupported in Ha.
  apply bind_Ok in Ha as (c & Hc & Ha). cbv zeta in Ha.
  apply bind_Ok in Ha as (b & (-> & Hbv)%ArgumentBinding_new_valid & [= <-]).
  assert (KStr (p_name p) ∉ dkeys (a_properties a)) as Hfresh.
  { intros Hin. apply has_true in Hin. congruence. }
  fold (with_description (p_description p) c). split; cbn [a_properties a_required a_bindings].
  - rewrite dkeys_dset, bool_decide_eq_false_2 by done. rewrite Hk, map_app. done.
  - rewrite map_app. apply NoDup_app. split; [done|]. split; [|apply NoDup_singleton].
    intros x Hx ->%list_elem_of_singleton. apply Hfresh. rewrite Hk.
    apply list_elem_of_fmap in Hx as (q & Hq & Hin). apply list_elem_of_fmap. exists q. by rewrite Hq.
  - apply Forall_app. split.
    + eapply Forall_impl; [|intros q Hq; exact Hq]. apply Forall_forall. intros q Hq. rewrite Forall_forall in Hs.
      destruct (Hs q Hq) as (cq & Hcq & Hget). exists cq. split; [done|].
      rewrite dget_dset, bool_decide_eq_false_2; [done|]. intros [= E]. apply Hfresh. rewrite Hk, <- E.
      apply list_elem_of_fmap. by exists q.
    + repeat constructor. exists c. split; [done|]. by rewrite dget_dset, bool_decide_eq_true_2.
  - rewrite Hr. unfold required_parameters. rewrite List.filter_app, map_app. cbn [List.filter].
    destruct (p_required p); [done|by rewrite app_nil_r].
  - by rewrite Hb, map_app.
  - apply Forall_app. split; [done|]. by repeat constructor.
Qed.
End arguments.

(** The properties of a converted object are those of its source. *)
Definition fields_of (schema : dict) : list pykey :=
  match get "properties" schema with VDict ps => dkeys ps | _ => [] end.

Lemma convert_properties_keys convert p raw acc props :
  fold_result (convert_property convert p) raw acc = Ok props ->
  NoDup (dkeys acc ++ dkeys raw) -> dkeys props = dkeys acc ++ dkeys raw.
Proof.
  revert acc. induction raw as [|[k i] raw IH]; intros acc; cbn [fold_result].
  - intros [= ->] _. by rewrite app_nil_r.
  - intros (acc1 & H1 & H2)%bind_Ok Hnd. unfold convert_property in H1. cbn [fst snd] in H1.
    destruct k as [[|a n]|]; [done| |done]. apply bind_Ok in H1 as (c & _ & [= <-]).
    assert (KStr (String a n) ∉ dkeys acc) as Hfresh.
    { apply NoDup_app in Hnd as (_ & Hd & _). intros Hin. apply (Hd _ Hin). by left. }
    assert (dkeys (dset (KStr (String a n)) (VDict c) acc) = dkeys acc ++ [KStr (String a n)]) as Hk
      by (by rewrite dkeys_dset, bool_decide_eq_false_2).
    rewrite (IH _ H2); rewrite Hk, <- app_assoc; [done|exact Hnd].
Qed.
Lemma converted_object_fields s p c :
  json_dicts (VDict s) -> convert_schema (VDict s) p = Ok c -> get "type" c = VStr "object" ->
  exists props, get "properties" c = VDict props /\ dkeys props = fields_of s.
Proof.
  intros Hj Hc Hty. unfold convert_schema in Hc. cbn [convert_at] in Hc.
  apply bind_Ok in Hc as (t & [Ht Hin]%declared_type_Ok & (c1 & H1 & (c2 & H2 & (c3 & H3 & (c4 & H4 & ([] & H5 & [= <-])%bind_Ok)%bind_Ok)%bind_Ok)%bind_Ok)%bind_Ok).
  pose proof (base_steps _ _ _ _ _ _ H1 H2 H3) as Hb.
  assert (t = "object" \/ draft_type (H:=demo_keywords) c4 (VDict []) = openapi_type (H:=demo_keywords) s (VDict []) /\ t <> "object") as [->|[Hsame Hne]].
  { destruct (decide (t = "object")) as [|Hne]; [by left|]. right. split; [|done].
    apply r_type. eapply (convert_by_type_refines (convert_at MAX_SCHEMA_DEPTH)); [|done|done|done| |done|exact H4].
    - intros; by eapply convert_at_refines.
    - by eapply not_unknown. }
  2:{ exfalso. unfold draft_type, openapi_type in Hsame. rewrite Hty, Ht in Hsame. cbn [type_holds demo_keywords] in Hsame.
      unfold ALL_TYPES in Hin. rewrite !elem_of_cons in Hin.
      destruct Hin as [->|[->|[->|[->|[->|[->|[->|?%elem_of_nil]]]]]]]; try done;
        destruct (get "nullable" s) as [|[]| | | | | | |]; done. }
  unfold convert_by_type in H4. cbn [String.eqb Ascii.eqb Bool.eqb] in H4.
  apply bind_Ok in H4 as (o & Ho & [= <-]). unfold convert_object in Ho. unfold fields_of.
  destruct (get "properties" s) as [| | | | | | |[|m raw]|] eqn:Er; try done. cbv zeta in Ho.
  destruct (negb _); [done|]. apply bind_Ok in Ho as (props & Hp & (names & _ & [= <-])%bind_Ok).
  exists props. split.
  - unfold dupdate. cbn [foldl fst snd]. unfold get, get_or. by rewrite !dget_dset_str.
  - apply (convert_properties_keys _ _ _ _ _ Hp). cbn [dkeys app].
    unfold get, get_or in Er. destruct (dget (KStr "properties") s) as [w|] eqn:E; [|done]. subst w.
    by apply (json_dget _ _ _ Hj), json_dicts_dict in E as [? _].
Qed.

Record body_of (operation : dict) (a a' : arguments_state) (body : bool) : Prop := {
  bo_source : if body
    then exists schema required c props,
      source_body operation = Some (schema, required) /\
      convert_schema (VDict schema) "/requestBody" = Ok c /\ get "properties" c = VDict props /\
      KStr BODY_ARGUMENT ∉ dkeys (a_properties a) /\
      a_properties a' = dset (KStr BODY_ARGUMENT) (VDict c) (a_properties a) /\
      a_required a' = (if required then a_required a ++ [BODY_ARGUMENT] else a_required a) /\
      a_bindings a' = a_bindings a ++ map body_binding (fields_of schema)
    else a' = a /\ get "requestBody" operation = VNone;
  bo_valid : Forall valid_binding (a_bindings a) -> Forall valid_binding (a_bindings a');
}.
Section body.
Context `{Platform}.

Lemma convert_request_body_spec operation a a' body :
  json_dicts (VDict operation) -> convert_request_body operation a = Ok (a', body) -> body_of operation a a' body.
Proof.
  intros Hj Hb. unfold convert_request_body in Hb.
  destruct (get "requestBody" operation) as [| | | | | | |raw|] eqn:Eraw; try done.
  { injection Hb as <- <-. by split. }
  apply bind_Ok in Hb as ([c required] & Hs & (bindings & Hbind & [= <- <-])%bind_Ok). cbn [a_bindings] in *.
  unfold body_schema_of in Hs. destruct (get "content" raw) as [| | | | | | |[|m0 content]|] eqn:Ec; try done.
  set (cont := m0 :: content) in *. destruct (dget (KStr JSON_MEDIA_TYPE) cont) as [[| | | | | | |media|]|] eqn:Em; try done.
  destruct (get "schema" media) as [| | | | | | |schema|] eqn:Es; try done.
  destruct (has BODY_ARGUMENT (a_properties a)) eqn:Hfresh; [done|].
  apply bind_Ok in Hs as (c' & Hc & Hs). destruct (is_the_str "object" (get "type" c')) eqn:Hty; [|done].
  cbn [negb] in Hs. destruct (get_or "required" (VBool false) raw) as [|r| | | | | | |] eqn:Ereq; try done.
  injection Hs as -> ->. apply py_eq_str in Hty.
  assert (json_dicts (VDict schema)) as Hjs.
  { assert (forall k d v, json_dicts (VDict d) -> get k d = v -> json_dicts v) as Hg.
    { intros k d v Hd <-. unfold get, get_or. destruct (dget _ d) eqn:E; [by eapply json_dget|done]. }
    apply (Hg "schema" media); [|done]. apply (json_dget _ _ _ (Hg _ _ _ (Hg _ _ _ Hj Eraw) Ec) Em). }
  destruct (converted_object_fields _ _ _ Hjs Hc Hty) as (props & Hprops & Hkeys).
  assert (get_or "properties" (VDict []) c = VDict props) as Hp'.
  { unfold get, get_or in *. destruct (dget (KStr "properties") c); [done|discriminate]. }
  rewrite Hp', Hkeys in Hbind.
  assert (forall fields bs bs', fold_result add_body_field fields bs = Ok bs' ->
            bs' = bs ++ map body_binding fields /\ (Forall valid_binding bs -> Forall valid_binding bs')) as Hfold.
  { clear. intros fields. induction fields as [|f fields IH]; intros bs bs'; cbn [fold_result].
    - intros [= <-]. by rewrite app_nil_r.
    - intros (b1 & (b & [-> Hb]%ArgumentBinding_new_valid & [= <-])%bind_Ok & [-> Hv]%IH)%bind_Ok.
      split; [by rewrite <- app_assoc|]. intros Hbs. apply Hv, Forall_app. split; [done|]. by repeat constructor. }
  apply Hfold in Hbind as [-> Hv]. split; [|done]. exists schema, required, c, props. cbn [a_properties a_required a_bindings].
  split_and!; try done.
  - unfold source_body. rewrite Eraw, Ec. unfold get at 1, get_or. rewrite Em, Es.
    unfold get, get_or in *. destruct (dget (KStr "required") raw); [by subst|by injection Ereq as <-].
  - intros Hin%has_true. congruence.
Qed.
End body.

(** ** Placeholders *)

Definition no_brace : string -> bool := sall (fun c => negb (Ascii.eqb c "{" || Ascii.eqb c "}")).
(** A text followed by placeholders, each with the text after it. *)
Definition weave (text : string) (rest : list (string * string)) : string :=
  text +:+ join "" (map (fun nt => "{" +:+ nt.1 +:+ "}" +:+ nt.2) rest).
Definition template (path : string) (names : list string) : Prop :=
  exists text rest, path = weave text rest /\ rest.*1 = names /\
    no_brace text = true /\ Forall (fun nt => no_brace nt.1 = true /\ no_brace nt.2 = true) rest.

Lemma weave_cons text n t rest : weave text ((n, t) :: rest) = text +:+ "{" +:+ n +:+ "}" +:+ weave t rest.
Proof.
  unfold weave. cbn [map]. destruct (map _ rest) as [|w ws]; cbn [join fst snd].
  - by rewrite sapp_nil_r.
  - by rewrite sapp_nil_l, !sapp_assoc.
Qed.
Lemma rev_append_app s acc : rev_append s acc = srev s +:+ acc.
Proof.
  unfold srev. revert acc. induction s as [|c s IH]; intros acc; [done|]. cbn [rev_append].
  rewrite IH, (IH (String c "")), sapp_assoc. done.
Qed.
Lemma srev_cons c s : srev (String c s) = srev s +:+ String c "".
Proof. unfold srev at 1. cbn [rev_append]. by rewrite rev_append_app. Qed.

Lemma brace_split c : {c = "{"%char} + {c = "}"%char} + {Ascii.eqb c "{" = false /\ Ascii.eqb c "}" = false}.
Proof.
  destruct (Ascii.eqb c "{") eqn:E1; [left; left; by apply Ascii.eqb_eq|].
  destruct (Ascii.eqb c "}") eqn:E2; [left; right; by apply Ascii.eqb_eq|]. by right.
Qed.
Lemma no_brace_cons c s : Ascii.eqb c "{" = false -> Ascii.eqb c "}" = false -> no_brace (String c s) = no_brace s.
Proof. intros H1 H2. unfold no_brace. cbn [sall]. by rewrite H1, H2. Qed.

Lemma placeholders_sound path current names :
  placeholders_of current path = Ok names ->
  match current with
  | None => template path names
  | Some acc => exists name text rest, path = name +:+ "}" +:+ weave text rest /\
      names = (srev acc +:+ name) :: rest.*1 /\ no_brace name = true /\ no_brace text = true /\
      Forall (fun nt => no_brace nt.1 = true /\ no_brace nt.2 = true) rest
  end.
Proof.
  revert current names. induction path as [|c path IH]; intros current names; cbn [placeholders_of].
  { destruct current; [done|]. intros [= <-]. by exists "", []. }
  destruct (brace_split c) as [[->| ->]|[H1 H2]].
  - cbn [Ascii.eqb Bool.eqb]. destruct current; [done|]. intros (name & text & rest & -> & -> & Hn & Ht & Hr)%IH.
    exists "", ((name, text) :: rest). rewrite weave_cons. cbn [srev rev_append]. split_and!; try done. by constructor.
  - cbn [Ascii.eqb Bool.eqb]. destruct current as [acc|]; [|done].
    intros (names' & (text & rest & -> & <- & Ht & Hr)%IH & [= <-])%bind_Ok.
    exists "", text, rest. split_and!; try done. by rewrite sapp_nil_r.
  - rewrite H1, H2. intros H%IH. destruct current as [acc|]; cbn [option_map] in H.
    + destruct H as (name & text & rest & -> & -> & Hn & Ht & Hr). exists (String c name), text, rest.
      rewrite srev_cons, sapp_assoc, no_brace_cons by done. by split_and!.
    + destruct H as (text & rest & -> & <- & Ht & Hr). exists (String c text), rest. by rewrite no_brace_cons.
Qed.
Lemma placeholders_text text current path :
  no_brace text = true ->
  placeholders_of current (text +:+ path) =
    placeholders_of (option_map (fun acc => rev_append text acc) current) path.
Proof.
  revert current. induction text as [|c text IH]; intros current Ht.
  - by destruct current.
  - destruct (brace_split c) as [[->| ->]|[H1 H2]]; [done..|]. rewrite no_brace_cons in Ht by done.
    rewrite sapp_cons. cbn [placeholders_of]. rewrite H1, H2, IH by done. by destruct current.
Qed.
Lemma srev_involutive s : srev (srev s) = s.
Proof.
  assert (forall s t, srev (s +:+ t) = srev t +:+ srev s) as Happ.
  { induction s0 as [|c s0 IH]; intros t; [by rewrite sapp_nil_r|].
    rewrite sapp_cons, !srev_cons, IH, sapp_assoc. done. }
  induction s as [|c s IH]; [done|]. rewrite srev_cons, Happ, IH. done.
Qed.
Lemma placeholders_complete path names : template path names -> placeholders_of None path = Ok names.
Proof.
  intros (text & rest & -> & <- & Ht & Hr). revert text Ht. induction Hr as [|[n t] rest [Hn Ht'] Hr IH]; intros text Ht.
  - unfold weave. cbn [map join]. by rewrite placeholders_text.
  - rewrite weave_cons, placeholders_text by done. cbn [option_map]. rewrite sapp_cons, sapp_nil_l.
    change (placeholders_of None (String "{" ?p)) with (placeholders_of (Some "") p).
    rewrite placeholders_text by done. cbn [option_map]. rewrite sapp_cons, sapp_nil_l.
    change (placeholders_of (Some ?a) (String "}" ?p)) with
      (let* names := placeholders_of None p in Ok (srev a :: names)).
    rewrite IH by done. change (rev_append n "") with (srev n). by rewrite srev_involutive.
Qed.
Lemma placeholders_exact path names : placeholders_of None path = Ok names <-> template path names.
Proof. split; [apply (placeholders_sound path None)|apply placeholders_complete]. Qed.

Lemma first_missing_None xs ys : first_missing xs ys = None <-> forall x, x ∈ xs -> x ∈ ys.
Proof.
  unfold first_missing. destruct (sorted_strs _) as [|m ms] eqn:E; cbn [head].
  - split; [|done]. intros _ x Hx. apply (proj1 (sorted_strs_nil _)) in E.
    destruct (str_in x ys) eqn:Hy; [by apply bool_decide_eq_true in Hy|].
    assert (x ∈ List.filter (fun x => negb (str_in x ys)) xs) as H; [|rewrite E in H; by apply elem_of_nil in H].
    apply list_elem_of_In, filter_In. split; [by apply list_elem_of_In|]. by rewrite Hy.
  - split; [done|]. intros H. assert (m ∈ List.filter (fun x => negb (str_in x ys)) xs) as Hm.
    { rewrite <- sorted_strs_perm, E. by left. }
    apply list_elem_of_In, filter_In in Hm as [Hm%list_elem_of_In Hn]. apply negb_true_iff, bool_decide_eq_false in Hn.
    by apply H in Hm.
Qed.
Lemma check_path_placeholders_Ok path ps :
  check_path_placeholders path ps = Ok tt ->
  exists names, template path names /\ NoDup names /\ forall x, x ∈ names <-> x ∈ path_names ps.
Proof.
  unfold check_path_placeholders. intros (names & Hn%placeholders_exact & H)%bind_Ok.
  destruct (has_duplicate names) eqn:Hd; [done|]. apply has_duplicate_false in Hd.
  destruct (first_missing names _) eqn:H1; [done|]. destruct (first_missing (path_names ps) _) eqn:H2; [done|].
  exists names. split_and!; [done..|]. intros x. split; by apply first_missing_None.
Qed.

Definition body_fields (operation : dict) : list pykey :=
  match source_body operation with Some (schema, _) => fields_of schema | None => [] end.
Definition body_argument (operation : dict) : list pykey :=
  match source_body operation with Some _ => [KStr BODY_ARGUMENT] | None => [] end.

Section operations.
Context `{Platform}.

(** What a conversion that succeeds went through. *)
Record conversion (path method : string) (path_item operation : dict) (t : ToolDefinition)
    (ps : list Parameter_) (a a' : arguments_state) (body : bool) : Prop := {
  cv_policy : exists effect confirm, alookup (lower method) METHOD_POLICY = Some (effect, confirm) /\
                policy t = MkToolPolicy effect confirm ToolAccessPolicy_public;
  cv_parameters : collect_parameters path_item operation = Ok ps;
  cv_placeholders : check_path_placeholders path ps = Ok tt;
  cv_arguments : fold_result add_argument ps (MkArguments [] [] []) = Ok a;
  cv_body : convert_request_body operation a = Ok (a', body);
  cv_schema : input_schema t = input_schema_of a';
  cv_operation : Models.operation t = MkOperation (upper (lower method)) path (a_bindings a') body;
  cv_operation_ok : ToolOperation_new (Models.operation t) = Ok (Models.operation t);
  cv_name : exists id, operation_id operation = Ok id /\ source_operation_id (provenance t) = id /\
              match id with
              | Some id => normalize_tool_name id
              | None => derive_tool_name (lower method) path
              end = Ok (tool_name t);
  cv_provenance : source_path (provenance t) = path /\ source_method (provenance t) = lower method /\
                  description_origin (provenance t) = (if has_prose operation then FromSource else Generated);
  cv_provenance_ok : ToolProvenance_new (provenance t) = Ok (provenance t);
  cv_tool_ok : ToolDefinition_new t = Ok t;
}.
Lemma convert_operation_Ok path method path_item operation t :
  convert_operation path method path_item operation = Ok t ->
  exists ps a a' body, conversion path method path_item operation t ps a a' body.
Proof.
  unfold convert_operation. destruct (alookup _ _) as [[effect confirm]|] eqn:Em; [|done].
  intros (_ & _ & (ps & Hps & ([] & Hpl & (a & Ha & ([a' body] & Hb & (id & Hid & (name & Hname &
    (op & Hop & (tags & Htags & (dep & Hdep & (prov & Hprov & Ht)%bind_Ok)%bind_Ok)%bind_Ok)%bind_Ok)%bind_Ok)%bind_Ok)%bind_Ok)%bind_Ok)%bind_Ok)%bind_Ok)%bind_Ok.
  pose proof (ToolOperation_new_eq _ _ Hop) as <-. pose proof (ToolProvenance_new_eq _ _ Hprov) as <-.
  pose proof (ToolDefinition_new_eq _ _ Ht) as <-.
  exists ps, a, a', body. split; try done; [by exists effect, confirm|]. by exists id.
Qed.

Lemma conversion_valid path method path_item operation t ps a a' body :
  json_dicts (VDict operation) -> conversion path method path_item operation t ps a a' body -> valid_tool t.
Proof.
  intros Hj [(e & c & _ & Hp) _ _ Ha Hb _ Hop Hopok _ _ Hprov Ht]. split_and!; [done| |by rewrite Hp|done].
  split; [done|]. rewrite Hop. cbn [bindings]. apply convert_request_body_spec in Hb; [|done].
  apply Hb. by apply (ao_valid ps), add_arguments_spec.
Qed.
Lemma conversion_bindings path method path_item operation t ps a a' body :
  json_dicts (VDict operation) -> conversion path method path_item operation t ps a a' body ->
  bindings (Models.operation t) = map parameter_binding ps ++ map body_binding (body_fields operation) /\
  dkeys (a_properties a') = map (fun p => KStr (p_name p)) ps ++ body_argument operation /\
  body = negb (is_none (source_body operation)).
Proof.
  intros Hj [_ _ _ Ha Hb _ Hop _ _ _ _ _]. rewrite Hop. cbn [bindings].
  apply convert_request_body_spec in Hb as [Hb _]; [|done]. apply add_arguments_spec in Ha as [Hk _ _ _ Hbind _].
  unfold body_fields, body_argument. destruct body.
  - destruct Hb as (schema & required & c & props & -> & _ & _ & Hfresh & -> & _ & ->).
    rewrite dkeys_dset, bool_decide_eq_false_2 by done. by rewrite Hk, Hbind.
  - destruct Hb as [-> Hn]. unfold source_body. rewrite Hn, Hk, Hbind. by rewrite !app_nil_r.
Qed.
End operations.

(** ** Bindings and arguments correspond *)

Lemma escape_inj s t : escape_token s = escape_token t -> s = t.
Proof.
  change escape_token with encode_pointer_token. intros H.
  by rewrite <- (decode_encode_token s), <- (decode_encode_token t), H.
Qed.
Lemma escape_no_slash s : has_char "/" (escape_token s) = false.
Proof.
  change escape_token with encode_pointer_token. rewrite encode_pointer_token_chars.
  apply (has_char_false_all _ (fun c => negb (Ascii.eqb c "/"))); [|done].
  apply sall_sflat_map. intros c. unfold token_char. destruct (Ascii.eqb c "~"); [done|].
  destruct (Ascii.eqb c "/") eqn:E; [done|]. simpl. by rewrite E.
Qed.
Lemma pointers_distinct ps fields :
  NoDup (map p_name ps) -> NoDup fields -> Forall (fun k => is_str_key k = true) fields ->
  NoDup (map argument_pointer (map parameter_binding ps ++ map body_binding fields)).
Proof.
  intros Hps Hf Hk. rewrite map_app, !map_map. cbn [parameter_binding body_binding argument_pointer].
  apply NoDup_app. split_and!.
  - change (NoDup ((fun p => "/" +:+ escape_token (p_name p)) <$> ps)).
    rewrite (list_fmap_compose p_name (fun n => "/" +:+ escape_token n)). apply NoDup_fmap_2; [|exact Hps].
    intros x y H%sapp_inj_l. by apply escape_inj.
  - intros x (p & -> & _)%list_elem_of_fmap (k & E%sapp_inj_l & _)%list_elem_of_fmap.
    pose proof (escape_no_slash (p_name p)) as Hn. unfold has_char in Hn. rewrite E in Hn. done.
  - clear Hps. induction Hf as [|k fields Hk0 _ IH]; [constructor|]. apply Forall_cons in Hk as [Hks Hk].
    cbn [map]. apply NoDup_cons. split; [|by apply IH].
    intros (k' & E%sapp_inj_l & Hin)%list_elem_of_fmap. rewrite !sapp_cons, !sapp_nil_l in E. injection E as E%escape_inj.
    rewrite Forall_forall in Hk. specialize (Hk _ Hin). destruct k, k'; try done. cbn in E. by subst.
Qed.
Lemma body_fields_ok operation :
  json_dicts (VDict operation) -> NoDup (body_fields operation) /\ Forall (fun k => is_str_key k = true) (body_fields operation).
Proof.
  intros Hj. assert (forall k d v, json_dicts (VDict d) -> get k d = v -> json_dicts v) as Hg.
  { intros k d v Hd <-. unfold get, get_or. destruct (dget _ d) eqn:E; [by eapply json_dget|done]. }
  unfold body_fields, source_body, fields_of.
  destruct (get "requestBody" operation) as [| | | | | | |raw|] eqn:E1; try by split; constructor.
  destruct (get "content" raw) as [| | | | | | |content|] eqn:E2; try by split; constructor.
  destruct (get JSON_MEDIA_TYPE content) as [| | | | | | |media|] eqn:E3; try by split; constructor.
  destruct (get "schema" media) as [| | | | | | |schema|] eqn:E4; try by split; constructor.
  destruct (get "properties" schema) as [| | | | | | |raw_properties|] eqn:E5; try by split; constructor.
  assert (json_dicts (VDict raw_properties)) as [Hok Hd]%json_dicts_dict by eauto 8.
  split; [done|]. unfold dkeys. apply Forall_fmap. eapply Forall_impl; [exact Hd|]. by intros kv [].
Qed.

(** A converted tool is the operation, no more and no less.  It satisfies
    the tool contract; its bindings are one per parameter, in the merged order,
    then one per field of the JSON body; no argument is bound twice, and the
    schema declares exactly the parameters and, if there is one, the body; the
    placeholders of the path are exactly the path parameters; method, path and
    provenance are the operation's; policy is public and follows the method, so
    a delete asks for confirmation; and the tool's name comes from the
    operation id or else from method and path. *)
Theorem converted_tool_faithful `{Platform} :
  forall path method path_item operation t,
    json_dicts (VDict operation) -> convert_operation path method path_item operation = Ok t ->
    valid_tool t /\
    exists parameters props names effect confirm,
      collect_parameters path_item operation = Ok parameters /\
      bindings (Models.operation t) = map parameter_binding parameters ++ map body_binding (body_fields operation) /\
      NoDup (map argument_pointer (bindings (Models.operation t))) /\
      get "properties" (input_schema t) = VDict props /\
      dkeys props = map (fun p => KStr (p_name p)) parameters ++ body_argument operation /\
      template path names /\ NoDup names /\ (forall x, x ∈ names <-> x ∈ path_names parameters) /\
      Models.method (Models.operation t) = upper (lower method) /\ path_template (Models.operation t) = path /\
      request_body_media_type (Models.operation t) = negb (is_none (source_body operation)) /\
      alookup (lower method) METHOD_POLICY = Some (effect, confirm) /\
      policy t = MkToolPolicy effect confirm ToolAccessPolicy_public /\
      source_path (provenance t) = path /\ source_method (provenance t) = lower method /\
      operation_id operation = Ok (source_operation_id (provenance t)) /\
      match source_operation_id (provenance t) with
      | Some id => normalize_tool_name id
      | None => derive_tool_name (lower method) path
      end = Ok (tool_name t).
Proof.
  intros path method path_item operation t Hj (ps & a & a' & body & Hc)%convert_operation_Ok.
  split; [by eapply conversion_valid|].
  pose proof (conversion_bindings _ _ _ _ _ _ _ _ _ Hj Hc) as (Hb & Hk & Hbody).
  destruct Hc as [(effect & confirm & Hm & Hp) Hps Hpl Ha _ Hs Hop _ (id & Hid & <- & Hname) (Hsp & Hsm & _) _ _].
  destruct (check_path_placeholders_Ok _ _ Hpl) as (names & Ht & Hnd & Hn).
  apply add_arguments_spec in Ha as [_ Hd _ _ _ _]. destruct (body_fields_ok operation Hj) as [Hf1 Hf2].
  exists ps, (a_properties a'), names, effect, confirm. rewrite Hop in *. cbn [bindings Models.method path_template request_body_media_type] in *.
  split_and!; try done.
  - rewrite Hb. by apply pointers_distinct.
  - by rewrite Hs.
Qed.

(** ** Which arguments a converted tool accepts *)

(** The OpenAPI schema of an argument. *)
Definition argument_schema (ps : list Parameter_) (operation : dict) (k : pykey) : option dict :=
  match find_first (fun p => bool_decide (KStr (p_name p) = k)) ps with
  | Some p => Some (p_schema p)
  | None => if bool_decide (k = KStr BODY_ARGUMENT) then fst <$> source_body operation else None
  end.
(** The arguments that must be present. *)
Definition required_arguments (ps : list Parameter_) (operation : dict) : list string :=
  required_parameters ps ++ match source_body operation with Some (_, true) => [BODY_ARGUMENT] | _ => [] end.

Section acceptance.
Context `{Keywords}.

Lemma draft_valid_ext c c' v :
  (forall k, k <> "description" -> dget (KStr k) c' = dget (KStr k) c) -> draft_valid (VDict c') v = draft_valid (VDict c) v.
Proof.
  intros He.
  assert (forall k, assertion c' v k = if String.eqb k "description" then assertion c' v k else assertion c v k) as Ha.
  { intros k. destruct (String.eqb_spec k "description") as [->|Hne]; [done|]. unfold assertion. by rewrite He. }
  assert (draft_type c' v && forallb (assertion c' v) UNBOUNDED_KEYWORDS && forallb (draft_bounds c' v) BOUNDS =
          draft_type c v && forallb (assertion c v) UNBOUNDED_KEYWORDS && forallb (draft_bounds c v) BOUNDS) as Hflat.
  { unfold draft_bounds. cbn [forallb UNBOUNDED_KEYWORDS BOUNDS fst snd]. unfold draft_type, get, get_or.
    rewrite He by done. unfold assertion. by rewrite !He by done. }
  destruct v; cbn [draft_valid]; rewrite Hflat; try done; unfold required_present, property_schema; by rewrite !He by done.
Qed.
Lemma draft_with_description d c v : draft_valid (VDict (with_description d c)) v = draft_valid (VDict c) v.
Proof.
  unfold with_description. destruct d as [[|x d]|]; try done. destruct (has _ c); [done|].
  apply draft_valid_ext. intros k Hk. rewrite dget_dset_str. by destruct (String.eqb_spec k "description").
Qed.

(** The schema around the arguments. *)
Lemma input_schema_valid a args :
  draft_valid (VDict (input_schema_of a)) (VDict args) =
    type_holds "object" (VDict args) && forallb (fun r => has r args) (a_required a) &&
    forallb (fun kv => match dget kv.1 (a_properties a) with Some c => draft_valid c kv.2 | None => false end) args.
Proof.
  change (draft_valid (VDict (input_schema_of a)) (VDict args)) with
    (type_holds "object" (VDict args) && true && true &&
     (forallb (fun r => match r with VStr r => has r args | _ => true end) (map VStr (a_required a)) &&
      forallb (fun kv => match dget kv.1 (a_properties a) with Some p => draft_valid p kv.2
                         | None => draft_valid (VBool false) kv.2 end) args)).
  rewrite !andb_true_r, <- andb_assoc. f_equal. f_equal.
  - induction (a_required a) as [|r rs IH]; [done|]. cbn [map forallb]. by rewrite IH.
  - apply forallb_same. intros kv _. destruct (dget kv.1 _); [done|]. by destruct kv.2.
Qed.
End acceptance.

Lemma find_parameter ps k :
  match find_first (fun p => bool_decide (KStr (p_name p) = k)) ps with
  | Some p => p ∈ ps /\ KStr (p_name p) = k
  | None => k ∉ map (fun p => KStr (p_name p)) ps
  end.
Proof.
  destruct (find_first _ ps) as [p|] eqn:E.
  - apply find_first_Some in E as [Hin Hp]. split; [done|]. by apply bool_decide_eq_true in Hp.
  - intros (p & -> & Hin)%list_elem_of_fmap. rewrite find_first_None in E. apply E in Hin.
    by apply bool_decide_eq_false in Hin.
Qed.

Lemma json_get k d : json_dicts (VDict d) -> json_dicts (get k d).
Proof. intros Hd. unfold get, get_or. destruct (dget _ d) eqn:E; [by eapply json_dget|done]. Qed.

(** Parameters keep the schemas of the document. *)
Section parameter_schemas.
Context `{Platform}.
Definition json_parameter (p : Parameter_) : Prop := json_dicts (VDict (p_schema p)).

Lemma parse_parameter_json entry source p : json_dicts entry -> parse_parameter entry source = Ok p -> json_parameter p.
Proof.
  intros Hj. unfold parse_parameter. destruct entry as [| | | | | | |e|]; try done.
  destruct (has _ e); [done|]. destruct (get "name" e) as [| | | |[|c n]| | | |]; try done.
  intros (loc & _ & (req & _ & (_ & _ & Hp)%bind_Ok)%bind_Ok)%bind_Ok. destruct (has "content" e); [done|].
  pose proof (json_get "schema" e Hj) as Hs. destruct (get "schema" e) as [| | | | | | |schema|]; try done.
  by destruct (get "description" e); try done; injection Hp as <-.
Qed.
Lemma put_parameter_Forall (P : Parameter_ -> Prop) p ps : P p -> Forall P ps -> Forall P (put_parameter p ps).
Proof.
  intros Hp. induction 1 as [|q ps Hq Hps IH]; cbn [put_parameter]; [by repeat constructor|].
  case_bool_decide; by constructor.
Qed.
Lemma collect_source_json source raw merged ps :
  json_dicts raw -> Forall json_parameter merged -> collect_source source raw merged = Ok ps -> Forall json_parameter ps.
Proof.
  intros Hj Hm. unfold collect_source. destruct raw as [| | | | |entries| | |]; try done; [by intros [= <-]|].
  intros ([seen ps'] & Hf & [= <-])%bind_Ok. cbn [snd]. apply json_dicts_list in Hj.
  revert Hf. generalize (@nil (string * BindingTarget)) as seen0. revert merged Hm.
  induction Hj as [|e entries He _ IH]; intros merged Hm seen0; cbn [fold_result]; [by intros [= <- <-]|].
  intros ([seen1 merged1] & H1 & H2)%bind_Ok. refine (IH _ _ _ H2).
  unfold add_parameter in H1. apply bind_Ok in H1 as (p & Hp%parse_parameter_json & H1); [|done].
  destruct (bool_decide _); [done|]. injection H1 as <- <-. by apply put_parameter_Forall.
Qed.
Lemma collect_parameters_json path_item operation ps :
  json_dicts (VDict path_item) -> json_dicts (VDict operation) ->
  collect_parameters path_item operation = Ok ps -> Forall json_parameter ps.
Proof.
  intros Hi Ho (merged & H1 & H2)%bind_Ok.
  eapply collect_source_json; [|eapply collect_source_json; [|constructor|exact H1]|exact H2]; by apply json_get.
Qed.
Lemma source_body_json operation schema required :
  json_dicts (VDict operation) -> source_body operation = Some (schema, required) -> json_dicts (VDict schema).
Proof.
  intros Hj. unfold source_body. pose proof (json_get "requestBody" operation Hj) as H1.
  destruct (get "requestBody" operation) as [| | | | | | |raw|]; try done. pose proof (json_get "content" raw H1) as H2.
  destruct (get "content" raw) as [| | | | | | |content|]; try done. pose proof (json_get JSON_MEDIA_TYPE content H2) as H3.
  destruct (get JSON_MEDIA_TYPE content) as [| | | | | | |media|]; try done. pose proof (json_get "schema" media H3) as H4.
  destruct (get "schema" media) as [| | | | | | |s|]; try done. by intros [= <- _].
Qed.
End parameter_schemas.

Section acceptance_lemmas.
Context `{KeywordLaws} `{Platform}.

Lemma argument_value ps a k p v :
  arguments_of ps a -> Forall json_parameter ps -> p ∈ ps -> KStr (p_name p) = k ->
  exists c, dget k (a_properties a) = Some (VDict c) /\
    draft_valid (VDict c) v = openapi_valid (VDict (p_schema p)) v && declared_only (VDict (p_schema p)) v.
Proof.
  intros [_ _ Hs _ _ _] Hj Hin <-. rewrite Forall_forall in Hs, Hj. destruct (Hs p Hin) as (c & Hc & Hg).
  exists (with_description (p_description p) c). split; [done|]. rewrite draft_with_description.
  by apply (convert_at_refines (S MAX_SCHEMA_DEPTH) _ ("/parameters/" +:+ p_name p)); [apply Hj|].
Qed.
Lemma required_names_of ps a a' operation body :
  arguments_of ps a -> body_of operation a a' body -> body = negb (is_none (source_body operation)) ->
  a_required a' = required_arguments ps operation.
Proof.
  intros [_ _ _ Hr _ _] [Hb _] ->. unfold required_arguments. destruct (source_body operation) as [[schema required]|].
  - cbn [is_none negb] in Hb. destruct Hb as (schema' & required' & c & props & [= <- <-] & _ & _ & _ & _ & -> & _).
    rewrite Hr. destruct required; [done|by rewrite app_nil_r].
  - destruct Hb as [-> _]. by rewrite Hr, app_nil_r.
Qed.
Lemma argument_lookup ps a a' operation body k v :
  json_dicts (VDict operation) -> arguments_of ps a -> body_of operation a a' body ->
  body = negb (is_none (source_body operation)) -> Forall json_parameter ps ->
  match dget k (a_properties a') with Some c => draft_valid c v | None => false end =
  match argument_schema ps operation k with
  | Some s => openapi_valid (VDict s) v && declared_only (VDict s) v
  | None => false
  end.
Proof.
  intros Hj Ha [Hb _] -> Hps. unfold argument_schema. pose proof (find_parameter ps k) as Hf.
  destruct (source_body operation) as [[schema required]|] eqn:Es; cbn [is_none negb] in Hb.
  - destruct Hb as (schema' & required' & c & props & [= <- <-] & Hc & _ & Hfresh & -> & _ & _). rewrite dget_dset.
    rewrite (ao_keys _ _ Ha) in Hfresh. destruct (find_first _ ps) as [p|].
    + destruct Hf as [Hin Hk]. rewrite bool_decide_eq_false_2.
      * destruct (argument_value ps a k p v Ha Hps Hin Hk) as (c' & -> & ->). done.
      * intros ->. apply Hfresh. apply list_elem_of_fmap. by exists p.
    + case_bool_decide as E.
      * cbn. apply (convert_at_refines (S MAX_SCHEMA_DEPTH) _ "/requestBody"); [by eapply source_body_json|done].
      * rewrite <- (ao_keys _ _ Ha), <- dget_None in Hf. by rewrite Hf.
  - destruct Hb as [-> _]. destruct (find_first _ ps) as [p|].
    + destruct Hf as [Hin Hk]. destruct (argument_value ps a k p v Ha Hps Hin Hk) as (c' & -> & ->). done.
    + rewrite <- (ao_keys _ _ Ha), <- dget_None in Hf. rewrite Hf. by case_bool_decide.
Qed.
End acceptance_lemmas.

(** C21. A converted tool accepts the operation's arguments.  An argument object
    satisfies the tool's input schema exactly when every required parameter is
    there, and the body if it is required, and every member is a parameter or
    the body whose value satisfies the schema the OpenAPI document gives for it
    and holds only declared properties; nothing else is accepted. *)
Theorem converted_tool_accepts `{KeywordLaws} `{Platform} :
  forall path method path_item operation t parameters,
    json_dicts (VDict path_item) -> json_dicts (VDict operation) ->
    convert_operation path method path_item operation = Ok t ->
    collect_parameters path_item operation = Ok parameters ->
    forall args,
      draft_valid (VDict (input_schema t)) (VDict args) =
        type_holds "object" (VDict args) &&
        forallb (fun r => has r args) (required_arguments parameters operation) &&
        forallb (fun kv => match argument_schema parameters operation kv.1 with
                           | Some s => openapi_valid (VDict s) kv.2 && declared_only (VDict s) kv.2
                           | None => false
                           end) args.
Proof.
  intros path method path_item operation t ps Hi Hj (ps' & a & a' & body & Hc)%convert_operation_Ok Hps args.
  pose proof (conversion_bindings _ _ _ _ _ _ _ _ _ Hj Hc) as (_ & _ & Hbody).
  destruct Hc as [_ Hps' _ Ha Hb Hs _ _ _ _ _ _]. rewrite Hps in Hps'. injection Hps' as <-.
  apply add_arguments_spec in Ha. apply convert_request_body_spec in Hb; [|done].
  rewrite Hs, input_schema_valid, (required_names_of _ _ _ _ _ Ha Hb Hbody). f_equal.
  apply forallb_same. intros kv _.
  exact (argument_lookup ps a a' operation body _ _ Hj Ha Hb Hbody (collect_parameters_json _ _ _ Hi Hj Hps)).
Qed.

(** ** A concrete operation *)

Definition demo_path_parameter : dict :=
  {{ "name" ~> VStr "ticketId"; "in" ~> VStr "path"; "required" ~> VBool true;
     "schema" ~> VDict {{ "type" ~> VStr "integer"; "minimum" ~> VInt 0; "exclusiveMinimum" ~> VBool true }} }}.
Definition demo_path_item : dict := {{ "parameters" ~> VList [VDict demo_path_parameter] }}.
Definition demo_body : dict :=
  {{ "required" ~> VBool true;
     "content" ~> VDict {{ "application/json" ~> VDict {{ "schema" ~> VDict {{
       "type" ~> VStr "object"; "required" ~> strs ["text"];
       "properties" ~> VDict {{ "text" ~> VDict {{ "type" ~> VStr "string"; "nullable" ~> VBool true }} }} }} }} }} }}.
Definition demo_operation : dict :=
  {{ "operationId" ~> VStr "addNote"; "summary" ~> VStr "Add a note"; "requestBody" ~> VDict demo_body }}.
Definition demo_converted : M ToolDefinition :=
  convert_operation (H:=hex_platform) "/tickets/{ticketId}/notes" "post" demo_path_item demo_operation.
Lemma demo_json : json_dicts (VDict demo_path_item) /\ json_dicts (VDict demo_operation).
Proof. simpl; split_and!; try done; apply (bool_decide_unpack _); vm_compute; exact I. Qed.

Lemma converted_tool_faithful_witness :
  exists t, demo_converted = Ok t /\ valid_tool t /\ tool_name t = "add_note" /\
    map argument_pointer (bindings (Models.operation t)) = ["/ticketId"; "/body/text"].
Proof.
  destruct demo_converted as [t|e] eqn:E; [|exfalso; revert E; vm_compute; discriminate]. exists t.
  split; [reflexivity|]. unfold demo_converted in E.
  destruct (converted_tool_faithful (H:=hex_platform) _ _ _ _ _ (proj2 demo_json) E) as
    (Hv & ps & props & names & effect & confirm & Hps & Hb & _ & _ & _ & _ & _ & _ & _ & _ & _ & _ & _ & _ & _ & Hid & Hname).
  split; [exact Hv|]. split.
  - revert Hid Hname. destruct (source_operation_id _) as [id|]; [|discriminate].
    intros [= <-]. vm_compute. congruence.
  - rewrite Hb. revert Hps. vm_compute. intros [= <-]. reflexivity.
Defined.

Lemma converted_tool_accepts_witness :
  exists t, demo_converted = Ok t /\
    map (fun v => draft_valid (VDict (input_schema t)) (VDict v))
      [ {{ "ticketId" ~> VInt 7; "body" ~> VDict {{ "text" ~> VNone }} }};
        {{ "ticketId" ~> VInt 0; "body" ~> VDict {{ "text" ~> VNone }} }};
        {{ "ticketId" ~> VInt 7 }};
        {{ "ticketId" ~> VInt 7; "body" ~> VDict {{ "text" ~> VStr "x"; "admin" ~> VBool true }} }} ] =
      [true; false; false; false].
Proof.
  destruct demo_converted as [t|e] eqn:E; [|exfalso; revert E; vm_compute; discriminate]. exists t.
  split; [reflexivity|]. unfold demo_converted in E.
  destruct (collect_parameters (H:=hex_platform) demo_path_item demo_operation) as [ps|e] eqn:Hps;
    [|exfalso; revert Hps; vm_compute; discriminate].
  pose proof (converted_tool_accepts (H1:=hex_platform) _ _ _ _ _ _ (proj1 demo_json) (proj2 demo_json) E Hps) as Ha.
  cbn [map]. rewrite !Ha. revert Hps. vm_compute. intros [= <-]. reflexivity.
Defined.

(** Errors that are no [ConversionError]: a path the model's pattern refuses, a
    parameter name that has to be escaped, an operation id without a letter. *)
Definition plain_parameter (name : string) : dict :=
  {{ "name" ~> VStr name; "in" ~> VStr "query"; "schema" ~> VDict {{ "type" ~> VStr "string" }} }}.
Lemma conversion_escapes `{Platform} :
  (exists m, convert_operation "/a b" "get" [] [] = Err (Raised PydanticValidationError m)) /\
  (exists m, convert_operation "/a" "get" [] {{ "parameters" ~> VList [VDict (plain_parameter "x/y")] }} =
             Err (Raised PydanticValidationError m)) /\
  (exists m, convert_operation "/a" "get" [] {{ "operationId" ~> VStr "---" }} = Err (Raised ValueError m)).
Proof. split_and!; eexists; vm_compute; reflexivity. Qed.
