(* ===== verification/Loader.v ===== *)
(** * Loading a source document

    [toollayer_openapi/loader.py]: the limits of ingestion, the two parsers with
    the hooks the code gives them, the walk that bounds the shape of what they
    return, and the checks on the document.  [json.loads] with hooks, PyYAML's
    loader and the strict UTF-8 decoder are the class [Parsers]; the check of
    the loader class at import time inspects a Python class and has no
    counterpart. *)

From S2P Require Export References CanonicalJson.
From Stdlib Require Import Floats.SpecFloat.

Record SourceLimits := MkSourceLimits {
  max_bytes : Z;
  max_depth : Z;
  max_nodes : Z;
  max_operations : Z;
}.
Definition default_limits : SourceLimits := MkSourceLimits (2 * 1024 * 1024) 64 200000 256.

Record LoadedDocument := MkLoaded {
  ld_document : dict;
  ld_spec_version : string;
  ld_filename : string;
  ld_digest : string;
  ld_byte_length : Z;
  ld_source_format : string;
}.

(** A key of a YAML mapping: its tag, and the object it constructs. *)
Definition yaml_key : Type := string * pyval.
(** What the parsers are given, and what they return or raise: the first calls
    its hooks on the pairs of every object and on the constants outside JSON;
    the second calls its constructor on the keys of every mapping and on what
    [construct_mapping] gives for it. *)
Class Parsers := {
  decode_utf8 : string -> M string;
  json_loads_hooked : (list (string * pyval) -> M pyval) -> (string -> M pyval) -> string -> M pyval;
  yaml_single_data : (list yaml_key -> M pyval -> M pyval) -> string -> M pyval;
}.

Definition strict_json_object_pairs (pairs : list (string * pyval)) : M pyval :=
  let* result := fold_result (fun result kv =>
    if has kv.1 result then
      raise (InvalidDocumentError "the document contains a duplicate object key" ("/" +:+ kv.1))
    else Ok (dset (KStr kv.1) kv.2 result)) pairs [] in
  Ok (VDict result).
Definition reject_constant (value : string) : M pyval :=
  raise (InvalidDocumentError "the document contains a non-finite number" "").

Definition MERGE_TAG : string := "tag:yaml.org,2002:merge".
Fixpoint no_duplicate_keys (seen : list pyval) (keys : list yaml_key) : M unit :=
  match keys with
  | [] => Ok tt
  | (tag, key) :: keys =>
      if String.eqb tag MERGE_TAG then
        raise (InvalidDocumentError "YAML merge keys are not supported; write the merged keys explicitly" "")
      else if negb (hashable key) then raise (InvalidDocumentError "object keys must be scalars" "")
      else if val_in key seen then raise (InvalidDocumentError "the document contains a duplicate mapping key" "")
      else no_duplicate_keys (key :: seen) keys
  end.
Definition no_duplicate_mapping (keys : list yaml_key) (construct_mapping : M pyval) : M pyval :=
  let* _ := no_duplicate_keys [] keys in
  construct_mapping.

Definition is_invalid_document (e : exn) : bool :=
  match e with ConversionError code _ _ => String.eqb code ErrorCode.INVALID_SOURCE_DOCUMENT | _ => false end.

Section parsers.
Context `{Parsers}.

Definition parse_json (text : string) : M pyval :=
  except (json_loads_hooked strict_json_object_pairs reject_constant text)
    (fun e => negb (is_invalid_document e) && is_value_error e)
    (fun _ => raise (InvalidDocumentError "the document is not well-formed JSON" "")).
Definition parse_yaml (text : string) : M pyval :=
  except
    (except (yaml_single_data no_duplicate_mapping text) (is_class RecursionError)
       (fun _ => raise (DocumentTooLargeError "the document nests too deeply")))
    (is_class YAMLError)
    (fun _ => raise (InvalidDocumentError "the document is not well-formed YAML" "")).
End parsers.

(** ** The walk over the parsed document *)

Definition non_finite (v : pyval) : bool :=
  match v with VFloat f => negb (finite_float f) | _ => false end.
(** [stack.append((value, depth + 1))] for the members of a dict, in order. *)
Fixpoint push_members (d : dict) (depth : Z) (stack : list (pyval * Z)) : M (list (pyval * Z)) :=
  match d with
  | [] => Ok stack
  | (KStr _, v) :: d => push_members d depth ((v, depth) :: stack)
  | (KOther _, _) :: _ => raise (InvalidDocumentError "object keys must be strings" "")
  end.
Definition push_items (l : list pyval) (depth : Z) (stack : list (pyval * Z)) : list (pyval * Z) :=
  foldl (fun stack v => (v, depth) :: stack) stack l.
(** The values the walk visits. *)
Fixpoint node_count (v : pyval) : nat :=
  match v with
  | VList l => S (list_sum (map node_count l))
  | VDict d => S (list_sum (map (fun kv => node_count kv.2) d))
  | _ => 1
  end.

Section walk.
Variable limits : SourceLimits.

Definition visit (current : pyval) (depth : Z) (stack : list (pyval * Z)) : M (list (pyval * Z)) :=
  match current with
  | VDict d => push_members d (depth + 1) stack
  | VList l => Ok (push_items l (depth + 1) stack)
  | _ => if non_finite current then raise (InvalidDocumentError "the document contains a non-finite number" "")
         else Ok stack
  end.
(** The fuel is the number of values to visit; [None] when it runs out. *)
Fixpoint walk_stack (fuel : nat) (stack : list (pyval * Z)) (nodes : Z) : option (M unit) :=
  match stack with
  | [] => Some (Ok tt)
  | (current, depth) :: stack =>
      match fuel with
      | O => None
      | S fuel =>
          let nodes := (nodes + 1)%Z in
          if (max_nodes limits <? nodes)%Z then Some (raise (DocumentTooLargeError "the document contains too many nodes"))
          else if (max_depth limits <? depth)%Z then Some (raise (DocumentTooLargeError "the document nests too deeply"))
          else
            match visit current depth stack with
            | Ok stack => walk_stack fuel stack nodes
            | Err e => Some (Err e)
            end
      end
  end.
Definition enforce_shape (node : pyval) : M unit :=
  default (Err (Raised AssertionError "the walk did not end")) (walk_stack (node_count node) [(node, 0%Z)] 0).
End walk.

(** ** Loading *)

Section load.
Context `{Parsers, Platform}.

Definition bom : string := String "239" (String "187" (String "191" "")).
Definition load_document (raw filename : string) (limits : SourceLimits) : M LoadedDocument :=
  if is_empty raw then raise (InvalidDocumentError "the uploaded document is empty" "")
  else if (max_bytes limits <? Z.of_nat (slen raw))%Z then
    raise (DocumentTooLargeError
      ("the uploaded document exceeds the " +:+ str_of_Z (max_bytes limits) +:+ " byte ingestion limit"))
  else if starts_with bom raw then
    raise (InvalidDocumentError "the uploaded document starts with a UTF-8 byte order mark" "")
  else
    let* text := except (decode_utf8 raw) (is_class UnicodeDecodeError)
                   (fun _ => raise (InvalidDocumentError "the uploaded document is not valid UTF-8" "")) in
    let stripped := lstrip_by is_space text in
    let is_json := starts_with "{" stripped || starts_with "[" stripped in
    let* parsed := if is_json then parse_json text else parse_yaml text in
    match parsed with
    | VDict document =>
        let* _ := enforce_shape limits parsed in
        match get "openapi" document with
        | VStr (String _ _ as version) =>
            if negb (starts_with "3." version) then
              raise (InvalidDocumentError "only OpenAPI 3.x documents are supported" "/openapi")
            else if negb (is_dict (get "paths" document)) then
              raise (InvalidDocumentError "the document must declare a 'paths' object" "/paths")
            else
              Ok (MkLoaded document version filename (digest_of raw) (Z.of_nat (slen raw))
                    (if is_json then "json" else "yaml"))
        | _ => raise (InvalidDocumentError "the document must declare a string 'openapi' version" "/openapi")
        end
    | _ => raise (InvalidDocumentError "the document root must be an object" "")
    end.
End load.

(** ** The walk enforces what it says *)

(** Keys are strings and floats finite, wherever the walk goes. *)
Fixpoint shaped (v : pyval) : bool :=
  match v with
  | VList l => forallb shaped l
  | VDict d => forallb (fun kv => is_str_key kv.1 && shaped kv.2) d
  | VFloat f => finite_float f
  | _ => true
  end.

Definition pending (stack : list (pyval * Z)) : nat := list_sum (map (fun vd => node_count vd.1) stack).
Lemma node_count_pos v : (1 <= node_count v)%nat.
Proof. destruct v; simpl; lia. Qed.
Lemma pending_app s t : pending (s ++ t) = (pending s + pending t)%nat.
Proof. unfold pending. by rewrite map_app, list_sum_app. Qed.

Section walk_spec.
Variable limits : SourceLimits.
(** What the walk still has to find true of a value at a depth. *)
Definition within_shape (vd : pyval * Z) : Prop :=
  (vd.2 + Z.of_nat (height vd.1) <= max_depth limits)%Z /\ shaped vd.1 = true.

Lemma push_items_app l depth stack : push_items l depth stack = rev (map (fun v => (v, depth)) l) ++ stack.
Proof.
  unfold push_items. revert stack. induction l as [|v l IH]; intros stack; [done|]. cbn [foldl map rev].
  by rewrite IH, <- app_assoc.
Qed.
Lemma push_members_spec d depth stack :
  match push_members d depth stack with
  | Ok stack' => forallb (fun kv => is_str_key kv.1) d = true /\
                 stack' = rev (map (fun kv => (kv.2, depth)) d) ++ stack
  | Err e => is_conversion_error e = true /\ forallb (fun kv => is_str_key kv.1) d = false
  end.
Proof.
  revert stack. induction d as [|[[k|k] v] d IH]; intros stack; [done| |done]. cbn [push_members].
  specialize (IH ((v, depth) :: stack)). destruct (push_members d depth _); [|done].
  destruct IH as [Hk ->]. split; [done|]. cbn [map rev]. by rewrite <- app_assoc.
Qed.
Lemma Forall_rev_map {A} (P : pyval * Z -> Prop) (f : A -> pyval * Z) l stack :
  Forall P (rev (map f l) ++ stack) <-> Forall (fun a => P (f a)) l /\ Forall P stack.
Proof.
  rewrite Forall_app. assert (Forall P (rev (map f l)) <-> Forall (fun a => P (f a)) l) as ->; [|done].
  rewrite <- (Forall_map f P l). split; intros H; [rewrite <- (rev_involutive (map f l)) in H|]; [|by apply Forall_rev].
  apply Forall_rev in H. by rewrite !rev_involutive in H.
Qed.
Lemma pending_rev_map {A} (f : A -> pyval) depth l stack :
  pending (rev (map (fun a => (f a, depth)) l) ++ stack) = (list_sum (map (fun a => node_count (f a)) l) + pending stack)%nat.
Proof.
  rewrite pending_app. f_equal. induction l as [|a l IH]; [done|]. cbn [map rev list_sum fold_right].
  rewrite pending_app, IH. unfold pending. cbn [map list_sum fold_right fst]. unfold list_sum. lia.
Qed.
(** A container fits when its children do, one deeper. *)
Lemma within_children {A} (f : A -> pyval) (q : A -> bool) l (v : pyval) depth :
  height v = list_max (map (fun a => S (height (f a))) l) ->
  shaped v = forallb (fun a => q a && shaped (f a)) l ->
  within_shape (v, depth) <->
    (depth <= max_depth limits)%Z /\ forallb q l = true /\ Forall (fun a => within_shape (f a, (depth + 1)%Z)) l.
Proof.
  intros Hh Hs. unfold within_shape. cbn [fst snd]. rewrite Hh, Hs. clear v Hh Hs.
  induction l as [|a l IH]; cbn [map list_max forallb fold_right].
  - split; [intros [? _]; split_and!; [lia|done|constructor]|]. intros (? & _ & _). split; [lia|done].
  - rewrite Forall_cons. cbn [fst snd]. fold (list_max (map (fun a => S (height (f a))) l)). rewrite !andb_true_iff.
    split.
    + intros (Hd & (Hq & Hsa) & Hl). destruct (proj1 IH) as (? & ? & ?); [split; [lia|done]|]. split_and!; try done; lia.
    + intros (Hd & (Hq & Hql) & (Hda & Hsa) & Hl). destruct (proj2 IH) as [? ?]; [done|]. split_and!; try done; lia.
Qed.
Lemma visit_spec v depth stack :
  (depth <= max_depth limits)%Z ->
  match visit v depth stack with
  | Ok stack' => pending stack' = (node_count v - 1 + pending stack)%nat /\
                 (Forall within_shape stack' <-> within_shape (v, depth) /\ Forall within_shape stack)
  | Err e => is_conversion_error e = true /\ ~ within_shape (v, depth)
  end.
Proof.
  intros Hd. unfold visit.
  assert (forall w, height w = O -> (within_shape (w, depth) <-> shaped w = true)) as Hleaf.
  { intros w Hh. unfold within_shape. cbn [fst snd]. rewrite Hh. split; [by intros []|]. intros. split; [lia|done]. }
  destruct v as [| | |f| |l| |d|];
    try match goal with |- context [within_shape (?w, depth)] => pose proof (Hleaf w eq_refl) as Hl end;
    cbn [non_finite shaped node_count] in *; try (split; [lia|tauto]).
  - destruct (finite_float f); cbn [negb]; [split; [lia|tauto]|]. split; [done|]. rewrite Hl. done.
  - rewrite push_items_app, (pending_rev_map id), (Forall_rev_map within_shape).
    rewrite (within_children id (fun _ => true) l); [|done|done].
    change (map (fun a => node_count (id a)) l) with (map node_count l). split; [lia|]. assert (forallb (fun _ : pyval => true) l = true) by (by apply forallb_forall).
    unfold id. tauto.
  - pose proof (push_members_spec d (depth + 1) stack) as Hp. 
    pose proof (within_children snd (fun kv => is_str_key kv.1) d (VDict d) depth eq_refl eq_refl) as Hw.
    destruct (push_members _ _ _); [|destruct Hp as [? Hp]; split; [done|]; rewrite Hw, Hp; by intros (_ & ? & _)].
    destruct Hp as [Hk ->]. rewrite (pending_rev_map snd), (Forall_rev_map within_shape).
    split; [lia|]. tauto.
Qed.
Lemma walk_spec fuel stack n :
  (pending stack <= fuel)%nat -> (n <= max_nodes limits)%Z \/ stack <> [] ->
  let fits := Forall within_shape stack /\ (n + Z.of_nat (pending stack) <= max_nodes limits)%Z in
  match walk_stack limits fuel stack n with
  | Some (Ok _) => fits
  | Some (Err e) => is_conversion_error e = true /\ ~ fits
  | None => False
  end.
Proof.
  revert stack n. induction fuel as [|fuel IH]; intros stack n Hf Hn; (destruct stack as [|[v depth] stack];
    [cbn; destruct Hn as [Hn|Hn]; [split; [constructor|lia]|done]|]).
  { unfold pending in Hf. cbn in Hf. pose proof (node_count_pos v). lia. }
  cbn [walk_stack]. assert (pending ((v, depth) :: stack) = node_count v + pending stack)%nat as Hp by done.
  rewrite Hp in *. pose proof (node_count_pos v) as Hpos. cbv zeta.
  destruct (Z.ltb_spec (max_nodes limits) (n + 1)); [split; [done|]; intros [_ ?]; lia|].
  destruct (Z.ltb_spec (max_depth limits) depth).
  { split; [done|]. intros [[[? _] _]%Forall_cons _]. cbn in *. lia. }
  pose proof (visit_spec v depth stack ltac:(lia)) as Hv.
  destruct (visit v depth stack) as [stack'|e]; [|destruct Hv as [? Hv]; split; [done|]; rewrite Forall_cons; tauto].
  destruct Hv as [Hpend Hw]. specialize (IH stack' (n + 1)%Z ltac:(lia) ltac:(left; lia)). cbv zeta in IH.
  rewrite <- Forall_cons in Hw.
  destruct (walk_stack limits fuel stack' (n + 1)) as [[u|e]|]; [|destruct IH as [? IH]; split; [done|]|done].
  - rewrite Hpend, Hw in IH. destruct IH as [? ?]. split; [done|]. lia.
  - rewrite <- Hw. intros [? ?]. apply IH. split; [done|]. lia.
Qed.
End walk_spec.

Definition fits (limits : SourceLimits) (v : pyval) : Prop :=
  (Z.of_nat (node_count v) <= max_nodes limits)%Z /\ (Z.of_nat (height v) <= max_depth limits)%Z /\ shaped v = true.
Lemma enforce_shape_spec limits v :
  match enforce_shape limits v with
  | Ok _ => fits limits v
  | Err e => is_conversion_error e = true /\ ~ fits limits v
  end.
Proof.
  pose proof (walk_spec limits (node_count v) [(v, 0%Z)] 0) as Hw. cbv zeta in Hw. unfold enforce_shape.
  assert (pending [(v, 0%Z)] = node_count v) as Hp by (unfold pending; cbn; lia).
  assert (Forall (within_shape limits) [(v, 0%Z)] /\ (0 + Z.of_nat (pending [(v, 0%Z)]) <= max_nodes limits)%Z <-> fits limits v) as Hfits.
  { rewrite Hp, Forall_cons, Forall_nil. unfold within_shape, fits. cbn [fst snd]. rewrite !Z.add_0_l. tauto. }
  specialize (Hw ltac:(lia) ltac:(by right)). destruct (walk_stack _ _ _ _) as [[[]|e]|]; cbn [default].
  - by apply Hfits.
  - split; [apply Hw|]. rewrite <- Hfits. apply Hw.
  - done.
Qed.

(** The walk enforces exactly its limits, and always ends: [enforce_shape]
    accepts a value when it visits at most [max_nodes] values, none deeper than
    [max_depth], every key it meets is a string and every float finite; and it
    refuses every other value with a [ConversionError]. *)
Theorem enforce_shape_exact :
  forall limits v,
    (fits limits v -> enforce_shape limits v = Ok tt) /\
    (~ fits limits v -> exists e, enforce_shape limits v = Err e /\ is_conversion_error e = true).
Proof.
  intros limits v. pose proof (enforce_shape_spec limits v) as Hs. destruct (enforce_shape limits v) as [[]|e].
  - split; [done|]. by intros [].
  - destruct Hs as [He Hn]. split; [done|]. eauto.
Qed.

(** ** What loading establishes *)

Lemma shaped_json v : wf v -> shaped v = true -> json_dicts v.
Proof.
  induction v as [| | | | |l IH|l IH|d IH|] using pyval_ind'; try done.
  - intros Hw Hs. cbn [wf] in Hw. rewrite (fold_right_Forall wf) in Hw. apply json_dicts_list.
    cbn [shaped] in Hs. rewrite forallb_Forall in Hs. rewrite Forall_forall in *. auto.
  - intros [Hok Hw] Hs. rewrite (fold_right_Forall (fun kv => wf kv.2)) in Hw. apply json_dicts_dict. split; [done|].
    cbn [shaped] in Hs. rewrite forallb_Forall in Hs. rewrite Forall_forall in *. intros kv Hkv.
    specialize (Hs kv Hkv). apply andb_true_iff in Hs as [Hk Hs]. auto.
Qed.

(** What a parser raises that the code around it does not handle. *)
Definition parser_escape `{Parsers} (raw : string) (e : exn) : Prop :=
  (decode_utf8 raw = Err e /\ is_class UnicodeDecodeError e = false) \/
  exists text, decode_utf8 raw = Ok text /\
    ((json_loads_hooked strict_json_object_pairs reject_constant text = Err e /\ is_value_error e = false) \/
     (yaml_single_data no_duplicate_mapping text = Err e /\
      is_class RecursionError e = false /\ is_class YAMLError e = false)).

Section loading.
Context `{Parsers, Platform}.

Lemma parse_json_Err text e :
  parse_json text = Err e ->
  is_conversion_error e = true \/
  (json_loads_hooked strict_json_object_pairs reject_constant text = Err e /\ is_value_error e = false).
Proof.
  unfold parse_json. destruct (json_loads_hooked _ _ _) as [v|e']; cbn [except]; [done|].
  destruct (is_invalid_document e') eqn:Hi; cbn [negb andb].
  - intros [= <-]. left. by destruct e'.
  - destruct (is_value_error e') eqn:Hv; intros [= <-]; [by left|by right].
Qed.
Lemma parse_yaml_Err text e :
  parse_yaml text = Err e ->
  is_conversion_error e = true \/
  (yaml_single_data no_duplicate_mapping text = Err e /\ is_class RecursionError e = false /\ is_class YAMLError e = false).
Proof.
  unfold parse_yaml. destruct (yaml_single_data _ _) as [v|e']; cbn [except]; [done|].
  destruct (is_class RecursionError e') eqn:Hr; cbn [except].
  - intros [= <-]. by left.
  - destruct (is_class YAMLError e') eqn:Hy; intros [= <-]; [by left|by right].
Qed.

Definition loaded_well (raw filename : string) (limits : SourceLimits) (ld : LoadedDocument) : Prop :=
  (0 < Z.of_nat (slen raw) <= max_bytes limits)%Z /\
  (Z.of_nat (node_count (VDict (ld_document ld))) <= max_nodes limits)%Z /\
  (Z.of_nat (height (VDict (ld_document ld))) <= max_depth limits)%Z /\
  shaped (VDict (ld_document ld)) = true /\
  get "openapi" (ld_document ld) = VStr (ld_spec_version ld) /\ starts_with "3." (ld_spec_version ld) = true /\
  is_dict (get "paths" (ld_document ld)) = true /\
  ld_filename ld = filename /\ ld_digest ld = digest_of raw /\ ld_byte_length ld = Z.of_nat (slen raw) /\
  exists text, decode_utf8 raw = Ok text /\
    ((ld_source_format ld = "json" /\ parse_json text = Ok (VDict (ld_document ld))) \/
     (ld_source_format ld = "yaml" /\ parse_yaml text = Ok (VDict (ld_document ld)))).

Lemma load_document_outcome :
  forall raw filename limits,
    match load_document raw filename limits with
    | Ok ld => loaded_well raw filename limits ld
    | Err e => is_conversion_error e = true \/ parser_escape raw e
    end.
Proof.
  intros raw filename limits. unfold load_document.
  destruct (is_empty raw) eqn:He; [by left|]. destruct (Z.ltb_spec (max_bytes limits) (Z.of_nat (slen raw))) as [|Hl]; [by left|].
  destruct (starts_with bom raw); [by left|].
  destruct (decode_utf8 raw) as [text|e] eqn:Ed; cbn [except bind].
  2:{ destruct (is_class UnicodeDecodeError e) eqn:Eu; cbn [bind]; [by left|]. right. left. done. }
  set (is_json := starts_with "{" _ || _).
  destruct (if is_json then parse_json text else parse_yaml text) as [v|e] eqn:Ep; cbn [bind].
  2:{ destruct is_json; [apply parse_json_Err in Ep as [?|?]|apply parse_yaml_Err in Ep as [?|?]]; try (by left);
      right; right; exists text; auto. }
  destruct v as [| | | | | | |document|]; try by left.
  pose proof (enforce_shape_spec limits (VDict document)) as Hfits.
  destruct (enforce_shape limits (VDict document)) as [u|e]; cbn [bind]; [|left; apply Hfits].
  destruct (get "openapi" document) as [| | | |[|c version]| | | |] eqn:Ev; try by left.
  destruct (starts_with "3." _) eqn:E3; cbn [negb]; [|by left].
  destruct (is_dict (get "paths" document)) eqn:Epaths; cbn [negb]; [|by left].
  unfold loaded_well. cbn [ld_document ld_spec_version ld_filename ld_digest ld_byte_length ld_source_format].
  assert (0 < Z.of_nat (slen raw))%Z by (destruct raw; [done|]; simpl; lia).
  destruct Hfits as (? & ? & ?).
  split_and!; try done. exists text. split; [done|]. destruct is_json; [by left|by right].
Qed.
(** Every mapping a parser builds is a dict: no key occurs twice. *)
Class PythonValues := {
  json_wf text v : json_loads_hooked strict_json_object_pairs reject_constant text = Ok v -> wf v;
  yaml_wf text v : yaml_single_data no_duplicate_mapping text = Ok v -> wf v;
}.
Lemma load_document_json `{!PythonValues} raw filename limits ld :
  load_document raw filename limits = Ok ld -> loaded_well raw filename limits ld /\ json_dicts (VDict (ld_document ld)).
Proof.
  intros Hl. pose proof (load_document_outcome raw filename limits) as Ho. rewrite Hl in Ho. split; [done|].
  destruct Ho as (_ & _ & _ & Hs & _ & _ & _ & _ & _ & _ & text & _ & Hp). apply shaped_json; [|done].
  unfold parse_json, parse_yaml in Hp. destruct Hp as [[_ Hp]|[_ Hp]].
  - destruct (json_loads_hooked _ _ _) eqn:E; cbn [except] in Hp; [|by destruct (_ && _)].
    injection Hp as ->. by eapply json_wf.
  - destruct (yaml_single_data _ _) eqn:E; cbn [except] in Hp.
    + injection Hp as ->. by eapply yaml_wf.
    + destruct (is_class RecursionError _); cbn [except] in Hp; by destruct (is_class YAMLError _).
Qed.

End loading.

Definition demo_limits : SourceLimits := MkSourceLimits 100 2 4 1.
Lemma enforce_shape_exact_witness :
  enforce_shape demo_limits (VDict {{ "a" ~> VList [VInt 1; VNone] }}) = Ok tt /\
  (exists e, enforce_shape demo_limits (VList [VList [VList []]; VNone; VNone]) = Err e /\ is_conversion_error e = true).
Proof.
  split.
  - apply (proj1 (enforce_shape_exact demo_limits (VDict {{ "a" ~> VList [VInt 1; VNone] }}))).
    split; [vm_compute; discriminate|]. split; [vm_compute; discriminate|reflexivity].
  - apply (proj2 (enforce_shape_exact demo_limits (VList [VList [VList []]; VNone; VNone]))).
    intros [H _]. revert H. vm_compute. intros H. by apply H.
Defined.
