(* ===== verification/Review.v ===== *)
(** * Review

    [control_plane/review.py]: the decisions recorded about an analysis, how an
    update changes them, and whether the reviewed draft can be published.  The
    dataclasses read from stored documents check no types, so the fields that
    only annotations call literals are Python values here. *)

From S2P Require Export Models PyRepr.

Definition MAX_DESCRIPTION : nat := 1024.

Record OperationReview := MkReview {
  or_operation_key : string;
  or_selection : pyval;
  or_description : string;
  or_description_origin : pyval;
  or_effect_class : pyval;
  or_requires_confirmation : bool;
  or_access_mode : pyval;
  or_allowed_roles : list pyval;
}.
Definition review_to_dict (r : OperationReview) : pyval :=
  VDict {{ "operation_key" ~> VStr (or_operation_key r);
           "selection" ~> or_selection r;
           "description" ~> VStr (or_description r);
           "description_origin" ~> or_description_origin r;
           "effect_class" ~> or_effect_class r;
           "requires_confirmation" ~> VBool (or_requires_confirmation r);
           "access_mode" ~> or_access_mode r;
           "allowed_roles" ~> VList (or_allowed_roles r) }}.

Abbreviation ReviewState := (list OperationReview).
Definition state_to_dict (s : ReviewState) : dict := {{ "operations" ~> VList (map review_to_dict s) }}.
Definition state_get (s : ReviewState) (operation_key : string) : option OperationReview :=
  find_first (fun e => String.eqb (or_operation_key e) operation_key) s.
Definition is_included (r : OperationReview) : bool := is_the_str "included" (or_selection r).
Definition included (s : ReviewState) : list OperationReview := List.filter is_included s.

Record ReviewUpdate := MkUpdate {
  up_operation_key : string;
  up_selection : option string;
  up_description : option string;
  up_description_origin : option string;
  up_effect_class : option string;
  up_requires_confirmation : option bool;
  up_access_mode : option string;
  up_allowed_roles : option (list string);
}.

Section review.
Context `{Platform}.

Definition review_from_dict (payload : pyval) : M OperationReview :=
  let* key := subscript "operation_key" payload in
  let* selection := get_attr "selection" (VStr "included") payload in
  let* description := get_attr "description" (VStr "") payload in
  let* origin := get_attr "description_origin" (VStr "source") payload in
  let* effect := get_attr "effect_class" (VStr "read") payload in
  let* confirmation := get_attr "requires_confirmation" (VBool false) payload in
  let* mode := get_attr "access_mode" (VStr "public") payload in
  let* roles := let* v := get_attr "allowed_roles" (VTuple []) payload in py_iter v in
  Ok (MkReview (py_str key) selection (py_str description) origin effect (truthy confirmation) mode roles).
Definition state_from_dict (payload : dict) : M ReviewState :=
  let* raw := py_iter (get_or "operations" (VList []) payload) in
  map_result review_from_dict raw.

(** [tuple(sorted(roles))] then the model's constructor. *)
Definition role_name (v : pyval) : M string :=
  match v with VStr s => Ok s | _ => type_error "'<' not supported between instances" end.
Definition access_policy `{Pydantic} (r : OperationReview) : M ToolAccessPolicy :=
  let* roles := map_result role_name (or_allowed_roles r) in
  parse_access (VDict {{ "access_mode" ~> or_access_mode r;
                         "allowed_roles" ~> VTuple (map VStr (sorted_strs roles)) }}).

(** ** The initial state *)

Definition initial_entry (operation : pyval) : M (option OperationReview) :=
  let* tool := get_attr "tool" VNone operation in
  if is_vnone tool then Ok None
  else
    let* policy := get_attr "policy" (VDict []) tool in
    let* access := get_attr "access" (VDict []) policy in
    let* key := subscript "key" operation in
    let* description := subscript "description" tool in
    let* provenance := get_attr "provenance" (VDict []) tool in
    let* origin := get_attr "description_origin" (VStr "source") provenance in
    let* effect := get_attr "effect_class" (VStr "read") policy in
    let* confirmation := get_attr "requires_confirmation" (VBool false) policy in
    let* mode := get_attr "access_mode" (VStr "public") access in
    let* roles := let* v := get_attr "allowed_roles" (VTuple []) access in py_iter v in
    Ok (Some (MkReview (py_str key) (VStr "included") (py_str description) origin effect
                (truthy confirmation) mode roles)).
Definition opt_list {A} (o : option A) : list A := match o with Some a => [a] | None => [] end.
Definition build_initial_review (analysis : dict) : M ReviewState :=
  let* operations := py_iter (get_or "operations" (VList []) analysis) in
  let* entries := map_result initial_entry operations in
  Ok (concat (map opt_list entries)).

(** ** Updates *)

Definition review_error {A} (m pointer : string) : M A := raise (ValidationError m pointer).

Definition update_selection (u : ReviewUpdate) (r : OperationReview) : M pyval :=
  match up_selection u with
  | None => Ok (or_selection r)
  | Some s =>
      if str_in s ["included"; "excluded"] then Ok (VStr s)
      else review_error "selection must be 'included' or 'excluded'" "/selection"
  end.
Definition update_description (u : ReviewUpdate) (r : OperationReview) : M (string * pyval) :=
  match up_description u with
  | Some description =>
      let text := strip description in
      if is_empty text then review_error "a description may not be empty" "/description"
      else if (MAX_DESCRIPTION <? slen text)%nat then
        review_error ("a description may not exceed " +:+ str_of_N (N.of_nat MAX_DESCRIPTION) +:+ " characters")
          "/description"
      else
        let origin := match up_description_origin u with
                      | Some o => if is_empty o then "human" else o
                      | None => "human"
                      end in
        Ok (text, VStr origin)
  | None =>
      Ok (or_description r,
          match up_description_origin u with Some o => VStr o | None => or_description_origin r end)
  end.
Definition update_effect (u : ReviewUpdate) (r : OperationReview) : M pyval :=
  match up_effect_class u with
  | None => Ok (or_effect_class r)
  | Some e =>
      if str_in e ["read"; "write"; "destructive"] then Ok (VStr e)
      else review_error "effect_class is not a supported value" "/effect_class"
  end.
Definition update_access `{Pydantic} (u : ReviewUpdate) (r : OperationReview) : M (pyval * list pyval) :=
  match up_access_mode u, up_allowed_roles u with
  | None, None => Ok (or_access_mode r, or_allowed_roles r)
  | mode, roles =>
      let mode := match mode with Some m => VStr m | None => or_access_mode r end in
      let roles := match roles with Some l => map VStr l | None => or_allowed_roles r end in
      let* policy :=
        except (parse_access (VDict {{ "access_mode" ~> mode; "allowed_roles" ~> VTuple roles }}))
          (fun _ => true)
          (fun e => review_error (hd "" (split_on "010" (exn_message e))) "/access") in
      Ok (VStr (text_of access_modes (access_mode policy)), map VStr (allowed_roles policy))
  end.
Definition updated_entry `{Pydantic} (u : ReviewUpdate) (r : OperationReview) : M OperationReview :=
  let* selection := update_selection u r in
  let* d := update_description u r in
  let* effect := update_effect u r in
  let confirmation := match up_requires_confirmation u with
                      | Some b => b
                      | None => or_requires_confirmation r
                      end in
  let* a := update_access u r in
  Ok (MkReview (or_operation_key r) selection d.1 d.2 effect confirmation a.1 a.2).
Definition apply_update `{Pydantic} (s : ReviewState) (u : ReviewUpdate) : M ReviewState :=
  match state_get s (up_operation_key u) with
  | None => review_error "the draft has no reviewable operation with that key" "/operation_key"
  | Some existing =>
      let* updated := updated_entry u existing in
      Ok (map (fun e => if String.eqb (or_operation_key e) (up_operation_key u) then updated else e) s)
  end.

(** ** Readiness *)

(** [{str(op["key"]) for op in operations if op.get("tool") is not None}], in order. *)
Definition tool_operation (operation : pyval) : M (option (string * pyval)) :=
  let* tool := get_attr "tool" VNone operation in
  if is_vnone tool then Ok None
  else let* key := subscript "key" operation in Ok (Some (py_str key, operation)).
Definition tool_operations (analysis : dict) : M (list (string * pyval)) :=
  let* operations := py_iter (get_or "operations" (VList []) analysis) in
  let* found := map_result tool_operation operations in
  Ok (concat (map opt_list found)).

Definition same_set (l1 l2 : list string) : bool :=
  forallb (fun s => str_in s l2) l1 && forallb (fun s => str_in s l1) l2.
Definition entry_issues (e : OperationReview) : list string :=
  (if is_the_str "generated" (or_description_origin e) then
     ["publication.description_placeholder:" +:+ or_operation_key e] else []) ++
  (if is_the_str "restricted" (or_access_mode e) && match or_allowed_roles e with [] => true | _ => false end then
     ["publication.restricted_without_roles:" +:+ or_operation_key e] else []).
(** The issues; the draft is ready when there are none. *)
Definition review_readiness (analysis : dict) (s : ReviewState) (base_url : option string) : M (list string) :=
  let missing := match base_url with Some u => is_empty u | None => true end in
  let* analyzed := tool_operations analysis in
  Ok ((if missing then ["publication.base_url_missing"] else []) ++
      (match included s with [] => ["publication.no_operation_selected"] | _ => [] end) ++
      (if same_set (map or_operation_key s) analyzed.*1 then [] else ["publication.review_out_of_sync"]) ++
      concat (map entry_issues (included s))).
End review.

(** ** Lemmas *)

Section review_lemmas.
Context `{Platform}.

Lemma review_from_to_dict r : review_from_dict (review_to_dict r) = Ok r.
Proof. by destruct r as [k s d o e c m l], c. Qed.
Lemma state_from_to_dict s : state_from_dict (state_to_dict s) = Ok s.
Proof.
  apply map_result_Ok. induction s; constructor; [apply review_from_to_dict | done].
Qed.

Lemma is_the_str_true s v : is_the_str s v = true <-> v = VStr s.
Proof. unfold is_the_str. split; [apply py_eq_str | intros ->; apply String.eqb_refl]. Qed.

Lemma state_get_Some s k e : state_get s k = Some e -> e ∈ s /\ or_operation_key e = k.
Proof. intros [? ?%String.eqb_eq]%find_first_Some. done. Qed.

(** A decision the published artifact accepts. *)
Record decision_ok `{Pydantic} (r : OperationReview) : Prop := {
  do_selection : or_selection r = VStr "included" \/ or_selection r = VStr "excluded";
  do_description : or_description r <> "" /\ (slen (or_description r) <= 1024)%nat;
  do_effect : exists e : EffectClass, or_effect_class r = VStr (text_of effect_classes e);
  do_access : exists a, access_ok a /\ or_access_mode r = VStr (text_of access_modes (access_mode a)) /\
    or_allowed_roles r = map VStr (allowed_roles a);
}.

Lemma max_description : MAX_DESCRIPTION = 1024%nat.
Proof. apply Nat2N.inj. vm_compute. reflexivity. Qed.

Lemma parse_access_ok `{Pydantic} v a : parse_access v = Ok a -> access_ok a.
Proof.
  unfold parse_access. intros (d & _ & (m & _ & (r & _ & Ha)%bind_Ok)%bind_Ok)%bind_Ok.
  by apply ToolAccessPolicy_new_Ok in Ha as [_ ?].
Qed.

(** What one update may change, and how. *)
Record updated `{Pydantic} (u : ReviewUpdate) (r r' : OperationReview) : Prop := {
  upd_key : or_operation_key r' = or_operation_key r;
  upd_selection : match up_selection u with
                  | None => or_selection r' = or_selection r
                  | Some s => or_selection r' = VStr s /\ s ∈ ["included"; "excluded"]
                  end;
  upd_description : match up_description u with
                    | None => or_description r' = or_description r /\
                        or_description_origin r' =
                          match up_description_origin u with Some o => VStr o | None => or_description_origin r end
                    | Some d => or_description r' = strip d /\ strip d <> "" /\ (slen (strip d) <= 1024)%nat /\
                        (up_description_origin u = None -> or_description_origin r' = VStr "human")
                    end;
  upd_effect : match up_effect_class u with
               | None => or_effect_class r' = or_effect_class r
               | Some e => or_effect_class r' = VStr e /\ e ∈ ["read"; "write"; "destructive"]
               end;
  upd_confirmation : or_requires_confirmation r' =
    match up_requires_confirmation u with Some b => b | None => or_requires_confirmation r end;
  upd_access : (up_access_mode u = None /\ up_allowed_roles u = None /\
                or_access_mode r' = or_access_mode r /\ or_allowed_roles r' = or_allowed_roles r) \/
    exists a, access_ok a /\ or_access_mode r' = VStr (text_of access_modes (access_mode a)) /\
      or_allowed_roles r' = map VStr (allowed_roles a) /\
      parse_access (VDict {{
        "access_mode" ~> match up_access_mode u with Some m => VStr m | None => or_access_mode r end;
        "allowed_roles" ~> VTuple (match up_allowed_roles u with
                                   | Some l => map VStr l | None => or_allowed_roles r end) }}) = Ok a;
}.

Lemma update_selection_Ok u r s :
  update_selection u r = Ok s ->
  match up_selection u with None => s = or_selection r | Some t => s = VStr t /\ t ∈ ["included"; "excluded"] end.
Proof.
  unfold update_selection, str_in. destruct (up_selection u); [|by intros [= <-]].
  case_bool_decide; [by intros [= <-] | done].
Qed.
Lemma update_effect_Ok u r s :
  update_effect u r = Ok s ->
  match up_effect_class u with
  | None => s = or_effect_class r
  | Some t => s = VStr t /\ t ∈ ["read"; "write"; "destructive"]
  end.
Proof.
  unfold update_effect, str_in. destruct (up_effect_class u); [|by intros [= <-]].
  case_bool_decide; [by intros [= <-] | done].
Qed.
Lemma update_description_Ok u r d :
  update_description u r = Ok d ->
  match up_description u with
  | None => d = (or_description r,
                 match up_description_origin u with Some o => VStr o | None => or_description_origin r end)
  | Some t => d.1 = strip t /\ strip t <> "" /\ (slen (strip t) <= 1024)%nat /\
      (up_description_origin u = None -> d.2 = VStr "human")
  end.
Proof.
  unfold update_description. destruct (up_description u) as [t|]; [|by intros [= <-]].
  rewrite max_description. destruct (is_empty (strip t)) eqn:E; [done|].
  destruct (Nat.ltb_spec 1024 (slen (strip t))); [done|]. intros [= <-]. cbn [fst snd].
  split_and!; [done| |lia|by intros ->]. intros E'. by rewrite E' in E.
Qed.

Lemma updated_entry_Ok `{Pydantic} u r r' : updated_entry u r = Ok r' -> updated u r r'.
Proof.
  unfold updated_entry.
  intros (s & Hs%update_selection_Ok & (d & Hd%update_description_Ok & (e & He%update_effect_Ok &
    (a & Ha & [= <-])%bind_Ok)%bind_Ok)%bind_Ok)%bind_Ok.
  split; cbn [or_operation_key or_selection or_description or_description_origin or_effect_class
              or_requires_confirmation or_access_mode or_allowed_roles]; try done.
  - destruct (up_description u); [done|]. by subst.
  - unfold update_access in Ha.
    destruct (up_access_mode u) as [m|], (up_allowed_roles u) as [l|];
      try (apply bind_Ok in Ha as (p & Hp & [= <-]); right; exists p; unfold except in Hp;
           destruct (parse_access _) as [p'|e'] eqn:E; [|done]; injection Hp as ->;
           split; [by eapply parse_access_ok|done]).
    injection Ha as <-. by left.
Qed.

Lemma update_fails `{Pydantic} u r e :
  updated_entry u r = Err e -> exn_code e = Some ErrorCode.INVALID_REQUEST.
Proof.
  unfold updated_entry. intros [Hs|(s & _ & [Hd|(d & _ & [He|(ef & _ & [Ha|(a & _ & Hx)]%bind_Err)]%bind_Err)]%bind_Err)]%bind_Err.
  - unfold update_selection in Hs. destruct (up_selection u); [|done]. destruct (str_in _ _); [done|by injection Hs as <-].
  - unfold update_description in Hd. destruct (up_description u); [|done].
    destruct (is_empty _); [by injection Hd as <-|]. destruct (_ <? _)%nat; [by injection Hd as <-|done].
  - unfold update_effect in He. destruct (up_effect_class u); [|done]. destruct (str_in _ _); [done|by injection He as <-].
  - unfold update_access, except in Ha. destruct (up_access_mode u), (up_allowed_roles u); try done;
      apply bind_Err in Ha as [Ha|(p & _ & Ha)]; try done; destruct (parse_access _); try done; by injection Ha as <-.
  - done.
Qed.

Lemma updated_decision_ok `{Pydantic} u r r' : decision_ok r -> updated u r r' -> decision_ok r'.
Proof.
  intros [Hs Hd He Ha] [_ Us Ud Ue _ Ua]. split.
  - destruct (up_selection u); [|by rewrite Us]. destruct Us as [-> Hin].
    apply elem_of_cons in Hin as [->| ->%list_elem_of_singleton]; auto.
  - destruct (up_description u) as [t|]; [|by destruct Ud as [-> _]]. destruct Ud as (-> & ? & ? & _). done.
  - destruct (up_effect_class u) as [t|]; [|by rewrite Ue]. destruct Ue as [-> Hin].
    repeat (apply elem_of_cons in Hin as [->|Hin]);
      [by exists EffectRead|by exists EffectWrite|by exists EffectDestructive|by apply elem_of_nil in Hin].
  - destruct Ua as [(_ & _ & -> & ->)|(a & Hok & -> & -> & _)]; [done|]. by exists a.
Qed.
End review_lemmas.

(** ** Properties *)

(** An update changes one decision and nothing else: [apply_update] succeeds
    only on an operation under review, keeps every key and every other entry,
    leaves each field it does not name as it was, accepts only values the
    published artifact accepts, so well-formed decisions stay well formed, and
    otherwise raises INVALID_REQUEST; and what is stored reads back as it was. *)
Theorem apply_update_frame `{Platform, Pydantic} :
  forall s u,
    (forall s', apply_update s u = Ok s' ->
       map or_operation_key s' = map or_operation_key s /\
       (exists r r', state_get s (up_operation_key u) = Some r /\ updated u r r' /\
          s' = map (fun e => if String.eqb (or_operation_key e) (up_operation_key u) then r' else e) s) /\
       (Forall decision_ok s -> Forall decision_ok s') /\
       state_from_dict (state_to_dict s') = Ok s') /\
    (forall e, apply_update s u = Err e -> exn_code e = Some ErrorCode.INVALID_REQUEST).
Proof.
  intros s u. unfold apply_update. split.
  - intros s'. destruct (state_get s (up_operation_key u)) as [r|] eqn:Hr; [|done].
    intros (r' & Hu%updated_entry_Ok & [= <-])%bind_Ok.
    pose proof (state_get_Some _ _ _ Hr) as [Hin Hk]. split_and!.
    + rewrite map_map. apply map_ext. intros e. destruct (String.eqb_spec (or_operation_key e) (up_operation_key u)); [|done].
      rewrite (upd_key _ _ _ Hu). congruence.
    + by exists r, r'.
    + intros Hok. rewrite Forall_forall in Hok |- *. intros e' He'.
      apply list_elem_of_In, in_map_iff in He' as (e & <- & He%list_elem_of_In).
      destruct (String.eqb _ _); [|auto]. apply (updated_decision_ok u r); auto.
    + apply state_from_to_dict.
  - intros e. destruct (state_get s (up_operation_key u)); [|by intros [= <-]].
    intros [He|(r' & _ & He)]%bind_Err; [by apply update_fails in He | done].
Qed.

(** A draft is ready for publication exactly when it has a base URL, at least
    one included operation, decisions for exactly the analyzed operations that
    have a tool, and among the included ones no generated placeholder
    description and no restricted tool without roles. *)
Theorem readiness_exact `{Platform} :
  forall analysis s base_url analyzed, tool_operations analysis = Ok analyzed ->
    review_readiness analysis s base_url = Ok [] <->
    (exists u, base_url = Some u /\ u <> "") /\ included s <> [] /\
    (forall k, k ∈ map or_operation_key s <-> k ∈ analyzed.*1) /\
    Forall (fun r => or_description_origin r <> VStr "generated" /\
                     ~ (or_access_mode r = VStr "restricted" /\ or_allowed_roles r = [])) (included s).
Proof.
  intros analysis s base analyzed Ha. unfold review_readiness. rewrite Ha. cbn [bind].
  assert (same_set (map or_operation_key s) analyzed.*1 = true <->
          (forall k, k ∈ map or_operation_key s <-> k ∈ analyzed.*1)) as Hset.
  { unfold same_set, str_in. rewrite andb_true_iff, !forallb_Forall, !Forall_forall.
    setoid_rewrite bool_decide_eq_true. naive_solver. }
  assert (concat (map entry_issues (included s)) = [] <->
    Forall (fun r => or_description_origin r <> VStr "generated" /\
                     ~ (or_access_mode r = VStr "restricted" /\ or_allowed_roles r = [])) (included s)) as Hiss.
  { induction (included s) as [|e l IH]; simpl; [done|]. rewrite app_nil, Forall_cons, IH.
    enough (entry_issues e = [] <-> or_description_origin e <> VStr "generated" /\
              ~ (or_access_mode e = VStr "restricted" /\ or_allowed_roles e = [])) as ->; [done|].
    unfold entry_issues. pose proof (is_the_str_true "generated" (or_description_origin e)) as H1'.
    pose proof (is_the_str_true "restricted" (or_access_mode e)) as H2'.
    destruct (is_the_str "generated" _), (is_the_str "restricted" _), (or_allowed_roles e); simpl; naive_solver. }
  split.
  - intros Hr. injection Hr as Hr. apply app_nil in Hr as [H1 Hr]. apply app_nil in Hr as [H2 Hr].
    apply app_nil in Hr as [H3 H4]. apply Hiss in H4. split_and!; [| | |done].
    + destruct base as [u|]; [|done]. exists u. split; [done|]. by destruct u.
    + by destruct (included s).
    + apply Hset. by destruct (same_set _ _).
  - intros ((u & -> & Hu) & Hi & Hk%Hset & Hf%Hiss). rewrite Hf, Hk.
    destruct u; [done|]. by destruct (included s).
Qed.

(** ** A concrete draft for the witnesses *)

Definition demo_analysis : dict :=
  {{ "base_url" ~> VStr "https://api.example.org/v1";
     "operations" ~> VList [
       VDict {{ "key" ~> VStr "POST /tickets/{ticket_id}/notes"; "tool" ~> dump_tool demo_tool }};
       VDict {{ "key" ~> VStr "GET /broken"; "tool" ~> VNone }}] }}.
Definition demo_review : ReviewState :=
  match @build_initial_review demo_platform demo_analysis with Ok s => s | Err _ => [] end.
Definition demo_update : ReviewUpdate :=
  MkUpdate "POST /tickets/{ticket_id}/notes" None (Some " Adds a note. ") None None None (Some "restricted")
    (Some ["support-lead"; "admin"]).

Example demo_review_state : @build_initial_review demo_platform demo_analysis =
  Ok [MkReview "POST /tickets/{ticket_id}/notes" (VStr "included") "Add a note to a ticket." (VStr "source")
        (VStr "write") true (VStr "restricted") [VStr "support-agent"]].
Proof. vm_compute. reflexivity. Qed.

Lemma apply_update_frame_witness :
  exists s', @apply_update demo_pydantic demo_review demo_update = Ok s' /\
    map or_allowed_roles s' = [[VStr "admin"; VStr "support-lead"]] /\
    map or_operation_key s' = map or_operation_key demo_review.
Proof.
  destruct (@apply_update demo_pydantic demo_review demo_update) as [s'|e] eqn:E.
  - destruct (proj1 (@apply_update_frame demo_platform demo_pydantic demo_review demo_update) s' E) as (H1 & _).
    exists s'. split; [reflexivity|]. split; [|exact H1]. revert E. vm_compute. intros [= <-]. reflexivity.
  - exfalso. revert E. vm_compute. discriminate.
Defined.

Lemma readiness_exact_witness :
  @review_readiness demo_platform demo_analysis demo_review (Some "https://api.example.org/v1") = Ok [] /\
  included demo_review <> [].
Proof.
  destruct (@tool_operations demo_platform demo_analysis) as [analyzed|e] eqn:E;
    [|exfalso; revert E; vm_compute; discriminate].
  assert (@review_readiness demo_platform demo_analysis demo_review (Some "https://api.example.org/v1") = Ok []) as Hr
    by (vm_compute; reflexivity).
  split; [exact Hr|].
  exact (proj1 (proj2 (proj1 (@readiness_exact demo_platform demo_analysis demo_review
    (Some "https://api.example.org/v1") analyzed E) Hr))).
Defined.
