(* ===== verification/Publication.v ===== *)
(** * Publication

    [control_plane/publication.py]: rebuilding the connector document a reviewed
    draft describes from the stored analysis and the stored decisions. *)

From S2P Require Export Review Validation.

(** Timestamps: whole seconds, in UTC, either aware of it or naive, which is
    all [utc_now] and the databases give. *)
Record datetime := MkTime {
  tm_year : Z; tm_month : Z; tm_day : Z; tm_hour : Z; tm_minute : Z; tm_second : Z;
  tm_aware : bool;
}.
Fixpoint zeros (n : nat) : string := match n with O => "" | S n => String "0" (zeros n) end.
Definition pad (width : nat) (z : Z) : string :=
  let s := str_of_Z z in zeros (width - slen s) +:+ s.
Definition isoformat (t : datetime) : string :=
  pad 4 (tm_year t) +:+ "-" +:+ pad 2 (tm_month t) +:+ "-" +:+ pad 2 (tm_day t) +:+ "T" +:+
  pad 2 (tm_hour t) +:+ ":" +:+ pad 2 (tm_minute t) +:+ ":" +:+ pad 2 (tm_second t) +:+
  (if tm_aware t then "+00:00" else "").
Definition as_utc (t : datetime) : datetime :=
  MkTime (tm_year t) (tm_month t) (tm_day t) (tm_hour t) (tm_minute t) (tm_second t) true.
Definition rfc3339 (t : datetime) : string := replace "+00:00" "Z" (isoformat (as_utc t)).

Definition NotReadyForPublication (issues : list string) : exn :=
  ToolLayerError (MkError ErrorCode.NOT_READY_FOR_PUBLICATION
    "the reviewed draft is not ready for publication" None [] issues).

Record BuiltConnector := MkBuilt { bc_document : dict; bc_digest : string; bc_tool_count : nat }.

(** The arguments of [build_connector_document]. *)
Record build_input := MkBuild {
  bi_connector_key : string;
  bi_display_name : string;
  bi_summary : string;
  bi_version : string;
  bi_analysis : dict;
  bi_review : ReviewState;
  bi_base_url : option string;
  bi_auth_profile_ref : option string;
  bi_source_filename : string;
  bi_source_digest : string;
  bi_source_byte_length : Z;
  bi_spec_version : string;
  bi_created_at : datetime;
  bi_published_at : datetime;
  bi_labels : list string;
}.

(** [{key: operation for ...}]: the last operation of a key wins. *)
Definition analyzed_get (k : string) (analyzed : list (string * pyval)) : option pyval :=
  alookup k (reverse analyzed).

(** [len(set(xs)) != len(xs)] on hashable values. *)
Fixpoint has_repeat (l : list pyval) : bool :=
  match l with [] => false | v :: l => val_in v l || has_repeat l end.

Section publication.
Context `{Platform, JsonSchema, Pydantic}.

(** [tool["description"] = ...], then the policy and the origin, in a deep copy. *)
Definition governed_tool (entry : OperationReview) (tool : pyval) : M pyval :=
  match tool with
  | VDict d =>
      let d := dset (KStr "description") (VStr (or_description entry)) d in
      let* access := access_policy entry in
      let d := dset (KStr "policy")
        (VDict {{ "effect_class" ~> or_effect_class entry;
                  "requires_confirmation" ~> VBool (or_requires_confirmation entry);
                  "access" ~> dump_access access }}) d in
      let* provenance := subscript "provenance" (VDict d) in
      match provenance with
      | VDict p =>
          Ok (VDict (dset (KStr "provenance")
                (VDict (dset (KStr "description_origin") (or_description_origin entry) p)) d))
      | _ => type_error "object does not support item assignment"
      end
  | _ => type_error "object does not support item assignment"
  end.
Definition build_tool (analyzed : list (string * pyval)) (entry : OperationReview) : M pyval :=
  match analyzed_get (or_operation_key entry) analyzed with
  | None => raise (NotReadyForPublication ["publication.review_out_of_sync"])
  | Some operation => let* tool := subscript "tool" operation in governed_tool entry tool
  end.

Definition connector_document (b : build_input) (base_url : string) (tools : list pyval) : dict :=
  {{ "contract_version" ~> VStr CONTRACT_VERSION;
     "connector_key" ~> VStr (bi_connector_key b);
     "display_name" ~> VStr (bi_display_name b);
     "summary" ~> VStr (bi_summary b);
     "version" ~> VStr (bi_version b);
     "lifecycle_state" ~> VStr "published";
     "runtime" ~> VDict {{ "protocol" ~> VStr "http"; "base_url" ~> VStr base_url;
                           "auth_profile_ref" ~> dump_opt VStr (bi_auth_profile_ref b) }};
     "source" ~> VDict {{ "format" ~> VStr "openapi";
                          "spec_version" ~> VStr (bi_spec_version b);
                          "document_filename" ~> VStr (bi_source_filename b);
                          "document_digest" ~> VStr (bi_source_digest b);
                          "byte_length" ~> VInt (bi_source_byte_length b) }};
     "tools" ~> VList tools;
     "labels" ~> strs (bi_labels b);
     "audit" ~> VDict {{ "created_at" ~> VStr (rfc3339 (bi_created_at b));
                         "updated_at" ~> VStr (rfc3339 (bi_published_at b));
                         "published_at" ~> VStr (rfc3339 (bi_published_at b)) }} }}.

Definition build_connector_document (b : build_input) : M BuiltConnector :=
  let* issues := review_readiness (bi_analysis b) (bi_review b) (bi_base_url b) in
  match issues with
  | _ :: _ => raise (NotReadyForPublication issues)
  | [] =>
      match bi_base_url b with
      | None => raise (Raised AssertionError "")
      | Some base_url =>
          let* analyzed := tool_operations (bi_analysis b) in
          let* tools := map_result (build_tool analyzed) (included (bi_review b)) in
          match tools with
          | [] => raise (NotReadyForPublication ["publication.no_operation_selected"])
          | _ =>
              let* names := map_result (subscript "tool_name") tools in
              if negb (forallb hashable names) then type_error "unhashable type"
              else if has_repeat names then
                raise (NotReadyForPublication ["publication.tool_name_collision"])
              else
                let document := connector_document b base_url tools in
                let* _ := validate_connector_definition (VDict document) in
                let* digest := content_digest (VDict document) [] in
                Ok (MkBuilt document digest (length tools))
          end
      end
  end.
End publication.

(** ** Lemmas *)

Section publication_lemmas.
Context `{Platform, JsonSchema, Pydantic}.

(** A published tool keeps everything of the analyzed one but the reviewed parts. *)
Record reviewed_tool (entry : OperationReview) (analyzed published : dict) : Prop := {
  rt_kept : forall k, k ∉ [KStr "description"; KStr "policy"; KStr "provenance"] ->
    dget k published = dget k analyzed;
  rt_description : dget (KStr "description") published = Some (VStr (or_description entry));
  rt_policy : exists a, access_policy entry = Ok a /\
    dget (KStr "policy") published =
      Some (VDict {{ "effect_class" ~> or_effect_class entry;
                     "requires_confirmation" ~> VBool (or_requires_confirmation entry);
                     "access" ~> dump_access a }});
  rt_provenance : exists p, dget (KStr "provenance") analyzed = Some (VDict p) /\
    dget (KStr "provenance") published =
      Some (VDict (dset (KStr "description_origin") (or_description_origin entry) p));
}.

Lemma subscript_Ok k v w : subscript k v = Ok w <-> exists d, v = VDict d /\ dget (KStr k) d = Some w.
Proof. unfold subscript. destruct v; try naive_solver. rewrite of_option_Ok. naive_solver. Qed.

Lemma governed_tool_Ok entry tool r :
  governed_tool entry tool = Ok r -> exists d d', tool = VDict d /\ r = VDict d' /\ reviewed_tool entry d d'.
Proof.
  unfold governed_tool. destruct tool as [| | | | | | |d|]; try done.
  intros (a & Ha & Hr)%bind_Ok. apply bind_Ok in Hr as (pv & (d0 & [= <-] & Hp)%subscript_Ok & Hr).
  rewrite !dget_dset in Hp. simpl in Hp. destruct pv as [| | | | | | |p|]; try done.
  match type of Hr with Ok (VDict ?x) = Ok _ =>
    assert (r = VDict x) as -> by congruence; exists d, x end.
  split; [done|]. split; [done|]. split.
  - intros k Hk. rewrite !dget_dset. rewrite !not_elem_of_cons in Hk. destruct Hk as (H1' & H2' & H3' & _).
    by rewrite !bool_decide_eq_false_2.
  - by rewrite !dget_dset.
  - exists a. split; [done|]. by rewrite !dget_dset.
  - exists p. split; [done|]. by rewrite !dget_dset.
Qed.

Lemma build_tool_Ok analyzed entry r :
  build_tool analyzed entry = Ok r ->
  exists operation d d', analyzed_get (or_operation_key entry) analyzed = Some operation /\
    subscript "tool" operation = Ok (VDict d) /\ r = VDict d' /\ reviewed_tool entry d d'.
Proof.
  unfold build_tool. destruct (analyzed_get _ _) as [op|] eqn:E; [|done].
  intros (tool & Ht & (d & d' & -> & -> & Hr)%governed_tool_Ok)%bind_Ok. by exists op, d, d'.
Qed.

Lemma build_connector_Ok b built :
  build_connector_document b = Ok built ->
  exists base_url analyzed tools, bi_base_url b = Some base_url /\
    review_readiness (bi_analysis b) (bi_review b) (bi_base_url b) = Ok [] /\
    tool_operations (bi_analysis b) = Ok analyzed /\
    Forall2 (fun e t => build_tool analyzed e = Ok t) (included (bi_review b)) tools /\ tools <> [] /\
    bc_document built = connector_document b base_url tools /\ bc_tool_count built = length tools /\
    validate_connector_definition (VDict (bc_document built)) = Ok tt /\
    content_digest (VDict (bc_document built)) [] = Ok (bc_digest built).
Proof.
  unfold build_connector_document. intros (issues & Hi & Hr)%bind_Ok. destruct issues; [|done].
  destruct (bi_base_url b) as [base|] eqn:Hb; [|done].
  apply bind_Ok in Hr as (analyzed & Ha & Hr). apply bind_Ok in Hr as (tools & Ht%map_result_Ok & Hr).
  assert (tools <> []) as Hne by (by destruct tools).
  assert (exists names, map_result (subscript "tool_name") tools = Ok names /\
    (if negb (forallb hashable names) then type_error "unhashable type"
     else if has_repeat names then raise (NotReadyForPublication ["publication.tool_name_collision"])
     else let* _ := validate_connector_definition (VDict (connector_document b base tools)) in
          let* digest := content_digest (VDict (connector_document b base tools)) [] in
          Ok (MkBuilt (connector_document b base tools) digest (length tools))) = Ok built) as (names & _ & Hr').
  { destruct tools; [done|]. by apply bind_Ok in Hr. }
  clear Hr. destruct (negb _); [done|]. destruct (has_repeat _); [done|].
  apply bind_Ok in Hr' as ([] & Hv & Hr'). apply bind_Ok in Hr' as (digest & Hd & Hr').
  match type of Hr' with Ok ?x = Ok _ => assert (built = x) as -> by congruence end. cbn [bc_document bc_tool_count bc_digest].
  exists base, analyzed, tools. split_and!; try done.
Qed.
End publication_lemmas.

(** ** Properties *)

(** C31. Publication builds what was reviewed and nothing else: it succeeds only
    on a ready draft, the document is the one the contract validator accepts and
    carries the digest of its content, its tools are, one for one and in order,
    the included operations, each the analyzed tool with only its description,
    policy and description origin set to the reviewer's decisions. *)
Theorem published_as_reviewed `{Platform, JsonSchema, Pydantic} :
  forall b built, build_connector_document b = Ok built ->
    review_readiness (bi_analysis b) (bi_review b) (bi_base_url b) = Ok [] /\
    connector_document_ok (VDict (bc_document built)) /\
    content_digest (VDict (bc_document built)) [] = Ok (bc_digest built) /\
    get "connector_key" (bc_document built) = VStr (bi_connector_key b) /\
    get "version" (bc_document built) = VStr (bi_version b) /\
    get "lifecycle_state" (bc_document built) = VStr "published" /\
    exists analyzed tools, tool_operations (bi_analysis b) = Ok analyzed /\
      get "tools" (bc_document built) = VList tools /\ bc_tool_count built = length tools /\
      Forall2 (fun entry tool => exists operation d d',
        analyzed_get (or_operation_key entry) analyzed = Some operation /\
        subscript "tool" operation = Ok (VDict d) /\ tool = VDict d' /\ reviewed_tool entry d d')
        (included (bi_review b)) tools.
Proof.
  intros b built (base & analyzed & tools & Hb & Hr & Ha & Ht & _ & Hdoc & Hc & Hv & Hd)%build_connector_Ok.
  split; [done|]. split; [by apply validate_connector_spec|]. split; [done|]. rewrite Hdoc.
  split_and!; [done..|]. exists analyzed, tools. split_and!; try done.
  eapply Forall2_impl; [exact Ht|]. intros e t. apply build_tool_Ok.
Qed.

(** A concrete publication. *)
Definition demo_time : datetime := MkTime 2024 3 9 7 5 0 false.
Example demo_time_text : rfc3339 demo_time = "2024-03-09T07:05:00Z".
Proof. vm_compute. reflexivity. Qed.
Definition demo_build : build_input :=
  MkBuild "ticket-api" "Ticket API" "Tickets." "0.1.0" demo_analysis demo_review
    (Some "https://api.example.org/v1") None "tickets.yaml" ("sha256:" +:+ zeros64) 512 "3.0.3"
    demo_time demo_time [].

Lemma published_as_reviewed_witness :
  exists built, @build_connector_document demo_platform _ _ demo_build = Ok built /\
    get "lifecycle_state" (bc_document built) = VStr "published".
Proof.
  destruct (@build_connector_document demo_platform _ _ demo_build) as [built|e] eqn:E;
    [|exfalso; revert E; vm_compute; discriminate].
  exists built. split; [reflexivity|].
  exact (proj1 (proj2 (proj2 (proj2 (proj2 (proj2 (@published_as_reviewed demo_platform _ _ demo_build built E))))))).
Defined.
