(* ===== verification/Database.v ===== *)
(** * The Control Plane's database

    [control_plane/models.py]: the rows, the tables, and what a flush does to
    them under the declared constraints.  A row's [id] is the table's largest
    plus one.  Updates and deletes go by primary key; an update that matches no
    row raises, a delete that matches none does not. *)

From S2P Require Export Publication.

Record connector_row := MkConnectorRow {
  cr_id : Z;
  cr_connector_key : string;
  cr_display_name : string;
  cr_summary : string;
  cr_created_at : datetime;
  cr_updated_at : datetime;
}.
Record draft_row := MkDraftRow {
  dr_id : Z;
  dr_connector_id : Z;
  dr_revision : Z;
  dr_proposed_version : string;
  dr_base_url : option string;
  dr_auth_profile_ref : option string;
  dr_source_bytes : string;
  dr_source_filename : string;
  dr_source_digest : string;
  dr_source_byte_length : Z;
  dr_source_format : string;
  dr_spec_version : string;
  dr_analyzer_version : string;
  dr_analysis : dict;
  dr_review : dict;
  dr_created_at : datetime;
  dr_updated_at : datetime;
}.
Record version_row := MkVersionRow {
  vr_id : Z;
  vr_connector_id : Z;
  vr_version : string;
  vr_document : dict;
  vr_document_digest : string;
  vr_source_digest : string;
  vr_analyzer_version : string;
  vr_tool_count : nat;
  vr_published_at : datetime;
  vr_published_by : string;
  vr_disabled_at : option datetime;
  vr_disabled_reason : option string;
}.
Definition vr_disabled (r : version_row) : bool := negb (is_none (vr_disabled_at r)).
Record deployment_row := MkDeploymentRow {
  er_id : Z;
  er_deployment_key : string;
  er_display_name : string;
  er_description : string;
  er_created_at : datetime;
}.
Record snapshot_row := MkSnapshotRow {
  sr_id : Z;
  sr_deployment_id : Z;
  sr_revision : Z;
  sr_snapshot_id : string;
  sr_document : dict;
  sr_snapshot_digest : string;
  sr_connector_count : nat;
  sr_active : bool;
  sr_created_at : datetime;
  sr_created_by : string;
}.

Record database := MkDb {
  t_connectors : list connector_row;
  t_drafts : list draft_row;
  t_versions : list version_row;
  t_deployments : list deployment_row;
  t_snapshots : list snapshot_row;
}.
Definition empty_database : database := MkDb [] [] [] [] [].

Definition with_connectors (db : database) l : database :=
  MkDb l (t_drafts db) (t_versions db) (t_deployments db) (t_snapshots db).
Definition with_drafts (db : database) l : database :=
  MkDb (t_connectors db) l (t_versions db) (t_deployments db) (t_snapshots db).
Definition with_versions (db : database) l : database :=
  MkDb (t_connectors db) (t_drafts db) l (t_deployments db) (t_snapshots db).
Definition with_deployments (db : database) l : database :=
  MkDb (t_connectors db) (t_drafts db) (t_versions db) l (t_snapshots db).
Definition with_snapshots (db : database) l : database :=
  MkDb (t_connectors db) (t_drafts db) (t_versions db) (t_deployments db) l.

(** ** Keys and constraints *)

Definition next_id (ids : list Z) : Z := (1 + fold_right Z.max 0 ids)%Z.

Definition integrity_error {A} : M A := raise (Raised IntegrityError "").
Definition stale_data_error {A} : M A := raise (Raised StaleDataError "").

(** Insert a row whose unique columns no row shares. *)
Definition insert_unique {A} (clash : A -> bool) (row : A) (table : list A) : M (list A) :=
  if existsb clash table then integrity_error else Ok (table ++ [row]).
(** [UPDATE ... WHERE id = key]. *)
Definition update_by_id {A} (id : A -> Z) (key : Z) (f : A -> A) (table : list A) : M (list A) :=
  if existsb (fun r => Z.eqb (id r) key) table
  then Ok (map (fun r => if Z.eqb (id r) key then f r else r) table)
  else stale_data_error.
(** [DELETE ... WHERE id = key]. *)
Definition delete_by_id {A} (id : A -> Z) (key : Z) (table : list A) : list A :=
  List.filter (fun r => negb (Z.eqb (id r) key)) table.

Definition insert_connector (db : database) (row : connector_row) : M database :=
  let* l := insert_unique (fun r => String.eqb (cr_connector_key r) (cr_connector_key row)) row (t_connectors db) in
  Ok (with_connectors db l).
(** [uq_draft_per_connector]. *)
Definition insert_draft (db : database) (row : draft_row) : M database :=
  let* l := insert_unique (fun r => Z.eqb (dr_connector_id r) (dr_connector_id row)) row (t_drafts db) in
  Ok (with_drafts db l).
(** [uq_connector_version]. *)
Definition insert_version (db : database) (row : version_row) : M database :=
  let* l := insert_unique (fun r => Z.eqb (vr_connector_id r) (vr_connector_id row) &&
                                    String.eqb (vr_version r) (vr_version row)) row (t_versions db) in
  Ok (with_versions db l).
Definition insert_deployment (db : database) (row : deployment_row) : M database :=
  let* l := insert_unique (fun r => String.eqb (er_deployment_key r) (er_deployment_key row)) row
              (t_deployments db) in
  Ok (with_deployments db l).
(** [uq_deployment_revision] and [uq_snapshot_id]. *)
Definition insert_snapshot (db : database) (row : snapshot_row) : M database :=
  let* l := insert_unique (fun r => Z.eqb (sr_deployment_id r) (sr_deployment_id row) &&
                                    Z.eqb (sr_revision r) (sr_revision row) ||
                                    String.eqb (sr_snapshot_id r) (sr_snapshot_id row)) row (t_snapshots db) in
  Ok (with_snapshots db l).

(** ** Queries *)

Definition find_connector (db : database) (key : string) : option connector_row :=
  find_first (fun r => String.eqb (cr_connector_key r) key) (t_connectors db).
Definition find_draft (db : database) (connector_id : Z) : option draft_row :=
  find_first (fun r => Z.eqb (dr_connector_id r) connector_id) (t_drafts db).
Definition find_version (db : database) (connector_id : Z) (version : string) : option version_row :=
  find_first (fun r => Z.eqb (vr_connector_id r) connector_id && String.eqb (vr_version r) version) (t_versions db).
Definition versions_of (db : database) (connector_id : Z) : list version_row :=
  List.filter (fun r => Z.eqb (vr_connector_id r) connector_id) (t_versions db).
Definition find_deployment (db : database) (key : string) : option deployment_row :=
  find_first (fun r => String.eqb (er_deployment_key r) key) (t_deployments db).
Definition snapshots_of (db : database) (deployment_id : Z) : list snapshot_row :=
  List.filter (fun r => Z.eqb (sr_deployment_id r) deployment_id) (t_snapshots db).
(** [ORDER BY revision DESC LIMIT 1]. *)
Fixpoint highest_revision (rows : list snapshot_row) : option snapshot_row :=
  match rows with
  | [] => None
  | r :: rows =>
      match highest_revision rows with
      | Some s => Some (if (sr_revision s <=? sr_revision r)%Z then r else s)
      | None => Some r
      end
  end.

(** ** Lemmas on tables *)

Lemma existsb_false {A} (p : A -> bool) l : existsb p l = false <-> forall a, a ∈ l -> p a = false.
Proof.
  rewrite <- not_true_iff_false, existsb_Exists, Exists_exists. split.
  - intros H a Ha. apply not_true_iff_false. intros Hp. eauto.
  - intros H (a & Ha & Hp). rewrite H in Hp; done.
Qed.
Lemma insert_unique_Ok {A} (clash : A -> bool) row table l :
  insert_unique clash row table = Ok l <-> l = table ++ [row] /\ forall r, r ∈ table -> clash r = false.
Proof.
  unfold insert_unique. destruct (existsb clash table) eqn:E.
  - split; [done|]. intros [_ H%existsb_false]. congruence.
  - rewrite existsb_false in E. split; [by intros [= <-] | by intros [-> _]].
Qed.
Lemma update_by_id_Ok {A} (id : A -> Z) key f table l :
  update_by_id id key f table = Ok l ->
  l = map (fun r => if Z.eqb (id r) key then f r else r) table /\ exists r, r ∈ table /\ id r = key.
Proof.
  unfold update_by_id. destruct (existsb _ table) eqn:E; [|done]. intros [= <-]. split; [done|].
  apply existsb_Exists, Exists_exists in E as (r & Hr & Hk%Z.eqb_eq). eauto.
Qed.
Lemma next_id_fresh {A} (id : A -> Z) l r : r ∈ l -> (id r < next_id (map id l))%Z.
Proof.
  unfold next_id. induction l as [|r' l IH]; [by intros ?%elem_of_nil|].
  rewrite elem_of_cons. simpl. intros [->|Hr]; [lia|]. specialize (IH Hr). lia.
Qed.
Lemma filter_In_iff {A} (p : A -> bool) l a : a ∈ List.filter p l <-> a ∈ l /\ p a = true.
Proof. by rewrite !list_elem_of_In, filter_In. Qed.
Lemma highest_revision_spec rows r :
  highest_revision rows = Some r -> r ∈ rows /\ forall s, s ∈ rows -> (sr_revision s <= sr_revision r)%Z.
Proof.
  revert r. induction rows as [|r0 rows IH]; simpl; [done|]. intros r.
  destruct (highest_revision rows) as [s|] eqn:E.
  - destruct (IH s eq_refl) as [Hs Hm]. destruct (Z.leb_spec (sr_revision s) (sr_revision r0)); intros [= <-].
    + split; [by left|]. intros s' [->|Hs']%elem_of_cons; [lia|]. specialize (Hm _ Hs'). lia.
    + split; [by right|]. intros s' [->|Hs']%elem_of_cons; [lia|]. by apply Hm.
  - intros [= <-]. split; [by left|]. destruct rows as [|s rows].
    + intros s' [->|Hn%elem_of_nil]%elem_of_cons; [lia|done].
    + simpl in E. by destruct (highest_revision rows).
Qed.
Lemma highest_revision_None rows : highest_revision rows = None <-> rows = [].
Proof. destruct rows as [|r rows]; [done|]. simpl. by destruct (highest_revision rows). Qed.
