(* ===== verification/Service.v ===== *)
(** * The Control Plane's use cases

    [control_plane/service.py], over the database of Database.v.  An operation
    reads in the committed state [seen] and flushes into the state [live]: the
    two differ when another transaction committed in between, since the session
    takes no lock before it writes.  What it reads after its first flush it
    reads in [live].  It returns the state to commit, or raises, and then the
    transaction is rolled back ([control_plane/db.py]).  The clock is an
    argument.  Loading and analyzing a source document is the interface
    [Analyzer]. *)

From S2P Require Export Database Signing.

(** What [load_document] and [analyze_document] give for an upload, with the
    analysis as [serialize_analysis] stores it. *)
Record ingested := MkIngested {
  in_filename : string;
  in_digest : string;
  in_byte_length : Z;
  in_format : string;
  in_spec_version : string;
  in_analyzer_version : string;
  in_api_title : string;
  in_api_summary : string;
  in_base_url : option string;
  in_serialized : dict;
}.
Class Analyzer := {
  ingest : string -> string -> Z -> option string -> M ingested;
}.

(** [given or default] for an optional string. *)
Definition text_or (o : option string) (default : string) : string :=
  match o with Some s => if is_empty s then default else s | None => default end.

(** ** Versions *)

Definition parsed (s : string) : M ContractVersion := parse_version (VStr s).

(** [x > y] on named tuples: the first component that differs decides, and
    [None] does not compare with a [str]. *)
Definition version_gt (x y : ContractVersion) : M bool :=
  match core_compare x y with
  | Gt => Ok true
  | Lt => Ok false
  | Eq =>
      match prerelease x, prerelease y with
      | None, None => Ok false
      | Some a, Some b => Ok (match String.compare a b with Gt => true | _ => false end)
      | _, _ => type_error "'>' not supported between instances of 'NoneType' and 'str'"
      end
  end.
(** [max(rest, key=parse_version)] with the maximum so far: its text and key. *)
Fixpoint max_version (best : string * ContractVersion) (rest : list string) : M (string * ContractVersion) :=
  match rest with
  | [] => Ok best
  | s :: rest =>
      let* v := parsed s in
      let* gt := version_gt v best.2 in
      max_version (if gt then (s, v) else best) rest
  end.
Definition next_version (published : list string) : M string :=
  match published with
  | [] => Ok "0.1.0"
  | s :: rest =>
      let* v := parsed s in
      let* highest := max_version (s, v) rest in
      let* p := parsed highest.1 in
      Ok (str_of_N (major p) +:+ "." +:+ str_of_N (minor p + 1) +:+ ".0")
  end.

Definition published_versions (db : database) (connector_id : Z) : list string :=
  map vr_version (versions_of db connector_id).
Fixpoint reject_versions (candidate : ContractVersion) (existing : list string) : M unit :=
  match existing with
  | [] => Ok tt
  | s :: existing =>
      let* v := parsed s in
      if (compare_precedence candidate v <=? 0)%Z then
        raise (ValidationError ("version must be greater than the published version " +:+ s) "/version")
      else reject_versions candidate existing
  end.
Definition reject_version_regression (db : database) (connector_id : Z) (version : string) : M unit :=
  let* candidate := parsed version in
  reject_versions candidate (published_versions db connector_id).

(** ** Connectors and drafts *)

Definition get_connector (db : database) (key : string) : M connector_row :=
  of_option (NotFoundError "no connector exists with that key") (find_connector db key).
Definition get_draft (db : database) (key : string) : M (connector_row * draft_row) :=
  let* c := get_connector db key in
  match find_draft db (cr_id c) with
  | None => raise (NotFoundError "the connector has no draft; register a source document first")
  | Some d => Ok (c, d)
  end.

Record registration := MkRegistration {
  rg_connector_key : string;
  rg_display_name : option string;
  rg_summary : option string;
  rg_source_bytes : string;
  rg_source_filename : string;
  rg_proposed_version : option string;
  rg_base_url_override : option string;
  rg_auth_profile_ref : option string;
  rg_max_source_bytes : Z;
}.

(** A column assigned in the session: it is written when its value changed. *)
Definition set_column {A} (unchanged : bool) (new stored : A) : A := if unchanged then stored else new.

Definition touch_connector (a : registration) (c : connector_row) (now : datetime) (stored : connector_row)
  : connector_row :=
  let name := text_or (rg_display_name a) (cr_display_name c) in
  let summary := text_or (rg_summary a) (cr_summary c) in
  MkConnectorRow (cr_id stored) (cr_connector_key stored)
    (set_column (String.eqb name (cr_display_name c)) name (cr_display_name stored))
    (set_column (String.eqb summary (cr_summary c)) summary (cr_summary stored))
    (cr_created_at stored) now.
Definition register_row `{Analyzer} (a : registration) (an : ingested) (now : datetime) (seen live : database)
  : M (database * connector_row) :=
  match find_connector seen (rg_connector_key a) with
  | None =>
      let row := MkConnectorRow (next_id (map cr_id (t_connectors live))) (rg_connector_key a)
                   (text_or (rg_display_name a) (in_api_title an)) (text_or (rg_summary a) (in_api_summary an))
                   now now in
      let* live := insert_connector live row in Ok (live, row)
  | Some c =>
      let* l := update_by_id cr_id (cr_id c) (touch_connector a c now) (t_connectors live) in
      Ok (with_connectors live l, touch_connector a c now c)
  end.

Section service.
Context `{Platform, Ed25519, JsonSchema, Pydantic, Analyzer}.

Definition register_connector (a : registration) (now : datetime) (seen live : database)
  : M (database * draft_row) :=
  let* an := ingest (rg_source_bytes a) (rg_source_filename a) (rg_max_source_bytes a)
               (rg_base_url_override a) in
  let* r := register_row a an now seen live in
  let '(live, connector) := r in
  let* proposed_version :=
    match rg_proposed_version a with
    | None => next_version (published_versions live (cr_id connector))
    | Some v =>
        let* _ := parsed v in
        let* _ := reject_version_regression live (cr_id connector) v in Ok v
    end in
  let* review := build_initial_review (in_serialized an) in
  let live := match find_draft live (cr_id connector) with
              | Some old => with_drafts live (delete_by_id dr_id (dr_id old) (t_drafts live))
              | None => live
              end in
  let draft :=
    {| dr_id := next_id (map dr_id (t_drafts live));
       dr_connector_id := cr_id connector;
       dr_revision := 1;
       dr_proposed_version := proposed_version;
       dr_base_url := in_base_url an;
       dr_auth_profile_ref := rg_auth_profile_ref a;
       dr_source_bytes := rg_source_bytes a;
       dr_source_filename := in_filename an;
       dr_source_digest := in_digest an;
       dr_source_byte_length := in_byte_length an;
       dr_source_format := in_format an;
       dr_spec_version := in_spec_version an;
       dr_analyzer_version := in_analyzer_version an;
       dr_analysis := in_serialized an;
       dr_review := state_to_dict review;
       dr_created_at := now;
       dr_updated_at := now |} in
  let* live := insert_draft live draft in
  Ok (live, draft).

Record review_change := MkChange {
  rc_updates : list ReviewUpdate;
  rc_proposed_version : option string;
  rc_base_url : option string;
  rc_auth_profile_ref : option string;
}.
Definition opt_eqb (a b : option string) : bool := bool_decide (a = b).

Definition write_review (d : draft_row) (review : dict) (c : review_change) (now : datetime) (stored : draft_row)
  : draft_row :=
  let version := match rc_proposed_version c with Some v => v | None => dr_proposed_version d end in
  let base_url := match rc_base_url c with Some u => Some u | None => dr_base_url d end in
  let auth := match rc_auth_profile_ref c with Some r => nonempty r | None => dr_auth_profile_ref d end in
  {| dr_id := dr_id stored;
     dr_connector_id := dr_connector_id stored;
     dr_revision := dr_revision d + 1;
     dr_proposed_version :=
       set_column (String.eqb version (dr_proposed_version d)) version (dr_proposed_version stored);
     dr_base_url := set_column (opt_eqb base_url (dr_base_url d)) base_url (dr_base_url stored);
     dr_auth_profile_ref := set_column (opt_eqb auth (dr_auth_profile_ref d)) auth (dr_auth_profile_ref stored);
     dr_source_bytes := dr_source_bytes stored;
     dr_source_filename := dr_source_filename stored;
     dr_source_digest := dr_source_digest stored;
     dr_source_byte_length := dr_source_byte_length stored;
     dr_source_format := dr_source_format stored;
     dr_spec_version := dr_spec_version stored;
     dr_analyzer_version := dr_analyzer_version stored;
     dr_analysis := dr_analysis stored;
     dr_review := set_column (py_eq (VDict review) (VDict (dr_review d))) review (dr_review stored);
     dr_created_at := dr_created_at stored;
     dr_updated_at := now |}.

Definition update_review (key : string) (expected_revision : Z) (c : review_change) (now : datetime)
    (seen live : database) : M (database * draft_row) :=
  let* cd := get_draft seen key in
  let '(connector, draft) := cd in
  if negb (expected_revision =? dr_revision draft)%Z then
    raise (RevisionConflictError "the draft changed since it was read; reload it and reapply the change"
             "/expected_revision")
  else
    let* state := state_from_dict (dr_review draft) in
    let* state := fold_result apply_update (rc_updates c) state in
    let* _ := match rc_proposed_version c with
              | Some v =>
                  let* _ := parsed v in reject_version_regression seen (dr_connector_id draft) v
              | None => Ok tt
              end in
    let write := write_review draft (state_to_dict state) c now in
    let* l := update_by_id dr_id (dr_id draft) write (t_drafts live) in
    Ok (with_drafts live l, write draft).

(** ** Publication *)

Definition already_published : exn :=
  ImmutabilityError "that version is already published; publish a new version instead" "/version".

Definition publish_input (connector : connector_row) (draft : draft_row) (version : string)
    (review : ReviewState) (now : datetime) : build_input :=
  {| bi_connector_key := cr_connector_key connector;
     bi_display_name := cr_display_name connector;
     bi_summary := cr_summary connector;
     bi_version := version;
     bi_analysis := dr_analysis draft;
     bi_review := review;
     bi_base_url := dr_base_url draft;
     bi_auth_profile_ref := dr_auth_profile_ref draft;
     bi_source_filename := dr_source_filename draft;
     bi_source_digest := dr_source_digest draft;
     bi_source_byte_length := dr_source_byte_length draft;
     bi_spec_version := dr_spec_version draft;
     bi_created_at := dr_created_at draft;
     bi_published_at := now;
     bi_labels := [] |}.

Definition publish_draft (key : string) (expected_revision : Z) (published_by : string)
    (version : option string) (now : datetime) (seen live : database) : M (database * version_row) :=
  let* cd := get_draft seen key in
  let '(connector, draft) := cd in
  if negb (expected_revision =? dr_revision draft)%Z then
    raise (RevisionConflictError "the draft changed since it was read; reload it and publish again"
             "/expected_revision")
  else
    let target_version := text_or version (dr_proposed_version draft) in
    let* _ := parsed target_version in
    let* _ := reject_version_regression seen (dr_connector_id draft) target_version in
    match find_version seen (dr_connector_id draft) target_version with
    | Some _ => raise already_published
    | None =>
        let* review := state_from_dict (dr_review draft) in
        let* built := build_connector_document (publish_input connector draft target_version review now) in
        let row :=
          {| vr_id := next_id (map vr_id (t_versions live));
             vr_connector_id := dr_connector_id draft;
             vr_version := target_version;
             vr_document := bc_document built;
             vr_document_digest := bc_digest built;
             vr_source_digest := dr_source_digest draft;
             vr_analyzer_version := dr_analyzer_version draft;
             vr_tool_count := bc_tool_count built;
             vr_published_at := now;
             vr_published_by := published_by;
             vr_disabled_at := None;
             vr_disabled_reason := None |} in
        let* live := except (insert_version live row) (is_class IntegrityError) (fun _ => raise already_published) in
        Ok (with_drafts live (delete_by_id dr_id (dr_id draft) (t_drafts live)), row)
    end.

Definition get_version (db : database) (key version : string) : M version_row :=
  let* c := get_connector db key in
  of_option (NotFoundError "no published version exists with that number") (find_version db (cr_id c) version).

Definition disable_row (now : datetime) (reason : string) (r : version_row) : version_row :=
  {| vr_id := vr_id r; vr_connector_id := vr_connector_id r; vr_version := vr_version r;
     vr_document := vr_document r; vr_document_digest := vr_document_digest r;
     vr_source_digest := vr_source_digest r; vr_analyzer_version := vr_analyzer_version r;
     vr_tool_count := vr_tool_count r; vr_published_at := vr_published_at r;
     vr_published_by := vr_published_by r;
     vr_disabled_at := Some now; vr_disabled_reason := Some (stake 512 reason) |}.
Definition disable_version (key version reason : string) (now : datetime) (seen live : database)
  : M (database * version_row) :=
  let* row := get_version seen key version in
  if vr_disabled row then Ok (live, row)
  else
    let* l := update_by_id vr_id (vr_id row) (disable_row now reason) (t_versions live) in
    Ok (with_versions live l, disable_row now reason row).

(** ** Deployments and snapshots *)

Record SnapshotSelection := MkSnapshotSelection { se_connector_key : string; se_version : string }.

Definition ConflictError (m : string) : exn := tool_layer_error ErrorCode.ALREADY_EXISTS m.
Definition create_deployment (key name description : string) (now : datetime) (seen live : database)
  : M (database * deployment_row) :=
  match find_deployment seen key with
  | Some _ => raise (tool_layer_error_at ErrorCode.ALREADY_EXISTS "a deployment already exists with that key"
                       "/deployment_key")
  | None =>
      let row := MkDeploymentRow (next_id (map er_id (t_deployments live))) key name description now in
      let* live := insert_deployment live row in Ok (live, row)
  end.
Definition get_deployment (db : database) (key : string) : M deployment_row :=
  of_option (NotFoundError "no deployment exists with that key") (find_deployment db key).

(** The connector documents a snapshot embeds, in the order of the selections. *)
Fixpoint select_documents (db : database) (seen_keys : list string) (selections : list SnapshotSelection)
  : M (list (string * pyval)) :=
  match selections with
  | [] => Ok []
  | s :: selections =>
      if str_in (se_connector_key s) seen_keys then
        raise (ValidationError "a snapshot may pin only one version per connector" "/selections")
      else
        let* row := get_version db (se_connector_key s) (se_version s) in
        if vr_disabled row then
          raise (ValidationError
            ("the version " +:+ se_connector_key s +:+ " " +:+ se_version s +:+
             " is disabled and cannot be added to a snapshot") "/selections")
        else
          let document := VDict (vr_document row) in
          let* _ := parse_connector document in
          let* key := subscript "connector_key" document in
          let* rest := select_documents db (se_connector_key s :: seen_keys) selections in
          Ok ((py_str key, document) :: rest)
  end.

Definition next_revision (db : database) (deployment_id : Z) : Z :=
  (1 + match highest_revision (snapshots_of db deployment_id) with Some r => sr_revision r | None => 0 end)%Z.

Definition snapshot_payload (deployment_key : string) (revision : Z) (created_at : datetime) (docs : list pyval)
  : dict :=
  {{ "contract_version" ~> VStr CONTRACT_VERSION;
     "deployment_key" ~> VStr deployment_key;
     "revision" ~> VInt revision;
     "created_at" ~> VStr (replace "+00:00" "Z" (isoformat created_at));
     "connectors" ~> VList docs }}.
Definition snapshot_id_of (payload : dict) : M string :=
  let* text := canonical_json (VDict payload) in
  Ok ("snap_" +:+ stake 32 (sha256_hex (encode_utf8 text))).
Definition identified (payload : dict) (snapshot_id digest : string) : dict :=
  payload ++ {{ "snapshot_id" ~> VStr snapshot_id; "snapshot_digest" ~> VStr digest }}.
Definition signed_document (document : dict) (signing_key : option SigningKey) : M dict :=
  match signing_key with
  | None => Ok document
  | Some key => let* block := sign_document document key in Ok (dset (KStr "signature") block document)
  end.

(** [previous.active = False] for the snapshots read, then the flush. *)
Definition deactivate (r : snapshot_row) : snapshot_row :=
  MkSnapshotRow (sr_id r) (sr_deployment_id r) (sr_revision r) (sr_snapshot_id r) (sr_document r)
    (sr_snapshot_digest r) (sr_connector_count r) false (sr_created_at r) (sr_created_by r).
Definition deactivate_all (previous : list snapshot_row) (live : database) : M database :=
  fold_result (fun db p =>
    if sr_active p then
      let* l := update_by_id sr_id (sr_id p) deactivate (t_snapshots db) in Ok (with_snapshots db l)
    else Ok db) previous live.

Definition create_snapshot (deployment_key : string) (selections : list SnapshotSelection)
    (created_by : string) (signing_key : option SigningKey) (now : datetime) (seen live : database)
  : M (database * snapshot_row) :=
  let* deployment := get_deployment seen deployment_key in
  let* selected := select_documents seen [] selections in
  let docs := map snd (ksort selected) in
  let revision := next_revision seen (er_id deployment) in
  let payload := snapshot_payload (er_deployment_key deployment) revision now docs in
  let* digest := content_digest (VDict payload) [] in
  let* snapshot_id := snapshot_id_of payload in
  let* document := signed_document (identified payload snapshot_id digest) signing_key in
  let* _ := validate_deployment_snapshot (VDict document) in
  let row :=
    {| sr_id := next_id (map sr_id (t_snapshots live));
       sr_deployment_id := er_id deployment;
       sr_revision := revision;
       sr_snapshot_id := snapshot_id;
       sr_document := document;
       sr_snapshot_digest := digest;
       sr_connector_count := length docs;
       sr_active := true;
       sr_created_at := now;
       sr_created_by := created_by |} in
  let* live := except
    (let* live := deactivate_all (snapshots_of seen (er_id deployment)) live in insert_snapshot live row)
    (is_class IntegrityError)
    (fun _ => raise (ConflictError "another snapshot was created concurrently; retry the request")) in
  Ok (live, row).

Definition get_active_snapshot (db : database) (deployment_key : string) : M snapshot_row :=
  let* deployment := get_deployment db deployment_key in
  match highest_revision (List.filter sr_active (snapshots_of db (er_id deployment))) with
  | None => raise (tool_layer_error ErrorCode.SNAPSHOT_UNAVAILABLE "the deployment has no snapshot yet")
  | Some row => Ok row
  end.

(** ** Transactions *)

Inductive request :=
  | Register (a : registration)
  | UpdateReview (key : string) (expected_revision : Z) (c : review_change)
  | Publish (key : string) (expected_revision : Z) (published_by : string) (version : option string)
  | Disable (key version reason : string)
  | CreateDeployment (key name description : string)
  | CreateSnapshot (key : string) (selections : list SnapshotSelection) (created_by : string)
      (signing_key : option SigningKey).

Definition perform (q : request) (now : datetime) (seen live : database) : M database :=
  match q with
  | Register a => let* r := register_connector a now seen live in Ok r.1
  | UpdateReview k e c => let* r := update_review k e c now seen live in Ok r.1
  | Publish k e by_ v => let* r := publish_draft k e by_ v now seen live in Ok r.1
  | Disable k v reason => let* r := disable_version k v reason now seen live in Ok r.1
  | CreateDeployment k n d => let* r := create_deployment k n d now seen live in Ok r.1
  | CreateSnapshot k s by_ key => let* r := create_snapshot k s by_ key now seen live in Ok r.1
  end.
(** [session_scope]: commit, or roll back as a whole. *)
Definition transaction (q : request) (now : datetime) (seen live : database) : database :=
  match perform q now seen live with Ok db => db | Err _ => live end.

(** Committed states, the latest first; a transaction read in any of them. *)
Inductive commits : list database -> list database -> Prop :=
  | commit_step q now seen live history :
      seen ∈ live :: history ->
      commits (live :: history) (transaction q now seen live :: live :: history).
Definition reachable (history : list database) : Prop := rtc commits [empty_database] history.
End service.
