(* ===== verification/Analyzer.v ===== *)
(** * Analyzing a document

    [toollayer_openapi/analyzer.py] and [control_plane/serialization.py]: every
    operation of a loaded document becomes a tool or a diagnostic, and the
    result is stored as a JSON document.  With the loader this is the interface
    [Analyzer] of the Control Plane. *)

From S2P Require Export Loader Converter Service.

Definition ANALYZER_VERSION : string := "toollayer-openapi-analyzer/1".
(** [sorted(_HTTP_METHODS - set(SUPPORTED_METHODS))]. *)
Definition UNSUPPORTED_METHODS : list string := ["head"; "options"; "trace"].

Record AnalyzedOperation := MkAnalyzed {
  an_key : string;
  an_path : string;
  an_method : string;
  an_pointer : string;
  an_source_operation : dict;
  an_tool : option ToolDefinition;
  an_diagnostics : list Diagnostic;
}.
Record AnalysisResult := MkAnalysis {
  ar_analyzer_version : string;
  ar_spec_version : string;
  ar_api_title : string;
  ar_api_summary : string;
  ar_base_url : option string;
  ar_operations : list AnalyzedOperation;
  ar_diagnostics : list Diagnostic;
}.
Definition convertible (o : AnalyzedOperation) : bool := negb (is_none (an_tool o)).
Definition analysis_tools (r : AnalysisResult) : list ToolDefinition := omap an_tool (ar_operations r).
Definition all_diagnostics (r : AnalysisResult) : list Diagnostic :=
  ar_diagnostics r ++ List.concat (map an_diagnostics (ar_operations r)).

(** ** The base URL *)

Definition usable_base_url (value : string) : M bool :=
  let* parsed := urlsplit value in
  Ok (str_in (sr_scheme parsed) ["http"; "https"] && negb (is_empty (sr_netloc parsed))
      && negb (has_char "@" (sr_netloc parsed)) && is_empty (sr_query parsed) && is_empty (sr_fragment parsed)).
(** [url.rstrip("/") or url]. *)
Definition without_slash (url : string) : string :=
  if is_empty (rstrip_char "/" url) then url else rstrip_char "/" url.
Definition servers_diagnostic (code message pointer severity : string) : option string * list Diagnostic :=
  (None, [MkDiagnostic code message pointer severity None]).
Definition base_url_of_override (override : string) : M (option string * list Diagnostic) :=
  let* usable := usable_base_url override in
  Ok (if usable : bool then (Some (without_slash override), [])
      else servers_diagnostic "invalid_base_url" "the supplied base URL is not a plain http or https origin"
             "/servers" "error").
Definition base_url_of_servers (document : dict) : M (option string * list Diagnostic) :=
  match get "servers" document with
  | VList (first :: _) =>
      match first with
      | VDict first =>
          if has "variables" first then
            Ok (servers_diagnostic "server_variables_unsupported"
                  "the declared server uses template variables; supply an explicit base URL" "/servers/0" "warning")
          else
            let not_absolute := servers_diagnostic "base_url_missing"
              "the declared server is not an absolute http or https URL; supply a base URL before publishing"
              "/servers/0/url" "warning" in
            match get "url" first with
            | VStr url =>
                let* usable := usable_base_url url in
                Ok (if usable : bool then (Some (without_slash url), []) else not_absolute)
            | _ => Ok not_absolute
            end
      | _ => raise (InvalidDocumentError "'servers' entries must be objects" "/servers/0")
      end
  | _ => Ok (servers_diagnostic "base_url_missing"
               "the document declares no server; supply a base URL before publishing" "/servers" "warning")
  end.
Definition resolve_base_url (document : dict) (override : option string) : M (option string * list Diagnostic) :=
  match override with
  | Some (String _ _ as override) => base_url_of_override override
  | _ => base_url_of_servers document
  end.

(** ** Titles *)

Definition info_text (info : dict) (field : string) : option string :=
  match get field info with
  | VStr value => if is_empty (strip value) then None else Some (strip value)
  | _ => None
  end.
Definition api_title_of (document : dict) : string :=
  match get "info" document with
  | VDict info => match info_text info "title" with Some t => stake 128 t | None => "Untitled API" end
  | _ => "Untitled API"
  end.
Definition api_summary_of (document : dict) : string :=
  let default := "An API registered with the Tool Control Plane." in
  match get "info" document with
  | VDict info =>
      match info_text info "summary", info_text info "description" with
      | Some t, _ | None, Some t => stake 1024 t
      | None, None => default
      end
  | _ => default
  end.

(** ** One operation *)

Section analysis.
Context `{Platform}.

(** [seen_tool_names]: names with the key of the operation that took them. *)
Definition tool_diagnostics (tool : ToolDefinition) (pointer key : string) : list Diagnostic :=
  (if bool_decide (description_origin (provenance tool) = Generated) then
     [MkDiagnostic "description_generated"
        "the source operation has no summary or description, so a placeholder was generated; write a real description before publishing"
        pointer "warning" (Some key)]
   else [])
  ++ (if deprecated (provenance tool) then
        [MkDiagnostic "operation_deprecated" "the source operation is marked deprecated" pointer "warning" (Some key)]
      else []).
Definition analyze_operation (path method : string) (path_item : dict) (operation : pyval) (pointer : string)
    (seen_tool_names : list (string * string)) : M (AnalyzedOperation * list (string * string)) :=
  let key := operation_key path method in
  match operation with
  | VDict operation =>
      let analyzed := MkAnalyzed key path method pointer operation in
      let* outcome := try_conversion (convert_operation path method path_item operation) in
      match outcome with
      | inr (code, message, error_pointer) =>
          Ok (analyzed None [MkDiagnostic code message (if is_empty error_pointer then pointer else error_pointer)
                               "error" (Some key)], seen_tool_names)
      | inl tool =>
          match alookup (tool_name tool) seen_tool_names with
          | Some previous =>
              Ok (analyzed None [MkDiagnostic "tool_name_collision"
                    ("this operation normalizes to the same tool name as " +:+ repr_str previous
                     +:+ "; give one of them a distinct operationId") pointer "error" (Some key)], seen_tool_names)
          | None =>
              Ok (analyzed (Some tool) (tool_diagnostics tool pointer key), (tool_name tool, key) :: seen_tool_names)
          end
      end
  | _ =>
      Ok (MkAnalyzed key path method pointer [] None
            [MkDiagnostic "invalid_operation" "an operation must be an object" pointer "error" (Some key)],
          seen_tool_names)
  end.

(** ** All paths *)

Record analysis_state := MkAState {
  as_operations : list AnalyzedOperation;
  as_diagnostics : list Diagnostic;
  as_seen : list (string * string);
  as_count : Z;
}.
Definition diagnose (d : Diagnostic) (s : analysis_state) : analysis_state :=
  MkAState (as_operations s) (as_diagnostics s ++ [d]) (as_seen s) (as_count s).

Variable limits : SourceLimits.

Fixpoint analyze_methods (methods : list string) (path path_pointer : string) (path_item : dict)
    (s : analysis_state) : M analysis_state :=
  match methods with
  | [] => Ok s
  | method :: methods =>
      match get method path_item with
      | VNone => analyze_methods methods path path_pointer path_item s
      | operation =>
          if (max_operations limits <=? as_count s)%Z then
            Ok (diagnose (MkDiagnostic "operation_limit_exceeded"
                  ("only the first " +:+ str_of_Z (max_operations limits) +:+ " operations are analyzed")
                  path_pointer "error" None) s)
          else
            let* result := analyze_operation path method path_item operation
                             (path_pointer +:+ "/" +:+ method) (as_seen s) in
            analyze_methods methods path path_pointer path_item
              (MkAState (as_operations s ++ [result.1]) (as_diagnostics s) result.2 (as_count s + 1))
      end
  end.
Definition unsupported_method (path path_pointer : string) (path_item : dict) (s : analysis_state) (method : string)
  : analysis_state :=
  if has method path_item then
    diagnose (MkDiagnostic "unsupported_method" ("the " +:+ upper method +:+ " method is not converted into a tool")
                (path_pointer +:+ "/" +:+ method) "warning" (Some (operation_key path method))) s
  else s.

Variable document : dict.

Definition analyze_path (paths : dict) (s : analysis_state) (path : string) : M analysis_state :=
  let path_pointer := "/paths/" +:+ escape_token path in
  if negb (starts_with "/" path) then
    Ok (diagnose (MkDiagnostic "invalid_path" "a path key must be a string beginning with '/'" path_pointer "error" None) s)
  else
    match get path paths with
    | VDict _ as raw_path_item =>
        let* outcome := try_conversion (resolve document raw_path_item path_pointer) in
        match outcome with
        | inr (code, message, pointer) => Ok (diagnose (as_diagnostic code message pointer None) s)
        | inl (VDict path_item) =>
            let* s := analyze_methods SUPPORTED_METHODS path path_pointer path_item s in
            Ok (foldl (unsupported_method path path_pointer path_item) s UNSUPPORTED_METHODS)
        | inl _ => attribute_error "object has no attribute 'get'"
        end
    | _ => Ok (diagnose (MkDiagnostic "invalid_path_item" "a path item must be an object" path_pointer "error" None) s)
    end.

Definition require_an_operation (s : analysis_state) : analysis_state :=
  match as_operations s with
  | [] => diagnose (MkDiagnostic "no_convertible_operations"
            "the document contains no operation this converter can turn into a tool" "/paths" "error" None) s
  | _ => s
  end.

(** [sorted(paths)]. *)
Definition sorted_paths (paths : dict) : M (list string) :=
  if forallb (fun kv => is_str_key kv.1) paths then Ok (sorted_strs (map key_text (dkeys paths)))
  else type_error "'<' not supported between keys".
End analysis.

Definition analyze_document `{Platform} (loaded : LoadedDocument) (limits : SourceLimits)
    (base_url_override : option string) : M AnalysisResult :=
  let document := ld_document loaded in
  let* base := resolve_base_url document base_url_override in
  match get "paths" document with
  | VDict paths =>
      let* names := sorted_paths paths in
      let* s := fold_result (analyze_path limits document paths) names (MkAState [] base.2 [] 0) in
      let s := require_an_operation s in
      Ok (MkAnalysis ANALYZER_VERSION (ld_spec_version loaded) (api_title_of document) (api_summary_of document)
            base.1 (as_operations s) (as_diagnostics s))
  | _ => type_error "object is not iterable"
  end.

(** ** Storing an analysis *)

Definition serialize_operation (o : AnalyzedOperation) : pyval :=
  VDict {{ "key" ~> VStr (an_key o); "path" ~> VStr (an_path o); "method" ~> VStr (an_method o);
           "pointer" ~> VStr (an_pointer o); "source_operation" ~> VDict (an_source_operation o);
           "tool" ~> (match an_tool o with Some t => dump_tool t | None => VNone end);
           "diagnostics" ~> VList (map diagnostic_to_dict (an_diagnostics o)) }}.
Definition serialize_analysis (r : AnalysisResult) : dict :=
  {{ "analyzer_version" ~> VStr (ar_analyzer_version r); "spec_version" ~> VStr (ar_spec_version r);
     "api_title" ~> VStr (ar_api_title r); "api_summary" ~> VStr (ar_api_summary r);
     "base_url" ~> opt_str (ar_base_url r);
     "diagnostics" ~> VList (map diagnostic_to_dict (ar_diagnostics r));
     "operations" ~> VList (map serialize_operation (ar_operations r)) }}.

(** [register_source] loads, analyzes and stores. *)
#[export] Instance openapi_analyzer `{Parsers, Platform} : Analyzer := {|
  ingest := fun raw filename max_source_bytes base_url_override =>
    let limits := MkSourceLimits max_source_bytes (max_depth default_limits) (max_nodes default_limits)
                    (max_operations default_limits) in
    let* loaded := load_document raw filename limits in
    let* analysis := analyze_document loaded default_limits base_url_override in
    Ok (MkIngested (ld_filename loaded) (ld_digest loaded) (ld_byte_length loaded) (ld_source_format loaded)
          (ld_spec_version loaded) (ar_analyzer_version analysis) (ar_api_title analysis) (ar_api_summary analysis)
          (ar_base_url analysis) (serialize_analysis analysis)) |}.
