(* ===== verification/AnalyzerProperties.v ===== *)
(** * Properties of analysis

    What the analysis of a document contains, and what it never contains. *)

From S2P Require Export Analyzer ConverterProperties.

(** ** The operations a document declares *)

Definition path_methods (path_item : dict) : list string :=
  List.filter (fun m => negb (is_vnone (get m path_item))) SUPPORTED_METHODS.
(** The path item of a path, references resolved. *)
Definition path_item_of (document paths : dict) (path : string) : option dict :=
  if starts_with "/" path then
    match get path paths with
    | VDict _ as raw =>
        match resolve document raw ("/paths/" +:+ escape_token path) with
        | Ok (VDict path_item) => Some path_item
        | _ => None
        end
    | _ => None
    end
  else None.
Definition path_item_at (document : dict) (path : string) : option dict :=
  match get "paths" document with VDict paths => path_item_of document paths path | _ => None end.
Definition declared_at (document paths : dict) (path : string) : list (string * string) :=
  match path_item_of document paths path with
  | Some path_item => map (pair path) (path_methods path_item)
  | None => []
  end.
(** In the order of the sorted paths, the methods of each in a fixed order. *)
Definition declared_operations (document : dict) : list (string * string) :=
  match get "paths" document with
  | VDict paths => List.concat (map (declared_at document paths) (sorted_strs (map key_text (dkeys paths))))
  | _ => []
  end.

Definition analyzed_at (o : AnalyzedOperation) : string * string := (an_path o, an_method o).

Section analysis.
Context `{Platform}.

(** An entry is the tool of the operation the document describes there, or says
    why there is none. *)
Definition entry_ok (document : dict) (o : AnalyzedOperation) : Prop :=
  an_key o = operation_key (an_path o) (an_method o) /\
  match an_tool o with
  | Some t => valid_tool t /\ exists path_item,
                path_item_at document (an_path o) = Some path_item /\
                get (an_method o) path_item = VDict (an_source_operation o) /\
                convert_operation (an_path o) (an_method o) path_item (an_source_operation o) = Ok t
  | None => exists d, d ∈ an_diagnostics o /\ dg_severity d = "error"
  end.
Section limits.
Variable limits : SourceLimits.
Abbreviation most := (Z.to_nat (max_operations limits)).
Section document.
Variable document : dict.
Hypothesis document_json : json_dicts (VDict document).
Record state_ok (s : analysis_state) : Prop := {
  so_entries : Forall (entry_ok document) (as_operations s);
  so_seen : (as_seen s).*1 = rev (map tool_name (omap an_tool (as_operations s)));
  so_names : NoDup (as_seen s).*1;
  so_count : as_count s = Z.of_nat (length (as_operations s));
}.
(** The part of the state a diagnostic leaves alone. *)
Definition same_entries (s s' : analysis_state) : Prop :=
  as_operations s' = as_operations s /\ as_seen s' = as_seen s /\ as_count s' = as_count s.
Definition limit_reported (ds : list Diagnostic) : Prop := "operation_limit_exceeded" ∈ map dg_code ds.
(** Diagnostics are only added. *)
Definition adds_diagnostics (s s' : analysis_state) : Prop :=
  exists ds, as_diagnostics s' = as_diagnostics s ++ ds.
Lemma adds_refl s : adds_diagnostics s s.
Proof. exists []. by rewrite app_nil_r. Qed.
Lemma adds_diagnose d s : adds_diagnostics s (diagnose d s).
Proof. by exists [d]. Qed.
Lemma adds_trans s1 s2 s3 : adds_diagnostics s1 s2 -> adds_diagnostics s2 s3 -> adds_diagnostics s1 s3.
Proof. intros [d1 H1] [d2 H2]. exists (d1 ++ d2). by rewrite H2, H1, app_assoc. Qed.
Lemma adds_reported s s' : adds_diagnostics s s' -> limit_reported (as_diagnostics s) -> limit_reported (as_diagnostics s').
Proof. intros [ds ->]. unfold limit_reported. rewrite map_app, elem_of_app. by left. Qed.
Lemma same_entries_ok s s' : same_entries s s' -> state_ok s -> state_ok s'.
Proof. intros (H1 & H2 & H3) [? ? ? ?]. split; congruence. Qed.
Lemma unsupported_same path pp path_item ms s :
  same_entries s (foldl (unsupported_method path pp path_item) s ms).
Proof.
  revert s. induction ms as [|m ms IH]; intros s; [done|]. cbn [foldl].
  assert (same_entries s (unsupported_method path pp path_item s m)) as (H1 & H2 & H3)
    by (unfold unsupported_method; by destruct (has m path_item)).
  destruct (IH (unsupported_method path pp path_item s m)) as (? & ? & ?). repeat split; congruence.
Qed.

Lemma unsupported_adds path pp path_item ms s :
  adds_diagnostics s (foldl (unsupported_method path pp path_item) s ms).
Proof.
  revert s. induction ms as [|m ms IH]; intros s; [apply adds_refl|]. cbn [foldl]. eapply adds_trans; [|apply IH].
  unfold unsupported_method. destruct (has m path_item); [apply adds_diagnose|apply adds_refl].
Qed.

Lemma analyze_operation_spec path method path_item operation pointer seen o seen' :
  json_dicts operation -> path_item_at document path = Some path_item -> get method path_item = operation ->
  analyze_operation path method path_item operation pointer seen = Ok (o, seen') ->
  entry_ok document o /\ analyzed_at o = (path, method) /\
  match an_tool o with
  | Some t => seen' = (tool_name t, an_key o) :: seen /\ tool_name t ∉ seen.*1
  | None => seen' = seen
  end.
Proof.
  intros Hj Hat Hop Ha. unfold analyze_operation in Ha. destruct operation as [| | | | | | |operation|];
    try (injection Ha as <- <-; split_and!; try done; split; [done|]; eexists; split; [by left|done]).
  cbv zeta in Ha. unfold try_conversion in Ha.
  destruct (convert_operation path method path_item operation) as [t|e] eqn:Hc; cbn [bind] in Ha.
  - destruct (alookup (tool_name t) seen) as [previous|] eqn:Hl; injection Ha as <- <-.
    + split_and!; try done. split; [done|]. eexists. split; [by left|done].
    + apply alookup_None in Hl. split_and!; try done. split; [done|]. split; [|by exists path_item].
      apply convert_operation_Ok in Hc as (ps & a & a' & b & Hc). by eapply conversion_valid.
  - destruct e; try done. cbn [bind] in Ha. injection Ha as <- <-. split_and!; try done.
    split; [done|]. eexists. split; [by left|done].
Qed.

(** What a reference resolves to is again a JSON value. *)
Lemma resolve_json raw pointer r :
  json_dicts raw -> resolve document raw pointer = Ok r -> json_dicts r.
Proof using document_json.
  intros Hr E. pose proof (resolve_at_spec document document_json (S MAX_RESOLUTION_DEPTH) raw pointer [] Hr) as H'.
  unfold resolve in E. rewrite E in H'. apply H'.
Qed.

Lemma state_ok_step s o seen' :
  state_ok s -> entry_ok document o ->
  match an_tool o with
  | Some t => seen' = (tool_name t, an_key o) :: as_seen s /\ tool_name t ∉ (as_seen s).*1
  | None => seen' = as_seen s
  end ->
  state_ok (MkAState (as_operations s ++ [o]) (as_diagnostics s) seen' (as_count s + 1)).
Proof.
  intros [He Hs Hn Hc] Ho Hseen. split; cbn [as_operations as_seen as_count].
  - apply Forall_app. split; [done|]. by apply Forall_singleton.
  - rewrite omap_app, map_app, rev_app_distr. cbn [omap list_omap]. destruct (an_tool o); cbn [map rev app].
    + destruct Hseen as [-> _]. csimpl. by rewrite Hs.
    + by subst.
  - destruct (an_tool o); [|by subst]. destruct Hseen as [-> Hf]. csimpl. by constructor.
  - rewrite Hc, length_app. cbn [length]. lia.
Qed.
(** What a step adds: the operations [declared], as far as the limit allows,
    and a diagnostic when it does not allow them all. *)
Definition step_adds (declared : list (string * string)) (s s' : analysis_state) : Prop :=
  adds_diagnostics s s' /\
  (exists news, as_operations s' = as_operations s ++ news /\
     map analyzed_at news = firstn (most - length (as_operations s)) declared) /\
  (most - length (as_operations s) < length declared -> limit_reported (as_diagnostics s'))%nat.
Lemma require_same s :
  as_operations (require_an_operation s) = as_operations s /\ adds_diagnostics s (require_an_operation s).
Proof.
  unfold require_an_operation. destruct (as_operations s) eqn:E; [|split; [done|apply adds_refl]].
  split; [exact E|apply adds_diagnose].
Qed.
Lemma step_adds_none s s' : same_entries s s' -> adds_diagnostics s s' -> step_adds [] s s'.
Proof.
  intros (Ho & _ & _) Hd. split_and!; [done| |cbn [length]; lia]. exists []. by rewrite Ho, app_nil_r, firstn_nil.
Qed.
Lemma step_adds_cons s o seen' s' declared :
  (length (as_operations s) < most)%nat ->
  step_adds declared (MkAState (as_operations s ++ [o]) (as_diagnostics s) seen' (as_count s + 1)) s' ->
  step_adds (analyzed_at o :: declared) s s'.
Proof.
  intros Hlt (Hd & (news & Ho & Hn) & Hr). cbn [as_operations as_diagnostics] in *. rewrite length_app in Hn, Hr.
  cbn [length] in Hn, Hr. split_and!; [done| |cbn [length]; intros; apply Hr; lia].
  exists (o :: news). split; [by rewrite Ho, <- app_assoc|].
  replace (most - length (as_operations s))%nat with (S (most - (length (as_operations s) + 1)))%nat by lia.
  cbn [map firstn]. by rewrite Hn.
Qed.
Lemma step_adds_full s d declared :
  (most <= length (as_operations s))%nat -> dg_code d = "operation_limit_exceeded" -> step_adds declared s (diagnose d s).
Proof.
  intros Hle Hd. split_and!; [apply adds_diagnose| |].
  - exists []. replace (most - length (as_operations s))%nat with O by lia. by rewrite app_nil_r.
  - intros _. unfold limit_reported. cbn. rewrite map_app, elem_of_app. right. cbn. rewrite Hd. by left.
Qed.
Lemma analyze_methods_spec methods path pp path_item s s' :
  json_dicts (VDict path_item) -> path_item_at document path = Some path_item -> state_ok s ->
  analyze_methods limits methods path pp path_item s = Ok s' ->
  state_ok s' /\ step_adds (map (pair path) (List.filter (fun m => negb (is_vnone (get m path_item))) methods)) s s'.
Proof.
  intros Hj Hpi. revert s. induction methods as [|m methods IH]; intros s Hs; cbn [analyze_methods].
  { intros [= <-]. split; [done|]. apply step_adds_none; [done|apply adds_refl]. }
  cbn [List.filter]. pose proof (json_get m path_item Hj) as Hjo.
  destruct (get m path_item) as [| | | | | | | |] eqn:Eg; cbn [is_vnone negb]; [by apply IH|..].
  all: destruct (Z.leb_spec (max_operations limits) (as_count s)) as [Hle|Hlt];
    [intros [= <-]; split; [by apply (same_entries_ok s)|]; apply step_adds_full; [|done];
     rewrite (so_count s Hs) in Hle; lia|].
  all: intros ([o seen'] & Ho & Hrest)%bind_Ok; cbn [fst snd] in Hrest;
    destruct (analyze_operation_spec _ _ _ _ _ _ _ _ Hjo Hpi Eg Ho) as (He & Hat & Hseen);
    apply IH in Hrest as [Hs' Hadds]; [|by apply state_ok_step];
    split; [done|]; cbn [map]; rewrite <- Hat; apply (step_adds_cons _ _ seen'); [|done];
    rewrite (so_count s Hs) in Hlt; lia.
Qed.

Lemma analyze_path_spec paths path s s' :
  json_dicts (VDict paths) -> get "paths" document = VDict paths -> state_ok s -> analyze_path limits document paths s path = Ok s' ->
  state_ok s' /\ step_adds (declared_at document paths path) s s'.
Proof using document_json.
  intros Hp Hpaths Hs. unfold analyze_path, declared_at. cbv zeta.
  assert (path_item_at document path = path_item_of document paths path) as Hat by (unfold path_item_at; by rewrite Hpaths).
  unfold path_item_of in Hat |- *.
  assert (forall d, state_ok (diagnose d s) /\ step_adds [] s (diagnose d s)) as Hd.
  { intros d. split; [by apply (same_entries_ok s)|]. apply step_adds_none; [done|apply adds_diagnose]. }
  revert Hat. destruct (starts_with "/" path); cbn [negb]; [|intros _ [= <-]; apply Hd].
  pose proof (json_get path paths Hp) as Hraw.
  destruct (get path paths) as [| | | | | | |raw|].
  1-7, 9: intros _ [= <-]; apply Hd.
  pose proof (fun r => resolve_json (VDict raw) ("/paths/" +:+ escape_token path) r Hraw) as Hr.
  generalize dependent (resolve document (VDict raw) ("/paths/" +:+ escape_token path)). intros outcome Hr.
  unfold try_conversion. destruct outcome as [r|e]; cbn [bind].
  2:{ destruct e; try done. cbn [bind]. intros _ [= <-]. apply Hd. }
  specialize (Hr r eq_refl) as Hj. destruct r as [| | | | | | |path_item|]; try done. intros Hat.
  intros (s1 & H1 & E)%bind_Ok.
  assert (s' = foldl (unsupported_method path ("/paths/" +:+ escape_token path) path_item) s1 UNSUPPORTED_METHODS) as ->
    by (clear - E; congruence). clear E.
  destruct (analyze_methods_spec _ _ _ _ _ _ Hj Hat Hs H1) as (Hs1 & Had & (news & Hops & Hnews) & Hrep).
  pose proof (unsupported_same path ("/paths/" +:+ escape_token path) path_item UNSUPPORTED_METHODS s1) as Hsame.
  pose proof (unsupported_adds path ("/paths/" +:+ escape_token path) path_item UNSUPPORTED_METHODS s1) as Hmore.
  split; [by eapply same_entries_ok|]. split_and!.
  - by eapply adds_trans.
  - exists news. split; [|exact Hnews]. by destruct Hsame as [-> _].
  - intros Hlt. eapply adds_reported; [exact Hmore|]. by apply Hrep.
Qed.
Lemma analyze_paths_spec paths names s' base :
  json_dicts (VDict paths) -> get "paths" document = VDict paths ->
  fold_result (analyze_path limits document paths) names (MkAState [] base [] 0) = Ok s' ->
  state_ok s' /\ step_adds (List.concat (map (declared_at document paths) names)) (MkAState [] base [] 0) s'.
Proof using document_json.
  intros Hp Hpaths Hf. set (s0 := MkAState [] base [] 0) in *.
  apply (fold_result_inv _ (fun names s => state_ok s /\
    step_adds (List.concat (map (declared_at document paths) names)) s0 s)) in Hf; [done| |].
  { split; [split; try done; constructor|]. by apply step_adds_none, adds_refl. }
  clear s' Hf. intros done path s s' (Hs & Had & (before & Hb & Hbat) & Hrep) Hstep.
  destruct (analyze_path_spec _ _ _ _ Hp Hpaths Hs Hstep) as (Hs' & Had' & (news & Hops' & Hnews) & Hrep').
  cbn [s0 as_operations app length] in *. subst before. rewrite Nat.sub_0_r in *.
  pose proof (f_equal length Hbat) as Hlen. rewrite length_map, length_firstn in Hlen.
  split; [done|]. rewrite map_app, concat_app. cbn [map List.concat]. rewrite app_nil_r. split_and!.
  - by eapply adds_trans.
  - exists (as_operations s'). split; [done|]. cbn [s0 as_operations length]. rewrite Nat.sub_0_r.
    rewrite Hops', map_app, Hbat, Hnews, firstn_app. do 2 f_equal. lia.
  - cbn [s0 as_operations length]. rewrite Nat.sub_0_r, length_app. intros Hlt.
    destruct (decide (most < length (List.concat (map (declared_at document paths) done)))%nat) as [Hlt'|Hge].
    + eapply adds_reported; [exact Had'|]. by apply Hrep.
    + apply Hrep'. lia.
Qed.
End document.
End limits.
End analysis.

(** ** Keys are distinct *)

Lemma key_texts_distinct d : json_dicts (VDict d) -> NoDup (map key_text (dkeys d)).
Proof.
  intros [Hok Hd]%json_dicts_dict. unfold dict_ok, dkeys in *. induction Hd as [|[k v] d [Hk _] Hd IH]; csimpl; [constructor|].
  apply NoDup_cons in Hok as [Hin Hok]. apply NoDup_cons. split; [|by apply IH].
  intros (k' & E & Hk')%list_elem_of_fmap. apply Hin. apply list_elem_of_fmap in Hk' as ([k'' v'] & -> & Hin').
  rewrite Forall_forall in Hd. destruct (Hd _ Hin') as [Hs _]. cbn in *. destruct k, k''; try done. cbn in E. subst.
  apply list_elem_of_fmap. by eexists (_, _).
Qed.
Lemma declared_at_path document paths path : Forall (fun pm => pm.1 = path /\ pm.2 ∈ SUPPORTED_METHODS) (declared_at document paths path).
Proof.
  unfold declared_at, path_item_of. destruct (starts_with _ _); [|constructor]. destruct (get path paths); try constructor.
  destruct (resolve _ _ _) as [[]|]; try constructor. apply Forall_map. apply Forall_forall. intros m Hm.
  split; [done|]. unfold path_methods in Hm. by apply list_elem_of_In, filter_In in Hm as [?%list_elem_of_In _].
Qed.
Lemma declared_at_distinct document paths path : NoDup (declared_at document paths path).
Proof.
  unfold declared_at, path_item_of. destruct (starts_with _ _); [|constructor]. destruct (get path paths); try constructor.
  destruct (resolve _ _ _) as [[]|]; try constructor. apply NoDup_fmap_2; [by intros ?? [= ->]|].
  unfold path_methods. apply NoDup_ListNoDup, List.NoDup_filter, NoDup_ListNoDup. apply (bool_decide_unpack _). vm_compute. exact I.
Qed.
Lemma declared_operations_distinct document :
  json_dicts (VDict document) ->
  NoDup (declared_operations document) /\ Forall (fun pm => pm.2 ∈ SUPPORTED_METHODS) (declared_operations document).
Proof.
  intros Hj. unfold declared_operations. pose proof (json_get "paths" document Hj) as Hp.
  destruct (get "paths" document) as [| | | | | | |paths|]; try (split; constructor).
  assert (NoDup (sorted_strs (map key_text (dkeys paths)))) as Hnd
    by (rewrite sorted_strs_perm; by apply key_texts_distinct).
  induction Hnd as [|p ps Hin _ [IH1 IH2]]; cbn [map List.concat]; [split; constructor|].
  pose proof (declared_at_path document paths p) as Hpm. split; [|apply Forall_app; split; [|done]].
  - apply NoDup_app. split; [apply declared_at_distinct|]. split; [|done].
    intros x Hx Hx'. rewrite Forall_forall in Hpm. destruct (Hpm x Hx) as [<- _]. apply Hin.
    apply list_elem_of_In, in_concat in Hx' as (l & (q & <- & Hq)%in_map_iff & Hx'%list_elem_of_In).
    pose proof (declared_at_path document paths q) as Hq'. rewrite Forall_forall in Hq'.
    destruct (Hq' x Hx') as [-> _]. by apply list_elem_of_In.
  - eapply Forall_impl; [exact Hpm|]. by intros pm [].
Qed.
Lemma operation_key_inj p m p' m' :
  m ∈ SUPPORTED_METHODS -> m' ∈ SUPPORTED_METHODS -> operation_key p m = operation_key p' m' -> (p, m) = (p', m').
Proof.
  intros Hm Hm' He. unfold operation_key in He.
  assert (m = m') as <-.
  { apply (f_equal (String.substring 0 2)) in He. revert He.
    unfold SUPPORTED_METHODS in *. rewrite !elem_of_cons in Hm, Hm'.
    destruct Hm as [->|[->|[->|[->|[->|?%elem_of_nil]]]]], Hm' as [->|[->|[->|[->|[->|?%elem_of_nil]]]]]; done. }
  by apply (inj (String.append _)), (inj (String.append _)) in He as ->.
Qed.

(** Entries of distinct operations have distinct keys. *)
Lemma keys_distinct `{Platform} document (s : analysis_state) :
  state_ok document s ->
  NoDup (map analyzed_at (as_operations s)) /\ Forall (fun pm => pm.2 ∈ SUPPORTED_METHODS) (map analyzed_at (as_operations s)) ->
  NoDup (map an_key (as_operations s)).
Proof.
  intros [He _ _ _] [Hnd Hm].
  assert (map an_key (as_operations s) = map (fun pm => operation_key pm.1 pm.2) (map analyzed_at (as_operations s))) as ->.
  { rewrite map_map. apply map_ext_in. intros o Ho%list_elem_of_In. rewrite Forall_forall in He. by destruct (He o Ho) as [-> _]. }
  induction Hnd as [|[p m] l Hin _ IH]; cbn [map]; [constructor|]. inv Hm. apply NoDup_cons. split; [|by apply IH].
  intros ([p' m'] & E & Hin')%list_elem_of_fmap. rewrite Forall_forall in *. apply Hin. cbn in E.
  by rewrite (operation_key_inj p m p' m' ltac:(done) ltac:(by apply (H3 (p', m'))) E).
Qed.

(** ** The analysis of a document *)

(** The final state of an analysis. *)
Lemma analyze_document_state `{Platform} loaded limits override result :
  json_dicts (VDict (ld_document loaded)) ->
  analyze_document loaded limits override = Ok result ->
  let declared := declared_operations (ld_document loaded) in
  exists s, state_ok (ld_document loaded) s /\ ar_operations result = as_operations s /\
    map analyzed_at (as_operations s) = firstn (Z.to_nat (max_operations limits)) declared /\
    ((Z.to_nat (max_operations limits) < length declared)%nat -> limit_reported (ar_diagnostics result)).
Proof.
  intros Hj Ha declared. unfold analyze_document in Ha. cbv zeta in Ha.
  apply bind_Ok in Ha as ([url base] & _ & Ha).
  unfold declared, declared_operations in *. pose proof (json_get "paths" (ld_document loaded) Hj) as Hp.
  destruct (get "paths" (ld_document loaded)) as [| | | | | | |paths|] eqn:Epaths; try discriminate Ha.
  apply bind_Ok in Ha as (names & Hnames & Ha). apply bind_Ok in Ha as (s & Hs & Ha).
  unfold sorted_paths in Hnames. destruct (forallb _ _); [|discriminate Hnames].
  assert (names = sorted_strs (map key_text (dkeys paths))) as -> by (clear - Hnames; congruence).
  destruct (analyze_paths_spec limits _ Hj _ _ _ _ Hp Epaths Hs) as (Hok & _ & (news & Hops & Hat) & Hrep).
  cbn [as_operations app length] in Hops, Hat, Hrep. subst news. rewrite Nat.sub_0_r in Hat, Hrep.
  exists s. destruct (require_same s) as [Hsame Hadds]. set (declared' := List.concat _) in *.
  assert (result = MkAnalysis ANALYZER_VERSION (ld_spec_version loaded) (api_title_of (ld_document loaded))
    (api_summary_of (ld_document loaded)) url (as_operations (require_an_operation s))
    (as_diagnostics (require_an_operation s))) as -> by (clear - Ha; cbn [fst snd] in Ha; congruence).
  cbn [ar_operations ar_diagnostics]. split_and!; [done..|]. intros Hlt. by eapply adds_reported, Hrep.
Qed.


(** ** A concrete document *)

Definition demo_document : dict :=
  {{ "openapi" ~> VStr "3.0.3";
     "servers" ~> VList [VDict {{ "url" ~> VStr "https://api.example.com/v1/" }}];
     "paths" ~> VDict {{
       "/tickets/{ticketId}/notes" ~> VDict {{ "$ref" ~> VStr "#/components/notes" }};
       "/notes" ~> VDict {{ "put" ~> VDict {{ "operationId" ~> VStr "add-note"; "summary" ~> VStr "Again" }};
                            "get" ~> VDict {{ "summary" ~> VStr "List" }};
                            "trace" ~> VDict [] }};
       "/tags" ~> VDict {{ "delete" ~> VDict {{ "operationId" ~> VStr "drop" }}; "patch" ~> VInt 3 }} }};
     "components" ~> VDict {{ "notes" ~> VDict (dset (KStr "post") (VDict demo_operation) demo_path_item) }} }}.
Definition demo_loaded : LoadedDocument := MkLoaded demo_document "3.0.3" "api.json" "sha256:0" 10 "json".
Definition demo_limits : SourceLimits := MkSourceLimits 1000 10 1000 4.
Definition demo_analysis : M AnalysisResult := analyze_document (H:=hex_platform) demo_loaded demo_limits None.

Lemma demo_document_json : json_dicts (VDict demo_document).
Proof. simpl; split_and!; try done; apply (bool_decide_unpack _); vm_compute; exact I. Qed.

(** One operation whose path, parameter or identifier cannot be part of a tool
    fails the analysis of the whole document, and so do a reference that
    resolves to no object and a server URL that [urlsplit] refuses. *)
Definition document_at (path : string) (path_item : pyval) : LoadedDocument :=
  MkLoaded {{ "openapi" ~> VStr "3.0.3"; "list" ~> VList [];
              "paths" ~> VDict (dset (KStr "/fine") (VDict {{ "get" ~> VDict [] }}) [(KStr path, path_item)]) }}
    "3.0.3" "api.json" "sha256:0" 10 "json".
Lemma one_operation_fails_document :
  let analyze d override := analyze_document (H:=hex_platform) d demo_limits override in
  (exists m, analyze (document_at "/a b" (VDict {{ "get" ~> VDict [] }})) None = Err (Raised PydanticValidationError m)) /\
  (exists m, analyze (document_at "/a" (VDict {{ "get" ~> VDict {{ "operationId" ~> VStr "---" }} }})) None =
             Err (Raised ValueError m)) /\
  (exists m, analyze (document_at "/a" (VDict {{ "$ref" ~> VStr "#/list" }})) None = Err (Raised AttributeError m)) /\
  (exists m, analyze (document_at "/a" (VDict [])) (Some "http://[") = Err (Raised ValueError m)).
Proof. split_and!; eexists; vm_compute; reflexivity. Qed.
