(* ===== verification/ServiceInvariant.v ===== *)
(** * What the Control Plane's database guarantees

    The invariant of the committed states under every interleaving of
    transactions, and what each use case does on its own. *)

From S2P Require Export Service.

(** ** Tables *)

Section tables.
Context {A B : Type}.

Lemma NoDup_insert (key : A -> B) clash row table l :
  insert_unique clash row table = Ok l -> (forall r, key r = key row -> clash r = true) ->
  NoDup (map key table) -> NoDup (map key l).
Proof.
  intros [-> Hc]%insert_unique_Ok Hk Hn. rewrite map_app. apply NoDup_app. split; [done|].
  split; [|apply NoDup_singleton]. intros x Hx ->%list_elem_of_singleton.
  apply list_elem_of_In, in_map_iff in Hx as (r & Hr & Hin%list_elem_of_In).
  specialize (Hc r Hin). rewrite (Hk r Hr) in Hc. done.
Qed.
Lemma NoDup_insert_id (id : A -> Z) clash row table l :
  insert_unique clash row table = Ok l -> id row = next_id (map id table) ->
  NoDup (map id table) -> NoDup (map id l).
Proof.
  intros [-> _]%insert_unique_Ok Hk Hn. rewrite map_app. apply NoDup_app. split; [done|].
  split; [|apply NoDup_singleton]. intros x Hx ->%list_elem_of_singleton.
  apply list_elem_of_In, in_map_iff in Hx as (r & Hr & Hin%list_elem_of_In).
  pose proof (next_id_fresh id table r Hin). lia.
Qed.
Lemma map_update (key : A -> B) (hit : A -> bool) f table :
  (forall r, key (f r) = key r) -> map key (map (fun r => if hit r then f r else r) table) = map key table.
Proof. intros Hk. rewrite map_map. apply map_ext. intros r. by destruct (hit r). Qed.
Lemma NoDup_delete (key : A -> B) (p : A -> bool) table :
  NoDup (map key table) -> NoDup (map key (List.filter p table)).
Proof.
  induction table as [|r table IH]; [done|]. simpl. intros [Hr Hn]%NoDup_cons.
  destruct (p r); simpl; [|auto]. apply NoDup_cons. split; [|auto].
  intros Hin. apply Hr. apply list_elem_of_In, in_map_iff in Hin as (r' & <- & [Hin _]%filter_In).
  by apply list_elem_of_In, in_map.
Qed.
Lemma NoDup_map_inj (key : A -> B) table r r' :
  NoDup (map key table) -> r ∈ table -> r' ∈ table -> key r = key r' -> r = r'.
Proof.
  induction table as [|x table IH]; [by intros _ ?%elem_of_nil|]. simpl. intros [Hx Hn]%NoDup_cons.
  rewrite !elem_of_cons. intros [->|Hr] [->|Hr'] E; [done| | |auto]; destruct Hx.
  - rewrite E. by apply list_elem_of_In, in_map, list_elem_of_In.
  - rewrite <- E. by apply list_elem_of_In, in_map, list_elem_of_In.
Qed.
(** Rows persist, up to [R], through an append and through an update. *)
Definition persist (R : A -> A -> Prop) (old new : list A) : Prop :=
  forall r, r ∈ old -> exists r', r' ∈ new /\ R r r'.
Lemma persist_app (R : A -> A -> Prop) `{!Reflexive R} l m : persist R l (l ++ m).
Proof. intros r Hr. exists r. split; [apply elem_of_app; by left | done]. Qed.
Lemma persist_update (R : A -> A -> Prop) `{!Reflexive R} (hit : A -> bool) f l :
  (forall r, R r (f r)) -> persist R l (map (fun r => if hit r then f r else r) l).
Proof.
  intros HR r Hr. exists (if hit r then f r else r). split.
  - apply list_elem_of_In, in_map_iff. exists r. by rewrite <- list_elem_of_In.
  - by destruct (hit r).
Qed.
Lemma persist_trans (R : A -> A -> Prop) `{!Transitive R} l m n :
  persist R l m -> persist R m n -> persist R l n.
Proof. intros Hlm Hmn r (s & Hs & ?)%Hlm. destruct (Hmn s Hs) as (t & Ht & ?). exists t. split; [done|by etrans]. Qed.
#[export] Instance persist_refl (R : A -> A -> Prop) `{!Reflexive R} : Reflexive (persist R).
Proof. intros l r Hr. by exists r. Qed.
End tables.

(** ** The authoring tables *)

Definition same_connector (r r' : connector_row) : Prop :=
  cr_id r = cr_id r' /\ cr_connector_key r = cr_connector_key r'.
(** What may change of a published version is that it becomes disabled. *)
Record same_version (r r' : version_row) : Prop := {
  sv_id : vr_id r = vr_id r';
  sv_connector : vr_connector_id r = vr_connector_id r';
  sv_version : vr_version r = vr_version r';
  sv_document : vr_document r = vr_document r';
  sv_digest : vr_document_digest r = vr_document_digest r';
  sv_published : vr_published_at r = vr_published_at r' /\ vr_published_by r = vr_published_by r';
  sv_disabled : vr_disabled r = true -> vr_disabled r' = true;
}.
#[export] Instance same_connector_refl : Reflexive same_connector.
Proof. done. Qed.
#[export] Instance same_connector_trans : Transitive same_connector.
Proof. intros a b c [] []. split; congruence. Qed.
#[export] Instance same_version_refl : Reflexive same_version.
Proof. done. Qed.
#[export] Instance same_version_trans : Transitive same_version.
Proof. intros a b c [?????[] ?] [?????[] ?]. split; [congruence..| |auto]. split; congruence. Qed.

Definition connectors_ok (l : list connector_row) : Prop :=
  NoDup (map cr_id l) /\ NoDup (map cr_connector_key l).
Definition drafts_ok (l : list draft_row) : Prop := NoDup (map dr_id l) /\ NoDup (map dr_connector_id l).

Section invariant.
Context `{Platform, Ed25519, JsonSchema, Pydantic, Analyzer}.

(** A published row carries a validated document under its own digest. *)
Record version_sound (cs : list connector_row) (r : version_row) : Prop := {
  vs_document : connector_document_ok (VDict (vr_document r));
  vs_digest : content_digest (VDict (vr_document r)) [] = Ok (vr_document_digest r);
  vs_version : get "version" (vr_document r) = VStr (vr_version r);
  vs_published : get "lifecycle_state" (vr_document r) = VStr "published";
  vs_connector : exists c, c ∈ cs /\ cr_id c = vr_connector_id r /\
    get "connector_key" (vr_document r) = VStr (cr_connector_key c);
}.
Definition versions_ok (cs : list connector_row) (l : list version_row) : Prop :=
  NoDup (map vr_id l) /\ NoDup (map (fun r => (vr_connector_id r, vr_version r)) l) /\
  Forall (version_sound cs) l.

Lemma version_sound_same cs cs' r r' :
  persist same_connector cs cs' -> same_version r r' -> version_sound cs r -> version_sound cs' r'.
Proof.
  intros Hp [_ Hc Hv Hd Hg _ _] [V1 V2 V3 V4 (c & Hin & Hid & Hk)].
  destruct (Hp c Hin) as (c' & Hin' & E1 & E2).
  split; rewrite <- ?Hd, <- ?Hg, <- ?Hv; try done. exists c'. split_and!; congruence.
Qed.

Record authoring_ok (db : database) : Prop := {
  ao_connectors : connectors_ok (t_connectors db);
  ao_drafts : drafts_ok (t_drafts db);
  ao_versions : versions_ok (t_connectors db) (t_versions db);
}.
Record authoring_grows (old new : database) : Prop := {
  ag_connectors : persist same_connector (t_connectors old) (t_connectors new);
  ag_versions : persist same_version (t_versions old) (t_versions new);
}.

Lemma register_row_ok a an now seen live live' c :
  connectors_ok (t_connectors live) -> register_row a an now seen live = Ok (live', c) ->
  connectors_ok (t_connectors live') /\ persist same_connector (t_connectors live) (t_connectors live') /\
  live' = with_connectors live (t_connectors live').
Proof.
  intros [Hid Hk]. unfold register_row. destruct (find_connector seen _) as [c0|].
  - intros (l & [-> _]%update_by_id_Ok & [= <- _])%bind_Ok. cbn [t_connectors with_connectors].
    split_and!; [split|by apply persist_update|done]; by rewrite map_update.
  - intros (db & (l & Hl & [= <-])%bind_Ok & [= <- _])%bind_Ok. cbn [t_connectors with_connectors].
    split_and!; [split| |done].
    + by eapply NoDup_insert_id.
    + eapply NoDup_insert; [done| |done]. intros r Hr. simpl in *. rewrite Hr. apply String.eqb_refl.
    + apply insert_unique_Ok in Hl as [-> _]. apply persist_app, _.
Qed.

Lemma insert_draft_ok db row db' :
  insert_draft db row = Ok db' -> dr_id row = next_id (map dr_id (t_drafts db)) -> drafts_ok (t_drafts db) ->
  drafts_ok (t_drafts db') /\ db' = with_drafts db (t_drafts db ++ [row]).
Proof.
  unfold insert_draft. intros (l & Hl & [= <-])%bind_Ok Hid [Hn1 Hn2]. cbn [t_drafts with_drafts]. split.
  - split; [by eapply NoDup_insert_id|]. eapply NoDup_insert; [done| |done].
    intros r Hr. cbn. rewrite Hr. apply Z.eqb_refl.
  - by apply insert_unique_Ok in Hl as [-> _].
Qed.
Lemma delete_drafts_ok id l : drafts_ok l -> drafts_ok (delete_by_id dr_id id l).
Proof. intros [? ?]. split; by apply NoDup_delete. Qed.

(** What a registration leaves in the database. *)
Lemma register_spec a now seen live live' d :
  register_connector a now seen live = Ok (live', d) ->
  connectors_ok (t_connectors live) -> drafts_ok (t_drafts live) ->
  connectors_ok (t_connectors live') /\ drafts_ok (t_drafts live') /\
  persist same_connector (t_connectors live) (t_connectors live') /\
  t_versions live' = t_versions live /\ t_deployments live' = t_deployments live /\
  t_snapshots live' = t_snapshots live /\ d ∈ t_drafts live' /\ dr_revision d = 1%Z /\
  exists c, register_row a (match ingest (rg_source_bytes a) (rg_source_filename a) (rg_max_source_bytes a)
               (rg_base_url_override a) with Ok an => an | Err _ => MkIngested "" "" 0 "" "" "" "" "" None [] end)
               now seen live = Ok (with_connectors live (t_connectors live'), c) /\ dr_connector_id d = cr_id c.
Proof.
  unfold register_connector. intros (an & -> & Hr)%bind_Ok Hc Hd.
  apply bind_Ok in Hr as ([live1 c] & Hrow & Hr).
  destruct (register_row_ok _ _ _ _ _ _ _ Hc Hrow) as (Hc1 & Hp1 & E1). rewrite E1 in Hrow.
  assert (t_drafts live1 = t_drafts live /\ t_versions live1 = t_versions live /\
    t_deployments live1 = t_deployments live /\ t_snapshots live1 = t_snapshots live) as (F1 & F2 & F3 & F4)
    by (by rewrite E1).
  apply bind_Ok in Hr as (v & _ & Hr). apply bind_Ok in Hr as (rv & _ & Hr).
  apply bind_Ok in Hr as (db & Hins & Hr). injection Hr as <- <-.
  assert (exists l, drafts_ok l /\ (match find_draft live1 (cr_id c) with
            | Some old => with_drafts live1 (delete_by_id dr_id (dr_id old) (t_drafts live1))
            | None => live1 end) = with_drafts live1 l) as (l & Hl & El).
  { destruct (find_draft live1 (cr_id c)) as [old|].
    - eexists. split; [|done]. rewrite F1. by apply delete_drafts_ok.
    - exists (t_drafts live1). split; [by rewrite F1 | by destruct live1]. }
  rewrite El in Hins |- *. destruct (insert_draft_ok _ _ _ Hins eq_refl Hl) as [Hd' ->].
  split_and!; try done.
  - apply elem_of_app. right. by apply list_elem_of_singleton.
  - exists c. by split.
Qed.

Lemma write_review_keys d review c now r :
  dr_id (write_review d review c now r) = dr_id r /\
  dr_connector_id (write_review d review c now r) = dr_connector_id r.
Proof. done. Qed.

Lemma get_draft_Ok db key c d :
  get_draft db key = Ok (c, d) -> c ∈ t_connectors db /\ cr_connector_key c = key /\
    d ∈ t_drafts db /\ dr_connector_id d = cr_id c.
Proof.
  unfold get_draft, get_connector. intros (c' & Hc%of_option_Ok & Hd)%bind_Ok.
  destruct (find_draft db (cr_id c')) as [d'|] eqn:E; [|done]. injection Hd as <- <-.
  apply find_first_Some in Hc as [? ?%String.eqb_eq]. apply find_first_Some in E as [? ?%Z.eqb_eq]. done.
Qed.

Lemma update_review_spec key expected c now seen live live' d :
  update_review key expected c now seen live = Ok (live', d) ->
  exists cr old state state' l, get_draft seen key = Ok (cr, old) /\ expected = dr_revision old /\
    state_from_dict (dr_review old) = Ok state /\ fold_result apply_update (rc_updates c) state = Ok state' /\
    d = write_review old (state_to_dict state') c now old /\
    live' = with_drafts live l /\ (exists r, r ∈ t_drafts live /\ dr_id r = dr_id old) /\
    l = map (fun r => if Z.eqb (dr_id r) (dr_id old)
                      then write_review old (state_to_dict state') c now r else r) (t_drafts live).
Proof.
  unfold update_review. intros ([cr old] & Hg & Hr)%bind_Ok.
  destruct (Z.eqb_spec expected (dr_revision old)); cbn [negb] in Hr; [|done].
  apply bind_Ok in Hr as (st & Hst & Hr). apply bind_Ok in Hr as (st' & Hst' & Hr).
  apply bind_Ok in Hr as (u & _ & Hr). apply bind_Ok in Hr as (l & Hl & Hr).
  assert (live' = with_drafts live l /\ d = write_review old (state_to_dict st') c now old) as [-> ->]
    by (split; congruence).
  apply update_by_id_Ok in Hl as [-> Hex]. eexists cr, old, st, st', _. split_and!; done.
Qed.

Lemma publish_spec key expected by_ version now seen live live' row :
  publish_draft key expected by_ version now seen live = Ok (live', row) ->
  exists c old review built l, get_draft seen key = Ok (c, old) /\ expected = dr_revision old /\
    reject_version_regression seen (dr_connector_id old) (vr_version row) = Ok tt /\
    state_from_dict (dr_review old) = Ok review /\
    build_connector_document (publish_input c old (vr_version row) review now) = Ok built /\
    vr_version row = text_or version (dr_proposed_version old) /\
    vr_document row = bc_document built /\ vr_document_digest row = bc_digest built /\
    vr_connector_id row = dr_connector_id old /\ vr_disabled row = false /\
    vr_id row = next_id (map vr_id (t_versions live)) /\
    insert_unique (fun r => Z.eqb (vr_connector_id r) (vr_connector_id row) &&
                            String.eqb (vr_version r) (vr_version row)) row (t_versions live) = Ok l /\
    live' = with_drafts (with_versions live l) (delete_by_id dr_id (dr_id old) (t_drafts live)).
Proof.
  unfold publish_draft. intros ([c old] & Hg & Hr)%bind_Ok.
  destruct (Z.eqb_spec expected (dr_revision old)); cbn [negb] in Hr; [|done].
  apply bind_Ok in Hr as (v & _ & Hr). apply bind_Ok in Hr as ([] & Hrej & Hr).
  destruct (find_version _ _ _); [done|].
  apply bind_Ok in Hr as (rv & Hrv & Hr). apply bind_Ok in Hr as (built & Hb & Hr).
  apply bind_Ok in Hr as (db & Hins & Hr). injection Hr as <- <-.
  unfold except in Hins. destruct (insert_version live _) as [db'|x] eqn:E; [|by destruct (is_class _ x)].
  injection Hins as ->. unfold insert_version in E. apply bind_Ok in E as (l & Hl & [= <-]).
  exists c, old, rv, built, l. split_and!; try done.
Qed.

Lemma publish_ok key expected by_ version now seen live live' row :
  publish_draft key expected by_ version now seen live = Ok (live', row) ->
  authoring_grows seen live -> authoring_ok live -> authoring_ok live' /\ authoring_grows live live'.
Proof.
  intros (c & old & rv & built & l & Hg & _ & _ & _ & Hb & _ & Hdoc & Hdig & Hcid & _ & Hid & Hl & ->)%publish_spec
    [Hpc _] [Hc Hd (Hn1 & Hn2 & Hs)].
  pose proof Hl as [El _]%insert_unique_Ok. split.
  - split; [done|by apply delete_drafts_ok|]. cbn. split_and!.
    + by eapply NoDup_insert_id.
    + eapply (NoDup_insert (fun r => (vr_connector_id r, vr_version r))); [exact Hl| |exact Hn2].
      intros r E. injection E as E1 E2. cbn. rewrite E1, E2. by rewrite Z.eqb_refl, String.eqb_refl.
    + rewrite El. apply Forall_app. split; [done|]. apply Forall_singleton.
      pose proof Hb as (base & an & ts & _ & _ & _ & _ & _ & Ed & _ & Hv & Hdg)%build_connector_Ok.
      split; rewrite ?Hdoc, ?Hdig; try done.
      * by apply validate_connector_spec.
      * by rewrite Ed.
      * by rewrite Ed.
      * destruct (get_draft_Ok _ _ _ _ Hg) as (Hcin & _ & _ & Hdc).
        destruct (Hpc c Hcin) as (c' & Hin' & E1 & E2). exists c'. split; [done|]. split; [congruence|].
        rewrite Ed. cbn. by rewrite <- E2.
  - split; cbn; [by apply persist_refl; apply _|]. rewrite El. apply persist_app, _.
Qed.

Lemma disable_ok key version reason now seen live live' row :
  disable_version key version reason now seen live = Ok (live', row) ->
  authoring_ok live -> authoring_ok live' /\ authoring_grows live live' /\
  t_drafts live' = t_drafts live /\ t_snapshots live' = t_snapshots live /\ t_deployments live' = t_deployments live.
Proof.
  unfold disable_version. intros (old & _ & Hr)%bind_Ok Hok. destruct (vr_disabled old).
  { injection Hr as <- <-. split_and!; try done. }
  apply bind_Ok in Hr as (l & [-> _]%update_by_id_Ok & [= <- <-]). destruct Hok as [Hc Hd (Hn1 & Hn2 & Hs)].
  assert (forall r, same_version r (disable_row now reason r)) as Hsame by done.
  split_and!; try done.
  - split; [done..|]. cbn. split_and!; [by rewrite map_update..|].
    apply Forall_map. eapply Forall_impl; [exact Hs|]. intros r Hr. cbn.
    destruct (_ =? _)%Z; [|done]. eapply version_sound_same; [|apply Hsame|done]. apply persist_refl, _.
  - split; cbn; [by apply persist_refl; apply _|]. apply persist_update; [apply _|done].
Qed.

(** ** Creating a snapshot *)

Definition hit (previous : list snapshot_row) (r : snapshot_row) : bool :=
  existsb (fun p => sr_active p && Z.eqb (sr_id r) (sr_id p)) previous.
Definition deactivated (previous : list snapshot_row) (r : snapshot_row) : snapshot_row :=
  if hit previous r then deactivate r else r.

Lemma deactivate_all_spec previous db db' :
  deactivate_all previous db = Ok db' ->
  db' = with_snapshots db (map (deactivated previous) (t_snapshots db)).
Proof.
  unfold deactivate_all. revert db. induction previous as [|p previous IH]; intros db; simpl.
  - intros [= <-]. unfold deactivated. cbn. rewrite map_id. by destruct db.
  - destruct (sr_active p) eqn:Ha.
    + intros (db1 & (l & [-> _]%update_by_id_Ok & [= <-])%bind_Ok & ->%IH)%bind_Ok.
      cbn [t_snapshots with_snapshots]. rewrite map_map. unfold with_snapshots. cbn. f_equal.
      apply map_ext. intros r. unfold deactivated, hit. cbn [existsb]. rewrite Ha. cbn [andb].
      destruct (Z.eqb (sr_id r) (sr_id p)); cbn [orb deactivate sr_id]; [|done].
      by destruct (existsb _ previous).
    + cbn [bind]. intros ->%IH. f_equal. apply map_ext. intros r. unfold deactivated, hit. cbn [existsb].
      by rewrite Ha.
Qed.

(** What a successful creation builds and writes. *)
Lemma create_snapshot_spec key selections by_ signing_key now seen live live' row :
  create_snapshot key selections by_ signing_key now seen live = Ok (live', row) ->
  exists dep selected docs payload document digest l previous,
    find_deployment seen key = Some dep /\ select_documents seen [] selections = Ok selected /\
    docs = map snd (ksort selected) /\
    payload = snapshot_payload (er_deployment_key dep) (next_revision seen (er_id dep)) now docs /\
    content_digest (VDict payload) [] = Ok digest /\
    signed_document (identified payload (sr_snapshot_id row) digest) signing_key = Ok document /\
    validate_deployment_snapshot (VDict document) = Ok tt /\
    previous = map (deactivated (snapshots_of seen (er_id dep))) (t_snapshots live) /\
    live' = with_snapshots live l /\
    insert_unique (fun r => Z.eqb (sr_deployment_id r) (sr_deployment_id row) &&
                            Z.eqb (sr_revision r) (sr_revision row) ||
                            String.eqb (sr_snapshot_id r) (sr_snapshot_id row)) row previous = Ok l /\
    sr_id row = next_id (map sr_id (t_snapshots live)) /\ sr_deployment_id row = er_id dep /\
    sr_revision row = next_revision seen (er_id dep) /\ sr_document row = document /\
    sr_snapshot_digest row = digest /\ sr_active row = true.
Proof.
  unfold create_snapshot, get_deployment. intros (dep & Hdep%of_option_Ok & Hr)%bind_Ok.
  apply bind_Ok in Hr as (selected & Hsel & Hr). apply bind_Ok in Hr as (digest & Hdig & Hr).
  apply bind_Ok in Hr as (sid & Hsid & Hr). apply bind_Ok in Hr as (document & Hdoc & Hr).
  apply bind_Ok in Hr as ([] & Hval & Hr). apply bind_Ok in Hr as (db & Hins & Hr). injection Hr as <- <-.
  unfold except in Hins. destruct (bind _ _) as [db'|x] eqn:E in Hins; [|by destruct (is_class _ x)].
  injection Hins as ->. apply bind_Ok in E as (db1 & ->%deactivate_all_spec & E).
  unfold insert_snapshot in E. cbn [t_snapshots with_snapshots] in E. apply bind_Ok in E as (l & Hl & [= <-]).
  eexists dep, selected, _, _, document, digest, l, _.
  split; [done|]. split; [done|]. split; [done|]. split; [done|]. split; [done|]. split; [done|].
  split; [done|]. split; [done|]. split; [done|]. split; [exact Hl|]. done.
Qed.

Lemma authoring_step q now seen live db' :
  perform q now seen live = Ok db' -> authoring_grows seen live -> authoring_ok live ->
  authoring_ok db' /\ authoring_grows live db'.
Proof.
  intros Hq Hg Hok.
  assert (forall db, t_connectors db = t_connectors live -> t_drafts db = t_drafts live ->
    t_versions db = t_versions live -> authoring_ok db /\ authoring_grows live db) as Hsame.
  { intros db E1 E2 E3. destruct Hok as [O1 O2 O3]. split.
    - split; by rewrite ?E1, ?E2, ?E3.
    - split; rewrite ?E1, ?E3; apply persist_refl, _. }
  destruct q; cbn in Hq; apply bind_Ok in Hq as ([db row] & Hq & [= <-]); cbn [fst].
  - destruct Hok as [O1 O2 (N1 & N2 & Hs)].
    destruct (register_spec _ _ _ _ _ _ Hq O1 O2) as (Hc & Hd & Hp & E1 & _).
    split; split; rewrite ?E1; try done.
    split_and!; [done..|]. eapply Forall_impl; [exact Hs|]. intros r Hr. by eapply version_sound_same.
  - apply update_review_spec in Hq as (cr & old & st & st' & l & _ & _ & _ & _ & _ & -> & _ & ->).
    destruct Hok as [O1 [D1 D2] O3]. split; split; try done; try by apply persist_refl; apply _.
    split; cbn; by rewrite map_update.
  - by eapply publish_ok.
  - by eapply disable_ok in Hq as (? & ? & _).
  - unfold create_deployment in Hq. destruct (find_deployment _ _); [done|].
    apply bind_Ok in Hq as (db' & (l & _ & [= <-])%bind_Ok & [= <- _]). by apply Hsame.
  - apply create_snapshot_spec in Hq as (? & ? & ? & ? & ? & ? & l & ? & _ & _ & _ & _ & _ & _ & _ & _ & -> & _).
    by apply Hsame.
Qed.

End invariant.
