(* ===== verification/ServingInvariant.v ===== *)
(** * What the Control Plane serves

    The invariant of the snapshot table under every interleaving: revisions are
    contiguous and never reused, exactly the highest revision of a deployment is
    active, rows never change but for that flag, and every stored document is
    one the runtime's own checks accept. *)

From S2P Require Export ServiceInvariant.

(** All of a row but its [active] flag, which only ever falls. *)
Record same_snapshot (r r' : snapshot_row) : Prop := {
  ss_id : sr_id r = sr_id r';
  ss_deployment : sr_deployment_id r = sr_deployment_id r';
  ss_revision : sr_revision r = sr_revision r';
  ss_name : sr_snapshot_id r = sr_snapshot_id r';
  ss_document : sr_document r = sr_document r';
  ss_digest : sr_snapshot_digest r = sr_snapshot_digest r';
  ss_active : sr_active r' = true -> sr_active r = true;
}.
#[export] Instance same_snapshot_refl : Reflexive same_snapshot.
Proof. done. Qed.
#[export] Instance same_snapshot_trans : Transitive same_snapshot.
Proof. intros a b c [] []. split; try congruence; auto. Qed.

Lemma deactivated_same previous r : same_snapshot r (deactivated previous r).
Proof. unfold deactivated. by destruct (hit previous r). Qed.

Definition slot (r : snapshot_row) : Z * Z := (sr_deployment_id r, sr_revision r).

Definition revisions_ok (l : list snapshot_row) : Prop :=
  forall r, r ∈ l -> (1 <= sr_revision r)%Z /\
    ((1 < sr_revision r)%Z -> exists r', r' ∈ l /\ sr_deployment_id r' = sr_deployment_id r /\
                                   sr_revision r' = (sr_revision r - 1)%Z).
Definition active_ok (l : list snapshot_row) : Prop :=
  forall r, r ∈ l -> sr_active r = true <->
    forall r', r' ∈ l -> sr_deployment_id r' = sr_deployment_id r -> (sr_revision r' <= sr_revision r)%Z.
Record rows_ok (l : list snapshot_row) : Prop := {
  ro_ids : NoDup (map sr_id l);
  ro_slots : NoDup (map slot l);
  ro_names : NoDup (map sr_snapshot_id l);
  ro_revisions : revisions_ok l;
  ro_active : active_ok l;
}.

(** Below a revision there are all the others. *)
Lemma revisions_down l r k :
  revisions_ok l -> r ∈ l -> (1 <= k <= sr_revision r)%Z ->
  exists r', r' ∈ l /\ sr_deployment_id r' = sr_deployment_id r /\ sr_revision r' = k.
Proof.
  intros Hok. remember (Z.to_nat (sr_revision r - k)) as n eqn:Hn. revert r Hn.
  induction n as [|n IH]; intros r Hn Hr Hk.
  - exists r. split_and!; [done..|lia].
  - destruct (Hok r Hr) as [_ Hp]. destruct Hp as (r' & Hr' & Hd & Hv); [lia|].
    destruct (IH r') as (r'' & ? & ? & ?); [lia|done|lia|]. exists r''. split_and!; [done|congruence|done].
Qed.

Lemma next_revision_bound db d r :
  r ∈ t_snapshots db -> sr_deployment_id r = d -> (sr_revision r < next_revision db d)%Z.
Proof.
  intros Hr <-. unfold next_revision.
  assert (r ∈ snapshots_of db (sr_deployment_id r)) as Hin by (apply filter_In_iff; split; [done|apply Z.eqb_refl]).
  destruct (highest_revision _) as [s|] eqn:E.
  - apply highest_revision_spec in E as [_ Hm]. specialize (Hm r Hin). lia.
  - apply highest_revision_None in E. rewrite E in Hin. by apply elem_of_nil in Hin.
Qed.
Lemma next_revision_attained db d :
  next_revision db d = 1%Z \/ exists r, r ∈ t_snapshots db /\ sr_deployment_id r = d /\
    next_revision db d = (sr_revision r + 1)%Z.
Proof.
  unfold next_revision. destruct (highest_revision _) as [s|] eqn:E; [right|by left].
  apply highest_revision_spec in E as [[Hs Hd%Z.eqb_eq]%filter_In_iff _]. exists s. split_and!; [done..|lia].
Qed.

Lemma map_same {A} (g : snapshot_row -> A) f l : (forall r, g (f r) = g r) -> map g (map f l) = map g l.
Proof. intros E. rewrite map_map. by apply map_ext. Qed.

Lemma deactivated_elem previous l r :
  r ∈ map (deactivated previous) l <-> exists s, s ∈ l /\ r = deactivated previous s.
Proof. rewrite list_elem_of_In, in_map_iff. setoid_rewrite list_elem_of_In. naive_solver. Qed.

(** The heart of the serving invariant: inserting the revision after the last one
    that was seen keeps the rows in order, although other transactions may have
    committed since. *)
Section creation.
Variables (seen live : database) (d : Z) (row : snapshot_row) (l : list snapshot_row).
Hypothesis Hseen : rows_ok (t_snapshots seen).
Hypothesis Hlive : rows_ok (t_snapshots live).
Hypothesis Hgrow : persist same_snapshot (t_snapshots seen) (t_snapshots live).
Hypothesis Hd : sr_deployment_id row = d.
Hypothesis Hrev : sr_revision row = next_revision seen d.
Hypothesis Hactive : sr_active row = true.
Hypothesis Hid : sr_id row = next_id (map sr_id (t_snapshots live)).
Let previous := snapshots_of seen d.
Let updated := map (deactivated previous) (t_snapshots live).
Hypothesis Hins : insert_unique (fun r => Z.eqb (sr_deployment_id r) (sr_deployment_id row) &&
                                          Z.eqb (sr_revision r) (sr_revision row) ||
                                          String.eqb (sr_snapshot_id r) (sr_snapshot_id row)) row updated = Ok l.

Lemma live_below r : r ∈ t_snapshots live -> sr_deployment_id r = d -> (sr_revision r < sr_revision row)%Z.
Proof.
  intros Hr Hdr. destruct (Z.lt_ge_cases (sr_revision r) (sr_revision row)) as [|Hge]; [done|].
  exfalso. assert (1 <= sr_revision row)%Z as H1.
  { rewrite Hrev. destruct (next_revision_attained seen d) as [->|(s & Hs & _ & ->)]; [lia|].
    destruct (ro_revisions _ Hseen s Hs) as [? _]. lia. }
  destruct (revisions_down _ r (sr_revision row) (ro_revisions _ Hlive) Hr) as (r' & Hr' & Hd' & Hv'); [lia|].
  pose proof Hins as [_ Hc]%insert_unique_Ok.
  specialize (Hc (deactivated previous r')). destruct (deactivated_same previous r') as [_ E1 E2 _ _ _ _].
  rewrite <- E1, <- E2, Hd', Hdr, Hd, Hv', !Z.eqb_refl in Hc. discriminate Hc.
  apply deactivated_elem. by exists r'.
Qed.

(** A live row of the deployment was already there when the transaction read. *)
Lemma live_seen r : r ∈ t_snapshots live -> sr_deployment_id r = d ->
  exists s, s ∈ t_snapshots seen /\ same_snapshot s r.
Proof.
  intros Hr Hdr. pose proof (live_below r Hr Hdr) as Hlt. destruct (ro_revisions _ Hlive r Hr) as [Hr1 _].
  rewrite Hrev in Hlt. destruct (next_revision_attained seen d) as [E|(s & Hs & Hds & E)]; [lia|].
  destruct (revisions_down _ s (sr_revision r) (ro_revisions _ Hseen) Hs) as (s' & Hs' & Hd' & Hv'); [lia|].
  destruct (Hgrow s' Hs') as (r' & Hr' & Hsame).
  assert (r' = r) as ->.
  { apply (NoDup_map_inj slot (t_snapshots live)); [apply Hlive|done..|]. unfold slot.
    destruct Hsame as [_ E1 E2 _ _ _ _]. congruence. }
  by exists s'.
Qed.

Lemma inactive r : r ∈ updated -> sr_deployment_id r = d -> sr_active r = false.
Proof.
  intros (s & Hs & ->)%deactivated_elem Hdr.
  pose proof (deactivated_same previous s) as [_ E1 _ _ _ _ _].
  destruct (sr_active s) eqn:Ha.
  2: { unfold deactivated. by destruct (hit previous s). }
  destruct (live_seen s Hs ltac:(congruence)) as (p & Hp & [Ei Ed _ _ _ _ Eact]).
  unfold deactivated. replace (hit previous s) with true; [done|]. symmetry.
  unfold hit. apply existsb_Exists, Exists_exists. exists p. split.
  - unfold previous, snapshots_of. apply filter_In_iff. split; [done|]. apply Z.eqb_eq. congruence.
  - rewrite (Eact Ha), Ei. apply Z.eqb_refl.
Qed.

(** Rows of the other deployments stay as they were. *)
Lemma untouched s : s ∈ t_snapshots live -> sr_deployment_id s <> d -> deactivated previous s = s.
Proof.
  intros Hs Hne. unfold deactivated. destruct (hit previous s) eqn:E; [|done]. exfalso. apply Hne.
  unfold hit in E. apply existsb_Exists, Exists_exists in E as (p & Hp & [_ Hi%Z.eqb_eq]%andb_true_iff).
  apply filter_In_iff in Hp as [Hp Hdp%Z.eqb_eq]. destruct (Hgrow p Hp) as (p' & Hp' & [E1 E2 _ _ _ _ _]).
  assert (p' = s) as <-; [|congruence].
  apply (NoDup_map_inj sr_id (t_snapshots live)); [apply Hlive|done..|congruence].
Qed.

Lemma creation_active : active_ok (updated ++ [row]).
Proof.
  intros r Hr. apply elem_of_app in Hr as [Hr| ->%list_elem_of_singleton].
  - destruct (decide (sr_deployment_id r = d)) as [E|Hne].
    + rewrite (inactive r Hr E). split; [done|]. intros Hmax.
      apply deactivated_elem in Hr as (s & Hs & ->). destruct (deactivated_same previous s) as [_ E1 E2 _ _ _ _].
      pose proof (live_below s Hs ltac:(congruence)).
      specialize (Hmax row). rewrite elem_of_app, list_elem_of_singleton in Hmax.
      specialize (Hmax (or_intror eq_refl)). rewrite Hd in Hmax. specialize (Hmax (eq_sym E)). lia.
    + apply deactivated_elem in Hr as (s & Hs & ->). destruct (deactivated_same previous s) as [_ E1 E2 _ _ _ _].
      assert (sr_deployment_id s <> d) as Hne' by congruence.
      rewrite (untouched s Hs Hne'). rewrite (ro_active _ Hlive s Hs). split.
      * intros Hmax r' Hr' Hd'. apply elem_of_app in Hr' as [Hr'| ->%list_elem_of_singleton]; [|congruence].
        apply deactivated_elem in Hr' as (s' & Hs' & ->). destruct (deactivated_same previous s') as [_ F1 F2 _ _ _ _].
        rewrite <- F2. apply Hmax; [done|congruence].
      * intros Hmax r' Hr' Hd'. destruct (deactivated_same previous r') as [_ F1 F2 _ _ _ _]. rewrite F2.
        apply Hmax; [|congruence]. apply elem_of_app. left. apply deactivated_elem. by exists r'.
  - rewrite Hactive. split; [|done]. intros _ r' Hr' Hd'.
    apply elem_of_app in Hr' as [Hr'| ->%list_elem_of_singleton]; [|lia].
    apply deactivated_elem in Hr' as (s' & Hs' & ->). destruct (deactivated_same previous s') as [_ F1 F2 _ _ _ _].
    pose proof (live_below s' Hs' ltac:(congruence)). lia.
Qed.

Lemma creation_revisions : revisions_ok (updated ++ [row]).
Proof.
  assert (forall s, s ∈ t_snapshots live -> exists r', r' ∈ updated ++ [row] /\
    sr_deployment_id r' = sr_deployment_id s /\ sr_revision r' = sr_revision s) as Hkeep.
  { intros s Hs. exists (deactivated previous s). destruct (deactivated_same previous s).
    split_and!; [|congruence..]. apply elem_of_app. left. apply deactivated_elem. by exists s. }
  intros r Hr. apply elem_of_app in Hr as [Hr| ->%list_elem_of_singleton].
  - apply deactivated_elem in Hr as (s & Hs & ->). destruct (deactivated_same previous s) as [_ E1 E2 _ _ _ _].
    rewrite <- E2. destruct (ro_revisions _ Hlive s Hs) as [H1 H2]. split; [done|]. intros H3.
    destruct (H2 H3) as (s' & Hs' & F1 & F2). destruct (Hkeep s' Hs') as (r' & ? & ? & ?).
    exists r'. split_and!; congruence.
  - rewrite Hrev. destruct (next_revision_attained seen d) as [->|(s & Hs & Hds & ->)]; [split; lia|].
    destruct (ro_revisions _ Hseen s Hs) as [H1 _]. split; [lia|]. intros _.
    destruct (Hgrow s Hs) as (s' & Hs' & [_ E1 E2 _ _ _ _]).
    destruct (Hkeep s' Hs') as (r' & Hr' & F1 & F2). exists r'. split_and!; [done|congruence|lia].
Qed.

Lemma creation_ok : rows_ok l /\ persist same_snapshot (t_snapshots live) l.
Proof.
  pose proof Hins as [El _]%insert_unique_Ok.
  assert (forall {A} (g : snapshot_row -> A), (forall r s, same_snapshot r s -> g r = g s) ->
    map g updated = map g (t_snapshots live)) as Hmap.
  { intros A g Hg. apply map_same. intros r. symmetry. apply Hg, deactivated_same. }
  split.
  - split.
    + eapply NoDup_insert_id; [exact Hins| |].
      * rewrite Hmap by (intros ?? []; done). done.
      * rewrite Hmap by (intros ?? []; done). apply Hlive.
    + eapply (NoDup_insert slot); [exact Hins| |].
      * intros r [= E1 E2]. cbn. by rewrite E1, E2, !Z.eqb_refl.
      * rewrite Hmap by (intros ?? []; unfold slot; congruence). apply Hlive.
    + eapply (NoDup_insert sr_snapshot_id); [exact Hins| |].
      * intros r E. cbn. rewrite E, String.eqb_refl. apply orb_true_r.
      * rewrite Hmap by (intros ?? []; done). apply Hlive.
    + rewrite El. apply creation_revisions.
    + rewrite El. apply creation_active.
  - rewrite El. intros r Hr. exists (deactivated previous r). split; [|apply deactivated_same].
    apply elem_of_app. left. apply deactivated_elem. by exists r.
Qed.
End creation.

Section serving.
Context `{Platform, Ed25519, JsonSchema, Pydantic, Analyzer}.

(** A stored snapshot passes the checks the runtime makes on a document. *)
Record snapshot_sound (r : snapshot_row) : Prop := {
  sn_valid : validate_deployment_snapshot (VDict (sr_document r)) = Ok tt;
  sn_digest : verify_digest (VDict (sr_document r)) (VStr (sr_snapshot_digest r)) SNAPSHOT_DIGEST_EXCLUDED = Ok true;
  sn_fields : get "snapshot_digest" (sr_document r) = VStr (sr_snapshot_digest r) /\
              get "snapshot_id" (sr_document r) = VStr (sr_snapshot_id r) /\
              get "revision" (sr_document r) = VInt (sr_revision r);
}.
Record serving_ok (db : database) : Prop := {
  so_rows : rows_ok (t_snapshots db);
  so_sound : Forall snapshot_sound (t_snapshots db);
}.

Lemma snapshot_sound_same r r' : same_snapshot r r' -> snapshot_sound r -> snapshot_sound r'.
Proof. intros [E1 E2 E3 E4 E5 E6 _] [S1 S2 S3]. split; rewrite <- ?E3, <- ?E4, <- ?E5, <- ?E6; done. Qed.

Lemma identified_document key revision now docs sid digest signing_key document :
  content_digest (VDict (snapshot_payload key revision now docs)) [] = Ok digest ->
  signed_document (identified (snapshot_payload key revision now docs) sid digest) signing_key = Ok document ->
  verify_digest (VDict document) (VStr digest) SNAPSHOT_DIGEST_EXCLUDED = Ok true /\
  get "snapshot_digest" document = VStr digest /\ get "snapshot_id" document = VStr sid /\
  get "revision" document = VInt revision /\ get "connectors" document = VList docs.
Proof.
  intros Hd Hs. assert (document = identified (snapshot_payload key revision now docs) sid digest \/
    exists block, document = dset (KStr "signature") block
                      (identified (snapshot_payload key revision now docs) sid digest)) as Hdoc.
  { unfold signed_document in Hs. destruct signing_key as [k|]; [|injection Hs as <-; by left].
    apply bind_Ok in Hs as (block & _ & Hs). right. exists block. congruence. }
  assert (digest_payload (VDict document) SNAPSHOT_DIGEST_EXCLUDED =
          Ok (VDict (snapshot_payload key revision now docs))) as Hp
    by (destruct Hdoc as [->|[block ->]]; reflexivity).
  split; [|destruct Hdoc as [->|[block ->]]; done].
  apply verify_digest_true. exists digest. split; [done|].
  apply content_digest_Ok in Hd as (p & b & [= <-] & Hb & ->). apply content_digest_Ok. eauto.
Qed.

Lemma create_snapshot_ok key selections by_ signing_key now seen live live' row :
  create_snapshot key selections by_ signing_key now seen live = Ok (live', row) ->
  serving_ok seen -> serving_ok live -> persist same_snapshot (t_snapshots seen) (t_snapshots live) ->
  serving_ok live' /\ persist same_snapshot (t_snapshots live) (t_snapshots live').
Proof.
  intros (dep & sel & docs & payload & document & digest & l & prev & _ & _ & _ & -> & Hdig & Hdoc & Hval &
    -> & -> & Hins & Hid & Hdep & Hrev & Edoc & Edig & Hact)%create_snapshot_spec Hseen Hlive Hg.
  destruct (creation_ok seen live (er_id dep) row l (so_rows _ Hseen) (so_rows _ Hlive) Hg Hdep Hrev Hact Hid Hins)
    as [Hrows Hp].
  destruct (identified_document _ _ _ _ _ _ _ _ Hdig Hdoc) as (Hv & F1 & F2 & F3 & _).
  split; [|done]. split; [done|]. cbn. pose proof Hins as [-> _]%insert_unique_Ok.
  apply Forall_app. split.
  - apply Forall_map. eapply Forall_impl; [apply Hlive|]. intros r Hr.
    eapply snapshot_sound_same; [apply deactivated_same|done].
  - apply Forall_singleton. split; rewrite ?Edoc, ?Edig, ?Hrev; done.
Qed.

Definition creates_snapshot (q : request) : bool :=
  match q with CreateSnapshot _ _ _ _ => true | _ => false end.
Lemma other_requests_keep_snapshots q now seen live db' :
  perform q now seen live = Ok db' -> authoring_ok live ->
  creates_snapshot q = false -> t_snapshots db' = t_snapshots live.
Proof.
  intros Hq Hok Hne. destruct q; cbn in Hq; apply bind_Ok in Hq as ([db row] & Hq & [= <-]); cbn [fst].
  - destruct Hok as [O1 O2 _]. by destruct (register_spec _ _ _ _ _ _ Hq O1 O2) as (_ & _ & _ & _ & _ & E & _).
  - by apply update_review_spec in Hq as (? & ? & ? & ? & ? & _ & _ & _ & _ & _ & -> & _).
  - by apply publish_spec in Hq as (? & ? & ? & ? & ? & _ & _ & _ & _ & _ & _ & _ & _ & _ & _ & _ & _ & ->).
  - by eapply disable_ok in Hq as (_ & _ & _ & E & _).
  - unfold create_deployment in Hq. destruct (find_deployment _ _); [done|].
    by apply bind_Ok in Hq as (d & (l & _ & [= <-])%bind_Ok & [= <- _]).
  - done.
Qed.

(** ** The history of commits *)

Record grows (old new : database) : Prop := {
  gw_authoring : authoring_grows old new;
  gw_snapshots : persist same_snapshot (t_snapshots old) (t_snapshots new);
}.
#[export] Instance grows_refl : Reflexive grows.
Proof. intros db. split; [split|]; apply persist_refl, _. Qed.
#[export] Instance grows_trans : Transitive grows.
Proof.
  intros a b c [[] ?] [[] ?]. split; [split|]; (eapply persist_trans; [apply _|done|done]).
Qed.
Definition database_ok (db : database) : Prop := authoring_ok db /\ serving_ok db.

Lemma transaction_ok q now seen live :
  database_ok seen -> database_ok live -> grows seen live ->
  database_ok (transaction q now seen live) /\ grows live (transaction q now seen live).
Proof.
  intros [_ Hss] [Ha Hs] [Hga Hgs]. unfold transaction.
  destruct (perform q now seen live) as [db|e] eqn:Hq; [|split; [by split|reflexivity]].
  destruct (authoring_step _ _ _ _ _ Hq Hga Ha) as [Ha' Hga'].
  assert (serving_ok db /\ persist same_snapshot (t_snapshots live) (t_snapshots db)) as [Hs' Hgs'].
  { destruct (creates_snapshot q) eqn:Eq.
    - destruct q; try done. cbn in Hq. apply bind_Ok in Hq as ([db1 row] & Hq & [= <-]).
      by eapply create_snapshot_ok.
    - rewrite (other_requests_keep_snapshots _ _ _ _ _ Hq Ha Eq). split; [|apply persist_refl, _].
      destruct Hs as [R S]. split; by rewrite (other_requests_keep_snapshots _ _ _ _ _ Hq Ha Eq). }
  split; [done|]. by split.
Qed.

Definition history_ok (history : list database) : Prop :=
  exists live older, history = live :: older /\ Forall database_ok history /\ Forall (fun db => grows db live) history.

Lemma reachable_ok history : reachable history -> history_ok history.
Proof.
  intros Hr. unfold reachable in Hr.
  assert (history_ok [empty_database]) as H0'.
  { exists empty_database, []. split; [done|]. split; apply Forall_singleton; [|done].
    split; split; try (split; apply NoDup_nil_2); try (split_and!; [apply NoDup_nil_2..|constructor]); try constructor;
      try apply NoDup_nil_2; by intros r ?%elem_of_nil. }
  induction Hr as [h|h h1 h2 Hstep _ IH]; [done|]. apply IH.
  destruct Hstep as [q now seen live older Hin].
  destruct H0' as (live' & older' & [= <- <-] & Hall & Hgr).
  rewrite Forall_forall in Hall, Hgr.
  destruct (transaction_ok q now seen live (Hall seen Hin) (Hall live ltac:(left)) (Hgr seen Hin)) as [Hok Hg].
  exists (transaction q now seen live), (live :: older). split; [done|]. split.
  - constructor; [done|]. by rewrite Forall_forall.
  - constructor; [done|]. rewrite Forall_forall. intros db Hdb. etrans; [by apply Hgr|done].
Qed.
End serving.
