(* ===== verification/ControlPlane.v ===== *)
(** * Properties of the Control Plane

    What holds of the database in every state a sequence of interleaved
    transactions can commit, and what each use case promises its caller. *)

From S2P Require Export ServingInvariant.

Section effects.
Context `{Platform, Ed25519, JsonSchema, Pydantic, Analyzer}.

Lemma reachable_latest live rest :
  reachable (live :: rest) -> database_ok live /\ forall older, older ∈ live :: rest -> grows older live.
Proof.
  intros (l & o & [= <- <-] & Hok & Hg)%reachable_ok. rewrite Forall_forall in Hok, Hg.
  split; [apply Hok; left | done].
Qed.

(** The snapshot served is the one with the highest revision. *)
Lemma active_is_highest db key dep :
  serving_ok db -> find_deployment db key = Some dep -> snapshots_of db (er_id dep) <> [] ->
  exists r, get_active_snapshot db key = Ok r /\ r ∈ t_snapshots db /\ sr_deployment_id r = er_id dep /\
    (forall r', r' ∈ t_snapshots db -> sr_deployment_id r' = er_id dep -> (sr_revision r' <= sr_revision r)%Z) /\
    (forall r', r' ∈ t_snapshots db -> sr_deployment_id r' = er_id dep -> sr_active r' = true -> r' = r).
Proof.
  intros [[_ Hslots _ _ Hact] _] Hdep Hne. unfold get_active_snapshot, get_deployment. rewrite Hdep. cbn [of_option bind].
  destruct (highest_revision (snapshots_of db (er_id dep))) as [top|] eqn:Etop;
    [|by apply highest_revision_None in Etop].
  apply highest_revision_spec in Etop as [[Hin Hd%Z.eqb_eq]%filter_In_iff Hmax].
  assert (forall r', r' ∈ t_snapshots db -> sr_deployment_id r' = er_id dep ->
            (sr_revision r' <= sr_revision top)%Z) as Hmax'.
  { intros r' Hr' Hd'. apply Hmax, filter_In_iff. split; [done|]. by apply Z.eqb_eq. }
  assert (sr_active top = true) as Ha by (apply Hact; [done|]; intros r' Hr' Hd'; apply Hmax'; congruence).
  assert (forall r', r' ∈ t_snapshots db -> sr_deployment_id r' = er_id dep -> sr_active r' = true -> r' = top) as Huniq.
  { intros r' Hr' Hd' Ha'. apply (NoDup_map_inj slot (t_snapshots db)); [done..|]. unfold slot.
    pose proof (proj1 (Hact r' Hr') Ha' top Hin ltac:(congruence)). pose proof (Hmax' r' Hr' Hd').
    f_equal; [congruence|lia]. }
  destruct (highest_revision (List.filter sr_active _)) as [r|] eqn:E.
  - apply highest_revision_spec in E as [[[Hr Hdr%Z.eqb_eq]%filter_In_iff Har]%filter_In_iff _].
    rewrite (Huniq r Hr Hdr Har). by exists top.
  - apply highest_revision_None in E. assert (top ∈ List.filter sr_active (snapshots_of db (er_id dep))) as Hin'.
    { apply filter_In_iff. split; [|done]. apply filter_In_iff. split; [done|]. by apply Z.eqb_eq. }
    rewrite E in Hin'. by apply elem_of_nil in Hin'.
Qed.

(** What [select_documents] embeds. *)
Lemma select_documents_Ok db used selections l :
  select_documents db used selections = Ok l ->
  NoDup (map se_connector_key selections) /\ (forall s, s ∈ selections -> se_connector_key s ∉ used) /\
  Forall2 (fun s kd => exists r, get_version db (se_connector_key s) (se_version s) = Ok r /\
     vr_disabled r = false /\ kd.2 = VDict (vr_document r) /\ exists c, parse_connector kd.2 = Ok c) selections l.
Proof.
  revert used l. induction selections as [|s selections IH]; intros used l; simpl.
  - intros [= <-]. split_and!; [apply NoDup_nil_2|by intros s ?%elem_of_nil|constructor].
  - unfold str_in. case_bool_decide as Hu; [done|]. intros (r & Hr & Hl)%bind_Ok.
    destruct (vr_disabled r) eqn:Hdis; [done|]. apply bind_Ok in Hl as (c & Hc & Hl).
    apply bind_Ok in Hl as (k & _ & Hl). apply bind_Ok in Hl as (rest & (Hn & Hd & HF)%IH & [= <-]).
    split_and!.
    + apply NoDup_cons. split; [|done]. intros (s' & E & Hs'%list_elem_of_In)%list_elem_of_In%in_map_iff.
      apply (Hd s' Hs'). rewrite E. left.
    + intros s' [->|Hs']%elem_of_cons; [done|]. specialize (Hd s' Hs'). rewrite not_elem_of_cons in Hd. tauto.
    + constructor; [|done]. exists r. split_and!; [done..|]. by exists c.
Qed.

Lemma reject_versions_Ok candidate existing :
  reject_versions candidate existing = Ok tt ->
  Forall (fun s => exists v, parsed s = Ok v /\ (0 < compare_precedence candidate v)%Z) existing.
Proof.
  induction existing as [|s l IH]; simpl; [constructor|]. intros (v & Hv & Hr)%bind_Ok.
  destruct (Z.leb_spec (compare_precedence candidate v) 0); [done|]. constructor; [|auto]. eauto.
Qed.

Lemma find_first_key {A} (p : A -> bool) l a b :
  find_first p l = Some a -> b ∈ l -> p b = true -> (forall x y, x ∈ l -> y ∈ l -> p x = true -> p y = true -> x = y) ->
  b = a.
Proof. intros [Ha Hp]%find_first_Some Hb Hpb Hu. by apply Hu. Qed.

Lemma find_draft_unique db d :
  drafts_ok (t_drafts db) -> d ∈ t_drafts db -> find_draft db (dr_connector_id d) = Some d.
Proof.
  intros [_ Hn] Hd. unfold find_draft.
  destruct (find_first_complete (fun r => Z.eqb (dr_connector_id r) (dr_connector_id d)) (t_drafts db) d Hd)
    as [d' Hd']; [apply Z.eqb_refl|].
  rewrite Hd'. f_equal. apply find_first_Some in Hd' as [Hin E%Z.eqb_eq].
  by apply (NoDup_map_inj dr_connector_id (t_drafts db)).
Qed.

(** The draft after a review update. *)
Lemma update_review_next key expected c now db db' d :
  drafts_ok (t_drafts db) -> update_review key expected c now db db = Ok (db', d) ->
  exists cr old, get_draft db key = Ok (cr, old) /\ expected = dr_revision old /\
    get_draft db' key = Ok (cr, d) /\ dr_revision d = (expected + 1)%Z /\ drafts_ok (t_drafts db').
Proof.
  intros Hok (cr & old & st & st' & l & Hg & -> & _ & _ & Hd & -> & _ & Hl)%update_review_spec.
  exists cr, old. split_and!; try done.
  2: { by rewrite Hd. }
  2: { subst l. destruct Hok. split; cbn; by rewrite map_update. }
  destruct (get_draft_Ok _ _ _ _ Hg) as (_ & _ & Hin & Hcid).
  assert (drafts_ok l) as Hok' by (subst l; destruct Hok; split; by rewrite map_update).
  assert (d ∈ l) as Hin'.
  { subst l. apply list_elem_of_In, in_map_iff. exists old. rewrite Z.eqb_refl. split; [done|]. by apply list_elem_of_In. }
  unfold get_draft, get_connector in Hg |- *. change (find_connector (with_drafts db l)) with (find_connector db).
  apply bind_Ok in Hg as (cr' & Hcr & Hg). destruct (find_draft db (cr_id cr')); [|done].
  assert (cr' = cr) as -> by congruence. rewrite Hcr. cbn [bind].
  pose proof (find_draft_unique (with_drafts db l) d Hok' Hin') as Hf.
  replace (dr_connector_id d) with (cr_id cr) in Hf; [by rewrite Hf|]. by rewrite Hd.
Qed.
End effects.

(** ** Properties *)

(** C11. Published versions are immutable and unique: in whatever order
    transactions interleave, each reading in any earlier state, every version
    ever published is still there with the same connector, number, document and
    digest (only disabled at most), its document is a validated, published
    contract with the digest stored beside it, and a connector never has two
    versions with one number, nor two drafts. *)
Theorem published_versions_immutable `{Platform, Ed25519, JsonSchema, Pydantic, Analyzer} :
  forall live rest, reachable (live :: rest) ->
    (forall older r, older ∈ live :: rest -> r ∈ t_versions older ->
       exists r', r' ∈ t_versions live /\ same_version r r') /\
    NoDup (map (fun r => (vr_connector_id r, vr_version r)) (t_versions live)) /\
    Forall (version_sound (t_connectors live)) (t_versions live) /\
    NoDup (map dr_connector_id (t_drafts live)) /\ NoDup (map cr_connector_key (t_connectors live)).
Proof.
  intros live rest [[[Hc [_ Hd] (_ & Hv & Hs)] _] Hg]%reachable_latest. split_and!; try done; [|apply Hc].
  intros older r Ho Hr. destruct (Hg older Ho) as [[_ Hp] _]. by apply Hp.
Qed.

(** C12. Snapshots are immutable, their revisions contiguous and never reused, and
    exactly one is served: in whatever order transactions interleave, every
    snapshot ever created is still there with the same document, digest and
    revision, the revisions of a deployment are 1 to n, and the internal API
    serves the highest, the only active one, whose document passes the contract
    and digest checks of the runtime. *)
Theorem snapshots_immutable `{Platform, Ed25519, JsonSchema, Pydantic, Analyzer} :
  forall live rest, reachable (live :: rest) ->
    (forall older r, older ∈ live :: rest -> r ∈ t_snapshots older ->
       exists r', r' ∈ t_snapshots live /\ same_snapshot r r') /\
    NoDup (map slot (t_snapshots live)) /\ revisions_ok (t_snapshots live) /\
    (forall key dep, find_deployment live key = Some dep -> snapshots_of live (er_id dep) <> [] ->
       exists r, get_active_snapshot live key = Ok r /\ snapshot_sound r /\
         (forall r', r' ∈ t_snapshots live -> sr_deployment_id r' = er_id dep ->
            (sr_revision r' <= sr_revision r)%Z /\ (sr_active r' = true -> r' = r))).
Proof.
  intros live rest [[_ Hs] Hg]%reachable_latest. split_and!.
  - intros older r Ho Hr. destruct (Hg older Ho) as [_ Hp]. by apply Hp.
  - apply Hs.
  - apply Hs.
  - intros key dep Hdep Hne. destruct (active_is_highest live key dep Hs Hdep Hne) as (r & Hr & Hin & _ & Hmax & Hu).
    exists r. destruct Hs as [_ Hsound]. rewrite Forall_forall in Hsound. split_and!; auto.
Qed.

Lemma create_snapshot_serves `{Platform, Ed25519, !Ed25519Laws, JsonSchema, Pydantic, Analyzer} :
  forall live rest seen key selections by_ signing_key now live' row,
    reachable (live :: rest) -> seen ∈ live :: rest ->
    create_snapshot key selections by_ signing_key now seen live = Ok (live', row) ->
    row ∈ t_snapshots live' /\ sr_active row = true /\ snapshot_sound row /\
    NoDup (map se_connector_key selections) /\
    (exists docs versions, get "connectors" (sr_document row) = VList docs /\
       docs ≡ₚ map (fun r => VDict (vr_document r)) versions /\
       Forall2 (fun s r => get_version seen (se_connector_key s) (se_version s) = Ok r /\ vr_disabled r = false)
         selections versions) /\
    (forall dep, find_deployment live' key = Some dep -> sr_deployment_id row = er_id dep ->
       get_active_snapshot live' key = Ok row) /\
    (forall k ring, signing_key = Some k -> sk_key_id k <> "" -> ring_find ring (sk_key_id k) = Some (public_key k) ->
       verify_document (sr_document row) ring = Ok (sk_key_id k)).
Proof.
  intros live rest seen key selections by_ signing_key now live' row Hr Hin Hc.
  destruct (reachable_ok _ Hr) as (l & o & [= <- <-] & Hok & Hgr). rewrite Forall_forall in Hok, Hgr.
  destruct (Hok seen Hin) as [_ Hseen]. destruct (Hok live ltac:(left)) as [_ Hlive].
  destruct (create_snapshot_ok _ _ _ _ _ _ _ _ _ Hc Hseen Hlive (gw_snapshots _ _ (Hgr seen Hin))) as [Hs' _].
  apply create_snapshot_spec in Hc as (dep & sel & docs & payload & document & digest & rows & prev & Hdep & Hsel & Hdocs &
    Hpay & Hdig & Hdoc & Hval & _ & -> & Hins & Hid & Hdid & Hrev & Edoc & Edig & Hact).
  pose proof Hins as [-> _]%insert_unique_Ok. cbn [t_snapshots with_snapshots].
  assert (row ∈ prev ++ [row]) as Hrow by (apply elem_of_app; right; by apply list_elem_of_singleton).
  subst payload. destruct (identified_document _ _ _ _ _ _ _ _ Hdig Hdoc) as (_ & _ & _ & _ & Hcs).
  pose proof Hsel as (Hn & _ & HF)%select_documents_Ok. split_and!; try done.
  - destruct Hs' as [_ Hsound]. rewrite Forall_forall in Hsound. by apply Hsound.
  - exists docs. rewrite Edoc.
    assert (exists versions, map snd sel = map (fun r => VDict (vr_document r)) versions /\
      Forall2 (fun s r => get_version seen (se_connector_key s) (se_version s) = Ok r /\ vr_disabled r = false)
         selections versions) as (versions & Hmap & HF2).
    { clear -HF. induction HF as [|s kd ss kds (r & Hr & Hd & Hk & _) _ (vs & Hm & HF)]; [by exists []|].
      exists (r :: vs). simpl. split; [congruence|]. by constructor. }
    exists versions. split_and!; try done. rewrite Hdocs, <- Hmap. by rewrite ksort_perm.
  - intros dep' Hdep' Ed. destruct (active_is_highest _ _ _ Hs' Hdep') as (r & Hr' & _ & _ & _ & Hu).
    + intros E. assert (row ∈ snapshots_of (with_snapshots live (prev ++ [row])) (er_id dep')) as Hx.
      { apply filter_In_iff. split; [done|]. by apply Z.eqb_eq. }
      rewrite E in Hx. by apply elem_of_nil in Hx.
    + rewrite Hr'. f_equal. symmetry. by apply Hu.
  - intros k ring -> Hk Hf. rewrite Edoc. unfold signed_document in Hdoc.
    apply bind_Ok in Hdoc as (block & Hb & Hd).
    match type of Hd with Ok ?x = Ok _ => assert (document = x) as -> by congruence end.
    by apply (sign_verifies _ k ring block Hb).
Qed.

(** A created snapshot is served, embeds what was selected and authenticates:
    it pins at most one version per connector, each an existing, enabled one
    whose stored document is embedded whole; it is the active snapshot from
    then on; and if it was signed, any key ring that trusts the signing key
    verifies it. *)
Theorem created_snapshot_served `{Platform, Ed25519, !Ed25519Laws, JsonSchema, Pydantic, Analyzer} :
  forall live rest seen key selections by_ signing_key now live' row,
    reachable (live :: rest) -> seen ∈ live :: rest ->
    create_snapshot key selections by_ signing_key now seen live = Ok (live', row) ->
    row ∈ t_snapshots live' /\ sr_active row = true /\ snapshot_sound row /\
    NoDup (map se_connector_key selections) /\
    (exists docs versions, get "connectors" (sr_document row) = VList docs /\
       docs ≡ₚ map (fun r => VDict (vr_document r)) versions /\
       Forall2 (fun s r => get_version seen (se_connector_key s) (se_version s) = Ok r /\ vr_disabled r = false)
         selections versions) /\
    (forall dep, find_deployment live' key = Some dep -> sr_deployment_id row = er_id dep ->
       get_active_snapshot live' key = Ok row) /\
    (forall k ring, signing_key = Some k -> sk_key_id k <> "" -> ring_find ring (sk_key_id k) = Some (public_key k) ->
       verify_document (sr_document row) ring = Ok (sk_key_id k)).
Proof. exact create_snapshot_serves. Qed.



(** ** A concrete history for the witnesses *)

#[export] Instance demo_analyzer : Analyzer :=
  {| ingest := fun _ filename _ _ =>
       Ok (MkIngested filename ("sha256:" +:+ zeros64) 512 "yaml" "3.0.3" "0.1.0" "Ticket API" "Tickets."
             (Some "https://api.example.org/v1") demo_analysis) |}.
Definition demo_now : datetime := MkTime 2024 3 9 7 5 0 true.
Definition demo_registration : registration :=
  MkRegistration "ticket-api" None None "openapi" "tickets.yaml" None None None 2097152.
Definition demo_commit (q : request) (history : list database) : list database :=
  match history with
  | live :: _ => @transaction demo_platform _ _ _ _ q demo_now live live :: history
  | [] => []
  end.
Definition demo_requests : list request :=
  [Register demo_registration; Publish "ticket-api" 1 "admin" None; CreateDeployment "default" "Default" "";
   CreateSnapshot "default" [MkSnapshotSelection "ticket-api" "0.1.0"] "admin" (Some demo_signing_key)].
Definition demo_history (n : nat) : list database :=
  foldl (fun h q => demo_commit q h) [empty_database] (firstn n demo_requests).

Lemma demo_commit_reachable q history :
  @reachable demo_platform _ _ _ _ history -> history <> [] -> @reachable demo_platform _ _ _ _ (demo_commit q history).
Proof.
  intros Hr Hne. destruct history as [|live rest]; [done|]. unfold reachable. eapply rtc_r; [exact Hr|].
  unfold demo_commit. constructor. left.
Qed.
Lemma demo_history_reachable n : @reachable demo_platform _ _ _ _ (demo_history n).
Proof.
  unfold demo_history.
  assert (forall qs h, @reachable demo_platform _ _ _ _ h -> h <> [] ->
    @reachable demo_platform _ _ _ _ (foldl (fun h q => demo_commit q h) h qs)) as G.
  { induction qs as [|q qs IH]; intros h Hh Hne; [done|]. simpl. apply IH; [by apply demo_commit_reachable|].
    by destruct h. }
  apply G; [apply rtc_refl|done].
Qed.
Definition demo_db (n : nat) : database := hd empty_database (demo_history n).

Example demo_counts :
  (length (t_versions (demo_db 4)), length (t_snapshots (demo_db 4)), length (t_drafts (demo_db 4))) = (1, 1, 0)%nat.
Proof. vm_compute. reflexivity. Qed.

Lemma published_versions_immutable_witness :
  Forall (@version_sound demo_platform _ (t_connectors (demo_db 4))) (t_versions (demo_db 4)) /\
  exists r, r ∈ t_versions (demo_db 4) /\ vr_version r = "0.1.0".
Proof.
  assert (demo_history 4 = demo_db 4 :: tail (demo_history 4)) as E by (vm_compute; reflexivity).
  pose proof (demo_history_reachable 4) as Hr. rewrite E in Hr. split.
  - exact (proj1 (proj2 (proj2 (@published_versions_immutable demo_platform _ _ _ _ _ _ Hr)))).
  - eexists. split; [vm_compute; left|reflexivity].
Defined.

Lemma snapshots_immutable_witness :
  exists r, get_active_snapshot (demo_db 4) "default" = Ok r /\ @snapshot_sound demo_platform _ r /\ sr_revision r = 1%Z.
Proof.
  assert (demo_history 4 = demo_db 4 :: tail (demo_history 4)) as E by (vm_compute; reflexivity).
  pose proof (demo_history_reachable 4) as Hr. rewrite E in Hr.
  destruct (find_deployment (demo_db 4) "default") as [dep|] eqn:Hdep; [|exfalso; revert Hdep; vm_compute; discriminate].
  destruct (proj2 (proj2 (proj2 (@snapshots_immutable demo_platform _ _ _ _ _ _ Hr))) "default" dep Hdep)
    as (r & Ha & Hs & _).
  - assert (er_id dep = 1%Z) as -> by (revert Hdep; vm_compute; intros [= <-]; reflexivity). vm_compute. discriminate.
  - exists r. split; [exact Ha|]. split; [exact Hs|]. revert Ha. vm_compute. intros [= <-]. reflexivity.
Defined.

Lemma created_snapshot_served_witness :
  exists live' row, @create_snapshot demo_platform _ _ _ "default" [MkSnapshotSelection "ticket-api" "0.1.0"] "admin"
      (Some demo_signing_key) demo_now (demo_db 3) (demo_db 3) = Ok (live', row) /\
    @verify_document demo_platform _ (sr_document row) [public_key demo_signing_key] = Ok "demo-key".
Proof.
  destruct (@create_snapshot demo_platform _ _ _ "default" [MkSnapshotSelection "ticket-api" "0.1.0"] "admin"
      (Some demo_signing_key) demo_now (demo_db 3) (demo_db 3)) as [[live' row]|e] eqn:Hc;
    [|exfalso; revert Hc; vm_compute; discriminate].
  exists live', row. split; [reflexivity|].
  assert (demo_history 3 = demo_db 3 :: tail (demo_history 3)) as E by (vm_compute; reflexivity).
  pose proof (demo_history_reachable 3) as Hr. rewrite E in Hr.
  destruct (@created_snapshot_served demo_platform _ _ _ _ _ _ _ _ _ _ _ _ _ _ _ Hr ltac:(left) Hc)
    as (_ & _ & _ & _ & _ & _ & Hsig).
  apply (Hsig demo_signing_key); [reflexivity|discriminate|vm_compute; reflexivity].
Defined.


Definition demo_change (description : string) : review_change :=
  MkChange [MkUpdate "POST /tickets/{ticket_id}/notes" None (Some description) None None None None None] None None None.
Definition demo_review_update (description : string) (seen live : database) : M (database * draft_row) :=
  @update_review demo_platform _ "ticket-api" 1 (demo_change description) demo_now seen live.


(** ** What optimistic concurrency does not cover *)

(** Two updates that both read revision 1 before either committed both succeed,
    and the second overwrites the first: the check and the write are not one
    step. *)
Definition demo_description (db : database) : option pyval :=
  match t_drafts db with
  | d :: _ => match get "operations" (dr_review d) with
              | VList (VDict e :: _) => Some (get "description" e)
              | _ => None
              end
  | [] => None
  end.
Lemma interleaved_updates_lost :
  (let* first := demo_review_update "First." (demo_db 1) (demo_db 1) in
   let* second := demo_review_update "Second." (demo_db 1) first.1 in
   Ok (demo_description first.1, demo_description second.1, dr_revision first.2, dr_revision second.2)) =
  Ok (Some (VStr "First."), Some (VStr "Second."), 2%Z, 2%Z).
Proof. vm_compute. reflexivity. Qed.

(** Registering again restarts the revisions at 1, so a reviewer who read
    revision 1 of the draft that was replaced updates the new one. *)
Lemma reregistration_resets_revision :
  (let* first := demo_review_update "First." (demo_db 1) (demo_db 1) in
   let* again := @register_connector demo_platform _ demo_registration demo_now first.1 first.1 in
   let* stale := demo_review_update "Stale." again.1 again.1 in
   Ok (dr_revision first.2, dr_revision again.2, dr_revision stale.2)) = Ok (2%Z, 1%Z, 2%Z).
Proof. vm_compute. reflexivity. Qed.

(** A release and a prerelease of the same numbers do not compare as tuples:
    suggesting the next version raises a [TypeError]. *)
Lemma next_version_fails_on_prerelease :
  exists m, next_version ["1.0.0-rc1"; "1.0.0"] = Err (Raised TypeError m).
Proof. eexists. vm_compute. reflexivity. Qed.
