(* ===== verification/Integrity.v ===== *)
(** * Referential integrity

    The keys of [control_plane/models.py]: primary keys and unique constraints
    hold, and every foreign key names a row, in every committed database.  So
    the checks [PRAGMA foreign_keys=ON] (db.py) turns on refuse nothing, and
    since no connector and no deployment is ever deleted, [ON DELETE CASCADE]
    never applies. *)

From S2P Require Export ControlPlane.

(** Every row's foreign key is the primary key of a row. *)
Definition refers {A B} (foreign : A -> Z) (id : B -> Z) (rows : list A) (targets : list B) : Prop :=
  forall r, r ∈ rows -> exists t, t ∈ targets /\ id t = foreign r.
(** Primary keys that were there stay. *)
Definition ids_kept {B} (id : B -> Z) (old new : list B) : Prop := forall t, t ∈ old -> exists t', t' ∈ new /\ id t' = id t.

Section refers.
Context {A B : Type} (foreign : A -> Z) (id : B -> Z).
Lemma refers_kept rows targets targets' :
  ids_kept id targets targets' -> refers foreign id rows targets -> refers foreign id rows targets'.
Proof. intros Hk Hr r (t & Ht & E)%Hr. destruct (Hk t Ht) as (t' & Ht' & E'). exists t'. by rewrite E'. Qed.
Lemma refers_sub rows rows' targets :
  (forall r, r ∈ rows' -> exists r0, r0 ∈ rows /\ foreign r0 = foreign r) ->
  refers foreign id rows targets -> refers foreign id rows' targets.
Proof. intros Hs Hr r (r0 & H0 & <-)%Hs. by apply Hr. Qed.
Lemma refers_app rows row targets :
  refers foreign id rows targets -> (exists t, t ∈ targets /\ id t = foreign row) -> refers foreign id (rows ++ [row]) targets.
Proof. intros Hr Ht r [Hin| ->%list_elem_of_singleton]%elem_of_app; [by apply Hr|done]. Qed.
Lemma refers_map (f : A -> A) rows targets :
  (forall r, foreign (f r) = foreign r) -> refers foreign id rows targets -> refers foreign id (map f rows) targets.
Proof.
  intros Hf. apply refers_sub. intros r (r0 & <- & H0)%list_elem_of_In%in_map_iff. exists r0. by rewrite list_elem_of_In.
Qed.
Lemma ids_kept_refl rows : ids_kept id rows rows.
Proof. intros t Ht. by exists t. Qed.
Lemma ids_kept_trans l m n : ids_kept id l m -> ids_kept id m n -> ids_kept id l n.
Proof. intros Hl Hm t (t' & Ht' & E)%Hl. destruct (Hm t' Ht') as (t'' & ? & ?). exists t''. split; [done|congruence]. Qed.
End refers.
Lemma ids_kept_connectors old new : persist same_connector old new -> ids_kept cr_id old new.
Proof. intros Hp c (c' & Hc' & [E _])%Hp. by exists c'. Qed.

Record references_ok (db : database) : Prop := {
  rf_drafts : refers dr_connector_id cr_id (t_drafts db) (t_connectors db);
  rf_versions : refers vr_connector_id cr_id (t_versions db) (t_connectors db);
  rf_snapshots : refers sr_deployment_id er_id (t_snapshots db) (t_deployments db);
}.
Definition deployments_ok (l : list deployment_row) : Prop := NoDup (map er_id l) /\ NoDup (map er_deployment_key l).

Section integrity.
Context `{Platform, Ed25519, JsonSchema, Pydantic, Analyzer}.

Lemma register_row_id a an now seen live live' c :
  register_row a an now seen live = Ok (live', c) -> exists c', c' ∈ t_connectors live' /\ cr_id c' = cr_id c.
Proof.
  unfold register_row. destruct (find_connector seen _) as [c0|].
  - intros (l & [-> (r & Hr & Hid)]%update_by_id_Ok & [= <- <-])%bind_Ok. cbn [t_connectors with_connectors].
    exists (touch_connector a c0 now r). split; [|by cbn]. apply list_elem_of_In, in_map_iff. exists r.
    rewrite (proj2 (Z.eqb_eq _ _) Hid). by rewrite <- list_elem_of_In.
  - intros (db & (l & [-> _]%insert_unique_Ok & [= <-])%bind_Ok & [= <- <-])%bind_Ok. cbn [t_connectors with_connectors].
    eexists. split; [apply elem_of_app; right; by apply list_elem_of_singleton|done].
Qed.
Lemma register_drafts a now seen live live' d :
  register_connector a now seen live = Ok (live', d) ->
  (forall r, r ∈ t_drafts live' -> r ∈ t_drafts live \/ r = d) /\
  exists c, c ∈ t_connectors live' /\ cr_id c = dr_connector_id d.
Proof.
  unfold register_connector. intros (an & _ & Hr)%bind_Ok. apply bind_Ok in Hr as ([live1 c] & Hrow & Hr).
  apply bind_Ok in Hr as (v & _ & Hr). apply bind_Ok in Hr as (rv & _ & Hr). cbv zeta in Hr.
  apply bind_Ok in Hr as (db & Hins & Hr). injection Hr as <- <-.
  pose proof (register_row_id _ _ _ _ _ _ _ Hrow) as Hid.
  assert (t_drafts live1 = t_drafts live) as Ed.
  { unfold register_row in Hrow. destruct (find_connector seen _).
    - by apply bind_Ok in Hrow as (l & _ & [= <- _]).
    - by apply bind_Ok in Hrow as (db1 & (l & _ & [= <-])%bind_Ok & [= <- _]). }
  unfold insert_draft in Hins. apply bind_Ok in Hins as (l & [-> _]%insert_unique_Ok & Hdb). injection Hdb as <-.
  cbn [t_drafts t_connectors with_drafts]. split.
  - intros r [Hin| ->%list_elem_of_singleton]%elem_of_app; [left|by right]. rewrite <- Ed.
    destruct (find_draft live1 (cr_id c)); [|done]. by apply filter_In_iff in Hin as [Hin _].
  - destruct (find_draft live1 (cr_id c)); exact Hid.
Qed.

Lemma create_deployment_spec key name text now seen live live' row :
  create_deployment key name text now seen live = Ok (live', row) ->
  exists l, live' = with_deployments live l /\ er_id row = next_id (map er_id (t_deployments live)) /\
    insert_unique (fun r => String.eqb (er_deployment_key r) (er_deployment_key row)) row (t_deployments live) = Ok l.
Proof.
  unfold create_deployment. destruct (find_deployment _ _); [done|].
  intros (db & (l & Hl & [= <-])%bind_Ok & [= <- <-])%bind_Ok. by exists l.
Qed.
Definition creates_deployment (q : request) : bool := match q with CreateDeployment _ _ _ => true | _ => false end.
Lemma other_requests_keep_deployments q now seen live db' :
  perform q now seen live = Ok db' -> authoring_ok live -> creates_deployment q = false ->
  t_deployments db' = t_deployments live.
Proof.
  intros Hq Hok Hne. destruct q; cbn in Hq; apply bind_Ok in Hq as ([db row] & Hq & [= <-]); cbn [fst]; try done.
  - destruct Hok as [O1 O2 _]. by destruct (register_spec _ _ _ _ _ _ Hq O1 O2) as (_ & _ & _ & _ & E & _).
  - by apply update_review_spec in Hq as (? & ? & ? & ? & ? & _ & _ & _ & _ & _ & -> & _).
  - by apply publish_spec in Hq as (? & ? & ? & ? & ? & _ & _ & _ & _ & _ & _ & _ & _ & _ & _ & _ & _ & ->).
  - by eapply disable_ok in Hq as (_ & _ & _ & _ & E).
  - by apply create_snapshot_spec in Hq as (? & ? & ? & ? & ? & ? & l & ? & _ & _ & _ & _ & _ & _ & _ & _ & -> & _).
Qed.
Lemma deployments_step q now seen live db' :
  perform q now seen live = Ok db' -> authoring_ok live -> deployments_ok (t_deployments live) ->
  deployments_ok (t_deployments db') /\ ids_kept er_id (t_deployments live) (t_deployments db').
Proof.
  intros Hq Ha Hok. destruct (creates_deployment q) eqn:Eq.
  - destruct q; try done. cbn in Hq. apply bind_Ok in Hq as ([db row] & Hq & [= <-]). cbn [fst].
    apply create_deployment_spec in Hq as (l & -> & Hid & Hl). cbn [t_deployments with_deployments]. destruct Hok. split.
    + split; [by eapply NoDup_insert_id|]. eapply NoDup_insert; [exact Hl| |done]. intros r E. cbn. by rewrite E, String.eqb_refl.
    + apply insert_unique_Ok in Hl as [-> _]. intros t Ht. exists t. split; [apply elem_of_app; by left|done].
  - rewrite (other_requests_keep_deployments _ _ _ _ _ Hq Ha Eq). split; [done|apply ids_kept_refl].
Qed.

(** Every use case keeps the references. *)
Lemma references_step q now seen live db' :
  perform q now seen live = Ok db' -> authoring_ok live -> authoring_ok db' -> authoring_grows live db' ->
  deployments_ok (t_deployments live) -> ids_kept er_id (t_deployments seen) (t_deployments live) ->
  references_ok live -> references_ok db'.
Proof.
  intros Hq Ha [_ _ (_ & _ & Hv)] [Hc _] Hdep Hseen [Rd Rv Rs]. apply ids_kept_connectors in Hc.
  destruct (deployments_step _ _ _ _ _ Hq Ha Hdep) as [_ Hk]. split.
  - assert (forall rows, (forall r, r ∈ rows -> r ∈ t_drafts live) -> refers dr_connector_id cr_id rows (t_connectors db')) as Hsub.
    { intros rows Hsub. eapply refers_kept; [exact Hc|]. eapply refers_sub; [|exact Rd]. intros r Hr. exists r. auto. }
    destruct q; cbn in Hq; apply bind_Ok in Hq as ([db row] & Hq & [= <-]); cbn [fst] in *.
    + destruct (register_drafts _ _ _ _ _ _ Hq) as [Hd Hid]. intros r [Hr| ->]%Hd; [|done].
      apply (Hsub (t_drafts live)); auto.
    + apply update_review_spec in Hq as (? & ? & ? & ? & l & _ & _ & _ & _ & _ & -> & _ & ->). cbn [t_drafts t_connectors with_drafts].
      apply refers_map; [|exact Rd]. intros r. by case_match.
    + apply publish_spec in Hq as (? & ? & ? & ? & ? & _ & _ & _ & _ & _ & _ & _ & _ & _ & _ & _ & _ & ->).
      apply Hsub. cbn. by intros r [Hr _]%filter_In_iff.
    + eapply disable_ok in Hq as (_ & _ & -> & _); [|done]. by apply Hsub.
    + apply create_deployment_spec in Hq as (l & -> & _). exact Rd.
    + apply create_snapshot_spec in Hq as (? & ? & ? & ? & ? & ? & l & ? & _ & _ & _ & _ & _ & _ & _ & _ & -> & _). exact Rd.
  - intros r Hr. rewrite Forall_forall in Hv. destruct (vs_connector _ _ (Hv r Hr)) as (c & Hcin & E & _). by exists c.
  - destruct (creates_snapshot q) eqn:Eq.
    + destruct q; try done. cbn in Hq. apply bind_Ok in Hq as ([db row] & Hq & [= <-]). cbn [fst] in *.
      apply create_snapshot_spec in Hq as (dep & ? & ? & ? & ? & ? & l & ? & Hfind & _ & _ & _ & _ & _ & _ & -> & -> & Hl & _ & Hid & _).
      cbn [t_snapshots t_deployments with_snapshots]. apply insert_unique_Ok in Hl as [-> _]. apply refers_app.
      * apply refers_map; [|exact Rs]. intros r. by destruct (deactivated_same (snapshots_of seen (er_id dep)) r).
      * rewrite Hid. apply Hseen. by apply find_first_Some in Hfind as [Hfind _].
    + rewrite (other_requests_keep_snapshots _ _ _ _ _ Hq Ha Eq). eapply refers_kept; [exact Hk|exact Rs].
Qed.

(** ** In every history *)

Record integral (db : database) : Prop := {
  ig_deployments : deployments_ok (t_deployments db);
  ig_references : references_ok db;
}.
Definition integral_history (history : list database) : Prop :=
  history_ok history /\
  exists live older, history = live :: older /\ Forall integral history /\
    Forall (fun db => ids_kept er_id (t_deployments db) (t_deployments live)) history.

Lemma reachable_integral history : reachable history -> integral_history history.
Proof.
  intros Hr. unfold reachable in Hr.
  assert (integral_history [empty_database]) as H0'.
  { split; [apply reachable_ok, rtc_refl|]. exists empty_database, []. split; [done|].
    split; apply Forall_singleton; [|apply ids_kept_refl].
    split; [split; apply NoDup_nil_2|split; by intros r ?%elem_of_nil]. }
  induction Hr as [h|h h1 h2 Hstep _ IH]; [done|]. apply IH. clear IH.
  destruct Hstep as [q now seen live older Hin]. destruct H0' as [Hh (live' & older' & [= <- <-] & Hall & Hk)].
  pose proof Hh as (live' & older' & [= <- <-] & Hok & Hgr).
  rewrite Forall_forall in Hok. rewrite Forall_forall in Hgr. rewrite Forall_forall in Hk.
  destruct (transaction_ok q now seen live (Hok seen Hin) (Hok live ltac:(left)) (Hgr seen Hin)) as [[Hok' Hok''] Hg].
  assert (integral (transaction q now seen live) /\
    ids_kept er_id (t_deployments live) (t_deployments (transaction q now seen live))) as [Hi Hk'].
  { pose proof Hall as [[Hd Hrf] _]%Forall_cons. destruct (Hok live ltac:(left)) as [Ha _]. revert Hok' Hg. unfold transaction.
    destruct (perform q now seen live) as [db|e] eqn:Hq; intros Hok' [Hg _]; [|split; [by split|apply ids_kept_refl]].
    destruct (deployments_step _ _ _ _ _ Hq Ha Hd). split; [split; [done|]|done].
    by eapply references_step; eauto. }
  split.
  - exists (transaction q now seen live), (live :: older). split; [done|]. rewrite Forall_forall in Hall. split.
    + constructor; [by split|]. by rewrite Forall_forall.
    + constructor; [done|]. rewrite Forall_forall. intros db Hdb. etrans; [by apply Hgr|done].
  - exists (transaction q now seen live), (live :: older). split; [done|]. split; [by constructor|].
    constructor; [apply ids_kept_refl|]. rewrite Forall_forall. intros db Hdb. eapply ids_kept_trans; [by apply Hk|done].
Qed.
End integrity.

(** ** Property *)

(** Every key of the schema: primary keys, unique constraints, foreign keys. *)
Record keys_hold (db : database) : Prop := {
  kh_connectors : NoDup (map cr_id (t_connectors db)) /\ NoDup (map cr_connector_key (t_connectors db));
  kh_drafts : NoDup (map dr_id (t_drafts db)) /\ NoDup (map dr_connector_id (t_drafts db));
  kh_versions : NoDup (map vr_id (t_versions db)) /\ NoDup (map (fun r => (vr_connector_id r, vr_version r)) (t_versions db));
  kh_deployments : NoDup (map er_id (t_deployments db)) /\ NoDup (map er_deployment_key (t_deployments db));
  kh_snapshots : NoDup (map sr_id (t_snapshots db)) /\ NoDup (map slot (t_snapshots db)) /\
    NoDup (map sr_snapshot_id (t_snapshots db));
  kh_references : references_ok db;
}.

Lemma reachable_keys `{Platform, Ed25519, JsonSchema, Pydantic, Analyzer} live older db :
  reachable (live :: older) -> db ∈ live :: older ->
  keys_hold db /\ ids_kept cr_id (t_connectors db) (t_connectors live) /\ ids_kept er_id (t_deployments db) (t_deployments live).
Proof.
  intros Hr Hdb. destruct (reachable_integral _ Hr) as [Hh (live' & older' & [= <- <-] & Hi & Hk)].
  destruct Hh as (live' & older' & [= <- <-] & Hok & Hg).
  rewrite Forall_forall in Hi. rewrite Forall_forall in Hk. rewrite Forall_forall in Hok. rewrite Forall_forall in Hg.
  destruct (Hok db Hdb) as [[Hc Hd (Hv1 & Hv2 & _)] [[Hs1 Hs2 Hs3 _ _] _]]. destruct (Hi db Hdb) as [He Hrf].
  split_and!; [by split|by apply ids_kept_connectors, Hg|by apply Hk].
Qed.

(** C13. The schema's keys hold in every committed database, however transactions
    interleave: primary keys and unique columns are distinct, every draft and
    every published version belongs to a connector, every snapshot to a
    deployment, and a connector or a deployment that was ever committed is in
    every later database.  So the foreign keys the engine checks refuse nothing
    and cascade nothing. *)
Theorem database_integrity `{Platform, Ed25519, JsonSchema, Pydantic, Analyzer} :
  forall live older, reachable (live :: older) ->
    forall db, db ∈ live :: older ->
      keys_hold db /\ ids_kept cr_id (t_connectors db) (t_connectors live) /\
      ids_kept er_id (t_deployments db) (t_deployments live).
Proof. intros live older Hr db. by apply reachable_keys. Qed.

Lemma database_integrity_witness :
  keys_hold (demo_db 4) /\ ids_kept er_id (t_deployments (demo_db 3)) (t_deployments (demo_db 4)).
Proof.
  assert (demo_history 4 = demo_db 4 :: demo_db 3 :: tail (tail (demo_history 4))) as E by (vm_compute; reflexivity).
  pose proof (demo_history_reachable 4) as Hr. rewrite E in Hr. split.
  - apply (@database_integrity demo_platform _ _ _ _ _ _ Hr). left.
  - apply (@database_integrity demo_platform _ _ _ _ _ _ Hr). right. left.
Defined.
