(* ===== verification/Schema.v ===== *)
(** * The relational schema

    The initial migration
    ([migrations/versions/20260805_bb270ecf8261_initial_control_plane_schema.py])
    as the sequence of schema changes it makes, the schema the classes of
    [control_plane/models.py] declare, and what a schema asks of tables of rows.
    The tables of Database.v are such tables: see [sql_tables]. *)

From S2P Require Export Integrity.

(** ** Schemas *)

(** The column types of [sqlalchemy] the program uses. *)
Inductive column_type := SaInteger | SaString (length : N) | SaText | SaDateTime | SaJSON | SaBoolean | SaLargeBinary.
Record column := Column { co_name : string; co_type : column_type; co_nullable : bool }.
Inductive constraint :=
  | ForeignKeyConstraint (columns : list string) (table : string) (referred : list string) (cascade : bool)
  | PrimaryKeyConstraint (columns : list string)
  | UniqueConstraint (columns : list string) (name : option string).
Record index := Index { ix_name : string; ix_columns : list string; ix_unique : bool }.
Record table := Table { ta_columns : list column; ta_constraints : list constraint; ta_indexes : list index }.

#[export] Instance column_type_eq_dec : EqDecision column_type.
Proof. solve_decision. Defined.
#[export] Instance column_eq_dec : EqDecision column.
Proof. solve_decision. Defined.
#[export] Instance constraint_eq_dec : EqDecision constraint.
Proof. solve_decision. Defined.
#[export] Instance index_eq_dec : EqDecision index.
Proof. solve_decision. Defined.
#[export] Instance table_eq_dec : EqDecision table.
Proof. solve_decision. Defined.

Abbreviation schema := (gmap string table).

(** ** Schema changes *)

Inductive operation :=
  | create_table (name : string) (columns : list column) (constraints : list constraint)
  | create_index (table name : string) (columns : list string) (unique : bool)
  | drop_index (table name : string)
  | drop_table (name : string).

Definition column_names (t : table) : list string := map co_name (ta_columns t).
(** The columns a foreign key may name: the primary key or a unique constraint. *)
Definition is_key (columns : list string) (t : table) : bool :=
  existsb (fun c => match c with
                    | PrimaryKeyConstraint k | UniqueConstraint k _ => bool_decide (k = columns)
                    | ForeignKeyConstraint _ _ _ _ => false
                    end) (ta_constraints t).
Definition known_columns (columns : list string) (t : table) : bool := forallb (fun c => str_in c (column_names t)) columns.
Definition constraint_applies (s : schema) (name : string) (t : table) (c : constraint) : bool :=
  match c with
  | PrimaryKeyConstraint columns | UniqueConstraint columns _ => known_columns columns t
  | ForeignKeyConstraint columns target referred _ =>
      known_columns columns t && (length columns =? length referred)%nat &&
      match if String.eqb target name then Some t else s !! target with
      | Some referred_table => is_key referred referred_table
      | None => false
      end
  end.
Definition refers_to (name : string) (t : table) : bool :=
  existsb (fun c => match c with ForeignKeyConstraint _ target _ _ => String.eqb target name | _ => false end) (ta_constraints t).
(** What the engine makes of a change: none if the change does not apply. *)
Definition alter_schema (s : schema) (o : operation) : option schema :=
  match o with
  | create_table name columns constraints =>
      let t := Table columns constraints [] in
      if is_none (s !! name) && negb (has_duplicate (column_names t)) && forallb (constraint_applies s name t) constraints
      then Some (<[name := t]> s) else None
  | create_index name index columns unique =>
      t ← s !! name;
      if known_columns columns t && negb (str_in index (map ix_name (ta_indexes t)))
      then Some (<[name := Table (ta_columns t) (ta_constraints t) (ta_indexes t ++ [Index index columns unique])]> s) else None
  | drop_index name index =>
      t ← s !! name;
      if str_in index (map ix_name (ta_indexes t))
      then Some (<[name := Table (ta_columns t) (ta_constraints t)
                             (List.filter (fun i => negb (String.eqb (ix_name i) index)) (ta_indexes t))]> s)
      else None
  | drop_table name =>
      if is_none (s !! name) || existsb (fun e => negb (String.eqb e.1 name) && refers_to name e.2) (map_to_list s)
      then None else Some (delete name s)
  end.
Fixpoint run_operations (os : list operation) (s : schema) : option schema :=
  match os with [] => Some s | o :: os => s ← alter_schema s o; run_operations os s end.

(** ** The migration *)

Definition upgrade : list operation :=
  [create_table "connectors"
     [Column "id" SaInteger false; Column "connector_key" (SaString 64) false; Column "display_name" (SaString 128) false;
      Column "summary" SaText false; Column "created_at" SaDateTime false; Column "updated_at" SaDateTime false]
     [PrimaryKeyConstraint ["id"]; UniqueConstraint ["connector_key"] None];
   create_table "deployments"
     [Column "id" SaInteger false; Column "deployment_key" (SaString 64) false; Column "display_name" (SaString 128) false;
      Column "description" SaText false; Column "created_at" SaDateTime false]
     [PrimaryKeyConstraint ["id"]; UniqueConstraint ["deployment_key"] None];
   create_table "connector_drafts"
     [Column "id" SaInteger false; Column "connector_id" SaInteger false; Column "revision" SaInteger false;
      Column "proposed_version" (SaString 64) false; Column "base_url" (SaString 2048) true;
      Column "auth_profile_ref" (SaString 256) true; Column "source_bytes" SaLargeBinary false;
      Column "source_filename" (SaString 256) false; Column "source_digest" (SaString 80) false;
      Column "source_byte_length" SaInteger false; Column "source_format" (SaString 8) false;
      Column "spec_version" (SaString 16) false; Column "analyzer_version" (SaString 64) false; Column "analysis" SaJSON false;
      Column "review" SaJSON false; Column "created_at" SaDateTime false; Column "updated_at" SaDateTime false]
     [ForeignKeyConstraint ["connector_id"] "connectors" ["id"] true; PrimaryKeyConstraint ["id"];
      UniqueConstraint ["connector_id"] (Some "uq_draft_per_connector")];
   create_table "deployment_snapshots"
     [Column "id" SaInteger false; Column "deployment_id" SaInteger false; Column "revision" SaInteger false;
      Column "snapshot_id" (SaString 64) false; Column "document" SaJSON false; Column "snapshot_digest" (SaString 80) false;
      Column "connector_count" SaInteger false; Column "active" SaBoolean false; Column "created_at" SaDateTime false;
      Column "created_by" (SaString 128) false]
     [ForeignKeyConstraint ["deployment_id"] "deployments" ["id"] true; PrimaryKeyConstraint ["id"];
      UniqueConstraint ["deployment_id"; "revision"] (Some "uq_deployment_revision");
      UniqueConstraint ["snapshot_id"] (Some "uq_snapshot_id")];
   create_table "published_versions"
     [Column "id" SaInteger false; Column "connector_id" SaInteger false; Column "version" (SaString 64) false;
      Column "document" SaJSON false; Column "document_digest" (SaString 80) false; Column "source_digest" (SaString 80) false;
      Column "analyzer_version" (SaString 64) false; Column "tool_count" SaInteger false; Column "published_at" SaDateTime false;
      Column "published_by" (SaString 128) false; Column "disabled_at" SaDateTime true; Column "disabled_reason" (SaString 512) true]
     [ForeignKeyConstraint ["connector_id"] "connectors" ["id"] true; PrimaryKeyConstraint ["id"];
      UniqueConstraint ["connector_id"; "version"] (Some "uq_connector_version")];
   create_index "published_versions" "ix_published_versions_connector" ["connector_id"] false].

Definition downgrade : list operation :=
  [drop_index "published_versions" "ix_published_versions_connector"; drop_table "published_versions";
   drop_table "deployment_snapshots"; drop_table "connector_drafts"; drop_table "deployments"; drop_table "connectors"].

(** ** The declared models *)

(** [mapped_column(...)]; a foreign key is declared with [ondelete="CASCADE"]. *)
Record mapped_column := Mapped {
  mc_name : string; mc_type : column_type; mc_primary_key : bool; mc_unique : bool; mc_nullable : bool;
  mc_foreign_key : option (string * string);
}.
Inductive table_argument := UniqueArgument (columns : list string) (name : string) | IndexArgument (name : string) (columns : list string).
Record declared_class := Declared {
  dc_tablename : string; dc_columns : list mapped_column; dc_table_args : list table_argument;
}.
Definition id_column : mapped_column := Mapped "id" SaInteger true false false None.
Definition required (name : string) (type : column_type) : mapped_column := Mapped name type false false false None.
Definition optional (name : string) (type : column_type) : mapped_column := Mapped name type false false true None.
Definition unique_column (name : string) (type : column_type) : mapped_column := Mapped name type false true false None.
Definition foreign_key (name target : string) : mapped_column := Mapped name SaInteger false false false (Some (target, "id")).

Definition Connector_class : declared_class :=
  Declared "connectors"
    [id_column; unique_column "connector_key" (SaString 64); required "display_name" (SaString 128); required "summary" SaText;
     required "created_at" SaDateTime; required "updated_at" SaDateTime] [].
Definition ConnectorDraft_class : declared_class :=
  Declared "connector_drafts"
    [id_column; foreign_key "connector_id" "connectors"; required "revision" SaInteger;
     required "proposed_version" (SaString 64); optional "base_url" (SaString 2048); optional "auth_profile_ref" (SaString 256);
     required "source_bytes" SaLargeBinary; required "source_filename" (SaString 256); required "source_digest" (SaString 80);
     required "source_byte_length" SaInteger; required "source_format" (SaString 8); required "spec_version" (SaString 16);
     required "analyzer_version" (SaString 64); required "analysis" SaJSON; required "review" SaJSON;
     required "created_at" SaDateTime; required "updated_at" SaDateTime]
    [UniqueArgument ["connector_id"] "uq_draft_per_connector"].
Definition PublishedVersion_class : declared_class :=
  Declared "published_versions"
    [id_column; foreign_key "connector_id" "connectors"; required "version" (SaString 64); required "document" SaJSON;
     required "document_digest" (SaString 80); required "source_digest" (SaString 80); required "analyzer_version" (SaString 64);
     required "tool_count" SaInteger; required "published_at" SaDateTime; required "published_by" (SaString 128);
     optional "disabled_at" SaDateTime; optional "disabled_reason" (SaString 512)]
    [UniqueArgument ["connector_id"; "version"] "uq_connector_version";
     IndexArgument "ix_published_versions_connector" ["connector_id"]].
Definition Deployment_class : declared_class :=
  Declared "deployments"
    [id_column; unique_column "deployment_key" (SaString 64); required "display_name" (SaString 128);
     required "description" SaText; required "created_at" SaDateTime] [].
Definition DeploymentSnapshot_class : declared_class :=
  Declared "deployment_snapshots"
    [id_column; foreign_key "deployment_id" "deployments"; required "revision" SaInteger;
     required "snapshot_id" (SaString 64); required "document" SaJSON; required "snapshot_digest" (SaString 80);
     required "connector_count" SaInteger; required "active" SaBoolean; required "created_at" SaDateTime;
     required "created_by" (SaString 128)]
    [UniqueArgument ["deployment_id"; "revision"] "uq_deployment_revision"; UniqueArgument ["snapshot_id"] "uq_snapshot_id"].
Definition metadata : list declared_class :=
  [Connector_class; ConnectorDraft_class; PublishedVersion_class; Deployment_class; DeploymentSnapshot_class].

(** What a declaration stands for; constraints are listed the way the migration lists them. *)
Definition declared_constraints (d : declared_class) : list constraint :=
  flat_map (fun c => match mc_foreign_key c with
                     | Some (target, referred) => [ForeignKeyConstraint [mc_name c] target [referred] true]
                     | None => []
                     end) (dc_columns d) ++
  [PrimaryKeyConstraint (map mc_name (List.filter mc_primary_key (dc_columns d)))] ++
  map (fun c => UniqueConstraint [mc_name c] None) (List.filter mc_unique (dc_columns d)) ++
  flat_map (fun a => match a with UniqueArgument columns name => [UniqueConstraint columns (Some name)] | _ => [] end) (dc_table_args d).
Definition declared_columns (d : declared_class) : list column :=
  map (fun c => Column (mc_name c) (mc_type c) (mc_nullable c)) (dc_columns d).
Definition declared_indexes (d : declared_class) : list operation :=
  flat_map (fun a => match a with IndexArgument name columns => [create_index (dc_tablename d) name columns false] | _ => [] end)
    (dc_table_args d).
(** [Base.metadata.create_all]: tables that exist are left alone.  The classes
    are listed so that a table follows those it refers to. *)
Definition create_declared (s : schema) (d : declared_class) : option schema :=
  if is_none (s !! dc_tablename d)
  then run_operations (create_table (dc_tablename d) (declared_columns d) (declared_constraints d) :: declared_indexes d) s
  else Some s.
Fixpoint create_all (ds : list declared_class) (s : schema) : option schema :=
  match ds with [] => Some s | d :: ds => s ← create_declared s d; create_all ds s end.
(** [create_schema]. *)
Definition create_schema (s : schema) : option schema := create_all metadata s.

(** The schema of both. *)
Definition control_plane_schema : schema := default ∅ (run_operations upgrade ∅).

Example migration_drift :
  run_operations upgrade ∅ = Some control_plane_schema /\ create_schema ∅ = Some control_plane_schema /\
  create_schema control_plane_schema = Some control_plane_schema /\ run_operations downgrade control_plane_schema = Some ∅ /\
  run_operations upgrade control_plane_schema = None.
Proof. split_and!; apply (bool_decide_eq_true_1 _); vm_compute; reflexivity. Qed.

(** ** Rows *)

Inductive sql_value :=
  | SqlNull | SqlInteger (z : Z) | SqlString (s : string) | SqlBytes (s : string) | SqlDateTime (t : datetime)
  | SqlJSON (d : dict) | SqlBoolean (b : bool).
(** [=] on keys: NULL equals nothing, documents have no equality. *)
Definition sql_equal (a b : sql_value) : bool :=
  match a, b with
  | SqlInteger x, SqlInteger y => Z.eqb x y
  | SqlString x, SqlString y => String.eqb x y
  | _, _ => false
  end.
Abbreviation sql_row := (list (string * sql_value)).
Abbreviation sql_database := (string -> list sql_row).
Definition cell (row : sql_row) (column : string) : sql_value := default SqlNull (alookup column row).
Definition key_equal (columns : list string) (row : sql_row) (columns' : list string) (row' : sql_row) : bool :=
  forallb (fun c => sql_equal (cell row c.1) (cell row' c.2)) (zip columns columns').

(** SQLite stores a text of any length in a VARCHAR(n); other engines refuse a
    longer one. *)
Definition type_admits (bounded : bool) (t : column_type) (v : sql_value) : bool :=
  match t, v with
  | SaInteger, SqlInteger _ | SaText, SqlString _ | SaDateTime, SqlDateTime _ | SaJSON, SqlJSON _
  | SaBoolean, SqlBoolean _ | SaLargeBinary, SqlBytes _ => true
  | SaString n, SqlString s => negb bounded || (N.of_nat (slen s) <=? n)%N
  | _, _ => false
  end.
Definition column_admits (bounded : bool) (c : column) (v : sql_value) : bool :=
  match v with SqlNull => co_nullable c | _ => type_admits bounded (co_type c) v end.
(** The row has the table's columns, each with a value of its type. *)
Definition row_admitted (bounded : bool) (t : table) (row : sql_row) : bool :=
  bool_decide (map fst row = column_names t) &&
  forallb (fun c => column_admits bounded c (cell row (co_name c))) (ta_columns t).

(** [row] beside [others]: the keys of the table and the rows referred to. *)
Definition constraint_admits (db : sql_database) (others : list sql_row) (row : sql_row) (c : constraint) : bool :=
  match c with
  | PrimaryKeyConstraint columns | UniqueConstraint columns _ => negb (existsb (fun r => key_equal columns row columns r) others)
  | ForeignKeyConstraint columns target referred _ => existsb (fun r => key_equal columns row referred r) (db target)
  end.
(** Whether the engine takes [row] into the table [name]. *)
Definition insert_admitted (bounded : bool) (s : schema) (db : sql_database) (name : string) (row : sql_row) : bool :=
  match s !! name with
  | Some t => row_admitted bounded t row && forallb (constraint_admits db (db name) row) (ta_constraints t)
  | None => false
  end.
(** Every table's rows satisfy the schema. *)
Definition constraint_satisfied (db : sql_database) (rows : list sql_row) (c : constraint) : Prop :=
  match c with
  | PrimaryKeyConstraint columns | UniqueConstraint columns _ =>
      forall i j r r', rows !! i = Some r -> rows !! j = Some r' -> key_equal columns r columns r' = true -> i = j
  | ForeignKeyConstraint columns target referred _ =>
      forall r, r ∈ rows -> exists r', r' ∈ db target /\ key_equal columns r referred r' = true
  end.
Definition satisfies (bounded : bool) (s : schema) (db : sql_database) : Prop :=
  forall name t, s !! name = Some t ->
    (forall row, row ∈ db name -> row_admitted bounded t row = true) /\
    (forall c, c ∈ ta_constraints t -> constraint_satisfied db (db name) c).

(** The five tables. *)
Definition sql_optional {A} (f : A -> sql_value) (o : option A) : sql_value := match o with Some a => f a | None => SqlNull end.
Definition sql_connector (r : connector_row) : sql_row :=
  [("id", SqlInteger (cr_id r)); ("connector_key", SqlString (cr_connector_key r));
   ("display_name", SqlString (cr_display_name r)); ("summary", SqlString (cr_summary r));
   ("created_at", SqlDateTime (cr_created_at r)); ("updated_at", SqlDateTime (cr_updated_at r))].
Definition sql_draft (r : draft_row) : sql_row :=
  [("id", SqlInteger (dr_id r)); ("connector_id", SqlInteger (dr_connector_id r)); ("revision", SqlInteger (dr_revision r));
   ("proposed_version", SqlString (dr_proposed_version r)); ("base_url", sql_optional SqlString (dr_base_url r));
   ("auth_profile_ref", sql_optional SqlString (dr_auth_profile_ref r)); ("source_bytes", SqlBytes (dr_source_bytes r));
   ("source_filename", SqlString (dr_source_filename r)); ("source_digest", SqlString (dr_source_digest r));
   ("source_byte_length", SqlInteger (dr_source_byte_length r)); ("source_format", SqlString (dr_source_format r));
   ("spec_version", SqlString (dr_spec_version r)); ("analyzer_version", SqlString (dr_analyzer_version r));
   ("analysis", SqlJSON (dr_analysis r)); ("review", SqlJSON (dr_review r));
   ("created_at", SqlDateTime (dr_created_at r)); ("updated_at", SqlDateTime (dr_updated_at r))].
Definition sql_version (r : version_row) : sql_row :=
  [("id", SqlInteger (vr_id r)); ("connector_id", SqlInteger (vr_connector_id r)); ("version", SqlString (vr_version r));
   ("document", SqlJSON (vr_document r)); ("document_digest", SqlString (vr_document_digest r));
   ("source_digest", SqlString (vr_source_digest r)); ("analyzer_version", SqlString (vr_analyzer_version r));
   ("tool_count", SqlInteger (Z.of_nat (vr_tool_count r))); ("published_at", SqlDateTime (vr_published_at r));
   ("published_by", SqlString (vr_published_by r)); ("disabled_at", sql_optional SqlDateTime (vr_disabled_at r));
   ("disabled_reason", sql_optional SqlString (vr_disabled_reason r))].
Definition sql_deployment (r : deployment_row) : sql_row :=
  [("id", SqlInteger (er_id r)); ("deployment_key", SqlString (er_deployment_key r));
   ("display_name", SqlString (er_display_name r)); ("description", SqlString (er_description r));
   ("created_at", SqlDateTime (er_created_at r))].
Definition sql_snapshot (r : snapshot_row) : sql_row :=
  [("id", SqlInteger (sr_id r)); ("deployment_id", SqlInteger (sr_deployment_id r)); ("revision", SqlInteger (sr_revision r));
   ("snapshot_id", SqlString (sr_snapshot_id r)); ("document", SqlJSON (sr_document r));
   ("snapshot_digest", SqlString (sr_snapshot_digest r)); ("connector_count", SqlInteger (Z.of_nat (sr_connector_count r)));
   ("active", SqlBoolean (sr_active r)); ("created_at", SqlDateTime (sr_created_at r)); ("created_by", SqlString (sr_created_by r))].
Definition sql_tables (db : database) : sql_database := fun name =>
  default [] (alookup name
    [("connectors", map sql_connector (t_connectors db)); ("connector_drafts", map sql_draft (t_drafts db));
     ("published_versions", map sql_version (t_versions db)); ("deployments", map sql_deployment (t_deployments db));
     ("deployment_snapshots", map sql_snapshot (t_snapshots db))]).

(** ** The schema as it is *)

Lemma key_equal_sym k r k' r' : key_equal k r k' r' = key_equal k' r' k r.
Proof.
  unfold key_equal. revert k'. induction k as [|c k IH]; intros [|c' k']; try done. cbn [zip zip_with forallb fst snd].
  rewrite IH. f_equal. unfold sql_equal. destruct (cell r c), (cell r' c'); auto using Z.eqb_sym, String.eqb_sym.
Qed.

Section key.
Context {A B : Type} (to_sql : A -> sql_row) (key : A -> B) (columns : list string).
Hypothesis key_columns : forall r r', key_equal columns (to_sql r) columns (to_sql r') = true -> key r = key r'.
Lemma keys_satisfied rows : NoDup (map key rows) ->
  forall i j r r', map to_sql rows !! i = Some r -> map to_sql rows !! j = Some r' ->
    key_equal columns r columns r' = true -> i = j.
Proof.
  intros Hn i j r r'. rewrite !list_lookup_fmap. intros (a & Ha & ->)%fmap_Some (b & Hb & ->)%fmap_Some E%key_columns.
  apply (NoDup_lookup (map key rows) i j (key a)); [done|..]; rewrite list_lookup_fmap; [by rewrite Ha|by rewrite Hb, E].
Qed.
End key.
Lemma references_satisfied {A B} (to_sql : A -> sql_row) (of_sql : B -> sql_row) foreign id columns rows targets :
  (forall r t, foreign r = id t -> key_equal columns (to_sql r) ["id"] (of_sql t) = true) ->
  refers foreign id rows targets ->
  forall r, r ∈ map to_sql rows -> exists r', r' ∈ map of_sql targets /\ key_equal columns r ["id"] r' = true.
Proof.
  intros Hk Hr r (a & -> & Ha)%list_elem_of_fmap. destruct (Hr a Ha) as (t & Ht & E). exists (of_sql t).
  split; [by apply list_elem_of_fmap_2|]. by apply Hk.
Qed.

(** Rows of the model are rows of the declared tables. *)
Lemma connector_admitted r t : control_plane_schema !! "connectors" = Some t -> row_admitted false t (sql_connector r) = true.
Proof. intros H. vm_compute in H. injection H as <-. by vm_compute. Qed.
Lemma draft_admitted r t : control_plane_schema !! "connector_drafts" = Some t -> row_admitted false t (sql_draft r) = true.
Proof. intros H. vm_compute in H. injection H as <-. destruct r as [???? [] []]; by vm_compute. Qed.
Lemma version_admitted r t : control_plane_schema !! "published_versions" = Some t -> row_admitted false t (sql_version r) = true.
Proof. intros H. vm_compute in H. injection H as <-. destruct r as [?????????? [] []]; by vm_compute. Qed.
Lemma deployment_admitted r t : control_plane_schema !! "deployments" = Some t -> row_admitted false t (sql_deployment r) = true.
Proof. intros H. vm_compute in H. injection H as <-. by vm_compute. Qed.
Lemma snapshot_admitted r t : control_plane_schema !! "deployment_snapshots" = Some t -> row_admitted false t (sql_snapshot r) = true.
Proof. intros H. vm_compute in H. injection H as <-. by vm_compute. Qed.

(** The cells of a row's key, whatever the rest of it. *)
Ltac key_cells :=
  cbv -[String.eqb Z.eqb not iff orb andb cr_id cr_connector_key dr_id dr_connector_id vr_id vr_connector_id vr_version er_id
        er_deployment_key sr_id sr_deployment_id sr_revision sr_snapshot_id].
Ltac key_columns :=
  key_cells; intros; repeat match goal with
    | |- context [String.eqb ?a ?b] => destruct (String.eqb_spec a b)
    | |- context [Z.eqb ?a ?b] => destruct (Z.eqb_spec a b)
    | H : context [String.eqb ?a ?b] |- _ => destruct (String.eqb_spec a b)
    | H : context [Z.eqb ?a ?b] |- _ => destruct (Z.eqb_spec a b)
    end; cbn in *; intuition congruence.
Ltac constraint_fits :=
  match goal with
  | H : NoDup (map ?key ?rows) |- forall i j r r', map ?f ?rows !! i = _ -> _ =>
      solve [apply (keys_satisfied f key); [intros r r'; key_columns | exact H]]
  | H : refers ?foreign ?id ?rows ?targets |- forall r, r ∈ map ?f ?rows -> _ =>
      solve [eapply (references_satisfied f _ foreign id _ rows targets); [|exact H]; intros r t; key_columns]
  end.

Lemma table_satisfied db name t {A} (to_sql : A -> sql_row) (rows : list A) :
  control_plane_schema !! name = Some t -> sql_tables db name = map to_sql rows ->
  (forall r, row_admitted false t (to_sql r) = true) ->
  Forall (constraint_satisfied (sql_tables db) (map to_sql rows)) (ta_constraints t) ->
  (forall row, row ∈ sql_tables db name -> row_admitted false t row = true) /\
  (forall c, c ∈ ta_constraints t -> constraint_satisfied (sql_tables db) (sql_tables db name) c).
Proof.
  intros _ -> Hr Hc. split; [by intros row (r & -> & _)%list_elem_of_fmap|]. by rewrite <- Forall_forall.
Qed.

Lemma keys_satisfy db : keys_hold db -> satisfies false control_plane_schema (sql_tables db).
Proof.
  intros [[C1 C2] [D1 D2] [V1 V2] [E1 E2] (S1 & S2 & S3) [R1 R2 R3]].
  assert (forall name t, control_plane_schema !! name = Some t ->
    name = "connectors" \/ name = "deployments" \/ name = "connector_drafts" \/ name = "deployment_snapshots" \/
    name = "published_versions") as Hnames.
  { intros name t H%elem_of_map_to_list%(list_elem_of_fmap_2 fst).
    assert (fst <$> map_to_list control_plane_schema =
      ["connector_drafts"; "connectors"; "deployment_snapshots"; "deployments"; "published_versions"]) as E
      by (vm_compute; reflexivity).
    rewrite E, !elem_of_cons, elem_of_nil in H. cbn [fst] in H. tauto. }
  intros name t Ht.
  destruct (Hnames _ _ Ht) as [->|[->|[->|[->| ->]]]];
    [ apply (table_satisfied db _ _ sql_connector (t_connectors db) Ht eq_refl (fun r => connector_admitted r t Ht))
    | apply (table_satisfied db _ _ sql_deployment (t_deployments db) Ht eq_refl (fun r => deployment_admitted r t Ht))
    | apply (table_satisfied db _ _ sql_draft (t_drafts db) Ht eq_refl (fun r => draft_admitted r t Ht))
    | apply (table_satisfied db _ _ sql_snapshot (t_snapshots db) Ht eq_refl (fun r => snapshot_admitted r t Ht))
    | apply (table_satisfied db _ _ sql_version (t_versions db) Ht eq_refl (fun r => version_admitted r t Ht)) ];
    vm_compute in Ht; injection Ht as <-; cbn [ta_constraints]; rewrite ?Forall_cons, Forall_nil; split_and?; try exact I.
  all: cbn [constraint_satisfied];
    try change (sql_tables db "connectors") with (map sql_connector (t_connectors db));
    try change (sql_tables db "deployments") with (map sql_deployment (t_deployments db)).
  all: constraint_fits.
Qed.

(** ** Inserting rows *)

Lemma admitted_as {A} (to_sql : A -> sql_row) name t db rows row clash :
  control_plane_schema !! name = Some t -> sql_tables db name = map to_sql rows ->
  row_admitted false t (to_sql row) = true ->
  (forallb (constraint_admits (sql_tables db) (map to_sql rows) (to_sql row)) (ta_constraints t) = true <-> existsb clash rows = false) ->
  insert_unique clash row rows =
  if insert_admitted false control_plane_schema (sql_tables db) name (to_sql row) then Ok (rows ++ [row]) else integrity_error.
Proof.
  intros Ht Hrows Hrow Hc. unfold insert_admitted, insert_unique. rewrite Ht, Hrows, Hrow. cbn [andb].
  destruct (forallb _ _), (existsb _ _); intuition congruence.
Qed.
(** No row has the key, stated on the model's rows. *)
Lemma key_free {A} (to_sql : A -> sql_row) columns rows row (same : A -> bool) :
  (forall r, key_equal columns (to_sql row) columns (to_sql r) = true <-> same r = true) ->
  (negb (existsb (fun r => key_equal columns (to_sql row) columns r) (map to_sql rows)) = true <-> existsb same rows = false).
Proof.
  intros Hs. rewrite negb_true_iff. rewrite !existsb_false. split.
  - intros H r Hr. specialize (H (to_sql r)). apply not_true_iff_false. rewrite <- Hs.
    rewrite H; [done|by apply list_elem_of_fmap_2].
  - intros H r' (r & -> & Hr)%list_elem_of_fmap. apply not_true_iff_false. rewrite Hs. by rewrite H.
Qed.
Definition fresh {A} (id : A -> Z) (row : A) (rows : list A) : Prop := forall r, r ∈ rows -> id r <> id row.

Lemma fresh_key {A} (id : A -> Z) row rows : fresh id row rows -> existsb (fun r => Z.eqb (id r) (id row)) rows = false.
Proof. intros Hf. apply existsb_false. intros r Hr. by apply Z.eqb_neq, Hf. Qed.
(** The one row a foreign key refers to. *)
Lemma reference_found {A B} (to_sql : A -> sql_row) (of_sql : B -> sql_row) (foreign : A -> Z) (id : B -> Z) columns row targets :
  (forall t, key_equal columns (to_sql row) ["id"] (of_sql t) = true <-> id t = foreign row) ->
  (exists t, t ∈ targets /\ id t = foreign row) ->
  existsb (fun r => key_equal columns (to_sql row) ["id"] r) (map of_sql targets) = true.
Proof.
  intros Hk (t & Ht & E). apply existsb_Exists, Exists_exists. exists (of_sql t). split; [by apply list_elem_of_fmap_2|].
  by apply Hk.
Qed.
(** An insertion, reduced to what the table's constraints say of the row. *)
Ltac insertion name to_sql rows db row row_admitted :=
  let t := fresh "t" in let Ht := fresh "Ht" in
  destruct (control_plane_schema !! name) as [t|] eqn:Ht; [|by vm_compute in Ht];
  rewrite (admitted_as to_sql name t db rows row _ Ht eq_refl (row_admitted row t Ht));
  [by destruct (insert_admitted _ _ _ _ _)|];
  vm_compute in Ht; injection Ht as <-; cbn [ta_constraints forallb constraint_admits].

Lemma insert_connector_admitted db row :
  fresh cr_id row (t_connectors db) ->
  insert_connector db row =
  if insert_admitted false control_plane_schema (sql_tables db) "connectors" (sql_connector row)
  then Ok (with_connectors db (t_connectors db ++ [row])) else integrity_error.
Proof.
  intros Hf%fresh_key. unfold insert_connector. insertion "connectors" sql_connector (t_connectors db) db row connector_admitted.
  rewrite !andb_true_iff, (key_free _ _ _ _ (fun r => Z.eqb (cr_id r) (cr_id row))), Hf by key_columns.
  rewrite (key_free _ _ _ _ (fun r => String.eqb (cr_connector_key r) (cr_connector_key row))) by key_columns. tauto.
Qed.
Lemma insert_deployment_admitted db row :
  fresh er_id row (t_deployments db) ->
  insert_deployment db row =
  if insert_admitted false control_plane_schema (sql_tables db) "deployments" (sql_deployment row)
  then Ok (with_deployments db (t_deployments db ++ [row])) else integrity_error.
Proof.
  intros Hf%fresh_key. unfold insert_deployment. insertion "deployments" sql_deployment (t_deployments db) db row deployment_admitted.
  rewrite !andb_true_iff, (key_free _ _ _ _ (fun r => Z.eqb (er_id r) (er_id row))), Hf by key_columns.
  rewrite (key_free _ _ _ _ (fun r => String.eqb (er_deployment_key r) (er_deployment_key row))) by key_columns. tauto.
Qed.
Lemma insert_draft_admitted db row :
  fresh dr_id row (t_drafts db) -> (exists c, c ∈ t_connectors db /\ cr_id c = dr_connector_id row) ->
  insert_draft db row =
  if insert_admitted false control_plane_schema (sql_tables db) "connector_drafts" (sql_draft row)
  then Ok (with_drafts db (t_drafts db ++ [row])) else integrity_error.
Proof.
  intros Hf%fresh_key Hr. unfold insert_draft. insertion "connector_drafts" sql_draft (t_drafts db) db row draft_admitted.
  change (sql_tables db "connectors") with (map sql_connector (t_connectors db)).
  rewrite (reference_found sql_draft sql_connector dr_connector_id cr_id _ _ _) by (done || key_columns).
  rewrite !andb_true_iff, (key_free _ _ _ _ (fun r => Z.eqb (dr_id r) (dr_id row))), Hf by key_columns.
  rewrite (key_free _ _ _ _ (fun r => Z.eqb (dr_connector_id r) (dr_connector_id row))) by key_columns. tauto.
Qed.
Lemma insert_version_admitted db row :
  fresh vr_id row (t_versions db) -> (exists c, c ∈ t_connectors db /\ cr_id c = vr_connector_id row) ->
  insert_version db row =
  if insert_admitted false control_plane_schema (sql_tables db) "published_versions" (sql_version row)
  then Ok (with_versions db (t_versions db ++ [row])) else integrity_error.
Proof.
  intros Hf%fresh_key Hr. unfold insert_version. insertion "published_versions" sql_version (t_versions db) db row version_admitted.
  change (sql_tables db "connectors") with (map sql_connector (t_connectors db)).
  rewrite (reference_found sql_version sql_connector vr_connector_id cr_id _ _ _) by (done || key_columns).
  rewrite !andb_true_iff, (key_free _ _ _ _ (fun r => Z.eqb (vr_id r) (vr_id row))), Hf by key_columns.
  rewrite (key_free _ _ _ _ (fun r => Z.eqb (vr_connector_id r) (vr_connector_id row) && String.eqb (vr_version r) (vr_version row)))
    by key_columns. tauto.
Qed.
Lemma existsb_orb {A} (p q : A -> bool) l : existsb (fun a => p a || q a) l = existsb p l || existsb q l.
Proof. induction l as [|a l IH]; [done|]. cbn. rewrite IH. by destruct (p a), (q a), (existsb p l). Qed.
Lemma insert_snapshot_admitted db row :
  fresh sr_id row (t_snapshots db) -> (exists d, d ∈ t_deployments db /\ er_id d = sr_deployment_id row) ->
  insert_snapshot db row =
  if insert_admitted false control_plane_schema (sql_tables db) "deployment_snapshots" (sql_snapshot row)
  then Ok (with_snapshots db (t_snapshots db ++ [row])) else integrity_error.
Proof.
  intros Hf%fresh_key Hr. unfold insert_snapshot. insertion "deployment_snapshots" sql_snapshot (t_snapshots db) db row snapshot_admitted.
  change (sql_tables db "deployments") with (map sql_deployment (t_deployments db)).
  rewrite (reference_found sql_snapshot sql_deployment sr_deployment_id er_id _ _ _) by (done || key_columns).
  rewrite !andb_true_iff, (key_free _ _ _ _ (fun r => Z.eqb (sr_id r) (sr_id row))), Hf by key_columns.
  rewrite (key_free _ _ _ _ (fun r => Z.eqb (sr_deployment_id r) (sr_deployment_id row) && Z.eqb (sr_revision r) (sr_revision row)))
    by key_columns.
  rewrite (key_free _ _ _ _ (fun r => String.eqb (sr_snapshot_id r) (sr_snapshot_id row))) by key_columns.
  rewrite existsb_orb, orb_false_iff. tauto.
Qed.

(** ** Properties *)

(** C14. The schema is one.  The migration applies to an empty database, builds
    exactly the schema the models declare, which is also the one create_schema
    builds and leaves alone, and its downgrade removes all of it; and every
    database the Control Plane ever commits, however its transactions
    interleave, satisfies that schema: each row has the declared columns with
    values of their types, NULL only where it is declared, primary keys and
    unique constraints distinct, and a row behind every foreign key. *)
Theorem migrated_schema_satisfied `{Platform, Ed25519, JsonSchema, Pydantic, Analyzer} :
  exists s, run_operations upgrade ∅ = Some s /\ create_schema ∅ = Some s /\ create_schema s = Some s /\
    run_operations downgrade s = Some ∅ /\
    forall live older, reachable (live :: older) -> forall db, db ∈ live :: older -> satisfies false s (sql_tables db).
Proof.
  destruct migration_drift as (Hup & Hall & Hagain & Hdown & _). exists control_plane_schema.
  split_and!; [exact Hup | exact Hall | exact Hagain | exact Hdown |].
  intros live older Hr db Hdb. by apply keys_satisfy, (reachable_keys live older db Hr Hdb).
Qed.


Lemma migrated_schema_satisfied_witness :
  exists s, run_operations upgrade ∅ = Some s /\ satisfies false s (sql_tables (demo_db 4)).
Proof.
  destruct (@migrated_schema_satisfied demo_platform _ _ _ _) as (s & Hs & _ & _ & _ & Hdb). exists s. split; [exact Hs|].
  assert (demo_history 4 = demo_db 4 :: tail (demo_history 4)) as E by (vm_compute; reflexivity).
  pose proof (demo_history_reachable 4) as Hr. rewrite E in Hr. apply (Hdb _ _ Hr). left.
Defined.

(** The connector and the draft a demonstration needs; then a second draft of
    the same connector. *)
Definition schema_demo_time : datetime := MkTime 2026 8 5 13 6 52 true.
Definition schema_demo_connector : connector_row := MkConnectorRow 1 "helpdesk" "Help desk" "" schema_demo_time schema_demo_time.
Definition schema_demo_draft (id : Z) : draft_row :=
  MkDraftRow id 1 1 "0.1.0" None None "{}" "openapi.json" "sha256:0" 2 "json" "3.1.0" "1" [] [] schema_demo_time schema_demo_time.

(** An engine that bounds VARCHAR refuses what SQLite takes: an OpenAPI version
    of more than 16 characters, which the loader accepts. *)
Lemma long_spec_version_refused :
  let row := MkDraftRow 1 1 1 "0.1.0" None None "{}" "openapi.json" "sha256:0" 2 "json" "3.1.0-development.1" "1" [] []
               schema_demo_time schema_demo_time in
  let db := sql_tables (MkDb [schema_demo_connector] [] [] [] []) in
  insert_admitted false control_plane_schema db "connector_drafts" (sql_draft row) = true /\
  insert_admitted true control_plane_schema db "connector_drafts" (sql_draft row) = false /\
  insert_admitted true control_plane_schema db "connector_drafts" (sql_draft (schema_demo_draft 1)) = true.
Proof. vm_compute. split_and!; reflexivity. Qed.
