(* ===== verification/Provenance.v ===== *)
(** * Where a published tool comes from

    The committed history of the Control Plane with the requests that made it.
    Every tool of every snapshot is traced back to an operation of an uploaded
    document and to the decisions of its reviewers. *)

From S2P Require Export AnalyzerProperties ControlPlane.

(** ** Histories with their requests *)

Section provenance.
Context `{Platform, Ed25519, JsonSchema, Pydantic, Analyzer}.

(** The requests performed, the latest first, and the states they left. *)
Inductive committed : list request -> list database -> Prop :=
  | run_start : committed [] [empty_database]
  | run_commit q now seen live history log :
      committed log (live :: history) -> seen ∈ live :: history ->
      committed (q :: log) (transaction q now seen live :: live :: history).
Lemma reachable_run history : reachable history <-> exists log, committed log history.
Proof.
  split.
  - intros Hr. unfold reachable in Hr. revert history Hr. apply (rtc_ind_r (R:=commits) (fun h => exists log, committed log h) [empty_database]); [|intros h h' _ Hstep [log Hrun]].
    + exists []. constructor.
    + destruct Hstep as [q now seen live history Hin]. exists (q :: log). by constructor.
  - intros [log Hrun]. induction Hrun as [|q now seen live history log _ IH Hin]; [apply rtc_refl|].
    eapply rtc_r; [exact IH|]. by constructor.
Qed.

Definition submitted (log : list request) (u : ReviewUpdate) : Prop :=
  exists key expected c, UpdateReview key expected c ∈ log /\ u ∈ rc_updates c.
Definition ingests (a : registration) (an : ingested) : Prop :=
  ingest (rg_source_bytes a) (rg_source_filename a) (rg_max_source_bytes a) (rg_base_url_override a) = Ok an.
(** The decisions that updates submitted by reviewers lead to. *)
Inductive reviewed_state (log : list request) : ReviewState -> Prop :=
  | reviewed_initially a an s :
      Register a ∈ log -> ingests a an -> build_initial_review (in_serialized an) = Ok s -> reviewed_state log s
  | reviewed_by u s s' : reviewed_state log s -> submitted log u -> apply_update s u = Ok s' -> reviewed_state log s'.

(** A draft carries the analysis of an upload, and what was decided. *)
Record drawn_from (a : registration) (an : ingested) (d : draft_row) : Prop := {
  df_ingested : ingests a an;
  df_analysis : dr_analysis d = in_serialized an;
  df_source : dr_source_bytes d = rg_source_bytes a /\ dr_source_digest d = in_digest an /\
    dr_source_filename d = in_filename an /\ dr_source_byte_length d = in_byte_length an;
}.
Definition draft_traced (log : list request) (d : draft_row) : Prop :=
  (exists a an, Register a ∈ log /\ drawn_from a an d) /\
  exists s, reviewed_state log s /\ dr_review d = state_to_dict s.
(** A version is what one publication built from such a draft. *)
Definition version_traced (log : list request) (r : version_row) : Prop :=
  exists key expected by_ v c d a an s built now,
    Publish key expected by_ v ∈ log /\ cr_connector_key c = key /\
    Register a ∈ log /\ drawn_from a an d /\ reviewed_state log s /\
    build_connector_document (publish_input c d (vr_version r) s now) = Ok built /\ vr_document r = bc_document built.
(** A snapshot embeds the documents of versions. *)
Definition snapshot_traced (db : database) (r : snapshot_row) : Prop :=
  exists docs, get "connectors" (sr_document r) = VList docs /\
    Forall (fun doc => exists v, v ∈ t_versions db /\ doc = VDict (vr_document v)) docs.
Record traced (log : list request) (db : database) : Prop := {
  tr_drafts : Forall (draft_traced log) (t_drafts db);
  tr_versions : Forall (version_traced log) (t_versions db);
  tr_snapshots : Forall (snapshot_traced db) (t_snapshots db);
}.

(** ** The trace survives every transaction *)

Lemma reviewed_state_log log log' s : log ⊆ log' -> reviewed_state log s -> reviewed_state log' s.
Proof.
  intros Hl Hd. induction Hd as [a an s Ha Hi Hs|u s s' _ IH (k & e & c & Hc & Hu) Hs].
  - eapply reviewed_initially; eauto.
  - eapply reviewed_by; [exact IH| |exact Hs]. exists k, e, c. auto.
Qed.
Lemma reviewed_updates log us s s' :
  reviewed_state log s -> (forall u, u ∈ us -> submitted log u) -> fold_result apply_update us s = Ok s' -> reviewed_state log s'.
Proof.
  revert s. induction us as [|u us IH]; intros s Hd Hu; simpl; [by intros [= <-]|].
  intros (s1 & Hs1 & Hf)%bind_Ok. eapply IH; [|by intros; apply Hu; right|exact Hf].
  eapply reviewed_by; [exact Hd| |exact Hs1]. apply Hu. left.
Qed.
Lemma draft_traced_log log log' d : log ⊆ log' -> draft_traced log d -> draft_traced log' d.
Proof.
  intros Hl [(a & an & Ha & Hd) (s & Hs & Hr)]. split; [exists a, an; auto|]. exists s. split; [|done]. by eapply reviewed_state_log.
Qed.
Lemma version_traced_log log log' r : log ⊆ log' -> version_traced log r -> version_traced log' r.
Proof.
  intros Hl (key & e & b & v & c & d & a & an & s & built & now & Hp & Hk & Ha & Hd & Hs & Hb).
  exists key, e, b, v, c, d, a, an, s, built, now. split_and!; auto; [by eapply reviewed_state_log|apply Hb|apply Hb].
Qed.
Lemma snapshot_traced_grows db db' r r' :
  persist same_version (t_versions db) (t_versions db') -> sr_document r' = sr_document r ->
  snapshot_traced db r -> snapshot_traced db' r'.
Proof.
  intros Hp E (docs & Hd & Hall). exists docs. rewrite E. split; [done|]. eapply Forall_impl; [exact Hall|].
  intros doc (v & Hv & ->). destruct (Hp v Hv) as (v' & Hv' & Hs). exists v'. split; [done|]. by rewrite (sv_document _ _ Hs).
Qed.

Lemma register_traced log a now seen live live' d :
  Register a ∈ log -> register_connector a now seen live = Ok (live', d) ->
  connectors_ok (t_connectors live) -> drafts_ok (t_drafts live) ->
  Forall (draft_traced log) (t_drafts live) -> Forall (draft_traced log) (t_drafts live').
Proof.
  intros Hin Hr Hc Hd Hall. unfold register_connector in Hr. apply bind_Ok in Hr as (an & Han & Hr).
  apply bind_Ok in Hr as ([live1 c] & Hrow & Hr).
  destruct (register_row_ok _ _ _ _ _ _ _ Hc Hrow) as (_ & _ & E1).
  apply bind_Ok in Hr as (v & _ & Hr). apply bind_Ok in Hr as (s & Hs & Hr).
  apply bind_Ok in Hr as (db & Hins & Hr). injection Hr as <- <-.
  unfold insert_draft in Hins. apply bind_Ok in Hins as (l & [-> _]%insert_unique_Ok & [= <-]). cbn [t_drafts with_drafts].
  assert (t_drafts live1 = t_drafts live) as E2 by (by rewrite E1).
  apply Forall_app. split.
  - destruct (find_draft live1 (cr_id c)); cbn [t_drafts with_drafts]; rewrite E2; [|done].
    unfold delete_by_id. rewrite Forall_forall in *. intros r [Hr _]%filter_In_iff. auto.
  - apply Forall_singleton. split; [exists a, an; by split_and!|]. exists s. split; [|done]. by eapply reviewed_initially.
Qed.
Lemma update_traced log key expected c now seen live live' d :
  UpdateReview key expected c ∈ log -> update_review key expected c now seen live = Ok (live', d) ->
  Forall (draft_traced log) (t_drafts seen) -> Forall (draft_traced log) (t_drafts live) ->
  Forall (draft_traced log) (t_drafts live').
Proof.
  intros Hin (cr & old & s & s' & l & Hg & _ & Hs & Hs' & _ & -> & _ & ->)%update_review_spec Hseen Hlive.
  destruct (get_draft_Ok _ _ _ _ Hg) as (_ & _ & Hold & _).
  rewrite Forall_forall in Hseen. destruct (Hseen old Hold) as [_ (s0 & Hd & E)].
  rewrite E, state_from_to_dict in Hs. injection Hs as ->.
  assert (reviewed_state log s') as Hd' by (eapply reviewed_updates; [exact Hd| |exact Hs']; intros u Hu; by exists key, expected, c).
  cbn [t_drafts with_drafts]. apply Forall_map. eapply Forall_impl; [exact Hlive|]. intros r [(a & an & Ha & Hf) Hr].
  destruct (_ =? _)%Z; [|split; [by exists a, an|done]]. split.
  - exists a, an. split; [done|]. by destruct Hf.
  - cbn [dr_review write_review]. unfold set_column. destruct (py_eq _ _); [done|]. by exists s'.
Qed.
Lemma publish_traced log key expected by_ v now seen live live' row :
  Publish key expected by_ v ∈ log -> publish_draft key expected by_ v now seen live = Ok (live', row) ->
  Forall (draft_traced log) (t_drafts seen) -> traced log live -> traced log live'.
Proof.
  intros Hin (c & old & s & built & l & Hg & _ & _ & Hs & Hb & _ & Hdoc & _ & _ & _ & _ & Hl & ->)%publish_spec Hseen [T1 T2 T3].
  pose proof Hl as [El _]%insert_unique_Ok. destruct (get_draft_Ok _ _ _ _ Hg) as (_ & Hk & Hold & _).
  rewrite Forall_forall in Hseen. destruct (Hseen old Hold) as [(a & an & Ha & Hf) (s0 & Hd & E)].
  rewrite E, state_from_to_dict in Hs. injection Hs as ->. split; cbn [t_drafts t_versions t_snapshots with_drafts with_versions].
  - unfold delete_by_id. rewrite Forall_forall in *. intros r [Hr _]%filter_In_iff. auto.
  - rewrite El. apply Forall_app. split; [done|]. apply Forall_singleton.
    exists key, expected, by_, v, c, old, a, an, s, built, now. by split_and!.
  - eapply Forall_impl; [exact T3|]. intros r. apply snapshot_traced_grows; [|done]. rewrite El. apply persist_app, _.
Qed.
Lemma disable_traced log key version reason now seen live live' row :
  disable_version key version reason now seen live = Ok (live', row) -> traced log live -> traced log live'.
Proof.
  unfold disable_version. intros (old & _ & Hr)%bind_Ok Ht. destruct (vr_disabled old); [congruence|].
  apply bind_Ok in Hr as (l & [-> _]%update_by_id_Ok & [= <- <-]). destruct Ht as [T1 T2 T3].
  split; cbn [t_drafts t_versions t_snapshots with_versions]; [done| |].
  - apply Forall_map. eapply Forall_impl; [exact T2|]. intros r Hr. by destruct (_ =? _)%Z.
  - eapply Forall_impl; [exact T3|]. intros r. apply snapshot_traced_grows; [|done]. by apply persist_update; [apply _|].
Qed.
Lemma create_snapshot_traced log key selections by_ signing_key now seen live live' row :
  create_snapshot key selections by_ signing_key now seen live = Ok (live', row) ->
  persist same_version (t_versions seen) (t_versions live) -> traced log live -> traced log live'.
Proof.
  intros (dep & sel & docs & payload & document & digest & l & prev & _ & Hsel & Hdocs & -> & Hdig & Hdoc & _ &
    -> & -> & [-> _]%insert_unique_Ok & _ & _ & _ & Edoc & _ & _)%create_snapshot_spec Hp [T1 T2 T3].
  split; cbn [t_drafts t_versions t_snapshots with_snapshots]; [done..|]. apply Forall_app. split.
  - apply Forall_map. eapply Forall_impl; [exact T3|]. intros r. apply snapshot_traced_grows; [apply persist_refl, _|].
    unfold deactivated. by destruct (hit _ _).
  - apply Forall_singleton. exists docs. rewrite Edoc.
    destruct (identified_document _ _ _ _ _ _ _ _ Hdig Hdoc) as (_ & _ & _ & _ & Hcs). split; [done|].
    apply select_documents_Ok in Hsel as (_ & _ & HF). rewrite Hdocs. rewrite Forall_forall. intros doc Hin.
    apply list_elem_of_fmap in Hin as ([k doc'] & -> & Hin). rewrite ksort_perm in Hin.
    apply list_elem_of_lookup in Hin as [i Hi]. destruct (Forall2_lookup_r _ _ _ _ _ HF Hi) as (s & _ & r & Hr & _ & E & _).
    cbn [snd] in *. unfold get_version in Hr. apply bind_Ok in Hr as (c & _ & Hr%of_option_Ok).
    apply find_first_Some in Hr as [Hr _]. destruct (Hp r Hr) as (r' & Hr' & Hsame). exists r'. split; [done|].
    by rewrite E, (sv_document _ _ Hsame).
Qed.

Lemma traced_log log log' db : log ⊆ log' -> traced log db -> traced log' db.
Proof.
  intros Hl [T1 T2 T3]. split; [| |done]; (eapply Forall_impl; [eassumption|]; intros r).
  - by apply draft_traced_log.
  - by apply version_traced_log.
Qed.
Lemma perform_traced log q now seen live db :
  q ∈ log -> perform q now seen live = Ok db -> authoring_ok live -> authoring_grows seen live ->
  traced log seen -> traced log live -> traced log db.
Proof.
  intros Hin Hq [O1 O2 O3] [_ Hp] [S1 _ _] Ht. pose proof Ht as [T1 T2 T3].
  destruct q; cbn in Hq; apply bind_Ok in Hq as ([db' row] & Hq & [= <-]); cbn [fst].
  - pose proof (register_traced _ _ _ _ _ _ _ Hin Hq O1 O2 T1) as Hd.
    destruct (register_spec _ _ _ _ _ _ Hq O1 O2) as (_ & _ & _ & E1 & _ & E2 & _).
    split; rewrite ?E1, ?E2; [done..|]. eapply Forall_impl; [exact T3|]. intros r.
    apply snapshot_traced_grows; [|done]. rewrite E1. apply persist_refl, _.
  - pose proof (update_traced _ _ _ _ _ _ _ _ _ Hin Hq S1 T1) as Hd.
    apply update_review_spec in Hq as (? & ? & ? & ? & ? & _ & _ & _ & _ & _ & -> & _). by split.
  - by eapply publish_traced.
  - by eapply disable_traced.
  - unfold create_deployment in Hq. destruct (find_deployment _ _); [done|].
    apply bind_Ok in Hq as (d & (l & _ & [= <-])%bind_Ok & [= <- _]). by split.
  - by eapply create_snapshot_traced.
Qed.
(** Every committed state of a history is traced by its requests. *)
Lemma run_traced log history : committed log history -> Forall (traced log) history.
Proof.
  intros Hr. induction Hr as [|q now seen live history log Hrun IH Hin].
  - apply Forall_singleton. by split.
  - destruct (reachable_ok (live :: history)) as (l & o & [= <- <-] & Hok & Hgr); [apply reachable_run; by exists log|].
    rewrite Forall_forall in IH, Hok, Hgr.
    assert (forall db, db ∈ live :: history -> traced (q :: log) db) as Hall.
    { intros db Hdb. eapply traced_log; [|by apply IH]. intros x Hx. by right. }
    constructor; [|by rewrite Forall_forall]. unfold transaction.
    destruct (perform q now seen live) as [db|e] eqn:Hq; [|by apply Hall; left].
    eapply perform_traced; [by left|exact Hq|apply Hok; by left|apply Hgr, Hin|by apply Hall|by apply Hall; left].
Qed.
End provenance.

(** ** Tools and the operations they come from *)

(** The operation of the loaded document an entry of its analysis is about. *)
Definition described `{Platform} (document : dict) (o : AnalyzedOperation) (t : ToolDefinition) : Prop :=
  an_key o = operation_key (an_path o) (an_method o) /\ valid_tool t /\
  exists path_item, path_item_at document (an_path o) = Some path_item /\
    get (an_method o) path_item = VDict (an_source_operation o) /\
    convert_operation (an_path o) (an_method o) path_item (an_source_operation o) = Ok t.
(** A published tool: the conversion of such an operation, as reviewed. *)
Definition reviewed_operation `{Platform, Pydantic} (document : dict) (entry : OperationReview) (tool : pyval) : Prop :=
  exists o t analyzed published, or_operation_key entry = an_key o /\ described document o t /\
    dump_tool t = VDict analyzed /\ tool = VDict published /\ reviewed_tool entry analyzed published.

(** ** A published tool, read back *)

(** What the runtime reads of a reviewed conversion. *)
Record published_as `{Platform, Pydantic} (entry : OperationReview) (converted t : ToolDefinition) : Prop := {
  pa_kept : tool_name t = tool_name converted /\ display_name t = display_name converted /\
    input_schema t = input_schema converted /\ operation t = operation converted;
  pa_description : description t = or_description entry;
  pa_effect : or_effect_class entry = VStr (text_of effect_classes (effect_class (policy t)));
  pa_confirmation : requires_confirmation (policy t) = or_requires_confirmation entry;
  pa_access : access_policy entry = Ok (access (policy t));
}.

Section reading.
Context `{Platform, Pydantic}.

Lemma fields_inv names d d' : fields names (VDict d) = Ok d' -> d = d'.
Proof. unfold fields. destruct (forallb _ _); [|done]. by intros [= ->]. Qed.
Lemma as_effect_class v e : as_enum effect_classes v = Ok e -> v = VStr (text_of effect_classes e).
Proof.
  unfold as_enum. destruct v; try done. cbn [as_string bind]. unfold effect_classes. cbn [alookup].
  repeat (case_bool_decide; [subst; by intros [= <-]|]). done.
Qed.
Lemma access_policy_valid entry a : access_policy entry = Ok a -> valid_access a.
Proof. unfold access_policy. intros (r & _ & Ha)%bind_Ok. by eapply parse_access_valid. Qed.
Lemma reviewed_policy_read entry a p :
  access_policy entry = Ok a ->
  parse_policy (VDict {{ "effect_class" ~> or_effect_class entry;
                         "requires_confirmation" ~> VBool (or_requires_confirmation entry);
                         "access" ~> dump_access a }}) = Ok p ->
  access p = a /\ requires_confirmation p = or_requires_confirmation entry /\
  or_effect_class entry = VStr (text_of effect_classes (effect_class p)).
Proof.
  intros Ha. unfold parse_policy. intros (d & <-%fields_inv & Hp)%bind_Ok.
  apply bind_Ok in Hp as (e & (ve & Ee & He)%get_as_Ok & Hp).
  apply bind_Ok in Hp as (c & (vc & Ec & Hc)%get_as_Ok & Hp).
  apply bind_Ok in Hp as (a' & (va & Ea & Ha')%get_as_Ok & [= <-]).
  injection Ee as <-. injection Ec as <-. injection Ea as <-. cbn [access requires_confirmation effect_class].
  rewrite parse_dump_access in Ha' by (by eapply access_policy_valid). injection Ha' as <-. injection Hc as <-.
  split_and!; [done..|]. by apply as_effect_class.
Qed.
Lemma reviewed_tool_read entry converted t d d' :
  valid_tool converted -> dump_tool converted = VDict d -> reviewed_tool entry d d' ->
  parse_tool (VDict d') = Ok t -> published_as entry converted t.
Proof.
  intros (_ & Hop & _ & _) Hd [Hkept Hdesc (a & Ha & Hpol) _]. unfold parse_tool.
  intros (d0 & <-%fields_inv & Ht)%bind_Ok.
  apply bind_Ok in Ht as (n & (vn & En & Hn)%get_as_Ok & Ht). apply bind_Ok in Ht as (m & (vm & Em & Hm)%get_as_Ok & Ht).
  apply bind_Ok in Ht as (s & (vs & Es & Hs)%get_as_Ok & Ht). apply bind_Ok in Ht as (i & (vi & Ei & Hi)%get_as_Ok & Ht).
  apply bind_Ok in Ht as (o & (vo & Eo & Ho)%get_as_Ok & Ht). apply bind_Ok in Ht as (p & (vp & Ep & Hp)%get_as_Ok & Ht).
  apply bind_Ok in Ht as (v & _ & Ht). apply ToolDefinition_new_eq in Ht as <-.
  rewrite Hkept in En, Em, Ei, Eo by (apply (bool_decide_unpack _); vm_compute; exact I).
  injection Hd as <-. injection En as <-. injection Em as <-. injection Ei as <-. injection Eo as <-.
  rewrite Hdesc in Es. injection Es as <-. rewrite Hpol in Ep. injection Ep as <-.
  rewrite parse_dump_operation in Ho by done.
  destruct (reviewed_policy_read _ _ _ Ha Hp) as (E1 & E2 & E3).
  injection Hn as <-. injection Hm as <-. injection Hs as <-. injection Hi as <-. injection Ho as <-.
  split; cbn [tool_name display_name input_schema operation description policy]; [by split_and!|done..|by rewrite E1].
Qed.
End reading.

(** From here on the analyzer is the converter of the repository. *)
#[local] Existing Instance openapi_analyzer | 0.

Section origins.
Context `{Platform, Ed25519, JsonSchema, Pydantic, Parsers, !PythonValues}.

(** What a published document goes back to. *)
Record document_origin (log : list request) (doc : dict) (a : registration) (loaded : LoadedDocument)
    (s : ReviewState) (tools : list pyval) : Prop := {
  og_registered : Register a ∈ log;
  og_loaded : exists limits, load_document (rg_source_bytes a) (rg_source_filename a) limits = Ok loaded;
  og_digest : exists source, get "source" doc = VDict source /\
    get "document_digest" source = VStr (digest_of (rg_source_bytes a));
  og_published : exists key expected by_ v, Publish key expected by_ v ∈ log /\ get "connector_key" doc = VStr key;
  og_decided : reviewed_state log s;
  og_tools : get "tools" doc = VList tools;
  og_operations : Forall2 (reviewed_operation (ld_document loaded)) (included s) tools;
}.

Lemma tool_operations_serialized r analyzed k op :
  tool_operations (serialize_analysis r) = Ok analyzed -> (k, op) ∈ analyzed ->
  exists o t, o ∈ ar_operations r /\ an_tool o = Some t /\ k = an_key o /\ op = serialize_operation o.
Proof.
  unfold tool_operations.
  change (get_or "operations" (VList []) (serialize_analysis r)) with (VList (map serialize_operation (ar_operations r))).
  cbn [py_iter bind]. intros (found & Hf%map_result_Ok & [= <-])%bind_Ok Hin.
  apply list_elem_of_In, in_concat in Hin as (l & (e & <- & He)%in_map_iff & Hl). destruct e as [p|]; [|done].
  destruct Hl as [->|[]]. apply list_elem_of_In, list_elem_of_lookup in He as [i Hi].
  destruct (Forall2_lookup_r _ _ _ _ _ Hf Hi) as (op' & Hop & Ht).
  apply list_lookup_fmap_Some in Hop as (o & -> & Ho). apply list_elem_of_lookup_2 in Ho.
  assert (tool_operation (serialize_operation o) = Ok match an_tool o with
    | Some _ => Some (an_key o, serialize_operation o) | None => None end) as E.
  { unfold tool_operation, serialize_operation. by destruct (an_tool o). }
  rewrite E in Ht. destruct (an_tool o) as [t|] eqn:Eo; [|done]. injection Ht as <- <-. by exists o, t.
Qed.
Lemma built_tool_described loaded override analysis analyzed entry tool :
  json_dicts (VDict (ld_document loaded)) -> analyze_document loaded default_limits override = Ok analysis ->
  tool_operations (serialize_analysis analysis) = Ok analyzed ->
  build_tool analyzed entry = Ok tool -> reviewed_operation (ld_document loaded) entry tool.
Proof.
  intros Hj Ha Hops (operation & d & d' & Hget & Htool & -> & Hr)%build_tool_Ok.
  unfold analyzed_get in Hget. apply alookup_Some_elem, elem_of_reverse in Hget. try rewrite reverse_involutive in Hget.
  destruct (tool_operations_serialized _ _ _ _ Hops Hget) as (o & t & Ho & Ht & Hk & ->).
  destruct (analyze_document_state _ _ _ _ Hj Ha) as (s & Hok & E & _). rewrite E in Ho.
  pose proof (so_entries _ _ Hok) as He. rewrite Forall_forall in He. specialize (He o Ho) as [Hkey He]. rewrite Ht in He.
  destruct He as [Hv Hp]. exists o, t, d, d'. split; [done|].
  split; [split; [exact Hkey|split; [exact Hv|exact Hp]]|]. split; [|by split].
  unfold serialize_operation in Htool. rewrite Ht in Htool. change (Ok (E:=exn) (dump_tool t) = Ok (VDict d)) in Htool. congruence.
Qed.

Lemma version_origin log r :
  version_traced log r -> exists a loaded s tools, document_origin log (vr_document r) a loaded s tools.
Proof.
  intros (key & expected & by_ & v & c & d & a & an & s & built & now & Hp & Hk & Ha & [Hi Han (_ & Hdig & _)] & Hs & Hb & ->).
  apply build_connector_Ok in Hb as (base & analyzed & tools & _ & _ & Hops & Ht & _ & Hdoc & _).
  unfold ingests, ingest, openapi_analyzer in Hi. cbv zeta in Hi. apply bind_Ok in Hi as (loaded & Hl & Hi).
  apply bind_Ok in Hi as (analysis & Hana & [= E]). subst an. cbn [in_serialized in_digest] in *.
  cbn [bi_analysis publish_input bi_review] in *. rewrite Han in Hops.
  destruct (load_document_json _ _ _ _ Hl) as [(_ & _ & _ & _ & _ & _ & _ & _ & Hd & _) Hj].
  exists a, loaded, s, tools. rewrite Hdoc. split; try done.
  - by eexists.
  - eexists. split; [reflexivity|]. cbn. by rewrite Hdig, Hd.
  - exists key, expected, by_, v. split; [done|]. cbn. by rewrite <- Hk.
  - eapply Forall2_impl; [exact Ht|]. intros e t. by eapply built_tool_described.
Qed.

(** Every document of every snapshot of a history has an origin. *)
Lemma snapshot_origin log history db row docs doc :
  committed log history -> db ∈ history -> row ∈ t_snapshots db ->
  get "connectors" (sr_document row) = VList docs -> doc ∈ docs ->
  exists d a loaded s tools, doc = VDict d /\ document_origin log d a loaded s tools.
Proof.
  intros Hr Hdb Hrow Hdocs Hdoc. apply run_traced in Hr. rewrite Forall_forall in Hr. destruct (Hr db Hdb) as [_ Hv Hs].
  rewrite Forall_forall in Hs. rewrite Forall_forall in Hv.
  destruct (Hs row Hrow) as (docs' & E & Hall). rewrite E in Hdocs. injection Hdocs as ->.
  rewrite Forall_forall in Hall. destruct (Hall doc Hdoc) as (v & Hin & ->).
  destruct (version_origin log v (Hv v Hin)) as (a & loaded & s & tools & Ho). by exists (vr_document v), a, loaded, s, tools.
Qed.

(** The tool the runtime reads of such a document, and where it comes from. *)
Record tool_origin (log : list request) (c : ConnectorDefinition) (t : ToolDefinition) (a : registration)
    (document : dict) (entry : OperationReview) (o : AnalyzedOperation) (converted : ToolDefinition) : Prop := {
  to_registered : Register a ∈ log;
  to_loaded : exists limits loaded, load_document (rg_source_bytes a) (rg_source_filename a) limits = Ok loaded /\
    ld_document loaded = document;
  to_digest : document_digest (source c) = digest_of (rg_source_bytes a);
  to_published : exists expected by_ v, Publish (connector_key c) expected by_ v ∈ log;
  to_decided : exists s, reviewed_state log s /\ entry ∈ included s;
  to_described : or_operation_key entry = an_key o /\ described document o converted;
  to_reviewed : published_as entry converted t;
}.

Ltac open_fields :=
  repeat match goal with
  | H : bind (fields _ _) _ = Ok _ |- _ => apply bind_Ok in H; destruct H as (? & <-%fields_inv & H)
  | H : bind (get_as _ _ _) _ = Ok _ |- _ => apply bind_Ok in H; destruct H as (? & ? & H)
  end.
Lemma parse_snapshot_connectors d s :
  parse_snapshot (VDict d) = Ok s -> get_as (as_items parse_connector) "connectors" d = Ok (connectors s).
Proof.
  unfold parse_snapshot. intros Hs. open_fields. apply bind_Ok in Hs as (g & _ & <-%DeploymentSnapshot_new_eq). done.
Qed.
Lemma parse_snapshot_digest d s g :
  parse_snapshot (VDict d) = Ok s -> get "snapshot_digest" d = VStr g -> snapshot_digest s = g.
Proof.
  unfold parse_snapshot. intros Hs Hg. open_fields. apply bind_Ok in Hs as (sig & _ & <-%DeploymentSnapshot_new_eq).
  cbn [snapshot_digest]. apply get_Some in Hg; [|discriminate].
  match goal with H : get_as as_string "snapshot_digest" d = Ok _ |- _ => revert H end.
  unfold get_as, field. rewrite Hg. cbn. by intros [= ->].
Qed.
Lemma parse_connector_tools d c :
  parse_connector (VDict d) = Ok c ->
  get_as (as_items parse_tool) "tools" d = Ok (tools c) /\ get_as as_string "connector_key" d = Ok (connector_key c) /\
  get_as parse_source "source" d = Ok (source c).
Proof. unfold parse_connector. intros Hc. open_fields. by apply ConnectorDefinition_new_eq in Hc as <-. Qed.
Lemma parse_source_digest d s :
  parse_source (VDict d) = Ok s -> get_as as_string "document_digest" d = Ok (document_digest s).
Proof. unfold parse_source. intros Hs. open_fields. by apply SourceProvenance_new_eq in Hs as <-. Qed.
Lemma get_as_get {A} (f : pyval -> M A) k d v a : get k d = v -> v <> VNone -> get_as f k d = Ok a -> f v = Ok a.
Proof.
  intros Hg Hv (w & Hw & Hf)%get_as_Ok. unfold get, get_or in Hg. rewrite Hw in Hg. cbn in Hg. by subst.
Qed.
Lemma as_items_elem {A} (f : pyval -> M A) l r a : as_items f (VList l) = Ok r -> a ∈ r -> exists v, v ∈ l /\ f v = Ok a.
Proof.
  unfold as_items. cbn [as_seq]. intros Hr%map_result_Ok [i Hi]%list_elem_of_lookup.
  destruct (Forall2_lookup_r _ _ _ _ _ Hr Hi) as (v & Hv & Hf). exists v. split; [by eapply list_elem_of_lookup_2|done].
Qed.

Lemma snapshot_tool_origin log history db row snapshot c t :
  committed log history -> db ∈ history -> row ∈ t_snapshots db ->
  parse_snapshot (VDict (sr_document row)) = Ok snapshot -> c ∈ connectors snapshot -> t ∈ tools c ->
  exists a document entry o converted, tool_origin log c t a document entry o converted.
Proof.
  intros Hr Hdb Hrow Hs Hc Ht. apply parse_snapshot_connectors in Hs.
  pose proof Hr as Hall. apply run_traced in Hall. rewrite Forall_forall in Hall. destruct (Hall db Hdb) as [_ _ Hsn].
  rewrite Forall_forall in Hsn. destruct (Hsn row Hrow) as (docs & Hdocs & _).
  apply (get_as_get _ _ _ _ _ Hdocs) in Hs; [|done]. destruct (as_items_elem _ _ _ _ Hs Hc) as (doc & Hdoc & Hpc).
  destruct (snapshot_origin _ _ _ _ _ _ Hr Hdb Hrow Hdocs Hdoc) as (d & a & loaded & s & tools & -> & Ho).
  destruct (parse_connector_tools _ _ Hpc) as (Htools & Hkey & Hsource).
  apply (get_as_get _ _ _ _ _ (og_tools _ _ _ _ _ _ Ho)) in Htools; [|done].
  unfold as_items in Htools. cbn [as_seq] in Htools. apply map_result_Ok in Htools.
  apply list_elem_of_lookup in Ht as [i Hi]. destruct (Forall2_lookup_r _ _ _ _ _ Htools Hi) as (tv & Htv & Hp).
  destruct (Forall2_lookup_r _ _ _ _ _ (og_operations _ _ _ _ _ _ Ho) Htv) as (entry & He & Hrev).
  destruct Hrev as (o & converted & analyzed & published & Hk & Hdesc & Hdump & -> & Hrt).
  exists a, (ld_document loaded), entry, o, converted. split.
  - apply Ho.
  - destruct (og_loaded _ _ _ _ _ _ Ho) as [limits Hl]. by exists limits, loaded.
  - destruct (og_digest _ _ _ _ _ _ Ho) as (src & Hsrc & Hdig). apply (get_as_get _ _ _ _ _ Hsrc) in Hsource; [|done].
    apply parse_source_digest, (get_as_get _ _ _ _ _ Hdig) in Hsource; [|done]. by injection Hsource.
  - destruct (og_published _ _ _ _ _ _ Ho) as (key & expected & by_ & v & Hpub & Hck).
    apply (get_as_get _ _ _ _ _ Hck) in Hkey; [|done]. injection Hkey as <-. by exists expected, by_, v.
  - exists s. split; [apply Ho|]. by eapply list_elem_of_lookup_2.
  - by split.
  - destruct Hdesc as (_ & Hv & _). by eapply reviewed_tool_read.
Qed.
End origins.
