(* ===== verification/ControlPlaneApi.v ===== *)
(** * The Control Plane's HTTP surface

    [control_plane/dependencies.py], [schemas.py], [routes_internal.py],
    [routes_admin.py] and the handlers of [main.py]: credentials, request
    bodies, the routes over the use cases of Service.v, the bodies they answer
    with, and the conditional read of a snapshot.  A request runs in a
    transaction of its own (db.py): it reads in the committed state [seen] and
    what it writes is committed unless it raises. *)

From S2P Require Export ControlPlane Settings Adapters.

(** ** Credentials *)

Definition Unauthenticated (m : string) : exn := tool_layer_error ErrorCode.UNAUTHENTICATED m.
(** [secrets.compare_digest] on two [str]: ASCII only. *)
Definition compare_digest (a b : string) : M bool :=
  if is_ascii a && is_ascii b then Ok (String.eqb a b)
  else type_error "comparing strings with non-ASCII characters is not supported".
Definition require_admin (settings : ControlPlaneSettings) (token : option string) : M string :=
  match token with
  | None => raise (Unauthenticated "a valid administrator token is required")
  | Some token =>
      let* equal := compare_digest token (cs_admin_token settings) in
      if negb equal then raise (Unauthenticated "a valid administrator token is required") else Ok "admin"
  end.
Definition require_service (settings : ControlPlaneSettings) (token : option string) : M string :=
  match token with
  | None => raise (Unauthenticated "a valid service token is required")
  | Some token =>
      let* equal := compare_digest token (cs_service_token settings) in
      if negb equal then raise (Unauthenticated "a valid service token is required") else Ok "runtime"
  end.

(** ** Request bodies (schemas.py) *)

Definition as_resource_key (v : pyval) : M string :=
  let* s := as_string v in let* _ := require (resource_key s) "pattern" in Ok s.
Definition as_version (v : pyval) : M string :=
  let* s := as_string v in let* _ := require (semantic_version s) "pattern" in Ok s.
Definition as_choice (choices : list string) (v : pyval) : M string :=
  let* s := as_string v in let* _ := require (str_in s choices) "literal" in Ok s.
Definition as_bounded {A} (f : pyval -> M A) (lo hi : nat) (v : pyval) : M (list A) :=
  let* l := as_items f v in
  let* _ := require ((lo <=? length l)%nat && (length l <=? hi)%nat) "length" in Ok l.

Section schemas.
Context `{Pydantic}.

Definition as_revision (v : pyval) : M Z :=
  let* z := as_integer v in let* _ := require (1 <=? z)%Z "greater_than_equal" in Ok z.
Definition RegisterConnectorRequest_parse (max_source_bytes : Z) (v : pyval) : M registration :=
  let* d := fields ["connector_key"; "display_name"; "summary"; "proposed_version"; "base_url"; "auth_profile_ref";
                    "document"; "document_filename"] v in
  let* key := get_as as_resource_key "connector_key" d in
  let* name := optional_field (as_text 0 128) "display_name" d in
  let* summary := optional_field (as_text 0 1024) "summary" d in
  let* version := optional_field as_version "proposed_version" d in
  let* url := optional_field (as_text 0 2048) "base_url" d in
  let* auth := optional_field (as_text 0 256) "auth_profile_ref" d in
  let* document := get_as as_string "document" d in
  let* _ := require (negb (is_empty document)) "document" in
  let* filename := get_as_or (as_text 0 256) "document_filename" "openapi.yaml" d in
  Ok (MkRegistration key name summary (encode_utf8 document) filename version url auth max_source_bytes).
Definition ReviewUpdateRequest_parse (v : pyval) : M ReviewUpdate :=
  let* d := fields ["operation_key"; "selection"; "description"; "description_origin"; "effect_class";
                    "requires_confirmation"; "access_mode"; "allowed_roles"] v in
  let* key := get_as (as_text 1 2100) "operation_key" d in
  let* selection := optional_field (as_choice ["included"; "excluded"]) "selection" d in
  let* text := optional_field (as_text 0 1024) "description" d in
  let* origin := optional_field (as_choice ["source"; "generated"; "assisted"; "human"]) "description_origin" d in
  let* effect := optional_field (as_choice ["read"; "write"; "destructive"]) "effect_class" d in
  let* confirmation := optional_field as_boolean "requires_confirmation" d in
  let* access := optional_field (as_choice ["public"; "restricted"]) "access_mode" d in
  let* roles := optional_field (as_bounded as_resource_key 0 32) "allowed_roles" d in
  Ok (MkUpdate key selection text origin effect confirmation access roles).
Definition UpdateDraftRequest_parse (v : pyval) : M (Z * review_change) :=
  let* d := fields ["expected_revision"; "operations"; "proposed_version"; "base_url"; "auth_profile_ref"] v in
  let* revision := get_as as_revision "expected_revision" d in
  let* updates := get_as_or (as_bounded ReviewUpdateRequest_parse 0 256) "operations" [] d in
  let* version := optional_field as_version "proposed_version" d in
  let* url := optional_field (as_text 0 2048) "base_url" d in
  let* auth := optional_field (as_text 0 256) "auth_profile_ref" d in
  Ok (revision, MkChange updates version url auth).
Definition PublishRequest_parse (v : pyval) : M (Z * option string * string) :=
  let* d := fields ["expected_revision"; "version"; "published_by"] v in
  let* revision := get_as as_revision "expected_revision" d in
  let* version := optional_field as_version "version" d in
  let* by_ := get_as_or (as_text 0 128) "published_by" "admin" d in
  Ok (revision, version, by_).
Definition DisableVersionRequest_parse (v : pyval) : M string :=
  let* d := fields ["reason"] v in get_as (as_text 1 512) "reason" d.
Definition CreateDeploymentRequest_parse (v : pyval) : M (string * string * string) :=
  let* d := fields ["deployment_key"; "display_name"; "description"] v in
  let* key := get_as as_resource_key "deployment_key" d in
  let* name := get_as (as_text 1 128) "display_name" d in
  let* text := get_as_or (as_text 0 1024) "description" "" d in
  Ok (key, name, text).
Definition SnapshotSelectionRequest_parse (v : pyval) : M SnapshotSelection :=
  let* d := fields ["connector_key"; "version"] v in
  let* key := get_as as_resource_key "connector_key" d in
  let* version := get_as as_version "version" d in
  Ok (MkSnapshotSelection key version).
Definition CreateSnapshotRequest_parse (v : pyval) : M (list SnapshotSelection * string) :=
  let* d := fields ["selections"; "created_by"] v in
  let* selections := get_as (as_bounded SnapshotSelectionRequest_parse 1 64) "selections" d in
  let* by_ := get_as_or (as_text 0 128) "created_by" "admin" d in
  Ok (selections, by_).
End schemas.

(** ** Response bodies *)

Definition iso (t : datetime) : string := replace "+00:00" "Z" (isoformat t).
Definition nat_value (n : nat) : pyval := VInt (Z.of_nat n).
Definition opt_int (o : option Z) : pyval := match o with Some z => VInt z | None => VNone end.

Definition connector_summary (db : database) (c : connector_row) : dict :=
  let draft := find_draft db (cr_id c) in
  let versions := published_versions db (cr_id c) in
  {{ "connector_key" ~> VStr (cr_connector_key c); "display_name" ~> VStr (cr_display_name c);
     "summary" ~> VStr (cr_summary c); "has_draft" ~> VBool (negb (is_none draft));
     "draft_revision" ~> opt_int (option_map dr_revision draft);
     "published_versions" ~> strs versions; "latest_version" ~> opt_str (last versions);
     "created_at" ~> VStr (iso (cr_created_at c)); "updated_at" ~> VStr (iso (cr_updated_at c)) }}.

(** [ORDER BY revision]: the revisions of a deployment are distinct. *)
Definition revision_le (x y : snapshot_row) : Prop := (sr_revision x <= sr_revision y)%Z.
#[export] Instance revision_le_dec : RelDecision revision_le.
Proof. intros x y. unfold revision_le. apply _. Defined.

Section bodies.
Context `{Platform}.

Definition draft_response (c : connector_row) (d : draft_row) : M dict :=
  let* state := state_from_dict (dr_review d) in
  let* issues := review_readiness (dr_analysis d) state (dr_base_url d) in
  Ok {{ "connector_key" ~> VStr (cr_connector_key c); "display_name" ~> VStr (cr_display_name c);
        "summary" ~> VStr (cr_summary c); "revision" ~> VInt (dr_revision d);
        "proposed_version" ~> VStr (dr_proposed_version d); "base_url" ~> opt_str (dr_base_url d);
        "auth_profile_ref" ~> opt_str (dr_auth_profile_ref d);
        "source" ~> VDict {{ "filename" ~> VStr (dr_source_filename d); "digest" ~> VStr (dr_source_digest d);
                             "byte_length" ~> VInt (dr_source_byte_length d); "format" ~> VStr (dr_source_format d);
                             "spec_version" ~> VStr (dr_spec_version d) }};
        "analyzer_version" ~> VStr (dr_analyzer_version d); "analysis" ~> VDict (dr_analysis d);
        "review" ~> VDict (dr_review d);
        "readiness" ~> VDict {{ "ready" ~> VBool (match issues with [] => true | _ => false end);
                                "issues" ~> strs issues }};
        "updated_at" ~> VStr (iso (dr_updated_at d)) }}.
Definition version_summary (r : version_row) : M dict :=
  let* key := subscript "connector_key" (VDict (vr_document r)) in
  let* tools := py_iter (get_or "tools" (VList []) (vr_document r)) in
  let* names := map_result (fun t => let* n := subscript "tool_name" t in Ok (py_str n)) tools in
  Ok {{ "connector_key" ~> VStr (py_str key); "version" ~> VStr (vr_version r);
        "document_digest" ~> VStr (vr_document_digest r); "tool_count" ~> nat_value (vr_tool_count r);
        "tool_names" ~> strs names; "published_at" ~> VStr (iso (vr_published_at r));
        "published_by" ~> VStr (vr_published_by r); "disabled" ~> VBool (vr_disabled r);
        "disabled_reason" ~> opt_str (vr_disabled_reason r) }}.
(** [signature[k] if isinstance(signature, dict) else None]. *)
Definition signature_field (k : string) (document : dict) : M pyval :=
  match get "signature" document with VDict block => subscript k (VDict block) | _ => Ok VNone end.
Definition tools_in (connector : pyval) : M nat :=
  let* tools := get_attr "tools" (VList []) connector in
  let* tools := py_iter tools in Ok (length tools).
Definition snapshot_summary (r : snapshot_row) : M dict :=
  let document := sr_document r in
  let* connectors := py_iter (get_or "connectors" (VList []) document) in
  let* counts := map_result tools_in connectors in
  let* key := subscript "deployment_key" (VDict document) in
  let* signing_key_id := signature_field "key_id" document in
  let* algorithm := signature_field "algorithm" document in
  Ok {{ "deployment_key" ~> VStr (py_str key); "revision" ~> VInt (sr_revision r);
        "snapshot_id" ~> VStr (sr_snapshot_id r); "snapshot_digest" ~> VStr (sr_snapshot_digest r);
        "connector_count" ~> nat_value (sr_connector_count r); "tool_count" ~> nat_value (foldr Nat.add 0%nat counts);
        "active" ~> VBool (sr_active r); "created_at" ~> VStr (iso (sr_created_at r));
        "created_by" ~> VStr (sr_created_by r); "signed" ~> VBool (negb (is_vnone (get "signature" document)));
        "signing_key_id" ~> signing_key_id; "signature_algorithm" ~> algorithm }}.
Definition deployment_summary (db : database) (e : deployment_row) : dict :=
  let snapshots := merge_sort revision_le (snapshots_of db (er_id e)) in
  let active := find_first sr_active snapshots in
  {{ "deployment_key" ~> VStr (er_deployment_key e); "display_name" ~> VStr (er_display_name e);
     "description" ~> VStr (er_description e); "created_at" ~> VStr (iso (er_created_at e));
     "snapshot_count" ~> nat_value (length snapshots);
     "active_revision" ~> opt_int (option_map sr_revision active);
     "active_snapshot_id" ~> opt_str (option_map sr_snapshot_id active) }}.
End bodies.

(** Rows in the order of a distinct key. *)
Definition by_key {A} (key : A -> string) (rows : list A) : list A := (ksort (map (fun r => (key r, r)) rows)).*2.
Definition list_connectors (db : database) : list connector_row := by_key cr_connector_key (t_connectors db).
Definition list_deployments (db : database) : list deployment_row := by_key er_deployment_key (t_deployments db).
Definition list_snapshots (db : database) (key : string) : M (list snapshot_row) :=
  let* deployment := get_deployment db key in
  Ok (merge_sort revision_le (snapshots_of db (er_id deployment))).

(** [ORDER BY published_at] leaves the order of rows with one time stamp to the
    engine: [tie] stands for it. *)
Definition time_number (t : datetime) : Z :=
  (((((tm_year t * 12 + (tm_month t - 1)) * 31 + (tm_day t - 1)) * 24 + tm_hour t) * 60 + tm_minute t) * 60 + tm_second t)%Z.
Definition published_le (tie : version_row -> Z) (r s : version_row) : Prop :=
  (time_number (vr_published_at r) < time_number (vr_published_at s))%Z \/
  time_number (vr_published_at r) = time_number (vr_published_at s) /\ (tie r <= tie s)%Z.
#[export] Instance published_le_dec tie : RelDecision (published_le tie).
Proof. intros r s. unfold published_le. apply _. Defined.
Definition list_versions (db : database) (key : string) (tie : version_row -> Z) : M (list version_row) :=
  let* connector := get_connector db key in
  Ok (merge_sort (published_le tie) (versions_of db (cr_id connector))).

(** ** The internal API (routes_internal.py) *)

Definition matches_etag (header_value etag : string) : bool :=
  existsb (fun candidate => String.eqb candidate "*" || String.eqb candidate etag)
    (map strip (split_on "," header_value)).
Definition etag_of (r : snapshot_row) : string := String dquote (sr_snapshot_digest r +:+ String dquote "").
(** The status, the entity tag and the body. *)
Definition read_snapshot (db : database) (deployment_key : string) (if_none_match : option string)
  : M (Z * string * option dict) :=
  let* snapshot := get_active_snapshot db deployment_key in
  let etag := etag_of snapshot in
  if match if_none_match with Some value => matches_etag value etag | None => false end
  then Ok (304%Z, etag, None) else Ok (200%Z, etag, Some (sr_document snapshot)).

(** ** Routes *)

(** The location of the first error the framework reports for a body. *)
Class Fastapi := { error_location : pyval -> list string }.
(** [_first_pointer]. *)
Definition first_pointer (location : list string) : string :=
  join "" (map (fun part => "/" +:+ replace "/" "~1" (replace "~" "~0" part))
             (List.filter (fun part => negb (String.eqb part "body")) location)).

Inductive ApiRoute :=
  | ListConnectors
  | RegisterConnector (body : pyval)
  | GetConnector (connector_key : string)
  | GetDraft (connector_key : string)
  | UpdateDraft (connector_key : string) (body : pyval)
  | PublishConnector (connector_key : string) (body : pyval)
  | ListVersions (connector_key : string) (tie : version_row -> Z)
  | GetVersion (connector_key version : string)
  | DisableVersion (connector_key version : string) (body : pyval)
  | PreviewAdapter (connector_key version provider : string)
  | ListDeployments
  | CreateDeploymentRoute (body : pyval)
  | CreateSnapshotRoute (deployment_key : string) (body : pyval)
  | ListSnapshots (deployment_key : string)
  | GetSnapshot (deployment_key : string) (revision : Z) (include_document : bool)
  | ReadSnapshot (deployment_key : string) (if_none_match : option string)
  | CpHealthz.
Definition is_internal (route : ApiRoute) : bool := match route with ReadSnapshot _ _ => true | _ => false end.

Record ApiHeaders := MkApiHeaders {
  ah_admin_token : option string;
  ah_service_token : option string;
}.
Record ApiResponse := MkApiResponse {
  ar_status : Z;
  ar_body : pyval;
  ar_etag : option string;
}.
Definition created (body : dict) : ApiResponse := MkApiResponse 201 (VDict body) None.
Definition success (body : pyval) : ApiResponse := MkApiResponse 200 body None.

Section routes.
Context `{Platform, Ed25519, JsonSchema, Pydantic, Analyzer, Fastapi}.

(** What the body of a writing route asks the service for; the outer result is
    the validation of the body, the inner one what the route computes itself. *)
Definition decode_request (settings : ControlPlaneSettings) (route : ApiRoute) : option (pyval * M (M request)) :=
  match route with
  | RegisterConnector body =>
      Some (body, let* a := RegisterConnectorRequest_parse (cs_max_source_bytes settings) body in Ok (Ok (Register a)))
  | UpdateDraft key body =>
      Some (body, let* p := UpdateDraftRequest_parse body in Ok (Ok (UpdateReview key p.1 p.2)))
  | PublishConnector key body =>
      Some (body, let* p := PublishRequest_parse body in Ok (Ok (Publish key p.1.1 p.2 p.1.2)))
  | DisableVersion key version body =>
      Some (body, let* reason := DisableVersionRequest_parse body in Ok (Ok (Disable key version reason)))
  | CreateDeploymentRoute body =>
      Some (body, let* p := CreateDeploymentRequest_parse body in Ok (Ok (CreateDeployment p.1.1 p.1.2 p.2)))
  | CreateSnapshotRoute key body =>
      Some (body, let* p := CreateSnapshotRequest_parse body in
                  Ok (let* signing := signing_key settings in Ok (CreateSnapshot key p.1 p.2 signing)))
  | _ => None
  end.

(** The answer to a writing route: the use case, then its projection. *)
Definition registered_connector (a : registration) (now : datetime) (seen live : database) : M connector_row :=
  match find_connector seen (rg_connector_key a) with
  | Some c => Ok (touch_connector a c now c)
  | None => get_connector live (rg_connector_key a)
  end.
Definition register_connector_route (a : registration) (now : datetime) (seen live : database)
  : M (database * ApiResponse) :=
  let* r := register_connector a now seen live in
  let* c := registered_connector a now seen r.1 in
  let* body := draft_response c r.2 in Ok (r.1, created body).
Definition update_draft_route (key : string) (expected : Z) (changes : review_change) (now : datetime)
    (seen live : database) : M (database * ApiResponse) :=
  let* r := update_review key expected changes now seen live in
  let* cd := get_draft seen key in
  let* body := draft_response cd.1 r.2 in Ok (r.1, success (VDict body)).
Definition publish_route (key : string) (expected : Z) (by_ : string) (version : option string) (now : datetime)
    (seen live : database) : M (database * ApiResponse) :=
  let* r := publish_draft key expected by_ version now seen live in
  let* body := version_summary r.2 in Ok (r.1, created body).
Definition disable_version_route (key version reason : string) (now : datetime) (seen live : database)
  : M (database * ApiResponse) :=
  let* r := disable_version key version reason now seen live in
  let* body := version_summary r.2 in Ok (r.1, success (VDict body)).
Definition create_deployment_route (key name text : string) (now : datetime) (seen live : database)
  : M (database * ApiResponse) :=
  let* r := create_deployment key name text now seen live in
  Ok (r.1, created (deployment_summary r.1 r.2)).
Definition create_snapshot_route (key : string) (selections : list SnapshotSelection) (by_ : string)
    (signing : option SigningKey) (now : datetime) (seen live : database) : M (database * ApiResponse) :=
  let* r := create_snapshot key selections by_ signing now seen live in
  let* body := snapshot_summary r.2 in Ok (r.1, created body).
Definition perform_route (q : request) (now : datetime) (seen live : database) : M (database * ApiResponse) :=
  match q with
  | Register a => register_connector_route a now seen live
  | UpdateReview key expected changes => update_draft_route key expected changes now seen live
  | Publish key expected by_ version => publish_route key expected by_ version now seen live
  | Disable key version reason => disable_version_route key version reason now seen live
  | CreateDeployment key name text => create_deployment_route key name text now seen live
  | CreateSnapshot key selections by_ signing => create_snapshot_route key selections by_ signing now seen live
  end.

Definition diagnostic_body (diagnostic : AdapterDiagnostic) : pyval :=
  VDict {{ "tool_name" ~> VStr (ad_tool_name diagnostic); "code" ~> VStr (ad_code diagnostic);
           "message" ~> VStr (ad_message diagnostic); "pointer" ~> VStr (ad_pointer diagnostic) }}.
Definition preview_adapter (db : database) (connector_key version provider : string) : M dict :=
  if negb (str_in provider SUPPORTED_PROVIDERS) then
    raise (ValidationError ("unsupported provider; expected one of " +:+ join ", " SUPPORTED_PROVIDERS) "/provider")
  else
    let* row := get_version db connector_key version in
    let* definition := parse_connector (VDict (vr_document row)) in
    let* adapter := get_adapter provider in
    let* projection := project adapter (tools definition) in
    Ok {{ "provider" ~> VStr (pp_provider projection); "connector_key" ~> VStr connector_key;
          "version" ~> VStr version; "complete" ~> VBool (projection_complete projection);
          "tools" ~> VList (map VDict (pp_tools projection));
          "diagnostics" ~> VList (map diagnostic_body (pp_diagnostics projection)) }}.
Definition get_snapshot (db : database) (deployment_key : string) (revision : Z) (include_document : bool) : M dict :=
  let* snapshots := list_snapshots db deployment_key in
  match find_first (fun r => Z.eqb (sr_revision r) revision) snapshots with
  | Some r =>
      let* body := snapshot_summary r in
      Ok (if include_document then dset (KStr "document") (VDict (sr_document r)) body else body)
  | None => raise (NotFoundError "no snapshot exists with that revision")
  end.
Definition cp_health_body (settings : ControlPlaneSettings) : dict :=
  {{ "status" ~> VStr "ok"; "contract_version" ~> VStr CONTRACT_VERSION;
     "snapshot_signing" ~> VStr (if signs_snapshots settings then "enabled" else "disabled");
     "snapshot_signing_key_id" ~> opt_str (nonempty (cs_snapshot_signing_key_id settings)) }}.
Definition get_draft_route (db : database) (key : string) : M dict :=
  let* cd := get_draft db key in draft_response cd.1 cd.2.
Definition get_version_route (db : database) (key version : string) : M dict :=
  let* row := get_version db key version in
  let* summary := version_summary row in
  Ok {{ "summary" ~> VDict summary; "document" ~> VDict (vr_document row) }}.
Definition list_versions_route (db : database) (key : string) (tie : version_row -> Z) : M (list dict) :=
  let* rows := list_versions db key tie in map_result version_summary rows.
Definition list_snapshots_route (db : database) (key : string) : M (list dict) :=
  let* rows := list_snapshots db key in map_result snapshot_summary rows.
(** The routes that only read. *)
Definition read_route (settings : ControlPlaneSettings) (db : database) (route : ApiRoute) : M ApiResponse :=
  match route with
  | ListConnectors => Ok (success (VList (map (fun c => VDict (connector_summary db c)) (list_connectors db))))
  | GetConnector key => let* c := get_connector db key in Ok (success (VDict (connector_summary db c)))
  | GetDraft key => let* body := get_draft_route db key in Ok (success (VDict body))
  | ListVersions key tie => let* bodies := list_versions_route db key tie in Ok (success (VList (map VDict bodies)))
  | GetVersion key version => let* body := get_version_route db key version in Ok (success (VDict body))
  | PreviewAdapter key version provider =>
      let* body := preview_adapter db key version provider in Ok (success (VDict body))
  | ListDeployments => Ok (success (VList (map (fun e => VDict (deployment_summary db e)) (list_deployments db))))
  | ListSnapshots key => let* bodies := list_snapshots_route db key in Ok (success (VList (map VDict bodies)))
  | GetSnapshot key revision include_document =>
      let* body := get_snapshot db key revision include_document in Ok (success (VDict body))
  | ReadSnapshot key if_none_match =>
      let* answer := read_snapshot db key if_none_match in
      let '(status, etag, body) := answer in
      Ok (MkApiResponse status (match body with Some d => VDict d | None => VNone end) (Some etag))
  | CpHealthz => Ok (success (VDict (cp_health_body settings)))
  | _ => raise (Raised AssertionError "a writing route")
  end.
End routes.

(** ** Answering a request (main.py) *)

Section serving.
Context `{Platform, Ed25519, JsonSchema, Pydantic, Analyzer, Fastapi}.

Definition blocked_details (issues : list string) : list ErrorDetail :=
  map (fun issue => MkDetail "publication.blocked" issue None "error") issues.
Definition error_envelope (request_id : string) (e : exn) : Z * ErrorEnvelope :=
  match e with
  | ToolLayerError e =>
      let details := match te_details e with [] => blocked_details (te_issues e) | ds => ds end in
      (te_http_status e, MkEnvelope (te_code e) (te_message e) (te_pointer e) details (Some request_id))
  | ConversionError code message pointer =>
      let envelope := MkEnvelope code message (Some pointer) [] (Some request_id) in
      (env_http_status envelope, envelope)
  | _ =>
      (500%Z, MkEnvelope ErrorCode.INTERNAL_ERROR "the request could not be completed" None [] (Some request_id))
  end.
Definition error_answer (request_id : string) (e : exn) : ApiResponse :=
  let '(status, envelope) := error_envelope request_id e in MkApiResponse status (envelope_to_dict envelope) None.
Definition invalid_request (request_id : string) (body : pyval) : ApiResponse :=
  MkApiResponse 422
    (envelope_to_dict (MkEnvelope ErrorCode.INVALID_REQUEST "the request body does not match the expected shape"
       (Some (first_pointer (error_location body))) [] (Some request_id))) None.

Definition authenticate (settings : ControlPlaneSettings) (h : ApiHeaders) (route : ApiRoute) : M string :=
  match route with
  | CpHealthz => Ok ""
  | ReadSnapshot _ _ => require_service settings (ah_service_token h)
  | _ => require_admin settings (ah_admin_token h)
  end.
(** The credential first, then the body, then the route; what is committed,
    when anything is, and the answer. *)
Definition serve_api (settings : ControlPlaneSettings) (now : datetime) (seen live : database) (h : ApiHeaders)
    (request_id : string) (route : ApiRoute) : option database * ApiResponse :=
  match authenticate settings h route with
  | Err e => (None, error_answer request_id e)
  | Ok _ =>
      match decode_request settings route with
      | Some (body, Err _) => (None, invalid_request request_id body)
      | Some (_, Ok decoded) =>
          match (let* q := decoded in perform_route q now seen live) with
          | Ok (db, answer) => (Some db, answer)
          | Err e => (None, error_answer request_id e)
          end
      | None =>
          match read_route settings seen route with
          | Ok answer => (None, answer)
          | Err e => (None, error_answer request_id e)
          end
      end
  end.
End serving.

(** ** Listing *)

Definition published_before (r s : version_row) : Prop := (time_number (vr_published_at r) <= time_number (vr_published_at s))%Z.
#[export] Instance published_le_total tie : Total (published_le tie).
Proof. intros r s. unfold published_le. lia. Qed.
#[export] Instance published_le_trans tie : Transitive (published_le tie).
Proof. intros r s t. unfold published_le. lia. Qed.
(** The place of a row, by its primary key. *)
Definition place (rows : list version_row) (r : version_row) : Z :=
  match list_find (fun s => vr_id s = vr_id r) rows with Some (i, _) => Z.of_nat i | None => 0%Z end.
Lemma place_lookup rows i r : NoDup (map vr_id rows) -> rows !! i = Some r -> place rows r = Z.of_nat i.
Proof.
  intros Hn Hi. unfold place. destruct (list_find _ rows) as [[j s]|] eqn:E.
  - apply list_find_Some in E as (Hj & Es & _). f_equal.
    apply (NoDup_lookup (map vr_id rows) j i (vr_id r)); [done|..]; rewrite list_lookup_fmap; [by rewrite Hj, <- Es|by rewrite Hi].
  - apply list_find_None in E. rewrite Forall_forall in E. destruct (E r); [by eapply list_elem_of_lookup_2|done].
Qed.
Lemma placed_sorted rows pre suf :
  NoDup (map vr_id rows) -> rows = pre ++ suf -> StronglySorted published_before suf ->
  StronglySorted (published_le (place rows)) suf.
Proof.
  intros Hn. revert pre. induction suf as [|r suf IH]; intros pre E; [constructor|].
  intros [Hs Hr]%StronglySorted_inv. constructor; [apply (IH (pre ++ [r])); [by rewrite <- app_assoc|done]|].
  rewrite Forall_forall in Hr |- *. intros s Hin. pose proof (Hr s Hin) as Hle. apply list_elem_of_lookup in Hin as [j Hj].
  assert (rows !! length pre = Some r) as Hi by by rewrite E, lookup_app_r, Nat.sub_diag by lia.
  assert (rows !! (length pre + S j)%nat = Some s) as Hk.
  { rewrite E, lookup_app_r by lia. by replace (length pre + S j - length pre)%nat with (S j) by lia. }
  apply (place_lookup _ _ _ Hn) in Hi. apply (place_lookup _ _ _ Hn) in Hk. unfold published_le, published_before in *. lia.
Qed.
(** The versions of a connector are listed exactly, by their time: whatever the
    engine does with equal times, and every such list is one it may give. *)
Lemma list_versions_exact db key connector rows :
  NoDup (map vr_id (t_versions db)) -> get_connector db key = Ok connector ->
  (exists tie, list_versions db key tie = Ok rows) <->
  rows ≡ₚ versions_of db (cr_id connector) /\ StronglySorted published_before rows.
Proof.
  intros Hn Hc. unfold list_versions. rewrite Hc. cbn [bind]. split.
  - intros (tie & [= <-]). split; [apply merge_sort_Permutation|].
    pose proof (StronglySorted_merge_sort (published_le tie) (versions_of db (cr_id connector))) as Hs.
    induction Hs as [|r l _ IH Hr]; constructor; [done|]. eapply Forall_impl; [exact Hr|]. intros s. unfold published_le, published_before. lia.
  - intros [Hp Hs]. exists (place rows). f_equal.
    assert (NoDup (map vr_id rows)) as Hr.
    { change (NoDup (vr_id <$> rows)). rewrite Hp. unfold versions_of. eapply sublist_NoDup; [exact Hn|].
      apply fmap_sublist. clear.
      induction (t_versions db) as [|r l IH]; cbn [List.filter]; [constructor|]. destruct (_ =? _)%Z; by constructor. }
    apply (Sorted_unique_strong (published_le (place rows))).
    + intros r s Hri Hsi Hrs Hsr. assert (r ∈ rows) as Hri' by by rewrite Hp, <- (merge_sort_Permutation (published_le (place rows))).
      apply list_elem_of_lookup in Hri' as [k Hk]. apply list_elem_of_lookup in Hsi as [j Hj].
      pose proof (place_lookup _ _ _ Hr Hk) as Ek. pose proof (place_lookup _ _ _ Hr Hj) as Ej.
      assert (k = j) as -> by (unfold published_le in *; lia). congruence.
    + apply Sorted_merge_sort, _.
    + apply StronglySorted_Sorted. by apply (placed_sorted rows []).
    + rewrite merge_sort_Permutation. by symmetry.
Qed.

(** ** Lemmas *)

Lemma error_answer_status rid e : (400 <= ar_status (error_answer rid e))%Z.
Proof.
  destruct e; unfold error_answer, error_envelope, te_http_status, env_http_status; cbn [env_code ar_status];
    try apply status_for_error; lia.
Qed.
Lemma compare_digest_Ok a b r : compare_digest a b = Ok r -> r = String.eqb a b.
Proof. unfold compare_digest. destruct (_ && _); [|done]. by intros [= <-]. Qed.
Lemma require_admin_Ok settings token s : require_admin settings token = Ok s -> token = Some (cs_admin_token settings).
Proof.
  unfold require_admin. destruct token as [t|]; [|done]. intros (b & Hb%compare_digest_Ok & Hr)%bind_Ok. subst b.
  by destruct (String.eqb_spec t (cs_admin_token settings)) as [->|].
Qed.
Lemma require_service_Ok settings token s :
  require_service settings token = Ok s -> token = Some (cs_service_token settings).
Proof.
  unfold require_service. destruct token as [t|]; [|done]. intros (b & Hb%compare_digest_Ok & Hr)%bind_Ok. subst b.
  by destruct (String.eqb_spec t (cs_service_token settings)) as [->|].
Qed.
Lemma tokens_differ env settings :
  control_plane_get_settings env = Ok settings -> cs_admin_token settings <> cs_service_token settings.
Proof.
  intros (b & _ & Hs)%bind_Ok. set (raw := MkControlPlaneSettings _ _ _ _ _ _ _) in Hs. clearbody raw.
  unfold ControlPlaneSettings_new in Hs. destruct (_ <? _)%nat; [done|]. destruct (_ <? _)%nat; [done|].
  destruct (String.eqb_spec (cs_admin_token raw) (cs_service_token raw)); [done|]. destruct (is_empty (cs_database_url raw)); [done|].
  destruct (xorb _ _); [done|]. destruct (is_empty (cs_snapshot_signing_key raw)).
  - by assert (settings = raw) as -> by congruence.
  - by apply bind_Ok in Hs as (? & _ & [= ->]).
Qed.

Section serving_lemmas.
Context `{Platform, Ed25519, JsonSchema, Pydantic, Analyzer, Fastapi}.

(** A route that answers performed its use case. *)
Lemma perform_route_transaction q now seen live db answer :
  perform_route q now seen live = Ok (db, answer) ->
  db = transaction q now seen live /\ (ar_status answer = 200 \/ ar_status answer = 201)%Z.
Proof.
  unfold transaction, perform. destruct q; cbn [perform_route];
    unfold register_connector_route, update_draft_route, publish_route, disable_version_route, create_deployment_route,
      create_snapshot_route; intros (r & Hr & Hp)%bind_Ok; rewrite Hr; cbn [bind];
    repeat (apply bind_Ok in Hp as (? & _ & Hp)); injection Hp as <- <-; auto.
Qed.
Lemma authenticate_writes settings h route name p :
  authenticate settings h route = Ok name -> decode_request settings route = Some p ->
  ah_admin_token h = Some (cs_admin_token settings).
Proof. destruct route; cbn [authenticate decode_request]; try done; intros Ha _; by eapply require_admin_Ok. Qed.
Lemma authenticate_Ok settings h route name :
  authenticate settings h route = Ok name ->
  route = CpHealthz \/ is_internal route = true /\ ah_service_token h = Some (cs_service_token settings) \/
  ah_admin_token h = Some (cs_admin_token settings).
Proof.
  destruct route; cbn [authenticate is_internal]; intros Ha; try (right; right; by eapply require_admin_Ok); [|by left].
  right; left. split; [done|]. by eapply require_service_Ok.
Qed.
Lemma serve_api_commits settings now seen live h rid route db answer :
  serve_api settings now seen live h rid route = (Some db, answer) ->
  ah_admin_token h = Some (cs_admin_token settings) /\
  exists body decoded q, decode_request settings route = Some (body, Ok decoded) /\ decoded = Ok q /\
    db = transaction q now seen live /\ (ar_status answer = 200 \/ ar_status answer = 201)%Z.
Proof.
  unfold serve_api. destruct (authenticate settings h route) as [name|] eqn:Ha; [|done].
  destruct (decode_request settings route) as [[body [decoded|]]|] eqn:Hd; [|done|by destruct (read_route _ _ _)].
  destruct decoded as [q|]; cbn [bind]; [|done].
  destruct (perform_route q now seen live) as [[db' answer']|] eqn:Hp; [|done]. intros [= <- <-].
  split; [by eapply authenticate_writes|]. exists body, (Ok q), q. split_and!; [done|done|by eapply perform_route_transaction..].
Qed.

(** The histories of a Control Plane that is driven over HTTP. *)
Inductive api_commits (settings : ControlPlaneSettings) : list database -> list database -> Prop :=
  | api_commit now seen live history h rid route db answer :
      seen ∈ live :: history -> serve_api settings now seen live h rid route = (Some db, answer) ->
      api_commits settings (live :: history) (db :: live :: history).
Lemma api_reachable settings history :
  rtc (api_commits settings) [empty_database] history -> reachable history.
Proof.
  intros Hr. unfold reachable. eapply (rtc_congruence (fun l : list database => l)); [|exact Hr].
  intros h1 h2 [now seen live history' h rid route db answer Hin Hs].
  apply serve_api_commits in Hs as (_ & body & decoded & q & _ & _ & -> & _). by constructor.
Qed.
End serving_lemmas.

(** ** Properties *)


(** C18. The conditional read.  To the holder of the service token the internal
    API answers 304 exactly when the header lists the entity tag of the active
    snapshot or a star, and otherwise the stored document of that snapshot,
    unchanged; both carry the tag, the stored digest in quotes.  It commits
    nothing. *)
Theorem snapshot_read_exact `{Platform, Ed25519, JsonSchema, Pydantic, Analyzer, Fastapi} :
  forall settings now seen live h rid key if_none_match,
    require_service settings (ah_service_token h) = Ok "runtime" ->
    let '(committed, answer) := serve_api settings now seen live h rid (ReadSnapshot key if_none_match) in
    committed = None /\
    match get_active_snapshot seen key with
    | Ok row =>
        ar_etag answer = Some (etag_of row) /\
        (ar_status answer = 304%Z <-> exists value candidate, if_none_match = Some value /\
           candidate ∈ split_on "," value /\ (strip candidate = "*" \/ strip candidate = etag_of row)) /\
        (ar_status answer <> 304%Z -> ar_status answer = 200%Z /\ ar_body answer = VDict (sr_document row))
    | Err e => answer = error_answer rid e
    end.
Proof.
  intros settings now seen live h rid key if_none_match Hs. unfold serve_api. cbn [authenticate decode_request read_route].
  rewrite Hs. unfold read_snapshot. destruct (get_active_snapshot seen key) as [row|e]; cbn [bind]; [|done].
  assert (match if_none_match with Some value => matches_etag value (etag_of row) | None => false end = true <->
    exists value candidate, if_none_match = Some value /\ candidate ∈ split_on "," value /\
      (strip candidate = "*" \/ strip candidate = etag_of row)) as Hm.
  { destruct if_none_match as [value|]; [|by split; [|intros (? & ? & ? & _)]].
    unfold matches_etag. rewrite existsb_exists. split.
    - intros (c & (w & <- & Hw)%in_map_iff & Hc). apply orb_true_iff in Hc.
      rewrite !String.eqb_eq in Hc. exists value, w. by rewrite list_elem_of_In.
    - intros (value' & w & [= <-] & Hw & Hc). exists (strip w). rewrite orb_true_iff, !String.eqb_eq.
      split; [|done]. apply in_map. by apply list_elem_of_In. }
  destruct (match if_none_match with Some value => matches_etag value (etag_of row) | None => false end);
    (split; [done|]); (split; [done|]); cbn [ar_status ar_body].
  - split; [|done]. by rewrite <- Hm.
  - rewrite <- Hm. done.
Qed.

(** ** Concrete requests for the witnesses *)

#[export] Instance demo_fastapi : Fastapi := {| error_location := fun _ => ["body"; "a/b"] |}.
Definition demo_deployment_route : ApiRoute :=
  CreateDeploymentRoute (VDict {{ "deployment_key" ~> VStr "default"; "display_name" ~> VStr "Default" }}).
Example api_statuses :
  (let* settings := control_plane_get_settings demo_environment in
   let ask token route :=
     ar_status (@serve_api demo_platform _ _ _ _ _ settings demo_now empty_database empty_database
                  (MkApiHeaders token (Some (cs_service_token settings))) "r" route).2 in
   Ok (map (ask (Some (cs_admin_token settings)))
         [demo_deployment_route; CreateDeploymentRoute (VDict []); GetConnector "x"; ReadSnapshot "default" None; CpHealthz],
       map (ask (Some (cs_service_token settings))) [demo_deployment_route; ListConnectors; CpHealthz])) =
  Ok ([201; 422; 404; 404; 200]%Z, [401; 401; 200]%Z).
Proof. vm_compute. reflexivity. Qed.
Example first_pointer_example : first_pointer (error_location VNone) = "/a~1b".
Proof. reflexivity. Qed.


Lemma snapshot_read_exact_witness :
  exists settings row answer, control_plane_get_settings demo_environment = Ok settings /\
    get_active_snapshot (demo_db 4) "default" = Ok row /\
    @serve_api demo_platform _ _ _ _ _ settings demo_now (demo_db 4) (demo_db 4)
      (MkApiHeaders None (Some DEV_SERVICE_TOKEN)) "r" (ReadSnapshot "default" (Some "x, *")) = (None, answer) /\
    ar_status answer = 304%Z.
Proof.
  destruct (control_plane_get_settings demo_environment) as [settings|e] eqn:E; [|exfalso; vm_compute in E; discriminate].
  destruct (get_active_snapshot (demo_db 4) "default") as [row|e] eqn:Er; [|exfalso; vm_compute in Er; discriminate].
  pose proof (@snapshot_read_exact demo_platform _ _ _ _ _ settings demo_now (demo_db 4) (demo_db 4)
    (MkApiHeaders None (Some DEV_SERVICE_TOKEN)) "r" "default" (Some "x, *")) as Hx.
  destruct (@serve_api demo_platform _ _ _ _ _ settings demo_now (demo_db 4) (demo_db 4)
    (MkApiHeaders None (Some DEV_SERVICE_TOKEN)) "r" (ReadSnapshot "default" (Some "x, *")))
    as [committed answer] eqn:Es. exists settings, row, answer. split; [reflexivity|]. split; [reflexivity|].
  destruct Hx as [-> Hx]; [vm_compute in E; injection E as <-; vm_compute; reflexivity|]. split; [exact Es|].
  rewrite Er in Hx. destruct Hx as (_ & Hiff & _). apply Hiff.
  exists "x, *", " *". split; [reflexivity|]. split; [vm_compute; right; left | left; reflexivity].
Defined.

(** A token with a character outside ASCII is no credential, but it is answered
    as an internal error: the comparison itself raises. *)
Lemma non_ascii_token_fails settings :
  cs_admin_token settings = DEV_ADMIN_TOKEN ->
  require_admin settings (Some (String "233" "")) =
    type_error "comparing strings with non-ASCII characters is not supported".
Proof. intros Ha. unfold require_admin, compare_digest. by rewrite Ha. Qed.
