(* ===== verification/EndToEnd.v ===== *)
(** * From the Control Plane to the Runtime

    The one contact of the two services: the runtime's client
    ([runtime_service/snapshot.py]) asking the internal API
    ([control_plane/routes_internal.py]) of a Control Plane in a given state. *)

From S2P Require Export ControlPlaneApi Naming.

Section transport.
Context `{Platform, Ed25519, JsonSchema, Pydantic, Analyzer, Fastapi}.

(** The HTTP exchange between the two: the JSON body arrives as it was sent. *)
Definition internal_get (base : string) (settings : ControlPlaneSettings) (now : datetime) (db : database) : http_get :=
  fun url headers =>
    match strip_prefix (base +:+ "/internal/v1/deployments/") url with
    | Some path =>
        let '(key, separator, rest) := partition_on "/" path in
        if separator && String.eqb rest "snapshot" then
          let answer := (serve_api settings now db db
            (MkApiHeaders (alookup "x-toollayer-admin-token" headers) (alookup "x-toollayer-service-token" headers)) ""
            (ReadSnapshot key (alookup "if-none-match" headers))).2 in
          Some (MkResponse (ar_status answer) (ar_etag answer) (Ok (ar_body answer)))
        else Some (MkResponse 404 None (Ok VNone))
    | None => Some (MkResponse 404 None (Ok VNone))
    end.
(** A runtime's client that holds the service token of that Control Plane. *)
Definition service_client (base : string) (settings : ControlPlaneSettings) (verification : SnapshotVerification)
    (now : datetime) (db : database) : SnapshotClient :=
  MkClient base (cs_service_token settings) verification (internal_get base settings now db).

Lemma require_service_own settings :
  is_ascii (cs_service_token settings) = true -> require_service settings (Some (cs_service_token settings)) = Ok "runtime".
Proof. intros Ha. unfold require_service, compare_digest. by rewrite Ha, String.eqb_refl. Qed.

(** What the client's exchange gives for an active snapshot. *)
Lemma internal_get_active base settings now db key etag row :
  is_ascii (cs_service_token settings) = true -> has_char "/" key = false ->
  get_active_snapshot db key = Ok row ->
  internal_get base settings now db (base +:+ "/internal/v1/deployments/" +:+ key +:+ "/snapshot")
    (("x-toollayer-service-token", cs_service_token settings) ::
     match etag with Some e => [("if-none-match", e)] | None => [] end) =
  Some (if match etag with Some value => matches_etag value (etag_of row) | None => false end
        then MkResponse 304 (Some (etag_of row)) (Ok VNone)
        else MkResponse 200 (Some (etag_of row)) (Ok (VDict (sr_document row)))).
Proof.
  intros Ha Hk Hr. unfold internal_get.
  replace (base +:+ "/internal/v1/deployments/" +:+ key +:+ "/snapshot")
    with ((base +:+ "/internal/v1/deployments/") +:+ (key +:+ String "/" "snapshot")) by (by rewrite sapp_assoc).
  rewrite strip_prefix_app, (partition_on_app _ _ _ Hk). cbn [andb String.eqb].
  change (alookup "x-toollayer-service-token" _) with (Some (cs_service_token settings)).
  replace (alookup "if-none-match" _) with etag by (by destruct etag).
  unfold serve_api. cbn [authenticate ah_service_token]. rewrite (require_service_own _ Ha). cbn [decode_request read_route].
  unfold read_snapshot. rewrite Hr. cbn [bind]. by destruct (match etag with Some _ => _ | None => _ end).
Qed.

(** The tag of a snapshot lists itself. *)
Lemma rstrip_ends p w c : p c = false -> rstrip_by p (w +:+ String c "") = w +:+ String c "".
Proof.
  intros Hc. induction w as [|d w IH]; [rewrite sapp_nil_l; cbn [rstrip_by]; by rewrite Hc|].
  rewrite sapp_cons. cbn [rstrip_by]. rewrite IH. by destruct w.
Qed.
Lemma matches_own_etag `{!ShaText} row data etag :
  sr_snapshot_digest row = digest_of data -> matches_etag (etag_of row) etag = String.eqb (etag_of row) etag.
Proof.
  intros Hd. destruct (sha256_hex_shape data) as [_ Hx].
  assert (has_char "," (etag_of row) = false) as Hc.
  { unfold etag_of, has_char. rewrite Hd, sany_cons, sany_app. unfold digest_of. rewrite sany_app. cbn [orb].
    replace (sany _ (sha256_hex data)) with false; [done|]. symmetry. apply sany_false.
    eapply sall_impl; [|exact Hx]. intros c. by destruct c as [[] [] [] [] [] [] [] []]. }
  unfold matches_etag. rewrite (split_on_cons_notin _ _ Hc). cbn [map existsb].
  replace (strip (etag_of row)) with (etag_of row); [by rewrite orb_false_r|].
  unfold strip, strip_by, etag_of. cbn [lstrip_by]. change (is_space dquote) with false. cbn iota.
  change (String dquote (sr_snapshot_digest row +:+ String dquote ""))
    with (String dquote "" +:+ (sr_snapshot_digest row +:+ String dquote "")).
  rewrite <- sapp_assoc. symmetry. by apply rstrip_ends.
Qed.
Lemma etag_matches `{!ShaText} row data : sr_snapshot_digest row = digest_of data -> matches_etag (etag_of row) (etag_of row) = true.
Proof. intros Hd. by rewrite (matches_own_etag _ _ _ Hd), String.eqb_refl. Qed.

(** The client's request for an active snapshot. *)
Lemma fetch_active base settings verification at_ db key row etag time :
  is_ascii (cs_service_token settings) = true -> has_char "/" key = false -> get_active_snapshot db key = Ok row ->
  etag <> Some "" ->
  fetch (service_client base settings verification at_ db) key etag time =
    if match etag with Some value => matches_etag value (etag_of row) | None => false end then Ok None
    else let* s := load_snapshot_document (VDict (sr_document row)) (Some (etag_of row)) (Some verification) time in Ok (Some s).
Proof.
  intros Hascii Hkey Hact He. unfold fetch. cbn [cl_get service_client cl_base_url cl_service_token cl_verification].
  pose proof (internal_get_active base settings at_ db key etag row Hascii Hkey Hact) as Hg.
  cbn [app]. replace (match etag with Some e => if is_empty e then [] else [("if-none-match", e)] | None => [] end)
    with (match etag with Some e => [("if-none-match", e)] | None => [] end) by (by destruct etag as [[|c e]|]).
  rewrite Hg. destruct etag as [e|]; [destruct (matches_etag e (etag_of row))|]; reflexivity.
Qed.
(** A sound document whose signature is trusted loads, when its models do. *)
Lemma sound_document_loads row etag verification time kid s :
  snapshot_sound row -> verify_document (sr_document row) (trusted_keys verification) = Ok kid ->
  load_snapshot_document (VDict (sr_document row)) etag (Some verification) time = Ok s <->
  exists snapshot, parse_snapshot (VDict (sr_document row)) = Ok snapshot /\ NoDup (bound_tools snapshot).*1 /\
    s = MkLoaded snapshot etag time (bound_tools snapshot) (Some kid).
Proof.
  intros [Hvalid Hdigest (Hdecl & _)] Hver. split.
  - intros Hl. destruct (load_snapshot_checked _ _ _ _ _ Hl) as (d & Hload & He & Ht).
    destruct (lc_index _ _ _ _ Hload) as [Hi Hn]. exists (ls_snapshot s). split; [apply (lc_model _ _ _ _ Hload)|].
    split; [done|]. pose proof (lc_object _ _ _ _ Hload) as [= <-].
    destruct (lc_signature _ _ _ _ Hload) as [(_ & Hnone & _)|(k & Hk & Hsig)].
    + unfold verify_document in Hver. unfold SIGNATURE_EXCLUDED_FIELD in Hver. by rewrite Hnone in Hver.
    + pose proof (verify_document_signed _ _ _ Hsig) as Hv. cbn [trusted_keys] in *. destruct s as [sn et la tb sk]; cbn in *. congruence.
  - intros (snapshot & Hm & Hn & ->).
    apply (load_checked_load _ verification (MkLoaded snapshot etag time (bound_tools snapshot) (Some kid)) (sr_document row)).
    apply bind_Ok in Hvalid as Hv2. destruct Hv2 as ([] & Hcv & _).
    apply require_contract_version_Ok in Hcv as (d & v & [= <-] & Hsup). apply verify_document_inv in Hver as (k & Hk & Hsig).
    split; cbn [ls_snapshot signing_key_id tools_by_name]; try done.
    + by exists v.
    + exists (VStr (sr_snapshot_digest row)). split; [by apply get_Some|done].
    + right. exists k. by rewrite Hk.
Qed.
End transport.

(** ** Properties *)

(** C3. What the Control Plane publishes, the runtime serves.  After a signed
    snapshot was created, in any history and with any interleaving, a client
    that holds the service token and trusts the signing key loads, from the
    internal API, exactly that snapshot: with its document's models, its entity
    tag and the signing key, in either verification mode, exactly when the models
    validate and no tool name occurs twice; the version, the contract, the digest
    and the signature never stand in the way.  Asking again with that tag says
    that nothing changed. *)
Theorem published_snapshot_loads `{ShaText, Ed25519, !Ed25519Laws, JsonSchema, Pydantic, Analyzer, Fastapi} :
  forall live rest seen key selections by_ signing now live' row dep settings base verification at_ time,
    reachable (live :: rest) -> seen ∈ live :: rest ->
    create_snapshot key selections by_ (Some signing) now seen live = Ok (live', row) ->
    find_deployment live' key = Some dep -> sr_deployment_id row = er_id dep ->
    has_char "/" key = false -> is_ascii (cs_service_token settings) = true ->
    sk_key_id signing <> "" -> ring_find (trusted_keys verification) (sk_key_id signing) = Some (public_key signing) ->
    let client := service_client base settings verification at_ live' in
    (forall s, fetch client key None time = Ok (Some s) <->
       exists snapshot, parse_snapshot (VDict (sr_document row)) = Ok snapshot /\ NoDup (bound_tools snapshot).*1 /\
         s = MkLoaded snapshot (Some (etag_of row)) time (bound_tools snapshot) (Some (sk_key_id signing))) /\
    fetch client key (Some (etag_of row)) time = Ok None.
Proof.
  intros live rest seen key selections by_ signing now live' row dep settings base verification at_ time
    Hr Hin Hc Hdep Hid Hkey Hascii Hkid Hring client.
  destruct (create_snapshot_serves _ _ _ _ _ _ _ _ _ _ Hr Hin Hc) as (_ & _ & Hsound & _ & _ & Hact & Hver).
  specialize (Hact dep Hdep Hid). specialize (Hver signing _ eq_refl Hkid Hring).
  apply create_snapshot_spec in Hc as (? & ? & ? & ? & ? & ? & ? & ? & _ & _ & _ & _ & Hd & _ & _ & _ & _ & _ & _ & _ & _ & _ & Edig & _).
  apply content_digest_Ok in Hd as (? & data & _ & _ & Hd). rewrite <- Edig in Hd.
  assert (forall s, load_snapshot_document (VDict (sr_document row)) (Some (etag_of row)) (Some verification) time = Ok s <-> _)
    as Hload by (intros s; by apply sound_document_loads).
  split.
  - intros s. unfold client. rewrite (fetch_active _ _ _ _ _ _ _ None _ Hascii Hkey Hact) by done. rewrite bind_Ok, <- Hload.
    split; [by intros (s' & Hl & [= ->])|intros Hl; by exists s].
  - unfold client. rewrite (fetch_active _ _ _ _ _ _ _ (Some (etag_of row)) _ Hascii Hkey Hact) by done.
    by rewrite (etag_matches row data).
Qed.

(** ** A concrete publication for the witness *)

Definition hex_commit (history : list database) (q : request) : list database :=
  match history with
  | live :: _ => @transaction hex_platform _ _ _ _ q demo_now live live :: history
  | [] => []
  end.
Definition hex_history : list database := foldl hex_commit [empty_database] (firstn 3 demo_requests).
Lemma hex_history_reachable : @reachable hex_platform _ _ _ _ hex_history.
Proof.
  assert (forall qs h, @reachable hex_platform _ _ _ _ h -> h <> [] -> @reachable hex_platform _ _ _ _ (foldl hex_commit h qs)) as G.
  { induction qs as [|q qs IH]; intros h Hh Hne; [done|]. destruct h as [|live rest]; [done|]. cbn [foldl hex_commit].
    apply IH; [|done]. unfold reachable. eapply rtc_r; [exact Hh|]. constructor. left. }
  apply G; [apply rtc_refl|done].
Qed.
Definition hex_db : database := hd empty_database hex_history.
Lemma hex_db_reachable : @reachable hex_platform _ _ _ _ (hex_db :: tl hex_history).
Proof.
  pose proof hex_history_reachable as Hr. unfold hex_db. destruct hex_history as [|live rest] eqn:E; [|exact Hr].
  assert (length hex_history = 4%nat) as Hl by (vm_compute; reflexivity). by rewrite E in Hl.
Qed.
Abbreviation hex_created :=
  (@create_snapshot hex_platform _ _ _ "default" [MkSnapshotSelection "ticket-api" "0.1.0"] "admin" (Some demo_signing_key)
    demo_now hex_db hex_db).

Lemma published_snapshot_loads_witness :
  exists settings live' row s, control_plane_get_settings demo_environment = Ok settings /\ hex_created = Ok (live', row) /\
    @fetch hex_platform _ _ _ (@service_client hex_platform _ _ _ _ _ "http://cp" settings demo_verification demo_now live')
      "default" None 7 = Ok (Some s) /\ ls_etag s = Some (etag_of row) /\ signing_key_id s = Some "demo-key".
Proof.
  destruct (control_plane_get_settings demo_environment) as [settings|e] eqn:E; [|exfalso; vm_compute in E; discriminate].
  destruct hex_created as [[live' row]|e] eqn:Ec; [|exfalso; vm_compute in Ec; discriminate].
  assert (exists dep, find_deployment live' "default" = Some dep /\ sr_deployment_id row = er_id dep) as (dep & Hdep & Hid).
  { vm_compute in Ec. injection Ec as <- <-. eexists. split; vm_compute; reflexivity. }
  assert (exists snapshot, parse_snapshot (VDict (sr_document row)) = Ok snapshot /\ NoDup (bound_tools snapshot).*1)
    as (snapshot & Hm & Hn).
  { clear Hdep Hid. vm_compute in Ec. injection Ec as _ <-. eexists. split; [vm_compute; reflexivity|].
    apply (bool_decide_unpack _). vm_compute. exact I. }
  exists settings, live', row, (MkLoaded snapshot (Some (etag_of row)) 7 (bound_tools snapshot) (Some "demo-key")).
  split; [reflexivity|]. split; [reflexivity|]. split; [|split; reflexivity].
  apply (proj1 (@published_snapshot_loads hex_platform _ _ _ _ _ _ _ hex_db (tl hex_history) hex_db "default"
    [MkSnapshotSelection "ticket-api" "0.1.0"] "admin" demo_signing_key demo_now live' row dep settings "http://cp"
    demo_verification demo_now 7 hex_db_reachable (list_elem_of_here _ _) Ec Hdep Hid eq_refl
    ltac:(vm_compute in E; injection E as <-; vm_compute; reflexivity) ltac:(discriminate) eq_refl)).
  exists snapshot. split; [exact Hm|]. split; [exact Hn|reflexivity].
Defined.
