(* ===== verification/System.v ===== *)
(** * The two services together

    A Control Plane and a runtime that fetches its snapshots from it, run side
    by side: the committed history with its requests, and the runtime's store.
    What the runtime calls is traced back to an uploaded document and to the
    decisions of its reviewers. *)

From S2P Require Export EndToEnd Provenance RuntimeApi.

(** The Control Plane analyzes with the converter of the repository. *)
#[local] Existing Instance openapi_analyzer | 0.

Section system.
Context `{Platform, Ed25519, JsonSchema, Pydantic, Decoding, TokenJson, Fastapi, Parsers}.

Record system := MkSystem {
  sy_log : list request;
  sy_history : list database;
  sy_store : SnapshotStore;
}.
(** The network fails, or delivers what the Control Plane answers, from any
    state it was in. *)
Definition connected (base : string) (cps : ControlPlaneSettings) (history : list database) (network : http_get) : Prop :=
  forall url headers, network url headers = None \/
    exists at_ db, db ∈ history /\ network url headers = internal_get base cps at_ db url headers.

Inductive system_step (settings : RuntimeSettings) (engine : Orchestrator) (base : string) (cps : ControlPlaneSettings)
  : system -> system -> Prop :=
  | sy_commits log live history store q now seen :
      seen ∈ live :: history ->
      system_step settings engine base cps (MkSystem log (live :: history) store)
        (MkSystem (q :: log) (transaction q now seen live :: live :: history) store)
  | sy_serves log history store w h route :
      connected base cps history (w_get w) ->
      system_step settings engine base cps (MkSystem log history store)
        (MkSystem log history (serve settings engine store w h route).1).
Definition system_start (store : SnapshotStore) : system := MkSystem [] [empty_database] store.

(** ** What a connected client fetches *)

Definition served_from (history : list database) (s : LoadedSnapshot) : Prop :=
  exists db row, db ∈ history /\ row ∈ t_snapshots db /\ parse_snapshot (VDict (sr_document row)) = Ok (ls_snapshot s) /\
    ls_etag s = Some (etag_of row).

Lemma active_snapshot_row db key row : get_active_snapshot db key = Ok row -> row ∈ t_snapshots db.
Proof.
  unfold get_active_snapshot. intros (dep & _ & Hr)%bind_Ok.
  destruct (highest_revision _) as [r|] eqn:E; [|done]. injection Hr as ->.
  apply highest_revision_spec in E as [Hr _]. unfold snapshots_of in Hr. by apply filter_In_iff in Hr as [[Hr _]%filter_In_iff _].
Qed.
Lemma internal_get_document base cps at_ db url headers response :
  internal_get base cps at_ db url headers = Some response ->
  (hr_status response =? 304)%Z = false -> (400 <=? hr_status response)%Z = false ->
  exists row, row ∈ t_snapshots db /\ hr_json response = Ok (VDict (sr_document row)) /\ hr_etag response = Some (etag_of row).
Proof.
  unfold internal_get. destruct (strip_prefix _ url) as [path|]; [|by intros [= <-]].
  destruct (partition_on "/" path) as [[key separator] rest]. destruct (_ && _); [|by intros [= <-]].
  cbv zeta. unfold serve_api. cbn [authenticate ah_service_token].
  assert (forall e, (400 <=? ar_status (error_answer "" e))%Z = true) as He
    by (intros e; apply Z.leb_le, error_answer_status).
  destruct (require_service cps _) as [name|e]; cbn [snd]; [|intros [= <-]; cbn [hr_status]; by rewrite He].
  cbn [decode_request read_route]. unfold read_snapshot.
  destruct (get_active_snapshot db key) as [row|e] eqn:Ha; cbn [bind snd]; [|intros [= <-]; cbn [hr_status]; by rewrite He].
  apply active_snapshot_row in Ha.
  destruct (match alookup "if-none-match" headers with Some _ => _ | None => _ end); cbn [bind snd];
    intros [= <-]; cbn [hr_status hr_json hr_etag ar_status ar_body ar_etag]; [done|]. by exists row.
Qed.
Lemma fetch_connected base cps history cl key etag now s :
  connected base cps history (cl_get cl) -> fetch cl key etag now = Ok (Some s) -> served_from history s.
Proof.
  intros Hc. unfold fetch. cbv zeta.
  match goal with |- context [cl_get cl ?u ?h] => destruct (Hc u h) as [->|(at_ & db & Hdb & ->)]; [done|] end.
  destruct (internal_get _ _ _ _ _ _) as [r|] eqn:Hg; [|done].
  destruct (_ =? 304)%Z eqn:E1; [done|]. destruct (_ =? 404)%Z; [done|]. destruct (_ || _); [done|].
  destruct (400 <=? _)%Z eqn:E2; [done|]. destruct (internal_get_document _ _ _ _ _ _ _ Hg E1 E2) as (row & Hrow & -> & ->).
  cbn [bind]. intros (s' & (d & Hl & He & _)%load_snapshot_checked & [= <-])%bind_Ok. exists db, row. split_and!; [done..| |done].
  apply (lc_model _ _ _ _ Hl).
Qed.

(** ** The invariant of the whole *)

Definition accounted (v : SnapshotVerification) (history : list database) (s : LoadedSnapshot) : Prop :=
  verified_by v s /\ served_from history s.
Lemma accounted_stable v history : time_stable (accounted v history).
Proof. intros s now [Hv Hs]. split; [by apply verified_by_time|exact Hs]. Qed.
Record system_ok (v : SnapshotVerification) (y : system) : Prop := {
  so_run : committed (sy_log y) (sy_history y);
  so_store : store_ok v (sy_store y);
  so_served s : st_current (sy_store y) = Some s -> served_from (sy_history y) s;
}.
Lemma system_ok_sat base cps v y network :
  system_ok v y -> connected base cps (sy_history y) network ->
  store_sat (accounted v (sy_history y)) (on_network (sy_store y) network).
Proof.
  intros [_ Hok Hs] Hc. pose proof (store_ok_sat _ _ (on_network_ok v _ network Hok)) as [Hf Hcur]. split.
  - intros etag now s Hfetch. split; [exact (Hf _ _ _ Hfetch)|exact (fetch_connected base cps _ (st_client (on_network (sy_store y) network)) _ _ _ _ Hc Hfetch)].
  - intros s Hst. split; [exact (Hcur s Hst)|exact (Hs s Hst)].
Qed.
Lemma system_step_ok settings engine base cps v y y' :
  system_ok v y -> system_step settings engine base cps y y' -> system_ok v y'.
Proof.
  intros Hok Hstep. destruct Hstep as [log live history store q now seen Hin|log history store w h route Hc].
  - destruct Hok as [Hr Hst Hs]. split; cbn [sy_log sy_history sy_store] in *; [by constructor|done|].
    intros s Hcur. destruct (Hs s Hcur) as (db & row & Hdb & Hrow). exists db, row. split; [by right|done].
  - pose proof (serve_keeps _ (accounted_stable v history) settings engine store w h route (system_ok_sat _ _ _ _ _ Hok Hc)) as Hk.
    destruct Hok as [Hr Hst Hs]. cbn [sy_log sy_history sy_store] in *.
    destruct (serve settings engine store w h route) as [store' [sent response]]. destruct Hk as (Hsat & Hm & _).
    split; cbn [sy_log sy_history sy_store fst]; [done| |].
    + apply (store_sat_ok v (on_network store (w_get w))); [by apply on_network_ok|done|].
      destruct Hsat as [Hf Hcur]. split; [intros etag now s Hfetch; apply (Hf _ _ _ Hfetch)|]. intros s Hcs. by apply Hcur.
    + intros s Hcs. by apply (ss_current _ _ Hsat).
Qed.
Lemma system_reachable_ok settings engine base cps v y y' :
  system_ok v y -> rtc (system_step settings engine base cps) y y' -> system_ok v y'.
Proof. intros Hok Hr. induction Hr as [y|y y1 y2 Hstep _ IH]; [done|]. apply IH. by eapply system_step_ok. Qed.
Lemma system_start_ok v store : store_ok v store -> loaded store = false -> system_ok v (system_start store).
Proof.
  intros Hok Hl. split; cbn [system_start sy_log sy_history sy_store]; [constructor|done|].
  intros s Hs. unfold loaded in Hl. by rewrite Hs in Hl.
Qed.
End system.

(** ** Properties *)

(** C2. Every call is accountable.  Run a Control Plane and a runtime that reaches
    it over a network that may fail or deliver late, through any history of
    commits, interleaved transactions and HTTP requests.  Whatever the runtime
    then sends was built, from arguments that meet the tool's schema, for a tool
    that is the conversion of one operation of one uploaded document: an upload
    on record whose bytes have the digest the connector names, described in that
    document at the path and method that is called, included by a decision that
    the submitted reviews lead to, and published on record under the connector's
    key; the tool's access policy, effect and confirmation are the reviewers',
    the caller is one they allow, and a confirmation they require was given. *)
Theorem calls_are_accountable
    `{Platform, Ed25519, JsonSchema, Pydantic, Decoding, TokenJson, Fastapi, Parsers, !PythonValues} :
  forall settings world engine store0 base cps y w h route store' sent response,
    build_orchestrator settings world = Ok (engine, store0) ->
    rtc (system_step settings engine base cps) (system_start store0) y ->
    connected base cps (sy_history y) (w_get w) ->
    serve settings engine (sy_store y) w h route = (store', (sent, response)) ->
    forall request, request ∈ sent ->
      exists caller c t a document entry o converted given arguments,
        caller_identity settings h (w_time w) = Ok caller /\
        tool_origin (sy_log y) c t a document entry o converted /\
        validate_arguments t given = Ok arguments /\
        prepare_request t arguments (base_url (runtime c)) = Ok request /\
        rq_method request = upper (lower (an_method o)) /\ path_template (operation t) = an_path o /\
        may_use (policy t) caller /\
        (or_requires_confirmation entry = true -> confirms route = true).
Proof.
  intros settings world engine store0 base cps y w h route store' sent response Hb Hreach Hc Hs request Hin.
  apply build_orchestrator_Ok in Hb as (v & _ & _ & _ & _ & Hok & Hl).
  apply (system_reachable_ok _ _ _ _ v) in Hreach; [|by apply system_start_ok].
  pose proof (serve_keeps _ (accounted_stable v (sy_history y)) settings engine (sy_store y) w h route
    (system_ok_sat _ _ _ _ _ Hreach Hc)) as Hk. rewrite Hs in Hk. destruct Hk as (_ & _ & _ & Hsent).
  destruct (Hsent request Hin) as (caller & Hcaller & s & name & arguments & b & validated &
    [Hver (db & row & Hdb & Hrow & Hparse & _)] & Hcl & Hd).
  destruct Hver as (doc & d & Hload). destruct (lc_index _ _ _ _ Hload) as [Hi Hnd].
  pose proof Hcl as [Hr Hargs Hdec Hconf]. pose proof Hr as (c & t & Hcin & Htin & _ & Eb)%(resolve_bound s name b Hnd Hi).
  destruct (snapshot_tool_origin _ _ _ _ _ _ _ (so_run _ _ Hreach) Hdb Hrow Hparse Hcin Htin)
    as (a & document & entry & o & converted & Ho). pose proof Ho as [_ _ _ _ _ [_ Hdesc] Hpub]. subst b.
  destruct Hd as [_ Hreq _]. cbn [bind_tool bt_tool bt_base_url] in *.
  destruct Hdesc as (_ & _ & path_item & _ & _ & (ps & st & st' & body & Hconv)%convert_operation_Ok).
  destruct (pa_kept _ _ _ Hpub) as (_ & _ & _ & Hop). pose proof (cv_operation _ _ _ _ _ _ _ _ _ Hconv) as Hcop.
  exists caller, c, t, a, document, entry, o, converted, arguments, validated. split_and!; try done.
  - by rewrite (prepare_request_method _ _ _ _ Hreq), Hop, Hcop.
  - by rewrite Hop, Hcop.
  - by apply (decided_may_use (bind_tool c t)).
  - intros Hrc. apply Hconf. by rewrite (pa_confirmation _ _ _ Hpub).
Qed.

(** ** A concrete system for the witness *)

Definition sys_operation (id : string) : pyval :=
  VDict {{ "operationId" ~> VStr id; "summary" ~> VStr "A note";
           "requestBody" ~> VDict {{ "required" ~> VBool true; "content" ~> VDict {{
             "application/json" ~> VDict {{ "schema" ~> VDict {{
               "type" ~> VStr "object"; "properties" ~> VDict {{ "text" ~> VDict {{ "type" ~> VStr "string" }} }} }} }} }} }} }}.
Definition sys_document : dict :=
  {{ "openapi" ~> VStr "3.0.3"; "info" ~> VDict {{ "title" ~> VStr "Notes" }};
     "servers" ~> VList [VDict {{ "url" ~> VStr "https://api.example.org/v1" }}];
     "paths" ~> VDict {{ "/notes" ~> VDict {{ "post" ~> sys_operation "addNote" }};
                         "/tags" ~> VDict {{ "put" ~> sys_operation "addTag" }} }} }}.
#[export] Instance sys_parsers : Parsers := {|
  decode_utf8 := fun raw => Ok raw;
  json_loads_hooked := fun _ _ text => if String.eqb text "{notes}" then Ok (VDict sys_document) else value_error "not JSON";
  yaml_single_data := fun _ _ => raise (Raised YAMLError "not YAML");
|}.
#[export] Instance sys_python_values : PythonValues.
Proof.
  split; [|done]. intros text v. cbn [json_loads_hooked sys_parsers]. destruct (String.eqb _ _); [|done]. intros [= <-].
  cbn; repeat split; apply (bool_decide_unpack _); vm_compute; exact I.
Qed.

Definition sys_review : review_change :=
  MkChange [MkUpdate "put /tags" (Some "excluded") None None None None None None;
            MkUpdate "post /notes" None None None None (Some true) (Some "restricted") (Some ["support-agent"])]
    None None None.
Definition sys_requests : list request :=
  [Register (MkRegistration "notes" None None "{notes}" "notes.json" None None None 2097152);
   UpdateReview "notes" 1 sys_review; Publish "notes" 2 "admin" None; CreateDeployment "demo-workspace" "Demo" "";
   CreateSnapshot "demo-workspace" [MkSnapshotSelection "notes" "0.1.0"] "admin" (Some demo_signing_key)].
Abbreviation sys_analyzer := (@openapi_analyzer sys_parsers hex_platform).
Definition sys_commit (y : list request * list database) (q : request) : list request * list database :=
  match y with
  | (log, live :: older) =>
      (q :: log, @transaction hex_platform _ _ _ sys_analyzer q demo_now live live :: live :: older)
  | _ => y
  end.
Definition sys_state : list request * list database := foldl sys_commit ([], [empty_database]) sys_requests.
Definition sys_live : database := hd empty_database sys_state.2.

Example sys_counts : (length (t_versions sys_live), length (t_snapshots sys_live)) = (1, 1)%nat.
Proof. vm_compute. reflexivity. Qed.

Lemma sys_reaches settings engine store cps :
  rtc (@system_step hex_platform _ _ _ _ _ _ sys_parsers settings engine "http://localhost:8080" cps) (system_start store)
    (MkSystem sys_state.1 sys_state.2 store).
Proof.
  assert (forall qs log live older,
    rtc (@system_step hex_platform _ _ _ _ _ _ sys_parsers settings engine "http://localhost:8080" cps)
      (MkSystem log (live :: older) store)
      (MkSystem (foldl sys_commit (log, live :: older) qs).1 (foldl sys_commit (log, live :: older) qs).2 store)) as G.
  { induction qs as [|q qs IH]; intros log live older; [apply rtc_refl|]. cbn [foldl sys_commit].
    eapply rtc_l; [|apply IH]. constructor. left. }
  apply G.
Qed.
Definition sys_environment : environment :=
  fun name => alookup name
    [("TOOLLAYER_SNAPSHOT_TRUSTED_KEYS", "demo-key:" +:+ demo_key_text);
     ("TOOLLAYER_ALLOWED_ORIGINS", "https://api.example.org");
     ("TOOLLAYER_SNAPSHOT_SIGNING_KEY", demo_key_text); ("TOOLLAYER_SNAPSHOT_SIGNING_KEY_ID", "demo-key")].
Definition sys_world (cps : ControlPlaneSettings) : World :=
  MkWorld (@internal_get hex_platform _ _ _ sys_analyzer _ "http://localhost:8080" cps demo_now sys_live)
    (demo_transport 201) (fun _ _ => Ok ["93.184.216.34"]) 5 (sf_of_Z 1000) 12 "0123456789abcdef".
Definition sys_route (confirmed : bool) : Route :=
  Execute "add_note" (VDict {{ "arguments" ~> VDict {{ "body" ~> VDict {{ "text" ~> VStr "hi" }} }}; "confirmed" ~> VBool confirmed }}).
Definition sys_started : M (ControlPlaneSettings * RuntimeSettings * (Orchestrator * SnapshotStore)) :=
  let* cps := control_plane_get_settings sys_environment in
  let* settings := runtime_get_settings sys_environment in
  let* built := @build_orchestrator hex_platform settings (sys_world cps) in
  Ok (cps, settings, built).
Abbreviation sys_call confirmed roles :=
  (let* started := sys_started in
   let '(cps, settings, (engine, store)) := started in
   let '(_, (sent, response)) :=
     @serve hex_platform _ _ _ _ _ settings engine store (sys_world cps)
       (MkHeaders None (Some "alice") (Some roles) None) (sys_route confirmed) in
   Ok (map (fun r => rq_method r +:+ " " +:+ rq_url r) sent, ps_status response)).
(** The reviewed call is made; without the confirmation or the role the review
    asks for, it is not. *)
Example sys_calls :
  sys_call true "support-agent" = Ok (["POST https://api.example.org/v1/notes"], 200%Z) /\
  sys_call false "support-agent" = Ok ([], 409%Z) /\ sys_call true "guest" = Ok ([], 403%Z).
Proof. vm_compute. split_and!; reflexivity. Qed.

Lemma sys_connected cps :
  @connected hex_platform _ _ _ _ sys_parsers "http://localhost:8080" cps sys_state.2 (w_get (sys_world cps)).
Proof.
  intros url headers. right. exists demo_now, sys_live. split; [|reflexivity]. unfold sys_live.
  assert (length sys_state.2 = 6%nat) as Hl by (vm_compute; reflexivity).
  destruct sys_state.2 as [|live older]; [discriminate Hl|left].
Qed.
Abbreviation sys_serve cps settings engine store :=
  (@serve hex_platform _ _ _ _ _ settings engine store (sys_world cps)
    (MkHeaders None (Some "alice") (Some "support-agent") None) (sys_route true)).
Lemma sys_starts : exists cps settings engine store,
  sys_started = Ok (cps, settings, (engine, store)) /\
  @build_orchestrator hex_platform settings (sys_world cps) = Ok (engine, store).
Proof.
  assert (is_ok sys_started = true) as Hok by (vm_compute; reflexivity). unfold sys_started in *.
  destruct (control_plane_get_settings sys_environment) as [cps|e]; [|discriminate Hok]. cbn [bind] in *.
  destruct (runtime_get_settings sys_environment) as [settings|e]; [|discriminate Hok]. cbn [bind] in *.
  destruct (build_orchestrator settings (sys_world cps)) as [[engine store]|e] eqn:E; [|discriminate Hok].
  by exists cps, settings, engine, store.
Qed.
Lemma sys_answer cps settings engine store store' sent response :
  sys_started = Ok (cps, settings, (engine, store)) ->
  sys_serve cps settings engine store = (store', (sent, response)) -> exists request, sent = [request].
Proof.
  intros Hst Es. pose proof (proj1 sys_calls) as Hcall. rewrite Hst in Hcall.
  cbn [bind] in Hcall. rewrite Es in Hcall.
  destruct sent as [|request [|]]; [discriminate Hcall|by exists request|discriminate Hcall].
Qed.
Lemma calls_are_accountable_witness :
  exists cps settings engine store request a document entry o converted c t,
    sys_started = Ok (cps, settings, (engine, store)) /\ (sys_serve cps settings engine store).2.1 = [request] /\
    @tool_origin hex_platform _ sys_parsers sys_state.1 c t a document entry o converted /\
    rq_method request = upper (lower (an_method o)).
Proof.
  destruct sys_starts as (cps & settings & engine & store & Hst & Hb).
  destruct (sys_serve cps settings engine store) as [store' [sent response]] eqn:Es.
  destruct (sys_answer _ _ _ _ _ _ _ Hst Es) as [request ->].
  pose proof (sys_connected cps) as Hc. pose proof (sys_reaches settings engine store cps) as Hreach.
  destruct sys_state as [log history]. cbn [fst snd] in Hc, Hreach |- *.
  destruct (@calls_are_accountable hex_platform _ _ _ _ _ _ sys_parsers _ settings (sys_world cps) engine store
    "http://localhost:8080" cps (MkSystem log history store) (sys_world cps)
    (MkHeaders None (Some "alice") (Some "support-agent") None) (sys_route true) store' [request] response
    Hb Hreach Hc Es request (list_elem_of_here _ _))
    as (caller & c & t & a & document & entry & o & converted & given & arguments & _ & Ho & _ & _ & Hm & _).
  exists cps, settings, engine, store, request, a, document, entry, o, converted, c, t. rewrite Es.
  split; [exact Hst|]. split; [reflexivity|]. split; [exact Ho|exact Hm].
Defined.
