(* ===== verification/CatchUp.v ===== *)
(** * The runtime catches up

    The progress the two services make together: once the network delivers, a
    refresh leaves the runtime with the snapshot that is active, whatever it
    held before. *)

From S2P Require Export System.
#[local] Existing Instance openapi_analyzer | 0.

Section catching_up.
Context `{ShaText, Ed25519, JsonSchema, Pydantic, Decoding, TokenJson, Fastapi, Parsers}.

(** ** What a store never changes *)

Record same_client (st st' : SnapshotStore) : Prop := {
  sc_base : cl_base_url (st_client st') = cl_base_url (st_client st);
  sc_token : cl_service_token (st_client st') = cl_service_token (st_client st);
  sc_verification : cl_verification (st_client st') = cl_verification (st_client st);
  sc_key : st_deployment_key st' = st_deployment_key st;
}.
Lemma serve_client settings engine store w h route : same_client store (serve settings engine store w h route).1.
Proof.
  assert (store_sat (fun _ => True) (on_network store (w_get w))) as Hsat by (by split).
  pose proof (serve_keeps _ (fun _ _ _ => I) settings engine store w h route Hsat) as Hk.
  destruct (serve settings engine store w h route) as [store' [sent response]]. destruct Hk as (_ & (Hc & Hkey & _) & _).
  split; cbn [fst]; by rewrite ?Hc, ?Hkey.
Qed.
Lemma system_client settings engine base cps y y' :
  rtc (system_step settings engine base cps) y y' -> same_client (sy_store y) (sy_store y').
Proof.
  induction 1 as [y|y y1 y2 Hstep _ [E1 E2 E3 E4]]; [done|].
  assert (same_client (sy_store y) (sy_store y1)) as [F1 F2 F3 F4].
  { destruct Hstep; cbn [sy_store]; [done|apply serve_client]. }
  split; congruence.
Qed.

(** ** Entity tags *)

Lemma sound_digest row : snapshot_sound row -> exists data, sr_snapshot_digest row = digest_of data.
Proof.
  intros [_ (e & [= <-] & Hd)%verify_digest_true _]. apply content_digest_Ok in Hd as (? & data & _ & _ & ->). by exists data.
Qed.
Lemma sapp_snoc_inj s t c : s +:+ String c "" = t +:+ String c "" -> s = t.
Proof.
  revert t. induction s as [|a s IH]; intros [|b t] E; rewrite ?sapp_nil_l, ?sapp_cons in E; [done| | |].
  - injection E as _ E. by destruct t.
  - injection E as _ E. by destruct s.
  - injection E as -> E. f_equal. by apply IH.
Qed.
(** A tag matches another one only when the digests are the same. *)
Lemma etag_matches_digest row row' :
  snapshot_sound row' -> matches_etag (etag_of row') (etag_of row) = true -> sr_snapshot_digest row' = sr_snapshot_digest row.
Proof.
  intros (data & Hd)%sound_digest. rewrite (matches_own_etag row' data _ Hd). intros E%String.eqb_eq.
  unfold etag_of in E. injection E as E. by apply sapp_snoc_inj in E.
Qed.

(** ** One refresh *)

(** The snapshot a deployment should serve, as a runtime with these keys sees it. *)
Record servable (v : SnapshotVerification) (live : database) (key : string) (row : snapshot_row) : Prop := {
  sb_active : get_active_snapshot live key = Ok row;
  sb_sound : snapshot_sound row;
  sb_signed : exists kid, verify_document (sr_document row) (trusted_keys v) = Ok kid;
  sb_loads : exists snapshot, parse_snapshot (VDict (sr_document row)) = Ok snapshot /\ NoDup (bound_tools snapshot).*1;
}.
(** The store holds it. *)
Definition holds (st : SnapshotStore) (row : snapshot_row) : Prop :=
  exists s, st_current st = Some s /\ snapshot_digest (ls_snapshot s) = sr_snapshot_digest row.
(** The client of a store reaches that control plane. *)
Record reaches (st : SnapshotStore) (base : string) (cps : ControlPlaneSettings) (at_ : datetime) (live : database)
    (v : SnapshotVerification) (key : string) : Prop := {
  re_client : st_client st = service_client base cps v at_ live;
  re_key : st_deployment_key st = key;
  re_key_plain : has_char "/" key = false;
  re_ascii : is_ascii (cs_service_token cps) = true;
}.

Lemma refresh_catches_up st base cps at_ live v key row now :
  reaches st base cps at_ live v key -> servable v live key row ->
  (forall s, st_current st = Some s -> exists row', snapshot_sound row' /\
     parse_snapshot (VDict (sr_document row')) = Ok (ls_snapshot s) /\ ls_etag s = Some (etag_of row')) ->
  exists s, refresh st now = (with_current st s, Ok s) /\ snapshot_digest (ls_snapshot s) = sr_snapshot_digest row.
Proof.
  intros [Hcl Hk Hplain Hascii] [Hact Hsound (kid & Hver) (snapshot & Hm & Hn)] Hcur. unfold refresh. rewrite Hcl, Hk.
  assert (forall etag, exists s, load_snapshot_document (VDict (sr_document row)) etag (Some v) now = Ok s /\
    snapshot_digest (ls_snapshot s) = sr_snapshot_digest row) as Hload.
  { intros etag. eexists. split; [apply (sound_document_loads _ _ _ _ _ _ Hsound Hver); eauto|].
    cbn [ls_snapshot]. apply (parse_snapshot_digest _ _ _ Hm), (sn_fields _ Hsound). }
  destruct (st_current st) as [s0|] eqn:Hs0.
  - destruct (Hcur s0 eq_refl) as (row' & Hsound' & Hm' & He). rewrite He.
    rewrite (fetch_active _ _ _ _ _ _ _ (Some (etag_of row')) _ Hascii Hplain Hact) by done.
    destruct (matches_etag _ _) eqn:E.
    + apply etag_matches_digest in E; [|done]. eexists. split; [done|]. cbn [ls_snapshot]. rewrite <- E.
      apply (parse_snapshot_digest _ _ _ Hm'), (sn_fields _ Hsound').
    + destruct (Hload (Some (etag_of row))) as (s & -> & Hd). cbn [bind]. by exists s.
  - rewrite (fetch_active _ _ _ _ _ _ _ None _ Hascii Hplain Hact) by done.
    destruct (Hload (Some (etag_of row))) as (s & -> & Hd). cbn [bind]. by exists s.
Qed.
End catching_up.

(** ** Property *)

(** C4. The runtime catches up.  Take a Control Plane and a runtime in any state
    they can reach, the runtime with nothing, an old snapshot or the current one,
    and let the network deliver what the Control Plane answers now.  If a
    snapshot of the runtime's deployment is active, is signed by a key the
    runtime trusts and its models load, then an explicit refresh succeeds, and
    after it, or after a request for the tools once the refresh interval has
    passed, the runtime holds exactly that snapshot: the one with the active
    digest. *)
Theorem runtime_catches_up `{ShaText, Ed25519, JsonSchema, Pydantic, Decoding, TokenJson, Fastapi, Parsers} :
  forall settings world engine store0 base cps y live older w h at_ v row,
    build_orchestrator settings world = Ok (engine, store0) -> snapshot_verification_policy settings = Ok v ->
    rtc (system_step settings engine base cps) (system_start store0) y -> sy_history y = live :: older ->
    rstrip_char "/" (rs_control_plane_url settings) = base -> rs_service_token settings = cs_service_token cps ->
    is_ascii (cs_service_token cps) = true -> has_char "/" (rs_deployment_key settings) = false ->
    w_get w = internal_get base cps at_ live -> servable v live (rs_deployment_key settings) row ->
    (let '(store', (sent, response)) := serve settings engine (sy_store y) w h RefreshSnapshot in
     sent = [] /\ ps_status response = 200%Z /\ holds store' row) /\
    (forall caller, caller_identity settings h (w_time w) = Ok caller ->
     (forall s, st_current (sy_store y) = Some s ->
       (st_refresh_seconds (sy_store y) * 1000000000 <= w_now w - ls_loaded_at s)%Z) ->
     let '(store', (sent, _)) := serve settings engine (sy_store y) w h ListTools in sent = [] /\ holds store' row).
Proof.
  intros settings world engine store0 base cps y live older w h at_ v row Hb Hv Hreach Hlive Hbase Htoken Hascii Hkey Hnet Hrow.
  pose proof Hb as (v' & policy & Hv' & _ & _ & Hok & Hl)%build_orchestrator_Ok. assert (v' = v) as -> by congruence.
  pose proof (system_client _ _ _ _ _ _ Hreach) as [E1 E2 E3 E4].
  pose proof (system_reachable_ok _ _ _ _ v _ _ (system_start_ok _ _ Hok Hl) Hreach) as [Hrun _ Hserved].
  set (st := on_network (sy_store y) (w_get w)) in *.
  assert (reaches st base cps at_ live v (rs_deployment_key settings)) as Hr.
  { unfold build_orchestrator in Hb. apply bind_Ok in Hb as (v0 & Hv0 & Hb). apply bind_Ok in Hb as (d & _ & Hb).
    apply bind_Ok in Hb as (l & _ & [= _ <-]). assert (v0 = v) as -> by congruence. cbn in E1, E2, E3, E4.
    split; [|exact E4|exact Hkey|exact Hascii]. unfold st, on_network, service_client. cbn [st_client]. congruence. }
  assert (forall s, st_current st = Some s -> exists row', snapshot_sound row' /\
     parse_snapshot (VDict (sr_document row')) = Ok (ls_snapshot s) /\ ls_etag s = Some (etag_of row')) as Hcur.
  { intros s Hs. destruct (Hserved s Hs) as (db & row' & Hdb & Hin & Hp & He). exists row'. split_and!; [|done..].
    assert (reachable (sy_history y)) as (l & o & El & Hall & _)%reachable_ok by (apply reachable_run; by eexists).
    rewrite Forall_forall in Hall. destruct (Hall db Hdb) as [_ [_ Hsnd]]. rewrite Forall_forall in Hsnd. by apply Hsnd. }
  destruct (refresh_catches_up st base cps at_ live v _ row (w_now w) Hr Hrow Hcur) as (s & Href & Hd).
  split.
  - unfold serve. fold st. rewrite Href. split_and!; [done..|]. by exists s.
  - intros caller Hcaller Hdue. unfold serve. fold st. rewrite Hcaller. unfold discover.
    replace (ensure_fresh st (w_now w)) with (refresh st (w_now w)).
    + rewrite Href. split; [done|]. by exists s.
    + unfold ensure_fresh. destruct (st_current st) as [s0|] eqn:Hs0; [|done].
      specialize (Hdue s0 Hs0). change (st_refresh_seconds st) with (st_refresh_seconds (sy_store y)).
      destruct (Z.ltb_spec (w_now w - ls_loaded_at s0) (st_refresh_seconds (sy_store y) * 1000000000)); [lia|done].
Qed.

(** ** The system of the example catches up *)

Abbreviation sys_servable :=
  (let* started := sys_started in
   let '(cps, settings, _) := started in
   let* v := snapshot_verification_policy settings in
   let* row := get_active_snapshot sys_live (rs_deployment_key settings) in
   let* kid := verify_document (H:=hex_platform) (sr_document row) (trusted_keys v) in
   let* snapshot := parse_snapshot (VDict (sr_document row)) in
   Ok (bool_decide (NoDup (bound_tools snapshot).*1) && is_ascii (cs_service_token cps) &&
       negb (has_char "/" (rs_deployment_key settings)) && String.eqb (rs_service_token settings) (cs_service_token cps) &&
       String.eqb (rstrip_char "/" (rs_control_plane_url settings)) "http://localhost:8080")).
Lemma sys_servable_ok : sys_servable = Ok true.
Proof. vm_compute. reflexivity. Qed.
Lemma sys_history : exists older, sys_state.2 = sys_live :: older.
Proof.
  unfold sys_live. assert (length sys_state.2 = 6%nat) as Hl by (vm_compute; reflexivity).
  destruct sys_state.2 as [|live older]; [discriminate Hl|by exists older].
Qed.
Lemma sys_committed : @committed hex_platform _ _ _ sys_analyzer sys_state.1 sys_state.2.
Proof.
  assert (forall qs log live older, @committed hex_platform _ _ _ sys_analyzer log (live :: older) ->
    @committed hex_platform _ _ _ sys_analyzer (foldl sys_commit (log, live :: older) qs).1
      (foldl sys_commit (log, live :: older) qs).2) as G.
  { induction qs as [|q qs IH]; intros log live older Hr; [exact Hr|]. cbn [foldl sys_commit]. apply IH.
    constructor; [exact Hr|left]. }
  apply G. constructor.
Qed.
Lemma sys_sound key row : get_active_snapshot sys_live key = Ok row -> @snapshot_sound hex_platform _ row.
Proof.
  intros Hrow%active_snapshot_row. destruct sys_history as [older Eh]. pose proof sys_committed as Hc. rewrite Eh in Hc.
  assert (@reachable hex_platform _ _ _ sys_analyzer (sys_live :: older)) as Hr by (apply reachable_run; eexists; exact Hc).
  destruct (reachable_ok _ Hr) as (l & o & _ & Hall & _). apply Forall_cons in Hall as [[_ [_ Hsnd]] _].
  rewrite Forall_forall in Hsnd. exact (Hsnd row Hrow).
Qed.
Lemma sys_row cps settings engine store :
  sys_started = Ok (cps, settings, (engine, store)) ->
  exists v row, snapshot_verification_policy settings = Ok v /\
    @servable hex_platform _ _ _ v sys_live (rs_deployment_key settings) row /\
    is_ascii (cs_service_token cps) = true /\ has_char "/" (rs_deployment_key settings) = false /\
    rs_service_token settings = cs_service_token cps /\ rstrip_char "/" (rs_control_plane_url settings) = "http://localhost:8080".
Proof.
  intros Hst. pose proof sys_servable_ok as Hok. rewrite Hst in Hok. cbn [bind] in Hok.
  apply bind_Ok in Hok as (v & Hv & Hok). apply bind_Ok in Hok as (row & Hrow & Hok).
  apply bind_Ok in Hok as (kid & Hkid & Hok). apply bind_Ok in Hok as (snapshot & Hs & Hok). injection Hok as Hok.
  rewrite !andb_true_iff, negb_true_iff, bool_decide_eq_true in Hok. destruct Hok as ((((Hn & Ha) & Hk) & Ht) & Hb).
  exists v, row. split; [exact Hv|]. split; [|split; [exact Ha|split; [exact Hk|split; [exact (proj1 (String.eqb_eq _ _) Ht)|exact (proj1 (String.eqb_eq _ _) Hb)]]]].
  constructor; [exact Hrow|exact (sys_sound _ _ Hrow)|exists kid; exact Hkid|exists snapshot; split; [exact Hs|exact Hn]].
Qed.
Lemma runtime_catches_up_witness :
  exists cps settings engine store row, sys_started = Ok (cps, settings, (engine, store)) /\
    get_active_snapshot sys_live (rs_deployment_key settings) = Ok row /\
    let '(store', (_, response)) :=
      @serve hex_platform _ _ _ _ _ settings engine store (sys_world cps) (MkHeaders None None None None) RefreshSnapshot in
    ps_status response = 200%Z /\ holds store' row.
Proof.
  destruct sys_starts as (cps & settings & engine & store & Hst & Hb).
  destruct (sys_row _ _ _ _ Hst) as (v & row & Hv & Hrow & Ha & Hk & Ht & Hbase).
  destruct sys_history as [older Eh]. pose proof (sys_reaches settings engine store cps) as Hreach.
  exists cps, settings, engine, store, row. split; [exact Hst|]. split; [exact (sb_active _ _ _ _ Hrow)|].
  pose proof (proj1 (@runtime_catches_up hex_platform _ _ _ _ _ _ _ sys_parsers settings (sys_world cps) engine store
    "http://localhost:8080" cps (MkSystem sys_state.1 sys_state.2 store) sys_live older (sys_world cps)
    (MkHeaders None None None None) demo_now v row Hb Hv Hreach Eh Hbase Ht Ha Hk eq_refl Hrow)) as Hc.
  destruct (serve _ _ _ _ _ _) as [store' [sent response]]. exact (proj2 Hc).
Defined.
